(* ===== verification/_CoqProject ===== *)
-Q . S2P
Prelude.v
Machine.v
LibC.v
CString.v
FatNames.v
FatTypes.v
AtaPio.v
AtaSim.v
FatTable.v
Fat16.v
FatDir.v
FatFile.v
FatStore.v
Terminal.v
Stdio.v
Kernel.v
Quiet.v
Rtc.v
Net.v
Paging.v
Video.v
Shell.v
Commands.v
Boot.v
Session.v
Typed.v
TtyFat.v
TtyFiles.v
Arm.v
Endian.v
SysBits.v
Layout.v
Switch.v
