(* ===== verification/Prelude.v ===== *)
(** * PotatoOS: a verification of the kernel

    PotatoOS is a small i386 kernel in C. [kernel_main] (src/kernel/arch/i386/tty.c)
    asks for settings, turns on paging, fills a frame buffer, programs the VGA
    registers, reads the clock, tries to mount a FAT volume and, as long as there
    is neither a network nor a file system, enters a recovery shell that reads the
    keyboard, edits a line and runs commands. Beside it are a FAT driver over ATA
    programmed I/O (FAT.c), a serial console (lib_c.c), a small C library
    (src/libc), and in assembly the entry from the boot loader and a task switch.

    This development translates that code into executable functions over an
    explicit state and proves what the parts promise each other. Definitions keep
    the names of the C functions; a loop is a [Fixpoint] beside the function it
    belongs to, named after what it does.

    ** How the code is modelled

    - Integers are [Z] with the wrap-around written out ([u8], [u16], [u32], [s8],
      [s16], [s32]); the target is ILP32 with signed [char].
    - Code is in the monad [M S A] of this file: [Done] with a result and a state,
      or [Stop] with a reason ([OutOfFuel], [DivideError], [OutOfBounds], [Halted]).
      An error code of the C code is a value.
    - Memory is a finite map of bytes ([Machine]); pointers are addresses. Tables,
      video memory, disk windows, the array [mounted_drives] and the memory
      routines live there. Buffers that are only used as strings are lists of
      bytes; a read past their end is [None].
    - Hardware is a parameter: the class [PortIO] gives the four port instructions
      an arbitrary effect. Classes with laws state the documented behaviour the
      code relies on: [UART] (line status register), [AtaDisk] (READ and WRITE
      SECTORS), [Crtc], [Keyboard], [Cmos], [Nic], [PortDisk] and [PromptDisk],
      [Mmio] and [Pl011]. Each has a concrete device as an instance, on which the
      witnesses of the theorems run. A theorem that asks only for [PortIO] holds
      whatever the hardware does.
    - Addresses the linker or the stack decides (page tables, local arrays of the
      second FAT driver) and the undefined result of a shift by 80 in [beep] are
      arguments.

    ** Files

    - [Prelude]: integers, the monad, byte lists, tactics, shared lemmas.
    - [Machine]: memory, its equivalence with [Proper] instances, the ports.
    - [LibC]: src/kernel/arch/i386/lib_c.c, the serial console and number output.
    - [CString]: src/libc/string and the string functions of tty.c.
    - [FatNames]: 8.3 names of FAT.c ([convertToFATFormat] and its inverse,
      [testIfFATFormat], [ChkSum]).
    - [FatTypes]: FAT.h, packed structures and the driver's state [world].
    - [AtaPio], [AtaSim]: [int13h_read_o] and [int13h_write_o]; the interface
      [BlockDevice] the file system is proved against and its implementation by
      the driver on any [AtaDisk]; a simulated drive.
    - [FatTable]: [FATInitialize], [FATRead], [FATWrite], [allocateFreeFAT] and the
      abstract table they refine; [Fat16]: the same for their FAT16 branches.
    - [FatDir]: [clusterRead], [clusterWrite], [directoryList], [directorySearch],
      [directoryAdd].
    - [FatFile]: [getFile], [putFile]. [FatStore]: the two together, from the path
      to the sectors, and the calls they refuse.
    - [Terminal]: the text console of tty.c over vga.h, with its invariant [con_ok].
    - [Stdio]: src/libc/stdio and src/libc/stdlib/abort.c.
    - [Kernel]: events, [task], [beep], [panic], [reboot], [shutdown], the keyboard;
      the state [kst] of the kernel and the relations between states ([k_ok],
      [k_mem], [k_io]) its clients use.
    - [Quiet]: code that touches no port but those of the CRT controller, and code
      that takes no key.
    - [Rtc]: [read_rtc]. [Net]: byte order, [checksum], [send_ping], [receive_ping].
      [Paging]: [setup_paging]. [Video]: pixels, boxes, text, [setup_framebuffer].
    - [Shell]: [handle_keyboard_input] with all its commands, [setup],
      [kernel_main], [shell]; the line editor. [Commands]: the Enter key, against
      the verdicts of [obey]. [Boot]: [kernel_main] up to the prompt. [Session]:
      many lines one after the other, against the abstract machine [session].
    - [Typed]: the C types of the kernel's variables as an invariant of all of it.
    - [TtyFat], [TtyFiles]: the second FAT32 driver, [mount_drive] to [read_file] of
      tty.c, which the kernel does not call. [Arm]: the PL011 stubs of tty.c.
    - [Endian], [SysBits]: the inline functions and computing macros of the system
      headers under src/libc/include: byte order and device numbers; bit counts,
      bit maps, rounding, signal sets, process status. [Layout]: the structures of
      FAT.h, tty.c and lib_c.c, laid out by the rules of the i386 ABI.
    - [Switch]: switch.S, boot.S, crti.S and crtn.S, instruction by instruction, on
      a model of the processor.

    ** What is proved

    - Composition: the boot reaches the shell's loop with the invariants of the
      console and the line editor, identity paging and the time read; the line
      editor refines editing of lists and never leaves its buffer; a session of any
      number of lines, from the prompt or from power-on, ends as the abstract
      machine says, back at an empty line, out of the loop or stopped.
    - Types: on any hardware and for any input, the faulty commands included, every
      variable stays within its C type and every array keeps its length.
    - Disk: what is written is read back; bad requests are refused; a read always
      returns, whatever the drive does.
    - File system: on FAT32 and FAT16 volumes with one sector per cluster the
      table operations refine an abstract table and the allocation returns its
      first free cluster; on FAT32 clusters round-trip, a search finds the entry,
      [getFile] reads a file through its chain into the window, [directoryList]
      prints the visible entries,
      [putFile] of a short file stores it and [getFile] reads it back from the
      path; both refuse bad names, missing paths, names in use and files that do not
      fit, with their codes and the disk untouched; the second driver mounts a
      volume, and what its [write_file] writes its [read_file] shows.
    - Names: both conversions on all valid names, their round trip, the checksum.
    - Console and output: the console never writes off the screen, a character goes
      to its cell, [printf] renders its directives, the cursor round-trips.
    - C library: [memmove] on overlapping areas, the order of [strcmp], agreement of
      the two [strncmp], tokens, hexadecimal output and input; the parallel bit
      counts equal the number of ones, the byte order functions and the device
      numbers lose nothing, bit maps are sets, the page macros round. The offsets
      the models use are those of the declarations.
    - Assembly: [switchTask] stores the caller's registers and continues with those
      of the other task, and switching back resumes the first with all of them;
      [_start] enters [kernel_main] on an aligned stack and never leaves its last
      loop; the multiboot header is valid; [_init] and [_fini] return.
    - Machine services: the clock, the identity mapping, the checksum, a ping and
      its bytes, boxes, the ends of the machine, the ARM console.

    Theorems that show a defect are stated beside these: a wrong stride in the
    table with several sectors per cluster and the cluster it hands out twice
    ([FatTable]), cluster bits lost in entries and the directory overwritten by an
    allocation ([FatDir]), a byte lost per cluster and a length that wraps around
    ([FatFile]), a bounds check that overflows and a write loop without a time-out
    ([AtaSim]), long names ([FatNames]), noon and midnight ([Rtc]), an index that
    underflows, a command used as a format and a lost user name ([Commands]), stale
    bytes taken for a reply ([Net]), glyphs that smear ([Video]), lost commands and
    a clobbered table ([TtyFat], [TtyFiles]), FIFOs that stay off ([Arm]).

    ** Fuel and bounds

    Loops that count are structural. Loops that poll a device take fuel, and the
    theorems say how much is enough: [ata_fuel] and [blk_fuel] (the longest time a
    drive is busy and the longest time the serial line is), [uart_max], [pd_max],
    [pl_max]; one round for the keyboard and the clock, whose devices answer at
    once. [printf] gets the length of its format and one more, the folding of a
    checksum two rounds, both proved sufficient. [shell_loop] consumes one unit for
    each key. The 28-bit addresses of ATA and the size of the partition bound
    sector numbers; the second driver sends 24 bits only, and its theorems ask for
    such sectors.

    ** Not modelled

    - [int32] of tty.c is empty, and [initTasking] is declared and not defined; no
      code calls [switchTask]. In [Switch] interrupts do not arrive between two
      instructions, and the code crtbegin.o and crtend.o put into [_init] is a
      parameter.
    - src/kernel/kernel/kernel.c: empty. The headers of src/libc/include and
      src/libc/stdio besides those used above (_libsys.h, pthread.h, sys/signal.h,
      libc_private.h and others): prototypes, constants and structures of FreeBSD
      that the kernel does not use. Of the headers in [SysBits] the macros that
      expand to what the repository does not define are left out ([roundup2],
      [btodb], the sizes of page table entries).
    - Delay loops have no effect on the state and are left out; the effect of
      paging on addresses of later accesses is the identity, by [Paging]. *)
From stdpp Require Export base gmap list list_numbers strings.
From Stdlib Require Export ZArith Lia Bool.

Ltac Zify.zify_post_hook ::= Z.to_euclidean_division_equations.

#[global] Open Scope Z_scope.

(** * Machine integers of the ILP32 target *)

(** The unsigned widths: [unsigned char], [unsigned short], [unsigned int]
    (and [unsigned long], [size_t], pointers, which are 32 bits wide). *)
Definition u8 (x : Z) : Z := x mod 256.
Definition u16 (x : Z) : Z := x mod 65536.
Definition u32 (x : Z) : Z := x mod 4294967296.

(** The signed widths; plain [char] is signed on this target. *)
Definition s8 (x : Z) : Z := if u8 x <? 128 then u8 x else u8 x - 256.
Definition s16 (x : Z) : Z := if u16 x <? 32768 then u16 x else u16 x - 65536.
Definition s32 (x : Z) : Z :=
  if u32 x <? 2147483648 then u32 x else u32 x - 4294967296.

Definition byte_ok (b : Z) : Prop := 0 ≤ b < 256.
Definition bytes_ok (bs : list Z) : Prop := Forall byte_ok bs.

#[global] Instance byte_ok_dec b : Decision (byte_ok b).
Proof. unfold byte_ok. apply _. Defined.
#[global] Instance bytes_ok_dec bs : Decision (bytes_ok bs).
Proof. unfold bytes_ok. apply _. Defined.

(** The notations of the C model live in a scope of their own. Shifts are
    stdpp's [≪] and [≫]; masks are [Z.land], [Z.lor] and [Z.lxor]. *)
Declare Scope c_scope.
Delimit Scope c_scope with C.
#[global] Open Scope c_scope.

(** * Outcomes and the state monad of the kernel code *)

(** Why a computation does not return to its caller: a loop used up its fuel,
    the processor raised a divide error, the code left the bounds of one of
    its own objects, or the machine was reset or parked in a [hlt] loop. *)
Inductive stop := OutOfFuel | DivideError | OutOfBounds | Halted.

#[global] Instance stop_eq_dec : EqDecision stop.
Proof. solve_decision. Defined.

Inductive outcome (S A : Type) : Type :=
| Done (a : A) (s : S)
| Stop (e : stop) (s : S).
Arguments Done {S A} a s.
Arguments Stop {S A} e s.

Definition M (S A : Type) : Type := S → outcome S A.

Definition ret {S A} (a : A) : M S A := λ s, Done a s.
Definition bind {S A B} (m : M S A) (k : A → M S B) : M S B :=
  λ s, match m s with Done a s' => k a s' | Stop e s' => Stop e s' end.
Definition raise {S A} (e : stop) : M S A := λ s, Stop e s.
Definition gets {S A} (f : S → A) : M S A := λ s, Done (f s) s.
Definition modify {S} (f : S → S) : M S unit := λ s, Done tt (f s).

(** [zoom] runs code that only sees one part [T] of a larger state [S]. *)
Definition zoom {S T A} (get : S → T) (put : T → S → S) (m : M T A) : M S A :=
  λ s, match m (get s) with
       | Done a t => Done a (put t s)
       | Stop e t => Stop e (put t s)
       end.

Notation "'let!' x := m 'in' k" := (bind m (λ x, k))
  (at level 10, x name, m at level 100, k at level 200) : c_scope.
Notation "m ;; k" := (bind m (λ _, k))
  (at level 100, k at level 200, right associativity) : c_scope.
Notation "'when!' b 'do' m" := (if b then m else ret tt)
  (at level 10, b at level 100, m at level 100) : c_scope.

(** [for (i = i0; n more rounds; i++) body(i)]. *)
Fixpoint for_n {S} (n : nat) (i : Z) (body : Z → M S unit) : M S unit :=
  match n with
  | O => ret tt
  | Datatypes.S n' => body i ;; for_n n' (i + 1) body
  end.

(** The run of [bind], in the form proofs rewrite with. *)
Section Monad.
Context {S A B : Type}.
Implicit Types (m : M S A) (k : A → M S B).

Lemma bind_done m k s a s' : m s = Done a s' → bind m k s = k a s'.
Proof. intros H. unfold bind. by rewrite H. Qed.

Lemma bind_stop m k s e s' : m s = Stop e s' → bind m k s = Stop e s'.
Proof. intros H. unfold bind. by rewrite H. Qed.

Lemma bind_inv m k s b s'' :
  bind m k s = Done b s'' → ∃ a s', m s = Done a s' ∧ k a s' = Done b s''.
Proof. unfold bind. destruct (m s) eqn:E; naive_solver. Qed.
End Monad.

Lemma for_n_S {S} n i (body : Z → M S unit) :
  for_n (Datatypes.S n) i body = (body i ;; for_n n (i + 1) body).
Proof. reflexivity. Qed.

Lemma for_n_app {S} n1 n2 i (body : Z → M S unit) s :
  for_n (n1 + n2) i body s =
  bind (for_n n1 i body) (λ _, for_n n2 (i + Z.of_nat n1) body) s.
Proof.
  revert i s; induction n1 as [|n1 IH]; intros i s; simpl.
  { unfold bind, ret. by rewrite Z.add_0_r. }
  unfold bind in *. destruct (body i s) as [[] s'|]; [|done].
  rewrite IH. destruct (for_n n1 (i + 1) body s'); [|done].
  by replace (i + 1 + Z.of_nat n1) with (i + Z.of_nat (Datatypes.S n1)) by lia.
Qed.

(** * Bytes, words and strings *)

(** Text of a C string literal as bytes, without the terminating NUL. *)
Fixpoint str (s : string) : list Z :=
  match s with
  | EmptyString => []
  | String c s' => Z.of_N (Ascii.N_of_ascii c) :: str s'
  end.

(** The C string a buffer holds: the bytes before its first NUL. *)
Fixpoint cstr (bs : list Z) : list Z :=
  match bs with
  | [] => []
  | b :: bs' => if b =? 0 then [] else b :: cstr bs'
  end.

(** Element [i] of an array, 0 outside it (uses are guarded by bounds). *)
Definition at_ (l : list Z) (i : Z) : Z := default 0 (l !! Z.to_nat i).

Definition upd (l : list Z) (i : Z) (v : Z) : list Z := <[Z.to_nat i := v]> l.

(** Little-endian words in a byte list. *)
Definition le16 (b0 b1 : Z) : Z := b0 + 256 * b1.
Definition le32 (b0 b1 b2 b3 : Z) : Z := b0 + 256 * b1 + 65536 * b2 + 16777216 * b3.

Definition bytes16 (v : Z) : list Z := [v mod 256; (v / 256) mod 256].
Definition bytes32 (v : Z) : list Z :=
  [v mod 256; (v / 256) mod 256; (v / 65536) mod 256; (v / 16777216) mod 256].

(** * Tactics *)

(** Case analysis on the scrutinees of boolean tests. *)
Ltac case_if :=
  match goal with
  | |- context [if ?b then _ else _] =>
      lazymatch b with
      | context [if _ then _ else _] => fail
      | _ => let E := fresh "E" in destruct b eqn:E
      end
  end.

Ltac unfold_ints := unfold u8, u16, u32, s8, s16, s32, byte_ok in *.

(** [zbool] turns boolean comparisons in the context into propositions. *)
Ltac zbool :=
  repeat match goal with
  | H : (_ && _) = true |- _ => apply andb_true_iff in H as [? ?]
  | H : (_ || _) = false |- _ => apply orb_false_iff in H as [? ?]
  | H : (_ =? _) = true |- _ => apply Z.eqb_eq in H
  | H : (_ =? _) = false |- _ => apply Z.eqb_neq in H
  | H : (_ <? _) = true |- _ => apply Z.ltb_lt in H
  | H : (_ <? _) = false |- _ => apply Z.ltb_ge in H
  | H : (_ <=? _) = true |- _ => apply Z.leb_le in H
  | H : (_ <=? _) = false |- _ => apply Z.leb_gt in H
  end.

Create HintDb bytes.

(** * Shared lemmas *)

Lemma u8_range x : 0 ≤ u8 x < 256.
Proof. unfold u8. lia. Qed.
Lemma u16_range x : 0 ≤ u16 x < 65536.
Proof. unfold u16. lia. Qed.
Lemma u32_range x : 0 ≤ u32 x < 4294967296.
Proof. unfold u32. lia. Qed.
Lemma u8_id x : 0 ≤ x < 256 → u8 x = x.
Proof. unfold u8. lia. Qed.
Lemma u16_id x : 0 ≤ x < 65536 → u16 x = x.
Proof. unfold u16. lia. Qed.
Lemma u32_id x : 0 ≤ x < 4294967296 → u32 x = x.
Proof. unfold u32. lia. Qed.
Lemma s32_id x : -2147483648 ≤ x < 2147483648 → s32 x = x.
Proof. unfold s32, u32. intros. case_if; zbool; lia. Qed.
Lemma s8_id x : 0 ≤ x < 128 → s8 x = x.
Proof. unfold s8, u8. intros. case_if; zbool; lia. Qed.
#[export] Hint Resolve u8_range u16_range u32_range : bytes.

Lemma length_bytes16 v : length (bytes16 v) = 2%nat.
Proof. done. Qed.
Lemma length_bytes32 v : length (bytes32 v) = 4%nat.
Proof. done. Qed.
Lemma bytes16_ok v : bytes_ok (bytes16 v).
Proof. repeat constructor; lia. Qed.
Lemma bytes32_ok v : bytes_ok (bytes32 v).
Proof. repeat constructor; lia. Qed.
#[export] Hint Resolve bytes16_ok bytes32_ok : bytes.

Lemma cstr_app_nul bs rest : Forall (λ b, b ≠ 0) bs → cstr (bs ++ 0 :: rest) = bs.
Proof.
  induction 1 as [|b bs Hb _ IH]; [done|]. simpl.
  rewrite (proj2 (Z.eqb_neq b 0) Hb). by rewrite IH.
Qed.

Lemma cstr_nonzero bs : Forall (λ b, b ≠ 0) (cstr bs).
Proof. induction bs as [|b bs IH]; simpl; [done|]. case_if; zbool; by constructor. Qed.

Lemma length_str s : length (str s) = String.length s.
Proof. induction s; simpl; auto. Qed.

(** A number below [2 ^ n] beside a multiple of it. *)
Lemma lor_add n a k : 0 ≤ n → 0 ≤ a < 2 ^ n → Z.lor a (k * 2 ^ n) = a + k * 2 ^ n.
Proof.
  intros Hn Ha. assert (Z.land a (k * 2 ^ n) = 0) as Hd.
  { apply Z.bits_inj'. intros i Hi. rewrite Z.land_spec, Z.bits_0.
    destruct (Z.ltb_spec i n).
    - rewrite (Z.mul_pow2_bits_low k) by lia. apply andb_false_r.
    - replace a with (a mod 2 ^ n) by (apply Z.mod_small; lia).
      rewrite Z.mod_pow2_bits_high by lia. done. }
  pose proof (Z.add_lor_land a (k * 2 ^ n)). lia.
Qed.

Lemma lor_add_low a k : 0 ≤ a < 65536 → Z.lor a (65536 * k) = a + 65536 * k.
Proof. intros Ha. rewrite Z.mul_comm. by apply (lor_add 16). Qed.

(** Single bits. *)
Lemma land_bit s k : 0 ≤ k → Z.land s (2 ^ k) = if Z.testbit s k then 2 ^ k else 0.
Proof.
  intros Hk. apply Z.bits_inj'. intros i Hi. rewrite Z.land_spec, Z.pow2_bits_eqb by done.
  destruct (Z.eqb_spec k i) as [<-|Hne].
  - rewrite andb_true_r. destruct (Z.testbit s k) eqn:E; [|by rewrite Z.bits_0].
    by rewrite Z.pow2_bits_eqb, Z.eqb_refl.
  - rewrite andb_false_r. destruct (Z.testbit s k); [|by rewrite Z.bits_0].
    rewrite Z.pow2_bits_eqb by done. symmetry. by apply Z.eqb_neq.
Qed.

Lemma testbit_u8 s k : 0 ≤ k < 8 → Z.testbit (u8 s) k = Z.testbit s k.
Proof. intros Hk. unfold u8. change 256 with (2 ^ 8). apply Z.mod_pow2_bits_low. lia. Qed.

(** Access at the join of two lists. *)
Lemma at_middle l1 x l2 i : i = Z.of_nat (length l1) → at_ (l1 ++ x :: l2) i = x.
Proof. intros ->. unfold at_. rewrite Nat2Z.id. by rewrite list_lookup_middle. Qed.

Lemma upd_middle l1 x l2 i v :
  i = Z.of_nat (length l1) → upd (l1 ++ x :: l2) i v = l1 ++ v :: l2.
Proof.
  intros ->. unfold upd. rewrite Nat2Z.id.
  replace (length l1) with (length l1 + 0)%nat by lia. by rewrite insert_app_r.
Qed.

Lemma at_app_l l1 l2 i : 0 ≤ i < Z.of_nat (length l1) → at_ (l1 ++ l2) i = at_ l1 i.
Proof. intros Hi. unfold at_. by rewrite lookup_app_l by lia. Qed.

Lemma at_app_r l1 l2 i :
  Z.of_nat (length l1) ≤ i → at_ (l1 ++ l2) i = at_ l2 (i - Z.of_nat (length l1)).
Proof.
  intros Hi. unfold at_. rewrite lookup_app_r by lia. do 2 f_equal. lia.
Qed.

(** A buffer is its C string, then a NUL if there is one. *)
Lemma cstr_split bs : ∃ rest, bs = cstr bs ++ rest.
Proof.
  induction bs as [|b bs [rest IH]]; [by exists []|]. simpl. case_if.
  - by exists (b :: bs).
  - exists rest. simpl. by f_equal.
Qed.

Lemma cstr_length bs : (length (cstr bs) ≤ length bs)%nat.
Proof. destruct (cstr_split bs) as [r E]. rewrite E at 2. rewrite length_app. lia. Qed.

(** A property of single bytes is decided by running through all 256. *)
Lemma byte_cases (P : Z → Prop) `{∀ b, Decision (P b)} :
  bool_decide (Forall P (seqZ 0 256)) = true → ∀ b, byte_ok b → P b.
Proof.
  intros HP b Hb. apply bool_decide_eq_true in HP. eapply Forall_forall; [done|].
  apply elem_of_seqZ. unfold byte_ok in Hb. lia.
Qed.

(** [by_bytes b]: prove the goal, a decidable property of [b], for all bytes. *)
Ltac by_bytes b :=
  match goal with
  | Hb : byte_ok b |- _ =>
      cbv zeta; pattern b; refine (byte_cases _ _ b Hb); vm_compute; reflexivity
  end.
