(* ===== verification/Machine.v ===== *)
(** The machine under the kernel: byte-addressed physical memory and the x86
    I/O ports.

    Memory is a finite map from addresses to bytes; a byte never written reads
    as 0, and every theorem quantifies over the whole initial memory. The same
    type serves for a local array, addressed from 0. The ports are the class
    [PortIO]: the instructions behind [inb], [outb], [inw] and [outw] of
    src/kernel/arch/i386/tty.c act on hardware, which is a parameter of every
    model that uses it. *)
From S2P Require Import Prelude.

(** * Memory *)

Abbreviation memory := (gmap Z Z).

Definition load8 (m : memory) (a : Z) : Z := u8 (default 0 (m !! a)).
Definition store8 (m : memory) (a v : Z) : memory := <[a := u8 v]> m.

Fixpoint load_bytes (m : memory) (a : Z) (n : nat) : list Z :=
  match n with O => [] | S n' => load8 m a :: load_bytes m (a + 1) n' end.

Fixpoint store_bytes (m : memory) (a : Z) (bs : list Z) : memory :=
  match bs with [] => m | b :: bs' => store_bytes (store8 m a b) (a + 1) bs' end.

Definition load16 (m : memory) (a : Z) : Z := le16 (load8 m a) (load8 m (a + 1)).
Definition load32 (m : memory) (a : Z) : Z :=
  le32 (load8 m a) (load8 m (a + 1)) (load8 m (a + 2)) (load8 m (a + 3)).
Definition store16 (m : memory) (a v : Z) : memory := store_bytes m a (bytes16 v).
Definition store32 (m : memory) (a v : Z) : memory := store_bytes m a (bytes32 v).

(** Two memories that hold the same bytes. *)
Definition mem_equiv (m1 m2 : memory) : Prop := ∀ a, load8 m1 a = load8 m2 a.
Infix "≡ₘ" := mem_equiv (at level 70) : c_scope.

Section Memory.
Implicit Types (m : memory) (a v : Z) (bs : list Z).

Lemma load8_range m a : 0 ≤ load8 m a < 256.
Proof. apply u8_range. Qed.

Lemma load8_store8 m a v x :
  load8 (store8 m a v) x = if decide (a = x) then u8 v else load8 m x.
Proof.
  unfold load8, store8. rewrite lookup_insert. case_decide; [|done].
  simpl. unfold u8. lia.
Qed.

Lemma load8_store_bytes m a bs x :
  load8 (store_bytes m a bs) x =
  if decide (a ≤ x < a + Z.of_nat (length bs))
  then u8 (at_ bs (x - a)) else load8 m x.
Proof.
  revert m a; induction bs as [|b bs IH]; intros m a; simpl.
  { case_decide; [lia|done]. }
  rewrite IH, load8_store8. unfold at_.
  repeat case_decide; subst; rewrite ?Z.sub_diag; try lia; try done.
  by replace (Z.to_nat (x - a)) with (S (Z.to_nat (x - (a + 1)))) by lia.
Qed.

Lemma length_load_bytes m a n : length (load_bytes m a n) = n.
Proof. revert a; induction n; intros; simpl; auto. Qed.

Lemma load_bytes_ok m a n : bytes_ok (load_bytes m a n).
Proof.
  revert a; induction n; intros; simpl; constructor; [apply load8_range|apply IHn].
Qed.

Lemma lookup_load_bytes m a n i :
  (i < n)%nat → load_bytes m a n !! i = Some (load8 m (a + Z.of_nat i)).
Proof.
  revert a i; induction n as [|n IH]; intros a i Hi; [lia|].
  destruct i as [|i]; simpl; [by rewrite Z.add_0_r|].
  rewrite IH by lia. do 2 f_equal. lia.
Qed.

Lemma at_load_bytes m a n i :
  0 ≤ i < Z.of_nat n → at_ (load_bytes m a n) i = load8 m (a + i).
Proof.
  intros Hi. unfold at_. rewrite lookup_load_bytes by lia. simpl.
  by rewrite Z2Nat.id by lia.
Qed.

Lemma load_bytes_app m a n1 n2 :
  load_bytes m a (n1 + n2) = load_bytes m a n1 ++ load_bytes m (a + Z.of_nat n1) n2.
Proof.
  revert a; induction n1 as [|n1 IH]; intros a; simpl; [by rewrite Z.add_0_r|].
  rewrite IH. by replace (a + 1 + Z.of_nat n1) with (a + Z.of_nat (S n1)) by lia.
Qed.

Lemma load_bytes_ext m1 m2 a b n :
  (∀ i, 0 ≤ i < Z.of_nat n → load8 m1 (a + i) = load8 m2 (b + i)) →
  load_bytes m1 a n = load_bytes m2 b n.
Proof.
  revert a b; induction n as [|n IH]; intros a b H; [done|]. simpl. f_equal.
  - specialize (H 0). rewrite !Z.add_0_r in H. apply H. lia.
  - apply IH. intros i Hi. rewrite <-!Z.add_assoc. apply H. lia.
Qed.

(** A byte list with the right elements is what [load_bytes] returns. *)
Lemma load_bytes_eq m a bs :
  (∀ i, 0 ≤ i < Z.of_nat (length bs) → load8 m (a + i) = at_ bs i) →
  load_bytes m a (length bs) = bs.
Proof.
  revert a; induction bs as [|b bs IH]; intros a H; [done|]. simpl. f_equal.
  - specialize (H 0). rewrite Z.add_0_r in H. apply H. simpl. lia.
  - apply IH. intros i Hi. rewrite <-Z.add_assoc, H by (simpl; lia).
    unfold at_. by replace (Z.to_nat (1 + i)) with (S (Z.to_nat i)) by lia.
Qed.

Lemma at_byte bs i : bytes_ok bs → u8 (at_ bs i) = at_ bs i.
Proof.
  intros H. unfold at_. destruct (bs !! _) eqn:E; [|done]. simpl.
  apply u8_id. by eapply Forall_lookup in H.
Qed.

Lemma load_store_bytes_same m a bs :
  bytes_ok bs → load_bytes (store_bytes m a bs) a (length bs) = bs.
Proof.
  intros H. apply load_bytes_eq. intros i Hi.
  rewrite load8_store_bytes, decide_True by lia.
  replace (a + i - a) with i by lia. by apply at_byte.
Qed.

Lemma load_store_bytes_disjoint m a bs b n :
  b + Z.of_nat n ≤ a ∨ a + Z.of_nat (length bs) ≤ b →
  load_bytes (store_bytes m a bs) b n = load_bytes m b n.
Proof.
  intros H. apply load_bytes_ext. intros i Hi.
  rewrite load8_store_bytes, decide_False by lia. done.
Qed.

Lemma store_bytes_app m a bs1 bs2 :
  store_bytes m a (bs1 ++ bs2) =
  store_bytes (store_bytes m a bs1) (a + Z.of_nat (length bs1)) bs2.
Proof.
  revert m a; induction bs1 as [|b bs1 IH]; intros m a; simpl; [by rewrite Z.add_0_r|].
  rewrite IH. by replace (a + 1 + Z.of_nat (length bs1)) with (a + Z.of_nat (S (length bs1))) by lia.
Qed.

Lemma store_bytes_snoc m a bs v :
  store_bytes m a (bs ++ [v]) = store8 (store_bytes m a bs) (a + Z.of_nat (length bs)) v.
Proof. by rewrite store_bytes_app. Qed.

#[global] Instance mem_equiv_equivalence : Equivalence mem_equiv.
Proof.
  split; [by intros m a|by intros m1 m2 H a|].
  intros m1 m2 m3 H1 H2 a. by rewrite (H1 a).
Qed.

#[global] Instance load8_proper : Proper (mem_equiv ==> eq ==> eq) load8.
Proof. by intros m1 m2 H a ? <-. Qed.

#[global] Instance load_bytes_proper : Proper (mem_equiv ==> eq ==> eq ==> eq) load_bytes.
Proof. intros m1 m2 H a ? <- n ? <-. apply load_bytes_ext. intros. by rewrite H. Qed.

#[global] Instance store_bytes_proper : Proper (mem_equiv ==> eq ==> eq ==> mem_equiv) store_bytes.
Proof. intros m1 m2 H a ? <- bs ? <- x. rewrite !load8_store_bytes. by case_decide. Qed.

(** Storing what is already there changes no byte. *)
Lemma store_load_bytes m a n : store_bytes m a (load_bytes m a n) ≡ₘ m.
Proof.
  intros x. rewrite load8_store_bytes, length_load_bytes. case_decide; [|done].
  rewrite at_load_bytes by lia. replace (a + (x - a)) with x by lia.
  apply u8_id, load8_range.
Qed.

Lemma load16_range m a : 0 ≤ load16 m a < 65536.
Proof.
  unfold load16, le16.
  pose proof (load8_range m a). pose proof (load8_range m (a + 1)). lia.
Qed.

Lemma load32_range m a : 0 ≤ load32 m a < 4294967296.
Proof.
  unfold load32, le32.
  pose proof (load8_range m a). pose proof (load8_range m (a + 1)).
  pose proof (load8_range m (a + 2)). pose proof (load8_range m (a + 3)). lia.
Qed.

Lemma load32_store32 m a v : load32 (store32 m a v) a = u32 v.
Proof.
  unfold load32, store32, le32. rewrite !load8_store_bytes, !decide_True by (simpl; lia).
  replace (a - a) with 0 by lia. replace (a + 1 - a) with 1 by lia.
  replace (a + 2 - a) with 2 by lia. replace (a + 3 - a) with 3 by lia.
  unfold u8, u32, bytes32, at_; simpl. lia.
Qed.

Lemma load16_store16 m a v : load16 (store16 m a v) a = u16 v.
Proof.
  unfold load16, store16, le16. rewrite !load8_store_bytes, !decide_True by (simpl; lia).
  replace (a - a) with 0 by lia. replace (a + 1 - a) with 1 by lia.
  unfold u8, u16, bytes16, at_; simpl. lia.
Qed.
End Memory.

#[export] Hint Resolve load8_range load16_range load32_range load_bytes_ok : bytes.

(** * I/O ports *)

Class PortIO (D : Type) := {
  port_inb : Z → D → Z * D;
  port_inw : Z → D → Z * D;
  port_outb : Z → Z → D → D;
  port_outw : Z → Z → D → D;
}.

Section Ports.
Context {D : Type} `{PortIO D}.

Definition inb (port : Z) : M D Z := λ d, let '(v, d') := port_inb (u16 port) d in Done (u8 v) d'.
Definition inw (port : Z) : M D Z := λ d, let '(v, d') := port_inw (u16 port) d in Done (u16 v) d'.
Definition outb (port value : Z) : M D unit :=
  λ d, Done tt (port_outb (u16 port) (u8 value) d).
Definition outw (port value : Z) : M D unit :=
  λ d, Done tt (port_outw (u16 port) (u16 value) d).
End Ports.
