(* ===== verification/LibC.v ===== *)
(** src/kernel/arch/i386/lib_c.c: character case, the serial console and the
    number printers.

    Every routine that touches the serial port runs in [M D] for a device [D]
    with ports. A busy-wait [while ((inb(..) & m) == 0);] takes fuel; the class
    [UART] states what the code relies on of the 8250/16550 line status
    register, and the theorems give fuel that is enough. *)
From S2P Require Import Prelude Machine.

(** * Character case *)

Definition lowercase (c : Z) : Z :=
  if (65 <=? s8 c) && (s8 c <=? 90) then u8 (c + (97 - 65)) else c.

Definition uppercase (c : Z) : Z :=
  if (97 <=? s8 c) && (s8 c <=? 122) then u8 (c - (97 - 65)) else c.

(** The [while (counter < inputLength)] loops of [uppercase_str] and
    [lowercase_str], with [n] characters left. *)
Fixpoint uppercase_loop (n : nat) (counter : Z) (input : list Z) : list Z :=
  match n with
  | O => input
  | S n' =>
      let c := s8 (at_ input counter) in
      let input := if (97 <=? c) && (c <=? 122)
                   then upd input counter (u8 (at_ input counter - 32)) else input in
      uppercase_loop n' (counter + 1) input
  end.

Definition uppercase_str (input : list Z) : list Z :=
  uppercase_loop (length (cstr input)) 0 input.

Fixpoint lowercase_loop (n : nat) (counter : Z) (input : list Z) : list Z :=
  match n with
  | O => input
  | S n' =>
      let c := s8 (at_ input counter) in
      let input := if (65 <=? c) && (c <=? 90)
                   then upd input counter (u8 (at_ input counter + 32)) else input in
      lowercase_loop n' (counter + 1) input
  end.

Definition lowercase_str (input : list Z) : list Z :=
  lowercase_loop (length (cstr input)) 0 input.

(** * The serial console *)

Definition TTY : Z := 0x03F8.
Definition LSR : Z := 5.

Section Serial.
Context {D : Type} `{PortIO D}.

(** [while ((inb(port) & mask) == 0x00);] *)
Fixpoint wait_set (fuel : nat) (port mask : Z) : M D unit :=
  match fuel with
  | O => raise OutOfFuel
  | S f => let! v := inb port in
           if Z.land v mask =? 0 then wait_set f port mask else ret tt
  end.

Definition putcc_raw (fuel : nat) (c : Z) : M D unit :=
  wait_set fuel (TTY + LSR) 0x20 ;; outb TTY c.

(** [putcc]: the recursive call for the carriage return does not recurse. *)
Definition putcc (fuel : nat) (c : Z) : M D unit :=
  (if s8 c =? 0x0A then putcc_raw fuel 0x0D else ret tt) ;; putcc_raw fuel c.

Definition getcc (fuel : nat) (echo : bool) : M D Z :=
  wait_set fuel (TTY + LSR) 0x01 ;;
  let! c := inb TTY in
  (if echo then putcc fuel c else ret tt) ;;
  ret c.

(** [printss] and [putstring]: a NUL-terminated string. *)
Fixpoint putstring (fuel : nat) (s : list Z) : M D unit :=
  match s with
  | [] => ret tt
  | c :: s' => if c =? 0 then ret tt else putcc fuel c ;; putstring fuel s'
  end.

Definition printss := putstring.

(** [printsss]: exactly [n] characters, [.] for those not above a space. *)
Fixpoint printsss (fuel : nat) (s : list Z) (n : nat) {struct n} : M D unit :=
  match n with
  | O => ret tt
  | S n' =>
      match s with
      | [] => raise OutOfBounds
      | c :: s' => putcc fuel (if 32 <? s8 c then c else 46) ;; printsss fuel s' n'
      end
  end.

(** One hexadecimal digit as [printhex] computes it. *)
Definition hex_char (num : Z) (shift : Z) : Z :=
  let buf := Z.land (num ≫ shift) 0xF in
  if buf <? 10 then buf + 48 else buf + (65 - 10).

(** [for (i = 0; i < digits; i++)], with [n] digits left. *)
Fixpoint printhex_loop (fuel : nat) (num : Z) (n : nat) : M D unit :=
  match n with
  | O => ret tt
  | S n' => putcc fuel (hex_char num (Z.of_nat n' * 4)) ;; printhex_loop fuel num n'
  end.

Definition printhex (fuel : nat) (num digits : Z) : M D unit :=
  printhex_loop fuel num (Z.to_nat digits).

(** [gethex]: the value read so far and the digits left; [None] is the -1 of
    an invalid character. *)
Fixpoint gethex_loop (fuel : nat) (num : Z) (n : nat) (echo : bool) : M D (Z * Z) :=
  match n with
  | O => ret (0, num)
  | S n' =>
      let! c := getcc fuel echo in
      let buf := s8 (lowercase c) in
      if (buf <? 48) || (102 <? buf) || ((57 <? buf) && (buf <? 97)) then ret (-1, num)
      else
        let buf := if 57 <? buf then buf - (97 - 10) else buf - 48 in
        gethex_loop fuel (u32 (u32 (num ≪ 4) + buf)) n' echo
  end.

Definition gethex (fuel : nat) (digits : Z) (echo : bool) : M D (Z * Z) :=
  (if echo then printss fuel [32] else ret tt) ;;
  gethex_loop fuel 0 (Z.to_nat digits) echo.

(** [_printInt]: digits are written backwards into [buff[31]], ..., [buff[0]];
    [n] is the number of free slots below [ptr]. *)
Fixpoint printInt_loop (n : nat) (val base : Z) (acc : list Z) : option (list Z) :=
  if val =? 0 then Some acc else
  match n with
  | O => None
  | S n' =>
      let d := Z.rem val base in
      let c := if d <? 10 then u8 (d + 48) else u8 (d - 10 + 65) in
      printInt_loop n' (Z.quot val base) base (c :: acc)
  end.

Definition _printInt (fuel : nat) (val base : Z) : M D unit :=
  match printInt_loop 31 val base [] with
  | None => raise OutOfBounds
  | Some s => putstring fuel s
  end.

(** The stack slots after [fmt] that [argptr] walks over. *)
Inductive parg := PInt (v : Z) | PStr (s : list Z).

Fixpoint _printf (fuel : nat) (p : list Z) (args : list parg) : M D unit :=
  match p with
  | [] => ret tt
  | c :: p' =>
      if c =? 37 then
        match p' with
        | k :: p'' =>
            if k =? 100 then
              match args with
              | PInt v :: args' => _printInt fuel v 10 ;; _printf fuel p'' args'
              | _ => raise OutOfBounds
              end
            else if k =? 115 then
              match args with
              | PStr s :: args' => putstring fuel s ;; _printf fuel p'' args'
              | _ => raise OutOfBounds
              end
            else if k =? 120 then
              match args with
              | PInt v :: args' => _printInt fuel v 16 ;; _printf fuel p'' args'
              | _ => raise OutOfBounds
              end
            else putcc fuel c ;; _printf fuel p' args
        | [] => putcc fuel c ;; _printf fuel p' args
        end
      else putcc fuel c ;; _printf fuel p' args
  end.
End Serial.

(** What the code relies on of the UART at 0x3F8: reading the line status
    register changes nothing but the time left until the transmitter is empty
    (bit 0x20); bit 0x01 says whether a received byte waits; reading the data
    register takes it, writing it transmits. *)
Class UART (D : Type) `{PortIO D} := {
  uart_rx : D → list Z;
  uart_tx : D → list Z;
  uart_busy : D → nat;
  uart_max : nat;
  uart_busy_max : ∀ d, (uart_busy d ≤ uart_max)%nat;
  uart_lsr : ∀ d, let '(v, d') := port_inb 0x3FD d in
    uart_rx d' = uart_rx d ∧ uart_tx d' = uart_tx d ∧
    (Z.land (u8 v) 0x20 =? 0) = (0 <? Z.of_nat (uart_busy d)) ∧
    (Z.land (u8 v) 0x01 =? 0) = bool_decide (uart_rx d = []) ∧
    uart_busy d' = Nat.pred (uart_busy d);
  uart_recv : ∀ d c q, uart_rx d = c :: q →
    let '(v, d') := port_inb 0x3F8 d in
    v = c ∧ uart_rx d' = q ∧ uart_tx d' = uart_tx d;
  uart_send : ∀ d c, let d' := port_outb 0x3F8 c d in
    uart_rx d' = uart_rx d ∧ uart_tx d' = uart_tx d ++ [c];
}.

(** * Character case *)

Lemma uppercase_loop_spec mid : ∀ pre post,
  uppercase_loop (length mid) (Z.of_nat (length pre)) (pre ++ mid ++ post) =
  pre ++ map uppercase mid ++ post.
Proof.
  induction mid as [|b mid IH]; intros pre post; [done|].
  cbn [length uppercase_loop map]. rewrite <-!app_comm_cons.
  rewrite at_middle by done.
  set (b' := if (97 <=? s8 b) && (s8 b <=? 122) then u8 (b - 32) else b).
  assert (b' = uppercase b) as Hb by done.
  transitivity (uppercase_loop (length mid) (Z.of_nat (length (pre ++ [b'])))
                  ((pre ++ [b']) ++ mid ++ post)).
  - rewrite length_app; simpl. f_equal; [lia|]. rewrite <-app_assoc. simpl.
    unfold b'. case_if; [by rewrite upd_middle|done].
  - rewrite IH, <-app_assoc, Hb. done.
Qed.

Lemma lowercase_loop_spec mid : ∀ pre post,
  lowercase_loop (length mid) (Z.of_nat (length pre)) (pre ++ mid ++ post) =
  pre ++ map lowercase mid ++ post.
Proof.
  induction mid as [|b mid IH]; intros pre post; [done|].
  cbn [length lowercase_loop map]. rewrite <-!app_comm_cons.
  rewrite at_middle by done.
  set (b' := if (65 <=? s8 b) && (s8 b <=? 90) then u8 (b + 32) else b).
  assert (b' = lowercase b) as Hb by done.
  transitivity (lowercase_loop (length mid) (Z.of_nat (length (pre ++ [b'])))
                  ((pre ++ [b']) ++ mid ++ post)).
  - rewrite length_app; simpl. f_equal; [lia|]. rewrite <-app_assoc. simpl.
    unfold b'. case_if; [by rewrite upd_middle|done].
  - rewrite IH, <-app_assoc, Hb. done.
Qed.

(** The buffer after [uppercase_str]: the string mapped, the rest untouched. *)
Lemma uppercase_str_app s rest :
  Forall (λ b, b ≠ 0) s →
  uppercase_str (s ++ 0 :: rest) = map uppercase s ++ 0 :: rest.
Proof.
  intros Hs. unfold uppercase_str. rewrite cstr_app_nul by done.
  exact (uppercase_loop_spec s [] (0 :: rest)).
Qed.

Lemma lowercase_str_app s rest :
  Forall (λ b, b ≠ 0) s →
  lowercase_str (s ++ 0 :: rest) = map lowercase s ++ 0 :: rest.
Proof.
  intros Hs. unfold lowercase_str. rewrite cstr_app_nul by done.
  exact (lowercase_loop_spec s [] (0 :: rest)).
Qed.

Lemma uppercase_byte b : byte_ok b → byte_ok (uppercase b).
Proof. unfold uppercase. intros. case_if; [apply u8_range|done]. Qed.

Lemma uppercase_nonzero b : byte_ok b → b ≠ 0 → uppercase b ≠ 0.
Proof. intros Hb. by_bytes b. Qed.

Lemma lowercase_nonzero b : byte_ok b → b ≠ 0 → lowercase b ≠ 0.
Proof. intros Hb. by_bytes b. Qed.

Lemma lowercase_uppercase b : byte_ok b → lowercase (uppercase b) = lowercase b.
Proof. intros Hb. by_bytes b. Qed.

Lemma uppercase_lowercase b : byte_ok b → uppercase (lowercase b) = uppercase b.
Proof. intros Hb. by_bytes b. Qed.

Lemma uppercase_idemp b : byte_ok b → uppercase (uppercase b) = uppercase b.
Proof. intros Hb. by_bytes b. Qed.

(** * The serial console under the UART's laws *)

Section UartFacts.
Context {D : Type} `{UART D}.
Variable fuel : nat.
Hypothesis Hfuel : (uart_max < fuel)%nat.

(** What the terminal at the other end receives for a C string. *)
Fixpoint crlf (s : list Z) : list Z :=
  match s with
  | [] => []
  | c :: s' => (if c =? 10 then [13; 10] else [c]) ++ crlf s'
  end.

Lemma wait_tx f d :
  (uart_busy d < f)%nat →
  ∃ d', wait_set f (TTY + LSR) 0x20 d = Done tt d' ∧
        uart_rx d' = uart_rx d ∧ uart_tx d' = uart_tx d.
Proof.
  revert d; induction f as [|f IH]; intros d Hd; [lia|]. cbn [wait_set].
  unfold bind, inb. change (u16 (TTY + LSR)) with 0x3FD.
  pose proof (uart_lsr d) as HL. destruct (port_inb 0x3FD d) as [v d'].
  destruct HL as (Hrx & Htx & Hb & _ & Hbusy). rewrite Hb.
  destruct (0 <? Z.of_nat (uart_busy d)) eqn:E; zbool.
  - destruct (IH d') as (d'' & -> & ? & ?); [lia|]. exists d''. split_and!; congruence.
  - exists d'. done.
Qed.

Lemma putcc_raw_sends c d :
  ∃ d', putcc_raw fuel c d = Done tt d' ∧
        uart_rx d' = uart_rx d ∧ uart_tx d' = uart_tx d ++ [u8 c].
Proof.
  unfold putcc_raw. destruct (wait_tx fuel d) as (d1 & E & Hr & Ht).
  { pose proof (uart_busy_max d). lia. }
  rewrite (bind_done _ _ _ _ _ E). unfold outb. change (u16 TTY) with 0x3F8.
  eexists; split; [done|]. destruct (uart_send d1 (u8 c)) as [-> ->]. by rewrite Hr, Ht.
Qed.

Lemma putcc_sends c d :
  byte_ok c →
  ∃ d', putcc fuel c d = Done tt d' ∧
        uart_rx d' = uart_rx d ∧ uart_tx d' = uart_tx d ++ crlf [c].
Proof.
  intros Hc. unfold putcc.
  assert ((s8 c =? 10) = (c =? 10)) as -> by (by_bytes c).
  destruct (c =? 10) eqn:E; simpl; rewrite E; simpl.
  - destruct (putcc_raw_sends 13 d) as (d1 & E1 & Hr1 & Ht1).
    destruct (putcc_raw_sends c d1) as (d2 & E2 & Hr2 & Ht2).
    rewrite (bind_done _ _ _ _ _ E1), E2. exists d2. split_and!; [done|congruence|].
    zbool. subst c. rewrite Ht2, Ht1, <-app_assoc. done.
  - destruct (putcc_raw_sends c d) as (d2 & E2 & Hr2 & Ht2).
    unfold bind, ret at 1. rewrite E2. exists d2. split_and!; [done..|].
    by rewrite Ht2, u8_id.
Qed.

Lemma crlf_app s1 s2 : crlf (s1 ++ s2) = crlf s1 ++ crlf s2.
Proof. induction s1; simpl; [done|]. by rewrite IHs1, app_assoc. Qed.

Lemma putstring_sends s d :
  bytes_ok s →
  ∃ d', putstring fuel s d = Done tt d' ∧
        uart_rx d' = uart_rx d ∧ uart_tx d' = uart_tx d ++ crlf (cstr s).
Proof.
  intros Hs. revert d; induction Hs as [|c s Hc Hs IH]; intros d; simpl.
  { exists d. by rewrite app_nil_r. }
  destruct (c =? 0) eqn:E0; simpl.
  { exists d. by rewrite app_nil_r. }
  destruct (putcc_sends c d Hc) as (d1 & E1 & Hr1 & Ht1).
  destruct (IH d1) as (d2 & E2 & Hr2 & Ht2).
  rewrite (bind_done _ _ _ _ _ E1), E2. exists d2. split_and!; [done|congruence|].
  rewrite Ht2, Ht1, <-app_assoc. f_equal. by rewrite <-crlf_app.
Qed.

(** ** Hexadecimal numbers *)

Fixpoint hex_digits (num : Z) (n : nat) : list Z :=
  match n with
  | O => []
  | S n' => hex_char num (Z.of_nat n' * 4) :: hex_digits num n'
  end.

Lemma hex_char_digit num k :
  0 ≤ k → 0 ≤ num →
  ∃ v, v = (num / 2 ^ k) mod 16 ∧ hex_char num k = (if v <? 10 then v + 48 else v + 55).
Proof.
  intros Hk Hn. eexists; split; [done|]. unfold hex_char.
  rewrite Z.shiftr_div_pow2 by done. change 0xF with (Z.ones 4).
  rewrite Z.land_ones by done. done.
Qed.

Lemma hex_char_range num k : 0 ≤ k → 0 ≤ num → 48 ≤ hex_char num k ≤ 70.
Proof.
  intros Hk Hn. destruct (hex_char_digit num k Hk Hn) as (v & Hv & ->). case_if; zbool; lia.
Qed.

Lemma printhex_loop_sends num n d :
  0 ≤ num →
  ∃ d', printhex_loop fuel num n d = Done tt d' ∧
        uart_rx d' = uart_rx d ∧ uart_tx d' = uart_tx d ++ hex_digits num n.
Proof.
  intros Hnum. revert d; induction n as [|n IH]; intros d; simpl.
  { exists d. by rewrite app_nil_r. }
  pose proof (hex_char_range num (Z.of_nat n * 4) ltac:(lia) Hnum) as Hc.
  destruct (putcc_sends (hex_char num (Z.of_nat n * 4)) d) as (d1 & E1 & Hr1 & Ht1).
  { unfold byte_ok. lia. }
  destruct (IH d1) as (d2 & E2 & Hr2 & Ht2).
  rewrite (bind_done _ _ _ _ _ E1), E2. exists d2. split_and!; [done|congruence|].
  rewrite Ht2, Ht1, <-app_assoc. f_equal. simpl.
  rewrite (proj2 (Z.eqb_neq _ 10)) by lia. done.
Qed.

Lemma getcc_receives c q d :
  byte_ok c → uart_rx d = c :: q →
  ∃ d', getcc fuel false d = Done c d' ∧ uart_rx d' = q.
Proof using Hfuel.
  intros Hc Hrx. unfold getcc.
  assert (∃ d1, wait_set fuel (TTY + LSR) 0x01 d = Done tt d1 ∧ uart_rx d1 = c :: q)
    as (d1 & E1 & Hr1).
  { destruct fuel as [|f]; [lia|]. cbn [wait_set]. unfold bind, inb.
    change (u16 (TTY + LSR)) with 0x3FD.
    pose proof (uart_lsr d) as HL. destruct (port_inb 0x3FD d) as [v d1].
    destruct HL as (Hr & _ & _ & -> & _). rewrite Hrx, bool_decide_eq_false_2 by done.
    exists d1. split; [done|congruence]. }
  rewrite (bind_done _ _ _ _ _ E1). unfold bind, inb, ret. change (u16 TTY) with 0x3F8.
  pose proof (uart_recv d1 c q Hr1) as HR. destruct (port_inb 0x3F8 d1) as [v d2].
  destruct HR as (-> & ? & _). exists d2. by rewrite u8_id.
Qed.

(** One digit as [gethex] decodes it. *)
Lemma hex_char_decodes v :
  0 ≤ v < 16 →
  let buf := s8 (lowercase (if v <? 10 then v + 48 else v + 55)) in
  ((buf <? 48) || (102 <? buf) || ((57 <? buf) && (buf <? 97))) = false ∧
  (if 57 <? buf then buf - (97 - 10) else buf - 48) = v.
Proof.
  intros Hv. assert (byte_ok v) as Hb by (unfold byte_ok; lia). revert Hv. by_bytes v.
Qed.

Lemma gethex_loop_receives num n : ∀ acc q d,
  0 ≤ num → 0 ≤ acc → (acc + 1) * 16 ^ Z.of_nat n ≤ 2 ^ 32 →
  uart_rx d = hex_digits num n ++ q →
  ∃ d', gethex_loop fuel acc n false d =
          Done (0, acc * 16 ^ Z.of_nat n + num mod 16 ^ Z.of_nat n) d' ∧ uart_rx d' = q.
Proof using Hfuel.
  induction n as [|n IH]; intros acc q d Hnum Hacc Hmax Hrx.
  { exists d. rewrite Z.mod_1_r, Z.mul_1_r, Z.add_0_r. done. }
  cbn [hex_digits] in Hrx. rewrite <-app_comm_cons in Hrx.
  pose proof (hex_char_range num (Z.of_nat n * 4) ltac:(lia) Hnum) as Hc.
  assert (byte_ok (hex_char num (Z.of_nat n * 4))) as Hcb by (unfold byte_ok; lia).
  destruct (getcc_receives _ _ d Hcb Hrx) as (d1 & E1 & Hr1).
  cbn [gethex_loop]. rewrite (bind_done _ _ _ _ _ E1).
  destruct (hex_char_digit num (Z.of_nat n * 4) ltac:(lia) Hnum) as (v & Hv & ->).
  assert (0 ≤ v < 16) as Hv16 by lia.
  destruct (hex_char_decodes v Hv16) as [-> ->].
  set (p := 16 ^ Z.of_nat n) in *.
  assert (16 ^ Z.of_nat (S n) = 16 * p) as Hp.
  { unfold p. rewrite Nat2Z.inj_succ, Z.pow_succ_r by lia. done. }
  assert (0 < p) by (unfold p; apply Z.pow_pos_nonneg; lia).
  assert (2 ^ (Z.of_nat n * 4) = p) as Hsh.
  { unfold p. rewrite Z.mul_comm, Z.pow_mul_r by lia. done. }
  rewrite Hp in Hmax. rewrite Hsh in Hv.
  assert (num mod (16 * p) = num mod p + p * v) as Hmod.
  { rewrite (Z.mul_comm 16), Z.rem_mul_r by lia. by rewrite <-Hv. }
  assert (u32 (u32 (acc ≪ 4) + v) = 16 * acc + v) as ->.
  { rewrite Z.shiftl_mul_pow2 by done. change (2 ^ 4) with 16. change (2 ^ 32) with 4294967296 in Hmax.
    assert (16 * acc + 15 < 4294967296) by nia.
    rewrite (u32_id (acc * 16)), u32_id by lia. lia. }
  destruct (IH (16 * acc + v) q d1) as (d2 & E2 & Hr2); [done|nia|nia|done|].
  fold p in E2. exists d2. split; [|done]. rewrite E2, Hp, Hmod.
  by replace ((16 * acc + v) * p + num mod p) with (acc * (16 * p) + (num mod p + p * v)) by ring.
Qed.

End UartFacts.

(** ** Decimal and hexadecimal integers of [_printInt] *)

Definition digit_value (c : Z) : Z := if c <? 58 then c - 48 else c - 55.
Definition decode (base : Z) (s : list Z) : Z :=
  fold_left (λ a c, a * base + digit_value c) s 0.

Lemma decode_snoc base s c : decode base (s ++ [c]) = decode base s * base + digit_value c.
Proof. unfold decode. by rewrite fold_left_app. Qed.

Lemma printInt_loop_spec base n : ∀ val acc,
  2 ≤ base ≤ 16 → 0 ≤ val < base ^ Z.of_nat n →
  ∃ s, printInt_loop n val base acc = Some (s ++ acc) ∧ decode base s = val ∧
       Forall (λ c, 48 ≤ c ≤ 70) s ∧ (val = 0 → s = []).
Proof.
  induction n as [|n IH]; intros val acc Hbase Hval.
  { exists []. change (base ^ Z.of_nat 0) with 1 in Hval. simpl.
    rewrite (proj2 (Z.eqb_eq val 0)) by lia. split_and!; [done|unfold decode; simpl; lia|done..]. }
  cbn [printInt_loop]. destruct (val =? 0) eqn:E0; zbool.
  { exists []. split_and!; [done|unfold decode; simpl; lia|done..]. }
  rewrite Z.rem_mod_nonneg, Z.quot_div_nonneg by lia.
  rewrite Nat2Z.inj_succ, Z.pow_succ_r in Hval by lia.
  pose proof (Z.mod_pos_bound val base ltac:(lia)) as Hd. set (d := val mod base) in *.
  set (c := if d <? 10 then u8 (d + 48) else u8 (d - 10 + 65)).
  assert (digit_value c = d ∧ 48 ≤ c ≤ 70) as [Hc Hcr].
  { unfold c, digit_value. destruct (d <? 10) eqn:E; zbool; rewrite u8_id by lia; case_if; zbool; lia. }
  destruct (IH (val / base) (c :: acc)) as (s & -> & Hs & Hf & _).
  { done. }
  { split; [apply Z.div_pos; lia|apply Z.div_lt_upper_bound; lia]. }
  exists (s ++ [c]). split_and!; [by rewrite <-app_assoc| | |lia].
  - rewrite decode_snoc, Hs, Hc. unfold d. rewrite (Z.div_mod val base) at 3 by lia. ring.
  - apply Forall_app; split; [done|by constructor].
Qed.

Lemma cstr_printable s : Forall (λ c, 48 ≤ c ≤ 70) s → cstr s = s ∧ crlf s = s ∧ bytes_ok s.
Proof.
  induction 1 as [|c s Hc _ (IH1 & IH2 & IH3)]; [repeat constructor|]. simpl.
  rewrite (proj2 (Z.eqb_neq c 0)), (proj2 (Z.eqb_neq c 10)) by lia. rewrite IH1, IH2.
  split_and!; [done..|constructor; [unfold byte_ok; lia|done]].
Qed.

(** * Theorems *)

(** A serial line that is always ready: the concrete device of the witnesses. *)
Record line := Line { l_rx : list Z; l_tx : list Z }.

#[global] Instance line_ports : PortIO line := {|
  port_inb p d :=
    if p =? 0x3FD then (if bool_decide (l_rx d = []) then 0x20 else 0x21, d)
    else if p =? 0x3F8 then
      match l_rx d with [] => (0, d) | c :: q => (c, Line q (l_tx d)) end
    else (0, d);
  port_inw _ d := (0, d);
  port_outb p v d := if p =? 0x3F8 then Line (l_rx d) (l_tx d ++ [v]) else d;
  port_outw _ _ d := d;
|}.

#[global, refine] Instance line_uart : UART line := {|
  uart_rx := l_rx; uart_tx := l_tx; uart_busy _ := 0%nat; uart_max := 0%nat
|}.
Proof.
  - done.
  - intros d. simpl. destruct d as [[|] ?]; done.
  - intros [rx tx] c q E. simpl in *. by rewrite E.
  - done.
Defined.

(** [gethex] reads back what [printhex] prints: on a working serial line
    [printhex(num, digits)] sends [digits] characters, and a [gethex] of as many
    digits that receives them returns 0 (success) with the low [4*digits] bits
    of [num], for up to the 8 digits that fit the target's [unsigned long]. *)
Theorem hex_roundtrip `{UART D} fuel num digits (d1 d2 : D) q :
  (uart_max < fuel)%nat → 0 ≤ num → 0 ≤ digits ≤ 8 →
  ∃ d1' chars,
    printhex fuel num digits d1 = Done tt d1' ∧
    uart_tx d1' = uart_tx d1 ++ chars ∧ length chars = Z.to_nat digits ∧
    (uart_rx d2 = chars ++ q →
     ∃ d2', gethex fuel digits false d2 = Done (0, num mod 16 ^ digits) d2' ∧ uart_rx d2' = q).
Proof.
  intros Hf Hn Hd. unfold printhex, gethex. set (n := Z.to_nat digits).
  destruct (printhex_loop_sends fuel Hf num n d1 Hn) as (d1' & -> & _ & Ht).
  exists d1', (hex_digits num n). split_and!; [done..| |].
  { clear. induction n; simpl; auto. }
  intros Hrx. destruct (gethex_loop_receives fuel Hf num n 0 q d2) as (d2' & E & Hr); try done.
  { assert (16 ^ Z.of_nat n ≤ 16 ^ 8) by (apply Z.pow_le_mono_r; lia). lia. }
  exists d2'. split; [|done]. unfold bind, ret. rewrite E.
  by replace (Z.of_nat n) with digits by lia.
Qed.

Lemma hex_roundtrip_witness :
  ∃ d1', printhex 1 0xBEEF 4 (Line [] []) = Done tt d1' ∧ l_tx d1' = str "BEEF" ∧
  ∃ d2', gethex 1 4 false (Line (str "BEEF") []) = Done (0, 0xBEEF) d2'.
Proof.
  destruct (hex_roundtrip 1 0xBEEF 4 (Line [] []) (Line (str "BEEF") []) []) as (d1' & cs & E & Ht & _ & Hg);
    [simpl; lia|lia|lia|].
  exists d1'. vm_compute in E. injection E as <-. simpl in Ht. subst cs.
  split; [vm_compute; reflexivity|split; [vm_compute; reflexivity|]].
  destruct Hg as (d2' & E2 & _); [vm_compute; reflexivity|]. exists d2'. exact E2.
Defined.

(** [_printInt] sends the digits of a non-negative [int] in base 10 or 16,
    most significant first, so that reading them back gives the number; it
    stays inside its 32-byte buffer. For 0 it sends nothing at all. *)
Theorem printInt_digits `{UART D} fuel val base (d : D) :
  (uart_max < fuel)%nat → base = 10 ∨ base = 16 → 0 ≤ val < 2 ^ 31 →
  ∃ d' s, _printInt fuel val base d = Done tt d' ∧ uart_tx d' = uart_tx d ++ s ∧
          decode base s = val ∧ (val = 0 → s = []).
Proof.
  intros Hf Hbase Hval. unfold _printInt.
  destruct (printInt_loop_spec base 31 val []) as (s & -> & Hs & Hr & Hz).
  { lia. }
  { assert (10 ^ 31 ≤ base ^ 31) by (apply Z.pow_le_mono_l; lia).
    change (Z.of_nat 31) with 31. lia. }
  rewrite app_nil_r. destruct (cstr_printable s Hr) as (Hc & Hl & Hb).
  destruct (putstring_sends fuel Hf s d Hb) as (d' & -> & _ & Ht).
  exists d', s. split_and!; try done. by rewrite Ht, Hc, Hl.
Qed.

Lemma printInt_digits_witness :
  ∃ d', _printInt 1 1023 10 (Line [] []) = Done tt d' ∧ l_tx d' = str "1023".
Proof.
  destruct (printInt_digits 1 1023 10 (Line [] [])) as (d' & s & E & Ht & _);
    [simpl; lia|lia|lia|].
  exists d'. split; [exact E|]. vm_compute in E. injection E as <-. reflexivity.
Defined.

(** Case conversion of strings: [uppercase_str] and [lowercase_str] map the
    characters before the terminator and leave the rest of the buffer alone,
    and converting one way and then the other gives what the second conversion
    alone gives. *)
Theorem case_str_fold s rest :
  bytes_ok s → Forall (λ b, b ≠ 0) s →
  uppercase_str (s ++ 0 :: rest) = map uppercase s ++ 0 :: rest ∧
  lowercase_str (s ++ 0 :: rest) = map lowercase s ++ 0 :: rest ∧
  lowercase_str (uppercase_str (s ++ 0 :: rest)) = lowercase_str (s ++ 0 :: rest) ∧
  uppercase_str (lowercase_str (s ++ 0 :: rest)) = uppercase_str (s ++ 0 :: rest).
Proof.
  intros Hb Hs. rewrite uppercase_str_app, lowercase_str_app by done.
  rewrite lowercase_str_app, uppercase_str_app.
  - rewrite !map_map. split_and!; try done; f_equal; apply map_ext_Forall;
      eapply Forall_impl; [exact Hb| |exact Hb|]; intros b ?;
      [by apply lowercase_uppercase|by apply uppercase_lowercase].
  - apply Forall_map, Forall_forall. intros b Hin. eapply lowercase_nonzero.
    + by eapply Forall_forall in Hb.
    + by eapply Forall_forall in Hs.
  - apply Forall_map, Forall_forall. intros b Hin. eapply uppercase_nonzero.
    + by eapply Forall_forall in Hb.
    + by eapply Forall_forall in Hs.
Qed.

Lemma case_str_fold_witness : uppercase_str (str "Ab" ++ [0; 120]) = str "AB" ++ [0; 120].
Proof.
  apply (case_str_fold (str "Ab") [120]); [apply (bool_decide_unpack _); vm_compute; exact I|].
  apply (bool_decide_unpack _); vm_compute; exact I.
Defined.
