(* ===== verification/CString.v ===== *)
(** The C library routines of the kernel: src/libc/string and the string
    functions of src/kernel/arch/i386/tty.c.

    The block routines ([memcpy], [memmove], [memset], [memcmp]) work on
    physical memory, so overlap is modelled. The string routines take a pointer
    as the part of its object from that point on; a routine that runs off the
    object gives [None]. *)
From S2P Require Import Prelude Machine.

(** * libc/string: memory blocks *)

(** [for (size_t i = 0; i < size; i++) dst[i] = src[i];], [n] bytes left. *)
Fixpoint copy_up (n : nat) (i : Z) (m : memory) (dst src : Z) : memory :=
  match n with
  | O => m
  | S n' => copy_up n' (i + 1) (store8 m (dst + i) (load8 m (src + i))) dst src
  end.

(** [for (size_t i = size; i != 0; i--) dst[i-1] = src[i-1];] *)
Fixpoint copy_down (i : nat) (m : memory) (dst src : Z) : memory :=
  match i with
  | O => m
  | S i' => copy_down i' (store8 m (dst + Z.of_nat i') (load8 m (src + Z.of_nat i'))) dst src
  end.

Definition memcpy (m : memory) (dst src size : Z) : memory :=
  copy_up (Z.to_nat size) 0 m dst src.

Definition memmove (m : memory) (dst src size : Z) : memory :=
  if dst <? src then copy_up (Z.to_nat size) 0 m dst src
  else copy_down (Z.to_nat size) m dst src.

Fixpoint set_up (n : nat) (i : Z) (m : memory) (buf value : Z) : memory :=
  match n with
  | O => m
  | S n' => set_up n' (i + 1) (store8 m (buf + i) (u8 value)) buf value
  end.

Definition memset (m : memory) (buf value size : Z) : memory :=
  set_up (Z.to_nat size) 0 m buf value.

Fixpoint cmp_up (n : nat) (i : Z) (m : memory) (a b : Z) : Z :=
  match n with
  | O => 0
  | S n' =>
      if load8 m (a + i) <? load8 m (b + i) then -1
      else if load8 m (b + i) <? load8 m (a + i) then 1
      else cmp_up n' (i + 1) m a b
  end.

Definition memcmp (m : memory) (a b size : Z) : Z := cmp_up (Z.to_nat size) 0 m a b.

(** * Strings *)

Fixpoint strlen_from (s : list Z) (len : Z) : option Z :=
  match s with
  | [] => None
  | c :: s' => if c =? 0 then Some len else strlen_from s' (len + 1)
  end.

Definition strlen (s : list Z) : option Z := strlen_from s 0.

(** The copy loop of [strcpy], up to and including the NUL. *)
Fixpoint strcpy (dest src : list Z) : option (list Z) :=
  match dest, src with
  | _ :: dest', c :: src' =>
      if c =? 0 then Some (0 :: dest') else cons c <$> strcpy dest' src'
  | _, _ => None
  end.

Fixpoint strcmp (s1 s2 : list Z) : option Z :=
  match s1, s2 with
  | c1 :: s1', c2 :: s2' =>
      if negb (c1 =? 0) && (c1 =? c2) then strcmp s1' s2' else Some (c1 - c2)
  | _, _ => None
  end.

(** [while (n--) *dest++ = '\0';] *)
Fixpoint zero_fill (n : nat) (dest : list Z) : option (list Z) :=
  match n with
  | O => Some dest
  | S n' => match dest with [] => None | _ :: dest' => cons 0 <$> zero_fill n' dest' end
  end.

(** The copy loop leaves [n] as it was when the byte it copies is the NUL. *)
Fixpoint strncpy (n : nat) (dest src : list Z) : option (list Z) :=
  match n with
  | O => zero_fill n dest
  | S n' =>
      match dest, src with
      | _ :: dest', c :: src' =>
          if c =? 0 then cons 0 <$> zero_fill n dest'
          else cons c <$> strncpy n' dest' src'
      | _, _ => None
      end
  end.

(** [strncmp] of tty.c. *)
Fixpoint strncmp (n : nat) (s1 s2 : list Z) : option Z :=
  match n with
  | O => Some 0
  | S n' =>
      match s1, s2 with
      | c1 :: s1', c2 :: s2' =>
          if (c1 =? 0) || (c2 =? 0) then Some (c1 - c2)
          else if negb (c1 =? c2) then Some (c1 - c2)
          else strncmp n' s1' s2'
      | _, _ => None
      end
  end.

(** [strncmp] of libc/string/strncmp.c. *)
Fixpoint libc_strncmp (n : nat) (s1 s2 : list Z) : option Z :=
  match n with
  | O => Some 0
  | S n' =>
      match s1, s2 with
      | c1 :: s1', c2 :: s2' =>
          if negb (c1 =? c2) then Some (if c1 <? c2 then -1 else 1)
          else if c1 =? 0 then Some 0
          else libc_strncmp n' s1' s2'
      | _, _ => None
      end
  end.

(** The offset [strchr] finds, [Some None] for a NULL result. *)
Fixpoint strchr_from (s : list Z) (c : Z) (i : nat) : option (option nat) :=
  match s with
  | [] => None
  | x :: s' =>
      if x =? 0 then Some None
      else if x =? u8 c then Some (Some i) else strchr_from s' c (S i)
  end.

Definition strchr (s : list Z) (c : Z) : option (option nat) := strchr_from s c 0.

(** [strtok]. The object tokenised is [buf]; [str] and the static [last] are
    offsets into it, [None] for NULL. *)
Fixpoint skip_delims (s delim : list Z) (i : nat) : option nat :=
  match s with
  | [] => None
  | x :: s' =>
      if x =? 0 then Some i
      else match strchr delim x with
           | None => None
           | Some (Some _) => skip_delims s' delim (S i)
           | Some None => Some i
           end
  end.

Fixpoint skip_token (s delim : list Z) (i : nat) : option nat :=
  match s with
  | [] => None
  | x :: s' =>
      if x =? 0 then Some i
      else match strchr delim x with
           | None => None
           | Some None => skip_token s' delim (S i)
           | Some (Some _) => Some i
           end
  end.

Definition strtok (str : option nat) (delim buf : list Z) (last : option nat) :
    option (option nat * list Z * option nat) :=
  match (match str with None => last | Some p => Some p end) with
  | None => None
  | Some p =>
      match skip_delims (drop p buf) delim p with
      | None => None
      | Some tok =>
          if default 0 (buf !! tok) =? 0 then Some (None, buf, None)
          else match skip_token (drop tok buf) delim tok with
               | None => None
               | Some e =>
                   if default 0 (buf !! e) =? 0 then Some (Some tok, buf, None)
                   else Some (Some tok, <[e := 0]> buf, Some (S e))
               end
      end
  end.

(** * Lemmas *)

(** An upward copy that never overwrites a source byte it has yet to read. *)
Lemma load8_copy_up n : ∀ i m dst src x,
  dst ≤ src ∨ src + i + Z.of_nat n ≤ dst + i ∨ dst + i + Z.of_nat n ≤ src + i →
  load8 (copy_up n i m dst src) x =
  if decide (dst + i ≤ x < dst + i + Z.of_nat n) then load8 m (src + (x - dst)) else load8 m x.
Proof.
  induction n as [|n IH]; intros i m dst src x Hno; simpl.
  { case_decide; [lia|done]. }
  rewrite IH by lia. rewrite !load8_store8, !(u8_id (load8 _ _)) by apply load8_range.
  repeat case_decide; try lia; try done. subst x. f_equal. lia.
Qed.

Lemma load8_copy_down n : ∀ m dst src x,
  src ≤ dst →
  load8 (copy_down n m dst src) x =
  if decide (dst ≤ x < dst + Z.of_nat n) then load8 m (src + (x - dst)) else load8 m x.
Proof.
  induction n as [|n IH]; intros m dst src x Hno; simpl.
  { case_decide; [lia|done]. }
  rewrite IH by lia. rewrite !load8_store8, !(u8_id (load8 _ _)) by apply load8_range.
  repeat case_decide; try lia; try done. subst x. f_equal. lia.
Qed.

Lemma load8_memcpy m dst src size x :
  0 ≤ size → dst ≤ src ∨ src + size ≤ dst →
  load8 (memcpy m dst src size) x =
  if decide (dst ≤ x < dst + size) then load8 m (src + (x - dst)) else load8 m x.
Proof.
  intros Hs Hno. unfold memcpy. rewrite load8_copy_up by lia.
  repeat case_decide; try lia; done.
Qed.

Lemma memcpy_store m dst src size :
  0 ≤ size → dst ≤ src ∨ src + size ≤ dst →
  memcpy m dst src size ≡ₘ store_bytes m dst (load_bytes m src (Z.to_nat size)).
Proof.
  intros Hs Hno x. rewrite load8_memcpy, load8_store_bytes, length_load_bytes by done.
  repeat case_decide; try lia. rewrite at_load_bytes by lia.
  symmetry. apply u8_id, load8_range.
Qed.

Lemma load8_set_up n : ∀ i m buf value x,
  load8 (set_up n i m buf value) x =
  if decide (buf + i ≤ x < buf + i + Z.of_nat n) then u8 value else load8 m x.
Proof.
  induction n as [|n IH]; intros i m buf value x; simpl.
  { case_decide; [lia|done]. }
  rewrite IH, load8_store8. repeat case_decide; try lia; try done. unfold u8. lia.
Qed.

(** The lexicographic comparison of two byte lists, the reference for the
    comparison routines. *)
Fixpoint lex (s1 s2 : list Z) : comparison :=
  match s1, s2 with
  | [], [] => Eq
  | [], _ => Lt
  | _, [] => Gt
  | c1 :: s1', c2 :: s2' => match c1 ?= c2 with Eq => lex s1' s2' | r => r end
  end.

Definition sign (z : Z) : comparison := z ?= 0.

Lemma lex_eq s1 s2 : lex s1 s2 = Eq ↔ s1 = s2.
Proof.
  revert s2; induction s1 as [|c1 s1 IH]; intros [|c2 s2]; simpl; try done.
  destruct (Z.compare_spec c1 c2); subst; split; try done; [intros ->%IH; done| | |].
  - intros [= ->]. by apply IH.
  - intros [= ->]. lia.
  - intros [= ->]. lia.
Qed.

Lemma sign_sub a b : sign (a - b) = (a ?= b).
Proof. unfold sign. destruct (Z.compare_spec a b); [apply Z.compare_eq_iff|apply Z.compare_lt_iff|apply Z.compare_gt_iff]; lia. Qed.

Lemma cmp_up_lex n : ∀ i m a b,
  sign (cmp_up n i m a b) = lex (load_bytes m (a + i) n) (load_bytes m (b + i) n).
Proof.
  induction n as [|n IH]; intros i m a b; [done|]. simpl.
  destruct (Z.compare_spec (load8 m (a + i)) (load8 m (b + i))) as [E|E|E].
  - rewrite E, Z.ltb_irrefl, IH. by rewrite !Z.add_assoc.
  - by rewrite (proj2 (Z.ltb_lt _ _) E).
  - by rewrite (proj2 (Z.ltb_ge _ _)), (proj2 (Z.ltb_lt _ _) E) by lia.
Qed.

(** A string of bytes followed by its NUL and whatever comes after. *)
Definition is_str (s : list Z) : Prop := Forall (λ b, 0 < b < 256) s.

Lemma is_str_nonzero s : is_str s → Forall (λ b, b ≠ 0) s.
Proof. intros H. eapply Forall_impl; [exact H|]. simpl. lia. Qed.

Lemma is_str_bytes s : is_str s → bytes_ok s.
Proof. intros H. eapply Forall_impl; [exact H|]. unfold byte_ok. simpl. lia. Qed.
#[export] Hint Resolve is_str_nonzero is_str_bytes : bytes.

Lemma strlen_from_str s rest k :
  is_str s → strlen_from (s ++ 0 :: rest) k = Some (k + Z.of_nat (length s)).
Proof.
  intros Hs. revert k; induction Hs as [|c s Hc _ IH]; intros k; simpl.
  { f_equal. lia. }
  rewrite (proj2 (Z.eqb_neq c 0)), IH by lia. f_equal. lia.
Qed.

Lemma strcmp_lex s1 s2 r1 r2 :
  is_str s1 → is_str s2 →
  ∃ v, strcmp (s1 ++ 0 :: r1) (s2 ++ 0 :: r2) = Some v ∧ sign v = lex s1 s2.
Proof.
  intros H1. revert s2; induction H1 as [|c1 s1 Hc1 H1 IH]; intros s2 H2.
  - destruct H2 as [|c2 s2 Hc2 _]; simpl; eexists; (split; [done|]); [done|].
    rewrite sign_sub. apply Z.compare_lt_iff; lia.
  - destruct H2 as [|c2 s2 Hc2 H2]; simpl; rewrite (proj2 (Z.eqb_neq c1 0)) by lia; simpl.
    + eexists; split; [done|].
      rewrite sign_sub. apply Z.compare_gt_iff. lia.
    + destruct (Z.compare_spec c1 c2) as [->|E|E].
      * rewrite Z.eqb_refl. by apply IH.
      * rewrite (proj2 (Z.eqb_neq c1 c2)) by lia. eexists; split; [done|].
        rewrite sign_sub. apply Z.compare_lt_iff; lia.
      * rewrite (proj2 (Z.eqb_neq c1 c2)) by lia. eexists; split; [done|].
        rewrite sign_sub. apply Z.compare_gt_iff; lia.
Qed.

Lemma strcpy_str s : ∀ dest r,
  is_str s → (length s < length dest)%nat →
  strcpy dest (s ++ 0 :: r) = Some (s ++ 0 :: drop (S (length s)) dest).
Proof.
  induction s as [|c s IH]; intros [|x dest] r Hs Hl; simpl in *; try lia; [by destruct dest|].
  inversion Hs; subst. rewrite (proj2 (Z.eqb_neq c 0)), IH by (done || lia). done.
Qed.

Lemma zero_fill_spec n dest :
  (n ≤ length dest)%nat → zero_fill n dest = Some (replicate n 0 ++ drop n dest).
Proof.
  revert dest; induction n as [|n IH]; intros dest Hn; [done|].
  destruct dest as [|x dest]; simpl in *; [lia|]. by rewrite IH by lia.
Qed.

Lemma strncpy_long n : ∀ dest s r,
  is_str s → (n ≤ length s)%nat → (n ≤ length dest)%nat →
  strncpy n dest (s ++ r) = Some (take n s ++ drop n dest).
Proof.
  induction n as [|n IH]; intros dest s r Hs Hn Hd; [done|].
  destruct Hs as [|c s Hc Hs]; simpl in *; [lia|].
  destruct dest as [|x dest]; simpl in *; [lia|].
  rewrite (proj2 (Z.eqb_neq c 0)), IH by (done || lia). done.
Qed.

Lemma strncpy_short s : ∀ n dest r,
  is_str s → (length s < n)%nat → (S n ≤ length dest)%nat →
  strncpy n dest (s ++ 0 :: r) = Some (s ++ replicate (S n - length s) 0 ++ drop (S n) dest).
Proof.
  induction s as [|c s IH]; intros n dest r Hs Hn Hd; destruct n as [|n]; simpl in *; try lia;
    destruct dest as [|x dest]; simpl in *; try lia.
  - destruct dest as [|y dest]; simpl in *; [lia|]. by rewrite zero_fill_spec by lia.
  - inversion Hs as [|? ? Hc Hs']; subst. rewrite (proj2 (Z.eqb_neq c 0)) by lia.
    by rewrite IH by (done || lia).
Qed.

Lemma strchr_from_spec s c r i :
  is_str s → 0 < c < 256 →
  (c ∈ s → ∃ k, strchr_from (s ++ 0 :: r) c i = Some (Some k)) ∧
  (c ∉ s → strchr_from (s ++ 0 :: r) c i = Some None).
Proof.
  intros Hs Hc. revert i; induction Hs as [|x s Hx Hs IH]; intros i; simpl.
  { split; [by intros ?%not_elem_of_nil|done]. }
  rewrite (proj2 (Z.eqb_neq x 0)), u8_id by lia.
  destruct (x =? c) eqn:E; zbool.
  - split; [by eexists|]. intros []. subst. constructor.
  - destruct (IH (S i)) as [IH1 IH2]. split.
    + intros [->|?]%elem_of_cons; [lia|auto].
    + intros ?. apply IH2. by intros ?; apply H; constructor.
Qed.

Lemma skip_delims_spec ds delim r : ∀ c rest i,
  is_str delim → is_str ds → Forall (λ b, b ∈ delim) ds →
  c = 0 ∨ (0 < c < 256 ∧ c ∉ delim) →
  skip_delims (ds ++ c :: rest) (delim ++ 0 :: r) i = Some (i + length ds)%nat.
Proof.
  induction ds as [|x ds IH]; intros c rest i Hd Hs Hin Hc; simpl.
  - rewrite Nat.add_0_r. destruct Hc as [->|[Hc Hn]]; [done|].
    rewrite (proj2 (Z.eqb_neq c 0)) by lia. unfold strchr.
    destruct (strchr_from_spec delim c r 0 Hd Hc) as [_ ->]; done.
  - inversion Hs; inversion Hin; subst. rewrite (proj2 (Z.eqb_neq x 0)) by lia. unfold strchr.
    destruct (strchr_from_spec delim x r 0 Hd) as [Hk _]; [done|].
    destruct Hk as [k ->]; [done|]. rewrite IH by done. f_equal. lia.
Qed.

Lemma skip_token_spec tok delim r : ∀ c rest i,
  is_str delim → is_str tok → Forall (λ b, b ∉ delim) tok →
  c = 0 ∨ (0 < c < 256 ∧ c ∈ delim) →
  skip_token (tok ++ c :: rest) (delim ++ 0 :: r) i = Some (i + length tok)%nat.
Proof.
  induction tok as [|x tok IH]; intros c rest i Hd Hs Hin Hc; simpl.
  - rewrite Nat.add_0_r. destruct Hc as [->|[Hc Hn]]; [done|].
    rewrite (proj2 (Z.eqb_neq c 0)) by lia. unfold strchr.
    destruct (strchr_from_spec delim c r 0 Hd Hc) as [Hk _]. destruct Hk as [k ->]; done.
  - inversion Hs; inversion Hin; subst. rewrite (proj2 (Z.eqb_neq x 0)) by lia. unfold strchr.
    destruct (strchr_from_spec delim x r 0 Hd) as [_ Hk]; [done|].
    rewrite Hk by done. rewrite IH by done. f_equal. lia.
Qed.

(** * Theorems *)

(** C26: [memmove] copies correctly for any overlap: every destination byte is
    the source byte as it was before the call, and no other byte changes. *)
Theorem memmove_correct m dst src size x :
  0 ≤ size →
  load8 (memmove m dst src size) x =
  if decide (dst ≤ x < dst + size) then load8 m (src + (x - dst)) else load8 m x.
Proof.
  intros Hs. unfold memmove. destruct (dst <? src) eqn:E; zbool.
  - rewrite load8_copy_up by lia. repeat case_decide; lia || done.
  - rewrite load8_copy_down by lia. repeat case_decide; lia || done.
Qed.

Lemma memmove_correct_witness :
  load_bytes (memmove (store_bytes ∅ 100 (str "abcdef")) 102 100 4) 100 6 = str "ababcd".
Proof.
  simpl. rewrite !(memmove_correct _ 102 100 4) by lia. vm_compute. reflexivity.
Defined.

(** The two [strncmp] of the system, the one of tty.c (a difference) and the
    one of the C library (-1, 0 or 1), agree on every pair of strings: same
    sign, and they run off their objects in the same cases. *)
Theorem strncmp_agree n s1 s2 :
  sign <$> strncmp n s1 s2 = sign <$> libc_strncmp n s1 s2.
Proof.
  revert s1 s2; induction n as [|n IH]; intros [|c1 s1] [|c2 s2]; try done. simpl.
  destruct (c1 =? c2) eqn:E; simpl; zbool.
  - subst c2. rewrite orb_diag. destruct (c1 =? 0); [|apply IH]. simpl.
    by rewrite Z.sub_diag.
  - assert (sign (c1 - c2) = sign (if c1 <? c2 then -1 else 1)) as Hs.
    { rewrite sign_sub. destruct (c1 <? c2) eqn:E2; zbool;
        [apply Z.compare_lt_iff|apply Z.compare_gt_iff]; lia. }
    destruct ((c1 =? 0) || (c2 =? 0)); simpl; by f_equal.
Qed.

(** What [strncpy] writes. When the source is at least [n] long, the first
    [n] characters and no terminator; when it is shorter, the string and then
    zeros, [n + 1] bytes in all, one more than the size it is given. *)
Theorem strncpy_writes n dest s r :
  is_str s → (S n ≤ length dest)%nat →
  strncpy n dest (s ++ 0 :: r) =
  Some (if decide (n ≤ length s)%nat then take n s ++ drop n dest
        else s ++ replicate (S n - length s) 0 ++ drop (S n) dest).
Proof.
  intros Hs Hd. case_decide.
  - apply strncpy_long; [done|done|lia].
  - apply strncpy_short; [done|lia|done].
Qed.

Lemma strncpy_writes_witness :
  strncpy 4 (str "........") (str "ab" ++ [0]) = Some (str "ab" ++ [0; 0; 0] ++ str "...").
Proof.
  rewrite (strncpy_writes 4 (str "........") (str "ab") []);
    [reflexivity|repeat constructor|simpl; lia].
Defined.

(** C27: [strcmp] orders strings lexicographically by unsigned character: its
    sign is that of the comparison, and it is 0 exactly on equal strings. *)
Theorem strcmp_orders s1 s2 r1 r2 :
  is_str s1 → is_str s2 →
  ∃ v, strcmp (s1 ++ 0 :: r1) (s2 ++ 0 :: r2) = Some v ∧
       sign v = lex s1 s2 ∧ (v = 0 ↔ s1 = s2).
Proof.
  intros H1 H2. destruct (strcmp_lex s1 s2 r1 r2 H1 H2) as (v & -> & Hv).
  exists v. split_and!; [done..|]. rewrite <-lex_eq, <-Hv. unfold sign.
  symmetry. apply Z.compare_eq_iff.
Qed.

Lemma strcmp_orders_witness : ∃ v, strcmp (str "ls" ++ [0]) (str "le" ++ [0]) = Some v ∧ sign v = Gt.
Proof.
  destruct (strcmp_orders (str "ls") (str "le") [] []) as (v & E & Hv & _);
    [repeat constructor..|]. exists v. split; [exact E|exact Hv].
Defined.

(** One call of [strtok] skips the delimiters in front, returns the token,
    cuts it off with a NUL and remembers where to go on; at the end of the
    string it remembers nothing, so the next call would start from NULL. *)
Theorem strtok_token pre ds tok c rest delim r last :
  is_str delim → is_str ds → is_str tok → tok ≠ [] →
  Forall (λ b, b ∈ delim) ds → Forall (λ b, b ∉ delim) tok →
  c = 0 ∨ (0 < c < 256 ∧ c ∈ delim) →
  let start := (length pre + length ds)%nat in
  strtok (Some (length pre)) (delim ++ 0 :: r) (pre ++ ds ++ tok ++ c :: rest) last =
  Some (Some start, pre ++ ds ++ tok ++ 0 :: rest,
        if c =? 0 then None else Some (S (start + length tok))).
Proof.
  intros Hd Hds Htok Hne Hin Hout Hc start.
  destruct tok as [|t tok]; [done|]. inversion Htok as [|? ? Ht Htok']; subst.
  inversion Hout as [|? ? Hto Hout']; subst.
  unfold strtok. rewrite drop_app_length.
  rewrite <-(app_comm_cons tok), (skip_delims_spec ds delim r t) by auto.
  fold start.
  assert (pre ++ ds ++ t :: tok ++ c :: rest = (pre ++ ds) ++ t :: tok ++ c :: rest) as -> by by rewrite <-app_assoc.
  assert (length (pre ++ ds) = start) as Hl by (by rewrite length_app).
  rewrite <-Hl at 1. rewrite list_lookup_middle by done. simpl.
  rewrite (proj2 (Z.eqb_neq t 0)) by lia.
  rewrite <-Hl at 1. rewrite drop_app_length.
  rewrite (app_comm_cons tok), (skip_token_spec (t :: tok) delim r c) by done.
  set (e := (start + length (t :: tok))%nat).
  rewrite (app_assoc (pre ++ ds) (t :: tok)).
  assert (length ((pre ++ ds) ++ t :: tok) = e) as He by (by rewrite length_app, Hl).
  rewrite <-He at 1. rewrite list_lookup_middle by done. simpl.
  destruct (c =? 0) eqn:E; zbool.
  - subst c. by rewrite <-!app_assoc.
  - rewrite <-He at 1. replace (length ((pre ++ ds) ++ t :: tok)) with (length ((pre ++ ds) ++ t :: tok) + 0)%nat at 1 by lia.
    rewrite insert_app_r. simpl. by rewrite <-!app_assoc.
Qed.

Lemma strtok_token_witness :
  strtok (Some 5%nat) (str " " ++ [0]) (str "echo  hi you" ++ [0]) None =
  Some (Some 6%nat, str "echo  hi" ++ 0 :: str "you" ++ [0], Some 9%nat).
Proof.
  apply (strtok_token (str "echo ") (str " ") (str "hi") 32 (str "you" ++ [0]) (str " ") [] None);
    apply (bool_decide_unpack _); vm_compute; exact I.
Defined.
