(* ===== verification/FatNames.v ===== *)
(** Short file names of src/kernel/arch/i386/FAT.c: the checksum, the test for
    the 11-byte directory form, and the conversions between that form and the
    dotted form. Buffers are byte lists; indices run as in the C loops. *)
From S2P Require Import Prelude Machine CString LibC.

(** * ChkSum *)

Fixpoint chksum_loop (FcbNameLen : nat) (pFcbName : list Z) (Sum : Z) : Z :=
  match FcbNameLen with
  | O => Sum
  | S n =>
      chksum_loop n (tail pFcbName)
        (u8 ((if Z.land Sum 1 =? 0 then 0 else 0x80) + (Sum ≫ 1) + at_ pFcbName 0))
  end.

Definition ChkSum (pFcbName : list Z) : Z := chksum_loop 11 pFcbName 0.

(** * testIfFATFormat *)

Definition LOWERCASE_ISSUE : Z := 0x01.
Definition BAD_CHARACTER : Z := 0x02.
Definition NOT_CONVERTED_YET : Z := 0x08.
Definition TOO_MANY_DOTS : Z := 0x10.

(** The [case] labels that fall through to [BAD_CHARACTER]. *)
Definition bad_chars : list Z :=
  [0x22; 0x2A; 0x2B; 0x2C; 0x2F; 0x3A; 0x3B; 0x3C; 0x3D; 0x3E; 0x3F; 0x5B; 0x5C; 0x5D; 0x7C].

(** One round of the loop; [c] is a (signed) [char]. *)
Definition test_char (retVal : Z) (b : Z) : Z :=
  let c := s8 b in
  let retVal := if (c <? 0x20) && negb (c =? 0x05) then Z.lor retVal BAD_CHARACTER else retVal in
  let retVal :=
    if c =? 0x2E then
      let retVal := if Z.land retVal NOT_CONVERTED_YET =? NOT_CONVERTED_YET
                    then Z.lor retVal TOO_MANY_DOTS else retVal in
      Z.lxor retVal NOT_CONVERTED_YET
    else if bool_decide (c ∈ bad_chars) then Z.lor retVal BAD_CHARACTER else retVal in
  if (97 <=? c) && (c <=? 122) then Z.lor retVal LOWERCASE_ISSUE else retVal.

Definition testIfFATFormat (input : list Z) : Z :=
  fold_left test_char (take 11 input) 0.

(** * convertToFATFormat *)

(** [while (counter <= 8)], with [n = 9 - counter] rounds left: the name as
    copied so far, [counter] and [dotPos]. *)
Fixpoint name_loop (n : nat) (input searchName : list Z) (counter : Z) : list Z * Z * Z :=
  match n with
  | O => (searchName, counter, 0)
  | S n' =>
      if (at_ input counter =? 46) || (at_ input counter =? 0)
      then (searchName, counter + 1, counter)
      else name_loop n' input (upd searchName counter (at_ input counter)) (counter + 1)
  end.

(** [while (extCount < 11)], with [n = 11 - extCount] rounds left. *)
Fixpoint ext_loop (n : nat) (input searchName : list Z) (counter extCount : Z) : list Z :=
  match n with
  | O => searchName
  | S n' =>
      let c := if negb (at_ input counter =? 0) then at_ input counter else 32 in
      ext_loop n' input (upd searchName extCount c) (counter + 1) (extCount + 1)
  end.

(** [while (counter < 8)], with [n = 8 - counter] rounds left. *)
Fixpoint pad_loop (n : nat) (searchName : list Z) (counter : Z) : list Z :=
  match n with
  | O => searchName
  | S n' => pad_loop n' (upd searchName counter 32) (counter + 1)
  end.

(** The buffer [input] after the call; [None] when it is too short for the 12
    bytes that [strcpy] writes back. *)
Definition convertToFATFormat (input : list Z) : option (list Z) :=
  let input := uppercase_str input in
  let '(searchName, counter, dotPos) := name_loop 9 input (replicate 13 0) 0 in
  let '(counter, dotPos) := if 9 <? counter then (8, 8) else (counter, dotPos) in
  let searchName := ext_loop 3 input searchName counter 8 in
  let searchName := pad_loop (Z.to_nat (8 - dotPos)) searchName dotPos in
  strcpy input searchName.

(** * convertFromFATFormat *)

(** [for (counter = 0; counter < 8; counter++)]: [output] and [counter]. *)
Fixpoint from_name_loop (n : nat) (input output : list Z) (counter : Z) : list Z * Z :=
  match n with
  | O => (output, counter)
  | S n' =>
      if at_ input counter =? 0x20 then (upd output counter 46, counter)
      else from_name_loop n' input (upd output counter (at_ input counter)) (counter + 1)
  end.

(** [for (counter2 = 8; counter2 < 11; counter2++)]; [counter] is an
    [unsigned short]. *)
Fixpoint from_ext_loop (n : nat) (input output : list Z) (counter counter2 : Z) : list Z * Z :=
  match n with
  | O => (output, counter)
  | S n' =>
      let counter := u16 (counter + 1) in
      if at_ input counter2 =? 0x20 then
        (output, if counter2 =? 8 then u16 (counter - 2) else counter)
      else from_ext_loop n' input (upd output counter (at_ input counter2)) counter (counter2 + 1)
  end.

(** [while (counter < 12)], with [n = 12 - counter] rounds left. *)
Fixpoint from_pad_loop (n : nat) (output : list Z) (counter : Z) : list Z :=
  match n with
  | O => output
  | S n' => from_pad_loop n' (upd output counter 32) (counter + 1)
  end.

(** The caller's [output] buffer (13 bytes) after the call. *)
Definition convertFromFATFormat (input output : list Z) : list Z :=
  if at_ input 0 =? 46 then
    if at_ input 1 =? 46 then default output (strcpy output [46; 46; 0])
    else default output (strcpy output [46; 0])
  else
    let '(output, counter) := from_name_loop 8 input output 0 in
    let output := if counter =? 8 then upd output counter 46 else output in
    let '(output, counter) := from_ext_loop 3 input output counter 8 in
    let counter := u16 (counter + 1) in
    let output := from_pad_loop (Z.to_nat (12 - counter)) output counter in
    upd output 12 0.

(** The first lines of [directorySearch]: the name searched for, copied into a
    zeroed 13-byte array and brought to directory form; [None] when [filepart]
    does not fit. *)
Definition search_key (filepart : list Z) : option (list Z) :=
  match strcpy (replicate 13 0) filepart with
  | None => None
  | Some searchName =>
      if negb (testIfFATFormat searchName =? 0) then convertToFATFormat searchName
      else Some searchName
  end.

Example to_dotted : convertToFATFormat (str "test.c" ++ replicate 7 0) = Some (str "TEST    C  " ++ [0; 0]).
Proof. reflexivity. Qed.

Example from_fat : convertFromFATFormat (str "KERNEL  BIN") (replicate 13 7) = str "KERNEL.BIN  " ++ [0].
Proof. reflexivity. Qed.

(** * Lemmas *)

(** The characters [testIfFATFormat] accepts in the 11-byte form. *)
Definition fat_char_ok (b : Z) : bool :=
  let c := s8 b in
  ((0x20 <=? c) || (c =? 0x05)) && negb (c =? 0x2E) &&
  negb (bool_decide (c ∈ bad_chars)) && negb ((97 <=? c) && (c <=? 122)).

Lemma test_char_flags r b :
  byte_ok b → 0 ≤ r < 32 →
  0 ≤ test_char r b < 32 ∧ (test_char r b = 0 ↔ r = 0 ∧ fat_char_ok b = true).
Proof.
  intros Hb Hr.
  assert (Forall (λ r, 0 ≤ test_char r b < 32 ∧ (test_char r b = 0 ↔ r = 0 ∧ fat_char_ok b = true))
            (seqZ 0 32)) as HF.
  { clear Hr r. by_bytes b. }
  eapply Forall_forall in HF; [exact HF|]. apply elem_of_seqZ. lia.
Qed.

Lemma test_fold_zero bs r :
  bytes_ok bs → 0 ≤ r < 32 →
  fold_left test_char bs r = 0 ↔ r = 0 ∧ Forall (λ b, fat_char_ok b = true) bs.
Proof.
  intros Hbs. revert r; induction Hbs as [|b bs Hb _ IH]; intros r Hr; simpl.
  { split; [done|tauto]. }
  destruct (test_char_flags r b Hb Hr) as [Hr' Hz]. rewrite IH, Hz, Forall_cons by done. tauto.
Qed.

(** The rotation of the checksum, and one step: injective in the sum and in
    the byte. *)
Definition rotr (s : Z) : Z := (if Z.land s 1 =? 0 then 0 else 0x80) + (s ≫ 1).
Definition chk_step (s b : Z) : Z := u8 (rotr s + b).

Lemma rotr_inj s :
  byte_ok s → byte_ok (rotr s) ∧ s = (2 * rotr s) mod 256 + (if rotr s <? 128 then 0 else 1).
Proof. intros Hs. by_bytes s. Qed.

Lemma chk_step_inj s1 s2 b1 b2 :
  byte_ok s1 → byte_ok s2 → byte_ok b1 → byte_ok b2 →
  chk_step s1 b1 = chk_step s2 b2 → (s1 = s2 ↔ b1 = b2).
Proof.
  intros Hs1 Hs2 Hb1 Hb2. unfold chk_step, u8.
  destruct (rotr_inj s1 Hs1) as [Hr1 E1], (rotr_inj s2 Hs2) as [Hr2 E2].
  unfold byte_ok in *. intros Heq. split.
  - intros <-. lia.
  - intros <-. assert (rotr s1 = rotr s2) as Hr by lia. rewrite E1, E2, Hr. done.
Qed.

Lemma chksum_fold n : ∀ p s,
  length p = n → chksum_loop n p s = fold_left chk_step p s.
Proof.
  induction n as [|n IH]; intros [|b p] s Hl; try done. simpl in *.
  rewrite IH by lia. done.
Qed.

Lemma chk_step_ok s b : byte_ok (chk_step s b).
Proof. apply u8_range. Qed.

Lemma chk_fold_ok p s : byte_ok s → byte_ok (fold_left chk_step p s).
Proof. revert s; induction p; intros s Hs; simpl; [done|]. apply IHp, chk_step_ok. Qed.

Lemma chk_fold_inj p : ∀ s1 s2,
  bytes_ok p → byte_ok s1 → byte_ok s2 →
  fold_left chk_step p s1 = fold_left chk_step p s2 → s1 = s2.
Proof.
  induction p as [|b p IH]; intros s1 s2 Hp H1 H2 E; [done|]. inversion Hp; subst. simpl in E.
  apply IH in E; [|done|apply chk_step_ok..].
  by apply (chk_step_inj s1 s2 b b) in E; [apply E|..].
Qed.

(** ** The loops of the conversions *)

Definition name_char (b : Z) : Prop := b ≠ 46 ∧ b ≠ 0.

Lemma name_loop_spec name : ∀ n pre t post k,
  Forall name_char name → t = 46 ∨ t = 0 → (length name < n)%nat → (length name ≤ k)%nat →
  name_loop n (pre ++ name ++ t :: post) (pre ++ replicate k 0) (Z.of_nat (length pre)) =
  (pre ++ name ++ replicate (k - length name) 0,
   Z.of_nat (length pre + length name) + 1, Z.of_nat (length pre + length name)).
Proof.
  induction name as [|b name IH]; intros n pre t post k Hn Ht Hlen Hk;
    (destruct n as [|n]; simpl in Hlen; [lia|]); cbn [name_loop app]; rewrite at_middle by done.
  - assert ((t =? 46) || (t =? 0) = true) as -> by (destruct Ht; subst; done).
    simpl. by rewrite Nat.add_0_r, Nat.sub_0_r.
  - inversion Hn as [|? ? [H46 H0] Hn']; subst.
    rewrite (proj2 (Z.eqb_neq b 46)), (proj2 (Z.eqb_neq b 0)) by done. simpl.
    destruct k as [|k]; simpl in Hk; [lia|]. simpl. rewrite upd_middle by done.
    specialize (IH n (pre ++ [b]) t post k Hn' Ht ltac:(lia) ltac:(lia)).
    rewrite <-!app_assoc in IH. simpl in IH. rewrite length_app in IH. simpl in IH.
    replace (Z.of_nat (length pre) + 1) with (Z.of_nat (length pre + 1)) by lia.
    rewrite IH. by replace (length pre + S (length name))%nat with (length pre + 1 + length name)%nat by lia.
Qed.

Lemma pad_loop_spec n : ∀ pre mid post,
  length mid = n →
  pad_loop n (pre ++ mid ++ post) (Z.of_nat (length pre)) = pre ++ replicate n 32 ++ post.
Proof.
  induction n as [|n IH]; intros pre [|x mid] post Hl; try done. simpl in *.
  rewrite upd_middle by done. specialize (IH (pre ++ [32]) mid post ltac:(lia)).
  rewrite <-!app_assoc, length_app in IH. simpl in IH.
  replace (Z.of_nat (length pre) + 1) with (Z.of_nat (length pre + 1)) by lia. by rewrite IH.
Qed.

Lemma ext_loop_spec input n : ∀ pre mid post counter,
  length mid = n →
  ext_loop n input (pre ++ mid ++ post) counter (Z.of_nat (length pre)) =
  pre ++ map (λ i, if negb (at_ input i =? 0) then at_ input i else 32) (seqZ counter (Z.of_nat n)) ++ post.
Proof.
  induction n as [|n IH]; intros pre [|x mid] post counter Hl; try done. cbn [ext_loop].
  simpl in Hl. rewrite <-app_comm_cons, upd_middle by done.
  set (c := if negb _ then _ else _).
  specialize (IH (pre ++ [c]) mid post (counter + 1) ltac:(lia)).
  rewrite <-!app_assoc, length_app in IH. simpl in IH.
  replace (Z.of_nat (length pre) + 1) with (Z.of_nat (length pre + 1)) by lia. rewrite IH.
  rewrite (seqZ_cons counter) by lia. simpl. do 4 f_equal. rewrite !Z.add_1_r. f_equal. lia.
Qed.

Definition pad (n : nat) (s : list Z) : list Z := s ++ replicate (n - length s) 32.

Lemma length_pad n s : (length s ≤ n)%nat → length (pad n s) = n.
Proof. intros. unfold pad. rewrite length_app, length_replicate. lia. Qed.

Lemma pad_forall (P : Z → Prop) n s : Forall P s → P 32 → Forall P (pad n s).
Proof. intros Hs H32. apply Forall_app; split; [done|by apply Forall_replicate]. Qed.

Lemma uppercase_is_str s : is_str s → is_str (map uppercase s).
Proof.
  intros Hs. apply Forall_map. eapply Forall_impl; [exact Hs|]. intros b Hb. simpl in *.
  assert (byte_ok b) as Hok by (unfold byte_ok; lia). revert Hb. by_bytes b.
Qed.

Lemma uppercase_no_dot b : byte_ok b → b ≠ 46 → uppercase b ≠ 46.
Proof. intros Hb. by_bytes b. Qed.

(** The three extension bytes read after the dot (or after the NUL of a name
    without one), in a buffer whose tail is zero. *)
Lemma ext_read N t E k :
  is_str E → (length E ≤ 3)%nat →
  map (λ i, if negb (at_ (N ++ t :: E ++ replicate k 0) i =? 0)
            then at_ (N ++ t :: E ++ replicate k 0) i else 32)
      (seqZ (Z.of_nat (length N) + 1) (Z.of_nat 3)) = pad 3 E.
Proof.
  intros HE Hl. set (b := N ++ t :: E ++ replicate k 0).
  assert (∀ j : nat, at_ b (Z.of_nat (length N) + 1 + Z.of_nat j) = default 0 ((E ++ replicate k 0) !! j)) as Hat.
  { intros j. unfold b. rewrite at_app_r by lia. unfold at_.
    by replace (Z.to_nat _) with (S j) by lia. }
  assert (∀ j : nat, default 0 (replicate k 0 !! j) = 0) as Hz.
  { intros j. destruct (_ !! _) eqn:El; [|done]. by apply lookup_replicate in El as [-> _]. }
  set (c := Z.of_nat (length N) + 1) in *.
  change (seqZ c (Z.of_nat 3)) with [Z.of_nat 0 + c; Z.of_nat 1 + c; Z.of_nat 2 + c]. cbn [map].
  rewrite !(Z.add_comm _ c), !Hat.
  destruct HE as [|e0 E H0 HE]; [|destruct HE as [|e1 E H1 HE]; [|destruct HE as [|e2 E H2 HE]]];
    [..|destruct E; simpl in Hl; [|lia]]; simpl; rewrite ?Hz; simpl;
    repeat match goal with H : 0 < ?e < 256 |- _ =>
      rewrite (proj2 (Z.eqb_neq e 0)) by lia; clear H end; done.
Qed.

(** The same when exactly three bytes of extension follow the dot. *)
Lemma ext_read3 N t E X :
  is_str E → length E = 3%nat →
  map (λ i, if negb (at_ (N ++ t :: E ++ X) i =? 0) then at_ (N ++ t :: E ++ X) i else 32)
      (seqZ (Z.of_nat (length N) + 1) (Z.of_nat 3)) = pad 3 E.
Proof.
  intros HE Hl. set (b := N ++ t :: E ++ X).
  assert (∀ j : nat, at_ b (Z.of_nat (length N) + 1 + Z.of_nat j) = default 0 ((E ++ X) !! j)) as Hat.
  { intros j. unfold b. rewrite at_app_r by lia. unfold at_.
    by replace (Z.to_nat _) with (S j) by lia. }
  set (c := Z.of_nat (length N) + 1) in *.
  change (seqZ c (Z.of_nat 3)) with [Z.of_nat 0 + c; Z.of_nat 1 + c; Z.of_nat 2 + c]. cbn [map].
  rewrite !(Z.add_comm _ c), !Hat.
  destruct E as [|e0 [|e1 [|e2 [|]]]]; try done.
  unfold is_str in HE. decompose_Forall_hyps.
  rewrite !(proj2 (Z.eqb_neq _ 0)) by lia. done.
Qed.

(** [convertToFATFormat] on a 13-byte buffer: [N] is the upper-case base name,
    [t] the dot or NUL after it, [X] the rest and [E] the extension read. *)
Lemma to_fat_core input N t X E :
  uppercase_str input = N ++ t :: X → length (N ++ t :: X) = 13%nat →
  drop 12 (N ++ t :: X) = [0] →
  is_str N → Forall name_char N → (length N ≤ 8)%nat → is_str E → (length E ≤ 3)%nat →
  t = 46 ∨ t = 0 →
  map (λ i, if negb (at_ (N ++ t :: X) i =? 0) then at_ (N ++ t :: X) i else 32)
      (seqZ (Z.of_nat (length N) + 1) (Z.of_nat 3)) = pad 3 E →
  convertToFATFormat input = Some (pad 8 N ++ pad 3 E ++ [0; 0]).
Proof.
  intros Hup H13 Hdrop HN Hnc HlN HE HlE Ht Hread. unfold convertToFATFormat. rewrite Hup.
  pose proof (name_loop_spec N 9 [] t X 13 Hnc Ht ltac:(lia) ltac:(lia)) as Hl.
  rewrite !app_nil_l in Hl. change (Z.of_nat (length [])) with 0 in Hl.
  rewrite Hl. simpl length. rewrite Nat.add_0_l. rewrite (proj2 (Z.ltb_ge 9 _)) by lia.
  assert (N ++ replicate (13 - length N) 0 =
          (N ++ replicate (8 - length N) 0) ++ replicate 3 0 ++ [0; 0]) as ->.
  { rewrite <-app_assoc. f_equal. change [0; 0] with (replicate 2 0).
    rewrite <-!replicate_add. f_equal. lia. }
  assert (length (N ++ replicate (8 - length N) 0) = 8%nat) as H8
    by (rewrite length_app, length_replicate; lia).
  pose proof (ext_loop_spec (N ++ t :: X) 3 (N ++ replicate (8 - length N) 0) (replicate 3 0) [0; 0]
    (Z.of_nat (length N) + 1) eq_refl) as He.
  rewrite H8 in He. change (Z.of_nat 8) with 8 in He. rewrite He, Hread.
  rewrite <-app_assoc. replace (Z.to_nat _) with (8 - length N)%nat by lia.
  rewrite pad_loop_spec by (by rewrite length_replicate).
  rewrite app_assoc. fold (pad 8 N). rewrite app_assoc.
  assert (length (pad 8 N ++ pad 3 E) = 11%nat) as H11 by (rewrite length_app, !length_pad; lia).
  rewrite strcpy_str.
  - by rewrite H11, Hdrop, <-!app_assoc.
  - apply Forall_app; split; apply pad_forall; done || lia.
  - rewrite H11, H13. lia.
Qed.

Lemma uppercase_name_ok name :
  is_str name → Forall (λ b, b ≠ 46) name → Forall name_char (map uppercase name).
Proof.
  intros HN Hd. apply Forall_map, Forall_forall. intros b Hb.
  pose proof (proj1 (Forall_forall _ _) HN b Hb) as Hb1. simpl in Hb1.
  pose proof (proj1 (Forall_forall _ _) Hd b Hb) as Hb2. simpl in Hb2.
  assert (byte_ok b) by (unfold byte_ok; lia).
  split; [by apply uppercase_no_dot|apply uppercase_nonzero; [done|lia]].
Qed.

(** A zero-padded name, with or without an extension. *)
Lemma to_fat_zeros name t ext k :
  is_str name → Forall (λ b, b ≠ 46) name → (length name ≤ 8)%nat →
  is_str ext → (length ext ≤ 3)%nat →
  t = 46 ∨ t = 0 ∧ ext = [] → (length name + 1 + length ext + k = 13)%nat →
  convertToFATFormat (name ++ t :: ext ++ replicate k 0) =
  Some (pad 8 (map uppercase name) ++ pad 3 (map uppercase ext) ++ [0; 0]).
Proof.
  intros HN Hd HlN HE HlE Ht Hlen.
  apply (to_fat_core _ (map uppercase name) t (map uppercase ext ++ replicate k 0));
    rewrite ?length_map; auto using uppercase_is_str, uppercase_name_ok.
  - destruct Ht as [->|[-> ->]]; [|apply uppercase_str_app; auto with bytes].
    assert (∃ k', k = S k') as [k' ->] by (exists (Nat.pred k); lia). simpl replicate.
    pose proof (uppercase_str_app (name ++ 46 :: ext) (replicate k' 0)) as Hu.
    rewrite map_app, <-!app_assoc in Hu. simpl in Hu. apply Hu.
    apply Forall_app; split; [auto with bytes|]. constructor; [done|auto with bytes].
  - rewrite length_app. simpl. rewrite length_app, !length_map, length_replicate. lia.
  - rewrite app_comm_cons, app_assoc, drop_app_ge, drop_replicate; rewrite length_app; simpl;
      rewrite !length_map; [|lia]. by replace (k - _)%nat with 1%nat by lia.
  - tauto.
  - pose proof (ext_read (map uppercase name) t (map uppercase ext) k (uppercase_is_str _ HE)) as Hr.
    rewrite !length_map in Hr. by apply Hr.
Qed.

(** A name with a full extension, padded with spaces: the dotted form that
    [convertFromFATFormat] produces. *)
Lemma to_fat_spaces name ext k :
  is_str name → Forall (λ b, b ≠ 46) name → is_str ext → length ext = 3%nat →
  (length name + k = 8)%nat →
  convertToFATFormat (name ++ 46 :: ext ++ replicate k 32 ++ [0]) =
  Some (pad 8 (map uppercase name) ++ pad 3 (map uppercase ext) ++ [0; 0]).
Proof.
  intros HN Hd HE HlE Hlen.
  apply (to_fat_core _ (map uppercase name) 46 (map uppercase ext ++ replicate k 32 ++ [0]));
    rewrite ?length_map; auto using uppercase_is_str, uppercase_name_ok; try lia.
  - pose proof (uppercase_str_app (name ++ 46 :: ext ++ replicate k 32) []) as Hu.
    rewrite map_app, <-!app_assoc in Hu. simpl in Hu. rewrite map_app, <-!app_assoc in Hu.
    rewrite Hu.
    + do 4 f_equal. clear. induction k; simpl; [done|]. by f_equal.
    + apply is_str_nonzero, Forall_app; split; [done|]. constructor; [lia|].
      apply Forall_app; split; [done|apply Forall_replicate; lia].
  - rewrite length_app. simpl. rewrite !length_app, !length_map, length_replicate. simpl. lia.
  - rewrite app_comm_cons, !app_assoc, drop_app_ge; rewrite !length_app, length_replicate; simpl;
      rewrite !length_map; [|lia]. by replace (12 - _)%nat with 0%nat by lia.
  - pose proof (ext_read3 (map uppercase name) 46 (map uppercase ext) (replicate k 32 ++ [0])
      (uppercase_is_str _ HE)) as Hr.
    rewrite !length_map in Hr. by apply Hr.
Qed.

(** ** The loops of [convertFromFATFormat] *)

Lemma from_pad_loop_eq n o c : from_pad_loop n o c = pad_loop n o c.
Proof. revert o c; induction n; intros; simpl; auto. Qed.

(** The name part: up to 8 non-space characters, then the dot. *)
Lemma from_name_spec name : ∀ n pre post out x rest,
  Forall (λ b, b ≠ 32) name → length name = length out →
  (n = length name ∨ (length name < n)%nat ∧ ∃ post', post = 32 :: post') →
  let '(output, counter) :=
    from_name_loop n (pre ++ name ++ post) (pre ++ out ++ x :: rest) (Z.of_nat (length pre)) in
  counter = Z.of_nat (length pre + length name) ∧
  upd output counter 46 = pre ++ name ++ 46 :: rest ∧
  ((length name < n)%nat → output = pre ++ name ++ 46 :: rest).
Proof.
  induction name as [|b name IH]; intros n pre post out x rest Hn Hout Hcase.
  - destruct out; [|done]. simpl in *. rewrite Nat.add_0_r. destruct n as [|n]; simpl.
    { split_and!; [done|by rewrite upd_middle|lia]. }
    destruct Hcase as [|[_ [post' ->]]]; [lia|]. rewrite at_middle, Z.eqb_refl by done.
    rewrite upd_middle by done. split_and!; [done|by rewrite upd_middle|done].
  - destruct out as [|o out]; [done|]. inversion Hn; subst. simpl in Hcase.
    destruct n as [|n]; [lia|]. cbn [from_name_loop app]. rewrite at_middle by done.
    rewrite (proj2 (Z.eqb_neq b 32)) by done. rewrite upd_middle by done.
    specialize (IH n (pre ++ [b]) post out x rest ltac:(done) ltac:(simpl in Hout; lia)).
    rewrite <-!app_assoc, length_app in IH. cbn [app length] in IH.
    replace (Z.of_nat (length pre) + 1) with (Z.of_nat (length pre + 1)) by lia.
    destruct (from_name_loop n _ _ _) as [output counter].
    destruct IH as (-> & Hu & Hd); [destruct Hcase as [|[? ?]]; [left|right; split; [|done]]; lia|].
    simpl length. split_and!; [lia|done|]. intros. apply Hd. lia.
Qed.

(** What [convertFromFATFormat] leaves in the caller's buffer: the extension is
    followed by one byte it does not write when it has one or two characters. *)
Definition from_fat_tail (ext : list Z) (stale : Z) : list Z :=
  match ext with
  | [] => []
  | _ => 46 :: ext ++ (if (length ext <? 3)%nat then [stale] else [])
  end.

Definition dotted (name ext : list Z) (stale : Z) : list Z :=
  pad 12 (name ++ from_fat_tail ext stale) ++ [0].

(** The 11 bytes of a directory entry for a base name and an extension. *)
Definition fat_name (name ext : list Z) : list Z := pad 8 name ++ pad 3 ext.

Definition plain_char (b : Z) : Prop := 0 < b < 256 ∧ b ≠ 32 ∧ b ≠ 46.

Lemma at_cons x l i : 0 < i → at_ (x :: l) i = at_ l (i - 1).
Proof. intros. unfold at_. by replace (Z.to_nat i) with (S (Z.to_nat (i - 1))) by lia. Qed.

Lemma from_ext_char n input c2 pre x r c :
  at_ input c2 = c → c ≠ 32 → (1 ≤ length pre ≤ 60)%nat →
  from_ext_loop (S n) input (pre ++ x :: r) (Z.of_nat (length pre) - 1) c2 =
  from_ext_loop n input ((pre ++ [c]) ++ r) (Z.of_nat (length (pre ++ [c])) - 1) (c2 + 1).
Proof.
  intros Hc Hn Hl. cbn [from_ext_loop]. rewrite Hc, (proj2 (Z.eqb_neq c 32)) by done.
  rewrite u16_id by lia. rewrite upd_middle by lia. rewrite <-app_assoc, length_app. simpl.
  f_equal; lia.
Qed.

Lemma from_ext_space n input c2 out k :
  at_ input c2 = 32 → 1 ≤ k ≤ 60 →
  from_ext_loop (S n) input out k c2 = (out, if c2 =? 8 then k - 1 else k + 1).
Proof.
  intros Hc Hk. cbn [from_ext_loop]. rewrite Hc, Z.eqb_refl. f_equal.
  destruct (c2 =? 8); rewrite ?u16_id; rewrite ?u16_id; lia.
Qed.

Lemma from_ext_spec nm ext pre rest :
  length nm = 8%nat → (length ext ≤ 3)%nat → Forall (λ b, b ≠ 32) ext →
  (1 ≤ length pre ≤ 8)%nat → (4 ≤ length rest)%nat →
  from_ext_loop 3 (nm ++ pad 3 ext) (pre ++ 46 :: rest) (Z.of_nat (length pre)) 8 =
  (pre ++ 46 :: ext ++ drop (length ext) rest,
   Z.of_nat (length pre) + (if (length ext =? 0)%nat then -1 else
                  if (length ext =? 3)%nat then 3 else Z.of_nat (length ext) + 1)).
Proof.
  intros Hnm Hext Hns Hpre Hrest. set (input := nm ++ pad 3 ext).
  assert (at_ input 8 = at_ (pad 3 ext) 0) as H8.
  { unfold input. rewrite at_app_r by lia. f_equal. lia. }
  assert (at_ input 9 = at_ (pad 3 ext) 1) as H9.
  { unfold input. rewrite at_app_r by lia. f_equal. lia. }
  assert (at_ input 10 = at_ (pad 3 ext) 2) as H10.
  { unfold input. rewrite at_app_r by lia. f_equal. lia. }
  assert (pre ++ 46 :: rest = (pre ++ [46]) ++ rest) as -> by (by rewrite <-app_assoc).
  assert (Z.of_nat (length pre) = Z.of_nat (length (pre ++ [46])) - 1) as ->
    by (rewrite length_app; simpl; lia).
  destruct rest as [|r0 [|r1 [|r2 [|r3 rest]]]]; simpl in Hrest; try lia.
  destruct ext as [|e0 [|e1 [|e2 [|e3 ext]]]]; simpl in Hext; try lia;
    repeat match goal with H : Forall _ (_ :: _) |- _ => inversion H; clear H; subst end;
    vm_compute at_ in H8; vm_compute at_ in H9; vm_compute at_ in H10.
  all: repeat (erewrite from_ext_char; [|first [exact H8|exact H9|exact H10]|done|rewrite ?length_app; simpl; lia]).
  all: try (erewrite from_ext_space; [|first [exact H8|exact H9|exact H10]|rewrite ?length_app; simpl; lia]).
  all: cbn [from_ext_loop]; rewrite <-?app_assoc; simpl; rewrite ?length_app; simpl; f_equal; lia.
Qed.

Lemma from_finish pre tail_ :
  length (pre ++ tail_) = 13%nat → (length pre ≤ 12)%nat →
  upd (pad_loop (12 - length pre) (pre ++ tail_) (Z.of_nat (length pre))) 12 0 = pad 12 pre ++ [0].
Proof.
  intros Hl Hp. rewrite length_app in Hl.
  destruct (exists_last (l := tail_)) as (mid & z & ->); [by intros ->; simpl in *; lia|].
  rewrite length_app in Hl. simpl in Hl.
  rewrite pad_loop_spec by lia. rewrite app_assoc. fold (pad 12 pre).
  apply upd_middle. by rewrite length_pad by lia.
Qed.

(** The dotted form [convertFromFATFormat] produces, for a base name of 1 to 8
    and an extension of up to 3 ordinary characters. *)
Lemma from_fat_ok name ext out :
  Forall plain_char name → Forall plain_char ext →
  (1 ≤ length name ≤ 8)%nat → (length ext ≤ 3)%nat → length out = 13%nat →
  convertFromFATFormat (fat_name name ext) out =
  dotted name ext (at_ out (Z.of_nat (length name + 1 + length ext))).
Proof.
  intros Hn He Hln Hle Hout. unfold convertFromFATFormat.
  assert ((at_ (fat_name name ext) 0 =? 46) = false) as ->.
  { destruct name as [|b name]; [simpl in Hln; lia|]. inversion Hn as [|? ? (_ & _ & Hb) _]; subst.
    apply Z.eqb_neq. exact Hb. }
  assert (Forall (λ b, b ≠ 32) name) as Hn32 by (eapply Forall_impl; [exact Hn|]; by intros b (_ & ? & _)).
  assert (Forall (λ b, b ≠ 32) ext) as He32 by (eapply Forall_impl; [exact He|]; by intros b (_ & ? & _)).
  assert (∃ o x rest, out = o ++ x :: rest ∧ length o = length name) as (o & x & rest & -> & Ho).
  { exists (take (length name) out). destruct (drop (length name) out) as [|x rest] eqn:Ed.
    - apply (f_equal length) in Ed. rewrite length_drop in Ed. simpl in Ed. lia.
    - exists x, rest. split; [by rewrite <-Ed, take_drop|]. rewrite length_take. lia. }
  rewrite length_app in Hout. simpl in Hout.
  pose proof (from_name_spec name 8 [] (replicate (8 - length name) 32 ++ pad 3 ext) o x rest
    Hn32 (eq_sym Ho)) as HN.
  rewrite !app_nil_l in HN. rewrite app_assoc in HN. change (Z.of_nat (length [])) with 0 in HN.
  fold (pad 8 name) in HN. fold (fat_name name ext) in HN.
  destruct (from_name_loop 8 _ _ 0) as [output counter].
  destruct HN as (-> & Hu & Hlt).
  { destruct (decide (length name = 8%nat)) as [->|]; [by left|right]. split; [lia|].
    destruct (8 - length name)%nat eqn:E; [lia|]. simpl. by eexists. }
  simpl Z.of_nat. change (length [] + length name)%nat with (length name) in *.
  assert ((if Z.of_nat (length name) =? 8 then upd output (Z.of_nat (length name)) 46 else output) =
          name ++ 46 :: rest) as ->.
  { case_if; [done|]. zbool. apply Hlt. lia. }
  unfold fat_name. rewrite from_ext_spec by (done || rewrite ?length_pad; lia).
  assert (at_ (o ++ x :: rest) (Z.of_nat (length name + 1 + length ext)) = at_ rest (Z.of_nat (length ext))) as ->.
  { rewrite at_app_r, at_cons by lia. f_equal. lia. }
  rewrite from_pad_loop_eq. unfold dotted, from_fat_tail.
  destruct ext as [|e0 [|e1 [|e2 [|e3 ext]]]]; simpl in Hle; try lia;
    destruct rest as [|r0 [|r1 [|r2 [|r3 rest]]]]; simpl in Hout; try lia;
    simpl length; simpl drop; simpl; rewrite u16_id by lia.
  - pose proof (from_finish name (46 :: r0 :: r1 :: r2 :: r3 :: rest)) as HF.
    rewrite length_app in HF. simpl in HF. rewrite app_nil_r, <-HF by lia. do 2 f_equal; lia.
  - change (at_ _ (Z.of_nat 1)) with r1.
    pose proof (from_finish (name ++ [46; e0; r1]) (r2 :: r3 :: rest)) as HF.
    rewrite <-!app_assoc, !length_app in HF. simpl in HF. rewrite <-HF by lia. do 2 f_equal; lia.
  - change (at_ _ (Z.of_nat 2)) with r2.
    pose proof (from_finish (name ++ [46; e0; e1; r2]) (r3 :: rest)) as HF.
    rewrite <-!app_assoc, !length_app in HF. simpl in HF. rewrite <-HF by lia. do 2 f_equal; lia.
  - pose proof (from_finish (name ++ [46; e0; e1; e2]) (r3 :: rest)) as HF.
    rewrite <-!app_assoc, !length_app in HF. simpl in HF. rewrite <-HF by lia. do 2 f_equal; lia.
Qed.

Lemma name_loop_full name : ∀ pre post k,
  Forall name_char name → (length name ≤ k)%nat →
  name_loop (length name) (pre ++ name ++ post) (pre ++ replicate k 0) (Z.of_nat (length pre)) =
  (pre ++ name ++ replicate (k - length name) 0, Z.of_nat (length pre + length name), 0).
Proof.
  induction name as [|b name IH]; intros pre post k Hn Hk; simpl length; cbn [name_loop app].
  { by rewrite Nat.add_0_r, Nat.sub_0_r. }
  rewrite at_middle by done. inversion Hn as [|? ? [H46 H0] Hn']; subst.
  rewrite (proj2 (Z.eqb_neq b 46)), (proj2 (Z.eqb_neq b 0)) by done. simpl.
  destruct k as [|k]; simpl in Hk; [lia|]. simpl. rewrite upd_middle by done.
  specialize (IH (pre ++ [b]) post k Hn' ltac:(lia)).
  rewrite <-!app_assoc in IH. simpl in IH. rewrite length_app in IH. simpl in IH.
  replace (Z.of_nat (length pre) + 1) with (Z.of_nat (length pre + 1)) by lia.
  rewrite IH. by replace (length pre + S (length name))%nat with (length pre + 1 + length name)%nat by lia.
Qed.

(** [uppercase_str] on a buffer whose string reaches past [s]. *)
Lemma uppercase_str_prefix s rest :
  Forall (λ b, b ≠ 0) s →
  ∃ R, uppercase_str (s ++ rest) = map uppercase s ++ R ∧
       (bytes_ok rest → bytes_ok R) ∧ length R = length rest.
Proof.
  intros Hs. destruct (cstr_split rest) as [r Er].
  assert (cstr (s ++ rest) = s ++ cstr rest) as Hc.
  { induction Hs as [|b s Hb _ IH]; [done|]. simpl. rewrite (proj2 (Z.eqb_neq b 0)) by done. by rewrite IH. }
  exists (map uppercase (cstr rest) ++ r). unfold uppercase_str. rewrite Hc.
  pose proof (uppercase_loop_spec (s ++ cstr rest) [] r) as HU.
  rewrite !app_nil_l, <-app_assoc, <-Er in HU. change (Z.of_nat (length [])) with 0 in HU.
  split_and!.
  - by rewrite HU, map_app, <-app_assoc.
  - intros Hr. rewrite Er in Hr. apply Forall_app in Hr as [H1 H2]. apply Forall_app; split; [|done].
    apply Forall_map. eapply Forall_impl; [exact H1|]. apply uppercase_byte.
  - rewrite length_app, length_map. rewrite Er at 2. by rewrite length_app.
Qed.

(** * Theorems *)

(** The checksum of the 11-byte name detects every change of a single byte:
    two names that differ in exactly one position have different checksums. *)
Theorem ChkSum_detects p1 b b' p2 :
  bytes_ok (p1 ++ b :: p2) → byte_ok b' → length (p1 ++ b :: p2) = 11%nat → b ≠ b' →
  ChkSum (p1 ++ b :: p2) ≠ ChkSum (p1 ++ b' :: p2).
Proof.
  intros Hok Hb' Hl Hne. apply Forall_app in Hok as [H1 H2]. inversion H2; subst.
  unfold ChkSum. rewrite !chksum_fold by (rewrite length_app in *; done).
  rewrite !fold_left_app. simpl. intros E.
  apply chk_fold_inj in E; [|done|apply chk_step_ok..]. apply Hne.
  assert (byte_ok (fold_left chk_step p1 0)) as Hs by (apply chk_fold_ok; unfold byte_ok; lia).
  by apply (chk_step_inj _ _ b b' Hs Hs) in E; [apply E|..].
Qed.

Lemma ChkSum_detects_witness : ChkSum (str "KERNEL  BIN") ≠ ChkSum (str "KERNAL  BIN").
Proof.
  apply (ChkSum_detects (str "KERN") 69 65 (str "L  BIN"));
    [apply (bool_decide_unpack _); vm_compute; exact I|unfold byte_ok; lia|done|lia].
Defined.

(** [testIfFATFormat] returns 0 exactly when all of the first 11 characters
    are legal in a directory entry: at least 0x20 as signed characters or 0x05,
    none of the reserved ones, no dot and no lower-case letter. In particular
    no number of dots cancels out. *)
Theorem testIfFATFormat_zero input :
  bytes_ok input →
  testIfFATFormat input = 0 ↔ Forall (λ b, fat_char_ok b = true) (take 11 input).
Proof.
  intros Hb. unfold testIfFATFormat. rewrite test_fold_zero; [tauto| |lia].
  by apply Forall_take.
Qed.

Lemma testIfFATFormat_zero_witness : testIfFATFormat (str "KERNEL  BIN") = 0.
Proof.
  apply (testIfFATFormat_zero (str "KERNEL  BIN")); [apply (bool_decide_unpack _); vm_compute; exact I|].
  repeat constructor.
Defined.

(** [convertToFATFormat] on a name in a zeroed 13-byte buffer: a base name
    of up to 8 and an extension of up to 3 characters give the 11-byte directory
    form, upper-case and padded with spaces, with its terminator. *)
Theorem convertToFATFormat_form name ext k :
  is_str name → Forall (λ b, b ≠ 46) name → (length name ≤ 8)%nat →
  is_str ext → (length ext ≤ 3)%nat → (length name + 1 + length ext + k = 13)%nat →
  convertToFATFormat (name ++ 46 :: ext ++ replicate k 0) =
    Some (fat_name (map uppercase name) (map uppercase ext) ++ [0; 0]) ∧
  (ext = [] → convertToFATFormat (name ++ 0 :: replicate k 0) =
    Some (fat_name (map uppercase name) [] ++ [0; 0])).
Proof.
  intros. unfold fat_name. rewrite <-!app_assoc. split; [by apply to_fat_zeros; auto|].
  intros ->. apply (to_fat_zeros name 0 [] k); auto.
Qed.

Lemma convertToFATFormat_form_witness :
  convertToFATFormat (str "boot.cfg" ++ replicate 5 0) = Some (str "BOOT    CFG" ++ [0; 0]).
Proof.
  apply (convertToFATFormat_form (str "boot") (str "cfg") 5);
    try (apply (bool_decide_unpack _); vm_compute; exact I); simpl; lia.
Defined.

(** What [convertFromFATFormat] writes for a directory name: the base name,
    a dot and the extension, spaces up to 12 characters and the terminator; no
    dot without an extension. After an extension of one or two characters one
    byte of the caller's buffer is left as it was. *)
Theorem convertFromFATFormat_form name ext out :
  Forall plain_char name → Forall plain_char ext →
  (1 ≤ length name ≤ 8)%nat → (length ext ≤ 3)%nat → length out = 13%nat →
  convertFromFATFormat (fat_name name ext) out =
  dotted name ext (at_ out (Z.of_nat (length name + 1 + length ext))).
Proof. apply from_fat_ok. Qed.

Lemma convertFromFATFormat_form_witness :
  convertFromFATFormat (str "MAIN    C  ") (replicate 13 0xCC) = str "MAIN.C" ++ [0xCC] ++ str "     " ++ [0].
Proof.
  apply (convertFromFATFormat_form (str "MAIN") (str "C") (replicate 13 0xCC));
    try (apply (bool_decide_unpack _); vm_compute; exact I); try (simpl; lia); done.
Defined.

Lemma plain_is_str s : Forall plain_char s → is_str s ∧ Forall (λ b, b ≠ 46) s.
Proof. intros H. split; eapply Forall_impl; try exact H; intros b (? & ? & ?); done. Qed.

Lemma fat_char_upper b : byte_ok b → fat_char_ok b = true → uppercase b = b.
Proof. intros Hb. by_bytes b. Qed.

Lemma map_upper_id s :
  is_str s → Forall (λ b, fat_char_ok b = true) s → map uppercase s = s.
Proof.
  intros Hs Hf. induction s as [|b s IH]; [done|]. inversion Hs; inversion Hf; subst. simpl.
  rewrite IH, fat_char_upper by (done || unfold byte_ok; lia). done.
Qed.

(** Without an extension the padded name is in the format already. *)
Lemma bare_key name :
  is_str name → Forall (λ b, fat_char_ok b = true) name → (1 ≤ length name ≤ 8)%nat →
  take 11 (pad 12 name ++ [0]) = fat_name name [] ∧ testIfFATFormat (pad 12 name ++ [0]) = 0.
Proof.
  intros Hs Hok Hl. assert (length (pad 12 name) = 12%nat) as Hld by (apply length_pad; lia).
  assert (take 11 (pad 12 name ++ [0]) = fat_name name []) as Ht.
  { rewrite take_app_le by lia. unfold fat_name. change (pad 3 []) with (replicate 3 32).
    unfold pad. rewrite take_app_ge by lia. rewrite take_replicate, <-app_assoc. f_equal.
    rewrite <-replicate_add. f_equal. lia. }
  split; [done|]. unfold testIfFATFormat. rewrite Ht. apply test_fold_zero.
  - rewrite <-Ht. apply Forall_take, Forall_app. split; [|by repeat constructor]. apply is_str_bytes.
    by apply pad_forall; [|lia].
  - lia.
  - split; [done|]. apply Forall_app; split; by apply pad_forall.
Qed.

(** A name with a dot among its first eleven bytes is not. *)
Lemma dotted_key name rest :
  bytes_ok (name ++ 46 :: rest) → (1 ≤ length name ≤ 8)%nat → testIfFATFormat (name ++ 46 :: rest) ≠ 0.
Proof.
  intros Hb Hl Hz. unfold testIfFATFormat in Hz. apply test_fold_zero in Hz as [_ Hz]; [|by apply Forall_take|lia].
  rewrite (take_app_ge name) in Hz by lia. apply Forall_app in Hz as [_ Hz].
  destruct (11 - length name)%nat eqn:E11; [lia|]. by inversion Hz.
Qed.

(** The key under which a dotted name is looked up. *)
Lemma name_key name ext out :
  Forall plain_char name → Forall plain_char ext →
  Forall (λ b, fat_char_ok b = true) (name ++ ext) →
  (1 ≤ length name ≤ 8)%nat → length ext = 0%nat ∨ length ext = 3%nat → length out = 13%nat →
  ∃ key, search_key (convertFromFATFormat (fat_name name ext) out) = Some key ∧
         take 11 key = fat_name name ext.
Proof.
  intros Hn He Hok Hln Hle Hout. apply Forall_app in Hok as [Hokn Hoke].
  destruct (plain_is_str _ Hn) as [Hsn Hdn], (plain_is_str _ He) as [Hse Hde].
  rewrite from_fat_ok by (done || lia). unfold search_key, dotted.
  set (x := at_ out _). set (d := name ++ from_fat_tail ext x).
  assert (is_str (pad 12 d) ∧ length (pad 12 d) = 12%nat) as [Hsd Hld].
  { unfold d, from_fat_tail. destruct Hle as [Hl|Hl]; destruct ext as [|e ext]; try done.
    - rewrite app_nil_r. split; [by apply pad_forall; [|lia]|apply length_pad; lia].
    - simpl in Hl. replace (length (e :: ext) <? 3)%nat with false by (symmetry; apply Nat.ltb_ge; simpl; lia).
      rewrite app_nil_r. split.
      + apply pad_forall; [|lia]. apply Forall_app; split; [done|]. by constructor; [lia|].
      + apply length_pad. rewrite length_app. simpl. lia. }
  rewrite strcpy_str by (try done; rewrite Hld, length_replicate; lia).
  rewrite Hld. change (drop 13 (replicate 13 0)) with (@nil Z).
  assert (bytes_ok (pad 12 d ++ [0])) as Hbytes.
  { apply Forall_app; split; [by apply is_str_bytes|]. by repeat constructor. }
  destruct Hle as [Hl|Hl].
  - destruct ext; [|done]. unfold d in *. simpl in *. rewrite app_nil_r in *.
    destruct (bare_key name Hsn Hokn Hln) as [Ht ->]. by eexists.
  - assert (pad 12 d ++ [0] = name ++ 46 :: ext ++ replicate (8 - length name) 32 ++ [0]) as Heq.
    { unfold pad, d, from_fat_tail. destruct ext as [|e ext]; [done|]. simpl in Hl.
      replace (length (e :: ext) <? 3)%nat with false by (symmetry; apply Nat.ltb_ge; simpl; lia).
      rewrite app_nil_r, length_app. simpl. rewrite <-!app_assoc. simpl. do 4 f_equal.
      do 2 f_equal. lia. }
    rewrite Heq in Hbytes |- *. pose proof (dotted_key name _ Hbytes Hln) as Hnz.
    rewrite (proj2 (Z.eqb_neq _ 0)) by done. simpl. rewrite to_fat_spaces by (done || lia).
    eexists; split; [done|]. rewrite !map_upper_id by done. rewrite app_assoc. fold (fat_name name ext).
    rewrite take_app_le; [apply take_ge|]; unfold fat_name; rewrite length_app, !length_pad; lia.
Qed.

(** C16: the search key of a dotted name is the directory name it came from: for
    a legal name with no extension or a full three-character one, the dotted
    form that [convertFromFATFormat] prints (into any buffer) is looked up by
    [directorySearch] under exactly the 11 bytes of the entry. *)
Theorem name_roundtrip name ext out :
  Forall plain_char name → Forall plain_char ext →
  Forall (λ b, fat_char_ok b = true) (name ++ ext) →
  (1 ≤ length name ≤ 8)%nat → length ext = 0%nat ∨ length ext = 3%nat → length out = 13%nat →
  ∃ key, search_key (convertFromFATFormat (fat_name name ext) out) = Some key ∧
         take 11 key = fat_name name ext.
Proof. apply name_key. Qed.

Lemma name_roundtrip_witness :
  ∃ key, search_key (convertFromFATFormat (str "KERNEL  BIN") (replicate 13 0xCC)) = Some key ∧
         take 11 key = str "KERNEL  BIN".
Proof.
  apply (name_roundtrip (str "KERNEL") (str "BIN") (replicate 13 0xCC));
    try (apply (bool_decide_unpack _); vm_compute; exact I); try (simpl; lia); done.
Defined.

(** A name with no dot in its first nine characters loses its base name:
    [counter] ends at 9, the sanity check asks for more than 9, and the padding
    loop then starts at [dotPos] 0 and blanks all eight characters. *)
Theorem convertToFATFormat_overlong nine rest :
  is_str nine → Forall (λ b, b ≠ 46) nine → length nine = 9%nat → length rest = 4%nat →
  bytes_ok rest →
  ∃ e, convertToFATFormat (nine ++ rest) = Some e ∧ take 8 e = replicate 8 32.
Proof.
  intros Hs Hd H9 H4 Hr. unfold convertToFATFormat.
  destruct (uppercase_str_prefix nine rest) as (R & -> & HR); [by apply is_str_nonzero|].
  assert (bytes_ok (map uppercase nine ++ R)) as Hok.
  { apply Forall_app; split; [by apply is_str_bytes, uppercase_is_str|]. by apply HR. }
  set (N := map uppercase nine) in *. set (b := N ++ R) in *.
  assert (length N = 9%nat) as HN by (unfold N; by rewrite length_map).
  assert (name_loop 9 b (replicate 13 0) 0 = (N ++ replicate 4 0, 9, 0)) as ->.
  { pose proof (name_loop_full N [] R 13 (uppercase_name_ok _ Hs Hd) ltac:(lia)) as HL.
    by rewrite HN in HL. }
  change (9 <? 9) with false. cbv iota beta.
  assert (N ++ replicate 4 0 = take 8 N ++ (drop 8 N ++ [0; 0]) ++ [0; 0]) as ->.
  { rewrite <-app_assoc. rewrite app_assoc, take_drop. done. }
  assert (length (take 8 N) = 8%nat) as H8 by (rewrite length_take; lia).
  pose proof (ext_loop_spec b 3 (take 8 N) (drop 8 N ++ [0; 0]) [0; 0] 9) as HE.
  rewrite H8 in HE. change (Z.of_nat 8) with 8 in HE.
  rewrite HE by (rewrite length_app, length_drop; simpl; lia).
  set (X := map _ _). change (Z.to_nat (8 - 0)) with 8%nat.
  pose proof (pad_loop_spec 8 [] (take 8 N) (X ++ [0; 0]) H8) as HP.
  rewrite !app_nil_l in HP. change (Z.of_nat (length [])) with 0 in HP. rewrite HP.
  rewrite app_assoc, strcpy_str.
  - eexists; split; [done|]. rewrite <-app_assoc. by rewrite take_app_length'.
  - apply Forall_app; split; [by apply Forall_replicate|]. apply Forall_map, Forall_forall.
    intros i _. destruct (at_ b i =? 0) eqn:E; simpl; [lia|]. zbool.
    pose proof (at_byte b i Hok) as Hb. unfold u8 in Hb. lia.
  - unfold X, b. rewrite length_app, length_map, length_seqZ, length_replicate, length_app, HN.
    rewrite (proj2 HR), H4. change (Z.to_nat (Z.of_nat 3)) with 3%nat. lia.
Qed.

Lemma convertToFATFormat_overlong_witness :
  ∃ e, convertToFATFormat (str "potatoes1.md" ++ [0]) = Some e ∧ take 8 e = replicate 8 32.
Proof.
  apply (convertToFATFormat_overlong (str "potatoes1") (str ".md" ++ [0]));
    try (apply (bool_decide_unpack _); vm_compute; exact I); done.
Defined.
