(* ===== verification/FatTypes.v ===== *)
(** The data of the FAT driver: the packed structs of src/kernel/arch/i386/FAT.h
    with their byte layout, the driver's state, and its debug output.

    The driver's state is the physical memory (the disk window at 0x40000 is
    part of it), the device behind the ports, the globals of FAT.c and the calls
    it makes to the console, in order. *)
From S2P Require Import Prelude Machine.

(** * Constants of FAT.h *)

Definition END_CLUSTER_32 : Z := 0x0FFFFFF8.
Definition BAD_CLUSTER_32 : Z := 0x0FFFFFF7.
Definition FREE_CLUSTER_32 : Z := 0x00000000.
Definition END_CLUSTER_16 : Z := 0xFFF8.
Definition BAD_CLUSTER_16 : Z := 0xFFF7.
Definition FREE_CLUSTER_16 : Z := 0x0000.
Definition END_CLUSTER_12 : Z := 0xFF8.
Definition BAD_CLUSTER_12 : Z := 0xFF7.
Definition FREE_CLUSTER_12 : Z := 0x000.

Definition FILE_READ_ONLY : Z := 0x01.
Definition FILE_HIDDEN : Z := 0x02.
Definition FILE_SYSTEM : Z := 0x04.
Definition FILE_VOLUME_ID : Z := 0x08.
Definition FILE_DIRECTORY : Z := 0x10.
Definition FILE_ARCHIVE : Z := 0x20.
Definition FILE_LONG_NAME : Z :=
  Z.lor (Z.lor (Z.lor FILE_READ_ONLY FILE_HIDDEN) FILE_SYSTEM) FILE_VOLUME_ID.
Definition ENTRY_FREE : Z := 0xE5.
Definition ENTRY_END : Z := 0x00.

Definition DISK_READ_LOCATION : Z := 0x40000.
Definition DISK_WRITE_LOCATION : Z := 0x40000.

(** * Packed structs *)

(** Little-endian fields at a byte offset. *)
Definition f8 (bs : list Z) (o : nat) : Z := default 0 (bs !! o).
Definition f16 (bs : list Z) (o : nat) : Z := le16 (f8 bs o) (f8 bs (o + 1)).
Definition f32 (bs : list Z) (o : nat) : Z :=
  le32 (f8 bs o) (f8 bs (o + 1)) (f8 bs (o + 2)) (f8 bs (o + 3)).
Definition fbytes (bs : list Z) (o n : nat) : list Z := take n (drop o bs).

Record fat_extBS_32 := {
  table_size_32 : Z;
  extended_flags : Z;
  fat_version : Z;
  root_cluster : Z;
  fat_info : Z;
  backup_BS_sector : Z;
  reserved_0 : list Z;
  drive_number : Z;
  reserved_1 : Z;
  boot_signature : Z;
  volume_id : Z;
  volume_label : list Z;
  fat_type_label : list Z;
}.

Definition fat_extBS_32_of (bs : list Z) : fat_extBS_32 := {|
  table_size_32 := f32 bs 0;
  extended_flags := f16 bs 4;
  fat_version := f16 bs 6;
  root_cluster := f32 bs 8;
  fat_info := f16 bs 12;
  backup_BS_sector := f16 bs 14;
  reserved_0 := fbytes bs 16 12;
  drive_number := f8 bs 28;
  reserved_1 := f8 bs 29;
  boot_signature := f8 bs 30;
  volume_id := f32 bs 31;
  volume_label := fbytes bs 35 11;
  fat_type_label := fbytes bs 46 8;
|}.

Record fat_BS := {
  bootjmp : list Z;
  oem_name : list Z;
  bytes_per_sector : Z;
  sectors_per_cluster : Z;
  reserved_sector_count : Z;
  table_count : Z;
  root_entry_count : Z;
  total_sectors_16 : Z;
  media_type : Z;
  table_size_16 : Z;
  sectors_per_track : Z;
  head_side_count : Z;
  hidden_sector_count : Z;
  total_sectors_32 : Z;
  extended_section : list Z;
}.

(** [sizeof(fat_BS_t)]. *)
Definition fat_BS_size : nat := 90.

Definition fat_BS_of (bs : list Z) : fat_BS := {|
  bootjmp := fbytes bs 0 3;
  oem_name := fbytes bs 3 8;
  bytes_per_sector := f16 bs 11;
  sectors_per_cluster := f8 bs 13;
  reserved_sector_count := f16 bs 14;
  table_count := f8 bs 16;
  root_entry_count := f16 bs 17;
  total_sectors_16 := f16 bs 19;
  media_type := f8 bs 21;
  table_size_16 := f16 bs 22;
  sectors_per_track := f16 bs 24;
  head_side_count := f16 bs 26;
  hidden_sector_count := f32 bs 28;
  total_sectors_32 := f32 bs 32;
  extended_section := fbytes bs 36 54;
|}.

Record directory_entry := {
  file_name : list Z;
  attributes : Z;
  reserved0 : Z;
  creation_time_tenths : Z;
  creation_time : Z;
  creation_date : Z;
  last_accessed : Z;
  high_bits : Z;
  last_modification_time : Z;
  last_modification_date : Z;
  low_bits : Z;
  file_size : Z;
}.

(** [sizeof(directory_entry_t)]. *)
Definition entry_size : nat := 32.

Definition entry_of (bs : list Z) : directory_entry := {|
  file_name := fbytes bs 0 11;
  attributes := f8 bs 11;
  reserved0 := f8 bs 12;
  creation_time_tenths := f8 bs 13;
  creation_time := f16 bs 14;
  creation_date := f16 bs 16;
  last_accessed := f16 bs 18;
  high_bits := f16 bs 20;
  last_modification_time := f16 bs 22;
  last_modification_date := f16 bs 24;
  low_bits := f16 bs 26;
  file_size := f32 bs 28;
|}.

Definition entry_bytes (e : directory_entry) : list Z :=
  file_name e ++ [attributes e; reserved0 e; creation_time_tenths e] ++
  bytes16 (creation_time e) ++ bytes16 (creation_date e) ++ bytes16 (last_accessed e) ++
  bytes16 (high_bits e) ++ bytes16 (last_modification_time e) ++
  bytes16 (last_modification_date e) ++ bytes16 (low_bits e) ++ bytes32 (file_size e).

(** The values an entry can hold. *)
Record entry_ok (e : directory_entry) : Prop := {
  ok_name : bytes_ok (file_name e) ∧ length (file_name e) = 11%nat;
  ok_bytes : byte_ok (attributes e) ∧ byte_ok (reserved0 e) ∧ byte_ok (creation_time_tenths e);
  ok_times : 0 ≤ creation_time e < 65536 ∧ 0 ≤ creation_date e < 65536 ∧
             0 ≤ last_accessed e < 65536 ∧ 0 ≤ last_modification_time e < 65536 ∧
             0 ≤ last_modification_date e < 65536;
  ok_cluster : 0 ≤ high_bits e < 65536 ∧ 0 ≤ low_bits e < 65536;
  ok_size : 0 ≤ file_size e < 4294967296;
}.

(** * The driver's state *)

(** Calls to the console: [terminal_newline()], [terminal_writestring(s)],
    [printf(s)] of a literal, and [printf(c)] of an integer where the address of
    a format string is expected. *)
Inductive event :=
| EvNewline
| EvWrite (s : list Z)
| EvPrintf (s : list Z)
| EvPrintfAddr (a : Z).

Record world (D : Type) := World {
  w_mem : memory;
  w_dev : D;
  w_log : list event;
  fat_type : Z;
  first_fat_sector : Z;
  first_data_sector : Z;
  total_clusters : Z;
  bootsect : fat_BS;
  (** the bytes that [memcpy(&bootsect, bootstruct, 512)] writes behind the object *)
  bootsect_spill : list Z;
}.
Arguments World {D}.
Arguments w_mem {D} _.
Arguments w_dev {D} _.
Arguments w_log {D} _.
Arguments fat_type {D} _.
Arguments first_fat_sector {D} _.
Arguments first_data_sector {D} _.
Arguments total_clusters {D} _.
Arguments bootsect {D} _.
Arguments bootsect_spill {D} _.

Section World.
Context {D : Type}.
Implicit Types w : world D.

(** Memory, device and console may change; the globals stay. *)
Definition put_io (m : memory) (d : D) (l : list event) w : world D :=
  World m d l (fat_type w) (first_fat_sector w) (first_data_sector w) (total_clusters w)
    (bootsect w) (bootsect_spill w).

Definition put_mem (m : memory) w : world D := put_io m (w_dev w) (w_log w) w.
Definition put_dev (d : D) w : world D := put_io (w_mem w) d (w_log w) w.
Definition put_log (l : list event) w : world D := put_io (w_mem w) (w_dev w) l w.

Definition emit (e : event) : M (world D) unit := modify (λ w, put_log (w_log w ++ [e]) w).
Definition on_dev {A} : M D A → M (world D) A := zoom w_dev put_dev.

Definition terminal_newline : M (world D) unit := emit EvNewline.
Definition terminal_writestring (s : list Z) : M (world D) unit := emit (EvWrite s).
Definition printf_lit (s : list Z) : M (world D) unit := emit (EvPrintf s).
Definition printf_int (v : Z) : M (world D) unit := emit (EvPrintfAddr (u32 v)).

(** * The debug printers at the end of FAT.c *)

Fixpoint d_printss (s : list Z) : M (world D) unit :=
  match s with
  | [] => ret tt
  | c :: s' => if c =? 0 then ret tt else printf_int (s8 c) ;; d_printss s'
  end.

Fixpoint d_printhex_loop (num : Z) (n : nat) : M (world D) unit :=
  match n with
  | O => ret tt
  | S n' =>
      let buf := Z.land (num ≫ (Z.of_nat n' * 4)) 0xF in
      printf_int (if buf <? 10 then buf + 48 else buf + (65 - 10)) ;;
      d_printhex_loop num n'
  end.

Definition d_printhex (num digits : Z) : M (world D) unit :=
  d_printhex_loop num (Z.to_nat digits).

Fixpoint d_printsss (s : list Z) (n : nat) {struct n} : M (world D) unit :=
  match n with
  | O => ret tt
  | S n' =>
      match s with
      | [] => raise OutOfBounds
      | c :: s' => printf_int (if 32 <? s8 c then s8 c else 46) ;; d_printsss s' n'
      end
  end.
End World.

(** * Lemmas *)

Lemma le16_bytes v : 0 ≤ v < 65536 → le16 (v mod 256) ((v / 256) mod 256) = v.
Proof. unfold le16. lia. Qed.

Lemma le32_bytes v :
  0 ≤ v < 4294967296 →
  le32 (v mod 256) ((v / 256) mod 256) ((v / 65536) mod 256) ((v / 16777216) mod 256) = v.
Proof. unfold le32. lia. Qed.

Lemma bytes16_le b0 b1 : byte_ok b0 → byte_ok b1 → bytes16 (le16 b0 b1) = [b0; b1].
Proof. unfold bytes16, le16, byte_ok. intros. repeat f_equal; lia. Qed.

Lemma bytes32_le b0 b1 b2 b3 :
  byte_ok b0 → byte_ok b1 → byte_ok b2 → byte_ok b3 →
  bytes32 (le32 b0 b1 b2 b3) = [b0; b1; b2; b3].
Proof. unfold bytes32, le32, byte_ok. intros. repeat f_equal; lia. Qed.

Lemma length_entry_bytes e : length (file_name e) = 11%nat → length (entry_bytes e) = entry_size.
Proof. intros H. unfold entry_bytes. rewrite length_app, H. done. Qed.

(** Decoding the bytes of an entry, and encoding the entry some bytes hold. *)
Lemma entry_of_bytes e : entry_ok e → entry_of (entry_bytes e) = e.
Proof.
  intros [[_ Hl] _ (?&?&?&?&?) [? ?] ?]. destruct e as [nm at_ r0 ctt ct cd la hb lmt lmd lb fs].
  simpl in *. do 11 (destruct nm as [|? nm]; [done|]). destruct nm; [|done].
  unfold entry_of, entry_bytes, fbytes, f8, f16, f32; simpl.
  f_equal; first [by apply le16_bytes|by apply le32_bytes].
Qed.

Lemma entry_bytes_of bs :
  bytes_ok bs → length bs = entry_size → entry_bytes (entry_of bs) = bs ∧ entry_ok (entry_of bs).
Proof.
  intros Hb Hl. unfold entry_size in Hl.
  do 32 (destruct bs as [|? bs]; [done|]). destruct bs; [|done].
  unfold bytes_ok in Hb. decompose_Forall_hyps.
  unfold entry_bytes, entry_of, fbytes, f8, f16, f32; cbn -[bytes16 bytes32 le16 le32]. split.
  - rewrite !bytes16_le, bytes32_le by done. done.
  - split; simpl; [split; [|done]; repeat (apply Forall_cons_2; [done|]); apply Forall_nil_2|done|..]; unfold le16, le32, byte_ok in *; lia.
Qed.

(** Computations that only extend the console log. *)
Section Logs.
Context {D : Type}.
Implicit Types (w : world D) (m : M (world D) unit).

Definition logs m : Prop := ∀ w, ∃ l, m w = Done tt (put_log l w).

Lemma put_log_self w : put_log (w_log w) w = w.
Proof. by destruct w. Qed.

Lemma logs_ret : logs (ret tt).
Proof. intros w. exists (w_log w). by rewrite put_log_self. Qed.

Lemma logs_emit e : logs (emit e).
Proof. intros w. by eexists. Qed.

Lemma logs_bind m1 m2 : logs m1 → logs m2 → logs (m1 ;; m2).
Proof.
  intros H1 H2 w. unfold bind. destruct (H1 w) as [l1 ->].
  destruct (H2 (put_log l1 w)) as [l2 ->]. by exists l2.
Qed.

Lemma logs_printss s : logs (d_printss s).
Proof.
  induction s as [|c s IH]; simpl; [apply logs_ret|].
  destruct (c =? 0); [apply logs_ret|]. apply logs_bind; [apply logs_emit|done].
Qed.

Lemma logs_printhex num digits : logs (d_printhex num digits).
Proof.
  unfold d_printhex. induction (Z.to_nat digits) as [|n IH]; [apply logs_ret|].
  cbn [d_printhex_loop]. apply logs_bind; [apply logs_emit|done].
Qed.

Lemma logs_printsss s n : (n ≤ length s)%nat → logs (d_printsss s n).
Proof.
  revert s; induction n as [|n IH]; intros s Hl; [apply logs_ret|].
  destruct s as [|c s]; simpl in *; [lia|]. apply logs_bind; [apply logs_emit|apply IH; lia].
Qed.

(** A message followed by the rest of the function. *)
Lemma logs_then {A} m (k : M (world D) A) w :
  logs m → ∃ l, (m ;; k) w = k (put_log l w).
Proof. intros H. destruct (H w) as [l E]. exists l. by rewrite (bind_done _ _ _ _ _ E). Qed.
End Logs.

Create HintDb logs.
#[export] Hint Resolve logs_ret logs_emit logs_bind logs_printss logs_printhex logs_printsss : logs.

(** Run the message the code prints next. *)
Ltac print_step :=
  match goal with
  | |- context [bind ?m (λ _, ?k) ?w] =>
      let l := fresh "l" in
      destruct (logs_then m k w) as [l ->]; [solve [auto with logs]|]
  end.

Lemma put_log_log {D} l1 l2 (w : world D) : put_log l2 (put_log l1 w) = put_log l2 w.
Proof. done. Qed.
