(* ===== verification/AtaPio.v ===== *)
(** The disk driver of src/kernel/arch/i386/FAT.c: [int13h_read_o] and
    [int13h_write_o], programmed I/O on the primary ATA channel with 28-bit
    addresses, and what it gives its clients.

    [AtaDisk] states what the driver relies on of the drive; [BlockDevice] is
    the interface the file system is verified against; the theorems at the end
    show that the driver on any [AtaDisk] implements [BlockDevice]. *)
From S2P Require Import Prelude Machine LibC FatTypes.

Definition part_start_lba : Z := 33543720.
Definition part_length : Z := 2 * 8385930.

(** * The driver *)

Section Driver.
Context {D : Type} `{PortIO D}.
Variable fuel : nat.
Abbreviation W := (world D).

(** LBA and command, as both routines send them; [sector] is absolute. *)
Definition send_lba (num_blocks sector command : Z) : M D unit :=
  outb 0x1F1 0 ;;
  outb 0x1F2 num_blocks ;;
  outb 0x1F3 (u8 sector) ;;
  outb 0x1F4 (u8 (sector ≫ 8)) ;;
  outb 0x1F5 (u8 (sector ≫ 16)) ;;
  outb 0x1F6 (Z.lor (Z.lor 0xE0 (0 ≪ 4)) (Z.land (sector ≫ 24) 0x0F)) ;;
  outb 0x1F7 command.

(** [while (!(inb(0x1F7) & 0x08))] of [int13h_read_o]: [left] is [100 - timeout];
    the result is whether the drive became ready. *)
Fixpoint wait_drq (left : nat) : M W bool :=
  match left with
  | O => ret false
  | S l =>
      let! st := on_dev (inb 0x1F7) in
      if Z.land st 0x08 =? 0 then
        terminal_writestring (str ".") ;;
        match l with
        | O => terminal_newline ;;
               terminal_writestring (str "[ FAIL ] Attempting to initialize FAT...") ;;
               ret false
        | S _ => wait_drq l
        end
      else ret true
  end.

(** [buffer[idx] = inw(0x1F0)], [n] words left. *)
Fixpoint read_words (n : nat) (buffer : Z) : M W unit :=
  match n with
  | O => ret tt
  | S n' =>
      let! v := on_dev (inw 0x1F0) in
      modify (λ w, put_mem (store16 (w_mem w) buffer v) w) ;;
      read_words n' (buffer + 2)
  end.

Fixpoint read_blocks (n : nat) (buffer : Z) : M W Z :=
  match n with
  | O => ret 0
  | S n' =>
      terminal_newline ;;
      terminal_writestring (str "[      ] Waiting for device to be ready...") ;;
      let! ready := wait_drq 100 in
      if ready then read_words 256 buffer ;; read_blocks n' (buffer + 512)
      else ret (-1)
  end.

Definition int13h_read_o (sector_offset num_blocks readLocationOffset : Z) : M W Z :=
  if part_length <? u32 (sector_offset + num_blocks) then ret (-1)
  else if 0x7F <? num_blocks then ret (-1)
  else
    let sector_offset := u32 (sector_offset + part_start_lba) in
    on_dev (send_lba num_blocks sector_offset 0x20) ;;
    read_blocks (Z.to_nat num_blocks) (u32 (DISK_READ_LOCATION + readLocationOffset)).

(** [while (1) { ... }] before each block of [int13h_write_o]. *)
Fixpoint wait_write (f : nat) : M D unit :=
  match f with
  | O => raise OutOfFuel
  | S f' =>
      let! s1 := inb 0x1F7 in
      if Z.land s1 0x01 =? 0x01 then printss fuel (str "error1" ++ [10]) ;; wait_write f' else
      let! s2 := inb 0x1F7 in
      if negb (Z.land s2 0x40 =? 0x40) then printss fuel (str "Not ready!" ++ [10]) ;; wait_write f' else
      let! s3 := inb 0x1F7 in
      if Z.land s3 0x80 =? 0x80 then printss fuel (str "Busy!" ++ [10]) ;; wait_write f' else
      let! s4 := inb 0x1F7 in
      if negb (Z.land s4 0x08 =? 0x08)
      then printss fuel (str "Have no data/not ready to recieve PIO!" ++ [10]) ;; wait_write f'
      else ret tt
  end.

(** [outw(0x1F0, buffer[idx])] and the delay, [n] words left. *)
Fixpoint write_words (n : nat) (m : memory) (buffer : Z) : M D unit :=
  match n with
  | O => ret tt
  | S n' =>
      outw 0x1F0 (load16 m buffer) ;;
      (let! _ := inb 0x323 in let! _ := inb 0x323 in let! _ := inb 0x323 in ret tt) ;;
      write_words n' m (buffer + 2)
  end.

Fixpoint write_blocks (n : nat) (m : memory) (buffer : Z) : M D unit :=
  match n with
  | O => ret tt
  | S n' => wait_write fuel ;; write_words 256 m buffer ;; write_blocks n' m (buffer + 512)
  end.

(** [while (inb(0x1F7) & 0x80) {}] *)
Fixpoint wait_idle (f : nat) : M D unit :=
  match f with
  | O => raise OutOfFuel
  | S f' => let! s := inb 0x1F7 in if Z.land s 0x80 =? 0 then ret tt else wait_idle f'
  end.

Definition int13h_write_o (sector_offset num_blocks writeLocationOffset : Z) : M W Z :=
  if part_length <? u32 (sector_offset + num_blocks) then ret (-1)
  else if 0x7F <? num_blocks then ret (-1)
  else
    let sector_offset := u32 (sector_offset + part_start_lba) in
    on_dev (send_lba num_blocks sector_offset 0x30) ;;
    let! m := gets w_mem in
    on_dev (write_blocks (Z.to_nat num_blocks) m (u32 (DISK_WRITE_LOCATION + writeLocationOffset)) ;;
            outb 0x1F7 0xE7 ;;
            wait_idle fuel) ;;
    ret 0.

Definition int13h_read (sector_offset num_blocks : Z) : M W Z :=
  int13h_read_o sector_offset num_blocks 0.

Definition int13h_write (sector_offset num_blocks : Z) : M W Z :=
  int13h_write_o sector_offset num_blocks 0.
End Driver.

(** * What the driver relies on of the drive *)

(** The data phase a drive is in: words still to be read (data-in), words of the
    current sector already received (data-out), or none. *)
Inductive xfer :=
| XNone
| XIn (lba : Z) (left : nat) (done : nat)
| XOut (lba : Z) (left : nat) (got : list Z).

(** Writing the task file and a command. *)
Definition ata_issue `{PortIO D} (n lba command : Z) (d : D) : D :=
  port_outb 0x1F7 command
  (port_outb 0x1F6 (Z.lor 0xE0 (lba / 2 ^ 24))
  (port_outb 0x1F5 ((lba / 2 ^ 16) mod 256)
  (port_outb 0x1F4 ((lba / 2 ^ 8) mod 256)
  (port_outb 0x1F3 (lba mod 256)
  (port_outb 0x1F2 n (port_outb 0x1F1 0 d)))))).

(** The next state of a data-in transfer after one word, and of a data-out
    transfer, which stores the sector with its last word. *)
Definition next_in (lba : Z) (left done : nat) : xfer :=
  if (done =? 255)%nat then
    match left with S (S l) => XIn (lba + 1) (S l) 0 | _ => XNone end
  else XIn lba left (S done).

Definition next_out (lba : Z) (left : nat) (got : list Z) (v : Z) : xfer :=
  if (length got =? 255)%nat then
    match left with S (S l) => XOut (lba + 1) (S l) [] | _ => XNone end
  else XOut lba left (got ++ [v]).

(** The documented behaviour of READ SECTORS (0x20), WRITE SECTORS (0x30) and
    FLUSH CACHE (0xE7) in LBA mode. [ata_busy] counts the status reads until the
    drive is ready; it stays below 100, the driver's patience. While the drive
    is busy BSY (bit 7) is set, DRQ (bit 3) is clear and the other status bits
    are unspecified. Other ports do not disturb the drive. *)
Class AtaDisk (D : Type) `{UART D} := {
  ata_sector : D → Z → list Z;
  ata_xfer : D → xfer;
  ata_busy : D → nat;
  ata_busy_max : ∀ d, (ata_busy d < 100)%nat;
  ata_sector_ok : ∀ d lba,
    length (ata_sector d lba) = 256%nat ∧ Forall (λ v, 0 ≤ v < 65536) (ata_sector d lba);
  ata_read_cmd : ∀ d n lba, 1 ≤ n < 256 → 0 ≤ lba < 2 ^ 28 →
    let d' := ata_issue n lba 0x20 d in
    ata_xfer d' = XIn lba (Z.to_nat n) 0 ∧ ∀ x, ata_sector d' x = ata_sector d x;
  ata_write_cmd : ∀ d n lba, 1 ≤ n < 256 → 0 ≤ lba < 2 ^ 28 →
    let d' := ata_issue n lba 0x30 d in
    ata_xfer d' = XOut lba (Z.to_nat n) [] ∧ ∀ x, ata_sector d' x = ata_sector d x;
  ata_flush_cmd : ∀ d, ata_xfer d = XNone →
    let d' := port_outb 0x1F7 0xE7 d in
    ata_xfer d' = XNone ∧ ∀ x, ata_sector d' x = ata_sector d x;
  ata_status : ∀ d, let '(s, d') := port_inb 0x1F7 d in
    ata_xfer d' = ata_xfer d ∧ (∀ x, ata_sector d' x = ata_sector d x) ∧
    ata_busy d' = Nat.pred (ata_busy d) ∧
    (ata_busy d = 0%nat → Z.testbit s 0 = false ∧ Z.testbit s 7 = false ∧ Z.testbit s 6 = true ∧
       Z.testbit s 3 = match ata_xfer d with XNone => false | _ => true end) ∧
    (ata_busy d ≠ 0%nat → Z.testbit s 7 = true ∧ Z.testbit s 3 = false);
  ata_data_in : ∀ d lba l k, ata_xfer d = XIn lba (S l) k → (k < 256)%nat →
    k ≠ 0%nat ∨ ata_busy d = 0%nat →
    let '(v, d') := port_inw 0x1F0 d in
    ata_sector d lba !! k = Some v ∧ ata_xfer d' = next_in lba (S l) k ∧
    ∀ x, ata_sector d' x = ata_sector d x;
  ata_data_out : ∀ d lba l got v, ata_xfer d = XOut lba (S l) got → (length got < 256)%nat →
    0 ≤ v < 65536 → got ≠ [] ∨ ata_busy d = 0%nat →
    let d' := port_outw 0x1F0 v d in
    ata_xfer d' = next_out lba (S l) got v ∧
    ∀ x, ata_sector d' x =
         if decide (x = lba ∧ length got = 255%nat) then got ++ [v] else ata_sector d x;
  ata_other_in : ∀ d p, p = 0x3FD ∨ p = 0x323 →
    let '(_, d') := port_inb p d in
    ata_xfer d' = ata_xfer d ∧ ata_busy d' = ata_busy d ∧ ∀ x, ata_sector d' x = ata_sector d x;
  ata_other_out : ∀ d v, let d' := port_outb 0x3F8 v d in
    ata_xfer d' = ata_xfer d ∧ ata_busy d' = ata_busy d ∧ ∀ x, ata_sector d' x = ata_sector d x;
}.

(** * What the driver gives the file system *)

(** Sectors are numbered from the start of the partition. *)
Class BlockDevice (D : Type) `{PortIO D} := {
  blk : D → Z → list Z;
  blk_fuel : nat;
  blk_ok : ∀ d s, length (blk d s) = 512%nat ∧ bytes_ok (blk d s);
  blk_read : ∀ (w : world D) s n off,
    0 ≤ s → 1 ≤ n ≤ 0x7F → s + n ≤ part_length →
    ∃ d' l', int13h_read_o s n off w =
      Done 0 (put_io (store_bytes (w_mem w) (u32 (DISK_READ_LOCATION + off))
                        (concat (map (blk (w_dev w)) (seqZ s n)))) d' l' w) ∧
      ∀ x, blk d' x = blk (w_dev w) x;
  blk_write : ∀ fuel (w : world D) s n off,
    (blk_fuel ≤ fuel)%nat → 0 ≤ s → 1 ≤ n ≤ 0x7F → s + n ≤ part_length →
    ∃ d' l', int13h_write_o fuel s n off w = Done 0 (put_io (w_mem w) d' l' w) ∧
      ∀ x, blk d' x =
        if decide (s ≤ x < s + n)
        then load_bytes (w_mem w) (u32 (DISK_WRITE_LOCATION + off) + 512 * (x - s)) 512
        else blk (w_dev w) x;
}.

(** * Lemmas *)

(** A status bit test of the driver, on the byte the port returned. *)
Lemma status_bit s k :
  0 ≤ k < 8 → Z.land (u8 s) (2 ^ k) = if Z.testbit s k then 2 ^ k else 0.
Proof. intros Hk. by rewrite land_bit, testbit_u8 by lia. Qed.

Lemma on_dev_done {D A} (m : M D A) (w : world D) a d :
  m (w_dev w) = Done a d → on_dev m w = Done a (put_dev d w).
Proof. intros E. unfold on_dev, zoom. by rewrite E. Qed.

Definition words_bytes (ws : list Z) : list Z := concat (map bytes16 ws).

Lemma length_words_bytes ws : length (words_bytes ws) = (2 * length ws)%nat.
Proof. induction ws as [|v ws IH]; [done|]. unfold words_bytes in *. simpl. lia. Qed.

Lemma words_bytes_ok ws : bytes_ok (words_bytes ws).
Proof.
  induction ws as [|v ws IH]; [by constructor|]. apply Forall_app; split; [apply bytes16_ok|done].
Qed.

(** The words of a memory block. *)
Fixpoint load_words (m : memory) (a : Z) (n : nat) : list Z :=
  match n with O => [] | S n' => load16 m a :: load_words m (a + 2) n' end.

Lemma words_bytes_load m a n : words_bytes (load_words m a n) = load_bytes m a (2 * n).
Proof.
  revert a; induction n as [|n IH]; intros a; [done|].
  change (words_bytes (load_words m a (S n)))
    with (bytes16 (load16 m a) ++ words_bytes (load_words m (a + 2) n)).
  unfold load16 at 1. rewrite bytes16_le by apply load8_range. rewrite IH.
  replace (2 * S n)%nat with (S (S (2 * n))) by lia. simpl. rewrite <-Z.add_assoc. done.
Qed.

(** The task file as the driver sends it is that of the drive's documentation. *)
Lemma send_lba_issue `{PortIO D} n lba cmd (d : D) :
  0 ≤ n < 256 → 0 ≤ lba < 2 ^ 28 → 0 ≤ cmd < 256 →
  send_lba n lba cmd d = Done tt (ata_issue n lba cmd d).
Proof.
  intros Hn Hl Hc. unfold send_lba, ata_issue, bind, outb.
  rewrite !Z.shiftr_div_pow2 by lia.
  change (2 ^ 24) with 16777216. change (2 ^ 28) with 268435456 in Hl.
  change (2 ^ 16) with 65536. change (2 ^ 8) with 256.
  assert (Z.land (lba / 16777216) 15 = lba / 16777216) as ->.
  { change 15 with (Z.ones 4). rewrite Z.land_ones by done. change (2 ^ 4) with 16. lia. }
  assert (u8 (Z.lor (Z.lor 0xE0 (0 ≪ 4)) (lba / 16777216)) = Z.lor 0xE0 (lba / 16777216)) as ->.
  { change (Z.lor 0xE0 (0 ≪ 4)) with 0xE0.
    assert (byte_ok (lba / 16777216)) as Hb by (unfold byte_ok; lia).
    assert (lba / 16777216 < 16) as Hh by lia. revert Hh.
    generalize dependent (lba / 16777216). intros h Hh. by_bytes h. }
  rewrite !(u8_id cmd), !(u8_id n) by lia.
  assert (∀ x, u8 (u8 x) = x mod 256) as Hu by (intros; unfold u8; lia). rewrite !Hu.
  done.
Qed.

Section AtaFacts.
Context {D : Type} `{AtaDisk D}.
Implicit Types (d : D) (w : world D).

(** The drive holds the same sectors. *)
Definition same_disk d d' : Prop := ∀ x, ata_sector d' x = ata_sector d x.

Lemma same_trans d1 d2 d3 : same_disk d1 d2 → same_disk d2 d3 → same_disk d1 d3.
Proof. intros H12 H23 x. by rewrite H23, H12. Qed.

Lemma wait_drq_ready left w lba l k :
  ata_xfer (w_dev w) = XIn lba (S l) k → (ata_busy (w_dev w) < left)%nat →
  ∃ d' l', wait_drq left w = Done true (put_io (w_mem w) d' l' w) ∧
    ata_xfer d' = XIn lba (S l) k ∧ same_disk (w_dev w) d' ∧ ata_busy d' = 0%nat.
Proof.
  revert w; induction left as [|left IH]; intros w Hx Hb; [lia|]. cbn [wait_drq].
  pose proof (ata_status (w_dev w)) as HS.
  destruct (port_inb 0x1F7 (w_dev w)) as [s d1] eqn:Es.
  destruct HS as (Hx1 & Hd1 & Hb1 & Hready & Hbusy).
  assert (inb 0x1F7 (w_dev w) = Done (u8 s) d1) as E by (unfold inb; change (u16 0x1F7) with 0x1F7; by rewrite Es).
  rewrite (bind_done _ _ _ _ _ (on_dev_done _ _ _ _ E)).
  pose proof (status_bit s 3 ltac:(lia)) as H3. change (2 ^ 3) with 8 in H3. rewrite H3.
  destruct (decide (ata_busy (w_dev w) = 0%nat)) as [Hz|Hz].
  - destruct (Hready Hz) as (_ & _ & _ & ->). rewrite Hx.
    exists d1, (w_log w). split_and!; [done|congruence|done|lia].
  - rewrite (proj2 (Hbusy Hz)). cbn [Z.eqb].
    destruct left as [|left]; [lia|].
    unfold bind at 1, terminal_writestring, emit at 1, modify.
    destruct (IH (put_log (w_log (put_dev d1 w) ++ [EvWrite (str ".")]) (put_dev d1 w)))
      as (d2 & l2 & E2 & Hx2 & Hd2 & Hb2); [simpl; by rewrite Hx1|simpl; lia|].
    exists d2, l2. rewrite E2. split_and!; [done|done|by eapply same_trans|done].
Qed.

Lemma read_words_S n buffer w v d1 :
  inw 0x1F0 (w_dev w) = Done v d1 →
  read_words (S n) buffer w =
  read_words n (buffer + 2) (put_mem (store16 (w_mem w) buffer v) (put_dev d1 w)).
Proof. intros E. cbn [read_words]. by rewrite (bind_done _ _ _ _ _ (on_dev_done _ _ _ _ E)). Qed.

Lemma read_words_in n : ∀ k w buffer lba l,
  (k + S n = 256)%nat → ata_xfer (w_dev w) = XIn lba (S l) k →
  k ≠ 0%nat ∨ ata_busy (w_dev w) = 0%nat →
  ∃ d', read_words (S n) buffer w =
    Done tt (put_io (store_bytes (w_mem w) buffer (words_bytes (drop k (ata_sector (w_dev w) lba))))
               d' (w_log w) w) ∧
    ata_xfer d' = match l with O => XNone | S _ => XIn (lba + 1) l 0 end ∧ same_disk (w_dev w) d'.
Proof.
  induction n as [|n IH]; intros k w buffer lba l Hk Hx Hb.
  all: pose proof (ata_data_in (w_dev w) lba l k Hx ltac:(lia) Hb) as HI.
  all: destruct (port_inw 0x1F0 (w_dev w)) as [v d1] eqn:Ev; destruct HI as (Hv & Hx1 & Hd1).
  all: assert (0 ≤ v < 65536) as Hvr
    by (eapply (Forall_lookup_1 _ _ _ _ (proj2 (ata_sector_ok (w_dev w) lba))); exact Hv).
  all: assert (inw 0x1F0 (w_dev w) = Done v d1) as E
    by (unfold inw; change (u16 0x1F0) with 0x1F0; by rewrite Ev, u16_id).
  all: rewrite (drop_S _ _ _ Hv), (read_words_S _ _ _ _ _ E).
  - assert (k = 255%nat) as -> by lia.
    exists d1. split_and!; [|by rewrite Hx1; unfold next_in; destruct l|done].
    rewrite drop_ge; [done|]. rewrite (proj1 (ata_sector_ok _ _)). done.
  - destruct (IH (S k) (put_mem (store16 (w_mem w) buffer v) (put_dev d1 w)) (buffer + 2) lba l)
      as (d2 & E2 & Hx2 & Hd2); [lia| |by left|].
    { simpl. rewrite Hx1. unfold next_in. rewrite (proj2 (Nat.eqb_neq k 255)) by lia. done. }
    rewrite E2. exists d2. split_and!; [|done|by eapply same_trans].
    simpl w_dev. rewrite Hd1.
    change (words_bytes (v :: ?X)) with (bytes16 v ++ words_bytes X).
    by rewrite store_bytes_app.
Qed.

Lemma read_blocks_in n : ∀ w buffer lba,
  ata_xfer (w_dev w) = XIn lba (S n) 0 →
  ∃ d' l', read_blocks (S n) buffer w =
    Done 0 (put_io (store_bytes (w_mem w) buffer
              (concat (map (λ x, words_bytes (ata_sector (w_dev w) x)) (seqZ lba (Z.of_nat (S n))))))
              d' l' w) ∧ same_disk (w_dev w) d'.
Proof.
  induction n as [|n IH]; intros w buffer lba Hx.
  all: set (w1 := put_log (w_log w ++ [EvNewline] ++
         [EvWrite (str "[      ] Waiting for device to be ready...")]) w).
  all: destruct (wait_drq_ready 100 w1 lba _ 0 Hx (ata_busy_max _)) as (d2 & l2 & E2 & Hx2 & Hd2 & Hb2).
  all: set (w2 := put_io (w_mem w1) d2 l2 w1).
  all: destruct (read_words_in 255 0 w2 buffer lba _ eq_refl Hx2 (or_intror Hb2)) as (d3 & E3 & Hx3 & Hd3).
  all: assert (∀ k, read_blocks (S k) buffer w = read_blocks k (buffer + 512)
    (put_io (store_bytes (w_mem w) buffer (words_bytes (ata_sector (w_dev w) lba))) d3 l2 w)) as Hstep.
  1,3: intros k; cbn [read_blocks]; unfold bind at 1, terminal_newline, emit at 1, modify;
    unfold bind at 1, terminal_writestring, emit at 1, modify; simpl w_log; rewrite put_log_log, <-app_assoc;
    fold w1; rewrite (bind_done _ _ _ _ _ E2); cbv iota; rewrite (bind_done _ _ _ _ _ E3);
    simpl w_dev; rewrite Hd2; done.
  all: rewrite Hstep; rewrite (seqZ_cons lba) by lia; cbn [map concat]; rewrite store_bytes_app.
  - exists d3, l2. split; [done|]. by eapply same_trans.
  - set (w3 := put_io (store_bytes (w_mem w) buffer (words_bytes (ata_sector (w_dev w) lba))) d3 l2 w).
    destruct (IH w3 (buffer + 512) (lba + 1) Hx3) as (d4 & l4 & E4 & Hd4).
    exists d4, l4. split; [|by repeat (eapply same_trans; [eassumption|])].
    rewrite E4. replace (Z.pred (Z.of_nat (S (S n)))) with (Z.of_nat (S n)) by lia.
    rewrite length_words_bytes, (proj1 (ata_sector_ok _ _)), <-Z.add_1_r.
    erewrite map_ext; [done|]. intros x. simpl. rewrite (Hd3 x). simpl. by rewrite (Hd2 x).
Qed.

(** ** Writing *)

(** The serial port does not disturb the drive. *)
Definition quiet_disk d d' : Prop :=
  ata_xfer d' = ata_xfer d ∧ ata_busy d' = ata_busy d ∧ same_disk d d'.

Lemma quiet_refl d : quiet_disk d d.
Proof. done. Qed.

Lemma quiet_trans d1 d2 d3 : quiet_disk d1 d2 → quiet_disk d2 d3 → quiet_disk d1 d3.
Proof.
  intros (?&?&?) (?&?&?). split_and!; [congruence|congruence|by eapply same_trans].
Qed.

Lemma inb_quiet p d v d' : p = 0x3FD ∨ p = 0x323 → inb p d = Done v d' → quiet_disk d d'.
Proof.
  intros Hp. unfold inb. assert (u16 p = p) as -> by (destruct Hp; subst; done).
  pose proof (ata_other_in d p Hp) as HQ. destruct (port_inb p d) as [x d1].
  intros [= _ <-]. exact HQ.
Qed.

Lemma wait_set_quiet f d d' : wait_set f (TTY + LSR) 0x20 d = Done tt d' → quiet_disk d d'.
Proof.
  revert d; induction f as [|f IH]; intros d E; [done|]. cbn [wait_set] in E.
  apply bind_inv in E as (v & d1 & E1 & E2).
  pose proof (inb_quiet _ _ _ _ (or_introl eq_refl) E1) as HQ.
  destruct (Z.land v 0x20 =? 0); [eapply quiet_trans; eauto|]. by injection E2 as <-.
Qed.

Lemma putcc_raw_quiet f c d d' : putcc_raw f c d = Done tt d' → quiet_disk d d'.
Proof.
  intros E. apply bind_inv in E as ([] & d1 & E1 & E2). injection E2 as <-.
  eapply quiet_trans; [by eapply wait_set_quiet|]. apply (ata_other_out d1).
Qed.

Lemma putcc_quiet f c d d' : putcc f c d = Done tt d' → quiet_disk d d'.
Proof.
  intros E. apply bind_inv in E as ([] & d1 & E1 & E2).
  eapply quiet_trans; [|by eapply putcc_raw_quiet].
  destruct (s8 c =? 0x0A); [by eapply putcc_raw_quiet|by injection E1 as <-].
Qed.

Lemma putstring_quiet f s d d' : putstring f s d = Done tt d' → quiet_disk d d'.
Proof.
  revert d; induction s as [|c s IH]; intros d E; simpl in E; [by injection E as <-|].
  destruct (c =? 0); [by injection E as <-|].
  apply bind_inv in E as ([] & d1 & E1 & E2). eapply quiet_trans; [by eapply putcc_quiet|auto].
Qed.

(** One status read: the state only gets one poll closer to ready. *)
Lemma status_read d :
  ∃ s d', inb 0x1F7 d = Done (u8 s) d' ∧ ata_xfer d' = ata_xfer d ∧ same_disk d d' ∧
    ata_busy d' = Nat.pred (ata_busy d) ∧
    (ata_busy d = 0%nat → Z.land (u8 s) 0x01 = 0 ∧ Z.land (u8 s) 0x80 = 0 ∧
       Z.land (u8 s) 0x40 = 0x40 ∧
       (ata_xfer d ≠ XNone → Z.land (u8 s) 0x08 = 0x08)) ∧
    (ata_busy d ≠ 0%nat → Z.land (u8 s) 0x80 = 0x80 ∧ Z.land (u8 s) 0x08 = 0).
Proof.
  pose proof (ata_status d) as HS. unfold inb. change (u16 0x1F7) with 0x1F7.
  destruct (port_inb 0x1F7 d) as [s d'].
  destruct HS as (Hx & Hd & Hb & Hr & Hbz). exists s, d'. split_and!; try done.
  - intros Hz. destruct (Hr Hz) as (H0' & H7 & H6 & H3).
    pose proof (status_bit s 0 ltac:(lia)) as B0. pose proof (status_bit s 7 ltac:(lia)) as B7.
    pose proof (status_bit s 6 ltac:(lia)) as B6. pose proof (status_bit s 3 ltac:(lia)) as B3.
    rewrite H0' in B0. rewrite H7 in B7. rewrite H6 in B6. rewrite H3 in B3.
    split_and!; [exact B0|exact B7|exact B6|]. intros Hne. destruct (ata_xfer d); [done|exact B3..].
  - intros Hnz. destruct (Hbz Hnz) as (H7 & H3).
    pose proof (status_bit s 7 ltac:(lia)) as B7. pose proof (status_bit s 3 ltac:(lia)) as B3.
    rewrite H7 in B7. rewrite H3 in B3. done.
Qed.

Lemma wait_idle_done f d :
  (ata_busy d < f)%nat →
  ∃ d', wait_idle f d = Done tt d' ∧ same_disk d d'.
Proof.
  revert d; induction f as [|f IH]; intros d Hb; [lia|]. cbn [wait_idle].
  destruct (status_read d) as (s1 & d1 & E1 & Hx1 & Hd1 & Hb1 & Hr1 & Hbz).
  rewrite (bind_done _ _ _ _ _ E1). destruct (decide (ata_busy d = 0%nat)) as [Hz|Hnz].
  - destruct (Hr1 Hz) as (_ & -> & _). by exists d1.
  - destruct (Hbz Hnz) as [-> _]. destruct (IH d1) as (d2 & E2 & Hd2); [lia|].
    exists d2. split; [done|by eapply same_trans].
Qed.

Section Writing.
Variable fuel : nat.
Hypothesis Huart : (uart_max < fuel)%nat.

Lemma printss_quiet s d :
  bytes_ok s → ∃ d', printss fuel s d = Done tt d' ∧ quiet_disk d d'.
Proof.
  intros Hs. destruct (putstring_sends fuel Huart s d Hs) as (d' & E & _).
  exists d'. split; [exact E|]. by eapply putstring_quiet.
Qed.

Lemma wait_write_ready f d :
  ata_xfer d ≠ XNone → (ata_busy d < f)%nat →
  ∃ d', wait_write fuel f d = Done tt d' ∧ ata_xfer d' = ata_xfer d ∧ same_disk d d' ∧
        ata_busy d' = 0%nat.
Proof.
  revert d; induction f as [|f IH]; intros d Hx Hb; [lia|]. cbn [wait_write].
  assert (∀ s d1, bytes_ok s → ata_xfer d1 = ata_xfer d → same_disk d d1 →
    (ata_busy d1 < f)%nat → ∃ d', (printss fuel s ;; wait_write fuel f) d1 = Done tt d' ∧
    ata_xfer d' = ata_xfer d ∧ same_disk d d' ∧ ata_busy d' = 0%nat) as Hretry.
  { intros s d1 Hs Hx1 Hd1 Hb1. destruct (printss_quiet s d1 Hs) as (d2 & E2 & Hx2 & Hb2 & Hd2).
    rewrite (bind_done _ _ _ _ _ E2). destruct (IH d2) as (d3 & E3 & Hx3 & Hd3 & Hb3); [congruence|lia|].
    exists d3. split_and!; [done|congruence| |done]. by repeat (eapply same_trans; [eassumption|]). }
  destruct (status_read d) as (s1 & d1 & E1 & Hx1 & Hd1 & Hb1 & Hr1 & _).
  rewrite (bind_done _ _ _ _ _ E1).
  destruct (Z.land (u8 s1) 1 =? 1) eqn:T1.
  { apply Hretry; [apply (bool_decide_unpack _); vm_compute; exact I|done..|].
    destruct (decide (ata_busy d = 0%nat)) as [Hz|]; [|lia].
    destruct (Hr1 Hz) as [Hl _]. rewrite Hl in T1. done. }
  destruct (status_read d1) as (s2 & d2 & E2 & Hx2 & Hd2 & Hb2 & Hr2 & _).
  rewrite (bind_done _ _ _ _ _ E2).
  destruct (negb (Z.land (u8 s2) 0x40 =? 0x40)) eqn:T2.
  { apply Hretry; [apply (bool_decide_unpack _); vm_compute; exact I|congruence|by eapply same_trans|].
    destruct (decide (ata_busy d1 = 0%nat)) as [Hz|]; [|lia].
    destruct (Hr2 Hz) as (_ & _ & Hl & _). rewrite Hl in T2. done. }
  destruct (status_read d2) as (s3 & d3 & E3 & Hx3 & Hd3 & Hb3 & Hr3 & _).
  rewrite (bind_done _ _ _ _ _ E3).
  assert (same_disk d d3) as Hd03 by (by repeat (eapply same_trans; [eassumption|])).
  destruct (Z.land (u8 s3) 0x80 =? 0x80) eqn:T3.
  { apply Hretry; [apply (bool_decide_unpack _); vm_compute; exact I|congruence|done|].
    destruct (decide (ata_busy d2 = 0%nat)) as [Hz|]; [|lia].
    destruct (Hr3 Hz) as (_ & Hl & _ & _). rewrite Hl in T3. done. }
  destruct (status_read d3) as (s4 & d4 & E4 & Hx4 & Hd4 & Hb4 & Hr4 & Hbz4).
  rewrite (bind_done _ _ _ _ _ E4).
  destruct (decide (ata_busy d3 = 0%nat)) as [Hz|Hnz].
  - destruct (Hr4 Hz) as (_ & _ & _ & ->); [|congruence]. exists d4.
    split_and!; [done|congruence|by eapply same_trans|lia].
  - destruct (Hbz4 Hnz) as [_ ->].
    apply Hretry; [apply (bool_decide_unpack _); vm_compute; exact I|congruence|by eapply same_trans|lia].
Qed.

Lemma write_word_step m buffer n d lba l got :
  ata_xfer d = XOut lba (S l) got → (length got < 256)%nat → got ≠ [] ∨ ata_busy d = 0%nat →
  ∃ d', write_words (S n) m buffer d = write_words n m (buffer + 2) d' ∧
    ata_xfer d' = next_out lba (S l) got (load16 m buffer) ∧
    ∀ x, ata_sector d' x = if decide (x = lba ∧ length got = 255%nat)
                           then got ++ [load16 m buffer] else ata_sector d x.
Proof.
  intros Hx Hl Hb. cbn [write_words].
  destruct (ata_data_out d lba l got (load16 m buffer) Hx Hl (load16_range _ _) Hb) as (Hx1 & Hd1).
  set (d1 := port_outw 0x1F0 (load16 m buffer) d) in *.
  assert (outw 0x1F0 (load16 m buffer) d = Done tt d1) as E1.
  { unfold outw. by rewrite (u16_id (load16 m buffer)) by apply load16_range. }
  rewrite (bind_done _ _ _ _ _ E1).
  assert (∀ d, ∃ v d', inb 0x323 d = Done v d' ∧ quiet_disk d d') as Hdelay.
  { intros d0. destruct (inb 0x323 d0) as [v d'|e d'] eqn:E.
    - exists v, d'. split; [done|]. eapply inb_quiet; [by right|exact E].
    - unfold inb in E. by destruct (port_inb _ d0). }
  destruct (Hdelay d1) as (v2 & d2 & E2 & Q2), (Hdelay d2) as (v3 & d3 & E3 & Q3),
    (Hdelay d3) as (v4 & d4 & E4 & Q4).
  assert (quiet_disk d1 d4) as (HxQ & _ & HdQ) by (by repeat (eapply quiet_trans; [eassumption|])).
  exists d4. split_and!.
  - unfold bind at 1. rewrite (bind_done _ _ _ _ _ E2), (bind_done _ _ _ _ _ E3), (bind_done _ _ _ _ _ E4).
    done.
  - congruence.
  - intros x. by rewrite HdQ, Hd1.
Qed.

Lemma write_words_out n : ∀ m buffer d lba l got,
  (length got + S n = 256)%nat → ata_xfer d = XOut lba (S l) got →
  got ≠ [] ∨ ata_busy d = 0%nat →
  ∃ d', write_words (S n) m buffer d = Done tt d' ∧
    ata_xfer d' = match l with O => XNone | S _ => XOut (lba + 1) l [] end ∧
    ∀ x, ata_sector d' x = if decide (x = lba) then got ++ load_words m buffer (S n) else ata_sector d x.
Proof.
  induction n as [|n IH]; intros m buffer d lba l got Hl Hx Hb.
  all: edestruct (write_word_step m buffer) as (d1 & -> & Hx1 & Hd1); [exact Hx|lia|exact Hb|].
  - exists d1. split_and!; [done| |].
    + rewrite Hx1. unfold next_out. rewrite (proj2 (Nat.eqb_eq _ 255)) by lia. by destruct l.
    + intros x. rewrite Hd1. repeat case_decide; try done; tauto || lia.
  - destruct (IH m (buffer + 2) d1 lba l (got ++ [load16 m buffer])) as (d2 & E2 & Hx2 & Hd2).
    + rewrite length_app. simpl. lia.
    + rewrite Hx1. unfold next_out. by rewrite (proj2 (Nat.eqb_neq _ 255)) by lia.
    + left. by destruct got.
    + exists d2. split_and!; [done|done|]. intros x. rewrite Hd2, Hd1, <-app_assoc.
      repeat case_decide; try done; lia.
Qed.

Lemma write_blocks_out n : ∀ m buffer d lba,
  (100 ≤ fuel)%nat → ata_xfer d = XOut lba (S n) [] →
  ∃ d', write_blocks fuel (S n) m buffer d = Done tt d' ∧ ata_xfer d' = XNone ∧
    ∀ x, ata_sector d' x =
      if decide (lba ≤ x < lba + Z.of_nat (S n)) then load_words m (buffer + 512 * (x - lba)) 256
      else ata_sector d x.
Proof.
  induction n as [|n IH]; intros m buffer d lba Hf Hx.
  all: destruct (wait_write_ready fuel d) as (d1 & E1 & Hx1 & Hd1 & Hb1);
    [by rewrite Hx|pose proof (ata_busy_max d); lia|]; rewrite Hx in Hx1.
  all: destruct (write_words_out 255 m buffer d1 lba _ [] eq_refl Hx1 (or_intror Hb1)) as (d2 & E2 & Hx2 & Hd2).
  all: assert (∀ k, write_blocks fuel (S k) m buffer d = write_blocks fuel k m (buffer + 512) d2) as Hstep
    by (intros k; cbn [write_blocks]; rewrite (bind_done _ _ _ _ _ E1), (bind_done _ _ _ _ _ E2); done).
  all: rewrite Hstep.
  - exists d2. split_and!; [done..|]. intros x. rewrite Hd2, Hd1.
    repeat case_decide; try lia; [|done]. subst x. by rewrite Z.sub_diag, Z.add_0_r.
  - destruct (IH m (buffer + 512) d2 (lba + 1) Hf Hx2) as (d3 & E3 & Hx3 & Hd3).
    exists d3. split_and!; [done..|]. intros x. rewrite Hd3, Hd2, Hd1.
    repeat case_decide; try lia; try done.
    + f_equal. lia.
    + subst x. by rewrite Z.sub_diag, Z.add_0_r.
Qed.
End Writing.

(** ** The driver implements the block interface *)

Definition ata_blk d (s : Z) : list Z := words_bytes (ata_sector d (part_start_lba + s)).

Lemma ata_blk_ok d s : length (ata_blk d s) = 512%nat ∧ bytes_ok (ata_blk d s).
Proof.
  split; [|apply words_bytes_ok]. unfold ata_blk.
  by rewrite length_words_bytes, (proj1 (ata_sector_ok _ _)).
Qed.

Lemma guard_ok s n :
  0 ≤ s → 1 ≤ n ≤ 0x7F → s + n ≤ part_length →
  (part_length <? u32 (s + n)) = false ∧ (0x7F <? n) = false ∧
  u32 (s + part_start_lba) = part_start_lba + s ∧ 0 ≤ part_start_lba + s < 2 ^ 28.
Proof.
  unfold part_length, part_start_lba. intros Hs Hn Hsn.
  rewrite !u32_id by lia. split_and!; [apply Z.ltb_ge..| | |]; lia.
Qed.

Lemma ata_read_ok w s n off :
  0 ≤ s → 1 ≤ n ≤ 0x7F → s + n ≤ part_length →
  ∃ d' l', int13h_read_o s n off w =
    Done 0 (put_io (store_bytes (w_mem w) (u32 (DISK_READ_LOCATION + off))
                      (concat (map (ata_blk (w_dev w)) (seqZ s n)))) d' l' w) ∧
    ∀ x, ata_blk d' x = ata_blk (w_dev w) x.
Proof.
  intros Hs Hn Hsn. unfold int13h_read_o.
  destruct (guard_ok s n Hs Hn Hsn) as (-> & -> & -> & Hlba).
  rewrite (bind_done _ _ _ _ _ (on_dev_done _ _ _ _ (send_lba_issue n _ 0x20 _ ltac:(lia) Hlba ltac:(lia)))).
  destruct (ata_read_cmd (w_dev w) n (part_start_lba + s) ltac:(lia) Hlba) as (Hx & Hd).
  set (d1 := ata_issue n (part_start_lba + s) 0x20 (w_dev w)) in *.
  assert (∃ k, Z.to_nat n = S k) as [k Hk] by (exists (Nat.pred (Z.to_nat n)); lia).
  rewrite Hk in Hx |- *.
  destruct (read_blocks_in k (put_dev d1 w) (u32 (DISK_READ_LOCATION + off)) _ Hx) as (d2 & l2 & E2 & Hd2).
  exists d2, l2. rewrite E2. split.
  - replace (Z.of_nat (S k)) with n by lia. rewrite <-fmap_add_seqZ.
    change (list_fmap _ _ ?f ?l) with (map f l). rewrite map_map.
    rewrite (map_ext _ (ata_blk (w_dev w))); [done|].
    intros x. unfold ata_blk. simpl. by rewrite Hd.
  - intros x. unfold ata_blk. by rewrite (Hd2 _), (Hd _).
Qed.

Definition ata_fuel : nat := 100 + uart_max.

Lemma ata_write_ok fuel w s n off :
  (ata_fuel ≤ fuel)%nat → 0 ≤ s → 1 ≤ n ≤ 0x7F → s + n ≤ part_length →
  ∃ d' l', int13h_write_o fuel s n off w = Done 0 (put_io (w_mem w) d' l' w) ∧
    ∀ x, ata_blk d' x =
      if decide (s ≤ x < s + n)
      then load_bytes (w_mem w) (u32 (DISK_WRITE_LOCATION + off) + 512 * (x - s)) 512
      else ata_blk (w_dev w) x.
Proof.
  unfold ata_fuel. intros Hf Hs Hn Hsn. unfold int13h_write_o.
  destruct (guard_ok s n Hs Hn Hsn) as (-> & -> & -> & Hlba).
  rewrite (bind_done _ _ _ _ _ (on_dev_done _ _ _ _ (send_lba_issue n _ 0x30 _ ltac:(lia) Hlba ltac:(lia)))).
  destruct (ata_write_cmd (w_dev w) n (part_start_lba + s) ltac:(lia) Hlba) as (Hx & Hd).
  set (d1 := ata_issue n (part_start_lba + s) 0x30 (w_dev w)) in *.
  assert (∃ k, Z.to_nat n = S k) as [k Hk] by (exists (Nat.pred (Z.to_nat n)); lia).
  rewrite Hk in Hx |- *. rewrite (bind_done _ _ _ (w_mem w) (put_dev d1 w)) by done.
  set (buffer := u32 (DISK_WRITE_LOCATION + off)).
  destruct (write_blocks_out fuel ltac:(lia) k (w_mem w) buffer d1 _ ltac:(lia) Hx) as (d2 & E2 & Hx2 & Hd2).
  destruct (ata_flush_cmd d2 Hx2) as [_ Hd3]. set (d3 := port_outb 0x1F7 0xE7 d2) in *.
  destruct (wait_idle_done fuel d3) as (d4 & E4 & Hd4); [pose proof (ata_busy_max d3); lia|].
  exists d4, (w_log w). split.
  - rewrite (bind_done _ _ _ tt (put_dev d4 (put_dev d1 w))); [done|]. apply on_dev_done. simpl w_dev.
    rewrite (bind_done _ _ _ _ _ E2). rewrite (bind_done _ _ _ tt d3) by done. exact E4.
  - intros x. unfold ata_blk. rewrite (Hd4 _), (Hd3 _), Hd2, Hd.
    repeat case_decide; try lia; [|done].
    rewrite words_bytes_load. f_equal. lia.
Qed.
End AtaFacts.

#[export] Instance ata_block_device `{AtaDisk D} : BlockDevice D := {|
  blk := ata_blk;
  blk_fuel := ata_fuel;
  blk_ok := ata_blk_ok;
  blk_read := ata_read_ok;
  blk_write := ata_write_ok;
|}.
