(* ===== verification/AtaSim.v ===== *)
(** What the disk driver of src/kernel/arch/i386/FAT.c guarantees: on a drive
    that behaves as documented (the theorems over [AtaDisk]), and on any
    hardware at all (the theorems over [PortIO]); with a simulated drive that
    shows the assumptions about drives can be met. *)
From S2P Require Import Prelude Machine LibC FatTypes AtaPio.

(** * A simulated drive with a serial port beside it *)

Record sim := Sim {
  sim_line : line;
  sim_disk : gmap Z (list Z);
  sim_regs : memory;      (* by port, 0x1F1 to 0x1F6 *)
  sim_xfer : xfer;
  sim_busy : nat;
}.

Definition sim_sector (d : sim) (lba : Z) : list Z :=
  map (λ i, u16 (at_ (default [] (sim_disk d !! lba)) i)) (seqZ 0 256).

Definition sim_phase (x : xfer) : xfer :=
  match x with XOut lba n got => XOut lba n (map u16 got) | _ => x end.

Definition sim_lba (r : memory) : Z :=
  load8 r 0x1F3 + 256 * load8 r 0x1F4 + 65536 * load8 r 0x1F5 +
  16777216 * Z.land (load8 r 0x1F6) 0x0F.

(** The drive needs two status reads after each command. *)
Definition sim_command (c : Z) (d : sim) : sim :=
  let n := Z.to_nat (load8 (sim_regs d) 0x1F2) in
  let x := if c =? 0x20 then XIn (sim_lba (sim_regs d)) n 0
           else if c =? 0x30 then XOut (sim_lba (sim_regs d)) n []
           else XNone in
  Sim (sim_line d) (sim_disk d) (sim_regs d) x 2.

Definition sim_status (d : sim) : Z * sim :=
  match Nat.min 99 (sim_busy d) with
  | O => (match sim_xfer d with XNone => 0x40 | _ => 0x48 end,
          Sim (sim_line d) (sim_disk d) (sim_regs d) (sim_xfer d) 0)
  | S b => (0x80, Sim (sim_line d) (sim_disk d) (sim_regs d) (sim_xfer d) b)
  end.

Definition sim_word_in (d : sim) : Z * sim :=
  match sim_xfer d with
  | XIn lba todo got =>
      (default 0 (sim_sector d lba !! got),
       Sim (sim_line d) (sim_disk d) (sim_regs d) (next_in lba todo got) (sim_busy d))
  | _ => (0, d)
  end.

Definition sim_word_out (v : Z) (d : sim) : sim :=
  match sim_xfer d with
  | XOut lba todo got =>
      let got := map u16 got in
      Sim (sim_line d)
        (if (length got =? 255)%nat then <[lba := got ++ [v]]> (sim_disk d) else sim_disk d)
        (sim_regs d) (next_out lba todo got v) (sim_busy d)
  | _ => d
  end.

#[export] Instance sim_ports : PortIO sim := {|
  port_inb p d :=
    if p =? 0x1F7 then sim_status d
    else let '(v, l) := port_inb p (sim_line d) in
         (v, Sim l (sim_disk d) (sim_regs d) (sim_xfer d) (sim_busy d));
  port_inw p d := if p =? 0x1F0 then sim_word_in d else (0, d);
  port_outb p v d :=
    if p =? 0x1F7 then sim_command v d
    else if (0x1F1 <=? p) && (p <=? 0x1F6) then
      Sim (sim_line d) (sim_disk d) (store8 (sim_regs d) p v) (sim_xfer d) (sim_busy d)
    else Sim (port_outb p v (sim_line d)) (sim_disk d) (sim_regs d) (sim_xfer d) (sim_busy d);
  port_outw p v d := if p =? 0x1F0 then sim_word_out v d else d;
|}.

#[export, refine] Instance sim_uart : UART sim := {|
  uart_rx d := l_rx (sim_line d); uart_tx d := l_tx (sim_line d);
  uart_busy _ := 0%nat; uart_max := 0%nat
|}.
Proof.
  - done.
  - intros d. simpl. destruct d as [[[|] ?] ????]; done.
  - intros [[rx tx] ????] c q E. simpl in *. by rewrite E.
  - done.
Defined.

Lemma map_at_seqZ (f : Z → Z) bs :
  Forall (λ v, f v = v) bs → map (λ i, f (at_ bs i)) (seqZ 0 (Z.of_nat (length bs))) = bs.
Proof.
  intros Hf. apply list_eq. intros i. change (map ?g ?l) with (g <$> l). rewrite list_lookup_fmap.
  destruct (decide (i < length bs)%nat) as [Hi|Hi].
  - rewrite lookup_seqZ_lt by lia. simpl. unfold at_.
    destruct (lookup_lt_is_Some_2 bs i Hi) as [x Hx]. rewrite Z.add_0_l, Nat2Z.id, Hx. simpl.
    by rewrite (Forall_lookup_1 _ _ _ _ Hf Hx).
  - rewrite lookup_seqZ_ge by lia. simpl. symmetry. apply lookup_ge_None. lia.
Qed.

Lemma sim_sector_put d lba bs x :
  length bs = 256%nat → Forall (λ v, u16 v = v) bs →
  sim_sector (Sim (sim_line d) (<[lba := bs]> (sim_disk d)) (sim_regs d) (sim_xfer d) (sim_busy d)) x =
  if decide (x = lba) then bs else sim_sector d x.
Proof.
  intros Hl Hb. unfold sim_sector. simpl. case_decide as E.
  - subst. rewrite lookup_insert_eq. simpl. pose proof (map_at_seqZ u16 bs Hb) as Hm.
    by rewrite Hl in Hm.
  - by rewrite lookup_insert_ne.
Qed.

Lemma sim_issue d n lba c :
  0 ≤ n < 256 → 0 ≤ lba < 2 ^ 28 →
  sim_disk (ata_issue n lba c d) = sim_disk d ∧
  sim_xfer (ata_issue n lba c d) =
    if c =? 0x20 then XIn lba (Z.to_nat n) 0
    else if c =? 0x30 then XOut lba (Z.to_nat n) [] else XNone.
Proof.
  intros Hn Hl. split; [done|]. unfold ata_issue, sim_command. simpl.
  unfold sim_lba. rewrite !load8_store8.
  repeat match goal with
  | |- context [decide (?a = ?b)] =>
      first [rewrite (decide_False (P := a = b)) by done|rewrite (decide_True (P := a = b)) by done]
  end.
  rewrite (u8_id n) by lia.
  set (r := u8 _ + _ + _ + _). assert (r = lba) as ->; [|done]. subst r.
  change (2 ^ 24) with 16777216. change (2 ^ 28) with 268435456 in Hl.
  change (2 ^ 16) with 65536. change (2 ^ 8) with 256.
  assert (Z.land (u8 (Z.lor 224 (lba / 16777216))) 15 = lba / 16777216) as ->.
  { assert (byte_ok (lba / 16777216)) as Hb by (unfold byte_ok; lia).
    assert (lba / 16777216 < 16) as Hh by lia. revert Hh.
    generalize dependent (lba / 16777216). intros h Hh. by_bytes h. }
  unfold u8. lia.
Qed.

Lemma sim_word_out_sector d lba todo got v x :
  sim_phase (sim_xfer d) = XOut lba todo got → (length got < 256)%nat → 0 ≤ v < 65536 →
  sim_sector (sim_word_out v d) x =
  if decide (x = lba ∧ length got = 255%nat) then got ++ [v] else sim_sector d x.
Proof.
  intros Hx Hl Hv. unfold sim_word_out.
  destruct (sim_xfer d) as [| |lba0 todo0 got0]; [done..|]. injection Hx as -> -> <-.
  destruct (Nat.eqb_spec (length (map u16 got0)) 255) as [E|E].
  - etransitivity; [apply (sim_sector_put d)|].
    + rewrite length_app, E. done.
    + apply Forall_app; split; [|constructor; [by apply u16_id|done]].
      apply Forall_map, Forall_true. intros y. simpl. unfold u16. lia.
    + repeat case_decide; tauto.
  - rewrite decide_False by tauto. done.
Qed.

#[export, refine] Instance sim_ata : AtaDisk sim := {|
  ata_sector := sim_sector;
  ata_xfer d := sim_phase (sim_xfer d);
  ata_busy d := Nat.min 99 (sim_busy d);
|}.
Proof.
  - intros d. lia.
  - intros d lba. unfold sim_sector. split; [by rewrite length_map|].
    apply Forall_map, Forall_true. intros i. apply u16_range.
  - intros d n lba Hn Hl. destruct (sim_issue d n lba 0x20 ltac:(lia) Hl) as [Hd Hx].
    split; [by rewrite Hx|]. intros x. unfold sim_sector. by rewrite Hd.
  - intros d n lba Hn Hl. destruct (sim_issue d n lba 0x30 ltac:(lia) Hl) as [Hd Hx].
    split; [by rewrite Hx|]. intros x. unfold sim_sector. by rewrite Hd.
  - done.
  - intros d. change (port_inb 0x1F7 d) with (sim_status d). unfold sim_status.
    destruct (Nat.min 99 (sim_busy d)) as [|b] eqn:E.
    + split_and!; try done. intros _. destruct (sim_xfer d); done.
    + cbn [sim_busy]. split_and!; [done..|lia|lia|done].
  - intros d lba l k Hx Hk _. change (port_inw 0x1F0 d) with (sim_word_in d). unfold sim_word_in.
    destruct (sim_xfer d); simplify_eq/=.
    destruct (lookup_lt_is_Some_2 (sim_sector d lba) k) as [v Hv].
    { unfold sim_sector. by rewrite length_map. }
    rewrite Hv. split_and!; try done. unfold next_in. by repeat case_match.
  - intros d lba l got v Hx Hl Hv _. change (port_outw 0x1F0 v d) with (sim_word_out v d). split.
    + unfold sim_word_out. destruct (sim_xfer d); simplify_eq/=. unfold next_out.
      repeat case_match; try done. simpl. f_equal. rewrite map_app, map_map. simpl.
      rewrite (u16_id v) by done. f_equal. apply map_ext. intros y. unfold u16. lia.
    + intros x. by apply sim_word_out_sector with (todo := S l).
  - intros d p Hp. change (port_inb p d) with (if p =? 0x1F7 then sim_status d else
      let '(v, l) := port_inb p (sim_line d) in
      (v, Sim l (sim_disk d) (sim_regs d) (sim_xfer d) (sim_busy d))).
    rewrite (proj2 (Z.eqb_neq p 0x1F7)) by lia. by destruct (port_inb p (sim_line d)).
  - done.
Defined.

(** * Any hardware *)

Section AnyHardware.
Context {D : Type} `{PortIO D}.
Implicit Types w : world D.

(** The globals stay and memory changes at most in the window of [len] bytes at [a]. *)
Definition within (a len : Z) w w' : Prop :=
  (∃ m d l, w' = put_io m d l w) ∧
  ∀ x, a ≤ x < a + len ∨ load8 (w_mem w') x = load8 (w_mem w) x.

Lemma within_refl a len w m d l : m = w_mem w → within a len w (put_io m d l w).
Proof. intros ->. split; [eauto|]. intros x. by right. Qed.

Lemma within_trans a1 len1 a2 len2 a len w1 w2 w3 :
  within a1 len1 w1 w2 → within a2 len2 w2 w3 →
  a ≤ a1 → a ≤ a2 → a1 + len1 ≤ a + len → a2 + len2 ≤ a + len → within a len w1 w3.
Proof.
  intros [(m1 & d1 & l1 & ->) Hf1] [(m2 & d2 & l2 & ->) Hf2] ????. split; [by eauto|].
  intros x. destruct (Hf1 x), (Hf2 x); [left; lia..|]. right. simpl in *. congruence.
Qed.

Lemma inb_done p (d : D) : ∃ v d', inb p d = Done v d'.
Proof. unfold inb. destruct (port_inb _ d). eauto. Qed.

Lemma inw_done p (d : D) : ∃ v d', inw p d = Done v d'.
Proof. unfold inw. destruct (port_inw _ d). eauto. Qed.

Lemma wait_drq_total n w :
  ∃ b d l, wait_drq n w = Done b (put_io (w_mem w) d l w).
Proof.
  revert w; induction n as [|n IH]; intros w.
  { exists false, (w_dev w), (w_log w). by destruct w. }
  destruct (inb_done 0x1F7 (w_dev w)) as (v & d1 & E). cbn [wait_drq].
  rewrite (bind_done _ _ _ _ _ (on_dev_done _ _ _ _ E)). case_if; [|by eexists true, d1, _].
  unfold bind, terminal_writestring, emit, modify.
  destruct n; [by eexists false, d1, _|]. 
  set (w1 := put_log _ _). destruct (IH w1) as (b & d2 & l2 & ->). by eexists b, d2, l2.
Qed.

Lemma read_words_total n : ∀ buffer w,
  ∃ w', read_words n buffer w = Done tt w' ∧ within buffer (2 * Z.of_nat n) w w'.
Proof.
  induction n as [|n IH]; intros buffer w.
  { exists w. split; [done|]. destruct w. by apply within_refl. }
  destruct (inw_done 0x1F0 (w_dev w)) as (v & d1 & E). rewrite (read_words_S _ _ _ _ _ E).
  set (w1 := put_mem _ _). destruct (IH (buffer + 2) w1) as (w2 & E2 & Hw2).
  exists w2. split; [done|]. eapply (within_trans buffer 2); [|exact Hw2|lia..]. split; [by subst w1; eauto|].
  intros x. subst w1. simpl. unfold store16. rewrite load8_store_bytes, length_bytes16.
  case_decide; [left; lia|by right].
Qed.

Lemma read_blocks_total n : ∀ buffer w,
  ∃ r w', read_blocks n buffer w = Done r w' ∧ (r = 0 ∨ r = -1) ∧
          within buffer (512 * Z.of_nat n) w w'.
Proof.
  induction n as [|n IH]; intros buffer w.
  { exists 0, w. split_and!; [done|by left|]. destruct w. by apply within_refl. }
  cbn [read_blocks]. unfold bind at 1, terminal_newline, emit at 1, modify.
  unfold bind at 1, terminal_writestring, emit at 1, modify. rewrite put_log_log.
  set (w1 := put_log _ w). destruct (wait_drq_total 100 w1) as (b & d2 & l2 & E2).
  rewrite (bind_done _ _ _ _ _ E2). set (w2 := put_io _ d2 l2 w1).
  assert (within buffer (512 * Z.of_nat (S n)) w w2) as Hw2 by (by apply (within_refl _ _ w)).
  destruct b; [|exists (-1), w2; split_and!; [done|by right|done]].
  destruct (read_words_total 256 buffer w2) as (w3 & E3 & Hw3). rewrite (bind_done _ _ _ _ _ E3).
  destruct (IH (buffer + 512) w3) as (r & w4 & E4 & Hr & Hw4). exists r, w4. split_and!; [done|done|].
  eapply (within_trans _ _ buffer (512 * Z.of_nat (S n))); [exact Hw2| |lia..].
  eapply within_trans; [exact Hw3|exact Hw4|lia..].
Qed.
End AnyHardware.

Section Writer.
Context {D : Type} `{PortIO D}.

(** The serial output routines can only fail to return, and only by waiting. *)
Definition waits {A} (m : M D A) : Prop := ∀ d e d', m d = Stop e d' → e = OutOfFuel.

Lemma waits_bind {A B} (m : M D A) (k : A → M D B) :
  waits m → (∀ a, waits (k a)) → waits (bind m k).
Proof. intros Hm Hk d e d'. unfold bind. destruct (m d) eqn:E; [apply Hk|]. intros [= <- <-]. eauto. Qed.

Lemma waits_ret {A} (a : A) : waits (ret a).
Proof. by intros d e d'. Qed.

Lemma waits_inb p : waits (inb p).
Proof. intros d e d'. unfold inb. by destruct (port_inb _ d). Qed.

Lemma waits_wait_set f p b : waits (wait_set f p b).
Proof.
  induction f as [|f IH]; [by intros d e d' [= <- <-]|]. cbn [wait_set].
  apply waits_bind; [apply waits_inb|]. intros v. case_if; [done|apply waits_ret].
Qed.

Lemma waits_putcc_raw f c : waits (putcc_raw f c).
Proof. apply waits_bind; [apply waits_wait_set|]. by intros a d e d'. Qed.

Lemma waits_printss f s : waits (printss f s).
Proof.
  unfold printss. induction s as [|c s IH]; [apply waits_ret|]. simpl. case_if; [apply waits_ret|].
  apply waits_bind; [|done]. apply waits_bind; [|intros; apply waits_putcc_raw].
  case_if; [apply waits_putcc_raw|apply waits_ret].
Qed.

(** A drive that never reports ready keeps the writer in its loop for ever. *)
Lemma wait_write_stuck fuel f (d : D) :
  (∀ d, Z.land (u8 (port_inb 0x1F7 d).1) 0x40 = 0) →
  ∃ d', wait_write fuel f d = Stop OutOfFuel d'.
Proof.
  intros Hs. revert d. induction f as [|f IH]; intros d; [by exists d|]. cbn [wait_write].
  assert (∀ s d1, ∃ d', (printss fuel s ;; wait_write fuel f) d1 = Stop OutOfFuel d') as Hr.
  { intros s d1. unfold bind. destruct (printss fuel s d1) eqn:E; [apply IH|].
    apply waits_printss in E as ->. by eexists. }
  destruct (inb_done 0x1F7 d) as (v1 & d1 & E1). rewrite (bind_done _ _ _ _ _ E1).
  case_if; [apply Hr|]. pose proof (Hs d1) as H1. unfold bind at 1, inb.
  change (u16 0x1F7) with 0x1F7. destruct (port_inb 0x1F7 d1) as [v2 d2]. simpl in H1.
  rewrite H1. apply Hr.
Qed.
End Writer.

Lemma send_lba_done `{PortIO D} n lba cmd (d : D) : ∃ d', send_lba n lba cmd d = Done tt d'.
Proof. by eexists. Qed.

Lemma wait_drq_dead `{PortIO D} (Hdead : ∀ d : D, Z.land (u8 (port_inb 0x1F7 d).1) 0x08 = 0) n (w : world D) :
  ∃ d l, wait_drq n w = Done false (put_io (w_mem w) d l w).
Proof.
  revert w; induction n as [|n IH]; intros w.
  { exists (w_dev w), (w_log w). by destruct w. }
  cbn [wait_drq]. pose proof (Hdead (w_dev w)) as H3.
  destruct (port_inb 0x1F7 (w_dev w)) as [s d1] eqn:Es.
  assert (inb 0x1F7 (w_dev w) = Done (u8 s) d1) as E by (unfold inb; change (u16 0x1F7) with 0x1F7; by rewrite Es).
  rewrite (bind_done _ _ _ _ _ (on_dev_done _ _ _ _ E)). simpl in H3. rewrite H3. cbn [Z.eqb].
  unfold bind, terminal_writestring, emit, modify. destruct n; [by eexists d1, _|].
  set (w1 := put_log _ _). destruct (IH w1) as (d2 & l2 & ->). by eexists d2, l2.
Qed.

(** * Theorems *)

(** Consecutive sectors of a memory block, joined again. *)
Lemma concat_sectors m a s n :
  0 ≤ n →
  concat (map (λ x, load_bytes m (a + 512 * (x - s)) 512) (seqZ s n)) =
  load_bytes m a (512 * Z.to_nat n).
Proof.
  intros Hn. rewrite <-(Z2Nat.id n Hn). rewrite Nat2Z.id. revert a s.
  induction (Z.to_nat n) as [|k IH]; intros a s; [done|].
  rewrite seqZ_cons by lia. cbn [map concat].
  replace (512 * S k)%nat with (512 + 512 * k)%nat by lia. rewrite load_bytes_app.
  rewrite Z.sub_diag, Z.mul_0_r, Z.add_0_r. f_equal.
  replace (Z.pred (Z.of_nat (S k))) with (Z.of_nat k) by lia.
  rewrite <-(IH (a + Z.of_nat 512) (Z.succ s)). f_equal. apply map_ext. intros x. f_equal. lia.
Qed.

Lemma in_blocks {A} (f g : Z → A) s n :
  (∀ x, s ≤ x < s + n → f x = g x) → map f (seqZ s n) = map g (seqZ s n).
Proof.
  intros Hfg. apply map_ext_in. intros x Hx. apply Hfg.
  apply list_elem_of_In, elem_of_seqZ in Hx. lia.
Qed.


(** The world of the witnesses: memory holds 7 and 9 at the window. *)
Definition sim_world (disk : gmap Z (list Z)) (m : memory) : world sim :=
  World m (Sim (Line [] []) disk ∅ XNone 0) [] 0 0 0 0 (fat_BS_of []) [].




(** The bounds check adds in 32 bits: the request for one block at sector
    2^32 - 1 passes it and reads the sector in front of the partition. *)
Theorem int13h_read_wraps `{AtaDisk D} (w : world D) :
  ∃ w', int13h_read_o (2 ^ 32 - 1) 1 0 w = Done 0 w' ∧
    load_bytes (w_mem w') DISK_READ_LOCATION 512 =
    words_bytes (ata_sector (w_dev w) (part_start_lba - 1)).
Proof.
  unfold int13h_read_o. replace (part_length <? u32 (2 ^ 32 - 1 + 1)) with false by done.
  replace (0x7F <? 1) with false by done. cbv iota zeta.
  replace (u32 (2 ^ 32 - 1 + part_start_lba)) with (part_start_lba - 1) by done.
  assert (0 ≤ part_start_lba - 1 < 2 ^ 28) as Hlba by done.
  rewrite (bind_done _ _ _ _ _ (on_dev_done _ _ _ _ (send_lba_issue 1 _ 0x20 _ ltac:(lia) Hlba ltac:(lia)))).
  destruct (ata_read_cmd (w_dev w) 1 (part_start_lba - 1) ltac:(lia) Hlba) as (Hx & Hd).
  set (d1 := ata_issue 1 (part_start_lba - 1) 0x20 (w_dev w)) in *.
  destruct (read_blocks_in 0 (put_dev d1 w) (u32 (DISK_READ_LOCATION + 0)) _ Hx) as (d2 & l2 & E2 & Hd2).
  eexists. split; [exact E2|]. cbn [w_mem put_io map seqZ]. rewrite seqZ_cons by lia. cbn [map concat].
  rewrite app_nil_r. cbn [w_dev put_dev put_io]. rewrite Hd.
  set (bs := words_bytes _). change (u32 (DISK_READ_LOCATION + 0)) with DISK_READ_LOCATION.
  assert (length bs = 512%nat) as Hl by (subst bs; by rewrite length_words_bytes, (proj1 (ata_sector_ok _ _))).
  rewrite <-Hl. apply load_store_bytes_same, words_bytes_ok.
Qed.

Lemma int13h_read_wraps_witness :
  ∃ w', int13h_read_o (2 ^ 32 - 1) 1 0 (sim_world ∅ ∅) = Done 0 w'.
Proof. destruct (int13h_read_wraps (sim_world ∅ ∅)) as (w' & E & _). by exists w'. Defined.


(** A drive that never raises DRQ makes a read of one or more blocks fail
    with -1 after 100 polls, memory unchanged; a drive that never becomes ready
    keeps a write polling, whatever fuel it is given. *)
Theorem int13h_dead_drive `{PortIO D} (w : world D) s n off :
  (∀ d : D, Z.land (u8 (port_inb 0x1F7 d).1) 0x48 = 0) →
  0 ≤ s → 1 ≤ n ≤ 0x7F → s + n ≤ part_length →
  (∃ w', int13h_read_o s n off w = Done (-1) w' ∧ w_mem w' = w_mem w) ∧
  ∀ fuel, ∃ w', int13h_write_o fuel s n off w = Stop OutOfFuel w'.
Proof.
  intros Hdead Hs Hn Hsn.
  assert (∀ k d, Z.land 0x48 k = k → Z.land (u8 (port_inb 0x1F7 d).1) k = 0) as Hbit.
  { intros k d Hk. by rewrite <-Hk, Z.land_assoc, Hdead. }
  destruct (guard_ok s n Hs Hn Hsn) as (Hg1 & Hg2 & _).
  assert (∃ k, Z.to_nat n = S k) as [k Hk] by (exists (Nat.pred (Z.to_nat n)); lia).
  split; [|intros fuel]; unfold int13h_read_o, int13h_write_o; rewrite Hg1, Hg2, Hk.
  all: destruct (send_lba_done n (u32 (s + part_start_lba)) 0x20 (w_dev w)) as (d1 & E1).
  all: destruct (send_lba_done n (u32 (s + part_start_lba)) 0x30 (w_dev w)) as (d1' & E1').
  - rewrite (bind_done _ _ _ _ _ (on_dev_done _ _ _ _ E1)). cbn [read_blocks].
    unfold bind at 1 2, terminal_newline, terminal_writestring, emit, modify.
    set (w1 := put_log _ _).
    destruct (wait_drq_dead (λ d, Hbit 0x08 d eq_refl) 100 w1) as (d2 & l2 & E2).
    rewrite (bind_done _ _ _ _ _ E2). by eexists.
  - rewrite (bind_done _ _ _ _ _ (on_dev_done _ _ _ _ E1')).
    destruct (wait_write_stuck fuel fuel d1' (λ d, Hbit 0x40 d eq_refl)) as (d2 & E2).
    rewrite (bind_done _ _ _ (w_mem w) (put_dev d1' w)) by done.
    set (a := u32 (DISK_WRITE_LOCATION + off)).
    assert (write_blocks fuel (S k) (w_mem w) a d1' = Stop OutOfFuel d2) as E3
      by (cbn [write_blocks]; by rewrite (bind_stop _ _ _ _ _ E2)).
    eexists. apply bind_stop. unfold on_dev, zoom. cbn [w_dev put_dev put_io].
    rewrite (bind_stop _ _ _ _ _ E3). reflexivity.
Qed.

(** No drive attached: every port reads 0. *)
Lemma int13h_dead_drive_witness :
  (∃ w', @int13h_read_o line _ 0 1 0 (World ∅ (Line [] []) [] 0 0 0 0 (fat_BS_of []) []) = Done (-1) w' ∧ w_mem w' = ∅).
Proof.
  apply (int13h_dead_drive (World ∅ (Line [] []) [] 0 0 0 0 (fat_BS_of []) []) 0 1 0);
    [intros d; reflexivity|lia|lia|unfold part_length; lia].
Defined.
