(* ===== verification/FatTable.v ===== *)
(** The file allocation table in src/kernel/arch/i386/FAT.c: [FATInitialize],
    [FATRead], [FATWrite] and [allocateFreeFAT].

    The theorems are proved against [BlockDevice]. The abstract table is
    [fat_view]: the 32-bit entries on disk, indexed by cluster. The local array
    [FAT_table] is a memory of its own, addressed from 0; what an uninitialised
    one holds is the parameter [junk]. *)
From S2P Require Import Prelude Machine CString LibC FatTypes AtaPio AtaSim.

Section FatTable.
Context {D : Type} `{PortIO D}.
Variable fuel : nat.
Variable junk : memory.
Abbreviation W := (world D).

(** * FATInitialize *)

Definition set_total_clusters (v : Z) (w : W) : W :=
  World (w_mem w) (w_dev w) (w_log w) (fat_type w) (first_fat_sector w) (first_data_sector w)
    v (bootsect w) (bootsect_spill w).
Definition set_fat_type (t : Z) (w : W) : W :=
  World (w_mem w) (w_dev w) (w_log w) t (first_fat_sector w) (first_data_sector w)
    (total_clusters w) (bootsect w) (bootsect_spill w).
Definition set_first_data_sector (v : Z) (w : W) : W :=
  World (w_mem w) (w_dev w) (w_log w) (fat_type w) (first_fat_sector w) v
    (total_clusters w) (bootsect w) (bootsect_spill w).
Definition set_first_fat_sector (v : Z) (w : W) : W :=
  World (w_mem w) (w_dev w) (w_log w) (fat_type w) v (first_data_sector w)
    (total_clusters w) (bootsect w) (bootsect_spill w).
(** [memcpy(&bootsect, bs, 512)]: the object takes [fat_BS_size] bytes, the rest
    lands behind it. *)
Definition set_bootsect (bs : list Z) (w : W) : W :=
  World (w_mem w) (w_dev w) (w_log w) (fat_type w) (first_fat_sector w) (first_data_sector w)
    (total_clusters w) (fat_BS_of (take fat_BS_size bs)) (drop fat_BS_size bs).

(** C division of non-negative numbers. *)
Definition div_ (x y : Z) : M W Z := if y =? 0 then raise DivideError else ret (x / y).

Definition FATInitialize : M W Z :=
  let! r := int13h_read 0 1 in
  if negb (r =? 0) then
    terminal_newline ;;
    printf_lit (str " -> Function FATInitialize: Error reading the first sector of FAT!") ;;
    ret (-1)
  else
    let! bs := gets (λ w, load_bytes (w_mem w) DISK_READ_LOCATION 512) in
    let bootstruct := fat_BS_of bs in
    let! tc := div_ (total_sectors_16 bootstruct) (sectors_per_cluster bootstruct) in
    modify (set_total_clusters tc) ;;
    (when! tc =? 0 do
       (let! tc := div_ (total_sectors_32 bootstruct) (sectors_per_cluster bootstruct) in
        modify (set_total_clusters tc))) ;;
    let! tc := gets total_clusters in
    (if tc <? 4085 then
       modify (set_fat_type 12) ;;
       let! root := div_ (root_entry_count bootstruct * 32 + bytes_per_sector bootstruct - 1)
                         (bytes_per_sector bootstruct) in
       modify (set_first_data_sector (u32 (reserved_sector_count bootstruct +
                 table_count bootstruct * table_size_16 bootstruct + root)))
     else if tc <? 65525 then
       modify (set_fat_type 16) ;;
       let! root := div_ (root_entry_count bootstruct * 32 + bytes_per_sector bootstruct - 1)
                         (bytes_per_sector bootstruct) in
       modify (set_first_data_sector (u32 (reserved_sector_count bootstruct +
                 table_count bootstruct * table_size_16 bootstruct + root)))
     else
       modify (set_fat_type 32) ;;
       modify (set_first_data_sector (u32 (reserved_sector_count bootstruct +
                 u32 (table_count bootstruct *
                      table_size_32 (fat_extBS_32_of (extended_section bootstruct))))))) ;;
    modify (set_bootsect bs) ;;
    modify (set_first_fat_sector (reserved_sector_count bootstruct)) ;;
    ret 0.

(** * FATRead, FATWrite *)

Definition FAT_TABLE_SIZE : Z := 32 * 1024.

(** [fat_sector] and [ent_offset] of the entry, [width] bytes per entry. *)
Definition fat_locate (clusterNum width : Z) : M W (Z * Z) :=
  let! w := gets id in
  let cluster_size := u32 (bytes_per_sector (bootsect w) * sectors_per_cluster (bootsect w)) in
  let fat_offset := u32 (clusterNum * width) in
  if cluster_size =? 0 then raise DivideError
  else ret (u32 (first_fat_sector w + fat_offset / cluster_size), fat_offset mod cluster_size).

(** [memcpy(&FAT_table, DISK_READ_LOCATION, bytes_per_sector)] *)
Definition table_in (table : memory) : M W memory :=
  let! n := gets (λ w, bytes_per_sector (bootsect w)) in
  let! m := gets w_mem in
  if FAT_TABLE_SIZE <? n then raise OutOfBounds
  else ret (store_bytes table 0 (load_bytes m DISK_READ_LOCATION (Z.to_nat n))).

(** [memcpy(DISK_WRITE_LOCATION, &FAT_table, bytes_per_sector)] *)
Definition table_out (table : memory) : M W unit :=
  let! n := gets (λ w, bytes_per_sector (bootsect w)) in
  modify (λ w, put_mem (store_bytes (w_mem w) DISK_WRITE_LOCATION
                          (load_bytes table 0 (Z.to_nat n))) w).

(** An access of [width] bytes at [FAT_table[ent_offset]]. *)
Definition table_access (ent_offset width : Z) : M W unit :=
  when! FAT_TABLE_SIZE <? ent_offset + width do raise OutOfBounds.

Definition invalid_type (f : string) : M W Z :=
  d_printss (str ("Function " +:+ f +:+ ": Invalid fat_type value. The value was (in hex): ")) ;;
  let! t := gets fat_type in
  d_printhex t 8 ;;
  d_printss [10] ;;
  ret (-1).

Definition FATRead (clusterNum : Z) : M W Z :=
  let! w := gets id in
  if (clusterNum <? 2) || (total_clusters w <=? clusterNum) then
    d_printss (str "Function FATRead: invalid cluster number!" ++ [10]) ;;
    ret (-1)
  else if fat_type w =? 32 then
    let! loc := fat_locate clusterNum 4 in
    let! r := int13h_read loc.1 1 in
    if negb (r =? 0) then
      d_printss (str "Function FATRead: Could not read sector that contains FAT32 table entry needed." ++ [10]) ;;
      ret (-1)
    else
      let! table := table_in ∅ in
      table_access loc.2 4 ;;
      ret (Z.land (load32 table loc.2) 0x0FFFFFFF)
  else if fat_type w =? 16 then
    let! loc := fat_locate clusterNum 2 in
    let! r := int13h_read loc.1 1 in
    if negb (r =? 0) then
      d_printss (str "Function FATRead: Could not read sector that contains FAT16 table entry needed." ++ [10]) ;;
      ret (-1)
    else
      let! table := table_in junk in
      table_access loc.2 2 ;;
      ret (load16 table loc.2)
  else invalid_type "FATRead".

Definition FATWrite (clusterNum clusterVal : Z) : M W Z :=
  let! w := gets id in
  if (clusterNum <? 2) || (total_clusters w <=? clusterNum) then
    d_printss (str "Function FATWrite: invalid cluster number!" ++ [10]) ;;
    ret (-1)
  else if fat_type w =? 32 then
    let! loc := fat_locate clusterNum 4 in
    let! r := int13h_read loc.1 1 in
    if negb (r =? 0) then
      d_printss (str "Function FATWrite: Could not read sector that contains FAT32 table entry needed." ++ [10]) ;;
      ret (-1)
    else
      let! table := table_in ∅ in
      table_access loc.2 4 ;;
      table_out (store32 table loc.2 clusterVal) ;;
      let! r := int13h_write fuel loc.1 1 in
      if negb (r =? 0) then
        d_printss (str "Function FATWrite: Could not write new FAT32 cluster number to sector." ++ [10]) ;;
        ret (-1)
      else ret 0
  else if fat_type w =? 16 then
    let! loc := fat_locate clusterNum 2 in
    let! r := int13h_read loc.1 1 in
    if negb (r =? 0) then
      d_printss (str "Function FATWrite: Could not read sector that contains FAT16 table entry needed." ++ [10]) ;;
      ret (-1)
    else
      let! table := table_in junk in
      table_access loc.2 2 ;;
      table_out (store16 table loc.2 clusterVal) ;;
      let! r := int13h_write fuel loc.1 1 in
      if negb (r =? 0) then
        d_printss (str "Function FATWrite: Could not write new FAT16 cluster number to sector." ++ [10]) ;;
        ret (-1)
      else ret 0
  else invalid_type "FATWrite".

(** * allocateFreeFAT *)

(** The scan from [cluster], [n] clusters left before [total_clusters]. *)
Fixpoint alloc_loop (n : nat) (free_cluster bad_cluster end_cluster cluster : Z) : M W Z :=
  match n with
  | O => ret bad_cluster
  | S n' =>
      let! r := FATRead cluster in
      let clusterStatus := u32 r in
      if clusterStatus =? free_cluster then
        let! r := FATWrite cluster end_cluster in
        if r =? 0 then ret cluster
        else
          d_printss (str "Function allocateFreeFAT: Error occurred with FATWrite, aborting operations..." ++ [10]) ;;
          ret bad_cluster
      else if clusterStatus <? 0 then
        d_printss (str "Function allocateFreeFAT: Error occurred with FATRead, aborting operations..." ++ [10]) ;;
        ret bad_cluster
      else alloc_loop n' free_cluster bad_cluster end_cluster (cluster + 1)
  end.

Definition allocateFreeFAT : M W Z :=
  let! t := gets fat_type in
  let! n := gets (λ w, Z.to_nat (total_clusters w - 2)) in
  if t =? 32 then alloc_loop n FREE_CLUSTER_32 BAD_CLUSTER_32 END_CLUSTER_32 2
  else if t =? 16 then alloc_loop n FREE_CLUSTER_16 BAD_CLUSTER_16 END_CLUSTER_16 2
  else if t =? 12 then alloc_loop n FREE_CLUSTER_12 BAD_CLUSTER_12 END_CLUSTER_12 2
  else
    d_printss (str "Function allocateFreeFAT: fat_type is not valid!" ++ [10]) ;;
    ret BAD_CLUSTER_12.
End FatTable.

(** * The abstract table *)

(** Where the driver looks for the entry of a cluster, and where FAT32 keeps it. *)
Definition cluster_bytes {D} (w : world D) : Z :=
  bytes_per_sector (bootsect w) * sectors_per_cluster (bootsect w).

Section View.
Context {D : Type} `{BlockDevice D}.
Implicit Types w : world D.

Definition fat_view w (c : Z) : Z :=
  f32 (blk (w_dev w) (first_fat_sector w + 4 * c / 512)) (Z.to_nat (4 * c mod 512)).

(** A mounted FAT32 volume with 512-byte sectors whose table lies in the partition. *)
Record fat32_ok w : Prop := {
  ok_type : fat_type w = 32;
  ok_bps : bytes_per_sector (bootsect w) = 512;
  ok_spc : 1 ≤ sectors_per_cluster (bootsect w) ≤ 64;
  ok_total : 2 ≤ total_clusters w ≤ 0x0FFFFFF7;
  ok_first : 0 ≤ first_fat_sector w;
  ok_fits : first_fat_sector w + 4 * (total_clusters w - 1) / 512 < part_length;
}.
End View.

Lemma f32_load_bytes m a n o :
  (o + 4 ≤ n)%nat → f32 (load_bytes m a n) o = load32 m (a + Z.of_nat o).
Proof.
  intros Ho. unfold f32, f8, load32. rewrite !lookup_load_bytes by lia. simpl.
  f_equal; f_equal; lia.
Qed.

Lemma load32_store_bytes m a bs o :
  bytes_ok bs → (o + 4 ≤ length bs)%nat → load32 (store_bytes m a bs) (a + Z.of_nat o) = f32 bs o.
Proof.
  intros Hb Ho. rewrite <-(load_store_bytes_same m a bs Hb) at 2.
  by rewrite f32_load_bytes.
Qed.

Lemma load32_store32_ne m a v b :
  b + 4 ≤ a ∨ a + 4 ≤ b → load32 (store32 m a v) b = load32 m b.
Proof.
  intros Hd. unfold load32, store32. rewrite !load8_store_bytes, length_bytes32.
  rewrite !decide_False by lia. done.
Qed.

Lemma f32_range bs o : bytes_ok bs → 0 ≤ f32 bs o < 2 ^ 32.
Proof.
  intros Hb. assert (∀ i, 0 ≤ f8 bs i < 256) as Hi.
  { intros i. unfold f8. destruct (bs !! i) eqn:E; simpl; [|lia]. by eapply Forall_lookup in Hb. }
  unfold f32, le32. pose proof (Hi o). pose proof (Hi (o + 1)%nat).
  pose proof (Hi (o + 2)%nat). pose proof (Hi (o + 3)%nat). lia.
Qed.

Section TableProofs.
Context {D : Type} `{BlockDevice D}.
Implicit Types w : world D.

(** One sector through the disk window. *)
Lemma read_sector w s :
  0 ≤ s < part_length →
  ∃ d' l', int13h_read s 1 w =
    Done 0 (put_io (store_bytes (w_mem w) DISK_READ_LOCATION (blk (w_dev w) s)) d' l' w) ∧
    ∀ x, blk d' x = blk (w_dev w) x.
Proof.
  intros Hs. destruct (blk_read w s 1 0) as (d' & l' & E & Hd); [lia..|].
  exists d', l'. split; [|done]. unfold int13h_read. rewrite E.
  rewrite seqZ_cons by lia. cbn [map concat]. by rewrite app_nil_r.
Qed.

Lemma write_sector fuel w s :
  (blk_fuel ≤ fuel)%nat → 0 ≤ s < part_length →
  ∃ d' l', int13h_write fuel s 1 w = Done 0 (put_io (w_mem w) d' l' w) ∧
    ∀ x, blk d' x = if decide (x = s) then load_bytes (w_mem w) DISK_WRITE_LOCATION 512
                    else blk (w_dev w) x.
Proof.
  intros Hf Hs. destruct (blk_write fuel w s 1 0 Hf) as (d' & l' & E & Hd); [lia..|].
  exists d', l'. split; [done|]. intros x. rewrite Hd.
  repeat case_decide; try lia; [|done]. subst. by rewrite Z.sub_diag.
Qed.

Lemma fat_offset_bounds w c :
  fat32_ok w → 2 ≤ c < total_clusters w →
  let cs := cluster_bytes w in
  u32 cs = cs ∧ u32 (c * 4) = 4 * c ∧ cs = 512 * sectors_per_cluster (bootsect w) ∧ 0 < cs ≤ 32768 ∧
  0 ≤ first_fat_sector w + 4 * c / cs < part_length ∧
  u32 (first_fat_sector w + 4 * c / cs) = first_fat_sector w + 4 * c / cs ∧
  0 ≤ 4 * c mod cs ∧ 4 * c mod cs + 4 ≤ cs.
Proof.
  intros [Ht Hb Hs Htot Hf Hfit] Hc cs.
  assert (cs = 512 * sectors_per_cluster (bootsect w)) as Hcs by (unfold cs, cluster_bytes; lia).
  assert (4 * c / cs ≤ 4 * (total_clusters w - 1) / 512).
  { etransitivity; [apply (Z.div_le_compat_l _ 512); lia|]. apply Z.div_le_mono; lia. }
  assert (0 ≤ 4 * c / cs) by (apply Z.div_pos; lia).
  assert (part_length < 2 ^ 32) by done.
  split_and!; unfold u32; lia.
Qed.

Lemma fat_locate_ok w c :
  fat32_ok w → 2 ≤ c < total_clusters w →
  fat_locate c 4 w =
  Done (first_fat_sector w + 4 * c / cluster_bytes w, 4 * c mod cluster_bytes w) w.
Proof.
  intros Hw Hc. destruct (fat_offset_bounds w c Hw Hc) as (H1 & H2 & _ & H3 & _ & H4 & _).
  unfold fat_locate, bind, gets, id. unfold cluster_bytes in *. rewrite H1, H2.
  destruct (Z.eqb_spec (bytes_per_sector (bootsect w) * sectors_per_cluster (bootsect w)) 0); [lia|].
  by rewrite H4.
Qed.

Lemma valid_cluster w c :
  2 ≤ c < total_clusters w → (c <? 2) || (total_clusters w <=? c) = false.
Proof. intros Hc. apply orb_false_iff. split; [apply Z.ltb_ge|apply Z.leb_gt]; lia. Qed.

(** The entry at byte [off] of a sector in the zeroed 32 KiB table. *)
Lemma table_entry bs off :
  bytes_ok bs → length bs = 512%nat → 0 ≤ off → (off + 4 ≤ 512 ∨ 512 ≤ off) →
  load32 (store_bytes ∅ 0 bs) off = if off <? 512 then f32 bs (Z.to_nat off) else 0.
Proof.
  intros Hb Hl H0' Hoff. destruct (Z.ltb_spec off 512).
  - rewrite <-(load32_store_bytes ∅ 0 bs (Z.to_nat off)) by (done || lia). f_equal. lia.
  - unfold load32. rewrite !load8_store_bytes, !decide_False by lia. done.
Qed.

Lemma table_in_ok w table :
  bytes_per_sector (bootsect w) = 512 →
  table_in table w = Done (store_bytes table 0 (load_bytes (w_mem w) DISK_READ_LOCATION 512)) w.
Proof. intros Hb. unfold table_in, bind, gets. by rewrite Hb. Qed.

Lemma table_access_ok w off width : off + width ≤ 32768 → table_access off width w = Done tt w.
Proof.
  intros Hl. unfold table_access, FAT_TABLE_SIZE. by rewrite (proj2 (Z.ltb_ge _ _)).
Qed.

(** Reading an entry on any FAT32 volume: what the driver's address gives. *)
Lemma FATRead_run junk w c :
  fat32_ok w → 2 ≤ c < total_clusters w →
  let sec := first_fat_sector w + 4 * c / cluster_bytes w in
  let off := 4 * c mod cluster_bytes w in
  ∃ d' l', FATRead junk c w =
    Done (if off <? 512 then Z.land (f32 (blk (w_dev w) sec) (Z.to_nat off)) 0x0FFFFFFF else 0)
      (put_io (store_bytes (w_mem w) DISK_READ_LOCATION (blk (w_dev w) sec)) d' l' w) ∧
    ∀ x, blk d' x = blk (w_dev w) x.
Proof.
  intros Hw Hc sec off. destruct (fat_offset_bounds w c Hw Hc) as (_ & _ & Hcs & Hcs' & Hsec & _ & Hoff & Hoff').
  destruct (read_sector w sec Hsec) as (d' & l' & E & Hd). exists d', l'. split; [|done].
  set (w1 := put_io _ d' l' w) in *. unfold FATRead. rewrite (bind_done _ _ _ w w) by done.
  rewrite (valid_cluster w c Hc), (ok_type _ Hw). cbn [Z.eqb Pos.eqb].
  rewrite (bind_done _ _ _ _ _ (fat_locate_ok w c Hw Hc)). cbn [fst snd].
  rewrite (bind_done _ _ _ _ _ E). cbn [negb Z.eqb].
  rewrite (bind_done _ _ _ _ _ (table_in_ok w1 _ (ok_bps _ Hw))).
  rewrite (bind_done _ _ _ _ _ (table_access_ok w1 off 4 ltac:(unfold off; lia))).
  unfold ret. f_equal. unfold w1. cbn [w_mem put_io]. destruct (blk_ok (w_dev w) sec) as [Hl Hb].
  rewrite <-Hl, load_store_bytes_same by done. rewrite table_entry; [|done|done|done|].
  - by destruct (_ <? _).
  - subst off. rewrite Hcs. lia.
Qed.

Lemma FATWrite_run fuel junk w c v :
  (blk_fuel ≤ fuel)%nat → fat32_ok w → 2 ≤ c < total_clusters w →
  let sec := first_fat_sector w + 4 * c / cluster_bytes w in
  let off := 4 * c mod cluster_bytes w in
  let new := load_bytes (store32 (store_bytes ∅ 0 (blk (w_dev w) sec)) off v) 0 512 in
  ∃ m' d' l', FATWrite fuel junk c v w = Done 0 (put_io m' d' l' w) ∧
    (∀ x, blk d' x = if decide (x = sec) then new else blk (w_dev w) x) ∧
    m' ≡ₘ store_bytes (w_mem w) DISK_READ_LOCATION new.
Proof.
  intros Hf Hw Hc sec off new.
  destruct (fat_offset_bounds w c Hw Hc) as (_ & _ & Hcs & Hcs' & Hsec & _ & Hoff & Hoff').
  destruct (read_sector w sec Hsec) as (d1 & l1 & E1 & Hd1).
  destruct (blk_ok (w_dev w) sec) as [Hl Hb].
  set (w1 := put_io _ d1 l1 w) in E1. set (m2 := store_bytes (w_mem w1) DISK_WRITE_LOCATION new).
  destruct (write_sector fuel (put_mem m2 w1) sec Hf Hsec) as (d2 & l2 & E2 & Hd2).
  exists m2, d2, l2. split_and!.
  - unfold FATWrite. rewrite (bind_done _ _ _ w w) by done.
    rewrite (valid_cluster w c Hc), (ok_type _ Hw). cbn [Z.eqb Pos.eqb].
    rewrite (bind_done _ _ _ _ _ (fat_locate_ok w c Hw Hc)). cbn [fst snd].
    fold sec off. rewrite (bind_done _ _ _ _ _ E1). cbn [negb Z.eqb].
    rewrite (bind_done _ _ _ _ _ (table_in_ok w1 _ (ok_bps _ Hw))).
    rewrite (bind_done _ _ _ _ _ (table_access_ok w1 off 4 ltac:(unfold off; lia))).
    rewrite (bind_done _ _ _ tt (put_mem m2 w1)); [by rewrite (bind_done _ _ _ _ _ E2)|].
    unfold table_out, bind, gets, modify. change (bootsect w1) with (bootsect w).
    rewrite (ok_bps _ Hw). do 2 f_equal. subst m2 new. do 3 f_equal.
    unfold w1. cbn [w_mem put_io]. rewrite <-Hl at 1. by rewrite load_store_bytes_same.
  - intros x. rewrite Hd2. change (w_dev (put_mem m2 w1)) with d1. rewrite Hd1.
    case_decide; [|done]. change (w_mem (put_mem m2 w1)) with m2. subst m2.
    change DISK_WRITE_LOCATION with DISK_READ_LOCATION.
    assert (length new = 512%nat) as Hn by apply length_load_bytes.
    rewrite <-Hn. apply load_store_bytes_same, load_bytes_ok.
  - intros x. subst m2. unfold w1. cbn [w_mem put_io].
    change DISK_WRITE_LOCATION with DISK_READ_LOCATION.
    assert (length new = 512%nat) as Hn by apply length_load_bytes.
    rewrite !load8_store_bytes, Hn, Hl. repeat case_decide; done.
Qed.
End TableProofs.

(** * The abstract table and the refinement *)

(** What the three operations promise: a map from clusters to 32-bit entries. *)
Module AbsFat.
Definition table := Z → Z.
Definition read (V : table) (c : Z) : Z := Z.land (V c) 0x0FFFFFFF.
Definition write (V : table) (c v : Z) : table := λ x, if decide (x = c) then u32 v else V x.
Fixpoint first_free (V : table) (n : nat) (c : Z) : option Z :=
  match n with
  | O => None
  | S n' => if read V c =? FREE_CLUSTER_32 then Some c else first_free V n' (c + 1)
  end.
Definition alloc (V : table) (total : Z) : Z * table :=
  match first_free V (Z.to_nat (total - 2)) 2 with
  | Some c => (c, write V c END_CLUSTER_32)
  | None => (BAD_CLUSTER_32, V)
  end.
End AbsFat.

Section Refinement.
Context {D : Type} `{BlockDevice D}.
Implicit Types w : world D.

(** The entries on the disk are those of the abstract table. *)
Definition fat_rep w (V : AbsFat.table) : Prop :=
  ∀ c, 0 ≤ c < total_clusters w → fat_view w c = V c.

Lemma fat32_ok_io m d l w : fat32_ok w → fat32_ok (put_io m d l w).
Proof. by intros []. Qed.

(** The geometry on which the driver's address is the right one. *)
Definition one_sector w : Prop := sectors_per_cluster (bootsect w) = 1.

Lemma one_sector_bytes w : fat32_ok w → one_sector w → cluster_bytes w = 512.
Proof. intros [_ Hb _ _ _ _] Hs. unfold cluster_bytes. by rewrite Hb, Hs. Qed.

Lemma FATRead_rep junk w V c :
  fat32_ok w → one_sector w → fat_rep w V → 2 ≤ c < total_clusters w →
  ∃ m' d' l', FATRead junk c w = Done (AbsFat.read V c) (put_io m' d' l' w) ∧
    fat_rep (put_io m' d' l' w) V ∧ ∀ x, blk d' x = blk (w_dev w) x.
Proof.
  intros Hw H1 HV Hc. destruct (FATRead_run junk w c Hw Hc) as (d' & l' & E & Hd).
  rewrite (one_sector_bytes w Hw H1) in E. eexists _, d', l'. split_and!; [|clear E|done].
  - rewrite E. f_equal. rewrite (proj2 (Z.ltb_lt _ _)) by (apply Z.mod_pos_bound; lia).
    unfold AbsFat.read. by rewrite <-HV by lia.
  - intros x Hx. rewrite <-HV by done. unfold fat_view. simpl. by rewrite Hd.
Qed.

(** The sector with one entry replaced, entry by entry. *)
Lemma new_entry bs off v off' :
  bytes_ok bs → length bs = 512%nat → 0 ≤ off → 0 ≤ off' →
  off mod 4 = 0 → off' mod 4 = 0 → off < 512 → off' < 512 →
  f32 (load_bytes (store32 (store_bytes ∅ 0 bs) off v) 0 512) (Z.to_nat off') =
  if decide (off' = off) then u32 v else f32 bs (Z.to_nat off').
Proof.
  intros Hb Hl ??????. rewrite f32_load_bytes, Z2Nat.id, Z.add_0_l by lia. case_decide as E.
  - subst. apply load32_store32.
  - rewrite load32_store32_ne by lia. rewrite table_entry by (done || lia).
    by rewrite (proj2 (Z.ltb_lt _ _)).
Qed.

Lemma FATWrite_rep fuel junk w V c v :
  (blk_fuel ≤ fuel)%nat → fat32_ok w → one_sector w → fat_rep w V → 2 ≤ c < total_clusters w →
  ∃ m' d' l', FATWrite fuel junk c v w = Done 0 (put_io m' d' l' w) ∧
    fat_rep (put_io m' d' l' w) (AbsFat.write V c v) ∧
    ∀ x, x ≠ first_fat_sector w + 4 * c / 512 → blk d' x = blk (w_dev w) x.
Proof.
  intros Hf Hw H1 HV Hc. destruct (FATWrite_run fuel junk w c v Hf Hw Hc) as (m' & d' & l' & E & Hd & _).
  rewrite (one_sector_bytes w Hw H1) in Hd. exists m', d', l'. split_and!; [done| |].
  - intros x Hx. unfold fat_view, AbsFat.write. simpl. rewrite Hd.
    destruct (blk_ok (w_dev w) (first_fat_sector w + 4 * c / 512)) as [Hl Hb].
    destruct (decide (first_fat_sector w + _ = _)) as [Es|Es].
    + rewrite new_entry by (done || lia). rewrite <-HV by done. unfold fat_view. rewrite Es.
      destruct (decide (x = c)), (decide (4 * x mod 512 = 4 * c mod 512)); done || lia.
    + rewrite decide_False by (intros ->; done). by rewrite <-HV.
  - intros x Hx. rewrite Hd. by rewrite decide_False.
Qed.

Lemma read_range V c : 0 ≤ V c < 2 ^ 32 → 0 ≤ AbsFat.read V c < 2 ^ 28.
Proof.
  intros HV. unfold AbsFat.read. change 0x0FFFFFFF with (Z.ones 28).
  rewrite Z.land_ones by done. apply Z.mod_pos_bound. done.
Qed.

Lemma fat_view_range w c : 0 ≤ fat_view w c < 2 ^ 32.
Proof. apply f32_range, blk_ok. Qed.

Lemma alloc_loop_rep fuel junk n : ∀ w V c,
  (blk_fuel ≤ fuel)%nat → fat32_ok w → one_sector w → fat_rep w V →
  2 ≤ c → c + Z.of_nat n = total_clusters w →
  ∃ m' d' l',
    alloc_loop fuel junk n FREE_CLUSTER_32 BAD_CLUSTER_32 END_CLUSTER_32 c w =
      Done (default BAD_CLUSTER_32 (AbsFat.first_free V n c)) (put_io m' d' l' w) ∧
    fat_rep (put_io m' d' l' w)
      (match AbsFat.first_free V n c with Some x => AbsFat.write V x END_CLUSTER_32 | None => V end).
Proof.
  induction n as [|n IH]; intros w V c Hf Hw H1 HV Hc Hn.
  { exists (w_mem w), (w_dev w), (w_log w). split; [by destruct w|done]. }
  destruct (FATRead_rep junk w V c Hw H1 HV ltac:(lia)) as (m1 & d1 & l1 & E1 & HV1 & _).
  cbn [alloc_loop AbsFat.first_free]. rewrite (bind_done _ _ _ _ _ E1).
  assert (0 ≤ AbsFat.read V c < 2 ^ 28) as Hr by (apply read_range; rewrite <-HV by lia; apply fat_view_range).
  rewrite u32_id by lia. set (w1 := put_io m1 d1 l1 w) in *.
  destruct (AbsFat.read V c =? FREE_CLUSTER_32) eqn:Ef.
  - destruct (FATWrite_rep fuel junk w1 V c END_CLUSTER_32 Hf (fat32_ok_io _ _ _ _ Hw) H1 HV1 ltac:(subst w1; simpl; lia))
      as (m2 & d2 & l2 & E2 & HV2 & _).
    rewrite (bind_done _ _ _ _ _ E2). exists m2, d2, l2. done.
  - rewrite (proj2 (Z.ltb_ge _ 0)) by lia.
    destruct (IH w1 V (c + 1) Hf (fat32_ok_io _ _ _ _ Hw) H1 HV1 ltac:(lia) ltac:(subst w1; simpl; lia))
      as (m2 & d2 & l2 & E2 & HV2). exists m2, d2, l2. done.
Qed.

Lemma first_free_spec V n : ∀ c,
  match AbsFat.first_free V n c with
  | Some x => c ≤ x < c + Z.of_nat n ∧ AbsFat.read V x = 0 ∧
              ∀ y, c ≤ y < x → AbsFat.read V y ≠ 0
  | None => ∀ y, c ≤ y < c + Z.of_nat n → AbsFat.read V y ≠ 0
  end.
Proof.
  induction n as [|n IH]; intros c; simpl; [lia|]. case_if; zbool; [split_and!; [lia|lia|done|lia]|].
  specialize (IH (c + 1)). destruct (AbsFat.first_free V n (c + 1)).
  - destruct IH as (? & ? & Hy). split_and!; [lia|lia|done|]. intros y Hy'.
    destruct (decide (y = c)) as [->|]; [done|]. apply Hy. lia.
  - intros y Hy. destruct (decide (y = c)) as [->|]; [done|]. apply IH. lia.
Qed.
End Refinement.

(** * Theorems *)

(** A 512-byte-per-sector FAT32 volume on the simulated drive. *)
Definition demo_boot (spc : Z) : fat_BS :=
  fat_BS_of (replicate 11 0 ++ bytes16 512 ++ [spc] ++ bytes16 32 ++ [2] ++ replicate 27 0 ++ [2] ++ replicate 45 0).
Definition demo_world (spc total : Z) (disk : gmap Z (list Z)) : world sim :=
  World ∅ (Sim (Line [] []) disk ∅ XNone 0) [] 32 32 200 total (demo_boot spc) [].

Lemma demo_ok spc total disk :
  1 ≤ spc ≤ 64 → 2 ≤ total ≤ 2 ^ 20 → fat32_ok (demo_world spc total disk).
Proof.
  intros Hs Ht. split; simpl; try done; try lia. unfold part_length. lia.
Qed.

(** C7: on a FAT32 volume with one sector per cluster [FATRead] and [FATWrite]
    implement the abstract table: a read returns the low 28 bits of the entry and
    changes nothing, a write replaces exactly that entry, in one sector; both
    succeed for every cluster from 2 below [total_clusters]. *)
Theorem FAT_refines `{BlockDevice D} fuel junk (w : world D) V c v :
  (blk_fuel ≤ fuel)%nat → fat32_ok w → one_sector w → fat_rep w V → 2 ≤ c < total_clusters w →
  (∃ w', FATRead junk c w = Done (AbsFat.read V c) w' ∧ fat_rep w' V ∧
     ∀ x, blk (w_dev w') x = blk (w_dev w) x) ∧
  (∃ w', FATWrite fuel junk c v w = Done 0 w' ∧ fat_rep w' (AbsFat.write V c v) ∧
     ∀ x, x ≠ first_fat_sector w + 4 * c / 512 → blk (w_dev w') x = blk (w_dev w) x).
Proof.
  intros Hf Hw H1 HV Hc. split.
  - destruct (FATRead_rep junk w V c Hw H1 HV Hc) as (m & d & l & E & HV' & Hd). eauto 10.
  - destruct (FATWrite_rep fuel junk w V c v Hf Hw H1 HV Hc) as (m & d & l & E & HV' & Hd). eauto 10.
Qed.

Lemma FAT_refines_witness :
  let w := demo_world 1 100 {[ 33543752 := [0; 0; 0; 0; 0xFFFF; 0xFFFF] ]} in
  ∃ w', FATRead ∅ 2 w = Done 0x0FFFFFFF w'.
Proof.
  set (w := demo_world 1 100 {[ 33543752 := [0; 0; 0; 0; 0xFFFF; 0xFFFF] ]}). cbv zeta.
  destruct (FAT_refines 100 ∅ w (fat_view w) 2 7) as [(w' & E & _) _];
    [simpl; unfold ata_fuel; simpl; lia|apply demo_ok; lia|done|by intros ??|done|].
  exists w'. etransitivity; [exact E|]. vm_compute. reflexivity.
Defined.



Lemma same_sector bs off v :
  bytes_ok bs → length bs = 512%nat → 512 ≤ off →
  load_bytes (store32 (store_bytes ∅ 0 bs) off v) 0 512 = bs.
Proof.
  intros Hb Hl Ho. unfold store32. rewrite load_store_bytes_disjoint by (left; lia).
  rewrite <-Hl. by apply load_store_bytes_same.
Qed.

(** The table address is computed with the cluster size where the sector size
    is meant, while one sector is transferred. With more than one sector per
    cluster, every cluster whose entry offset falls behind the first 512 bytes
    reads as 0 (free) whatever the disk holds, and writing its entry reports
    success but leaves the disk as it was. *)
Theorem FAT_stride `{BlockDevice D} fuel junk (w : world D) c v :
  (blk_fuel ≤ fuel)%nat → fat32_ok w → 2 ≤ c < total_clusters w → 512 ≤ 4 * c mod cluster_bytes w →
  (∃ w', FATRead junk c w = Done FREE_CLUSTER_32 w') ∧
  (∃ w', FATWrite fuel junk c v w = Done 0 w' ∧ ∀ x, blk (w_dev w') x = blk (w_dev w) x).
Proof.
  intros Hf Hw Hc Ho. split.
  - destruct (FATRead_run junk w c Hw Hc) as (d & l & E & _). eexists. rewrite E.
    by rewrite (proj2 (Z.ltb_ge _ _)).
  - destruct (FATWrite_run fuel junk w c v Hf Hw Hc) as (m & d & l & E & Hd & _).
    eexists. split; [exact E|]. intros x. simpl. rewrite Hd. case_decide; [|done].
    destruct (blk_ok (w_dev w) x) as [Hl Hb]. subst x. by apply same_sector.
Qed.

Lemma FAT_stride_witness :
  ∃ w', FATRead ∅ 200 (demo_world 2 1000 ∅) = Done FREE_CLUSTER_32 w'.
Proof.
  apply (FAT_stride 100 ∅ (demo_world 2 1000 ∅) 200 0);
    [simpl; unfold ata_fuel; simpl; lia|apply demo_ok; lia|done|vm_compute; discriminate].
Defined.

(** On the clusters of the first table sector the address is right for any
    cluster size above one sector. *)
Lemma FATRead_low `{BlockDevice D} junk (w : world D) c :
  fat32_ok w → 2 ≤ sectors_per_cluster (bootsect w) → 2 ≤ c < 128 → 128 < total_clusters w →
  ∃ m d l, FATRead junk c w = Done (Z.land (fat_view w c) 0x0FFFFFFF) (put_io m d l w) ∧
    ∀ x, blk d x = blk (w_dev w) x.
Proof.
  intros Hw Hs Hc Ht. destruct (FATRead_run junk w c Hw ltac:(lia)) as (d & l & E & Hd).
  assert (512 < cluster_bytes w) as Hcs by (unfold cluster_bytes; rewrite (ok_bps _ Hw); lia).
  rewrite (Z.div_small (4 * c)), (Z.mod_small (4 * c)) in E by lia.
  rewrite (proj2 (Z.ltb_lt _ _)) in E by lia.
  eexists _, d, l. split; [|done]. rewrite E. unfold fat_view.
  by rewrite (Z.div_small (4 * c)), (Z.mod_small (4 * c)) by lia.
Qed.

Lemma alloc_scan_low `{BlockDevice D} fuel junk n : ∀ (w : world D) c,
  (blk_fuel ≤ fuel)%nat → fat32_ok w → 2 ≤ sectors_per_cluster (bootsect w) →
  128 < total_clusters w → 2 ≤ c → c + Z.of_nat n = 128 →
  (∀ y, 2 ≤ y < 128 → Z.land (fat_view w y) 0x0FFFFFFF ≠ 0) →
  ∀ k, ∃ w', alloc_loop fuel junk (n + S k) FREE_CLUSTER_32 BAD_CLUSTER_32 END_CLUSTER_32 c w = Done 128 w' ∧
     ∀ x, blk (w_dev w') x = blk (w_dev w) x.
Proof.
  induction n as [|n IH]; intros w c Hf Hw Hs Ht Hc Hn Hused k; cbn [alloc_loop Nat.add].
  - assert (c = 128) as -> by lia.
    assert (512 < cluster_bytes w) as Hcs by (unfold cluster_bytes; rewrite (ok_bps _ Hw); lia).
    destruct (FATRead_run junk w 128 Hw ltac:(lia)) as (d1 & l1 & E1 & Hd1).
    rewrite (bind_done _ _ _ _ _ E1), (proj2 (Z.ltb_ge _ 512)) by (rewrite Z.mod_small; lia).
    cbn [u32]. change (u32 0 =? FREE_CLUSTER_32) with true. cbv iota zeta.
    set (w1 := put_io _ d1 l1 w).
    destruct (FATWrite_run fuel junk w1 128 END_CLUSTER_32 Hf (fat32_ok_io _ _ _ _ Hw) ltac:(subst w1; simpl; lia))
      as (m2 & d2 & l2 & E2 & Hd2 & _).
    rewrite (bind_done _ _ _ _ _ E2). eexists. split; [done|]. intros x. simpl. rewrite Hd2.
    change (w_dev w1) with d1. rewrite !Hd1. case_decide; [|done].
    destruct (blk_ok (w_dev w) x) as [Hl Hb]. subst x. apply same_sector; [done|done|].
    change (cluster_bytes w1) with (cluster_bytes w). rewrite Z.mod_small; lia.
  - destruct (FATRead_low junk w c Hw Hs ltac:(lia) Ht) as (m1 & d1 & l1 & E1 & Hd1).
    rewrite (bind_done _ _ _ _ _ E1). set (w1 := put_io m1 d1 l1 w).
    pose proof (read_range (fat_view w) c (fat_view_range w c)) as Hr. unfold AbsFat.read in Hr.
    pose proof (Hused c ltac:(lia)) as Huc. rewrite u32_id by lia.
    rewrite (proj2 (Z.eqb_neq _ FREE_CLUSTER_32)), (proj2 (Z.ltb_ge _ 0)) by (unfold FREE_CLUSTER_32; lia).
    destruct (IH w1 (c + 1) Hf (fat32_ok_io _ _ _ _ Hw) Hs Ht ltac:(lia) ltac:(lia)) with (k := k) as (w2 & E2 & Hd2).
    { intros y Hy. unfold fat_view. simpl. rewrite Hd1. by apply Hused. }
    exists w2. split; [exact E2|]. intros x. rewrite Hd2. apply Hd1.
Qed.

(** With two or more sectors per cluster, once clusters 2 to 127 are taken
    every call of [allocateFreeFAT] returns cluster 128 and leaves the disk as it
    is, also when cluster 128 belongs to a file: two files get the same
    cluster. *)
Theorem allocateFreeFAT_reuses `{BlockDevice D} fuel junk (w : world D) :
  (blk_fuel ≤ fuel)%nat → fat32_ok w → 2 ≤ sectors_per_cluster (bootsect w) →
  128 < total_clusters w →
  (∀ c, 2 ≤ c < 128 → Z.land (fat_view w c) 0x0FFFFFFF ≠ 0) →
  ∃ w', allocateFreeFAT fuel junk w = Done 128 w' ∧ ∀ x, blk (w_dev w') x = blk (w_dev w) x.
Proof.
  intros Hf Hw Hs Ht Hused.
  destruct (alloc_scan_low fuel junk 126 w 2 Hf Hw Hs Ht ltac:(lia) ltac:(lia) Hused
              (Z.to_nat (total_clusters w - 129))) as (w' & E & Hd).
  exists w'. split; [|done]. unfold allocateFreeFAT, bind at 1 2, gets.
  rewrite (ok_type _ Hw). cbn [Z.eqb Pos.eqb].
  by replace (Z.to_nat (total_clusters w - 2)) with (126 + S (Z.to_nat (total_clusters w - 129)))%nat by lia.
Qed.

Lemma allocateFreeFAT_reuses_witness :
  ∃ w', allocateFreeFAT 100 ∅ (demo_world 2 1000 {[ 33543752 := replicate 256 0xFFFF ]}) = Done 128 w'.
Proof.
  destruct (allocateFreeFAT_reuses 100 ∅ (demo_world 2 1000 {[ 33543752 := replicate 256 0xFFFF ]}))
    as (w' & E & _);
    [simpl; unfold ata_fuel; simpl; lia|apply demo_ok; lia|by vm_compute|done| |by exists w'].
  intros c Hc. assert (Forall (λ c, Z.land (fat_view (demo_world 2 1000 {[ 33543752 := replicate 256 0xFFFF ]}) c)
    0x0FFFFFFF ≠ 0) (seqZ 2 126)) as HF by (apply (bool_decide_unpack _); vm_compute; exact I).
  rewrite Forall_forall in HF. apply HF, elem_of_seqZ. lia.
Defined.

(** ** Mounting *)

Lemma f8_take n bs o : (o < n)%nat → f8 (take n bs) o = f8 bs o.
Proof. intros Ho. unfold f8. by rewrite lookup_take_lt. Qed.

Lemma fbytes_take n bs o k : (o + k ≤ n)%nat → fbytes (take n bs) o k = fbytes bs o k.
Proof. intros Ho. unfold fbytes. rewrite skipn_firstn_comm, take_take. f_equal. lia. Qed.

(** The bytes the struct holds decide all its fields. *)
Lemma fat_BS_take bs : fat_BS_of (take fat_BS_size bs) = fat_BS_of bs.
Proof.
  unfold fat_BS_of, fat_BS_size, f32, f16. by rewrite !f8_take, !fbytes_take by lia.
Qed.

(** The number of clusters a boot sector announces. *)
Definition boot_clusters (b : fat_BS) : Z :=
  let n := total_sectors_16 b / sectors_per_cluster b in
  if n =? 0 then total_sectors_32 b / sectors_per_cluster b else n.

(** The first data sector: behind the reserved sectors and the tables, and on
    FAT12 and FAT16 behind the root directory. *)
Definition boot_data_sector (b : fat_BS) : Z :=
  if boot_clusters b <? 65525 then
    u32 (reserved_sector_count b + table_count b * table_size_16 b +
         (root_entry_count b * 32 + bytes_per_sector b - 1) / bytes_per_sector b)
  else
    u32 (reserved_sector_count b +
         u32 (table_count b * table_size_32 (fat_extBS_32_of (extended_section b)))).

Definition mounted {D} (bs : list Z) (w : world D) : world D :=
  let b := fat_BS_of bs in
  World (w_mem w) (w_dev w) (w_log w)
    (if boot_clusters b <? 4085 then 12 else if boot_clusters b <? 65525 then 16 else 32)
    (reserved_sector_count b) (boot_data_sector b) (boot_clusters b) b (drop fat_BS_size bs).

Lemma div_ok {D} x y (w : world D) : y ≠ 0 → div_ x y w = Done (x / y) w.
Proof. intros Hy. unfold div_. by rewrite (proj2 (Z.eqb_neq _ _)). Qed.

Lemma FATInitialize_run `{BlockDevice D} (w : world D) :
  let b := fat_BS_of (blk (w_dev w) 0) in
  sectors_per_cluster b ≠ 0 → bytes_per_sector b ≠ 0 →
  ∃ m d l, FATInitialize w = Done 0 (mounted (blk (w_dev w) 0) (put_io m d l w)) ∧
    ∀ x, blk d x = blk (w_dev w) x.
Proof.
  intros b Hs Hb. destruct (read_sector w 0 ltac:(done)) as (d & l & E & Hd).
  set (bs := blk (w_dev w) 0) in *. destruct (blk_ok (w_dev w) 0) as [Hl Hbs]. fold bs in Hl, Hbs.
  set (m := store_bytes (w_mem w) DISK_READ_LOCATION bs) in E.
  exists m, d, l. split; [|done]. unfold FATInitialize. rewrite (bind_done _ _ _ _ _ E). cbn [negb Z.eqb].
  set (w1 := put_io m d l w).
  assert (load_bytes (w_mem w1) DISK_READ_LOCATION 512 = bs) as Hload
    by (rewrite <-Hl; by apply load_store_bytes_same).
  rewrite (bind_done _ _ _ bs w1) by (unfold gets; by rewrite Hload). cbv zeta. fold b.
  rewrite (bind_done _ _ _ _ _ (div_ok _ _ _ Hs)).
  set (w2 := set_total_clusters (boot_clusters b) w1).
  assert (∀ A (k : M (world D) A), (modify (set_total_clusters (total_sectors_16 b / sectors_per_cluster b)) ;;
    (when! total_sectors_16 b / sectors_per_cluster b =? 0 do
       (let! tc := div_ (total_sectors_32 b) (sectors_per_cluster b) in
        modify (set_total_clusters tc))) ;; k) w1 = k w2) as Htot.
  { intros A k. unfold bind at 1, modify at 1. subst w2. unfold boot_clusters.
    destruct (total_sectors_16 b / sectors_per_cluster b =? 0); [|done].
    unfold bind at 1. by rewrite (bind_done _ _ _ _ _ (div_ok _ _ _ Hs)). }
  rewrite Htot. rewrite (bind_done _ _ _ (boot_clusters b) w2) by done.
  unfold mounted, boot_data_sector. fold b.
  destruct (Z.ltb_spec (boot_clusters b) 4085), (Z.ltb_spec (boot_clusters b) 65525); [|lia|..].
  all: unfold bind, modify, ret; rewrite ?(proj2 (Z.eqb_neq _ _) Hb); unfold div_;
    rewrite ?(proj2 (Z.eqb_neq _ _) Hb); unfold ret, set_bootsect; rewrite fat_BS_take; fold b; done.
Qed.


(** Boot sector of a FAT32 volume of 70000 sectors, as 16-bit words. *)
Definition demo_sector : list Z :=
  replicate 5 0 ++ [0; 0x0102; 32; 2; 0; 0; 0; 0; 0; 0; 0; 70000 mod 65536; 1; 547; 0].


(** The object [bootsect] is [fat_BS_size] = 90 bytes long and
    [FATInitialize] copies 512 bytes to it: every successful mount writes the
    last 422 bytes of the boot sector over whatever lies behind it. *)
Theorem FATInitialize_overruns `{BlockDevice D} (w : world D) :
  let b := fat_BS_of (blk (w_dev w) 0) in
  sectors_per_cluster b ≠ 0 → bytes_per_sector b ≠ 0 →
  ∃ w', FATInitialize w = Done 0 w' ∧ bootsect_spill w' = drop 90 (blk (w_dev w) 0) ∧
        length (bootsect_spill w') = 422%nat.
Proof.
  intros b Hs Hb. destruct (FATInitialize_run w Hs Hb) as (m & d & l & E & _).
  eexists. split; [exact E|]. split; [done|]. cbn [bootsect_spill mounted].
  rewrite length_drop, (proj1 (blk_ok _ _)). done.
Qed.

Lemma FATInitialize_overruns_witness :
  ∃ w', FATInitialize (demo_world 0 0 {[ 33543720 := demo_sector ]}) = Done 0 w' ∧
        length (bootsect_spill w') = 422%nat.
Proof.
  destruct (FATInitialize_overruns (demo_world 0 0 {[ 33543720 := demo_sector ]})) as (w' & E & _ & Hl);
    [vm_compute; discriminate..|]. exists w'. split; assumption.
Defined.

Lemma logs_ret_val {D A} (m : M (world D) unit) (a : A) w :
  logs m → ∃ l, (m ;; ret a) w = Done a (put_log l w).
Proof. intros Hm. destruct (logs_then m (ret a) w Hm) as [l E]. eauto. Qed.

Lemma invalid_type_run {D} f (w : world D) : ∃ l, invalid_type f w = Done (-1) (put_log l w).
Proof.
  unfold invalid_type. set (m := d_printss _).
  destruct (logs_then m (let! t := gets fat_type in d_printhex t 8 ;; d_printss [10] ;; ret (-1)) w)
    as [l1 ->]; [apply logs_printss|].
  rewrite (bind_done _ _ _ (fat_type w) (put_log l1 w)) by done.
  destruct (logs_then (d_printhex (fat_type w) 8) (d_printss [10] ;; ret (-1)) (put_log l1 w)) as [l2 ->];
    [apply logs_printhex|].
  destruct (logs_ret_val (d_printss [10]) (-1) (put_log l2 (put_log l1 w))) as [l3 ->]; [apply logs_printss|].
  by exists l3.
Qed.


