(* ===== verification/Fat16.v ===== *)
(** The FAT16 branches of [FATRead], [FATWrite] and [allocateFreeFAT] of
    src/kernel/arch/i386/FAT.c: 16-bit entries, a local table that is not
    initialised. *)
From S2P Require Import Prelude Machine LibC FatTypes AtaPio AtaSim FatTable.

(** * The abstract table *)

Module AbsFat16.
Definition table := Z → Z.
Definition write (V : table) (c v : Z) : table := λ x, if decide (x = c) then u16 v else V x.
Fixpoint first_free (V : table) (n : nat) (c : Z) : option Z :=
  match n with
  | O => None
  | S n' => if V c =? FREE_CLUSTER_16 then Some c else first_free V n' (c + 1)
  end.
End AbsFat16.

Section Fat16.
Context {D : Type} `{BlockDevice D}.
Implicit Types w : world D.

(** A mounted FAT16 volume with 512-byte sectors and one sector per cluster,
    whose table lies in the partition. *)
Record fat16_ok w : Prop := {
  ok16_type : fat_type w = 16;
  ok16_bps : bytes_per_sector (bootsect w) = 512;
  ok16_spc : sectors_per_cluster (bootsect w) = 1;
  ok16_total : 2 ≤ total_clusters w ≤ 0xFFF7;
  ok16_first : 0 ≤ first_fat_sector w;
  ok16_fits : first_fat_sector w + 2 * (total_clusters w - 1) / 512 < part_length;
}.

Definition fat16_view w (c : Z) : Z :=
  f16 (blk (w_dev w) (first_fat_sector w + 2 * c / 512)) (Z.to_nat (2 * c mod 512)).

Definition fat16_rep w (V : AbsFat16.table) : Prop :=
  ∀ c, 0 ≤ c < total_clusters w → fat16_view w c = V c.

Lemma fat16_ok_io m d l w : fat16_ok w → fat16_ok (put_io m d l w).
Proof. by intros []. Qed.

Lemma fat16_sector w c :
  fat16_ok w → 2 ≤ c < total_clusters w → 0 ≤ first_fat_sector w + 2 * c / 512 < part_length.
Proof.
  intros [_ _ _ Ht Hf Hfit] Hc. assert (2 * c / 512 ≤ 2 * (total_clusters w - 1) / 512) by (apply Z.div_le_mono; lia).
  assert (0 ≤ 2 * c / 512) by (apply Z.div_pos; lia). lia.
Qed.

Lemma fat16_locate w c :
  fat16_ok w → 2 ≤ c < total_clusters w →
  fat_locate c 2 w = Done (first_fat_sector w + 2 * c / 512, 2 * c mod 512) w.
Proof.
  intros Hw Hc. pose proof (fat16_sector w c Hw Hc) as Hs. destruct Hw as [_ Hb Hspc Ht _ _].
  unfold fat_locate, bind, gets, id. rewrite Hb, Hspc. change (u32 (512 * 1)) with 512. cbn [Z.eqb].
  rewrite (u32_id (c * 2)) by lia. rewrite (Z.mul_comm c 2). assert (part_length < 4294967296) by done.
  by rewrite u32_id by lia.
Qed.

Lemma f16_load_bytes m a n o :
  (o + 2 ≤ n)%nat → f16 (load_bytes m a n) o = load16 m (a + Z.of_nat o).
Proof.
  intros Ho. unfold f16, f8, load16. rewrite !lookup_load_bytes by lia. simpl. f_equal; f_equal; lia.
Qed.

Lemma table_entry16 junk bs off :
  bytes_ok bs → length bs = 512%nat → 0 ≤ off → off + 2 ≤ 512 →
  load16 (store_bytes junk 0 bs) off = f16 bs (Z.to_nat off).
Proof.
  intros Hb Hl H0' Hoff. rewrite <-(load_store_bytes_same junk 0 bs Hb) at 2. rewrite Hl.
  rewrite f16_load_bytes by lia. f_equal. lia.
Qed.

Lemma FATRead16_rep junk w V c :
  fat16_ok w → fat16_rep w V → 2 ≤ c < total_clusters w →
  ∃ m' d' l', FATRead junk c w = Done (V c) (put_io m' d' l' w) ∧
    fat16_rep (put_io m' d' l' w) V ∧ ∀ x, blk d' x = blk (w_dev w) x.
Proof.
  intros Hw HV Hc. set (sec := first_fat_sector w + 2 * c / 512). set (off := 2 * c mod 512).
  assert (0 ≤ off ∧ off + 2 ≤ 512) as Hoff by (unfold off; lia).
  destruct (read_sector w sec (fat16_sector w c Hw Hc)) as (d' & l' & E & Hd). destruct (blk_ok (w_dev w) sec) as [Hl Hb].
  eexists _, d', l'. split_and!; [|clear E|done].
  - set (w1 := put_io _ d' l' w) in E. unfold FATRead. rewrite (bind_done _ _ _ w w) by done.
    rewrite (valid_cluster w c Hc), (ok16_type _ Hw). cbn [Z.eqb Pos.eqb].
    rewrite (bind_done _ _ _ _ _ (fat16_locate w c Hw Hc)). cbn [fst snd]. fold sec off.
    rewrite (bind_done _ _ _ _ _ E). cbn [negb Z.eqb].
    rewrite (bind_done _ _ _ _ _ (table_in_ok w1 _ (ok16_bps _ Hw))).
    rewrite (bind_done _ _ _ _ _ (table_access_ok w1 off 2 ltac:(lia))).
    unfold ret. f_equal. unfold w1. cbn [w_mem put_io]. rewrite <-Hl, load_store_bytes_same by done.
    rewrite table_entry16 by (done || lia). by rewrite <-HV by lia.
  - intros x Hx. rewrite <-HV by done. unfold fat16_view. simpl. by rewrite Hd.
Qed.

Lemma new_entry16 junk bs off v off' :
  bytes_ok bs → length bs = 512%nat → 0 ≤ off → 0 ≤ off' →
  off mod 2 = 0 → off' mod 2 = 0 → off < 512 → off' < 512 →
  f16 (load_bytes (store16 (store_bytes junk 0 bs) off v) 0 512) (Z.to_nat off') =
  if decide (off' = off) then u16 v else f16 bs (Z.to_nat off').
Proof.
  intros Hb Hl ??????. rewrite f16_load_bytes, Z2Nat.id, Z.add_0_l by lia. case_decide as E.
  - subst. apply load16_store16.
  - rewrite <-(table_entry16 junk bs off') by (done || lia). unfold load16, store16.
    by rewrite !(load8_store_bytes _ off), length_bytes16, !decide_False by lia.
Qed.

Lemma FATWrite16_rep fuel junk w V c v :
  (blk_fuel ≤ fuel)%nat → fat16_ok w → fat16_rep w V → 2 ≤ c < total_clusters w →
  ∃ m' d' l', FATWrite fuel junk c v w = Done 0 (put_io m' d' l' w) ∧
    fat16_rep (put_io m' d' l' w) (AbsFat16.write V c v) ∧
    ∀ x, x ≠ first_fat_sector w + 2 * c / 512 → blk d' x = blk (w_dev w) x.
Proof.
  intros Hf Hw HV Hc. set (sec := first_fat_sector w + 2 * c / 512). set (off := 2 * c mod 512).
  assert (0 ≤ off ∧ off + 2 ≤ 512) as Hoff by (unfold off; lia). pose proof (fat16_sector w c Hw Hc) as Hsec.
  destruct (read_sector w sec Hsec) as (d1 & l1 & E1 & Hd1). destruct (blk_ok (w_dev w) sec) as [Hl Hb].
  set (w1 := put_io _ d1 l1 w) in E1. set (new := load_bytes (store16 (store_bytes junk 0 (blk (w_dev w) sec)) off v) 0 512).
  set (m2 := store_bytes (w_mem w1) DISK_WRITE_LOCATION new).
  destruct (write_sector fuel (put_mem m2 w1) sec Hf Hsec) as (d2 & l2 & E2 & Hd2).
  assert (∀ x, blk d2 x = if decide (x = sec) then new else blk (w_dev w) x) as Hblk.
  { intros x. rewrite Hd2. change (w_dev (put_mem m2 w1)) with d1. rewrite Hd1. case_decide; [|done].
    change (w_mem (put_mem m2 w1)) with m2. assert (length new = 512%nat) as Hn by apply length_load_bytes.
    rewrite <-Hn. apply load_store_bytes_same, load_bytes_ok. }
  exists m2, d2, l2. split_and!.
  - unfold FATWrite. rewrite (bind_done _ _ _ w w) by done.
    rewrite (valid_cluster w c Hc), (ok16_type _ Hw). cbn [Z.eqb Pos.eqb].
    rewrite (bind_done _ _ _ _ _ (fat16_locate w c Hw Hc)). cbn [fst snd].
    fold sec off. rewrite (bind_done _ _ _ _ _ E1). cbn [negb Z.eqb].
    rewrite (bind_done _ _ _ _ _ (table_in_ok w1 _ (ok16_bps _ Hw))).
    rewrite (bind_done _ _ _ _ _ (table_access_ok w1 off 2 ltac:(lia))).
    rewrite (bind_done _ _ _ tt (put_mem m2 w1)); [by rewrite (bind_done _ _ _ _ _ E2)|].
    unfold table_out, bind, gets, modify. change (bootsect w1) with (bootsect w).
    rewrite (ok16_bps _ Hw). do 2 f_equal. subst m2 new. do 3 f_equal.
    unfold w1. cbn [w_mem put_io]. rewrite <-Hl at 1. by rewrite load_store_bytes_same.
  - intros x Hx. unfold fat16_view, AbsFat16.write. simpl. rewrite Hblk.
    destruct (decide (first_fat_sector w + _ = _)) as [Es|Es].
    + unfold new. rewrite new_entry16 by (done || unfold off; lia). rewrite <-HV by done. unfold fat16_view. rewrite Es.
      unfold sec, off in *. destruct (decide (x = c)), (decide (2 * x mod 512 = 2 * c mod 512)); done || lia.
    + rewrite decide_False by (intros ->; done). by rewrite <-HV.
  - intros x Hx. rewrite Hblk. by rewrite decide_False.
Qed.

Lemma fat16_view_range w c : 0 ≤ fat16_view w c < 65536.
Proof.
  unfold fat16_view. set (bs := blk _ _). set (o := Z.to_nat _).
  assert (∀ i, 0 ≤ f8 bs i < 256) as Hi.
  { intros i. unfold f8. destruct (bs !! i) eqn:E; simpl; [|lia].
    exact (Forall_lookup_1 _ _ _ _ (proj2 (blk_ok _ _)) E). }
  unfold f16, le16. pose proof (Hi o). pose proof (Hi (o + 1)%nat). lia.
Qed.

Lemma alloc_loop16_rep fuel junk n : ∀ w V c,
  (blk_fuel ≤ fuel)%nat → fat16_ok w → fat16_rep w V → 2 ≤ c → c + Z.of_nat n = total_clusters w →
  ∃ m' d' l',
    alloc_loop fuel junk n FREE_CLUSTER_16 BAD_CLUSTER_16 END_CLUSTER_16 c w =
      Done (default BAD_CLUSTER_16 (AbsFat16.first_free V n c)) (put_io m' d' l' w) ∧
    fat16_rep (put_io m' d' l' w)
      (match AbsFat16.first_free V n c with Some x => AbsFat16.write V x END_CLUSTER_16 | None => V end).
Proof.
  induction n as [|n IH]; intros w V c Hf Hw HV Hc Hn.
  { exists (w_mem w), (w_dev w), (w_log w). split; [by destruct w|done]. }
  destruct (FATRead16_rep junk w V c Hw HV ltac:(lia)) as (m1 & d1 & l1 & E1 & HV1 & _).
  cbn [alloc_loop AbsFat16.first_free]. rewrite (bind_done _ _ _ _ _ E1).
  assert (0 ≤ V c < 65536) as Hr by (rewrite <-HV by lia; apply fat16_view_range).
  rewrite u32_id by lia. set (w1 := put_io m1 d1 l1 w) in *.
  destruct (V c =? FREE_CLUSTER_16) eqn:Ef.
  - destruct (FATWrite16_rep fuel junk w1 V c END_CLUSTER_16 Hf (fat16_ok_io _ _ _ _ Hw) HV1 ltac:(subst w1; simpl; lia))
      as (m2 & d2 & l2 & E2 & HV2 & _).
    rewrite (bind_done _ _ _ _ _ E2). exists m2, d2, l2. done.
  - rewrite (proj2 (Z.ltb_ge _ 0)) by lia.
    destruct (IH w1 V (c + 1) Hf (fat16_ok_io _ _ _ _ Hw) HV1 ltac:(lia) ltac:(subst w1; simpl; lia))
      as (m2 & d2 & l2 & E2 & HV2). exists m2, d2, l2. done.
Qed.

Lemma first_free16_spec V n : ∀ c,
  match AbsFat16.first_free V n c with
  | Some x => c ≤ x < c + Z.of_nat n ∧ V x = 0 ∧ ∀ y, c ≤ y < x → V y ≠ 0
  | None => ∀ y, c ≤ y < c + Z.of_nat n → V y ≠ 0
  end.
Proof.
  induction n as [|n IH]; intros c; simpl; [lia|]. case_if; zbool; [split_and!; [lia|lia|done|lia]|].
  specialize (IH (c + 1)). destruct (AbsFat16.first_free V n (c + 1)).
  - destruct IH as (? & ? & Hy). split_and!; [lia|lia|done|]. intros y Hy'.
    destruct (decide (y = c)) as [->|]; [done|]. apply Hy. lia.
  - intros y Hy. destruct (decide (y = c)) as [->|]; [done|]. apply IH. lia.
Qed.
End Fat16.

(** * Theorems *)

(** C13: FAT16: on a volume with one sector per cluster, whatever the
    uninitialised local table holds, [FATRead] returns the 16-bit entry and
    changes nothing, [FATWrite] replaces exactly that entry by the low half of
    the value, and [allocateFreeFAT] returns the first free cluster, marked as
    the end of a chain, or [BAD_CLUSTER_16] and changes no entry. *)
Theorem FAT16_refines `{BlockDevice D} fuel junk (w : world D) V :
  (blk_fuel ≤ fuel)%nat → fat16_ok w → fat16_rep w V →
  (∀ c, 2 ≤ c < total_clusters w →
     (∃ w', FATRead junk c w = Done (V c) w' ∧ fat16_rep w' V ∧ ∀ x, blk (w_dev w') x = blk (w_dev w) x) ∧
     (∀ v, ∃ w', FATWrite fuel junk c v w = Done 0 w' ∧ fat16_rep w' (AbsFat16.write V c v) ∧
        ∀ x, x ≠ first_fat_sector w + 2 * c / 512 → blk (w_dev w') x = blk (w_dev w) x)) ∧
  ∃ r w', allocateFreeFAT fuel junk w = Done r w' ∧
    ((2 ≤ r < total_clusters w ∧ V r = 0 ∧ (∀ y, 2 ≤ y < r → V y ≠ 0) ∧
        fat16_rep w' (AbsFat16.write V r END_CLUSTER_16)) ∨
     (r = BAD_CLUSTER_16 ∧ (∀ y, 2 ≤ y < total_clusters w → V y ≠ 0) ∧ fat16_rep w' V)).
Proof.
  intros Hf Hw HV. split.
  - intros c Hc. split.
    + destruct (FATRead16_rep junk w V c Hw HV Hc) as (m & d & l & E & HV' & Hd). eauto 10.
    + intros v. destruct (FATWrite16_rep fuel junk w V c v Hf Hw HV Hc) as (m & d & l & E & HV' & Hd). eauto 10.
  - pose proof (ok16_total _ Hw) as Ht.
    destruct (alloc_loop16_rep fuel junk (Z.to_nat (total_clusters w - 2)) w V 2 Hf Hw HV) as (m & d & l & E & HV'); [lia..|].
    pose proof (first_free16_spec V (Z.to_nat (total_clusters w - 2)) 2) as HF. rewrite Z2Nat.id in HF by lia.
    eexists _, (put_io m d l w). split.
    { unfold allocateFreeFAT, bind at 1 2, gets. rewrite (ok16_type _ Hw). cbn [Z.eqb Pos.eqb]. exact E. }
    destruct (AbsFat16.first_free _ _ _) as [x|]; cbn [default from_option id].
    + left. destruct HF as (Hx & Hz & Hy). split_and!; [lia|lia|done|done|done].
    + right. split_and!; [done| |done]. intros y Hy. apply HF. lia.
Qed.

(** A small FAT16 volume on the simulated drive: cluster 2 in use, 3 free. *)
Definition demo_world16 : world sim :=
  World ∅ (Sim (Line [] []) {[ 33543752 := [0; 0; 0xFFFF] ]} ∅ XNone 0) [] 16 32 200 100 (demo_boot 1) [].

Lemma FAT16_refines_witness : ∃ w', allocateFreeFAT 100 {[ 7 := 9 ]} demo_world16 = Done 3 w'.
Proof.
  assert (fat16_ok demo_world16) as Hw.
  { split; try reflexivity; vm_compute; first [split; discriminate|discriminate|reflexivity]. }
  destruct (FAT16_refines 100 {[ 7 := 9 ]} demo_world16 (fat16_view demo_world16)) as [_ (r & w' & E & Hr)];
    [simpl; unfold ata_fuel; simpl; lia|exact Hw|by intros ??|].
  exists w'. rewrite E. f_equal. destruct Hr as [(Hr & Hz & Hy & _)|(_ & Hn & _)].
  - destruct (Z.lt_trichotomy r 3) as [Hlt|[->|Hgt]]; [|done|].
    + assert (r = 2) as -> by lia. vm_compute in Hz. discriminate Hz.
    + exfalso. apply (Hy 3); [lia|]. vm_compute. reflexivity.
  - exfalso. apply (Hn 3); [vm_compute; split; congruence|]. vm_compute. reflexivity.
Defined.
