(* ===== verification/FatDir.v ===== *)
(** Clusters and directories in src/kernel/arch/i386/FAT.c: [clusterRead],
    [clusterWrite], [directoryList], [directorySearch] and [directoryAdd].

    Directories are scanned where the code scans them, in the disk window at
    0x40000, so that calls which reuse the window show. A cluster chain may be
    circular, and [directoryList] steps over visible entries without a bound:
    those loops take fuel. [directorySearch] gives back, with its result, what
    it stores through [file] and [entryOffset]. *)
From S2P Require Import Prelude Machine CString LibC FatNames FatTypes AtaPio AtaSim FatTable.

(** The cluster macros of FAT.h. *)
Section Macros.
Variable fat_type : Z.
Definition GET_CLUSTER_FROM_ENTRY (x : directory_entry) : Z :=
  u32 (Z.lor (low_bits x) (high_bits x ≪ (fat_type / 2))).
Definition GET_ENTRY_LOW_BITS (x : Z) : Z := Z.land x (fat_type / 2 - 1).
Definition GET_ENTRY_HIGH_BITS (x : Z) : Z := x ≫ (fat_type / 2).

(** The end-of-chain and bad-cluster tests the directory routines repeat. *)
Definition is_end (next_cluster : Z) : bool :=
  ((END_CLUSTER_32 <=? next_cluster) && (fat_type =? 32)) ||
  ((END_CLUSTER_16 <=? next_cluster) && (fat_type =? 16)) ||
  ((END_CLUSTER_12 <=? next_cluster) && (fat_type =? 12)).
Definition is_bad (cluster : Z) : bool :=
  ((cluster =? BAD_CLUSTER_32) && (fat_type =? 32)) ||
  ((cluster =? BAD_CLUSTER_16) && (fat_type =? 16)) ||
  ((cluster =? BAD_CLUSTER_12) && (fat_type =? 12)).
End Macros.

(** The clock stubs. *)
Definition CurrentTime : Z := 0.
Definition CurrentDate : Z := 0x11.
Definition CurrentTimeTenths : Z := 0.

(** How the scan of one cluster ends: [break], [return r], or the recursive call
    on the next cluster. *)
Inductive scan (A : Type) := Break | Return (a : A) | Next (cluster : Z).
Arguments Break {A}.
Arguments Return {A} a.
Arguments Next {A} cluster.

Section FatDir.
Context {D : Type} `{PortIO D}.
Variable fuel : nat.
Variable junk : memory.
Abbreviation W := (world D).

Definition msg (s : string) : M W unit := d_printss (str s ++ [10]).

(** * Clusters *)

(** [(clusterNum - 2) * sectors_per_cluster + first_data_sector] *)
Definition start_sect (w : W) (clusterNum : Z) : Z :=
  u32 (u32 (u32 (clusterNum - 2) * sectors_per_cluster (bootsect w)) + first_data_sector w).

(** A memory offset in clusters, in bytes. *)
Definition byte_offset (w : W) (clusterOffset : Z) : Z :=
  u32 (u32 (clusterOffset * sectors_per_cluster (bootsect w)) * bytes_per_sector (bootsect w)).

Definition clusterRead (clusterNum clusterOffset : Z) : M W Z :=
  let! w := gets id in
  if (clusterNum <? 2) || (total_clusters w <=? clusterNum) then
    msg "Function clusterRead: Invalid cluster number!" ;; ret (-1)
  else
    let! r := int13h_read_o (start_sect w clusterNum) (sectors_per_cluster (bootsect w))
                (byte_offset w clusterOffset) in
    if negb (r =? 0) then
      d_printss (str "Function clusterRead: An error occured with int13h_read_o, the area in DISK_READ_LOCATION + 0x") ;;
      d_printhex clusterOffset 8 ;;
      msg " is now in an unknown state." ;;
      ret (-1)
    else ret 0.

(** [contentsToWrite] is an address. *)
Definition clusterWrite (contentsToWrite contentSize contentBuffOffset clusterNum : Z) : M W Z :=
  let! w := gets id in
  if (clusterNum <? 2) || (total_clusters w <=? clusterNum) then
    msg "Function clusterWrite: Invalid cluster number!" ;; ret (-1)
  else
    let byteOffset := byte_offset w contentBuffOffset in
    modify (λ w, put_mem (memcpy (w_mem w) (u32 (DISK_WRITE_LOCATION + byteOffset))
                            contentsToWrite contentSize) w) ;;
    let start := start_sect w clusterNum in
    let! r := int13h_write_o fuel start (sectors_per_cluster (bootsect w)) byteOffset in
    if negb (r =? 0) then
      d_printss (str "Function clusterWrite: An error occured with int13h_write_o, the area in sector ") ;;
      d_printhex start 8 ;;
      d_printss (str " through to sector ") ;;
      d_printhex (u32 (sectors_per_cluster (bootsect w) + start)) 2 ;;
      msg " are now in an unknown state." ;;
      ret (-1)
    else ret 0.

(** [bytes_per_sector * sectors_per_cluster / sizeof(directory_entry_t) - 1] *)
Definition last_slot (w : W) : Z :=
  u32 (bytes_per_sector (bootsect w) * sectors_per_cluster (bootsect w) / Z.of_nat entry_size - 1).

(** [*file_metadata] *)
Definition entry_at (m : memory) (a : Z) : directory_entry := entry_of (load_bytes m a entry_size).

(** * directoryList *)

Definition list_dots (e : directory_entry) : M W unit :=
  d_printss (if at_ (file_name e) 1 =? 46 then [46; 46] else [46]) ;;
  d_printss [9] ;; d_printss [9] ;; d_printss [9] ;;
  d_printss (str "DIR") ;;
  d_printss [10].

(** [conversion] is an uninitialised array; [stack] is what it holds. *)
Definition list_entry (stack : list Z) (e : directory_entry) : M W unit :=
  let is_dir := Z.land (attributes e) FILE_DIRECTORY =? FILE_DIRECTORY in
  d_printss (convertFromFATFormat (file_name e) stack) ;;
  d_printss [9] ;;
  (if negb is_dir then d_printhex (file_size e) 8 else d_printss [9]) ;;
  d_printss [9] ;;
  (when! is_dir do d_printss (str "DIR")) ;;
  d_printss [10].

Definition starts_with (name prefix : list Z) : bool :=
  match strncmp (length prefix) name prefix with Some 0 => true | _ => false end.

Fixpoint list_loop (f : nat) (stack : list Z) (cluster hide file_metadata count : Z) : M W (scan Z) :=
  match f with
  | O => raise OutOfFuel
  | S f' =>
      let! w := gets id in
      let e := entry_at (w_mem w) file_metadata in
      let advance := list_loop f' stack cluster hide (file_metadata + Z.of_nat entry_size) (u32 (count + 1)) in
      if at_ (file_name e) 0 =? ENTRY_END then ret Break
      else if starts_with (file_name e) [46; 46] || starts_with (file_name e) [46] then
        list_dots e ;; advance
      else if (at_ (file_name e) 0 =? ENTRY_FREE) ||
              (Z.land (attributes e) FILE_LONG_NAME =? FILE_LONG_NAME) ||
              negb (Z.land (attributes e) hide =? 0) then
        if count <? last_slot w then advance
        else
          let! r := FATRead junk cluster in
          let next_cluster := u32 r in
          if is_end (fat_type w) next_cluster then ret Break
          else if next_cluster <? 0 then
            msg "Function directoryList: FATRead encountered an error. Aborting..." ;;
            ret (Return (-1))
          else ret (Next next_cluster)
      else list_entry stack e ;; advance
  end.

(** [exclusive] is a [short]: 0, 1, or anything else. *)
Definition attributes_to_hide (attributesToAdd exclusive : Z) : Z :=
  let default_hidden_attributes := Z.lor FILE_HIDDEN FILE_SYSTEM in
  if exclusive =? 0 then Z.land default_hidden_attributes (u8 (Z.lnot attributesToAdd))
  else if exclusive =? 1 then u8 (Z.lnot attributesToAdd)
  else default_hidden_attributes.

Fixpoint directoryList (f : nat) (stack : list Z) (cluster attributesToAdd exclusive : Z) : M W Z :=
  match f with
  | O => raise OutOfFuel
  | S f' =>
      let! w := gets id in
      if (cluster <? 2) || (total_clusters w <=? cluster) then
        msg "Function directoryList: Invalid cluster number!" ;; ret (-1)
      else
        let! r := clusterRead cluster 0 in
        if negb (r =? 0) then
          msg "Function directoryList: clusterRead encountered an error. Aborting..." ;; ret (-1)
        else
          let! next := list_loop f' stack cluster (attributes_to_hide attributesToAdd exclusive)
                         DISK_READ_LOCATION 0 in
          match next with
          | Break => ret 0
          | Return r => ret r
          | Next next_cluster => directoryList f' stack next_cluster attributesToAdd exclusive
          end
  end.

(** * directorySearch *)

(** What is stored through [file] and [entryOffset]. *)
Abbreviation found := (option (directory_entry * Z)).

(** [strncmp(file_metadata->file_name, searchName, 11) != 0] *)
Definition name_differs (e : directory_entry) (searchName : list Z) : bool :=
  negb (bool_decide (strncmp 11 (file_name e) searchName = Some 0)).

Fixpoint search_loop (f : nat) (searchName : list Z) (cluster file_metadata count : Z) :
    M W (scan (Z * found)) :=
  match f with
  | O => raise OutOfFuel
  | S f' =>
      let! w := gets id in
      let e := entry_at (w_mem w) file_metadata in
      if at_ (file_name e) 0 =? ENTRY_END then ret Break
      else if name_differs e searchName then
        if count <? last_slot w then
          search_loop f' searchName cluster (file_metadata + Z.of_nat entry_size) (u32 (count + 1))
        else
          let! next_cluster := FATRead junk cluster in
          if is_end (fat_type w) next_cluster then ret Break
          else if next_cluster <? 0 then
            msg "Function directorySearch: FATRead encountered an error. Aborting..." ;;
            ret (Return (-1, None))
          else ret (Next next_cluster)
      else ret (Return (0, Some (e, count)))
  end.

Fixpoint directorySearch (f : nat) (filepart : list Z) (cluster : Z) : M W (Z * found) :=
  match f with
  | O => raise OutOfFuel
  | S f' =>
      let! w := gets id in
      if (cluster <? 2) || (total_clusters w <=? cluster) then
        msg "Function directorySearch: Invalid cluster number!" ;; ret (-1, None)
      else
        match search_key filepart with
        | None => raise OutOfBounds
        | Some searchName =>
            let! r := clusterRead cluster 0 in
            if negb (r =? 0) then
              msg "Function directorySearch: clusterRead encountered an error. Aborting..." ;;
              ret (-1, None)
            else
              let! next := search_loop f' searchName cluster DISK_READ_LOCATION 0 in
              match next with
              | Break => ret (-2, None)
              | Return r => ret r
              | Next next_cluster => directorySearch f' filepart next_cluster
              end
        end
  end.

(** * directoryAdd *)

(** [*file_to_add] with the times filled in, and with its cluster. *)
Definition stamp (e : directory_entry) : directory_entry := {|
  file_name := file_name e; attributes := attributes e; reserved0 := reserved0 e;
  creation_time_tenths := CurrentTimeTenths; creation_time := CurrentTime;
  creation_date := CurrentDate; last_accessed := CurrentDate; high_bits := high_bits e;
  last_modification_time := CurrentTime; last_modification_date := CurrentDate;
  low_bits := low_bits e; file_size := file_size e |}.

Definition set_cluster (t : Z) (c : Z) (e : directory_entry) : directory_entry := {|
  file_name := file_name e; attributes := attributes e; reserved0 := reserved0 e;
  creation_time_tenths := creation_time_tenths e; creation_time := creation_time e;
  creation_date := creation_date e; last_accessed := last_accessed e;
  high_bits := u16 (GET_ENTRY_HIGH_BITS t c);
  last_modification_time := last_modification_time e;
  last_modification_date := last_modification_date e;
  low_bits := u16 (GET_ENTRY_LOW_BITS t c); file_size := file_size e |}.

(** The free slot at [file_metadata] is taken: the [else] branch of the scan. *)
Definition add_here (cluster file_metadata : Z) (file_to_add : directory_entry) :
    M W (Z * directory_entry) :=
  if bool_decide (46 ∈ take 11 (file_name file_to_add)) then
    d_printss (str "Function directoryAdd: Invalid file name!") ;; ret (-1, file_to_add)
  else
    let file_to_add := stamp file_to_add in
    let! new_cluster := allocateFreeFAT fuel junk in
    d_printss (str "Function directoryAdd: the new cluster for the file is ") ;;
    d_printhex new_cluster 8 ;;
    d_printss [10] ;;
    let! t := gets fat_type in
    if is_bad t new_cluster then
      msg "Function directoryAdd: allocation of new cluster failed. Aborting..." ;;
      ret (-1, file_to_add)
    else
      let file_to_add := set_cluster t new_cluster file_to_add in
      d_printss (10 :: str "High bits are: ") ;;
      d_printhex (low_bits file_to_add) 4 ;;
      d_printss (10 :: str "Low bits are: ") ;;
      d_printhex (high_bits file_to_add) 4 ;;
      d_printss [10] ;;
      modify (λ w, put_mem (store_bytes (w_mem w) file_metadata (entry_bytes file_to_add)) w) ;;
      let! cs := gets (λ w, bytes_per_sector (bootsect w) * sectors_per_cluster (bootsect w)) in
      let! r := clusterWrite DISK_WRITE_LOCATION cs 0 cluster in
      if negb (r =? 0) then
        msg "Function directoryAdd: Writing new directory entry failed. Aborting..." ;;
        ret (-1, file_to_add)
      else ret (0, file_to_add).

(** No free slot in this cluster: the next one of the chain, extended if need be. *)
Definition add_next (cluster : Z) : M W (option Z) :=
  let! r := FATRead junk cluster in
  let next_cluster := u32 r in
  d_printhex next_cluster 8 ;;
  d_printss [10] ;;
  let! t := gets fat_type in
  if is_end t next_cluster then
    let! next_cluster := allocateFreeFAT fuel junk in
    if is_bad t next_cluster then
      msg "Function directoryAdd: allocation of new cluster failed. Aborting..." ;; ret None
    else
      let! r := FATWrite fuel junk cluster next_cluster in
      if negb (r =? 0) then
        msg "Function directoryAdd: extension of the cluster chain with new cluster failed. Aborting..." ;;
        ret None
      else ret (Some next_cluster)
  else ret (Some next_cluster).

(** The scan for a slot that is free: its address, or [None] past the last one. *)
Fixpoint add_loop (f : nat) (file_metadata count : Z) : M W (option Z) :=
  match f with
  | O => raise OutOfFuel
  | S f' =>
      let! w := gets id in
      let c := at_ (file_name (entry_at (w_mem w) file_metadata)) 0 in
      if negb (c =? ENTRY_FREE) && negb (c =? ENTRY_END) then
        if count <? last_slot w
        then add_loop f' (file_metadata + Z.of_nat entry_size) (u32 (count + 1))
        else ret None
      else ret (Some file_metadata)
  end.

(** The result, and [*file_to_add] as the call leaves it. *)
Fixpoint directoryAdd (f : nat) (cluster : Z) (file_to_add : directory_entry) :
    M W (Z * directory_entry) :=
  match f with
  | O => raise OutOfFuel
  | S f' =>
      if negb (testIfFATFormat (file_name file_to_add) =? 0) then
        d_printss (str "Function directoryAdd: file name supplied is invalid!") ;;
        ret (-1, file_to_add)
      else
        let! r := clusterRead cluster 0 in
        if negb (r =? 0) then
          msg "Function directoryAdd: clusterRead encountered an error. Aborting..." ;;
          ret (-1, file_to_add)
        else
          let! slot := add_loop f' DISK_READ_LOCATION 0 in
          match slot with
          | Some file_metadata => add_here cluster file_metadata file_to_add
          | None =>
              let! next := add_next cluster in
              match next with
              | None => ret (-1, file_to_add)
              | Some next_cluster => directoryAdd f' next_cluster file_to_add
              end
          end
  end.
End FatDir.

(** * Volumes *)

Section Volume.
Context {D : Type} `{BlockDevice D}.
Implicit Types w : world D.

(** A mounted FAT32 volume whose data area lies in the partition too. *)
Record vol_ok w : Prop := {
  vol_fat : fat32_ok w;
  vol_data : 0 ≤ first_data_sector w;
  vol_fits : first_data_sector w + (total_clusters w - 2) * sectors_per_cluster (bootsect w) ≤ part_length;
}.

(** The bytes of a cluster on the disk, and its directory slots. *)
Definition cluster_data w (c : Z) : list Z :=
  concat (map (blk (w_dev w))
    (seqZ (first_data_sector w + (c - 2) * sectors_per_cluster (bootsect w))
          (sectors_per_cluster (bootsect w)))).

Definition slots (bs : list Z) (n : nat) : list directory_entry :=
  map (λ i, entry_of (fbytes bs (32 * i) 32)) (seq 0 n).

Definition slot_count w : nat := Z.to_nat (16 * sectors_per_cluster (bootsect w)).

Definition dir_slots w (c : Z) : list directory_entry := slots (cluster_data w c) (slot_count w).

(** The next cluster as [FATRead] reports it. *)
Definition fat_next w (c : Z) : Z :=
  let off := 4 * c mod cluster_bytes w in
  if off <? 512
  then Z.land (f32 (blk (w_dev w) (first_fat_sector w + 4 * c / cluster_bytes w)) (Z.to_nat off)) 0x0FFFFFFF
  else 0.

(** Two states of the same volume: memory and console may differ. *)
Definition same_vol w w' : Prop :=
  (∃ m d l, w' = put_io m d l w) ∧ ∀ x, blk (w_dev w') x = blk (w_dev w) x.

#[global] Instance same_vol_preorder : PreOrder same_vol.
Proof.
  split.
  - intros w. split; [exists (w_mem w), (w_dev w), (w_log w); by destruct w|done].
  - intros w1 w2 w3 [(m1 & d1 & l1 & ->) Hd1] [(m2 & d2 & l2 & ->) Hd2].
    split; [by exists m2, d2, l2|]. intros x. by rewrite Hd2, Hd1.
Qed.

Lemma same_vol_log l w : same_vol w (put_log l w).
Proof. split; [by eexists _, _, _|done]. Qed.

Lemma same_vol_ok w w' : same_vol w w' → vol_ok w → vol_ok w'.
Proof. intros [(m & d & l & ->) _] [[] ? ?]. by split. Qed.

Lemma same_vol_next w w' c : same_vol w w' → fat_next w' c = fat_next w c.
Proof. intros [(m & d & l & ->) Hd]. unfold fat_next. simpl in *. by rewrite Hd. Qed.

Lemma same_vol_slots w w' c : same_vol w w' → dir_slots w' c = dir_slots w c.
Proof.
  intros [(m & d & l & ->) Hd]. unfold dir_slots, cluster_data. simpl in *.
  do 2 f_equal. by apply map_ext.
Qed.

Lemma length_cluster w c :
  0 ≤ sectors_per_cluster (bootsect w) →
  length (cluster_data w c) = Z.to_nat (512 * sectors_per_cluster (bootsect w)) ∧
  bytes_ok (cluster_data w c).
Proof.
  intros Hs. unfold cluster_data. set (s := first_data_sector w + _). clearbody s.
  set (spc := sectors_per_cluster _) in *. clearbody spc.
  rewrite <-(Z2Nat.id spc) by done. revert s. induction (Z.to_nat spc) as [|k IH]; intros s; [split; [done|by constructor]|].
  rewrite seqZ_cons by lia. cbn [map concat]. replace (Z.pred (Z.of_nat (S k))) with (Z.of_nat k) by lia.
  destruct (blk_ok (w_dev w) s) as [Hl Hb], (IH (Z.succ s)) as [HlI HbI].
  split; [rewrite length_app, Hl, HlI; lia|by apply Forall_app].
Qed.

Lemma start_sect_ok w c :
  vol_ok w → 2 ≤ c < total_clusters w →
  let spc := sectors_per_cluster (bootsect w) in
  start_sect w c = first_data_sector w + (c - 2) * spc ∧ 0 ≤ first_data_sector w + (c - 2) * spc ∧
  first_data_sector w + (c - 2) * spc + spc ≤ part_length ∧ 1 ≤ spc ≤ 0x7F.
Proof.
  intros [[_ _ Hs Ht _ _] Hd Hf] Hc spc. fold spc in Hs, Hf. assert (part_length < 2 ^ 32) as Hp by done.
  assert (0 ≤ (c - 2) * spc ∧ (c - 2) * spc + spc ≤ (total_clusters w - 2) * spc) as Hm.
  { split; [apply Z.mul_nonneg_nonneg; lia|].
    replace ((c - 2) * spc + spc) with ((c - 1) * spc) by lia. apply Z.mul_le_mono_nonneg_r; lia. }
  split_and!; try lia. unfold start_sect. fold spc.
  rewrite (u32_id (c - 2)) by lia. rewrite (u32_id ((c - 2) * spc)) by lia. rewrite u32_id; lia.
Qed.

Lemma clusterRead_run w c off :
  vol_ok w → 2 ≤ c < total_clusters w →
  ∃ d' l', clusterRead c off w =
    Done 0 (put_io (store_bytes (w_mem w) (u32 (DISK_READ_LOCATION + byte_offset w off))
                      (cluster_data w c)) d' l' w) ∧
    ∀ x, blk d' x = blk (w_dev w) x.
Proof.
  intros Hw Hc. destruct (start_sect_ok w c Hw Hc) as (Es & H1 & H2 & H3).
  destruct (blk_read w _ _ (byte_offset w off) H1 H3 H2) as (d' & l' & E & Hd).
  exists d', l'. split; [|done]. unfold clusterRead. rewrite (bind_done _ _ _ w w) by done.
  rewrite (valid_cluster w c Hc), Es. rewrite (bind_done _ _ _ _ _ E). done.
Qed.

Lemma clusterWrite_run fuel w src size off c :
  (blk_fuel ≤ fuel)%nat → vol_ok w → 2 ≤ c < total_clusters w →
  let spc := sectors_per_cluster (bootsect w) in
  let s := first_data_sector w + (c - 2) * spc in
  let a := u32 (DISK_WRITE_LOCATION + byte_offset w off) in
  let m' := memcpy (w_mem w) a src size in
  ∃ d' l', clusterWrite fuel src size off c w = Done 0 (put_io m' d' l' w) ∧
    ∀ x, blk d' x = if decide (s ≤ x < s + spc) then load_bytes m' (a + 512 * (x - s)) 512
                    else blk (w_dev w) x.
Proof.
  intros Hf Hw Hc spc s a m'. destruct (start_sect_ok w c Hw Hc) as (Es & H1 & H2 & H3).
  destruct (blk_write fuel (put_mem m' w) s spc (byte_offset w off) Hf H1 H3 H2) as (d' & l' & E & Hd).
  exists d', l'. split; [|done]. unfold clusterWrite. rewrite (bind_done _ _ _ w w) by done.
  rewrite (valid_cluster w c Hc), Es. cbv zeta.
  rewrite (bind_done _ _ _ tt (put_mem m' w)) by done. by rewrite (bind_done _ _ _ _ _ E).
Qed.
End Volume.

(** * Looking a name up *)

(** The abstract directory: the slots of the chain up to the first end marker,
    in order; a look-up finds the first slot with the name. *)
Fixpoint live (es : list directory_entry) : list directory_entry :=
  match es with
  | [] => []
  | e :: es' => if at_ (file_name e) 0 =? ENTRY_END then [] else e :: live es'
  end.

Definition dir_lookup (key : list Z) (es : list directory_entry) : option directory_entry :=
  find (λ e, negb (name_differs e key)) (live es).

(** How the scan of one cluster's slots ends. *)
Inductive verdict := VEnd | VFull | VFound (e : directory_entry) (i : Z).

Fixpoint scan_slots (key : list Z) (es : list directory_entry) (i : Z) : verdict :=
  match es with
  | [] => VFull
  | e :: es' =>
      if at_ (file_name e) 0 =? ENTRY_END then VEnd
      else if name_differs e key then scan_slots key es' (i + 1) else VFound e i
  end.

Lemma scan_lookup key es rest : ∀ i,
  match scan_slots key es i with
  | VEnd => dir_lookup key (es ++ rest) = None
  | VFull => dir_lookup key (es ++ rest) = dir_lookup key rest
  | VFound e _ => dir_lookup key (es ++ rest) = Some e
  end.
Proof.
  induction es as [|e es IH]; intros i; [done|]. unfold dir_lookup in *. simpl.
  destruct (at_ (file_name e) 0 =? ENTRY_END); [done|]. simpl.
  destruct (name_differs e key); simpl; [apply IH|done].
Qed.

Section Search.
Context {D : Type} `{BlockDevice D}.
Implicit Types w : world D.

(** The slots of a cluster, in the window after [clusterRead]. *)
Lemma entry_in_window m bs a i n :
  bytes_ok bs → length bs = (32 * n)%nat → (i < n)%nat →
  entry_at (store_bytes m a bs) (a + 32 * Z.of_nat i) = entry_of (fbytes bs (32 * i) 32).
Proof.
  intros Hb Hl Hi. unfold entry_at. f_equal. unfold fbytes.
  assert (length (take 32 (drop (32 * i) bs)) = 32%nat) as Hl' by (rewrite length_take, length_drop; lia).
  change entry_size with 32%nat. rewrite <-Hl' at 1. apply load_bytes_eq. rewrite Hl'. intros j Hj.
  rewrite load8_store_bytes, decide_True, at_byte by (done || lia). unfold at_.
  rewrite lookup_take_lt, lookup_drop by lia. do 2 f_equal. lia.
Qed.

(** What the window must hold for the slots [es] to be read from [a]. *)
Definition slots_at (m : memory) (a : Z) (es : list directory_entry) : Prop :=
  ∀ i e, es !! i = Some e → entry_at m (a + 32 * Z.of_nat i) = e.

Lemma slots_at_cons m a e es :
  slots_at m a (e :: es) → entry_at m a = e ∧ slots_at m (a + 32) es.
Proof.
  intros Hs. split.
  - rewrite <-(Hs 0%nat e eq_refl). f_equal. lia.
  - intros i x Hx. rewrite <-(Hs (S i) x Hx). f_equal. lia.
Qed.

Lemma slots_in_window w m c :
  1 ≤ sectors_per_cluster (bootsect w) →
  slots_at (store_bytes m DISK_READ_LOCATION (cluster_data w c)) DISK_READ_LOCATION (dir_slots w c).
Proof.
  intros Hs i e Hi. destruct (length_cluster w c) as [Hl Hb]; [lia|].
  unfold dir_slots, slots in Hi. change (map ?g ?l) with (g <$> l) in Hi.
  rewrite list_lookup_fmap in Hi. apply fmap_Some in Hi as (j & Hj & ->).
  apply lookup_seq in Hj as [-> Hj]. unfold slot_count in Hj.
  apply entry_in_window with (n := Z.to_nat (16 * sectors_per_cluster (bootsect w))); [done|lia|lia].
Qed.

Lemma last_slot_ok w : fat32_ok w → last_slot w = Z.of_nat (slot_count w) - 1.
Proof.
  intros [_ Hb Hs _ _ _]. unfold last_slot, slot_count. rewrite Hb.
  change (Z.of_nat entry_size) with 32.
  replace (512 * sectors_per_cluster (bootsect w) / 32) with (16 * sectors_per_cluster (bootsect w)) by lia.
  rewrite u32_id; lia.
Qed.

Lemma search_loop_scan junk key c es : ∀ f w a count,
  vol_ok w → 2 ≤ c < total_clusters w → slots_at (w_mem w) a es → es ≠ [] →
  0 ≤ count → count + Z.of_nat (length es) = Z.of_nat (slot_count w) → (length es ≤ f)%nat →
  search_loop junk f key c a count w =
  match scan_slots key es count with
  | VEnd => Done Break w
  | VFound e i => Done (Return (0, Some (e, i))) w
  | VFull =>
      (let! next_cluster := FATRead junk c in
       if is_end (fat_type w) next_cluster then ret Break
       else if next_cluster <? 0 then
         msg "Function directorySearch: FATRead encountered an error. Aborting..." ;;
         ret (Return (-1, None))
       else ret (Next next_cluster)) w
  end.
Proof.
  induction es as [|e es IH]; intros f w a count Hw Hc Ha Hne H0' Hcount Hf; [done|].
  destruct f as [|f]; [simpl in Hf; lia|]. destruct (slots_at_cons _ _ _ _ Ha) as [He Ha'].
  pose proof (last_slot_ok w (vol_fat _ Hw)) as Hlast.
  cbn [search_loop scan_slots]. rewrite (bind_done _ _ _ w w) by done. cbv zeta. rewrite He.
  destruct (at_ (file_name e) 0 =? ENTRY_END); [done|]. destruct (name_differs e key); [|done].
  rewrite Hlast. simpl in Hcount, Hf. destruct es as [|e' es].
  - rewrite (proj2 (Z.ltb_ge _ _)) by (simpl in Hcount; lia). done.
  - rewrite (proj2 (Z.ltb_lt _ _)) by (simpl in Hcount; lia).
    assert (0 ≤ count + 1 < 2 ^ 32) as Hcu.
    { destruct (vol_fat _ Hw) as [_ _ Hs _ _ _]. unfold slot_count in Hcount. simpl in Hcount. lia. }
    rewrite u32_id by done. change (Z.of_nat entry_size) with 32. apply IH; try done; lia.
Qed.

(** A cluster chain as the driver follows it. *)
Inductive fat_chain w : Z → list Z → Prop :=
| chain_last c : 2 ≤ c < total_clusters w → END_CLUSTER_32 ≤ fat_next w c → fat_chain w c [c]
| chain_link c cs :
    2 ≤ c < total_clusters w → fat_next w c < END_CLUSTER_32 → fat_chain w (fat_next w c) cs →
    fat_chain w c (c :: cs).

Lemma fat_chain_vol w w' c cs : same_vol w w' → fat_chain w c cs → fat_chain w' c cs.
Proof.
  intros Hv. pose proof Hv as [(m & d & l & Ew) _]. induction 1.
  - apply chain_last; [by rewrite Ew|by rewrite (same_vol_next w)].
  - apply chain_link; [by rewrite Ew|by rewrite (same_vol_next w)..].
Qed.

Lemma fat_chain_valid w c cs : fat_chain w c cs → 2 ≤ c < total_clusters w.
Proof. by destruct 1. Qed.

Definition chain_slots w (cs : list Z) : list directory_entry := concat (map (dir_slots w) cs).

Lemma chain_slots_vol w w' cs : same_vol w w' → chain_slots w' cs = chain_slots w cs.
Proof. intros Hv. unfold chain_slots. f_equal. apply map_ext. intros c. by apply same_vol_slots. Qed.

Lemma fat_next_range w c : 0 ≤ fat_next w c < 2 ^ 28.
Proof.
  unfold fat_next. case_if; [|done]. change 0x0FFFFFFF with (Z.ones 28).
  rewrite Z.land_ones by done. by apply Z.mod_pos_bound.
Qed.

Lemma is_end_32 w c : fat_type w = 32 → is_end (fat_type w) c = (END_CLUSTER_32 <=? c).
Proof.
  intros ->. unfold is_end. simpl. by rewrite !andb_false_r, !orb_false_r, andb_true_r.
Qed.

(** Outside the first 512 bytes of the window, or outside its first cluster,
    memory is the same. *)
Definition mem_frame w w' : Prop :=
  ∀ x, x < DISK_READ_LOCATION ∨ DISK_READ_LOCATION + 512 ≤ x → load8 (w_mem w') x = load8 (w_mem w) x.
Definition win_frame w w' : Prop :=
  ∀ x, x < DISK_READ_LOCATION ∨ DISK_READ_LOCATION + 512 * sectors_per_cluster (bootsect w) ≤ x →
    load8 (w_mem w') x = load8 (w_mem w) x.

Lemma FATRead_frame junk w c :
  vol_ok w → 2 ≤ c < total_clusters w →
  ∃ w', FATRead junk c w = Done (fat_next w c) w' ∧ same_vol w w' ∧ mem_frame w w'.
Proof.
  intros Hw Hc. destruct (FATRead_run junk w c (vol_fat _ Hw) Hc) as (d' & l' & E & Hd).
  eexists. split_and!; [exact E|split; [by eexists _, _, _|done]|].
  intros x Hx. cbn [w_mem put_io]. rewrite load8_store_bytes, (proj1 (blk_ok _ _)), decide_False by lia. done.
Qed.

(** After the window is filled: the scan, and where it goes on. *)
Lemma search_cluster junk key w c m d l f :
  vol_ok w → 2 ≤ c < total_clusters w → (∀ x, blk d x = blk (w_dev w) x) →
  m = store_bytes (w_mem w) DISK_READ_LOCATION (cluster_data w c) → (slot_count w ≤ f)%nat →
  ∃ w', same_vol w w' ∧ win_frame w w' ∧
  search_loop junk f key c DISK_READ_LOCATION 0 (put_io m d l w) =
  Done (match scan_slots key (dir_slots w c) 0 with
        | VEnd => Break
        | VFound e i => Return (0, Some (e, i))
        | VFull => if END_CLUSTER_32 <=? fat_next w c then Break else Next (fat_next w c)
        end) w'.
Proof.
  intros Hw Hc Hd -> Hf. set (w1 := put_io _ d l w).
  assert (same_vol w w1) as Hv by (split; [by eexists _, _, _|done]).
  destruct (ok_spc _ (vol_fat _ Hw)) as [Hs1 Hs2].
  assert (length (dir_slots w c) = slot_count w) as Hlen
    by (unfold dir_slots, slots; by rewrite length_map, length_seq).
  rewrite (search_loop_scan junk key c (dir_slots w c) f w1 DISK_READ_LOCATION 0).
  - assert (win_frame w w1) as Hm.
    { intros x Hx. unfold w1. cbn [w_mem put_io].
      rewrite load8_store_bytes, (proj1 (length_cluster w c ltac:(lia))), decide_False by lia. done. }
    destruct (scan_slots key (dir_slots w c) 0); [by exists w1| |by exists w1].
    destruct (FATRead_frame junk w1 c (same_vol_ok _ _ Hv Hw) Hc) as (w2 & E2 & Hv2 & Hm2).
    exists w2. split; [by transitivity w1|]. split; [intros x Hx; rewrite Hm2 by lia; by apply Hm|]. rewrite (bind_done _ _ _ _ _ E2).
    rewrite (is_end_32 w1) by apply Hw. rewrite (same_vol_next w) by done.
    pose proof (fat_next_range w c). case_if; [done|].
    by rewrite (proj2 (Z.ltb_ge _ 0)) by lia.
  - by apply (same_vol_ok w).
  - done.
  - apply (slots_in_window w); lia.
  - intros E. rewrite E in Hlen. unfold slot_count in Hlen. simpl in Hlen. lia.
  - done.
  - rewrite Hlen. done.
  - lia.
Qed.

Lemma directorySearch_rep junk filepart key c cs : ∀ w f,
  vol_ok w → search_key filepart = Some key → fat_chain w c cs →
  (length cs + slot_count w ≤ f)%nat →
  ∃ w' r, directorySearch junk f filepart c w = Done r w' ∧ same_vol w w' ∧ win_frame w w' ∧
    match dir_lookup key (chain_slots w cs) with
    | Some e => ∃ i, r = (0, Some (e, i))
    | None => r = (-2, None)
    end.
Proof.
  intros w f Hw Hkey Hchain. revert f Hw. remember c as c0 eqn:Ec. clear Ec c.
  revert w c0 Hchain. induction cs as [|c cs IH]; intros w c0 Hchain f Hw Hf; [by inversion Hchain|].
  assert (c0 = c) as -> by (by inversion Hchain). pose proof (fat_chain_valid _ _ _ Hchain) as Hc.
  destruct f as [|f]; [simpl in Hf; lia|]. cbn [directorySearch]. simpl in Hf.
  rewrite (bind_done _ _ _ w w) by done. rewrite (valid_cluster w c Hc), Hkey.
  destruct (clusterRead_run w c 0 Hw Hc) as (d1 & l1 & E1 & Hd1). rewrite (bind_done _ _ _ _ _ E1).
  cbn [negb Z.eqb].
  destruct (search_cluster junk key w c _ d1 l1 f Hw Hc Hd1 eq_refl ltac:(lia)) as (w2 & Hv2 & Hm2 & E2).
  change (u32 (DISK_READ_LOCATION + byte_offset w 0)) with DISK_READ_LOCATION.
  rewrite (bind_done _ _ _ _ _ E2).
  pose proof (scan_lookup key (dir_slots w c) (chain_slots w cs) 0) as HL.
  change (dir_slots w c ++ chain_slots w cs) with (chain_slots w (c :: cs)) in HL.
  destruct (scan_slots key (dir_slots w c) 0) as [| |e i]; rewrite HL.
  - by exists w2, (-2, None).
  - inversion Hchain as [? ? Hend|? ? ? Hlt Hrest]; subst.
    + rewrite (proj2 (Z.leb_le _ _)) by done. by exists w2, (-2, None).
    + rewrite (proj2 (Z.leb_gt _ _)) by done.
      destruct (IH w2 (fat_next w c)) with (f := f) as (w3 & r & E3 & Hv3 & Hm3 & Hr).
      * by apply (fat_chain_vol w).
      * by apply (same_vol_ok w).
      * pose proof Hv2 as [(m & d & l & ->) _]. change (slot_count (put_io m d l w)) with (slot_count w). lia.
      * exists w3, r. split_and!; [done|by transitivity w2| |].
        { pose proof Hv2 as [(m & d & l & ->) _]. intros x Hx. rewrite Hm3 by done. by apply Hm2. }
        by rewrite (chain_slots_vol w) in Hr.
  - exists w2, (0, Some (e, i)). split_and!; [done|done|done|]. by exists i.
Qed.
End Search.

(** * Adding an entry *)

Definition slot_free (e : directory_entry) : bool :=
  (at_ (file_name e) 0 =? ENTRY_FREE) || (at_ (file_name e) 0 =? ENTRY_END).

Section Add.
Context {D : Type} `{BlockDevice D}.
Implicit Types w : world D.

Lemma add_loop_free pre : ∀ e post f w a count,
  vol_ok w → slots_at (w_mem w) a (pre ++ e :: post) →
  Forall (λ x, slot_free x = false) pre → slot_free e = true →
  0 ≤ count → count + Z.of_nat (length (pre ++ e :: post)) = Z.of_nat (slot_count w) →
  (length pre < f)%nat →
  add_loop f a count w = Done (Some (a + 32 * Z.of_nat (length pre))) w.
Proof.
  induction pre as [|x pre IH]; intros e post f w a count Hw Ha Hpre He H0' Hcount Hf;
    (destruct f as [|f]; [simpl in Hf; lia|]); cbn [add_loop];
    rewrite (bind_done _ _ _ w w) by done; cbv zeta;
    destruct (slots_at_cons _ _ _ _ Ha) as [Hx Ha']; rewrite Hx.
  - unfold slot_free in He. rewrite <-negb_orb, He. simpl. unfold ret. do 2 f_equal. lia.
  - apply Forall_cons in Hpre as [Hxf Hpre]. unfold slot_free in Hxf. rewrite <-negb_orb, Hxf. simpl negb.
    rewrite (last_slot_ok w (vol_fat _ Hw)). simpl in Hcount, Hf. rewrite length_app in Hcount. simpl in Hcount.
    rewrite (proj2 (Z.ltb_lt _ _)) by lia.
    assert (0 ≤ count + 1 < 2 ^ 32) as Hcu.
    { destruct (vol_fat _ Hw) as [_ _ Hs _ _ _]. unfold slot_count in Hcount. lia. }
    rewrite u32_id by done. change (Z.of_nat entry_size) with 32.
    cbn [negb]. rewrite (IH e post); try done; [|lia|rewrite length_app; simpl; lia|lia].
    do 2 f_equal. simpl. lia.
Qed.

(** What a successful allocation leaves in the disk window: the table sector
    of the cluster it took. *)
Lemma alloc_window fuel junk n : ∀ w V c x,
  (blk_fuel ≤ fuel)%nat → fat32_ok w → one_sector w → fat_rep w V →
  2 ≤ c → c + Z.of_nat n = total_clusters w → AbsFat.first_free V n c = Some x →
  ∃ m' d' l',
    alloc_loop fuel junk n FREE_CLUSTER_32 BAD_CLUSTER_32 END_CLUSTER_32 c w =
      Done x (put_io m' d' l' w) ∧
    load_bytes m' DISK_READ_LOCATION 512 = blk d' (first_fat_sector w + 4 * x / 512) ∧
    ∀ s, s ≠ first_fat_sector w + 4 * x / 512 → blk d' s = blk (w_dev w) s.
Proof.
  induction n as [|n IH]; intros w V c x Hf Hw H1 HV Hc Hn Hx; [done|].
  destruct (FATRead_rep junk w V c Hw H1 HV ltac:(lia)) as (m1 & d1 & l1 & E1 & HV1 & Hd1).
  cbn [alloc_loop]. cbn [AbsFat.first_free] in Hx. rewrite (bind_done _ _ _ _ _ E1).
  assert (0 ≤ AbsFat.read V c < 2 ^ 28) as Hr by (apply read_range; rewrite <-HV by lia; apply fat_view_range).
  rewrite u32_id by lia. set (w1 := put_io m1 d1 l1 w) in *.
  destruct (AbsFat.read V c =? FREE_CLUSTER_32) eqn:Ef.
  - injection Hx as <-.
    destruct (FATWrite_run fuel junk w1 c END_CLUSTER_32 Hf (fat32_ok_io _ _ _ _ Hw) ltac:(subst w1; simpl; lia))
      as (m2 & d2 & l2 & E2 & Hd2 & Hm2).
    rewrite (one_sector_bytes w1 (fat32_ok_io _ _ _ _ Hw) H1) in Hd2, Hm2.
    rewrite (bind_done _ _ _ _ _ E2). exists m2, d2, l2. split_and!; [done| |].
    + rewrite Hm2, Hd2, decide_True by done. set (new := load_bytes (store32 _ _ _) 0 512).
      assert (length new = 512%nat) as Hl by apply length_load_bytes.
      rewrite <-Hl at 1. apply load_store_bytes_same, load_bytes_ok.
    + intros s Hs. rewrite Hd2, decide_False by done. apply Hd1.
  - rewrite (proj2 (Z.ltb_ge _ 0)) by lia.
    destruct (IH w1 V (c + 1) x Hf (fat32_ok_io _ _ _ _ Hw) H1 HV1 ltac:(lia) ltac:(subst w1; simpl; lia) Hx)
      as (m2 & d2 & l2 & E2 & Hw2 & Hd2). exists m2, d2, l2. split_and!; [done|done|].
    intros s Hs. rewrite Hd2 by done. apply Hd1.
Qed.

Lemma alloc_frame fuel junk n : ∀ w c r w',
  (blk_fuel ≤ fuel)%nat → fat32_ok w → 2 ≤ c → c + Z.of_nat n = total_clusters w →
  alloc_loop fuel junk n FREE_CLUSTER_32 BAD_CLUSTER_32 END_CLUSTER_32 c w = Done r w' → mem_frame w w'.
Proof.
  induction n as [|n IH]; intros w c r w' Hf Hw Hc Hn E; [by injection E as <- <-|].
  destruct (FATRead_run junk w c Hw ltac:(lia)) as (d1 & l1 & E1 & _).
  cbn [alloc_loop] in E. rewrite (bind_done _ _ _ _ _ E1) in E. set (w1 := put_io _ d1 l1 w) in E.
  assert (mem_frame w w1) as Hm1.
  { intros x Hx. unfold w1. cbn [w_mem put_io].
    rewrite load8_store_bytes, (proj1 (blk_ok _ _)), decide_False by lia. done. }
  destruct (_ =? FREE_CLUSTER_32).
  - destruct (FATWrite_run fuel junk w1 c END_CLUSTER_32 Hf (fat32_ok_io _ _ _ _ Hw) ltac:(subst w1; simpl; lia))
      as (m2 & d2 & l2 & E2 & _ & Hm2).
    rewrite (bind_done _ _ _ _ _ E2) in E. cbn [Z.eqb] in E. injection E as <- <-.
    intros x Hx. cbn [w_mem put_io]. rewrite Hm2, load8_store_bytes, length_load_bytes, decide_False by lia.
    by apply Hm1.
  - rewrite (proj2 (Z.ltb_ge _ 0)) in E by apply u32_range.
    intros x Hx. rewrite <-(Hm1 x Hx). revert x Hx. apply (IH w1 (c + 1) r w' Hf); [|lia| |exact E].
    + by apply fat32_ok_io.
    + subst w1. simpl. lia.
Qed.

(** The table lies in front of the data area. *)
Definition table_below w : Prop :=
  first_fat_sector w + 4 * (total_clusters w - 1) / 512 < first_data_sector w.

Lemma add_here_run fuel junk w w1 c slot e x :
  (blk_fuel ≤ fuel)%nat → vol_ok w → one_sector w → 2 ≤ c < total_clusters w →
  46 ∉ take 11 (file_name e) → x ≠ BAD_CLUSTER_32 →
  allocateFreeFAT fuel junk w = Done x w1 → (∃ m d l, w1 = put_io m d l w) →
  let e' := set_cluster 32 x (stamp e) in
  let m2 := store_bytes (w_mem w1) slot (entry_bytes e') in
  let s := first_data_sector w + (c - 2) in
  ∃ w', add_here fuel junk c slot e w = Done (0, e') w' ∧ (∃ m d l, w' = put_io m d l w) ∧
    (∀ y, blk (w_dev w') y =
      if decide (y = s) then load_bytes m2 DISK_READ_LOCATION 512 else blk (w_dev w1) y) ∧
    ∀ y, load8 (w_mem w') y = load8 m2 y.
Proof.
  intros Hf Hw H1 Hc Hdot Hbad Ha Hio e' m2 s. unfold add_here.
  rewrite bool_decide_eq_false_2 by done. cbv zeta. rewrite (bind_done _ _ _ _ _ Ha).
  assert (fat_type w = 32) as Ht by apply Hw. assert (bytes_per_sector (bootsect w) = 512) as Hb by apply Hw.
  destruct Hio as (m1 & d1 & l1 & ->). subst m2. cbn [w_mem put_io].
  do 3 print_step. erewrite (bind_done (gets fat_type)) by (unfold gets; simpl; rewrite Ht; reflexivity).
  assert (is_bad 32 x = false) as ->
    by (unfold is_bad; rewrite (proj2 (Z.eqb_neq _ _) Hbad), !andb_false_r; done).
  do 5 print_step.
  match goal with |- context [bind (modify _) _ ?v] => set (w2 := v) end.
  set (m2 := store_bytes m1 slot (entry_bytes e')). set (w3 := put_mem m2 w2).
  rewrite (bind_done (modify _) _ w2 tt w3) by done.
  rewrite (bind_done (gets _) _ w3 512 w3) by (unfold gets; simpl; by rewrite Hb, H1).
  assert (vol_ok w3) as Hw3 by 
    (destruct Hw as [Hw32 ? ?]; split; [exact (fat32_ok_io _ _ _ w Hw32)|done|done]).
  destruct (clusterWrite_run fuel w3 DISK_WRITE_LOCATION 512 0 c Hf Hw3 Hc) as (d4 & l8 & E4 & Hd4).
  rewrite (bind_done _ _ _ _ _ E4). eexists. split_and!; [done|by eexists _, _, _| |].
  2:{ intros y. cbn [w_mem put_io put_mem w3]. change DISK_WRITE_LOCATION with DISK_READ_LOCATION.
      change (u32 (DISK_READ_LOCATION + byte_offset w3 0)) with DISK_READ_LOCATION.
      rewrite load8_memcpy by (lia || (left; done)). case_decide; [|done]. f_equal. lia. }
  intros y. cbn [w_dev put_io]. rewrite Hd4. change (sectors_per_cluster (bootsect w3)) with (sectors_per_cluster (bootsect w)).
  rewrite H1. change (first_data_sector w3) with (first_data_sector w). rewrite Z.mul_1_r. fold s.
  destruct (decide (y = s)) as [->|]; [|by rewrite decide_False by lia].
  rewrite decide_True by lia. rewrite Z.sub_diag, Z.add_0_r.
  change (u32 (DISK_WRITE_LOCATION + byte_offset w3 0)) with DISK_WRITE_LOCATION.
  change DISK_WRITE_LOCATION with DISK_READ_LOCATION. apply load_bytes_ext. intros i Hi.
  rewrite load8_memcpy by (lia || (left; done)). case_decide; [|done]. f_equal. lia.
Qed.
End Add.

(** * Listing *)

Fixpoint for_each {S A} (f : A → M S unit) (l : list A) : M S unit :=
  match l with [] => ret tt | x :: l' => f x ;; for_each f l' end.

Definition slot_dots (e : directory_entry) : bool :=
  starts_with (file_name e) [46; 46] || starts_with (file_name e) [46].

Definition slot_hidden (hide : Z) (e : directory_entry) : bool :=
  (at_ (file_name e) 0 =? ENTRY_FREE) ||
  (Z.land (attributes e) FILE_LONG_NAME =? FILE_LONG_NAME) || negb (Z.land (attributes e) hide =? 0).

(** The line printed for a slot, if any. *)
Definition show_slot {D} (stack : list Z) (hide : Z) (e : directory_entry) : M (world D) unit :=
  if slot_dots e then list_dots e
  else if slot_hidden hide e then ret tt else list_entry stack e.

Section Listing.
Context {D : Type} `{BlockDevice D}.
Implicit Types w : world D.

Lemma logs_list_dots e : logs (D := D) (list_dots e).
Proof. unfold list_dots. auto 10 with logs. Qed.

Lemma logs_list_entry stack e : logs (D := D) (list_entry stack e).
Proof. unfold list_entry. cbv zeta. repeat match goal with |- logs (bind _ _) => apply logs_bind end;
  try case_if; auto with logs. Qed.

Lemma logs_show stack hide e : logs (D := D) (show_slot stack hide e).
Proof. unfold show_slot. repeat case_if; auto using logs_list_dots, logs_list_entry with logs. Qed.

Lemma list_loop_step junk f stack c hide a count w e :
  entry_at (w_mem w) a = e → (at_ (file_name e) 0 =? ENTRY_END) = false →
  slot_dots e = true ∨ slot_hidden hide e = false ∨ count < last_slot w →
  list_loop junk (S f) stack c hide a count w =
  (show_slot stack hide e ;; list_loop junk f stack c hide (a + 32) (u32 (count + 1))) w.
Proof.
  intros He Hend Hcase. cbn [list_loop]. rewrite (bind_done _ _ _ w w) by done. cbv zeta.
  rewrite He, Hend. unfold show_slot. fold (slot_dots e). fold (slot_hidden hide e).
  destruct (slot_dots e); [done|]. destruct (slot_hidden hide e); [|done].
  destruct Hcase as [|[|]]; [done..|]. by rewrite (proj2 (Z.ltb_lt _ _)).
Qed.

(** The loop prints the slots in front of the end marker, in order. *)
Lemma list_loop_live junk stack c hide es : ∀ f w a count,
  vol_ok w → slots_at (w_mem w) a es → (length (live es) < length es)%nat →
  0 ≤ count → count + Z.of_nat (length es) ≤ Z.of_nat (slot_count w) → (length es ≤ f)%nat →
  list_loop junk f stack c hide a count w = (for_each (show_slot stack hide) (live es) ;; ret Break) w.
Proof.
  induction es as [|e es IH]; intros f w a count Hw Ha Hlive H0' Hcount Hf; [simpl in Hlive; lia|].
  destruct f as [|f]; [simpl in Hf; lia|]. destruct (slots_at_cons _ _ _ _ Ha) as [He Ha'].
  simpl in Hcount, Hf. cbn [live] in *. destruct (at_ (file_name e) 0 =? ENTRY_END) eqn:Hend.
  { cbn [list_loop]. rewrite (bind_done _ _ _ w w) by done. cbv zeta. by rewrite He, Hend. }
  cbn [length] in Hlive.
  rewrite (list_loop_step junk f stack c hide a count w e He Hend).
  2: { right. right. rewrite (last_slot_ok w (vol_fat _ Hw)). lia. }
  destruct (logs_show stack hide e w) as [l El]. rewrite (bind_done _ _ _ _ _ El).
  assert (0 ≤ count + 1 < 2 ^ 32) as Hcu.
  { destruct (vol_fat _ Hw) as [_ _ Hs _ _ _]. unfold slot_count in Hcount. lia. }
  rewrite u32_id by done. rewrite IH; [|by apply (same_vol_ok w); [apply same_vol_log|]|done|lia|lia| |lia].
  - cbn [for_each]. unfold bind. by rewrite El.
  - change (slot_count (put_log l w)) with (slot_count w). lia.
Qed.

Lemma list_loop_overrun junk stack c hide es : ∀ f w a count,
  slots_at (w_mem w) a es →
  Forall (λ e, (at_ (file_name e) 0 =? ENTRY_END) = false ∧ slot_hidden hide e = false) es →
  ∃ l, list_loop junk (length es + f) stack c hide a count w =
       list_loop junk f stack c hide (a + 32 * Z.of_nat (length es))
         (Nat.iter (length es) (λ n, u32 (n + 1)) count) (put_log l w).
Proof.
  induction es as [|e es IH]; intros f w a count Ha Hes.
  { exists (w_log w). simpl. rewrite Z.add_0_r. by rewrite put_log_self. }
  destruct (slots_at_cons _ _ _ _ Ha) as [He Ha']. apply Forall_cons in Hes as [[Hend Hhid] Hes].
  cbn [length Nat.add]. rewrite (list_loop_step _ _ _ _ _ _ _ w e He Hend) by auto.
  destruct (logs_show stack hide e w) as [l El]. rewrite (bind_done _ _ _ _ _ El).
  destruct (IH f (put_log l w) (a + 32) (u32 (count + 1)) Ha' Hes) as [l' E]. exists l'.
  rewrite E. replace (a + 32 + 32 * Z.of_nat (length es)) with (a + 32 * Z.of_nat (S (length es))) by lia.
  rewrite (Nat.iter_succ_r (length es)). done.
Qed.
End Listing.

(** * Theorems *)

(** 16-bit words of a byte list, for the simulated disks. *)
Fixpoint pack (bs : list Z) : list Z :=
  match bs with b0 :: b1 :: bs' => le16 b0 b1 :: pack bs' | [b] => [b] | [] => [] end.

(** One-sector clusters; cluster 2 is a directory with KERNEL.BIN (cluster 5,
    1000 bytes) and NOTES.TXT, the end of its chain. *)
Definition demo_entry (name : list Z) (cluster size : Z) : list Z :=
  name ++ [0x20; 0; 0] ++ replicate 12 0 ++ bytes16 cluster ++ bytes32 size.
Definition demo_dir : world sim :=
  demo_world 1 100 {[ 33543752 := [0; 0; 0; 0; 0xFFFF; 0x0FFF; 0; 0; 0; 0; 6; 0; 0xFFFF; 0x0FFF];
                      33543920 := pack (demo_entry (str "KERNEL  BIN") 5 1000 ++
                                        demo_entry (str "NOTES   TXT") 7 10) ]}.

Lemma demo_vol spc total disk :
  1 ≤ spc ≤ 64 → 2 ≤ total ≤ 2 ^ 16 → vol_ok (demo_world spc total disk).
Proof.
  intros Hs Ht. split; [by apply demo_ok; lia|done|].
  change (sectors_per_cluster (bootsect (demo_world spc total disk))) with spc.
  change (total_clusters (demo_world spc total disk)) with total.
  change (first_data_sector (demo_world spc total disk)) with 200. unfold part_length. nia.
Qed.





Lemma land_mask c : 0 ≤ c < 4294967296 -> Z.land c 0xFFFF000F = c mod 16 + 65536 * (c / 65536).
Proof.
  intros Hc. rewrite <-lor_add_low by lia.
  change 16 with (2^4) at 1. rewrite <-Z.land_ones by done.
  change 65536 with (2^16). rewrite Z.mul_comm, <-Z.shiftl_mul_pow2, <-Z.shiftr_div_pow2, <-Z.ldiff_ones_r by done.
  replace (Z.land c 0xFFFF000F) with (Z.land (Z.land c (Z.ones 32)) 0xFFFF000F).
  2: { rewrite <-Z.land_assoc. f_equal. }
  rewrite Z.land_ones, Z.mod_small by done.
  replace 0xFFFF000F with (Z.lor (Z.ones 4) (Z.ldiff (Z.ones 32) (Z.ones 16))) by done.
  rewrite Z.land_lor_distr_r. f_equal.
  rewrite Z.ldiff_land, Z.land_assoc, Z.land_ones, Z.mod_small by done. by rewrite Z.ldiff_land.
Qed.

(** The cluster number recorded in a new directory entry. [GET_ENTRY_LOW_BITS]
    masks with [fat_type / 2 - 1] = 15 where 16 bits are meant: on FAT32 the
    entry names the cluster with bits 4 to 15 cleared, which is the allocated
    cluster only when those bits are 0. *)
Theorem set_cluster_loses e c :
  0 ≤ c < 2 ^ 28 →
  GET_CLUSTER_FROM_ENTRY 32 (set_cluster 32 c e) = Z.land c 0xFFFF000F ∧
  (GET_CLUSTER_FROM_ENTRY 32 (set_cluster 32 c e) = c ↔ c mod 65536 < 16).
Proof.
  intros Hc. unfold GET_CLUSTER_FROM_ENTRY, set_cluster, GET_ENTRY_LOW_BITS, GET_ENTRY_HIGH_BITS. simpl.
  change (32 / 2 - 1) with (Z.ones 4). change (32 / 2) with 16.
  rewrite Z.land_ones, Z.shiftr_div_pow2 by done.
  change (2 ^ 4) with 16. change (2 ^ 16) with 65536. change (2 ^ 28) with 268435456 in Hc.
  rewrite (u16_id (c mod 16)), (u16_id (c / 65536)) by lia.
  assert (Z.lor (c mod 16) ((c / 65536) ≪ 16) = c mod 16 + 65536 * (c / 65536)) as ->.
  { rewrite Z.shiftl_mul_pow2 by done. change (2 ^ 16) with 65536.
    rewrite (Z.mul_comm (c / 65536)). apply lor_add_low. lia. }
  assert (Z.land c 0xFFFF000F = c mod 16 + 65536 * (c / 65536)) as ->.
  { apply land_mask; lia. }
  rewrite u32_id by lia. split; [done|]. lia.
Qed.

Lemma set_cluster_loses_witness :
  GET_CLUSTER_FROM_ENTRY 32 (set_cluster 32 0x12345 (entry_of [])) = 0x10005.
Proof.
  destruct (set_cluster_loses (entry_of []) 0x12345) as [E _]; [lia|]. rewrite E. reflexivity.
Defined.



(** The scan of [directoryList] has no bound on visible entries: over any
    number of them, more than the cluster holds included, it goes on to the
    memory behind. *)
Theorem directoryList_overruns `{BlockDevice D} junk stack c hide es f (w : world D) a count :
  slots_at (w_mem w) a es →
  Forall (λ e, (at_ (file_name e) 0 =? ENTRY_END) = false ∧ slot_hidden hide e = false) es →
  ∃ l count', list_loop junk (length es + f) stack c hide a count w =
    list_loop junk f stack c hide (a + 32 * Z.of_nat (length es)) count' (put_log l w).
Proof. intros Ha Hes. destruct (list_loop_overrun junk stack c hide es f w a count Ha Hes). eauto. Qed.

(** Seventeen visible entries in a directory of sixteen slots. *)
Lemma directoryList_overruns_witness :
  let e := demo_entry (str "KERNEL  BIN") 5 1000 in
  let w := sim_world ∅ (store_bytes ∅ 0x40000 (concat (replicate 17 e))) in
  ∃ l count', list_loop ∅ 18 [] 2 6 0x40000 0 w = list_loop ∅ 1 [] 2 6 (0x40000 + 544) count' (put_log l w).
Proof.
  cbv zeta. set (e := demo_entry (str "KERNEL  BIN") 5 1000).
  destruct (directoryList_overruns ∅ [] 2 6 (replicate 17 (entry_of e)) 1
    (sim_world ∅ (store_bytes ∅ 0x40000 (concat (replicate 17 e)))) 0x40000 0) as (l & n & E).
  - intros i x Hx. do 17 (destruct i as [|i]; [injection Hx as <-; vm_compute; reflexivity|]).
    rewrite lookup_replicate_None in Hx || (simpl in Hx; discriminate).
  - apply (bool_decide_unpack _). vm_compute. exact I.
  - exists l, n. exact E.
Defined.

(** A block with 32 bytes at [o] replaced. *)
Lemma load_patched m a bs o n :
  bytes_ok bs → (o + length bs ≤ n)%nat →
  load_bytes (store_bytes m (a + Z.of_nat o) bs) a n =
  take o (load_bytes m a n) ++ bs ++ drop (o + length bs) (load_bytes m a n).
Proof.
  intros Hb Ho. replace n with (o + (length bs + (n - o - length bs)))%nat by lia.
  rewrite !load_bytes_app. rewrite load_store_bytes_disjoint by lia.
  rewrite load_store_bytes_same by done. rewrite load_store_bytes_disjoint by lia.
  rewrite take_app_length' by (by rewrite length_load_bytes). do 2 f_equal.
  rewrite app_assoc, drop_app_length'; [done|]. by rewrite length_app, !length_load_bytes.
Qed.

Lemma allocateFreeFAT_window `{BlockDevice D} fuel junk (w : world D) V n :
  (blk_fuel ≤ fuel)%nat → fat32_ok w → one_sector w → fat_rep w V →
  AbsFat.first_free V (Z.to_nat (total_clusters w - 2)) 2 = Some n →
  ∃ m d l, allocateFreeFAT fuel junk w = Done n (put_io m d l w) ∧
    load_bytes m DISK_READ_LOCATION 512 = blk d (first_fat_sector w + 4 * n / 512) ∧
    (∀ s, s ≠ first_fat_sector w + 4 * n / 512 → blk d s = blk (w_dev w) s) ∧
    fat_rep (put_io m d l w) (AbsFat.write V n END_CLUSTER_32) ∧ mem_frame w (put_io m d l w).
Proof.
  intros Hf Hw H1 HV Hn. pose proof (ok_total _ Hw) as Ht.
  destruct (alloc_window fuel junk (Z.to_nat (total_clusters w - 2)) w V 2 n Hf Hw H1 HV) as (m & d & l & E & Hm & Hd);
    [lia|lia|done|].
  destruct (alloc_loop_rep fuel junk (Z.to_nat (total_clusters w - 2)) w V 2 Hf Hw H1 HV) as (m' & d' & l' & E' & HV'); [lia..|].
  pose proof (alloc_frame fuel junk (Z.to_nat (total_clusters w - 2)) w 2 _ _ Hf Hw ltac:(lia) ltac:(lia) E) as Hmf.
  rewrite Hn in E', HV'. rewrite E in E'. injection E' as <- <- <-.
  exists m, d, l. split_and!; try done. unfold allocateFreeFAT, bind at 1 2, gets. by rewrite (ok_type _ Hw).
Qed.

Lemma fat_rep_vol `{BlockDevice D} (w w' : world D) V : same_vol w w' → fat_rep w V → fat_rep w' V.
Proof. intros [(m & d & l & ->) Hd] HV c Hc. rewrite <-HV by done. unfold fat_view. simpl in *. by rewrite Hd. Qed.

Lemma stamp_bytes_ok e c :
  bytes_ok (file_name e) → byte_ok (attributes e) → byte_ok (reserved0 e) →
  bytes_ok (entry_bytes (set_cluster 32 c (stamp e))).
Proof.
  intros Hn Ha Hr. unfold entry_bytes. simpl.
  repeat first [apply Forall_app; split|apply Forall_cons; split|apply Forall_nil]; try done;
    unfold byte_ok; lia.
Qed.

Lemma testIfFATFormat_no_dot name :
  bytes_ok name → testIfFATFormat name = 0 → 46 ∉ take 11 name.
Proof.
  intros Hb Ht Hin. unfold testIfFATFormat in Ht.
  apply test_fold_zero in Ht as [_ HF]; [|by apply Forall_take|lia].
  rewrite Forall_forall in HF. specialize (HF _ Hin). discriminate.
Qed.

(** The run of [directoryAdd] on a directory with a free slot behind [pre]: the
    cluster goes to the window, the allocation to the same window, and what is then
    there, with the entry patched in, goes back to the cluster. *)
Lemma directoryAdd_run `{BlockDevice D} fuel junk (w : world D) V c e f pre x post n :
  (blk_fuel ≤ fuel)%nat → vol_ok w → one_sector w → fat_rep w V → 2 ≤ c < total_clusters w → table_below w →
  testIfFATFormat (file_name e) = 0 → entry_ok e →
  dir_slots w c = pre ++ x :: post → Forall (λ y, slot_free y = false) pre → slot_free x = true →
  AbsFat.first_free V (Z.to_nat (total_clusters w - 2)) 2 = Some n → (slot_count w < f)%nat →
  let e' := set_cluster 32 n (stamp e) in
  let s := first_data_sector w + (c - 2) in
  ∃ m d l, let w' := put_io m d l w in
    directoryAdd fuel junk f c e w = Done (0, e') w' ∧ fat_rep w' (AbsFat.write V n END_CLUSTER_32) ∧ mem_frame w w' ∧
    (let table := blk d (first_fat_sector w + 4 * n / 512) in
     blk d s = take (32 * length pre) table ++ entry_bytes e' ++ drop (32 * length pre + 32) table) ∧
    ∀ y, y ≠ s → first_data_sector w ≤ y → blk d y = blk (w_dev w) y.
Proof.
  intros Hf Hw H1 HV Hc Hbelow Hname He Hslots Hpre Hx Hn Hfuel e' s.
  destruct f as [|f]; [lia|]. cbn [directoryAdd]. rewrite Hname. cbn [negb Z.eqb].
  destruct (clusterRead_run w c 0 Hw Hc) as (d1 & l1 & E1 & Hd1). rewrite (bind_done _ _ _ _ _ E1).
  cbn [negb Z.eqb]. change (u32 (DISK_READ_LOCATION + byte_offset w 0)) with DISK_READ_LOCATION.
  set (w1 := put_io _ d1 l1 w). assert (same_vol w w1) as Hv by (split; [by eexists _, _, _|done]).
  pose proof (same_vol_ok _ _ Hv Hw) as Hw1. destruct (ok_spc _ (vol_fat _ Hw)) as [Hs1 Hs2].
  assert (length (dir_slots w c) = slot_count w) as Hlen
    by (unfold dir_slots, slots; by rewrite length_map, length_seq).
  rewrite Hslots, length_app in Hlen. simpl in Hlen.
  assert (slots_at (w_mem w1) DISK_READ_LOCATION (pre ++ x :: post)) as Hat
    by (rewrite <-Hslots; apply (slots_in_window w); lia).
  rewrite (bind_done _ _ _ _ _ (add_loop_free pre x post f w1 _ 0 Hw1 Hat Hpre Hx ltac:(lia)
    ltac:(rewrite length_app; simpl; change (slot_count w1) with (slot_count w); lia) ltac:(lia))).
  destruct (allocateFreeFAT_window fuel junk w1 V n Hf (vol_fat _ Hw1) H1 (fat_rep_vol _ _ _ Hv HV) Hn)
    as (m2 & d2 & l2 & E2 & Hm2 & Hd2 & HV2 & Hmf2).
  pose proof (first_free_spec V (Z.to_nat (total_clusters w - 2)) 2) as Hfree. rewrite Hn in Hfree.
  destruct (vol_fat _ Hw) as [_ _ _ Ht _ _]. destruct Hfree as [Hnr _].
  destruct (add_here_run fuel junk w1 (put_io m2 d2 l2 w1) c (DISK_READ_LOCATION + 32 * Z.of_nat (length pre)) e n
    Hf Hw1 H1 Hc) as (w3 & E3 & Hio & Hd3 & Hm3).
  { apply testIfFATFormat_no_dot; [apply He|done]. }
  { unfold BAD_CLUSTER_32. lia. }
  { done. }
  { by eexists _, _, _. }
  destruct Hio as (m3 & d3 & l3 & ->). exists m3, d3, l3. cbv zeta.
  change (first_data_sector w1) with (first_data_sector w) in Hd3. change (first_fat_sector w1) with (first_fat_sector w) in Hm2, Hd2.
  cbn [w_dev w_mem put_io] in Hd3, Hm3. fold s in Hd3. fold e' in Hd3, Hm3.
  assert (length (entry_bytes e') = 32%nat) as Hel by (apply (length_entry_bytes e'); apply He).
  unfold slot_count in Hlen. rewrite H1 in Hlen. unfold table_below in Hbelow.
  split_and!; [exact E3| | | |].
  - intros y Hy. change (total_clusters (put_io m3 d3 l3 w)) with (total_clusters w1) in Hy. rewrite <-HV2 by done.
    unfold fat_view. cbn [w_dev put_io]. change (first_fat_sector (put_io m3 d3 l3 w)) with (first_fat_sector w).
    change (total_clusters w1) with (total_clusters w) in Hy. rewrite Hd3, decide_False by (unfold s; lia). done.
  - intros y Hy. cbn [w_mem put_io]. rewrite Hm3, load8_store_bytes, Hel, decide_False by lia.
    rewrite Hmf2 by done. unfold w1. cbn [w_mem put_io]. rewrite load8_store_bytes, decide_False; [done|].
    rewrite (proj1 (length_cluster w c ltac:(lia))), H1. lia.
  - rewrite !Hd3, decide_True by done. rewrite decide_False by (unfold s; lia). rewrite <-Hm2.
    replace (32 * Z.of_nat (length pre)) with (Z.of_nat (32 * length pre)) by lia.
    rewrite load_patched, Hel; [done|apply stamp_bytes_ok; apply He|lia].
  - intros y Hy1 Hy2. rewrite Hd3, decide_False by done. rewrite Hd2 by lia. apply Hd1.
Qed.

Lemma one_sector_data `{BlockDevice D} (w : world D) c :
  one_sector w → cluster_data w c = blk (w_dev w) (first_data_sector w + (c - 2)).
Proof.
  intros H1. unfold cluster_data. rewrite H1, Z.mul_1_r, seqZ_cons by lia. cbn [map concat].
  by rewrite app_nil_r.
Qed.

(** [directoryAdd] destroys the directory it adds to. The directory sits in
    the disk window while [allocateFreeFAT] runs, which uses the same window: on
    success the directory's cluster holds the table sector of the new cluster
    with the new entry patched in, not the old entries. *)
Theorem directoryAdd_overwrites `{BlockDevice D} fuel junk (w : world D) V c e f pre x post n :
  (blk_fuel ≤ fuel)%nat → vol_ok w → one_sector w → fat_rep w V → 2 ≤ c < total_clusters w →
  first_fat_sector w + 4 * (total_clusters w - 1) / 512 < first_data_sector w →
  testIfFATFormat (file_name e) = 0 → entry_ok e →
  dir_slots w c = pre ++ x :: post → Forall (λ y, slot_free y = false) pre → slot_free x = true →
  AbsFat.first_free V (Z.to_nat (total_clusters w - 2)) 2 = Some n → (slot_count w < f)%nat →
  let e' := set_cluster 32 n (stamp e) in
  ∃ w', directoryAdd fuel junk f c e w = Done (0, e') w' ∧
    let table := blk (w_dev w') (first_fat_sector w + 4 * n / 512) in
    cluster_data w' c =
      take (32 * length pre) table ++ entry_bytes e' ++ drop (32 * length pre + 32) table.
Proof.
  intros Hf Hw H1 HV Hc Hbelow Hname He Hslots Hpre Hx Hn Hfuel e'.
  destruct (directoryAdd_run fuel junk w V c e f pre x post n) as (m & d & l & E & _ & _ & Hblk & _); try done.
  eexists. split; [exact E|]. rewrite one_sector_data by done. exact Hblk.
Qed.

Lemma directoryAdd_overwrites_witness :
  let e := entry_of (demo_entry (str "NEW     TXT") 0 3) in
  ∃ w', directoryAdd 100 ∅ 17 2 e demo_dir = Done (0, set_cluster 32 3 (stamp e)) w' ∧
    take 64 (cluster_data w' 2) = take 64 (blk (w_dev w') (32 + 4 * 3 / 512)).
Proof.
  set (e := entry_of (demo_entry (str "NEW     TXT") 0 3)). cbv zeta.
  destruct (directoryAdd_overwrites 100 ∅ demo_dir (fat_view demo_dir) 2 e 17
    (take 2 (dir_slots demo_dir 2)) (entry_of (replicate 32 0)) (drop 3 (dir_slots demo_dir 2)) 3) as (w' & E & Hc).
  - simpl. unfold ata_fuel. simpl. lia.
  - apply demo_vol; lia.
  - done.
  - by intros ??.
  - done.
  - vm_compute. reflexivity.
  - reflexivity.
  - by apply entry_bytes_of; [apply (bool_decide_unpack _); vm_compute; exact I|].
  - vm_compute. reflexivity.
  - apply (bool_decide_unpack _). vm_compute. exact I.
  - reflexivity.
  - vm_compute. reflexivity.
  - vm_compute. lia.
  - exists w'. split; [exact E|]. cbv zeta in Hc. rewrite Hc. rewrite take_app_le.
    + rewrite take_take. reflexivity.
    + rewrite length_take, (proj1 (blk_ok _ _)). vm_compute. lia.
Defined.
