(* ===== verification/FatFile.v ===== *)
(** Files in src/kernel/arch/i386/FAT.c: [getFile] and [putFile].

    A path is the bytes of its C string with the terminator; leaving it is
    [OutOfBounds]. [file_info] and the name buffers start uninitialised: what
    they hold is a parameter. Loops along cluster chains take fuel [f]; [fuel]
    is that of the disk driver. *)
From S2P Require Import Prelude Machine CString LibC FatNames FatTypes AtaPio AtaSim FatTable FatDir.

Section FatFile.
Context {D : Type} `{PortIO D}.
Variable fuel : nat.
Variable junk : memory.
Variable f : nat.
Abbreviation W := (world D).

(** [fileNamePart]: cleared, then the path bytes from [start] up to [iterator]. *)
Definition name_part (filePath : list Z) (start iterator : Z) : option (list Z) :=
  let n := u32 (iterator - start) in
  if 256 <? n then None
  else Some (take (Z.to_nat n) (drop (Z.to_nat start) filePath) ++ replicate (256 - Z.to_nat n) 0).

(** [for (iterator = 3; filePath[iterator - 1] != '\0'; iterator++)] of both
    functions; [not_found] and [failed] are the messages. The result is the
    function's early return, or [active_cluster] and [file_info]. *)
Fixpoint walk (n : nat) (not_found : M W unit) (failed : M W unit) (filePath : list Z)
    (iterator start active_cluster : Z) (file_info : directory_entry) :
    M W (Z + (Z * directory_entry)) :=
  match n with
  | O => raise OutOfBounds
  | S n' =>
      match filePath !! Z.to_nat (iterator - 1) with
      | None => raise OutOfBounds
      | Some last =>
          if last =? 0 then ret (inr (active_cluster, file_info)) else
          match filePath !! Z.to_nat iterator with
          | None => raise OutOfBounds
          | Some c =>
              if (c =? 92) || (c =? 0) then
                match name_part filePath start iterator with
                | None => raise OutOfBounds
                | Some fileNamePart =>
                    let! r := directorySearch junk f fileNamePart active_cluster in
                    if r.1 =? -2 then not_found ;; ret (inl (-2))
                    else if r.1 =? -1 then failed ;; ret (inl (-1))
                    else
                      let file_info := match r.2 with Some (e, _) => e | None => file_info end in
                      let! t := gets fat_type in
                      walk n' not_found failed filePath (iterator + 1) (u16 (iterator + 1))
                        (GET_CLUSTER_FROM_ENTRY t file_info) file_info
                end
              else walk n' not_found failed filePath (iterator + 1) start active_cluster file_info
          end
      end
  end.

(** [((fat_extBS_32_t* )bootsect.extended_section)->root_cluster] *)
Definition root_of (w : W) : Z := root_cluster (fat_extBS_32_of (extended_section (bootsect w))).

(** * getFile *)

(** [while (cluster < END_CLUSTER_32)]; [cluster] is an [int]. *)
Fixpoint read_loop (n : nat) (readInOffset cluster clusterReadCount : Z) : M W Z :=
  match n with
  | O => raise OutOfFuel
  | S n' =>
      if cluster <? END_CLUSTER_32 then
        let! _ := clusterRead (u32 cluster) (u32 (clusterReadCount + readInOffset)) in
        let! cluster := FATRead junk (u32 cluster) in
        if cluster =? BAD_CLUSTER_32 then
          msg "Function getFile: the cluster chain is corrupted with a bad cluster. Aborting..." ;; ret (-1)
        else if cluster =? -1 then
          msg "Function getFile: an error occurred in FATRead. Aborting..." ;; ret (-1)
        else read_loop n' readInOffset cluster (u32 (clusterReadCount + 1))
      else ret 0
  end.

(** What [getFile] returns and stores through [fileContents] and [fileMeta]. *)
Record got_file := Got { g_ret : Z; g_contents : option Z; g_meta : option directory_entry }.

Definition getFile (have_contents have_meta : bool) (filePath : list Z) (readInOffset : Z)
    (file_info : directory_entry) : M W got_file :=
  if negb have_contents || negb have_meta then
    msg "Function getFile: an argument was invalid!" ;; ret (Got (-1) None None)
  else
    let! w := gets id in
    if negb (fat_type w =? 32) then
      msg "Function getFile: FAT16 and FAT12 are not supported!" ;; ret (Got (-1) None None)
    else
      let! r := walk (length filePath) (ret tt)
                  (msg "Function getFile: An error occurred in directorySearch. Aborting...")
                  filePath 3 3 (root_of w) file_info in
      match r with
      | inl e => ret (Got e None None)
      | inr (_, file_info) =>
          if negb (Z.land (attributes file_info) FILE_DIRECTORY =? FILE_DIRECTORY) then
            let bps := bytes_per_sector (bootsect w) in
            let spc := sectors_per_cluster (bootsect w) in
            if (readInOffset <? 1) ||
               (262144 <? u32 (u32 (u32 (readInOffset * bps) * spc) + file_size file_info)) then
              ret (Got (-3) None (Some file_info))
            else
              let! r := read_loop f readInOffset (s32 (GET_CLUSTER_FROM_ENTRY (fat_type w) file_info)) 0 in
              if r =? 0
              then ret (Got 0 (Some (u32 (DISK_READ_LOCATION + spc * bps * readInOffset))) (Some file_info))
              else ret (Got r None (Some file_info))
          else ret (Got (-3) None (Some file_info))
      end.

(** * putFile *)

(** Allocate a cluster and link it behind [active_cluster]. *)
Definition put_next (active_cluster : Z) : M W (option Z) :=
  let! new_cluster := allocateFreeFAT fuel junk in
  let! t := gets fat_type in
  if is_bad t new_cluster then
    msg "Function putFile: allocateFreeFAT encountered an error. Aborting..." ;; ret None
  else
    let! r := FATWrite fuel junk active_cluster new_cluster in
    if negb (r =? 0) then
      msg "Function putFile: FATWrite encountered an error. Aborting..." ;; ret None
    else ret (Some new_cluster).

(** [while (dataLeftToWrite > 0)]; [contents] is the address [*fileContents]. *)
Fixpoint put_loop (n : nat) (contents file_size dataLeftToWrite active_cluster : Z) : M W Z :=
  match n with
  | O => raise OutOfFuel
  | S n' =>
      if 0 <? dataLeftToWrite then
        d_printhex dataLeftToWrite 8 ;;
        d_printss [10] ;;
        let! cs := gets (λ w, bytes_per_sector (bootsect w) * sectors_per_cluster (bootsect w)) in
        let dataWrite := if cs <=? dataLeftToWrite then cs + 1 else dataLeftToWrite in
        let! r := clusterWrite fuel (u32 (contents + u32 (file_size - dataLeftToWrite))) dataWrite 1
                    active_cluster in
        if negb (r =? 0) then
          msg "Function putFile: clusterWrite encountered an error. Aborting..." ;; ret (-1)
        else
          let dataLeftToWrite := u32 (dataLeftToWrite - dataWrite) in
          if dataLeftToWrite =? 0 then ret 0
          else if dataLeftToWrite <? 0 then
            msg "Function putFile: An undefined value has been detected. Aborting..." ;; ret (-1)
          else
            let! next := put_next active_cluster in
            match next with
            | None => ret (-1)
            | Some new_cluster => put_loop n' contents file_size dataLeftToWrite new_cluster
            end
      else ret 0
  end.

(** [file_info] as set for the path of the root directory. *)
Definition root_info (t root : Z) (e : directory_entry) : directory_entry := {|
  file_name := file_name e; attributes := Z.lor FILE_DIRECTORY FILE_VOLUME_ID;
  reserved0 := reserved0 e; creation_time_tenths := creation_time_tenths e;
  creation_time := creation_time e; creation_date := creation_date e;
  last_accessed := last_accessed e; high_bits := u16 (GET_ENTRY_HIGH_BITS t root);
  last_modification_time := last_modification_time e;
  last_modification_date := last_modification_date e;
  low_bits := u16 (GET_ENTRY_LOW_BITS t root); file_size := 0 |}.

(** Printing [fileMeta->file_name], which has no terminator of its own. *)
Definition print_name (e : directory_entry) : M W unit :=
  if bool_decide (0 ∈ entry_bytes e) then d_printss (entry_bytes e) else raise OutOfBounds.

(** The directory that receives the file is found: [active_cluster]. *)
Definition put_in (stack : list Z) (contents active_cluster : Z) (fileMeta : directory_entry) :
    M W (Z * directory_entry) :=
  d_printsss (file_name fileMeta) 11 ;;
  d_printhex active_cluster 8 ;;
  d_printss [10] ;;
  let! added := directoryAdd fuel junk f active_cluster fileMeta in
  let fileMeta := added.2 in
  if negb (added.1 =? 0) then
    msg "Function putFile: directoryAdd encountered an error. Aborting..." ;; ret (-1, fileMeta)
  else
    let output := convertFromFATFormat (file_name fileMeta) stack in
    d_printsss output 11 ;;
    d_printhex active_cluster 8 ;;
    d_printss [10] ;;
    let! r := directorySearch junk f output active_cluster in
    if r.1 =? -2 then
      msg "Function putFile: directoryAdd did not properly write the new file's entry to disk. Aborting..." ;;
      ret (-2, fileMeta)
    else if negb (r.1 =? 0) then
      msg "Function putFile: directorySearch has encountered an error. Aborting..." ;; ret (-1, fileMeta)
    else
      let! t := gets fat_type in
      match r.2 with
      | None => raise OutOfBounds
      | Some (file_info, _) =>
          let active_cluster := GET_CLUSTER_FROM_ENTRY t file_info in
          d_printss (str "Cluster of Entry: ") ;;
          d_printhex active_cluster 8 ;;
          d_printss [10] ;;
          let! r := put_loop f contents (file_size fileMeta) (file_size fileMeta) active_cluster in
          ret (r, fileMeta)
      end.

(** The result, and [*fileMeta] as the call leaves it; [stack] and [stack'] are
    what the two arrays [output] hold before they are filled. *)
Definition putFile (filePath : list Z) (contents : Z) (fileMeta file_info : directory_entry)
    (stack stack' : list Z) : M W (Z * directory_entry) :=
  if negb (testIfFATFormat (file_name fileMeta) =? 0) then
    d_printhex (testIfFATFormat (file_name fileMeta)) 8 ;;
    print_name fileMeta ;;
    d_printss [10] ;;
    d_printss (10 :: str "Function putFile: Invalid file name!" ++ [10]) ;;
    ret (-2, fileMeta)
  else
    let! w := gets id in
    if negb (fat_type w =? 32) then
      msg "Function putFile: FAT16 and FAT12 are not supported!" ;; ret (-1, fileMeta)
    else
      let! r :=
        match strcmp filePath (str "C:\" ++ [0]) with
        | None => raise OutOfBounds
        | Some 0 => ret (inr (root_of w, root_info (fat_type w) (root_of w) file_info))
        | Some _ =>
            walk (length filePath)
              (msg "Function putFile: No matching directory found. Aborting...")
              (msg "Function putFile: An error occurred in directorySearch. Aborting...")
              filePath 3 3 (root_of w) file_info
        end in
      match r with
      | inl e => ret (e, fileMeta)
      | inr (active_cluster, file_info) =>
          let! s := directorySearch junk f (convertFromFATFormat (file_name fileMeta) stack) active_cluster in
          if s.1 =? -1 then
            msg "Function putFile: directorySearch encountered an error. Aborting..." ;; ret (-1, fileMeta)
          else if negb (s.1 =? -2) then
            msg "Function putFile: a file matching the name given already exists. Aborting..." ;;
            ret (-3, fileMeta)
          else if Z.land (attributes file_info) FILE_DIRECTORY =? FILE_DIRECTORY then
            put_in stack' contents active_cluster fileMeta
          else
            msg "Function putFile: Invalid path!" ;; ret (-2, fileMeta)
      end.
End FatFile.

(** * Reading a chain *)

Section Reading.
Context {D : Type} `{BlockDevice D}.
Implicit Types w : world D.

Definition chain_data w (cs : list Z) : list Z := concat (map (cluster_data w) cs).

Lemma cluster_data_vol w w' c : same_vol w w' → cluster_data w' c = cluster_data w c.
Proof. intros [(m & d & l & ->) Hd]. unfold cluster_data. simpl in *. f_equal. by apply map_ext. Qed.

Lemma chain_data_vol w w' cs : same_vol w w' → chain_data w' cs = chain_data w cs.
Proof. intros Hv. unfold chain_data. f_equal. apply map_ext. intros c. by apply cluster_data_vol. Qed.

Lemma length_chain_data w cs :
  1 ≤ sectors_per_cluster (bootsect w) →
  length (chain_data w cs) = (length cs * Z.to_nat (512 * sectors_per_cluster (bootsect w)))%nat ∧
  bytes_ok (chain_data w cs).
Proof.
  intros Hs. induction cs as [|c cs [IHl IHb]]; [split; [done|by constructor]|].
  destruct (length_cluster w c ltac:(lia)) as [Hl Hb]. unfold chain_data in *. cbn [map concat length].
  split; [rewrite length_app; lia|by apply Forall_app].
Qed.

(** Byte offset [k] clusters into the window, where it does not wrap. *)
Definition window w (k : Z) : Z := DISK_READ_LOCATION + 512 * sectors_per_cluster (bootsect w) * k.

Lemma window_addr w k :
  fat32_ok w → 0 ≤ k → window w k < 2 ^ 32 → u32 (DISK_READ_LOCATION + byte_offset w k) = window w k.
Proof.
  intros [_ Hb Hs _ _ _] Hk Hlt. unfold byte_offset, window, DISK_READ_LOCATION in *. rewrite Hb.
  assert (0 ≤ k * sectors_per_cluster (bootsect w)) by (apply Z.mul_nonneg_nonneg; lia).
  rewrite (u32_id (k * _)) by lia. rewrite (u32_id (_ * 512)) by lia. rewrite u32_id; lia.
Qed.

(** One round: the cluster goes to place [k] of the window, the look-up in the
    table to the first sector of it. *)
Lemma read_round junk w c k :
  vol_ok w → 2 ≤ c < total_clusters w → 1 ≤ k → window w k < 2 ^ 32 →
  ∃ w2, (∀ A (cont : Z → M (world D) A), (let! _ := clusterRead c k in let! n := FATRead junk c in cont n) w =
      cont (fat_next w c) w2) ∧ same_vol w w2 ∧
    ∀ x, DISK_READ_LOCATION + 512 ≤ x → load8 (w_mem w2) x =
      if decide (window w k ≤ x < window w k + 512 * sectors_per_cluster (bootsect w))
      then at_ (cluster_data w c) (x - window w k) else load8 (w_mem w) x.
Proof.
  intros Hw Hc Hk Hwin. destruct (vol_fat _ Hw) as [_ _ [Hs1 Hs2] _ _ _].
  destruct (clusterRead_run w c k Hw Hc) as (d1 & l1 & E1 & Hd1). set (w1 := put_io _ d1 l1 w) in E1.
  assert (same_vol w w1) as Hv1 by (split; [by eexists _, _, _|done]).
  destruct (FATRead_frame junk w1 c (same_vol_ok _ _ Hv1 Hw) Hc) as (w2 & E2 & Hv2 & Hm2).
  exists w2. split_and!; [|by transitivity w1|].
  - intros A cont. rewrite (bind_done _ _ _ _ _ E1), (bind_done _ _ _ _ _ E2). by rewrite (same_vol_next w w1 c Hv1).
  - destruct (length_cluster w c ltac:(lia)) as [Hl Hb]. intros x Hx. rewrite Hm2 by lia. unfold w1. cbn [w_mem put_io].
    rewrite (window_addr w k (vol_fat _ Hw) ltac:(lia) Hwin), load8_store_bytes, Hl, Z2Nat.id by lia.
    case_decide; [by apply at_byte|done].
Qed.

Lemma read_loop_chain junk off c cs : ∀ n w count,
  vol_ok w → fat_chain w c cs → 1 ≤ off → 0 ≤ count → (length cs < n)%nat →
  count + off + Z.of_nat (length cs) < 2 ^ 32 →
  window w (count + off + Z.of_nat (length cs)) < 2 ^ 32 →
  ∃ w', read_loop junk n off c count w = Done 0 w' ∧ same_vol w w' ∧
    load_bytes (w_mem w') (window w (count + off)) (length (chain_data w cs)) = chain_data w cs ∧
    ∀ x, DISK_READ_LOCATION + 512 ≤ x < window w (count + off) → load8 (w_mem w') x = load8 (w_mem w) x.
Proof.
  intros n w count Hw Hchain. revert n w count Hw c Hchain.
  induction cs as [|c0 cs IH]; intros n w count Hw c Hchain Hoff Hcount Hn Hlim Hwin; [by inversion Hchain|].
  assert (c0 = c) as -> by (by inversion Hchain). pose proof (fat_chain_valid _ _ _ Hchain) as Hc.
  destruct (vol_fat _ Hw) as [_ Hbps [Hs1 Hs2] Ht _ _]. simpl in Hn, Hlim, Hwin.
  destruct n as [|n]; [lia|]. cbn [read_loop].
  rewrite (proj2 (Z.ltb_lt c END_CLUSTER_32)) by (unfold END_CLUSTER_32; lia).
  rewrite (u32_id c), (u32_id (count + off)) by lia.
  destruct (length_cluster w c ltac:(lia)) as [Hl Hb].
  set (cs1 := 512 * sectors_per_cluster (bootsect w)) in *.
  assert (window w (count + off) + cs1 = window w (count + 1 + off)) as Hwn by (unfold window; fold cs1; lia).
  assert (window w (count + 1 + off) ≤ window w (count + off + Z.of_nat (S (length cs)))) as Hwm
    by (unfold window; fold cs1; nia).
  assert (DISK_READ_LOCATION + 512 ≤ window w (count + off)) as Hw0 by (unfold window; fold cs1; nia).
  destruct (read_round junk w c (count + off) Hw Hc ltac:(lia) ltac:(lia)) as (w2 & E2 & Hv12 & Hload).
  fold cs1 in Hload. rewrite E2.
  pose proof (fat_next_range w c) as Hnr.
  inversion Hchain as [? ? Hend|? ? ? Hlt Hrest]; subst.
  - rewrite (proj2 (Z.eqb_neq _ BAD_CLUSTER_32)), (proj2 (Z.eqb_neq _ (-1)))
      by (unfold BAD_CLUSTER_32, END_CLUSTER_32 in *; lia).
    destruct n as [|n]; [simpl in Hn; lia|]. cbn [read_loop]. rewrite (proj2 (Z.ltb_ge _ END_CLUSTER_32)) by done.
    exists w2. unfold chain_data. cbn [map concat]. rewrite app_nil_r. split_and!; [done|done| |].
    + apply load_bytes_eq. intros i Hi. rewrite Hload, decide_True by lia. f_equal. lia.
    + intros x Hx. rewrite Hload, decide_False by lia. done.
  - pose proof (fat_chain_valid _ _ _ Hrest) as Hc'.
    rewrite (proj2 (Z.eqb_neq _ BAD_CLUSTER_32)), (proj2 (Z.eqb_neq _ (-1)))
      by (unfold BAD_CLUSTER_32 in *; lia).
    rewrite (u32_id (count + 1)) by lia. pose proof Hv12 as [(mm & dd & ll & Ew2) _].
    destruct (IH n w2 (count + 1)) with (c := fat_next w c) as (w3 & E3 & Hv3 & Hdata & Hframe).
    1: by apply (same_vol_ok w). 1: by apply (fat_chain_vol w). 1-4: lia.
    { rewrite Ew2. change (window (put_io mm dd ll w)) with (window w).
      replace (count + 1 + off + Z.of_nat (length cs)) with (count + off + Z.of_nat (S (length cs))) by lia. done. }
    rewrite (chain_data_vol w w2) in Hdata by done.
    assert (∀ k, window w2 k = window w k) as Hww by (intros k; by rewrite Ew2). rewrite Hww in Hdata, Hframe.
    exists w3. split_and!; [done|by transitivity w2| |].
    + unfold chain_data. cbn [map concat]. rewrite length_app, load_bytes_app, Hl, Z2Nat.id, Hwn by lia.
      f_equal; [|exact Hdata].
      rewrite <-Hl. apply load_bytes_eq. intros i Hi. rewrite Hframe, Hload, decide_True by lia. f_equal. lia.
    + intros x Hx. rewrite Hframe, Hload, decide_False by lia. done.
Qed.
End Reading.

(** * Resolving a path *)

Section Paths.
Context {D : Type} `{BlockDevice D}.
Implicit Types w : world D.

(** What a component of a path may hold. *)
Definition component (s : list Z) : Prop := Forall (λ b, b ≠ 0 ∧ b ≠ 92) s ∧ (length s ≤ 256)%nat.

(** A component as [fileNamePart] passes it. *)
Definition part_of (s : list Z) : list Z := s ++ replicate (256 - length s) 0.

(** [resolves w N c comps e]: from the directory at cluster [c] the components
    lead to the entry [e], over directory chains of at most [N] clusters. *)
Inductive resolves w (N : nat) : Z → list (list Z) → directory_entry → Prop :=
| resolve_last c comp key cs e :
    component comp → fat_chain w c cs → (length cs ≤ N)%nat → search_key (part_of comp) = Some key →
    dir_lookup key (chain_slots w cs) = Some e → resolves w N c [comp] e
| resolve_step c comp key cs e comps e' :
    component comp → fat_chain w c cs → (length cs ≤ N)%nat → search_key (part_of comp) = Some key →
    dir_lookup key (chain_slots w cs) = Some e →
    resolves w N (GET_CLUSTER_FROM_ENTRY 32 e) comps e' → resolves w N c (comp :: comps) e'.

Fixpoint join_path (comps : list (list Z)) : list Z :=
  match comps with
  | [] => [0]
  | [c] => c ++ [0]
  | c :: comps' => c ++ 92 :: join_path comps'
  end.

Lemma resolves_vol w w' N c comps e : same_vol w w' → resolves w N c comps e → resolves w' N c comps e.
Proof.
  intros Hv. induction 1.
  - eapply resolve_last; eauto using fat_chain_vol. by rewrite (chain_slots_vol w).
  - eapply resolve_step; eauto using fat_chain_vol. by rewrite (chain_slots_vol w).
Qed.

Lemma lookup_middle_Z (l1 : list Z) x l2 i : i = Z.of_nat (length l1) → (l1 ++ x :: l2) !! Z.to_nat i = Some x.
Proof. intros ->. rewrite Nat2Z.id. by apply list_lookup_middle. Qed.

(** The loop runs over the characters of a component. *)
Lemma walk_plain junk f nf fl cluster info w mid : ∀ n pre last post start,
  Forall (λ b, b ≠ 0 ∧ b ≠ 92) mid → last ≠ 0 → (length post ≠ 0)%nat →
  let path := pre ++ last :: mid ++ post in
  let i := Z.of_nat (length pre) + 1 in
  ∃ pre' last', path = pre' ++ last' :: post ∧ last' ≠ 0 ∧
    length pre' = (length pre + length mid)%nat ∧
    walk junk f (length mid + n) nf fl path i start cluster info w =
    walk junk f n nf fl path (i + Z.of_nat (length mid)) start cluster info w.
Proof.
  induction mid as [|b mid IH]; intros n pre last post start Hmid Hlast Hpost path i.
  { exists pre, last. split_and!; [done|done|simpl; lia|]. simpl. by rewrite Z.add_0_r. }
  apply Forall_cons in Hmid as [[Hb0 Hb92] Hmid].
  destruct (IH n (pre ++ [last]) b post start Hmid Hb0 Hpost) as (pre' & last' & Ep & Hl & Hlen & E).
  assert ((pre ++ [last]) ++ b :: mid ++ post = path) as Epath by (unfold path; by rewrite <-app_assoc).
  rewrite Epath in Ep, E. exists pre', last'. split_and!; [done|done|rewrite Hlen, length_app; simpl; lia|].
  cbn [length Nat.add walk].
  assert (path !! Z.to_nat (i - 1) = Some last) as -> by (apply lookup_middle_Z; unfold i; lia).
  rewrite (proj2 (Z.eqb_neq _ _) Hlast).
  assert (path !! Z.to_nat i = Some b) as ->
    by (rewrite <-Epath; apply lookup_middle_Z; rewrite length_app; simpl; unfold i; lia).
  rewrite (proj2 (Z.eqb_neq _ _) Hb0), (proj2 (Z.eqb_neq _ _) Hb92). cbn [orb].
  rewrite length_app in E. simpl in E.
  replace (Z.of_nat (length pre + 1) + 1) with (i + 1) in E by (unfold i; lia). rewrite E.
  f_equal. lia.
Qed.

Lemma name_part_comp pre comp t post :
  component comp → Z.of_nat (length pre + length comp) < 2 ^ 32 →
  name_part (pre ++ comp ++ t :: post) (Z.of_nat (length pre)) (Z.of_nat (length pre + length comp)) =
  Some (part_of comp).
Proof.
  intros [_ Hl] Hlim. unfold name_part.
  replace (u32 _) with (Z.of_nat (length comp)) by (rewrite u32_id; lia).
  rewrite (proj2 (Z.ltb_ge _ _)) by lia. rewrite !Nat2Z.id, drop_app_length, take_app_length. done.
Qed.

(** One component: its characters, then the search at its end. *)
Lemma walk_to_search junk f nf fl w n pre comp t post c info :
  component comp → t = 0 ∨ t = 92 → pre ≠ [] → List.last pre 0 ≠ 0 →
  Z.of_nat (length pre + length comp) < 65535 →
  let path := pre ++ comp ++ t :: post in
  let i := Z.of_nat (length pre + length comp) in
  walk junk f (length comp + S n) nf fl path (Z.of_nat (length pre)) (Z.of_nat (length pre)) c info w =
  (let! r := directorySearch junk f (part_of comp) c in
   if r.1 =? -2 then nf ;; ret (inl (-2))
   else if r.1 =? -1 then fl ;; ret (inl (-1))
   else
     let file_info := match r.2 with Some (e, _) => e | None => info end in
     let! t := gets fat_type in
     walk junk f n nf fl path (i + 1) (u16 (i + 1)) (GET_CLUSTER_FROM_ENTRY t file_info) file_info) w.
Proof.
  intros Hcomp Ht Hpre Hlast Hlim path i. subst path i.
  destruct (exists_last Hpre) as (pre0 & x & ->). rewrite List.last_last in Hlast.
  rewrite <-app_assoc. simpl ([x] ++ _).
  destruct (walk_plain junk f nf fl c info w comp (S n) pre0 x (t :: post) (Z.of_nat (length (pre0 ++ [x]))))
    as (pre' & last' & Ep & Hl' & Hlen & E); [apply Hcomp|done|done|].
  assert (Z.of_nat (length (pre0 ++ [x])) = Z.of_nat (length pre0) + 1) as Hp1 by (rewrite length_app; simpl; lia).
  rewrite Hp1 in *. rewrite E. cbn [walk]. rewrite length_app in Hlim |- *. simpl in Hlim |- *.
  set (path := pre0 ++ x :: comp ++ t :: post) in *.
  assert (path !! Z.to_nat (Z.of_nat (length pre0) + 1 + Z.of_nat (length comp) - 1) = Some last') as ->
    by (rewrite Ep; apply lookup_middle_Z; lia).
  rewrite (proj2 (Z.eqb_neq _ _) Hl').
  assert (path !! Z.to_nat (Z.of_nat (length pre0) + 1 + Z.of_nat (length comp)) = Some t) as ->.
  { replace path with ((pre0 ++ x :: comp) ++ t :: post) by (unfold path; by rewrite <-app_assoc).
    apply lookup_middle_Z. rewrite length_app. simpl. lia. }
  assert ((t =? 92) || (t =? 0) = true) as -> by (destruct Ht as [-> | ->]; done).
  pose proof (name_part_comp (pre0 ++ [x]) comp t post Hcomp) as Hpart.
  rewrite length_app in Hpart. simpl in Hpart. rewrite <-app_assoc in Hpart. simpl in Hpart. fold path in Hpart.
  replace (Z.of_nat (length pre0) + 1) with (Z.of_nat (length pre0 + 1)) by lia.
  replace (Z.of_nat (length pre0 + 1) + Z.of_nat (length comp)) with (Z.of_nat (length pre0 + 1 + length comp)) by lia.
  by rewrite Hpart by lia.
Qed.

Lemma walk_component junk f nf fl w n pre comp t post c info key cs e N :
  vol_ok w → component comp → t = 0 ∨ t = 92 → pre ≠ [] → List.last pre 0 ≠ 0 →
  Z.of_nat (length pre + length comp) < 65535 →
  fat_chain w c cs → (length cs ≤ N)%nat → (N + slot_count w ≤ f)%nat →
  search_key (part_of comp) = Some key → dir_lookup key (chain_slots w cs) = Some e →
  ∃ w', same_vol w w' ∧
    walk junk f (length comp + S n) nf fl (pre ++ comp ++ t :: post) (Z.of_nat (length pre))
      (Z.of_nat (length pre)) c info w =
    walk junk f n nf fl (pre ++ comp ++ t :: post) (Z.of_nat (length pre + length comp) + 1)
      (Z.of_nat (length pre + length comp) + 1) (GET_CLUSTER_FROM_ENTRY 32 e) e w'.
Proof.
  intros Hw Hcomp Ht Hpre Hlast Hlim Hchain HN Hf Hkey Hlook. rewrite walk_to_search by done.
  destruct (directorySearch_rep junk (part_of comp) key c cs w f Hw Hkey Hchain ltac:(lia)) as (w' & r & Es & Hv & _ & Hr).
  rewrite Hlook in Hr. destruct Hr as [i ->]. rewrite (bind_done _ _ _ _ _ Es). cbn [fst snd Z.eqb].
  exists w'. split; [done|]. pose proof Hv as [(m & d & l & ->) _].
  rewrite (bind_done _ _ _ 32 (put_io m d l w)) by (unfold gets; simpl; by rewrite (ok_type _ (vol_fat _ Hw))).
  by rewrite u16_id by lia.
Qed.

Lemma slot_count_vol w w' : same_vol w w' → slot_count w' = slot_count w.
Proof. by intros [(m & d & l & ->) _]. Qed.

Lemma walk_path junk f nf fl w N c comps e : ∀ w0 n pre info,
  vol_ok w → same_vol w w0 → resolves w N c comps e → (N + slot_count w ≤ f)%nat →
  pre ≠ [] → List.last pre 0 ≠ 0 →
  Z.of_nat (length pre + length (join_path comps)) < 65535 → (length (join_path comps) < n)%nat →
  ∃ w', same_vol w w' ∧
    walk junk f n nf fl (pre ++ join_path comps) (Z.of_nat (length pre)) (Z.of_nat (length pre)) c info w0 =
    Done (inr (GET_CLUSTER_FROM_ENTRY 32 e, e)) w'.
Proof.
  intros w0 n pre info Hw Hv0 Hres Hf. revert w0 n pre info Hv0.
  induction Hres as [c comp key cs e Hcomp Hch HN Hk Hlk|c comp key cs e comps e' Hcomp Hch HN Hk Hlk Hrest IH];
    intros w0 n pre info Hv0 Hpre Hlast Hlim Hn;
    pose proof (same_vol_ok _ _ Hv0 Hw) as Hw0; pose proof (slot_count_vol _ _ Hv0) as Hsc;
    pose proof (fat_chain_vol _ _ _ _ Hv0 Hch) as Hch0; rewrite <-(chain_slots_vol w w0 cs Hv0) in Hlk.
  - cbn [join_path] in *. rewrite length_app in Hlim, Hn. simpl in Hlim, Hn.
    replace n with (length comp + S (n - length comp - 1))%nat by lia.
    destruct (walk_component junk f nf fl w0 (n - length comp - 1) pre comp 0 [] c info key cs e N)
      as (w' & Hv & E); try done; [by left|lia|lia|].
    exists w'. split; [by transitivity w0|].
    rewrite E. destruct (n - length comp - 1)%nat as [|k] eqn:Ek; [lia|]. cbn [walk].
    replace (pre ++ comp ++ [0]) with ((pre ++ comp) ++ [0]) by (by rewrite <-app_assoc).
    rewrite lookup_middle_Z by (rewrite length_app; lia). done.
  - assert (join_path (comp :: comps) = comp ++ 92 :: join_path comps) as Ej by (by inversion Hrest).
    rewrite Ej in *. rewrite length_app in Hlim, Hn. simpl in Hlim, Hn.
    replace n with (length comp + S (n - length comp - 1))%nat by lia.
    destruct (walk_component junk f nf fl w0 (n - length comp - 1) pre comp 92 (join_path comps) c info key cs e N)
      as (w' & Hv & E); try done; [by right|lia|lia|]. rewrite E.
    assert (length (pre ++ comp ++ [92]) = (length pre + length comp + 1)%nat) as Hlen
      by (rewrite !length_app; simpl; lia).
    destruct (IH w' (n - length comp - 1)%nat (pre ++ comp ++ [92]) e) as (w2 & Hv2 & E2).
    { by transitivity w0. }
    { by destruct pre. }
    { by rewrite app_assoc, List.last_last. }
    { rewrite Hlen. lia. }
    { lia. }
    exists w2. split; [done|]. rewrite Hlen, <-!app_assoc in E2. simpl in E2.
    replace (Z.of_nat (length pre + length comp) + 1) with (Z.of_nat (length pre + length comp + 1)) by lia.
    exact E2.
Qed.
End Paths.

(** * Theorems *)

(** Path, chain and window together. *)
Lemma getFile_chain `{BlockDevice D} junk f (w : world D) N comps e cs readInOffset info :
  vol_ok w → resolves w N (root_of w) comps e →
  Z.of_nat (length (join_path comps)) < 60000 → (N + slot_count w ≤ f)%nat →
  Z.land (attributes e) FILE_DIRECTORY ≠ FILE_DIRECTORY →
  fat_chain w (GET_CLUSTER_FROM_ENTRY 32 e) cs → (length cs < f)%nat →
  1 ≤ readInOffset → 0 ≤ file_size e →
  512 * sectors_per_cluster (bootsect w) * readInOffset + file_size e ≤ 262144 →
  window w (readInOffset + Z.of_nat (length cs)) < 2 ^ 32 →
  ∃ w', getFile junk f true true (str "C:\" ++ join_path comps) readInOffset info w =
      Done (Got 0 (Some (window w readInOffset)) (Some e)) w' ∧ same_vol w w' ∧
    load_bytes (w_mem w') (window w readInOffset) (length (chain_data w cs)) = chain_data w cs.
Proof.
  intros Hw Hres Hlen Hf Hdir Hch Hcs Hoff Hsize Hfit Hwin.
  destruct (vol_fat _ Hw) as [Ht Hbps [Hs1 Hs2] Htot _ _].
  unfold getFile. cbn [negb orb]. rewrite (bind_done _ _ _ w w) by done. rewrite Ht. cbn [negb Z.eqb Pos.eqb].
  destruct (walk_path junk f (ret tt) (msg "Function getFile: An error occurred in directorySearch. Aborting...")
    w N (root_of w) comps e w (length (str "C:\" ++ join_path comps)) (str "C:\") info Hw)
    as (w1 & Hv1 & E1); try done; [simpl; lia|rewrite length_app; simpl; lia|].
  change (Z.of_nat (length (str "C:\"))) with 3 in E1. rewrite (bind_done _ _ _ _ _ E1).
  rewrite (proj2 (Z.eqb_neq _ _) Hdir). cbn [negb]. rewrite Hbps.
  set (spc := sectors_per_cluster (bootsect w)) in *.
  assert (readInOffset ≤ 512) as Hsmall by nia.
  assert (0 ≤ readInOffset * 512 * spc ≤ 262144) as Hprod by nia.
  rewrite (proj2 (Z.ltb_ge readInOffset 1)) by lia.
  rewrite (u32_id (readInOffset * 512)) by lia. rewrite (u32_id (readInOffset * 512 * spc)) by lia.
  rewrite u32_id by lia. rewrite (proj2 (Z.ltb_ge 262144 _)) by lia. cbn [orb].
  pose proof (fat_chain_valid _ _ _ Hch) as Hc. rewrite s32_id by lia.
  destruct (read_loop_chain junk readInOffset (GET_CLUSTER_FROM_ENTRY 32 e) cs f w1 0) as (w2 & E2 & Hv2 & Hdata & _).
  { by apply (same_vol_ok w). } { by apply (fat_chain_vol w). } 1-3: lia.
  { pose proof Hv1 as [(m & d & l & ->) _]. unfold window in Hwin. fold spc in Hwin.
    unfold DISK_READ_LOCATION in Hwin. nia. }
  { pose proof Hv1 as [(m & d & l & ->) _]. change (window (put_io m d l w)) with (window w). by rewrite Z.add_0_l. }
  rewrite (bind_done _ _ _ _ _ E2). cbn [Z.eqb]. exists w2.
  assert (window w1 = window w) as Hww by (by pose proof Hv1 as [(m & d & l & ->) _]).
  rewrite (chain_data_vol w w1) in Hdata by done. rewrite Hww, Z.add_0_l in Hdata.
  split_and!; [|by transitivity w1|done]. unfold ret. do 3 f_equal.
  unfold window. fold spc. rewrite u32_id; [lia|]. unfold DISK_READ_LOCATION. lia.
Qed.



(** * Writing *)

Section Writing.
Context {D : Type} `{BlockDevice D}.
Implicit Types w : world D.

Lemma put_next_run fuel junk w V a n :
  (blk_fuel ≤ fuel)%nat → vol_ok w → one_sector w → fat_rep w V → table_below w →
  2 ≤ a < total_clusters w →
  AbsFat.first_free V (Z.to_nat (total_clusters w - 2)) 2 = Some n →
  ∃ m d l, put_next fuel junk a w = Done (Some n) (put_io m d l w) ∧
    fat_rep (put_io m d l w) (AbsFat.write (AbsFat.write V n END_CLUSTER_32) a n) ∧
    mem_frame w (put_io m d l w) ∧ ∀ x, first_data_sector w ≤ x → blk d x = blk (w_dev w) x.
Proof.
  intros Hf Hw H1 HV Hb Ha Hn. pose proof (vol_fat _ Hw) as Hw32. pose proof (ok_total _ Hw32) as Ht.
  pose proof (first_free_spec V (Z.to_nat (total_clusters w - 2)) 2) as Hfree. rewrite Hn in Hfree.
  destruct Hfree as [Hnr _].
  destruct (allocateFreeFAT_window fuel junk w V n Hf Hw32 H1 HV Hn) as (m1 & d1 & l1 & E1 & _ & Hd1 & HV1 & Hm1).
  set (w1 := put_io m1 d1 l1 w) in *.
  assert (fat32_ok w1) as Hw1 by (by apply fat32_ok_io).
  destruct (FATWrite_rep fuel junk w1 _ a n Hf Hw1 H1 HV1 Ha) as (m2 & d2 & l2 & E2 & HV2 & Hd2).
  destruct (FATWrite_run fuel junk w1 a n Hf Hw1 Ha) as (m2' & d2' & l2' & E2' & _ & Hm2).
  rewrite E2 in E2'. injection E2' as Em Ed El. subst m2' d2' l2'.
  exists m2, d2, l2. split_and!.
  - unfold put_next. rewrite (bind_done _ _ _ n w1).
    + rewrite (bind_done _ _ _ 32 w1) by (unfold gets; by rewrite (ok_type _ Hw1)).
      assert (is_bad 32 n = false) as ->.
      { unfold is_bad. rewrite (proj2 (Z.eqb_neq n BAD_CLUSTER_32)) by (unfold BAD_CLUSTER_32; lia).
        by rewrite !andb_false_r. }
      by rewrite (bind_done _ _ _ _ _ E2).
    + exact E1.
  - exact HV2.
  - intros x Hx. cbn [w_mem put_io]. rewrite Hm2, load8_store_bytes, length_load_bytes, decide_False by lia.
    by apply Hm1.
  - unfold table_below in Hb. intros x Hx. rewrite Hd2.
    + apply Hd1. lia.
    + change (first_fat_sector w1) with (first_fat_sector w). lia.
Qed.

(** One round of the loop writes the data at [src] to the active cluster. *)
Lemma put_round fuel w src size c :
  (blk_fuel ≤ fuel)%nat → vol_ok w → one_sector w → 2 ≤ c < total_clusters w →
  0 ≤ size ≤ 513 → src + size ≤ DISK_READ_LOCATION ∨ DISK_READ_LOCATION + 1025 ≤ src →
  ∃ m d l, clusterWrite fuel src size 1 c w = Done 0 (put_io m d l w) ∧
    (∀ x, x < DISK_READ_LOCATION + 512 ∨ DISK_READ_LOCATION + 1025 ≤ x → load8 m x = load8 (w_mem w) x) ∧
    take (Z.to_nat size) (blk d (first_data_sector w + (c - 2))) =
      take 512 (load_bytes (w_mem w) src (Z.to_nat size)) ∧
    ∀ x, x ≠ first_data_sector w + (c - 2) → blk d x = blk (w_dev w) x.
Proof.
  intros Hf Hw H1 Hc Hsize Hsrc. destruct (clusterWrite_run fuel w src size 1 c Hf Hw Hc) as (d & l & E & Hd).
  unfold one_sector in H1. rewrite H1, Z.mul_1_r in Hd.
  assert (u32 (DISK_WRITE_LOCATION + byte_offset w 1) = DISK_READ_LOCATION + 512) as Ha
    by (unfold byte_offset; rewrite H1, (ok_bps _ (vol_fat _ Hw)); done).
  rewrite Ha in E, Hd. set (m := memcpy (w_mem w) (DISK_READ_LOCATION + 512) src size) in *.
  assert (∀ x, load8 m x = if decide (DISK_READ_LOCATION + 512 ≤ x < DISK_READ_LOCATION + 512 + size)
    then load8 (w_mem w) (src + (x - (DISK_READ_LOCATION + 512))) else load8 (w_mem w) x) as Hm
    by (intros x; unfold m; rewrite load8_memcpy by lia; done).
  exists m, d, l. split_and!; [done| | |].
  - intros x Hx. rewrite Hm, decide_False by lia. done.
  - rewrite Hd, decide_True, Z.sub_diag, Z.mul_0_r, Z.add_0_r by lia.
    apply list_eq. intros i. destruct (decide (i < Z.to_nat size ∧ i < 512)%nat) as [[Hi1 Hi2]|Hi].
    + rewrite !lookup_take_lt, !lookup_load_bytes by lia. rewrite Hm, decide_True by lia. do 2 f_equal. lia.
    + rewrite (lookup_ge_None_2 (take _ (load_bytes m _ _))), (lookup_ge_None_2 (take 512 _)); [done|..];
        rewrite length_take, length_load_bytes; lia.
  - intros x Hx. rewrite Hd, decide_False by lia. done.
Qed.

(** The loop up to the end of its first [clusterWrite]. *)
Lemma put_loop_step fuel junk k contents size left w c :
  let dataWrite := if 512 <=? left then 513 else left in
  let src := u32 (contents + u32 (size - left)) in
  (blk_fuel ≤ fuel)%nat → vol_ok w → one_sector w → 2 ≤ c < total_clusters w → 0 < left →
  src + dataWrite ≤ DISK_READ_LOCATION ∨ DISK_READ_LOCATION + 1025 ≤ src →
  ∃ m d l,
    put_loop fuel junk (S k) contents size left c w =
    (if u32 (left - dataWrite) =? 0 then ret 0 else
       let! next := put_next fuel junk c in
       match next with
       | None => ret (-1)
       | Some new_cluster => put_loop fuel junk k contents size (u32 (left - dataWrite)) new_cluster
       end) (put_io m d l w) ∧
    (∀ x, x < DISK_READ_LOCATION + 512 ∨ DISK_READ_LOCATION + 1025 ≤ x → load8 m x = load8 (w_mem w) x) ∧
    take (Z.to_nat dataWrite) (blk d (first_data_sector w + (c - 2))) =
      take 512 (load_bytes (w_mem w) src (Z.to_nat dataWrite)) ∧
    ∀ x, x ≠ first_data_sector w + (c - 2) → blk d x = blk (w_dev w) x.
Proof.
  intros dataWrite src Hf Hw H1 Hc Hleft Hsrc. cbn [put_loop]. rewrite (proj2 (Z.ltb_lt _ _) Hleft).
  assert (0 ≤ dataWrite ≤ 513) as Hdw by (subst dataWrite; case_if; zbool; lia).
  destruct (logs_then (d_printhex left 8 ;; d_printss [10]) (ret tt) w) as [l0 El]; [auto with logs|].
  assert (∀ A (k0 : M (world D) A), (d_printhex left 8 ;; d_printss [10] ;; k0) w = k0 (put_log l0 w)) as Hlog.
  { intros A k0. unfold bind, ret in El |- *. destruct (d_printhex left 8 w) as [[] ?|]; [|done].
    destruct (d_printss [10] _) as [[] ?|]; [|done]. by injection El as ->. }
  rewrite Hlog. set (w0 := put_log l0 w).
  assert (vol_ok w0) as Hw0 by (by apply (same_vol_ok w); [apply same_vol_log|]).
  rewrite (bind_done _ _ _ 512 w0) by (unfold gets; simpl; by rewrite (ok_bps _ (vol_fat _ Hw)), H1).
  cbv zeta. change (512 + 1) with 513. fold dataWrite. fold src.
  destruct (put_round fuel w0 src dataWrite c Hf Hw0 H1 Hc Hdw Hsrc) as (m & d & l & E & Hm & Hdat & Hd).
  rewrite (bind_done _ _ _ _ _ E). cbn [negb Z.eqb]. exists m, d, l. split_and!; try done.
  pose proof (u32_range (left - dataWrite)). case_if; [done|].
  by rewrite (proj2 (Z.ltb_ge _ 0)) by lia.
Qed.
End Writing.

(** A data sector written does not touch the table. *)
Lemma fat_rep_data `{BlockDevice D} (w : world D) V m d l c :
  table_below w → 2 ≤ c → fat_rep w V →
  (∀ x, x ≠ first_data_sector w + (c - 2) → blk d x = blk (w_dev w) x) → fat_rep (put_io m d l w) V.
Proof.
  intros Hb Hc HV Hd y Hy. change (total_clusters (put_io m d l w)) with (total_clusters w) in Hy.
  rewrite <-HV by done. unfold fat_view. simpl. rewrite Hd; [done|]. unfold table_below in Hb. lia.
Qed.

Lemma put_loop_short `{BlockDevice D} fuel junk k contents size (w : world D) c :
  (blk_fuel ≤ fuel)%nat → vol_ok w → one_sector w → 2 ≤ c < total_clusters w → 0 < size < 512 →
  0 ≤ contents < 2 ^ 32 → contents + size ≤ DISK_READ_LOCATION ∨ DISK_READ_LOCATION + 1025 ≤ contents →
  ∃ m d l, let w' := put_io m d l w in put_loop fuel junk (S k) contents size size c w = Done 0 w' ∧
    take (Z.to_nat size) (cluster_data w' c) = load_bytes (w_mem w) contents (Z.to_nat size) ∧
    ∀ x, x ≠ first_data_sector w + (c - 2) → blk (w_dev w') x = blk (w_dev w) x.
Proof.
  intros Hf Hw H1 Hc Hs Hcon Hsrc.
  assert ((512 <=? size) = false) as Hlt by (apply Z.leb_gt; lia).
  assert (u32 (contents + u32 (size - size)) = contents) as Hsrc'
    by (rewrite Z.sub_diag; change (u32 0) with 0; rewrite Z.add_0_r; by apply u32_id).
  destruct (put_loop_step fuel junk k contents size size w c Hf Hw H1 Hc) as (m & d & l & E & _ & Hdat & Hd);
    [lia|by rewrite Hlt, Hsrc'|].
  rewrite Hlt, Hsrc' in *. rewrite Z.sub_diag in E. exists m, d, l. cbv zeta. split_and!; [exact E| |exact Hd].
  rewrite one_sector_data by done. cbn [w_dev put_io]. change (first_data_sector (put_io m d l w)) with (first_data_sector w).
  rewrite Hdat. apply take_ge. rewrite length_load_bytes. lia.
Qed.

(** The data loop of [putFile] on a file shorter than a cluster: it returns 0
    after one round and the file's bytes are the first bytes of its cluster; no
    other sector changes. *)
Theorem putFile_short `{BlockDevice D} fuel junk k contents size (w : world D) c :
  (blk_fuel ≤ fuel)%nat → vol_ok w → one_sector w → 2 ≤ c < total_clusters w → 0 < size < 512 →
  0 ≤ contents < 2 ^ 32 → contents + size ≤ DISK_READ_LOCATION ∨ DISK_READ_LOCATION + 1025 ≤ contents →
  ∃ w', put_loop fuel junk (S k) contents size size c w = Done 0 w' ∧
    take (Z.to_nat size) (cluster_data w' c) = load_bytes (w_mem w) contents (Z.to_nat size) ∧
    ∀ x, x ≠ first_data_sector w + (c - 2) → blk (w_dev w') x = blk (w_dev w) x.
Proof.
  intros. destruct (put_loop_short fuel junk k contents size w c) as (m & d & l & E & Hc & Hd); try done.
  eexists. split_and!; [exact E|exact Hc|exact Hd].
Qed.

Lemma putFile_short_witness :
  ∃ w', put_loop 100 ∅ 1 0x1000 20 20 5 demo_dir = Done 0 w' ∧
    take 20 (cluster_data w' 5) = load_bytes (w_mem demo_dir) 0x1000 20.
Proof.
  destruct (putFile_short 100 ∅ 0 0x1000 20 demo_dir 5) as (w' & E & Hc & _).
  - simpl. unfold ata_fuel. simpl. lia.
  - apply demo_vol; lia.
  - done.
  - done.
  - lia.
  - lia.
  - left. vm_compute. discriminate.
  - exists w'. split; [exact E|exact Hc].
Defined.

(** [putFile] writes one byte too many to its count in every full round. A file
    of 514 to 1024 bytes on one-sector clusters ends up in two linked clusters,
    the first with bytes 0 to 511, the second starting with byte 513: byte 512
    is nowhere, although the call succeeds. *)
Theorem putFile_drops_byte `{BlockDevice D} fuel junk k contents size (w : world D) V c n :
  (blk_fuel ≤ fuel)%nat → vol_ok w → one_sector w → table_below w → fat_rep w V →
  2 ≤ c < total_clusters w → AbsFat.read V c ≠ 0 →
  AbsFat.first_free V (Z.to_nat (total_clusters w - 2)) 2 = Some n →
  514 ≤ size ≤ 1024 → 0 ≤ contents → contents + size ≤ DISK_READ_LOCATION →
  ∃ w', put_loop fuel junk (S (S k)) contents size size c w = Done 0 w' ∧
    fat_rep w' (AbsFat.write (AbsFat.write V n END_CLUSTER_32) c n) ∧
    cluster_data w' c = load_bytes (w_mem w) contents 512 ∧
    take (Z.to_nat (size - 513)) (cluster_data w' n) =
      load_bytes (w_mem w) (contents + 513) (Z.to_nat (size - 513)).
Proof.
  intros Hf Hw H1 Hb HV Hc Hused Hn Hs Hcon Hend. assert (DISK_READ_LOCATION = 262144) as HL by done.
  pose proof (first_free_spec V (Z.to_nat (total_clusters w - 2)) 2) as Hfree. rewrite Hn in Hfree.
  destruct Hfree as (Hnr & Hn0 & _). assert (n ≠ c) as Hnc by congruence.
  assert ((512 <=? size) = true) as Hge by (apply Z.leb_le; lia).
  assert (u32 (contents + u32 (size - size)) = contents) as Hsrc
    by (rewrite Z.sub_diag; change (u32 0) with 0; rewrite u32_id; lia).
  destruct (put_loop_step fuel junk (S k) contents size size w c Hf Hw H1 Hc) as (m1 & d1 & l1 & E1 & Hm1 & Hdat1 & Hd1);
    [lia|rewrite Hge, Hsrc; lia|].
  rewrite Hge, Hsrc in *. rewrite (u32_id (size - 513)), (proj2 (Z.eqb_neq _ 0)) in E1 by lia.
  set (w1 := put_io m1 d1 l1 w) in *.
  assert (vol_ok w1) as Hw1 by (destruct Hw as [Hw32 ? ?]; split; [exact (fat32_ok_io _ _ _ w Hw32)|done|done]).
  pose proof (ok_total _ (vol_fat _ Hw)) as Ht.
  assert (fat_rep w1 V) as HV1 by (apply (fat_rep_data w V m1 d1 l1 c); done || lia).
  destruct (put_next_run fuel junk w1 V c n Hf Hw1 H1 HV1 Hb Hc Hn) as (m2 & d2 & l2 & E2 & HV2 & Hm2 & Hd2).
  rewrite (bind_done _ _ _ _ _ E2) in E1. set (w2 := put_io m2 d2 l2 w1) in *.
  assert (vol_ok w2) as Hw2 by (destruct Hw1 as [Hw32 ? ?]; split; [exact (fat32_ok_io _ _ _ w1 Hw32)|done|done]).
  assert ((512 <=? size - 513) = false) as Hlt by (apply Z.leb_gt; lia).
  assert (u32 (contents + u32 (size - (size - 513))) = contents + 513) as Hsrc2
    by (replace (size - (size - 513)) with 513 by lia; change (u32 513) with 513; rewrite u32_id; lia).
  destruct (put_loop_step fuel junk k contents size (size - 513) w2 n Hf Hw2 H1) as (m3 & d3 & l3 & E3 & _ & Hdat3 & Hd3);
    [change (total_clusters w2) with (total_clusters w); lia|lia|rewrite Hlt, Hsrc2; lia|].
  rewrite Hlt, Hsrc2 in *. rewrite Z.sub_diag in E3. rewrite E3 in E1.
  assert (first_data_sector w2 = first_data_sector w ∧ first_data_sector w1 = first_data_sector w) as [Hfd2 Hfd1] by done.
  rewrite Hfd2, Hfd1 in *.
  exists (put_io m3 d3 l3 w2). split_and!; [exact E1| | |].
  - apply (fat_rep_data w2 _ m3 d3 l3 n); [done|lia|done|]. by rewrite Hfd2.
  - rewrite one_sector_data by done. cbn [w_dev put_io].
    change (first_data_sector (put_io m3 d3 l3 w2)) with (first_data_sector w).
    rewrite Hd3 by lia. cbn [w_dev put_io w2]. change (w_dev w2) with d2. rewrite Hd2 by lia. change (w_dev w1) with d1.
    rewrite take_ge in Hdat1 by (rewrite (proj1 (blk_ok _ _)); lia). rewrite Hdat1.
    change (Z.to_nat 513) with (512 + 1)%nat. rewrite load_bytes_app, take_app_length'; [done|].
    by rewrite length_load_bytes.
  - rewrite one_sector_data by done. cbn [w_dev put_io].
    change (first_data_sector (put_io m3 d3 l3 w2)) with (first_data_sector w). rewrite Hdat3.
    rewrite take_ge by (rewrite length_load_bytes; lia). apply load_bytes_ext. intros i Hi.
    rewrite (Hm2 (contents + 513 + i)) by lia. apply Hm1. lia.
Qed.

Lemma putFile_drops_byte_witness :
  ∃ w', put_loop 100 ∅ 2 0x1000 600 600 5 demo_dir = Done 0 w' ∧
    cluster_data w' 5 = load_bytes (w_mem demo_dir) 0x1000 512.
Proof.
  destruct (putFile_drops_byte 100 ∅ 0 0x1000 600 demo_dir (fat_view demo_dir) 5 3) as (w' & E & _ & Hc & _).
  - simpl. unfold ata_fuel. simpl. lia.
  - apply demo_vol; lia.
  - done.
  - vm_compute. reflexivity.
  - by intros ??.
  - done.
  - vm_compute. discriminate.
  - vm_compute. reflexivity.
  - lia.
  - lia.
  - vm_compute. discriminate.
  - exists w'. split; [exact E|exact Hc].
Defined.

(** A file of exactly one cluster: the byte count wraps, so that after the
    file is written the loop allocates a further cluster and goes on with
    2^32 - 1 bytes left. *)
Theorem putFile_exact_wraps `{BlockDevice D} fuel junk k contents (w : world D) c :
  (blk_fuel ≤ fuel)%nat → vol_ok w → one_sector w → 2 ≤ c < total_clusters w →
  0 ≤ contents → contents + 513 ≤ DISK_READ_LOCATION →
  ∃ w', put_loop fuel junk (S k) contents 512 512 c w =
    (let! next := put_next fuel junk c in
     match next with
     | None => ret (-1)
     | Some new_cluster => put_loop fuel junk k contents 512 (2 ^ 32 - 1) new_cluster
     end) w' ∧
    cluster_data w' c = load_bytes (w_mem w) contents 512.
Proof.
  intros Hf Hw H1 Hc Hcon Hend. assert (DISK_READ_LOCATION = 262144) as HL by done.
  assert (u32 (contents + u32 (512 - 512)) = contents) as Hsrc
    by (change (u32 (512 - 512)) with 0; rewrite u32_id; lia).
  destruct (put_loop_step fuel junk k contents 512 512 w c Hf Hw H1 Hc) as (m1 & d1 & l1 & E1 & _ & Hdat1 & _);
    [lia|rewrite Hsrc; simpl; lia|].
  rewrite Hsrc in *. cbn [Z.leb Z.compare Pos.compare Pos.compare_cont] in *.
  eexists. split; [exact E1|]. rewrite one_sector_data by done. cbn [w_dev put_io].
  change (first_data_sector (put_io m1 d1 l1 w)) with (first_data_sector w).
  rewrite take_ge in Hdat1 by (rewrite (proj1 (blk_ok _ _)); lia). rewrite Hdat1.
  change (Z.to_nat 513) with (512 + 1)%nat. rewrite load_bytes_app, take_app_length'; [done|].
  by rewrite length_load_bytes.
Qed.

Lemma putFile_exact_wraps_witness :
  ∃ w', put_loop 100 ∅ 1 0x1000 512 512 5 demo_dir =
    (let! next := put_next 100 ∅ 5 in
     match next with
     | None => ret (-1)
     | Some new_cluster => put_loop 100 ∅ 0 0x1000 512 (2 ^ 32 - 1) new_cluster
     end) w'.
Proof.
  destruct (putFile_exact_wraps 100 ∅ 0 0x1000 demo_dir 5) as (w' & E & _).
  - simpl. unfold ata_fuel. simpl. lia.
  - apply demo_vol; lia.
  - done.
  - done.
  - lia.
  - vm_compute. discriminate.
  - exists w'. exact E.
Defined.
