(* ===== verification/FatStore.v ===== *)
(** Storing a file and reading it back: [putFile] and [getFile] of
    src/kernel/arch/i386/FAT.c composed, from the path to the sectors, and the
    calls both refuse. *)
From S2P Require Import Prelude Machine CString LibC FatNames FatTypes AtaPio AtaSim FatTable FatDir FatFile.

(** * Names *)

Lemma strncmp_take n : ∀ a b, strncmp n a (take n b) = strncmp n a b.
Proof. induction n as [|n IH]; intros [|x a] [|y b]; cbn; try done. by rewrite IH. Qed.

Lemma strncmp_refl a : strncmp (length a) a a = Some 0.
Proof. induction a as [|x a IH]; cbn; [done|]. rewrite Z.eqb_refl, Z.sub_diag. by case_if. Qed.

Lemma name_differs_take e k : name_differs e (take 11 k) = name_differs e k.
Proof. unfold name_differs. by rewrite strncmp_take. Qed.

(** A look-up reads the first eleven bytes of the key only. *)
Lemma dir_lookup_take k es : dir_lookup (take 11 k) es = dir_lookup k es.
Proof.
  unfold dir_lookup. induction (live es) as [|e l IH]; [done|]. cbn [List.find].
  rewrite name_differs_take. by destruct (name_differs e k); cbn [negb].
Qed.

(** The names [putFile] handles: a base name of 1 to 8 characters and an extension
    of three, or none. *)
Record legal_name (name ext : list Z) : Prop := {
  legal_plain : Forall plain_char name ∧ Forall plain_char ext;
  legal_chars : Forall (λ b, fat_char_ok b = true) (name ++ ext);
  legal_base : (1 ≤ length name ≤ 8)%nat;
  legal_ext : length ext = 0%nat ∨ length ext = 3%nat;
}.

Lemma legal_key name ext out : legal_name name ext → length out = 13%nat →
  ∃ key, search_key (convertFromFATFormat (fat_name name ext) out) = Some key ∧ take 11 key = fat_name name ext.
Proof. intros [[] ? ? ?] ?. by apply name_key. Qed.

Lemma length_fat_name name ext : (length name ≤ 8)%nat → (length ext ≤ 3)%nat → length (fat_name name ext) = 11%nat.
Proof. intros. unfold fat_name. rewrite length_app, !length_pad; lia. Qed.

Lemma legal_length name ext out : legal_name name ext → length out = 13%nat →
  (11 ≤ length (convertFromFATFormat (fat_name name ext) out))%nat.
Proof.
  intros [[] ? ? He] ?. rewrite from_fat_ok by (done || lia). unfold dotted. rewrite length_app.
  unfold pad. rewrite length_app, length_replicate. lia.
Qed.

Lemma legal_first name ext e : legal_name name ext → file_name e = fat_name name ext →
  (at_ (file_name e) 0 =? ENTRY_END) = false ∧ name_differs e (file_name e) = false.
Proof.
  intros [[Hp _] _ Hb He] E. split.
  - rewrite E. destruct name as [|b name]; [cbn in Hb; lia|]. apply Forall_cons in Hp as [[Hb0 _] _].
    apply Z.eqb_neq. change (b ≠ 0). lia.
  - unfold name_differs. assert (length (file_name e) = 11%nat) as Hl by (rewrite E; apply length_fat_name; lia).
    rewrite <-Hl, strncmp_refl. by rewrite bool_decide_eq_true_2.
Qed.

(** * A directory with room *)

Section Store.
Context {D : Type} `{BlockDevice D}.
Implicit Types w : world D.

Lemma fat_next_read w V c :
  fat32_ok w → one_sector w → fat_rep w V → 0 ≤ c < total_clusters w → fat_next w c = AbsFat.read V c.
Proof.
  intros Hw H1 HV Hc. unfold fat_next. rewrite one_sector_bytes by done.
  rewrite (proj2 (Z.ltb_lt _ _)) by (apply Z.mod_pos_bound; lia). unfold AbsFat.read. by rewrite <-HV.
Qed.

(** Allocating a free cluster leaves every chain as it is. *)
Lemma fat_chain_alloc w w' V n c cs :
  fat32_ok w → one_sector w → fat_rep w V → (∃ m d l, w' = put_io m d l w) →
  fat_rep w' (AbsFat.write V n END_CLUSTER_32) → AbsFat.read V n = 0 → fat_chain w c cs → fat_chain w' c cs.
Proof.
  intros Hw H1 HV (m & d & l & ->) HV' Hn Hch.
  assert (∀ x, 2 ≤ x < total_clusters w → fat_next w x ≠ 0 → fat_next (put_io m d l w) x = fat_next w x) as Hnext.
  { intros x Hx Hne. rewrite (fat_next_read (put_io m d l w) _ x (fat32_ok_io _ _ _ _ Hw) H1 HV') by (simpl; lia).
    rewrite (fat_next_read w V x) in Hne |- * by (done || lia). unfold AbsFat.read, AbsFat.write in *.
    case_decide; [by subst|done]. }
  assert (0 < END_CLUSTER_32) as HE by done.
  induction Hch as [c Hc Hend|c cs Hc Hlt Hch IH].
  - apply chain_last; [done|]. rewrite Hnext by (done || lia). done.
  - pose proof (fat_chain_valid _ _ _ Hch) as Hv. apply chain_link; [done|rewrite Hnext by (done || lia); done|].
    by rewrite Hnext by (done || lia).
Qed.

(** [room w V c cs n]: the directory at [c], with the chain [cs], has its first slot
    free; [n] is the first free cluster of the table [V], with a number that a
    directory entry of this driver can hold. *)
Record room w (V : AbsFat.table) (c : Z) (cs : list Z) (n : Z) : Prop := {
  room_vol : vol_ok w;
  room_one : one_sector w;
  room_table : table_below w;
  room_rep : fat_rep w V;
  room_chain : fat_chain w c cs;
  room_slot : ∃ x post, dir_slots w c = x :: post ∧ slot_free x = true;
  room_free : AbsFat.first_free V (Z.to_nat (total_clusters w - 2)) 2 = Some n;
  room_low : n mod 65536 < 16;
}.

Lemma room_same w w' V c cs n : same_vol w w' → room w V c cs n → room w' V c cs n.
Proof.
  intros Hv [Hw H1 Hb HV Hch (x & post & Hs & Hx) Hn Hl]. split.
  - by apply (same_vol_ok w).
  - by pose proof Hv as [(m & d & l & ->) _].
  - by pose proof Hv as [(m & d & l & ->) _].
  - by apply (fat_rep_vol w).
  - by apply (fat_chain_vol w).
  - exists x, post. by rewrite (same_vol_slots w).
  - by pose proof Hv as [(m & d & l & ->) _].
  - done.
Qed.

(** [keeps_file w c cs key e]: the directory at [c] has the entry [e] under [key],
    in a sound volume. *)
Record keeps_file w (V : AbsFat.table) (c : Z) (cs key : list Z) (e : directory_entry) : Prop := {
  kf_vol : vol_ok w;
  kf_one : one_sector w;
  kf_rep : fat_rep w V;
  kf_chain : fat_chain w c cs;
  kf_found : dir_lookup key (chain_slots w cs) = Some e;
}.

Lemma keeps_file_same w w' V c cs key e : same_vol w w' → keeps_file w V c cs key e → keeps_file w' V c cs key e.
Proof.
  intros Hv [Hw H1 HV Hch Hl]. split; [by apply (same_vol_ok w)| |by apply (fat_rep_vol w)|by apply (fat_chain_vol w)|].
  - by pose proof Hv as [(m & d & l & ->) _].
  - by rewrite (chain_slots_vol w).
Qed.

Lemma first_slot w c bs rest : one_sector w →
  cluster_data w c = bs ++ rest → length bs = 32%nat → ∃ post, dir_slots w c = entry_of bs :: post.
Proof.
  intros H1 Hd Hl. unfold dir_slots, slots, slot_count. rewrite H1. change (Z.to_nat (16 * 1)) with 16%nat.
  cbn [seq map]. eexists. f_equal. rewrite Hd. unfold fbytes. cbn [Nat.mul]. rewrite drop_0.
  by rewrite take_app_le, take_ge by lia.
Qed.

Lemma room_cluster w V c cs n : room w V c cs n →
  2 ≤ c < total_clusters w ∧ 2 ≤ n < total_clusters w ∧ AbsFat.read V n = 0 ∧ n ≠ c.
Proof.
  intros [Hw H1 _ HV Hch _ Hn _]. pose proof (fat_chain_valid _ _ _ Hch) as Hc.
  pose proof (first_free_spec V (Z.to_nat (total_clusters w - 2)) 2) as Hfree. rewrite Hn in Hfree.
  destruct Hfree as (Hr & Hz & _). pose proof (ok_total _ (vol_fat _ Hw)).
  split_and!; [lia|lia|lia|lia|done|]. intros ->.
  rewrite <-(fat_next_read w V c (vol_fat _ Hw) H1 HV ltac:(lia)) in Hz.
  assert (0 < END_CLUSTER_32) by done.
  inversion Hch as [? ? Hend|? ? ? ? Hrest]; subst; [lia|].
  pose proof (fat_chain_valid _ _ _ Hrest) as Hv. lia.
Qed.

Lemma vol_ok_io m d l w : vol_ok w → vol_ok (put_io m d l w).
Proof. intros [Hw ? ?]. split; [exact (fat32_ok_io _ _ _ w Hw)|done|done]. Qed.

Lemma legal_format name ext : legal_name name ext → testIfFATFormat (fat_name name ext) = 0.
Proof.
  intros [[Hn He] Hok Hb Hx]. assert (∀ l, Forall plain_char l → bytes_ok l) as Hpb.
  { intros l Hl. eapply Forall_impl; [exact Hl|]. unfold byte_ok. intros b [? _]. lia. }
  assert (∀ l k, bytes_ok l → bytes_ok (pad k l)) as Hpad by (intros; unfold pad; apply Forall_app; split; [done|by apply Forall_replicate]).
  apply testIfFATFormat_zero.
  - apply Forall_app; split; by apply Hpad, Hpb.
  - apply Forall_take. apply Forall_app in Hok as [Hokn Hoke]. unfold fat_name, pad.
    rewrite !Forall_app. split_and!; try done; by apply Forall_replicate.
Qed.

Lemma stamped_ok e n : entry_ok e → entry_ok (set_cluster 32 n (stamp e)).
Proof.
  pose proof (u16_range (GET_ENTRY_HIGH_BITS 32 n)). pose proof (u16_range (GET_ENTRY_LOW_BITS 32 n)).
  intros [? (? & ? & _) _ _ ?]. split; cbn; unfold CurrentTime, CurrentDate, CurrentTimeTenths; try done.
Qed.

(** Adding the entry: the look-up finds it afterwards, in a sound volume. *)
Lemma add_keeps fuel junk f w V c cs n name ext e :
  (blk_fuel ≤ fuel)%nat → (slot_count w < f)%nat → room w V c cs n → legal_name name ext →
  file_name e = fat_name name ext → entry_ok e →
  let e' := set_cluster 32 n (stamp e) in
  ∃ m d l, let w' := put_io m d l w in
    directoryAdd fuel junk f c e w = Done (0, e') w' ∧ mem_frame w w' ∧
    keeps_file w' (AbsFat.write V n END_CLUSTER_32) c cs (fat_name name ext) e' ∧
    ∀ y, y ≠ first_data_sector w + (c - 2) → first_data_sector w ≤ y → blk d y = blk (w_dev w) y.
Proof.
  intros Hf Hfu Hroom Hleg Hname He e'. destruct (room_cluster _ _ _ _ _ Hroom) as (Hc & Hnr & Hz & Hne).
  destruct Hroom as [Hw H1 Hb HV Hch (x & post & Hs & Hx) Hn Hl].
  destruct (directoryAdd_run fuel junk w V c e f [] x post n) as (m & d & l & E & HV' & Hm & Hblk & Hd); try done.
  { rewrite Hname. by apply legal_format. }
  exists m, d, l. split_and!; [exact E|exact Hm| |exact Hd]. set (w' := put_io m d l w) in *.
  assert (fat_chain w' c cs) as Hch' by (apply (fat_chain_alloc w w' V n); try done; [apply Hw|by eexists _, _, _]).
  split; [by apply vol_ok_io|done|done|done|].
  destruct (first_slot w' c (entry_bytes e') (drop 32 (blk d (first_fat_sector w + 4 * n / 512))) H1) as [post' Hp].
  { rewrite one_sector_data by done. change (w_dev w') with d. change (first_data_sector w') with (first_data_sector w).
    rewrite Hblk. reflexivity. }
  { apply (length_entry_bytes e'). apply He. }
  rewrite entry_of_bytes in Hp by (by apply stamped_ok).
  assert (∃ cs', cs = c :: cs') as [cs' ->] by (inversion Hch; by eexists).
  destruct (legal_first name ext e' Hleg Hname) as [Hlive Hdiff]. change (file_name e') with (file_name e) in *. rewrite Hname in *.
  unfold chain_slots, dir_lookup. cbn [map concat]. rewrite Hp. cbn [app live]. change (file_name e') with (file_name e). rewrite Hname, Hlive.
  cbn [List.find]. by rewrite Hdiff.
Qed.

(** The clusters of a chain are in use. *)
Lemma chain_used w c cs : fat_chain w c cs → Forall (λ x, 2 ≤ x < total_clusters w ∧ fat_next w x ≠ 0) cs.
Proof.
  assert (0 < END_CLUSTER_32) as HE by done. induction 1 as [c Hc Hend|c cs Hc Hlt Hch IH]; constructor; try done.
  - split; [done|lia].
  - pose proof (fat_chain_valid _ _ _ Hch). split; [done|lia].
Qed.

(** Writing the data of a cluster off the directory leaves the file's entry. *)
Lemma keeps_file_data w V c cs key e m d l n :
  keeps_file w V c cs key e → table_below w → 2 ≤ n → Forall (λ x, x ≠ n) cs →
  (∀ x, x ≠ first_data_sector w + (n - 2) → blk d x = blk (w_dev w) x) →
  keeps_file (put_io m d l w) V c cs key e.
Proof.
  intros [Hw H1 HV Hch Hl] Hb Hn Hcs Hd. pose proof (fat_rep_data w V m d l n Hb Hn HV Hd) as HV'.
  pose proof (fat32_ok_io m d l w (vol_fat _ Hw)) as Hw'.
  assert (∀ x, 2 ≤ x < total_clusters w → fat_next (put_io m d l w) x = fat_next w x) as Hnext.
  { intros x Hx. rewrite (fat_next_read _ V x Hw' H1 HV') by (simpl; lia).
    by rewrite (fat_next_read w V x (vol_fat _ Hw) H1 HV) by lia. }
  split; [by apply vol_ok_io|done|done| |].
  - clear Hl Hcs. induction Hch as [c Hc Hend|c cs Hc Hlt Hch IH];
      [apply chain_last; [done|by rewrite Hnext]|apply chain_link; [done|by rewrite Hnext|by rewrite Hnext]].
  - rewrite <-Hl. f_equal. unfold chain_slots. f_equal. apply map_ext_in. intros x Hx%list_elem_of_In.
    rewrite Forall_forall in Hcs. pose proof (Hcs x Hx). unfold dir_slots. rewrite !one_sector_data by done.
    f_equal. cbn [w_dev put_io]. change (first_data_sector (put_io m d l w)) with (first_data_sector w).
    apply Hd. lia.
Qed.

(** [putFile] from the directory on, up to the loop that writes the data: the entry
    is added and found again. *)
Lemma put_in_finds fuel junk f w V c cs n name ext e stack contents :
  (blk_fuel ≤ fuel)%nat → (length cs + slot_count w < f)%nat → room w V c cs n → legal_name name ext →
  file_name e = fat_name name ext → entry_ok e → length stack = 13%nat →
  let e' := set_cluster 32 n (stamp e) in
  ∃ m d l, let w' := put_io m d l w in
    put_in fuel junk f stack contents c e w =
      (let! r := put_loop fuel junk f contents (file_size e) (file_size e) n in ret (r, e')) w' ∧
    mem_frame w w' ∧ keeps_file w' (AbsFat.write V n END_CLUSTER_32) c cs (fat_name name ext) e' ∧
    ∀ y, y ≠ first_data_sector w + (c - 2) → first_data_sector w ≤ y → blk d y = blk (w_dev w) y.
Proof.
  intros Hf Hfu Hroom Hleg Hname He Hst e'.
  assert (11 ≤ length (file_name e))%nat as Hl11 by (rewrite (proj2 (ok_name _ He)); lia).
  assert (slot_count w < f)%nat as Hfu' by lia.
  unfold put_in. do 3 print_step. rewrite ?put_log_log. match goal with |- context [bind _ _ (put_log ?l w)] => set (lg := l) end.
  destruct (add_keeps fuel junk f (put_log lg w) V c cs n name ext e Hf Hfu' (room_same _ _ _ _ _ _ (same_vol_log _ _) Hroom) Hleg Hname He)
    as (ma & da & la & E1 & Hm1 & Hk1 & Hd1).
  rewrite (bind_done _ _ _ _ _ E1). cbn [fst snd negb Z.eqb]. fold e'. set (w1 := put_io ma da la (put_log lg w)) in *.
  assert (11 ≤ length (convertFromFATFormat (file_name e') stack))%nat as Hl11'
    by (change (file_name e') with (file_name e); rewrite Hname; by apply legal_length).
  do 3 print_step. rewrite ?put_log_log. match goal with |- context [bind _ _ (put_log ?l w1)] => set (w2 := put_log l w1) end.
  assert (keeps_file w2 (AbsFat.write V n END_CLUSTER_32) c cs (fat_name name ext) e') as Hk2
    by (apply (keeps_file_same w1); [apply same_vol_log|done]).
  destruct (legal_key name ext stack Hleg Hst) as (key & Hkey & Hk11). rewrite <-Hname in Hkey.
  destruct (directorySearch_rep junk _ key c cs w2 f (kf_vol _ _ _ _ _ _ Hk2) Hkey (kf_chain _ _ _ _ _ _ Hk2))
    as (w3 & r & E3 & Hv3 & Hm3 & Hr).
  { change (slot_count w2) with (slot_count w). lia. }
  rewrite <-dir_lookup_take, Hk11, (kf_found _ _ _ _ _ _ Hk2) in Hr. destruct Hr as [i ->].
  change (file_name e') with (file_name e).
  rewrite (bind_done _ _ _ _ _ E3). cbn [fst snd negb Z.eqb]. pose proof (keeps_file_same _ _ _ _ _ _ _ Hv3 Hk2) as Hk3.
  erewrite (bind_done (gets fat_type)) by (unfold gets; rewrite (ok_type _ (vol_fat _ (kf_vol _ _ _ _ _ _ Hk3))); reflexivity).
  assert (GET_CLUSTER_FROM_ENTRY 32 e' = n) as ->.
  { destruct (room_cluster _ _ _ _ _ Hroom) as (_ & Hnr & _). pose proof (ok_total _ (vol_fat _ (room_vol _ _ _ _ _ Hroom))). apply set_cluster_loses; [lia|]. apply (room_low _ _ _ _ _ Hroom). }
  do 3 print_step. rewrite ?put_log_log. match goal with |- context [bind _ _ (put_log ?l w3)] => set (w4 := put_log l w3) end.
  change (file_size e') with (file_size e). pose proof Hv3 as [(mc & dc & lc & Ew3) Hd3].
  assert (∃ lz, w4 = put_io mc dc lz w) as [lz Ew4] by (unfold w4; rewrite Ew3; by eexists).
  rewrite Ew4. exists mc, dc, lz. rewrite Ew3 in Hm3, Hd3. split_and!; [reflexivity| | |].
  - intros x Hx. transitivity (load8 (w_mem w1) x); [|exact (Hm1 x Hx)]. apply Hm3. rewrite (kf_one _ _ _ _ _ _ Hk2). lia.
  - rewrite <-Ew4. apply (keeps_file_same w3); [apply same_vol_log|done].
  - intros y Hy1 Hy2. transitivity (blk da y); [|exact (Hd1 y Hy1 Hy2)]. apply Hd3.
Qed.

(** ... and with it: the contents are in the new cluster. *)
Lemma put_in_stores fuel junk f w V c cs n name ext e stack contents :
  (blk_fuel ≤ fuel)%nat → (length cs + slot_count w < f)%nat → room w V c cs n → legal_name name ext →
  file_name e = fat_name name ext → entry_ok e → length stack = 13%nat → 0 < file_size e < 512 →
  0 ≤ contents < 2 ^ 32 → contents + file_size e ≤ DISK_READ_LOCATION ∨ DISK_READ_LOCATION + 1025 ≤ contents →
  let e' := set_cluster 32 n (stamp e) in
  ∃ m d l, let w' := put_io m d l w in
    put_in fuel junk f stack contents c e w = Done (0, e') w' ∧
    keeps_file w' (AbsFat.write V n END_CLUSTER_32) c cs (fat_name name ext) e' ∧
    take (Z.to_nat (file_size e)) (cluster_data w' n) = load_bytes (w_mem w) contents (Z.to_nat (file_size e)) ∧
    ∀ y, y ≠ first_data_sector w + (c - 2) → y ≠ first_data_sector w + (n - 2) → first_data_sector w ≤ y →
      blk d y = blk (w_dev w) y.
Proof.
  intros Hf Hfu Hroom Hleg Hname He Hst Hsize Hcon Hsrc e'.
  destruct (room_cluster _ _ _ _ _ Hroom) as (Hc & Hnr & Hz & Hne).
  destruct (put_in_finds fuel junk f w V c cs n name ext e stack contents Hf Hfu Hroom Hleg Hname He Hst)
    as (m1 & d1 & l1 & E1 & Hm1 & Hk1 & Hd1). rewrite E1. set (w1 := put_io m1 d1 l1 w) in *.
  assert (∃ k, f = S k) as [k ->] by (exists (pred f); lia).
  destruct (put_loop_short fuel junk k contents (file_size e) w1 n Hf (kf_vol _ _ _ _ _ _ Hk1) (kf_one _ _ _ _ _ _ Hk1) Hnr Hsize Hcon Hsrc)
    as (m2 & d2 & l2 & E2 & Hdat & Hd2).
  rewrite (bind_done _ _ _ _ _ E2). exists m2, d2, l2. change (put_io m2 d2 l2 w1) with (put_io m2 d2 l2 w) in *.
  change (first_data_sector w1) with (first_data_sector w) in Hd2. cbn [w_dev put_io] in Hd2.
  split_and!; [done| | |].
  - apply (keeps_file_data w1 _ c cs _ e' m2 d2 l2 n Hk1); [apply Hroom|lia| |exact Hd2].
    destruct Hroom as [Hw H1 _ HV Hch _ _ _]. eapply Forall_impl; [exact (chain_used _ _ _ Hch)|].
    intros x [Hx Hu] ->. rewrite (fat_next_read w V n (vol_fat _ Hw) H1 HV) in Hu by lia. done.
  - rewrite Hdat. apply load_bytes_ext. intros i Hi. apply Hm1. lia.
  - intros y Hy1 Hy2 Hy3. rewrite Hd2 by done. by apply Hd1.
Qed.
End Store.

(** * Theorems *)

Lemma putFile_root `{BlockDevice D} fuel junk f (w : world D) V cs n name ext e info stack stack' contents :
  (length cs + slot_count w < f)%nat → room w V (root_of w) cs n → legal_name name ext →
  file_name e = fat_name name ext → length stack = 13%nat →
  dir_lookup (fat_name name ext) (chain_slots w cs) = None →
  ∃ w1, same_vol w w1 ∧ win_frame w w1 ∧
    putFile fuel junk f (str "C:\" ++ [0]) contents e info stack stack' w =
    put_in fuel junk f stack' contents (root_of w) e w1.
Proof.
  intros Hfu [Hw H1 _ _ Hch _ _ _] Hleg Hname Hst Hnew. unfold putFile. rewrite Hname, legal_format by done. cbn [negb Z.eqb].
  rewrite (bind_done _ _ _ w w) by done. rewrite (ok_type _ (vol_fat _ Hw)). cbn [negb Z.eqb Pos.eqb].
  change (strcmp (str "C:\" ++ [0]) (str "C:\" ++ [0])) with (Some 0). cbv beta iota.
  erewrite (bind_done (ret _)) by reflexivity. cbv beta iota.
  destruct (legal_key name ext stack Hleg Hst) as (key & Hkey & Hk11).
  destruct (directorySearch_rep junk _ key (root_of w) cs w f Hw Hkey Hch ltac:(lia)) as (w1 & r & E1 & Hv1 & Hm1 & Hr).
  rewrite <-dir_lookup_take, Hk11, Hnew in Hr. subst r. rewrite (bind_done _ _ _ _ _ E1). cbn [fst negb Z.eqb Pos.eqb].
  exists w1. split; [done|]. split; [done|]. reflexivity.
Qed.

(** Reading a file of one cluster that the root directory keeps. *)
Lemma getFile_kept `{BlockDevice D} junk f (w : world D) V cs name e comp key off info :
  keeps_file w V (root_of w) cs name e → fat_chain w (GET_CLUSTER_FROM_ENTRY 32 e) [GET_CLUSTER_FROM_ENTRY 32 e] →
  (length cs + slot_count w < f)%nat → Z.land (attributes e) FILE_DIRECTORY ≠ FILE_DIRECTORY →
  component comp → search_key (part_of comp) = Some key → take 11 key = name →
  0 ≤ file_size e ≤ 512 → 1 ≤ off → 512 * off + file_size e ≤ 262144 →
  ∃ w', getFile junk f true true (str "C:\" ++ join_path [comp]) off info w =
      Done (Got 0 (Some (window w off)) (Some e)) w' ∧ same_vol w w' ∧
    load_bytes (w_mem w') (window w off) (Z.to_nat (file_size e)) =
      take (Z.to_nat (file_size e)) (cluster_data w (GET_CLUSTER_FROM_ENTRY 32 e)).
Proof.
  intros [Hw H1 HV Hch Hfound] Hchn Hfu Hdir Hcomp Hkey Hk11 Hsize Hoff Hfit. set (n := GET_CLUSTER_FROM_ENTRY 32 e) in *.
  destruct (getFile_chain junk f w (length cs) [comp] e [n] off info) as (w' & E & Hv & Hl); try done.
  - eapply resolve_last; try done. by rewrite <-dir_lookup_take, Hk11.
  - cbn [join_path]. rewrite length_app. destruct Hcomp as [_ Hc]. simpl. lia.
  - lia.
  - cbn [length]. unfold slot_count in Hfu. rewrite H1 in Hfu. lia.
  - lia.
  - rewrite H1. lia.
  - unfold window, DISK_READ_LOCATION. rewrite H1. simpl. lia.
  - exists w'. split_and!; [exact E|exact Hv|]. unfold chain_data in Hl. cbn [map concat] in Hl. rewrite app_nil_r in Hl.
    rewrite <-Hl. rewrite (proj1 (length_cluster w n ltac:(rewrite H1; lia))), H1.
    replace (Z.to_nat (512 * 1)) with (Z.to_nat (file_size e) + (512 - Z.to_nat (file_size e)))%nat by lia.
    by rewrite load_bytes_app, take_app_length' by (by rewrite length_load_bytes).
Qed.


(** An empty root directory at cluster 2, and a text in memory. *)
Definition demo_empty : world sim :=
  put_mem (store_bytes ∅ 0x1000 (str "hello, disk"))
    (demo_world 1 100 {[ 33543752 := [0; 0; 0; 0; 0xFFFF; 0x0FFF] ]}).
Definition demo_meta : directory_entry := entry_of (demo_entry (str "HELLO   TXT") 0 11).

Lemma demo_room : room demo_empty (fat_view demo_empty) (root_of demo_empty) [2] 3.
Proof.
  split.
  - apply (same_vol_ok (demo_world 1 100 {[ 33543752 := [0; 0; 0; 0; 0xFFFF; 0x0FFF] ]})); [|apply demo_vol; lia].
    split; [by eexists _, _, _|done].
  - done.
  - done.
  - by intros ??.
  - change (root_of demo_empty) with 2. apply chain_last; [done|]. vm_compute. discriminate.
  - eexists _, _. split; [reflexivity|]. vm_compute. reflexivity.
  - vm_compute. reflexivity.
  - done.
Qed.


(** * Calls that are refused *)

Section Refused.
Context {D : Type} `{BlockDevice D}.
Implicit Types w : world D.

(** [misses w N c comps]: from the directory at [c] the path leads to a directory
    that does not have its next component. *)
Inductive misses w (N : nat) : Z → list (list Z) → Prop :=
| miss_here c comp key cs comps :
    component comp → fat_chain w c cs → (length cs ≤ N)%nat → search_key (part_of comp) = Some key →
    dir_lookup key (chain_slots w cs) = None → misses w N c (comp :: comps)
| miss_later c comp key cs e comps :
    component comp → fat_chain w c cs → (length cs ≤ N)%nat → search_key (part_of comp) = Some key →
    dir_lookup key (chain_slots w cs) = Some e → comps ≠ [] →
    misses w N (GET_CLUSTER_FROM_ENTRY 32 e) comps → misses w N c (comp :: comps).

Lemma misses_vol w w' N c comps : same_vol w w' → misses w N c comps → misses w' N c comps.
Proof.
  intros Hv. induction 1.
  - eapply miss_here; eauto using fat_chain_vol. by rewrite (chain_slots_vol w).
  - eapply miss_later; eauto using fat_chain_vol. by rewrite (chain_slots_vol w).
Qed.

Lemma join_path_cons comp comps : ∃ t post, join_path (comp :: comps) = comp ++ t :: post ∧ (t = 0 ∨ t = 92) ∧
  (comps ≠ [] → t = 92 ∧ post = join_path comps).
Proof.
  destruct comps as [|comp' comps]; [exists 0, []|exists 92, (join_path (comp' :: comps))]; split_and!; auto; done.
Qed.

Lemma walk_misses junk f nf fl w N c comps : ∀ w0 n pre info,
  logs nf → vol_ok w → same_vol w w0 → misses w N c comps → (N + slot_count w ≤ f)%nat →
  pre ≠ [] → List.last pre 0 ≠ 0 →
  Z.of_nat (length pre + length (join_path comps)) < 65535 → (length (join_path comps) < n)%nat →
  ∃ w', same_vol w w' ∧
    walk junk f n nf fl (pre ++ join_path comps) (Z.of_nat (length pre)) (Z.of_nat (length pre)) c info w0 =
    Done (inl (-2)) w'.
Proof.
  intros w0 n pre info Hnf Hw Hv0 Hm Hf. revert w0 n pre info Hv0.
  induction Hm as [c comp key cs comps Hcomp Hch HN Hk Hlk|c comp key cs e comps Hcomp Hch HN Hk Hlk Hne Hm IH];
    intros w0 n pre info Hv0 Hpre Hlast Hlim Hn;
    pose proof (same_vol_ok _ _ Hv0 Hw) as Hw0; pose proof (slot_count_vol _ _ Hv0) as Hsc;
    pose proof (fat_chain_vol _ _ _ _ Hv0 Hch) as Hch0; rewrite <-(chain_slots_vol w w0 cs Hv0) in Hlk;
    destruct (join_path_cons comp comps) as (t & post & Ej & Ht & Hpost); rewrite Ej in *;
    rewrite length_app in Hlim, Hn; simpl in Hlim, Hn;
    replace n with (length comp + S (n - length comp - 1))%nat by lia.
  - rewrite walk_to_search by (done || lia).
    destruct (directorySearch_rep junk (part_of comp) key c cs w0 f Hw0 Hk Hch0 ltac:(lia)) as (w1 & r & Es & Hv & _ & Hr).
    rewrite Hlk in Hr. subst r. rewrite (bind_done _ _ _ _ _ Es). cbn [fst Z.eqb Pos.eqb].
    destruct (logs_then nf (ret (inl (-2)) : M (world D) (Z + (Z * directory_entry))) w1 Hnf) as [l ->].
    exists (put_log l w1). split; [|done]. transitivity w0; [done|]. transitivity w1; [done|]. apply same_vol_log.
  - destruct (Hpost Hne) as [-> ->].
    destruct (walk_component junk f nf fl w0 (n - length comp - 1) pre comp 92 (join_path comps) c info key cs e N)
      as (w1 & Hv & E); try done; [lia|lia|]. rewrite E.
    assert (length (pre ++ comp ++ [92]) = (length pre + length comp + 1)%nat) as Hlen by (rewrite !length_app; simpl; lia).
    destruct (IH w1 (n - length comp - 1)%nat (pre ++ comp ++ [92]) e) as (w2 & Hv2 & E2).
    { by transitivity w0. } { by destruct pre. } { by rewrite app_assoc, List.last_last. } { rewrite Hlen. lia. } { lia. }
    exists w2. split; [done|]. rewrite Hlen, <-!app_assoc in E2. simpl in E2.
    replace (Z.of_nat (length pre + length comp) + 1) with (Z.of_nat (length pre + length comp + 1)) by lia. exact E2.
Qed.
End Refused.



(** The directory a path of [putFile] names: the root for the bare drive, or what
    the components lead to; and what [file_info] then holds. *)
Definition reaches `{BlockDevice D} (w : world D) (N : nat) (info : directory_entry) (comps : list (list Z))
    (c : Z) (found : directory_entry) : Prop :=
  (comps = [] ∧ c = root_of w ∧ found = root_info 32 (root_of w) info) ∨
  (∃ x comp comps', comps = (x :: comp) :: comps') ∧ resolves w N (root_of w) comps found ∧
    c = GET_CLUSTER_FROM_ENTRY 32 found.

(** A path with a component is not that of the root. *)
Lemma strcmp_root x comp comps :
  x ≠ 0 → ∃ v, strcmp (str "C:\" ++ join_path ((x :: comp) :: comps)) (str "C:\" ++ [0]) = Some v ∧ v ≠ 0.
Proof.
  intros Hx. destruct (join_path_cons (x :: comp) comps) as (t & post & -> & _). exists (x - 0).
  split; [|lia]. cbn. rewrite (proj2 (Z.eqb_neq _ _) Hx). done.
Qed.

Section PutPath.
Context {D : Type} `{BlockDevice D}.
Implicit Types w : world D.

(** [putFile] once the directory is found: the look-up of the name, and the rest. *)
Definition put_found fuel junk f contents stack stack' (e : directory_entry) (c : Z) (info : directory_entry) :
    M (world D) (Z * directory_entry) :=
  let! s := directorySearch junk f (convertFromFATFormat (file_name e) stack) c in
  if s.1 =? -1 then
    msg "Function putFile: directorySearch encountered an error. Aborting..." ;; ret (-1, e)
  else if negb (s.1 =? -2) then
    msg "Function putFile: a file matching the name given already exists. Aborting..." ;; ret (-3, e)
  else if Z.land (attributes info) FILE_DIRECTORY =? FILE_DIRECTORY then put_in fuel junk f stack' contents c e
  else msg "Function putFile: Invalid path!" ;; ret (-2, e).

Lemma putFile_reaches fuel junk f w N comps c found e info stack stack' contents :
  vol_ok w → testIfFATFormat (file_name e) = 0 → reaches w N info comps c found →
  Z.of_nat (length (join_path comps)) < 60000 → (N + slot_count w ≤ f)%nat →
  ∃ w1, same_vol w w1 ∧
    putFile fuel junk f (str "C:\" ++ join_path comps) contents e info stack stack' w =
    put_found fuel junk f contents stack stack' e c found w1.
Proof.
  intros Hw Hname Hr Hlen Hf. unfold putFile. rewrite Hname. cbn [negb Z.eqb].
  rewrite (bind_done _ _ _ w w) by done. rewrite (ok_type _ (vol_fat _ Hw)). cbn [negb Z.eqb Pos.eqb].
  destruct Hr as [(-> & -> & ->)|((x & comp & comps' & ->) & Hres & ->)].
  - change (strcmp (str "C:\" ++ join_path []) (str "C:\" ++ [0])) with (Some 0). cbv beta iota.
    erewrite (bind_done (ret _)) by reflexivity. by exists w.
  - assert (x ≠ 0) as Hx by (inversion Hres as [? ? ? ? ? [Hc _]|? ? ? ? ? ? ? [Hc _]]; by apply Forall_cons in Hc as [[? _] _]).
    destruct (strcmp_root x comp comps' Hx) as (v & -> & Hv).
    destruct (walk_path junk f (msg "Function putFile: No matching directory found. Aborting...")
      (msg "Function putFile: An error occurred in directorySearch. Aborting...")
      w N (root_of w) ((x :: comp) :: comps') found w (length (str "C:\" ++ join_path ((x :: comp) :: comps'))) (str "C:\") info Hw)
      as (w1 & Hv1 & E1); try done; [change (length (str "C:\")) with 3%nat; lia|rewrite length_app; change (length (str "C:\")) with 3%nat; lia|].
    exists w1. split; [done|]. change (Z.of_nat (length (str "C:\"))) with 3 in E1.
    destruct v as [|v|v]; [done|..]; by rewrite (bind_done _ _ _ _ _ E1).
Qed.

Lemma putFile_misses fuel junk f w N x comp comps e info stack stack' contents :
  vol_ok w → testIfFATFormat (file_name e) = 0 → misses w N (root_of w) ((x :: comp) :: comps) →
  Z.of_nat (length (join_path ((x :: comp) :: comps))) < 60000 → (N + slot_count w ≤ f)%nat →
  ∃ w1, same_vol w w1 ∧
    putFile fuel junk f (str "C:\" ++ join_path ((x :: comp) :: comps)) contents e info stack stack' w = Done (-2, e) w1.
Proof.
  intros Hw Hname Hm Hlen Hf. unfold putFile. rewrite Hname. cbn [negb Z.eqb].
  rewrite (bind_done _ _ _ w w) by done. rewrite (ok_type _ (vol_fat _ Hw)). cbn [negb Z.eqb Pos.eqb].
  assert (x ≠ 0) as Hx by (inversion Hm as [? ? ? ? ? [Hc _]|? ? ? ? ? ? [Hc _]]; by apply Forall_cons in Hc as [[? _] _]).
  destruct (strcmp_root x comp comps Hx) as (v & -> & Hv).
  destruct (walk_misses junk f (msg "Function putFile: No matching directory found. Aborting...")
    (msg "Function putFile: An error occurred in directorySearch. Aborting...")
    w N (root_of w) ((x :: comp) :: comps) w (length (str "C:\" ++ join_path ((x :: comp) :: comps))) (str "C:\") info)
    as (w1 & Hv1 & E1); try done;
    [apply logs_printss|change (length (str "C:\")) with 3%nat; lia|rewrite length_app; change (length (str "C:\")) with 3%nat; lia|].
  exists w1. split; [done|]. change (Z.of_nat (length (str "C:\"))) with 3 in E1.
  destruct v as [|v|v]; [done|..]; by rewrite (bind_done _ _ _ _ _ E1).
Qed.
End PutPath.


