(* ===== verification/Terminal.v ===== *)
(** The text console of src/kernel/arch/i386/tty.c over src/kernel/arch/i386/vga.h:
    character cells, the writing position, scrolling and the hardware cursor.

    Video memory is the part of physical memory at 0xB8000; [terminal_buffer] is
    an address, as in the code. The delay loops have no effect and are left out.
    [con_ok] is the invariant of the console: the position is on the screen and
    the buffer is video memory. *)
From S2P Require Import Prelude Machine CString LibC.

(** * vga.h *)

Definition VGA_COLOR_BLACK : Z := 0.
Definition VGA_COLOR_BLUE : Z := 1.
Definition VGA_COLOR_GREEN : Z := 2.
Definition VGA_COLOR_CYAN : Z := 3.
Definition VGA_COLOR_RED : Z := 4.
Definition VGA_COLOR_MAGENTA : Z := 5.
Definition VGA_COLOR_BROWN : Z := 6.
Definition VGA_COLOR_LIGHT_GREY : Z := 7.
Definition VGA_COLOR_DARK_GREY : Z := 8.
Definition VGA_COLOR_LIGHT_BLUE : Z := 9.
Definition VGA_COLOR_LIGHT_GREEN : Z := 10.
Definition VGA_COLOR_LIGHT_CYAN : Z := 11.
Definition VGA_COLOR_LIGHT_RED : Z := 12.
Definition VGA_COLOR_LIGHT_MAGENTA : Z := 13.
Definition VGA_COLOR_LIGHT_BROWN : Z := 14.
Definition VGA_COLOR_WHITE : Z := 15.

Definition vga_entry_color (fg bg : Z) : Z := u8 (Z.lor fg (bg ≪ 4)).
Definition vga_entry (uc color : Z) : Z := u16 (Z.lor (u8 uc) (color ≪ 8)).

Definition VGA_WIDTH : Z := 80.
Definition VGA_HEIGHT : Z := 25.
Definition VGA_MEMORY : Z := 0xB8000.

(** * State *)

Record con (D : Type) := Con {
  c_mem : memory;
  c_dev : D;
  terminal_row : Z;
  terminal_column : Z;
  terminal_color : Z;
  terminal_buffer : Z;
  havebeeninitbefore : bool;
  waitwrite : bool;
}.
Arguments Con {D}.
Arguments c_mem {D} _.
Arguments c_dev {D} _.
Arguments terminal_row {D} _.
Arguments terminal_column {D} _.
Arguments terminal_color {D} _.
Arguments terminal_buffer {D} _.
Arguments havebeeninitbefore {D} _.
Arguments waitwrite {D} _.

Section Terminal.
Context {D : Type} `{PortIO D}.
Implicit Types t : con D.
Abbreviation T := (con D).

Definition set_mem (m : memory) t : T :=
  Con m (c_dev t) (terminal_row t) (terminal_column t) (terminal_color t) (terminal_buffer t)
    (havebeeninitbefore t) (waitwrite t).
Definition set_dev (d : D) t : T :=
  Con (c_mem t) d (terminal_row t) (terminal_column t) (terminal_color t) (terminal_buffer t)
    (havebeeninitbefore t) (waitwrite t).
Definition set_row (r : Z) t : T :=
  Con (c_mem t) (c_dev t) (u32 r) (terminal_column t) (terminal_color t) (terminal_buffer t)
    (havebeeninitbefore t) (waitwrite t).
Definition set_column (c : Z) t : T :=
  Con (c_mem t) (c_dev t) (terminal_row t) (u32 c) (terminal_color t) (terminal_buffer t)
    (havebeeninitbefore t) (waitwrite t).
Definition set_color (c : Z) t : T :=
  Con (c_mem t) (c_dev t) (terminal_row t) (terminal_column t) (u8 c) (terminal_buffer t)
    (havebeeninitbefore t) (waitwrite t).
Definition set_buffer (b : Z) t : T :=
  Con (c_mem t) (c_dev t) (terminal_row t) (terminal_column t) (terminal_color t) (u32 b)
    (havebeeninitbefore t) (waitwrite t).
Definition set_init (b : bool) t : T :=
  Con (c_mem t) (c_dev t) (terminal_row t) (terminal_column t) (terminal_color t) (terminal_buffer t)
    b (waitwrite t).
Definition set_wait (b : bool) t : T :=
  Con (c_mem t) (c_dev t) (terminal_row t) (terminal_column t) (terminal_color t) (terminal_buffer t)
    (havebeeninitbefore t) b.

Definition on_port {A} : M D A → M T A := zoom c_dev set_dev.

(** * Operations *)

(** [terminal_buffer[index] = v] *)
Definition put_cell (index v : Z) : M T unit :=
  modify (λ t, set_mem (store16 (c_mem t) (u32 (terminal_buffer t + 2 * index)) v) t).

(** The double loop that writes a blank of the current colour to every cell. *)
Definition fill_screen : M T unit :=
  for_n (Z.to_nat VGA_HEIGHT) 0 (λ y,
    for_n (Z.to_nat VGA_WIDTH) 0 (λ x,
      let! color := gets terminal_color in
      put_cell (y * VGA_WIDTH + x) (vga_entry 32 color))).

(** The last test compares with an address the pointer was not set to; [panic]
    would not return from it. *)
Definition terminal_initialize : M T unit :=
  modify (set_row 1) ;;
  let! init := gets havebeeninitbefore in
  (when! negb init do modify (set_color (vga_entry_color VGA_COLOR_BLACK VGA_COLOR_LIGHT_GREY))) ;;
  modify (set_buffer VGA_MEMORY) ;;
  fill_screen ;;
  modify (set_color (vga_entry_color VGA_COLOR_WHITE VGA_COLOR_BLACK)) ;;
  modify (set_buffer VGA_MEMORY) ;;
  fill_screen ;;
  modify (set_init true) ;;
  let! b := gets terminal_buffer in
  when! b =? 0xB8005 do (modify (set_buffer VGA_MEMORY) ;; raise Halted).

Definition terminal_setcolor (color : Z) : M T unit := modify (set_color color).

Definition update_cursor (x y : Z) : M T unit :=
  let pos := u16 (y * VGA_WIDTH + x) in
  on_port (outb 0x3D4 0x0F) ;;
  on_port (outb 0x3D5 (u8 (Z.land pos 0xFF))) ;;
  on_port (outb 0x3D4 0x0E) ;;
  on_port (outb 0x3D5 (u8 (Z.land (pos ≫ 8) 0xFF))).

Definition get_cursor_position : M T Z :=
  on_port (outb 0x3D4 0x0F) ;;
  let! lo := on_port (inb 0x3D5) in
  on_port (outb 0x3D4 0x0E) ;;
  let! hi := on_port (inb 0x3D5) in
  ret (u16 (Z.lor (Z.lor 0 lo) (hi ≪ 8))).

Definition enable_cursor (cursor_start cursor_end : Z) : M T unit :=
  on_port (outb 0x3D4 0x0A) ;;
  let! a := on_port (inb 0x3D5) in
  on_port (outb 0x3D5 (Z.lor (Z.land a 0xC0) cursor_start)) ;;
  on_port (outb 0x3D4 0x0B) ;;
  let! b := on_port (inb 0x3D5) in
  on_port (outb 0x3D5 (Z.lor (Z.land b 0xE0) cursor_end)).

Definition disable_cursor : M T unit :=
  on_port (outb 0x3D4 0x0A) ;; on_port (outb 0x3D5 0x20).

Definition terminal_putentryat (c color x y : Z) : M T unit :=
  put_cell (u32 (y * VGA_WIDTH + x)) (vga_entry c color) ;;
  update_cursor (x + 1) y.

Definition terminal_scroll : M T unit := terminal_initialize.

Definition terminal_putchar (c : Z) : M T unit :=
  let! row := gets terminal_row in
  (when! row =? VGA_HEIGHT - 1 do terminal_scroll) ;;
  let! t := gets id in
  terminal_putentryat c (terminal_color t) (terminal_column t) (terminal_row t) ;;
  let column := u32 (terminal_column t + 1) in
  modify (set_column column) ;;
  when! column =? VGA_WIDTH do
    (modify (set_column 0) ;;
     let row := u32 (terminal_row t + 1) in
     modify (set_row row) ;;
     when! row =? VGA_HEIGHT do modify (set_row 0)).

(** [data] is the bytes [size] counts. *)
Fixpoint terminal_write (data : list Z) : M T unit :=
  match data with
  | [] => ret tt
  | c :: data' => terminal_putchar c ;; terminal_write data'
  end.

(** [strlen] stops at the terminator. *)
Definition terminal_writestring (data : list Z) : M T unit := terminal_write (cstr data).

Definition terminal_newline : M T unit :=
  let! row := gets terminal_row in
  modify (set_row (row + 1)) ;;
  modify (set_column 0) ;;
  let! row := gets terminal_row in
  when! row =? VGA_HEIGHT do
    (modify (set_buffer VGA_MEMORY) ;;
     fill_screen ;;
     modify (set_row 0) ;;
     modify (set_column 0)).
End Terminal.

(** * The screen *)

Section Screen.
Context {D : Type} `{PortIO D}.
Implicit Types t : con D.

Definition con_ok t : Prop :=
  0 ≤ terminal_row t < VGA_HEIGHT ∧ 0 ≤ terminal_column t < VGA_WIDTH ∧
  terminal_buffer t = VGA_MEMORY ∧ 0 ≤ terminal_color t < 256.

(** The word in cell [i], and the cell of a position. *)
Definition cell t (i : Z) : Z := load16 (c_mem t) (VGA_MEMORY + 2 * i).
Definition cell_at (row column : Z) : Z := row * VGA_WIDTH + column.

(** Memory outside the 4000 bytes of the screen is untouched. *)
Definition off_screen_same t t' : Prop :=
  ∀ a, a < VGA_MEMORY ∨ VGA_MEMORY + 4000 ≤ a → load8 (c_mem t') a = load8 (c_mem t) a.

#[global] Instance off_screen_preorder : PreOrder off_screen_same.
Proof. split; [by intros t a|]. intros t1 t2 t3 H12 H23 a Ha. by rewrite H23, H12. Qed.
End Screen.

Lemma vga_entry_bytes uc color :
  byte_ok color → bytes16 (vga_entry uc color) = [u8 uc; color].
Proof.
  intros Hc. unfold byte_ok in Hc. unfold vga_entry. pose proof (u8_range uc) as Hu. set (x := u8 uc) in *.
  rewrite Z.shiftl_mul_pow2 by done. change (2 ^ 8) with 256.
  assert (Z.lor x (color * 256) = x + 256 * color) as ->.
  { clearbody x. assert (byte_ok x) as Hx by done. clear Hu. revert Hx.
    enough (Forall (λ x, Z.lor x (color * 256) = x + 256 * color) (seqZ 0 256)) as HF.
    { intros Hx. rewrite Forall_forall in HF. apply HF, elem_of_seqZ. unfold byte_ok in Hx. lia. }
    assert (byte_ok color) as Hb by done. clear Hc. by_bytes color. }
  rewrite u16_id by lia. unfold bytes16. repeat f_equal; lia.
Qed.

(** What a run of blanks over cells [lo] to [hi - 1] leaves. *)
Definition blanked (color lo hi : Z) (m m' : memory) : Prop :=
  ∀ a, load8 m' a =
    if decide (VGA_MEMORY + 2 * lo ≤ a < VGA_MEMORY + 2 * hi)
    then (if (a - VGA_MEMORY) mod 2 =? 0 then 32 else color) else load8 m a.

Lemma blanked_join color lo mid hi m1 m2 m3 :
  lo ≤ mid ≤ hi → blanked color lo mid m1 m2 → blanked color mid hi m2 m3 → blanked color lo hi m1 m3.
Proof.
  intros Hm H12 H23 a. rewrite H23, H12. repeat case_decide; try lia; done.
Qed.

Section Fill.
Context {D : Type} `{PortIO D}.
Implicit Types t : con D.

Lemma put_cell_ok t i v :
  terminal_buffer t = VGA_MEMORY → 0 ≤ i < 2000 →
  put_cell i v t = Done tt (set_mem (store16 (c_mem t) (VGA_MEMORY + 2 * i) v) t).
Proof.
  intros Hb Hi. unfold put_cell, modify. rewrite Hb, u32_id by (unfold VGA_MEMORY; lia). done.
Qed.

Lemma blank_cell color m i : byte_ok color →
  blanked color i (i + 1) m (store16 m (VGA_MEMORY + 2 * i) (vga_entry 32 color)).
Proof.
  intros Hc a. unfold store16. rewrite load8_store_bytes, vga_entry_bytes by done. cbn [length].
  repeat case_decide; try lia.
  destruct (decide (a = VGA_MEMORY + 2 * i)) as [->|].
  - rewrite Z.sub_diag. replace (VGA_MEMORY + 2 * i - VGA_MEMORY) with (i * 2) by lia.
    rewrite Z.mod_mul by done. done.
  - replace (a - (VGA_MEMORY + 2 * i)) with 1 by lia.
    replace (a - VGA_MEMORY) with (1 + i * 2) by lia. rewrite Z.mod_add by done. simpl.
    by apply u8_id.
Qed.

Lemma fill_row n : ∀ t y x,
  terminal_buffer t = VGA_MEMORY → byte_ok (terminal_color t) → 0 ≤ x → 0 ≤ y →
  y * VGA_WIDTH + x + Z.of_nat n ≤ 2000 →
  ∃ m', for_n n x (λ x, let! color := gets terminal_color in
                        put_cell (y * VGA_WIDTH + x) (vga_entry 32 color)) t = Done tt (set_mem m' t) ∧
    blanked (terminal_color t) (y * VGA_WIDTH + x) (y * VGA_WIDTH + x + Z.of_nat n) (c_mem t) m'.
Proof.
  induction n as [|n IH]; intros t y x Hb Hc Hx Hy Hlim.
  { exists (c_mem t). split; [by destruct t|]. intros a. rewrite decide_False by lia. done. }
  cbn [for_n]. set (i := y * VGA_WIDTH + x) in *.
  rewrite (bind_done _ _ t tt (set_mem (store16 (c_mem t) (VGA_MEMORY + 2 * i) (vga_entry 32 (terminal_color t))) t)).
  2: { rewrite (bind_done _ _ _ (terminal_color t) t) by done. apply put_cell_ok; [done|]. unfold i, VGA_WIDTH in *. lia. }
  destruct (IH (set_mem (store16 (c_mem t) (VGA_MEMORY + 2 * i) (vga_entry 32 (terminal_color t))) t) y (x + 1))
    as (m' & E & Hm); [done|done|lia|done|lia|].
  exists m'. split; [exact E|]. cbn [c_mem set_mem terminal_color] in Hm.
  apply (blanked_join _ i (i + 1) _ _ (store16 (c_mem t) (VGA_MEMORY + 2 * i) (vga_entry 32 (terminal_color t)))); [lia| |].
  - by apply blank_cell.
  - replace (i + 1) with (y * VGA_WIDTH + (x + 1)) by (unfold i; lia).
    replace (i + Z.of_nat (S n)) with (y * VGA_WIDTH + (x + 1) + Z.of_nat n) by (unfold i; lia). exact Hm.
Qed.

Lemma fill_rows n : ∀ t y,
  terminal_buffer t = VGA_MEMORY → byte_ok (terminal_color t) → 0 ≤ y → (y + Z.of_nat n) * VGA_WIDTH ≤ 2000 →
  ∃ m', for_n n y (λ y, for_n (Z.to_nat VGA_WIDTH) 0 (λ x,
          let! color := gets terminal_color in
          put_cell (y * VGA_WIDTH + x) (vga_entry 32 color))) t = Done tt (set_mem m' t) ∧
    blanked (terminal_color t) (y * VGA_WIDTH) ((y + Z.of_nat n) * VGA_WIDTH) (c_mem t) m'.
Proof.
  induction n as [|n IH]; intros t y Hb Hc Hy Hlim.
  { exists (c_mem t). split; [by destruct t|]. intros a. rewrite decide_False by lia. done. }
  cbn [for_n]. destruct (fill_row (Z.to_nat VGA_WIDTH) t y 0) as (m1 & E1 & Hm1);
    [done|done|lia|lia|unfold VGA_WIDTH in *; lia|].
  rewrite (bind_done _ _ _ _ _ E1).
  destruct (IH (set_mem m1 t) (y + 1)) as (m2 & E2 & Hm2); [done|done|lia|lia|].
  exists m2. split; [exact E2|]. cbn [c_mem set_mem terminal_color] in Hm2.
  eapply (blanked_join _ _ ((y + 1) * VGA_WIDTH)); [unfold VGA_WIDTH; lia| |].
  - replace (y * VGA_WIDTH + 0 + Z.of_nat (Z.to_nat VGA_WIDTH)) with ((y + 1) * VGA_WIDTH) in Hm1 by (unfold VGA_WIDTH; lia).
    rewrite Z.add_0_r in Hm1. exact Hm1.
  - replace (y + Z.of_nat (S n)) with (y + 1 + Z.of_nat n) by lia. exact Hm2.
Qed.

Lemma fill_screen_run t :
  terminal_buffer t = VGA_MEMORY → byte_ok (terminal_color t) →
  ∃ m', fill_screen t = Done tt (set_mem m' t) ∧ blanked (terminal_color t) 0 2000 (c_mem t) m'.
Proof. intros Hb Hc. by apply (fill_rows (Z.to_nat VGA_HEIGHT) t 0). Qed.
End Fill.

Lemma load16_store16_at m a v b :
  b + 2 ≤ a ∨ a + 2 ≤ b ∨ a = b →
  load16 (store16 m a v) b = if decide (a = b) then u16 v else load16 m b.
Proof.
  intros Hd. case_decide as E; [subst; apply load16_store16|].
  unfold load16, store16. rewrite !load8_store_bytes, length_bytes16, !decide_False by lia. done.
Qed.

Section Operations.
Context {D : Type} `{PortIO D}.
Implicit Types t : con D.

(** The blank the screen is cleared with: a space, white on black. *)
Definition blank : Z := vga_entry 32 15.

Lemma blanked_cell color t t' i :
  byte_ok color → blanked color 0 2000 (c_mem t) (c_mem t') → 0 ≤ i < 2000 → cell t' i = vga_entry 32 color.
Proof.
  intros Hc Hb Hi. unfold cell, load16. rewrite !Hb, !decide_True by lia.
  replace (VGA_MEMORY + 2 * i - VGA_MEMORY) with (i * 2) by lia.
  replace (VGA_MEMORY + 2 * i + 1 - VGA_MEMORY) with (1 + i * 2) by lia.
  rewrite Z.mod_mul, Z.mod_add by done. simpl.
  pose proof (vga_entry_bytes 32 color Hc) as E. unfold bytes16 in E. injection E as E0 E1.
  unfold le16. assert (0 ≤ vga_entry 32 color < 65536) by apply u16_range.
  change (u8 32) with 32 in E0. lia.
Qed.

Lemma blanked_off t t' : blanked 15 0 2000 (c_mem t) (c_mem t') → off_screen_same t t'.
Proof. intros Hb a Ha. rewrite Hb, decide_False by lia. done. Qed.

Lemma initialize_run t :
  byte_ok (terminal_color t) →
  ∃ m', terminal_initialize t =
    Done tt (Con m' (c_dev t) 1 (terminal_column t) 15 VGA_MEMORY true (waitwrite t)) ∧
    blanked 15 0 2000 (c_mem t) m'.
Proof.
  intros Hc. unfold terminal_initialize. rewrite (bind_done _ _ t tt (set_row 1 t)) by done.
  rewrite (bind_done _ _ _ (havebeeninitbefore t) (set_row 1 t)) by done.
  assert (∃ c, byte_ok c ∧ (when! negb (havebeeninitbefore t) do
    modify (set_color (vga_entry_color VGA_COLOR_BLACK VGA_COLOR_LIGHT_GREY))) (set_row 1 t) =
    Done tt (Con (c_mem t) (c_dev t) 1 (terminal_column t) c (terminal_buffer t) (havebeeninitbefore t) (waitwrite t)))
    as (c & Hcb & E0).
  { destruct (havebeeninitbefore t) eqn:Ei; simpl.
    - exists (terminal_color t). split; [done|]. unfold ret, set_row. by rewrite Ei.
    - exists 0x70. split; [unfold byte_ok; lia|]. unfold modify, set_row, set_color. simpl. by rewrite Ei. }
  rewrite (bind_done _ _ _ _ _ E0). set (t1 := Con _ _ _ _ _ _ _ _).
  rewrite (bind_done _ _ _ tt (set_buffer VGA_MEMORY t1)) by done.
  destruct (fill_screen_run (set_buffer VGA_MEMORY t1) eq_refl Hcb) as (m1 & E1 & Hm1).
  rewrite (bind_done _ _ _ _ _ E1).
  set (t2 := set_mem m1 _). set (t3 := set_color (vga_entry_color VGA_COLOR_WHITE VGA_COLOR_BLACK) t2).
  rewrite (bind_done _ _ _ tt t3) by done. rewrite (bind_done _ _ _ tt (set_buffer VGA_MEMORY t3)) by done.
  destruct (fill_screen_run (set_buffer VGA_MEMORY t3) eq_refl
    ltac:(change (byte_ok 15); unfold byte_ok; lia)) as (m2 & E2 & Hm2).
  rewrite (bind_done _ _ _ _ _ E2). exists m2. split; [reflexivity|].
  intros a. rewrite Hm2. cbn [c_mem set_buffer t3 set_color t2 set_mem]. case_decide; [done|].
  cbn [c_mem set_buffer] in Hm1 |- *. unfold t3, t2. cbn [c_mem set_color set_mem set_buffer].
  rewrite Hm1, decide_False by done. done.
Qed.

Lemma update_cursor_run x y t : ∃ d, update_cursor x y t = Done tt (set_dev d t).
Proof. by eexists. Qed.

(** The row a character goes to: the bottom row clears the screen first. *)
Definition write_row t : Z := if terminal_row t =? 24 then 1 else terminal_row t.
Definition write_color t : Z := if terminal_row t =? 24 then 15 else terminal_color t.

(** What the write on the bottom row starts with. *)
Lemma scroll_run t :
  con_ok t → ∃ m, (when! terminal_row t =? VGA_HEIGHT - 1 do terminal_scroll) t =
      Done tt (Con m (c_dev t) (write_row t) (terminal_column t) (write_color t) VGA_MEMORY
        (if terminal_row t =? 24 then true else havebeeninitbefore t) (waitwrite t)) ∧
    (∀ a, a < VGA_MEMORY ∨ VGA_MEMORY + 4000 ≤ a → load8 m a = load8 (c_mem t) a) ∧
    ∀ j, 0 ≤ j < 2000 → load16 m (VGA_MEMORY + 2 * j) = if terminal_row t =? 24 then blank else cell t j.
Proof.
  intros (Hr & Hc & Hb & Hcol). unfold write_row, write_color. change (VGA_HEIGHT - 1) with 24. destruct (terminal_row t =? 24).
  - destruct (initialize_run t Hcol) as (m & E & Hm). exists m. split_and!; [exact E| |].
    + intros a Ha. rewrite Hm, decide_False by lia. done.
    + intros j Hj. exact (blanked_cell 15 t (set_mem m t) j ltac:(unfold byte_ok; lia) Hm Hj).
  - exists (c_mem t). split_and!; [|done|done]. unfold ret. rewrite <-Hb. by destruct t.
Qed.

Lemma putchar_run c t :
  con_ok t →
  let i := cell_at (write_row t) (terminal_column t) in
  ∃ t', terminal_putchar c t = Done tt t' ∧ con_ok t' ∧ off_screen_same t t' ∧
    cell t' i = vga_entry c (write_color t) ∧
    (∀ j, 0 ≤ j < 2000 → j ≠ i → cell t' j = if terminal_row t =? 24 then blank else cell t j) ∧
    terminal_row t' = (if terminal_column t =? 79 then write_row t + 1 else write_row t) ∧
    terminal_column t' = (if terminal_column t =? 79 then 0 else terminal_column t + 1) ∧
    terminal_color t' = write_color t ∧ waitwrite t' = waitwrite t.
Proof.
  intros Hok i. destruct (scroll_run t Hok) as (m & E & Hoff & Hcells). destruct Hok as (Hr & Hc & Hb & Hcol). unfold VGA_HEIGHT, VGA_WIDTH in *.
  assert (0 ≤ write_row t < 24) as Hwr by (unfold write_row; case_if; zbool; lia).
  assert (0 ≤ write_color t < 256) as Hwc by (unfold write_color; case_if; lia).
  unfold terminal_putchar. rewrite (bind_done _ _ _ (terminal_row t) t) by done. rewrite (bind_done _ _ _ _ _ E).
  set (t1 := Con _ _ _ _ _ _ _ _) in *. rewrite (bind_done _ _ _ t1 t1) by done.
  unfold terminal_putentryat. change (terminal_row t1) with (write_row t).
  change (terminal_column t1) with (terminal_column t). change (terminal_color t1) with (write_color t).
  assert (u32 (write_row t * VGA_WIDTH + terminal_column t) = i) as -> by (unfold i, cell_at, VGA_WIDTH; rewrite u32_id; lia).
  assert (0 ≤ i < 2000) as Hi by (unfold i, cell_at, VGA_WIDTH; lia).
  set (m2 := store16 m (VGA_MEMORY + 2 * i) (vga_entry c (write_color t))).
  destruct (update_cursor_run (terminal_column t + 1) (write_row t) (set_mem m2 t1)) as [d Ed].
  rewrite (bind_done _ _ t1 tt (set_dev d (set_mem m2 t1))).
  2: { unfold bind at 1. rewrite put_cell_ok by done. exact Ed. }
  assert (∀ j, 0 ≤ j < 2000 → load16 m2 (VGA_MEMORY + 2 * j) =
    if decide (j = i) then vga_entry c (write_color t) else if terminal_row t =? 24 then blank else cell t j) as Hm2.
  { intros j Hj. unfold m2. rewrite load16_store16_at by lia. rewrite Hcells by done.
    repeat case_decide; try lia. unfold vga_entry, u16. lia. }
  assert (∀ t', c_mem t' = m2 → off_screen_same t t' ∧ cell t' i = vga_entry c (write_color t) ∧
    ∀ j, 0 ≤ j < 2000 → j ≠ i → cell t' j = if terminal_row t =? 24 then blank else cell t j) as Hfin.
  { intros t' Em. unfold cell. rewrite Em. split_and!.
    - intros a Ha. rewrite Em. unfold m2, store16. rewrite load8_store_bytes, length_bytes16, decide_False by lia. auto.
    - rewrite Hm2, decide_True by done. done.
    - intros j Hj Hne. rewrite Hm2, decide_False by done. done. }
  rewrite (u32_id (terminal_column t + 1)) by lia. rewrite (u32_id (write_row t + 1)) by lia.
  rewrite (bind_done _ _ _ tt (set_column (terminal_column t + 1) (set_dev d (set_mem m2 t1)))) by done.
  replace (terminal_column t + 1 =? VGA_WIDTH) with (terminal_column t =? 79)
    by (unfold VGA_WIDTH; destruct (Z.eqb_spec (terminal_column t) 79), (Z.eqb_spec (terminal_column t + 1) 80); lia).
  destruct (Z.eqb_spec (terminal_column t) 79) as [E79|E79].
  - rewrite (bind_done _ _ _ tt (set_column 0 (set_column (terminal_column t + 1) (set_dev d (set_mem m2 t1))))) by done.
    set (t2 := set_column 0 _). rewrite (bind_done _ _ _ tt (set_row (write_row t + 1) t2)) by done.
    rewrite (proj2 (Z.eqb_neq _ VGA_HEIGHT)) by (unfold VGA_HEIGHT; lia).
    eexists. split; [reflexivity|]. destruct (Hfin (set_row (write_row t + 1) t2) eq_refl) as (? & ? & ?).
    assert (u32 (write_row t + 1) = write_row t + 1) as Hu by (apply u32_id; lia).
    split; [unfold con_ok, VGA_HEIGHT, VGA_WIDTH; simpl; rewrite ?Hu; change (u32 0) with 0; split_and!; done || lia|].
    split_and!; try done; simpl; rewrite ?Hu; done || lia.
  - eexists. split; [reflexivity|].
    destruct (Hfin (set_column (terminal_column t + 1) (set_dev d (set_mem m2 t1))) eq_refl) as (? & ? & ?).
    assert (u32 (terminal_column t + 1) = terminal_column t + 1) as Hu by (apply u32_id; lia).
    split; [unfold con_ok, VGA_HEIGHT, VGA_WIDTH; simpl; rewrite ?Hu; change (u32 0) with 0; split_and!; done || lia|].
    split_and!; try done; simpl; rewrite ?Hu; done || lia.
Qed.
End Operations.

Section Writing.
Context {D : Type} `{PortIO D}.
Implicit Types t : con D.

(** A console operation that is safe: it returns, keeps the invariant and
    changes memory only on the screen. *)
Definition safe {A} (m : M (con D) A) : Prop :=
  ∀ t, con_ok t → ∃ a t', m t = Done a t' ∧ con_ok t' ∧ off_screen_same t t'.

Lemma safe_ret {A} (a : A) : safe (ret a).
Proof. intros t Ht. by exists a, t. Qed.

Lemma safe_bind {A B} (m : M (con D) A) (k : A → M (con D) B) :
  safe m → (∀ a, safe (k a)) → safe (bind m k).
Proof.
  intros Hm Hk t Ht. destruct (Hm t Ht) as (a & t1 & E1 & Ht1 & Ho1).
  destruct (Hk a t1 Ht1) as (b & t2 & E2 & Ht2 & Ho2). exists b, t2.
  rewrite (bind_done _ _ _ _ _ E1). split_and!; [done|done|by transitivity t1].
Qed.

Lemma safe_putchar c : safe (terminal_putchar c).
Proof.
  intros t Ht. destruct (putchar_run c t Ht) as (t' & E & Hok & Hoff & _). by exists tt, t'.
Qed.

Lemma safe_write data : safe (terminal_write data).
Proof.
  induction data as [|c data IH]; [apply safe_ret|]. apply safe_bind; [apply safe_putchar|done].
Qed.

Lemma newline_run t :
  con_ok t → ∃ t', terminal_newline t = Done tt t' ∧ con_ok t' ∧ off_screen_same t t' ∧
    terminal_row t' = (if terminal_row t =? 24 then 0 else terminal_row t + 1) ∧ terminal_column t' = 0 ∧
    terminal_color t' = terminal_color t ∧
    ∀ j, 0 ≤ j < 2000 →
      cell t' j = if terminal_row t =? 24 then vga_entry 32 (terminal_color t) else cell t j.
Proof.
  intros (Hr & Hc & Hb & Hcol). unfold terminal_newline, VGA_HEIGHT, VGA_WIDTH in *.
  rewrite (bind_done _ _ _ (terminal_row t) t) by done.
  rewrite (bind_done _ _ _ tt (set_row (terminal_row t + 1) t)) by done.
  set (t1 := set_column 0 (set_row (terminal_row t + 1) t)). rewrite (bind_done _ _ _ tt t1) by done.
  assert (u32 (terminal_row t + 1) = terminal_row t + 1) as Hu by (apply u32_id; lia).
  rewrite (bind_done _ _ _ (terminal_row t + 1) t1) by (unfold gets, t1; simpl; by rewrite Hu).
  replace (terminal_row t + 1 =? 25) with (terminal_row t =? 24)
    by (destruct (Z.eqb_spec (terminal_row t) 24), (Z.eqb_spec (terminal_row t + 1) 25); lia).
  destruct (Z.eqb_spec (terminal_row t) 24) as [E24|E24].
  - rewrite (bind_done _ _ _ tt (set_buffer VGA_MEMORY t1)) by done.
    destruct (fill_screen_run (set_buffer VGA_MEMORY t1) eq_refl Hcol) as (m & E & Hm).
    rewrite (bind_done _ _ _ _ _ E). set (t2 := set_mem m _).
    exists (set_column 0 (set_row 0 t2)). split; [done|]. split.
    { unfold con_ok, VGA_HEIGHT, VGA_WIDTH. cbn. change (u32 0) with 0. split_and!; first [lia|reflexivity]. }
    split_and!; [|reflexivity..|].
    + intros a Ha. cbn [c_mem set_column set_row]. unfold t2. cbn [c_mem set_mem].
      rewrite Hm, decide_False by lia. reflexivity.
    + intros j Hj. exact (blanked_cell (terminal_color t) t (set_column 0 (set_row 0 t2)) j Hcol Hm Hj).
  - exists t1. split; [done|]. split.
    { unfold con_ok, VGA_HEIGHT, VGA_WIDTH. cbn. rewrite Hu. change (u32 0) with 0. split_and!; first [lia|assumption]. }
    split_and!; [intros a Ha; reflexivity|exact Hu|reflexivity|reflexivity|intros j Hj; reflexivity].
Qed.

Lemma safe_newline : safe terminal_newline.
Proof. intros t Ht. destruct (newline_run t Ht) as (t' & E & Hok & Hoff & _). by exists tt, t'. Qed.

Lemma write_line data : ∀ t,
  con_ok t → terminal_row t < 24 → terminal_column t + Z.of_nat (length data) ≤ 80 →
  ∃ t', terminal_write data t = Done tt t' ∧ off_screen_same t t' ∧
    ∀ j, 0 ≤ j < 2000 → cell t' j =
      let k := j - cell_at (terminal_row t) (terminal_column t) in
      if decide (0 ≤ k < Z.of_nat (length data)) then vga_entry (at_ data k) (terminal_color t) else cell t j.
Proof.
  induction data as [|c data IH]; intros t Ht Hrow Hcol.
  { exists t. split_and!; [done|done|]. intros j Hj. simpl. rewrite decide_False by lia. done. }
  destruct (putchar_run c t Ht) as (t1 & E1 & Ht1 & Ho1 & Hc1 & Hcell1 & Hr1 & Hcol1 & Hclr1 & _).
  assert ((terminal_row t =? 24) = false) as E24 by (apply Z.eqb_neq; lia).
  unfold write_row, write_color in *. rewrite E24 in *. cbn [length] in Hcol.
  cbn [terminal_write]. rewrite (bind_done _ _ _ _ _ E1).
  destruct data as [|c' data].
  - exists t1. split_and!; [done|done|]. intros j Hj. cbn [length]. cbv zeta.
    destruct (decide (j = cell_at (terminal_row t) (terminal_column t))) as [->|Hne].
    + rewrite Z.sub_diag. exact Hc1.
    + rewrite Hcell1, decide_False by (done || lia). done.
  - cbn [length] in Hcol. assert ((terminal_column t =? 79) = false) as E79 by (apply Z.eqb_neq; lia).
    rewrite E79 in *. destruct (IH t1) as (t2 & E2 & Ho2 & Hcell2); [done|lia|cbn [length]; lia|].
    exists t2. split_and!; [done|by transitivity t1|]. intros j Hj. rewrite Hcell2 by done. cbv zeta.
    rewrite Hr1, Hcol1, Hclr1. unfold cell_at. set (i := terminal_row t * VGA_WIDTH).
    replace (j - (i + (terminal_column t + 1))) with (j - (i + terminal_column t) - 1) by lia.
    set (k := j - (i + terminal_column t)). cbn [length].
    destruct (decide (k = 0)) as [Ek|Ek].
    + rewrite decide_False, decide_True by lia. assert (j = cell_at (terminal_row t) (terminal_column t)) as ->
        by (unfold cell_at; fold i; lia). rewrite Hc1, Ek. done.
    + destruct (decide (0 ≤ k < Z.of_nat (S (S (length data))))) as [Hk|Hk].
      * rewrite decide_True by lia. unfold at_. by replace (Z.to_nat k) with (S (Z.to_nat (k - 1))) by lia.
      * rewrite decide_False by lia. rewrite Hcell1; [done|done|]. unfold cell_at. fold i. lia.
Qed.
End Writing.

(** * The CRT controller *)

(** What the cursor code relies on of the controller: port 0x3D4 selects one of
    its registers, port 0x3D5 reads and writes the selected one. *)
Class Crtc (D : Type) `{PortIO D} := {
  crtc_index : D → Z;
  crtc_reg : D → Z → Z;
  crtc_select : ∀ d v, 0 ≤ v < 256 → let d' := port_outb 0x3D4 v d in
    crtc_index d' = v ∧ ∀ r, crtc_reg d' r = crtc_reg d r;
  crtc_write : ∀ d v, 0 ≤ v < 256 → let d' := port_outb 0x3D5 v d in
    crtc_index d' = crtc_index d ∧
    ∀ r, crtc_reg d' r = if decide (r = crtc_index d) then v else crtc_reg d r;
  crtc_read : ∀ d, let '(v, d') := port_inb 0x3D5 d in
    u8 v = crtc_reg d (crtc_index d) ∧ crtc_index d' = crtc_index d ∧ ∀ r, crtc_reg d' r = crtc_reg d r;
}.

(** A register file: the concrete controller of the witnesses. *)
Record crt := Crt { crt_index : Z; crt_regs : memory }.

#[export] Instance crt_ports : PortIO crt := {|
  port_inb p d := if p =? 0x3D5 then (load8 (crt_regs d) (crt_index d), d) else (0, d);
  port_inw _ d := (0, d);
  port_outb p v d :=
    if p =? 0x3D4 then Crt v (crt_regs d)
    else if p =? 0x3D5 then Crt (crt_index d) (store8 (crt_regs d) (crt_index d) v) else d;
  port_outw _ _ d := d;
|}.

#[export, refine] Instance crt_crtc : Crtc crt := {|
  crtc_index := crt_index; crtc_reg d := load8 (crt_regs d) |}.
Proof.
  - done.
  - intros d v Hv. split; [done|]. intros r. simpl. rewrite load8_store8.
    repeat case_decide; subst; try done. by apply u8_id.
  - intros d. simpl. split; [apply u8_id, load8_range|done].
Defined.

(** * Theorems *)

Definition demo_con : con crt := Con ∅ (Crt 0 ∅) 3 77 15 VGA_MEMORY true false.

Lemma demo_con_ok : con_ok demo_con.
Proof. unfold con_ok, VGA_HEIGHT, VGA_WIDTH. cbn. split_and!; first [lia|reflexivity]. Qed.

(** C28: the console is memory safe on any hardware: from a state on the screen,
    writing any string and any line break return, stay on the screen and write
    no byte outside the 4000 bytes of video memory. *)
Theorem terminal_safe `{PortIO D} data (t : con D) :
  con_ok t →
  (∃ t', terminal_writestring data t = Done tt t' ∧ con_ok t' ∧ off_screen_same t t') ∧
  (∃ t', terminal_newline t = Done tt t' ∧ con_ok t' ∧ off_screen_same t t').
Proof.
  intros Ht. split.
  - destruct (safe_write (cstr data) t Ht) as ([] & t' & ?). by exists t'.
  - destruct (safe_newline t Ht) as ([] & t' & ?). by exists t'.
Qed.

Lemma terminal_safe_witness : ∃ t', terminal_writestring (str "wrap around") demo_con = Done tt t' ∧ con_ok t'.
Proof.
  destruct (terminal_safe (str "wrap around") demo_con demo_con_ok) as [(t' & E & Ht & _) _].
  exists t'. split; assumption.
Defined.

(** C29: one character: it goes to the cell of the writing position in the current
    colour, all other cells stay, and the position moves one column on, to the
    next row after column 79. On the bottom row the screen is cleared first and
    writing goes on in row 1, so that row 24 never shows a character. *)
Theorem terminal_putchar_cell `{PortIO D} c (t : con D) :
  con_ok t →
  let bottom := terminal_row t =? 24 in
  let row := if bottom then 1 else terminal_row t in
  let color := if bottom then 15 else terminal_color t in
  let column := terminal_column t in
  ∃ t', terminal_putchar c t = Done tt t' ∧
    (∀ i, 0 ≤ i < 2000 → cell t' i =
       if decide (i = cell_at row column) then vga_entry c color
       else if bottom then vga_entry 32 15 else cell t i) ∧
    (terminal_row t', terminal_column t') =
      (if column =? 79 then (row + 1, 0) else (row, column + 1)).
Proof.
  intros Ht bottom row color column.
  destruct (putchar_run c t Ht) as (t' & E & _ & _ & Hc & Hcells & Hr & Hcol & _).
  exists t'. split_and!; [exact E| |].
  - intros i Hi. case_decide as Ei; [subst i; exact Hc|]. by apply Hcells.
  - rewrite Hr, Hcol. unfold column, row, bottom, write_row. by destruct (terminal_column t =? 79).
Qed.

Lemma terminal_putchar_cell_witness :
  ∃ t', terminal_putchar 65 demo_con = Done tt t' ∧ cell t' (cell_at 3 77) = vga_entry 65 15.
Proof.
  destruct (terminal_putchar_cell 65 demo_con demo_con_ok) as (t' & E & Hc & _).
  exists t'. split; [exact E|]. rewrite Hc by (vm_compute; split; [discriminate|reflexivity]). reflexivity.
Defined.

(** A string that fits behind the writing position (above the bottom row)
    appears there, character by character in the current colour, and nothing
    else on the screen changes. *)
Theorem terminal_writestring_line `{PortIO D} s (t : con D) :
  con_ok t → terminal_row t < 24 → terminal_column t + Z.of_nat (length (cstr s)) ≤ 80 →
  ∃ t', terminal_writestring s t = Done tt t' ∧ off_screen_same t t' ∧
    ∀ j, 0 ≤ j < 2000 → cell t' j =
      let k := j - cell_at (terminal_row t) (terminal_column t) in
      if decide (0 ≤ k < Z.of_nat (length (cstr s))) then vga_entry (at_ (cstr s) k) (terminal_color t)
      else cell t j.
Proof. intros Ht Hr Hc. by apply write_line. Qed.

Lemma terminal_writestring_line_witness :
  ∃ t', terminal_writestring (str "OK!") demo_con = Done tt t' ∧ cell t' (cell_at 3 78) = vga_entry 75 15.
Proof.
  destruct (terminal_writestring_line (str "OK!") demo_con demo_con_ok) as (t' & E & _ & Hc);
    [vm_compute; reflexivity|vm_compute; discriminate|].
  exists t'. split; [exact E|]. rewrite Hc by (vm_compute; split; [discriminate|reflexivity]). reflexivity.
Defined.

(** One register access through the two ports. *)
Lemma crtc_put `{Crtc D} r v (d : D) :
  0 ≤ r < 256 → 0 ≤ v < 256 →
  ∃ d', (outb 0x3D4 r ;; outb 0x3D5 v) d = Done tt d' ∧
    ∀ x, crtc_reg d' x = if decide (x = r) then v else crtc_reg d x.
Proof.
  intros Hr Hv. destruct (crtc_select d r Hr) as [Hi Hx]. set (d1 := port_outb 0x3D4 r d) in *.
  destruct (crtc_write d1 v Hv) as [_ Hw]. exists (port_outb 0x3D5 v d1). split.
  - unfold bind, outb. rewrite (u8_id r Hr), (u8_id v Hv). done.
  - intros x. rewrite Hw, Hi, Hx. done.
Qed.

Lemma crtc_get `{Crtc D} r (d : D) :
  0 ≤ r < 256 →
  ∃ d', (outb 0x3D4 r ;; inb 0x3D5) d = Done (crtc_reg d r) d' ∧ ∀ x, crtc_reg d' x = crtc_reg d x.
Proof.
  intros Hr. destruct (crtc_select d r Hr) as [Hi Hx]. set (d1 := port_outb 0x3D4 r d) in *.
  pose proof (crtc_read d1) as HR. unfold bind, outb, inb. rewrite (u8_id r Hr).
  change (u16 0x3D4) with 0x3D4. change (u16 0x3D5) with 0x3D5. fold d1.
  destruct (port_inb 0x3D5 d1) as [v d2]. destruct HR as (Hv & _ & Hr2).
  exists d2. rewrite Hv, Hi, Hx. split; [done|]. intros x. by rewrite Hr2, Hx.
Qed.

(** The hardware cursor: [get_cursor_position] returns the position
    [update_cursor] was last given, row times 80 plus column in 16 bits, on any
    controller with the documented index and data ports. *)
Theorem cursor_roundtrip `{Crtc D} x y (t : con D) :
  ∃ t1 t2, update_cursor x y t = Done tt t1 ∧
    get_cursor_position t1 = Done (u16 (y * 80 + x)) t2 ∧ c_mem t2 = c_mem t.
Proof.
  set (pos := u16 (y * 80 + x)). pose proof (u16_range (y * 80 + x)) as Hp. fold pos in Hp.
  assert (u8 (Z.land pos 0xFF) = pos mod 256) as Hlo.
  { change 0xFF with (Z.ones 8). rewrite Z.land_ones by done. change (2 ^ 8) with 256. unfold u8. lia. }
  assert (u8 (Z.land (pos ≫ 8) 0xFF) = pos / 256) as Hhi.
  { change 0xFF with (Z.ones 8). rewrite Z.land_ones, Z.shiftr_div_pow2 by done. change (2 ^ 8) with 256. unfold u8. lia. }
  destruct (crtc_put 0x0F (pos mod 256) (c_dev t)) as (d1 & E1 & H1); [lia|lia|].
  destruct (crtc_put 0x0E (pos / 256) d1) as (d2 & E2 & H2); [lia|lia|].
  destruct (crtc_get 0x0F d2) as (d3 & E3 & H3); [lia|].
  destruct (crtc_get 0x0E d3) as (d4 & E4 & H4); [lia|].
  exists (set_dev d2 t), (set_dev d4 t). split_and!; [| |done].
  - unfold update_cursor. change VGA_WIDTH with 80. fold pos. rewrite Hlo, Hhi.
    unfold on_port, zoom, bind, outb in *. cbn [c_dev set_dev]. injection E1 as <-. injection E2 as <-. done.
  - assert (crtc_reg d2 0x0F = pos mod 256) as Elo
      by (rewrite H2, decide_False, H1, decide_True by done; done).
    assert (crtc_reg d3 0x0E = pos / 256) as Ehi by (rewrite H3, H2, decide_True by done; done).
    rewrite Elo in E3. rewrite Ehi in E4. unfold get_cursor_position, on_port.
    set (t1 := set_dev d2 t).
    transitivity ((let! lo := zoom c_dev set_dev (outb 0x3D4 0x0F ;; inb 0x3D5) in
      let! hi := zoom c_dev set_dev (outb 0x3D4 0x0E ;; inb 0x3D5) in
      ret (u16 (Z.lor (Z.lor 0 lo) (hi ≪ 8)))) t1).
    { unfold bind, zoom, outb, inb, t1. cbn [c_dev set_dev]. destruct (port_inb _ _). cbn [c_dev set_dev].
      by destruct (port_inb _ _). }
    rewrite (bind_done _ _ _ (pos mod 256) (set_dev d3 t)) by (unfold zoom, t1; cbn [c_dev set_dev]; by rewrite E3).
    rewrite (bind_done _ _ _ (pos / 256) (set_dev d4 t)) by (unfold zoom; cbn [c_dev set_dev]; by rewrite E4).
    unfold ret. f_equal. rewrite Z.lor_0_l, Z.shiftl_mul_pow2 by done. change (2 ^ 8) with 256.
    pose proof (vga_entry_bytes (pos mod 256) (pos / 256)) as Hv. unfold byte_ok in Hv. specialize (Hv ltac:(lia)).
    unfold vga_entry in Hv. rewrite Z.shiftl_mul_pow2 in Hv by done. change (2 ^ 8) with 256 in Hv.
    rewrite (u8_id (pos mod 256)) in Hv by lia. unfold bytes16 in Hv. injection Hv as Hv0 Hv1.
    pose proof (u16_range (Z.lor (pos mod 256) (pos / 256 * 256))). lia.
Qed.

Lemma cursor_roundtrip_witness :
  ∃ t1 t2, update_cursor 5 2 demo_con = Done tt t1 ∧ get_cursor_position t1 = Done 165 t2.
Proof.
  destruct (cursor_roundtrip 5 2 demo_con) as (t1 & t2 & E1 & E2 & _). exists t1, t2. split; assumption.
Defined.
