(* ===== verification/Stdio.v ===== *)
(** Formatted output: src/libc/stdio (printf.c, putchar.c, puts.c) and
    src/libc/stdlib/abort.c, as built into the kernel, on the console of
    Terminal.v.

    A format is the bytes of its C string; the variable arguments are a list. A
    directive whose argument is missing or of another kind reads what is not
    there: [OutOfBounds]. *)
From S2P Require Import Prelude Machine CString LibC Terminal.

Inductive arg := ArgChar (c : Z) | ArgStr (s : list Z).

Definition INT_MAX : Z := 2147483647.

Section Stdio.
Context {D : Type} `{PortIO D}.
Abbreviation T := (con D).

Definition putchar (ic : Z) : M T Z := terminal_write [u8 ic] ;; ret ic.

(** [print]: whether all bytes were put; [data] is the bytes [length] counts. *)
Fixpoint print (data : list Z) : M T bool :=
  match data with
  | [] => ret true
  | b :: data' => let! r := putchar b in if r =? -1 then ret false else print data'
  end.

(** The bytes in front of the next percent sign. *)
Fixpoint plain_run (format : list Z) : nat :=
  match format with
  | [] => O
  | c :: format' => if c =? 37 then O else S (plain_run format')
  end.

(** The loop of [printf]; every round takes at least one byte of [format], so
    that [f] above its length is enough. *)
Fixpoint printf_loop (f : nat) (format : list Z) (args : list arg) (written : Z) : M T Z :=
  match f, format with
  | _, [] => ret written
  | O, _ => raise OutOfFuel
  | S f', c :: rest =>
      let maxrem := u32 (INT_MAX - written) in
      if negb (c =? 37) || (at_ rest 0 =? 37) then
        let format := if c =? 37 then rest else format in
        let amount := S (plain_run (tail format)) in
        if maxrem <? Z.of_nat amount then ret (-1)
        else
          let! ok := print (take amount format) in
          if negb ok then ret (-1)
          else printf_loop f' (drop amount format) args (s32 (written + Z.of_nat amount))
      else
        let directive := at_ rest 0 in
        if directive =? 99 then
          match args with
          | ArgChar x :: args' =>
              if maxrem =? 0 then ret (-1)
              else
                let! ok := print [u8 x] in
                if negb ok then ret (-1) else printf_loop f' (tail rest) args' (s32 (written + 1))
          | _ => raise OutOfBounds
          end
        else if directive =? 110 then
          terminal_newline ;; printf_loop f' (tail rest) args (s32 (written + 1))
        else if directive =? 115 then
          match args with
          | ArgStr s :: args' =>
              let len := Z.of_nat (length (cstr s)) in
              if maxrem <? len then ret (-1)
              else
                let! ok := print (cstr s) in
                if negb ok then ret (-1) else printf_loop f' (tail rest) args' (s32 (written + len))
          | _ => raise OutOfBounds
          end
        else
          let len := Z.of_nat (length format) in
          if maxrem <? len then ret (-1)
          else
            let! ok := print format in
            if negb ok then ret (-1) else ret (s32 (written + len))
  end.

Definition printf (format : list Z) (args : list arg) : M T Z :=
  printf_loop (S (length (cstr format))) (cstr format) args 0.

Definition puts (s : list Z) : M T Z := printf (str "%s" ++ [10]) [ArgStr s].

(** The infinite loop after the message is [Halted]. *)
Definition abort : M T unit :=
  let! _ := printf (str "kernel: panic: abort()" ++ [10]) [] in raise Halted.
End Stdio.

(** * What a format means *)

Inductive item := Put (c : Z) | NewLine.

(** Bytes stand for themselves, [%%] for a percent sign, [%c], [%s] and [%n] for
    a character, a string and a line break; any other directive makes the rest
    of the format literal. *)
Fixpoint render (format : list Z) (args : list arg) : option (list item) :=
  match format with
  | [] => Some []
  | c :: rest =>
      if negb (c =? 37) then cons (Put c) <$> render rest args
      else
        match rest with
        | [] => Some [Put 37]
        | d :: rest' =>
            if d =? 37 then cons (Put 37) <$> render rest' args
            else if d =? 99 then
              match args with
              | ArgChar x :: args' => cons (Put (u8 x)) <$> render rest' args'
              | _ => None
              end
            else if d =? 110 then cons NewLine <$> render rest' args
            else if d =? 115 then
              match args with
              | ArgStr s :: args' => app (map Put (cstr s)) <$> render rest' args'
              | _ => None
              end
            else Some (map Put (c :: rest))
        end
  end.

Definition show_item {D} `{PortIO D} (i : item) : M (con D) unit :=
  match i with Put c => terminal_putchar c | NewLine => terminal_newline end.

Fixpoint show_items {D} `{PortIO D} (l : list item) : M (con D) unit :=
  match l with [] => ret tt | i :: l' => show_item i ;; show_items l' end.

Section Printf.
Context {D : Type} `{PortIO D}.
Implicit Types t : con D.

Lemma show_app l1 l2 t : show_items (l1 ++ l2) t = (show_items l1 ;; show_items l2) t.
Proof.
  revert t; induction l1 as [|i l1 IH]; intros t; [done|]. simpl. unfold bind in *.
  destruct (show_item i t) as [[] t1|]; [|done]. apply IH.
Qed.

Lemma print_show data t :
  bytes_ok data → print data t = (show_items (map Put data) ;; ret true) t.
Proof.
  intros Hd. revert t; induction Hd as [|b data Hb _ IH]; intros t; [done|].
  cbn [print map show_items show_item]. unfold putchar. cbn [terminal_write].
  rewrite (u8_id b) by exact Hb. unfold bind, ret in *. destruct (terminal_putchar b t) as [[] t1|]; [|done].
  rewrite (proj2 (Z.eqb_neq b (-1))) by (unfold byte_ok in Hb; lia). apply IH.
Qed.

(** A run of plain bytes renders to themselves. *)
Lemma render_plain format args items :
  render format args = Some items →
  let n := plain_run format in
  ∃ items', render (drop n format) args = Some items' ∧ items = map Put (take n format) ++ items'.
Proof.
  revert items; induction format as [|c format IH]; intros items E; [by exists items|].
  cbn [plain_run]. destruct (c =? 37) eqn:Ec; [by exists items|].
  cbn [render] in E. rewrite Ec in E. simpl in E. apply fmap_Some in E as (items1 & E1 & ->).
  destruct (IH items1 E1) as (items' & E' & ->). by exists items'.
Qed.

Lemma plain_run_le format : (plain_run format ≤ length format)%nat.
Proof. induction format as [|c format IH]; simpl; [lia|]. case_if; simpl; lia. Qed.

Lemma print_then {A} data (fail k : M (con D) A) t :
  bytes_ok data →
  (let! ok := print data in if negb ok then fail else k) t = (show_items (map Put data) ;; k) t.
Proof.
  intros Hd. unfold bind at 1. rewrite (print_show data t Hd). unfold bind, ret.
  by destruct (show_items _ t) as [[] ?|].
Qed.

Definition arg_ok (a : arg) : Prop := match a with ArgStr s => bytes_ok s | ArgChar _ => True end.

(** Showing [l1], then what is left, is showing both. *)
Lemma show_then l1 l2 (k : M (con D) Z) (v w : Z) t :
  (∀ t, k t = (show_items l2 ;; ret v) t) → v = w →
  (show_items l1 ;; k) t = (show_items (l1 ++ l2) ;; ret w) t.
Proof.
  intros Hk <-. unfold bind at 2. rewrite show_app. unfold bind.
  destruct (show_items l1 t) as [[] t1|]; [|done]. rewrite Hk. unfold bind.
  by destruct (show_items l2 t1).
Qed.

Lemma maxrem_ok written n :
  0 ≤ written → 0 ≤ n → written + n ≤ INT_MAX →
  (u32 (INT_MAX - written) <? n) = false ∧ s32 (written + n) = written + n.
Proof.
  unfold INT_MAX. intros. rewrite u32_id, s32_id by lia. split; [apply Z.ltb_ge; lia|done].
Qed.

Lemma cstr_bytes_ok s : bytes_ok s → bytes_ok (cstr s).
Proof.
  intros Hs. destruct (cstr_split s) as [r E]. rewrite E in Hs. by apply Forall_app in Hs as [? _].
Qed.

(** [printf_loop] with fuel [f] shows what a format of fewer than [f] bytes means. *)
Definition shows (f : nat) : Prop := ∀ format args written items t,
  (length format < f)%nat → bytes_ok format → Forall arg_ok args →
  render format args = Some items → 0 ≤ written → written + Z.of_nat (length items) ≤ INT_MAX →
  printf_loop f format args written t =
  (show_items items ;; ret (written + Z.of_nat (length items))) t.

(** A run of plain characters, or %%. *)
Lemma shows_plain f c rest args written items t :
  shows f → (length (c :: rest) < S f)%nat → bytes_ok (c :: rest) → Forall arg_ok args →
  render (c :: rest) args = Some items → 0 ≤ written → written + Z.of_nat (length items) ≤ INT_MAX →
  negb (c =? 37) || (at_ rest 0 =? 37) = true →
  printf_loop (S f) (c :: rest) args written t =
  (show_items items ;; ret (written + Z.of_nat (length items))) t.
Proof.
  intros IH Hf Hfmt Hargs Hr Hw Hlim Eplain. pose proof Hfmt as [Hc Hrest]%Forall_cons.
  cbn [printf_loop]. simpl in Hf. rewrite Eplain.
  set (format := if c =? 37 then rest else c :: rest).
  assert (∃ d rest', format = d :: rest' ∧ (length rest' < f)%nat ∧ bytes_ok rest' ∧ byte_ok d ∧
    ∃ items1, render rest' args = Some items1 ∧ items = Put d :: items1) as (d & rest' & Efmt & Hl & Hb & Hd & items1 & Hr1 & ->).
  { unfold format. cbn [render] in Hr. destruct (c =? 37) eqn:Ec; simpl in Eplain, Hr.
    - destruct rest as [|d rest']; [done|]. change (at_ (d :: rest') 0) with d in Eplain. rewrite Eplain in Hr.
      apply fmap_Some in Hr as (items1 & Hr1 & ->). apply Z.eqb_eq in Eplain as ->.
      apply Forall_cons in Hrest as [? ?]. exists 37, rest'. simpl in Hf. split_and!; try done; [lia|by exists items1].
    - apply fmap_Some in Hr as (items1 & Hr1 & ->). exists c, rest. split_and!; try done; [lia|by exists items1]. }
  rewrite Efmt. cbn [tail take drop]. set (n := plain_run rest').
  destruct (render_plain rest' args items1 Hr1) as (items2 & Hr2 & ->). fold n in Hr2, Hlim |- *.
  pose proof (plain_run_le rest') as Hn. fold n in Hn.
  assert (length (Put d :: map Put (take n rest') ++ items2) = (S n + length items2)%nat) as Hlen
    by (cbn [length]; rewrite length_app, length_map, length_take; lia).
  rewrite Hlen in Hlim |- *.
  destruct (maxrem_ok written (Z.of_nat (S n))) as [-> ->]; [lia..|].
  rewrite print_then by (constructor; [done|by apply Forall_take]).
  change (Put d :: map Put (take n rest') ++ items2) with (map Put (d :: take n rest') ++ items2).
  eapply show_then; [intros t'; apply IH|]; try done.
  + rewrite length_drop. lia.
  + by apply Forall_drop.
  + lia.
  + lia.
  + lia.
Qed.

(** A directive. *)
Lemma shows_directive f c rest args written items t :
  shows f → (length (c :: rest) < S f)%nat → bytes_ok (c :: rest) → Forall arg_ok args →
  render (c :: rest) args = Some items → 0 ≤ written → written + Z.of_nat (length items) ≤ INT_MAX →
  negb (c =? 37) || (at_ rest 0 =? 37) = false →
  printf_loop (S f) (c :: rest) args written t =
  (show_items items ;; ret (written + Z.of_nat (length items))) t.
Proof.
  intros IH Hf Hfmt Hargs Hr Hw Hlim Eplain. pose proof Hfmt as [Hc Hrest]%Forall_cons.
  cbn [printf_loop]. simpl in Hf. rewrite Eplain.
  apply orb_false_iff in Eplain as [Ec Enext]. apply negb_false_iff in Ec.
  cbn [render] in Hr. rewrite Ec in Hr. simpl in Hr.
  destruct rest as [|d rest'].
  { injection Hr as <-. cbn [length] in Hlim |- *. change (at_ [] 0) with 0. cbn [Z.eqb Pos.eqb].
    destruct (maxrem_ok written 1) as [E1 E2]; [lia..|]. change (Z.of_nat 1) with 1. rewrite E1.
    rewrite print_then by done. apply Z.eqb_eq in Ec as ->.
    eapply (show_then [Put 37] []); [intros t'; reflexivity|]. rewrite E2. done. }
  change (at_ (d :: rest') 0) with d in *. rewrite Enext in Hr. apply Forall_cons in Hrest as [Hd Hrest'].
  cbn [tail]. simpl in Hf. destruct (d =? 99).
  { destruct args as [|[x|] args]; [done| |done]. apply fmap_Some in Hr as (items1 & Hr1 & ->).
    apply Forall_cons in Hargs as [_ Hargs]. cbn [length] in Hlim |- *.
    destruct (maxrem_ok written 1) as [E1 E2]; [lia..|].
    rewrite (proj2 (Z.eqb_neq _ 0)) by (apply Z.ltb_ge in E1; lia).
    rewrite print_then by (constructor; [apply u8_range|done]). rewrite E2.
    eapply (show_then [Put (u8 x)] items1); [intros t'; apply IH; try done; lia|lia]. }
  destruct (d =? 110).
  { apply fmap_Some in Hr as (items1 & Hr1 & ->). cbn [length] in Hlim |- *.
    destruct (maxrem_ok written 1) as [_ E2]; [lia..|]. rewrite E2.
    transitivity ((show_items [NewLine] ;; printf_loop f rest' args (written + 1)) t).
    { cbn [show_items show_item]. unfold bind, ret. by destruct (terminal_newline t) as [[] ?|]. }
    eapply (show_then [NewLine] items1); [intros t'; apply IH; try done; lia|lia]. }
  destruct (d =? 115).
  { destruct args as [|[|s] args]; [done..|]. apply fmap_Some in Hr as (items1 & Hr1 & ->).
    apply Forall_cons in Hargs as [Hs Hargs]. rewrite length_app, length_map in Hlim |- *.
    destruct (maxrem_ok written (Z.of_nat (length (cstr s)))) as [-> ->]; [lia..|].
    rewrite print_then by (by apply cstr_bytes_ok).
    eapply show_then; [intros t'; apply IH; try done; lia|lia]. }
  assert (items = map Put (c :: d :: rest')) as -> by (injection Hr as <-; reflexivity).
  rewrite length_map in Hlim |- *.
  destruct (maxrem_ok written (Z.of_nat (length (c :: d :: rest')))) as [-> ->]; [lia..|].
  by rewrite print_then by done.
Qed.

Lemma printf_loop_items f : shows f.
Proof.
  induction f as [|f IH]; intros format args written items t Hf Hfmt Hargs Hr Hw Hlim; [lia|].
  destruct format as [|c rest]; [injection Hr as <-; simpl; by rewrite Z.add_0_r|].
  destruct (negb (c =? 37) || (at_ rest 0 =? 37)) eqn:E; [by apply shows_plain|by apply shows_directive].
Qed.
End Printf.

(** * Theorems *)

(** C30: [printf] shows what its format means: whenever the arguments match the
    directives and the output is at most [INT_MAX] characters, it puts the
    rendered characters and line breaks on the console, in order, and returns
    how many they are. *)
Theorem printf_renders `{PortIO D} format args items (t : con D) :
  bytes_ok format → Forall arg_ok args → render (cstr format) args = Some items →
  Z.of_nat (length items) ≤ INT_MAX →
  printf format args t = (show_items items ;; ret (Z.of_nat (length items))) t.
Proof.
  intros Hf Ha Hr Hlim. unfold printf.
  rewrite (printf_loop_items _ _ _ _ items); [done|lia|by apply cstr_bytes_ok|done..].
Qed.

Lemma printf_renders_witness :
  printf (str "%s: 100%%%n") [ArgStr (str "disk")] demo_con =
  (show_items (map Put (str "disk: 100%") ++ [NewLine]) ;; ret 11) demo_con.
Proof.
  apply (printf_renders (str "%s: 100%%%n") [ArgStr (str "disk")] (map Put (str "disk: 100%") ++ [NewLine]) demo_con).
  - apply (bool_decide_unpack _). vm_compute. exact I.
  - constructor; [|constructor]. apply (bool_decide_unpack _). vm_compute. exact I.
  - reflexivity.
  - vm_compute. discriminate.
Defined.
