(* ===== verification/Kernel.v ===== *)
(** The kernel's state in src/kernel/arch/i386/tty.c and the services the rest
    uses: the event log and [task], the speaker, [shutdown], [reboot] and [panic],
    and the keyboard.

    Pointers to text are [sref]: a literal, an offset into [input_buffer], or the
    plain integer that [task] passes to [addevent] as if it were a pointer. The
    processor stops in [hlt] loops: [Halted]. [shr80] is what the compiler makes
    of the shift by 80 in [beep], which C leaves undefined. *)
From S2P Require Import Prelude Machine CString LibC Terminal Stdio.

Inductive sref :=
| SLit (s : list Z)
| SBuf (off : nat)
| SInt (n : Z).

#[global] Instance sref_eq_dec : EqDecision sref.
Proof. solve_decision. Defined.

Definition MAX_EVENTS : Z := 10000.

Record rtc := Rtc { second : Z; minute : Z; hour : Z; day : Z; month : Z; year : Z }.

Record kst (D : Type) := Kst {
  k_con : con D;
  eventlog : list sref;          (* the first [size] entries *)
  input_buffer : list Z;         (* 256 bytes *)
  input_buffer_index : Z;
  username : sref;
  exitHKIloop : bool;
  fsinit : bool;
  networkinit : bool;
  paniccolor : Z;
  clock : rtc;
  page_directory : list Z;
  page_table : list Z;
  cr3 : Z;
  cr0 : Z;
  strtok_last : option nat;      (* offset into [input_buffer] *)
}.
Arguments Kst {D}.
Arguments k_con {D} _.
Arguments eventlog {D} _.
Arguments input_buffer {D} _.
Arguments input_buffer_index {D} _.
Arguments username {D} _.
Arguments exitHKIloop {D} _.
Arguments fsinit {D} _.
Arguments networkinit {D} _.
Arguments paniccolor {D} _.
Arguments clock {D} _.
Arguments page_directory {D} _.
Arguments page_table {D} _.
Arguments cr3 {D} _.
Arguments cr0 {D} _.
Arguments strtok_last {D} _.

Definition osname : list Z := str "PotatoOS".
Definition version : list Z := str "0".
Definition subversion : list Z := str "2.5.2".
Definition hostname : list Z := str "live".

Section Kernel.
Context {D : Type} `{PortIO D}.
Implicit Types k : kst D.
Abbreviation K := (kst D).
Variable shr80 : Z → Z.

Definition put_con (c : con D) k : K :=
  Kst c (eventlog k) (input_buffer k) (input_buffer_index k) (username k) (exitHKIloop k) (fsinit k)
    (networkinit k) (paniccolor k) (clock k) (page_directory k) (page_table k) (cr3 k) (cr0 k) (strtok_last k).
Definition put_events (l : list sref) k : K :=
  Kst (k_con k) l (input_buffer k) (input_buffer_index k) (username k) (exitHKIloop k) (fsinit k)
    (networkinit k) (paniccolor k) (clock k) (page_directory k) (page_table k) (cr3 k) (cr0 k) (strtok_last k).
Definition put_input (b : list Z) (i : Z) k : K :=
  Kst (k_con k) (eventlog k) b i (username k) (exitHKIloop k) (fsinit k)
    (networkinit k) (paniccolor k) (clock k) (page_directory k) (page_table k) (cr3 k) (cr0 k) (strtok_last k).
Definition put_user (u : sref) k : K :=
  Kst (k_con k) (eventlog k) (input_buffer k) (input_buffer_index k) u (exitHKIloop k) (fsinit k)
    (networkinit k) (paniccolor k) (clock k) (page_directory k) (page_table k) (cr3 k) (cr0 k) (strtok_last k).
Definition put_exit (b : bool) k : K :=
  Kst (k_con k) (eventlog k) (input_buffer k) (input_buffer_index k) (username k) b (fsinit k)
    (networkinit k) (paniccolor k) (clock k) (page_directory k) (page_table k) (cr3 k) (cr0 k) (strtok_last k).
Definition put_fsinit (b : bool) k : K :=
  Kst (k_con k) (eventlog k) (input_buffer k) (input_buffer_index k) (username k) (exitHKIloop k) b
    (networkinit k) (paniccolor k) (clock k) (page_directory k) (page_table k) (cr3 k) (cr0 k) (strtok_last k).
Definition put_net (b : bool) k : K :=
  Kst (k_con k) (eventlog k) (input_buffer k) (input_buffer_index k) (username k) (exitHKIloop k) (fsinit k)
    b (paniccolor k) (clock k) (page_directory k) (page_table k) (cr3 k) (cr0 k) (strtok_last k).
Definition put_paniccolor (c : Z) k : K :=
  Kst (k_con k) (eventlog k) (input_buffer k) (input_buffer_index k) (username k) (exitHKIloop k) (fsinit k)
    (networkinit k) c (clock k) (page_directory k) (page_table k) (cr3 k) (cr0 k) (strtok_last k).
Definition put_clock (c : rtc) k : K :=
  Kst (k_con k) (eventlog k) (input_buffer k) (input_buffer_index k) (username k) (exitHKIloop k) (fsinit k)
    (networkinit k) (paniccolor k) c (page_directory k) (page_table k) (cr3 k) (cr0 k) (strtok_last k).
Definition put_pages (d t : list Z) k : K :=
  Kst (k_con k) (eventlog k) (input_buffer k) (input_buffer_index k) (username k) (exitHKIloop k) (fsinit k)
    (networkinit k) (paniccolor k) (clock k) d t (cr3 k) (cr0 k) (strtok_last k).
Definition put_cr (c3 c0 : Z) k : K :=
  Kst (k_con k) (eventlog k) (input_buffer k) (input_buffer_index k) (username k) (exitHKIloop k) (fsinit k)
    (networkinit k) (paniccolor k) (clock k) (page_directory k) (page_table k) c3 c0 (strtok_last k).
Definition put_last (l : option nat) k : K :=
  Kst (k_con k) (eventlog k) (input_buffer k) (input_buffer_index k) (username k) (exitHKIloop k) (fsinit k)
    (networkinit k) (paniccolor k) (clock k) (page_directory k) (page_table k) (cr3 k) (cr0 k) l.

(** Console and port operations in the kernel's state. *)
Definition tty {A} : M (con D) A → M K A := zoom k_con put_con.
Definition port {A} (m : M D A) : M K A := tty (on_port m).
Definition newline : M K unit := tty terminal_newline.
Definition write (s : string) : M K unit := tty (terminal_writestring (str s)).
Definition color (fg bg : Z) : M K unit := tty (modify (set_color (vga_entry_color fg bg))).
Definition row (r : Z) : M K unit := tty (modify (set_row r)).
Definition column (c : Z) : M K unit := tty (modify (set_column c)).
Definition printk (s : string) : M K unit := let! _ := tty (printf (str s) []) in ret tt.

(** The bytes at address [a] up to the NUL, [f] of them at most. *)
Fixpoint mem_str (f : nat) (m : memory) (a : Z) : list Z :=
  match f with
  | O => []
  | S f' => if load8 m a =? 0 then [] else load8 m a :: mem_str f' m (a + 1)
  end.

(** The text a pointer leads to; below the kernel there is 1 MiB of memory. *)
Definition deref k (r : sref) : list Z :=
  match r with
  | SLit s => s
  | SBuf off => cstr (drop off (input_buffer k))
  | SInt n => mem_str (Z.to_nat 0x100000) (c_mem (k_con k)) n
  end.

(** * The event log *)

Definition addevent (new_event : sref) : M K unit :=
  let! size := gets (λ k, Z.of_nat (length (eventlog k))) in
  when! size <? MAX_EVENTS do modify (λ k, put_events (eventlog k ++ [new_event]) k).

Definition task (name : string) (state : Z) : M K unit :=
  newline ;;
  addevent (SInt state) ;;
  addevent (SLit (str name)) ;;
  if state =? 0 then
    write "[      ] " ;; write name
  else if state =? 1 then
    write "[  " ;;
    color VGA_COLOR_LIGHT_GREEN VGA_COLOR_BLACK ;;
    write "OK" ;;
    color VGA_COLOR_WHITE VGA_COLOR_BLACK ;;
    write "  ] " ;; write name
  else if state =? 2 then
    write "[ " ;;
    color VGA_COLOR_LIGHT_RED VGA_COLOR_BLACK ;;
    write "FAIL" ;;
    color VGA_COLOR_WHITE VGA_COLOR_BLACK ;;
    write " ] " ;; write name
  else ret tt.

(** * Speaker, reset, panic *)

Definition stop_beep : M K unit :=
  let! v := port (inb 0x61) in port (outb 0x61 (Z.land v 0xFC)).

Definition beep (frequency : Z) : M K unit :=
  let! v := port (inb 0x61) in
  port (outb 0x61 (Z.lor v 0x03)) ;;
  if frequency =? 0 then raise DivideError
  else
    let divisor := 1193180 / frequency in
    port (outb 0x43 0x27) ;;
    port (outb 0x40 (Z.land divisor 0xFF)) ;;
    port (outb 0x40 (Z.land (shr80 divisor) 0xFF)) ;;
    stop_beep.

Definition reboot : M K unit :=
  task "Reboot computer..." 0 ;;
  port (outb 0x64 0xFE) ;;
  task "Reboot computer..." 2 ;;
  task "Sending hlt..." 0 ;;
  raise Halted.

(** The loop that clears the screen in the current colour. *)
Definition clear : M K unit := tty (modify (set_buffer VGA_MEMORY) ;; fill_screen).

Definition panic (msg : list Z) : M K unit :=
  beep 7040 ;;
  port (outb 0x3D4 0x0A) ;;
  port (outb 0x3D5 0x20) ;;
  write "PANIC!!!" ;;
  let! pc := gets paniccolor in
  color VGA_COLOR_WHITE pc ;;
  modify (λ k, put_input (input_buffer k) 0 k) ;;
  clear ;;
  tty (modify (set_wait true)) ;;
  row 6 ;; newline ;; column 6 ;;
  write "An error occurred and the system has been shutdown." ;;
  newline ;; column 6 ;;
  write "Contact me at ospotato3@gmail.com with the error message below." ;;
  newline ;; column 6 ;;
  write "Github: https://github.com/winvistalover/PotatoOS/tree/nightly" ;;
  newline ;; newline ;; column 6 ;;
  write "Panic: " ;;
  tty (terminal_writestring msg) ;;
  newline ;; column 6 ;;
  write "Kernel: " ;;
  tty (terminal_writestring osname) ;;
  write " " ;;
  tty (terminal_writestring version) ;;
  write "." ;;
  tty (terminal_writestring subversion) ;;
  newline ;; newline ;; newline ;; column 6 ;;
  write "The system will automatically reboot" ;;
  newline ;;
  row (VGA_HEIGHT - 3) ;; column 0 ;;
  write "Timeout:" ;;
  column 0 ;; row (VGA_HEIGHT - 2) ;;
  color VGA_COLOR_WHITE VGA_COLOR_WHITE ;;
  for_n (Z.to_nat VGA_WIDTH) 0 (λ _, write "#") ;;
  reboot.

Definition shutdown : M K unit :=
  task "Attempting to shutdown computer..." 0 ;;
  task "Shutdown computer using old QEMU..." 0 ;;
  port (outw 0xB004 0x2000) ;;
  task "Shutdown computer using new QEMU..." 0 ;;
  port (outw 0x604 0x2000) ;;
  task "Shutdown computer using Virtualbox..." 0 ;;
  port (outw 0x4004 0x3400) ;;
  task "Shutdown computer..." 2 ;;
  task "Sending panic..." 0 ;;
  panic (str "Failed to shutdown computer. It is now safe to turn off your computer.").

Definition mainfat : M K Z := task "No FAT FS support yet." 2 ;; ret 1.

Definition findconfig (file : list Z) : Z := -1.

(** * The keyboard *)

(** By scan code; 0 where there is no character. *)
Definition keyboard_layout : list Z :=
  resize 128 0
    ([0; 0] ++ str "1234567890-=" ++ [8; 9] ++ str "qwertyuiop[]" ++ [10; 0] ++ str "asdfghjkl;'`" ++ [0] ++
     str "\zxcvbnm,./ !@ $%^&*()~QWERTYUIOPASDFGHJKLZXCVBNM<>/|").

(** [while ((inb(0x64) & 0x01) == 0)] *)
Fixpoint wait_key (f : nat) : M D unit :=
  match f with
  | O => raise OutOfFuel
  | S f' => let! s := inb 0x64 in if Z.land s 0x01 =? 0 then wait_key f' else ret tt
  end.

Definition read_keyboard (f : nat) : M K Z :=
  port (wait_key f) ;;
  let! data := port (inb 0x60) in
  if negb (Z.land data 0x80 =? 0) then ret 0
  else if data <? 128 then ret (at_ keyboard_layout data)
  else ret 0.
End Kernel.


(** * Running kernel code *)

Section Safety.
Context {D : Type} `{PortIO D}.
Implicit Types k : kst D.

(** The console is on the screen and the log within its array. *)
Definition k_ok k : Prop := con_ok (k_con k) ∧ Z.of_nat (length (eventlog k)) ≤ MAX_EVENTS.

(** Memory off the screen is untouched. *)
Definition k_mem k k' : Prop := off_screen_same (k_con k) (k_con k').

(** Moreover nothing of the kernel's state but the console and the log changed. *)
Definition k_io k k' : Prop :=
  k_mem k k' ∧ input_buffer k' = input_buffer k ∧ input_buffer_index k' = input_buffer_index k ∧
  username k' = username k ∧ exitHKIloop k' = exitHKIloop k ∧ fsinit k' = fsinit k ∧
  networkinit k' = networkinit k ∧ paniccolor k' = paniccolor k ∧ clock k' = clock k ∧
  page_directory k' = page_directory k ∧ page_table k' = page_table k ∧ cr3 k' = cr3 k ∧
  cr0 k' = cr0 k ∧ strtok_last k' = strtok_last k.

#[global] Instance k_mem_preorder : PreOrder k_mem.
Proof. split; [by intros k|]. intros k1 k2 k3 H12 H23. unfold k_mem in *. by etransitivity. Qed.

#[global] Instance k_io_preorder : PreOrder k_io.
Proof.
  split; [by intros k; unfold k_io|]. intros k1 k2 k3 H12 H23. unfold k_io in *.
  destruct H12 as [H12 ?], H23 as [H23 ?]. split; [by transitivity k2|]. intuition congruence.
Qed.

#[global] Instance k_io_mem : subrelation k_io k_mem.
Proof. by intros k k' [? _]. Qed.

(** [safely R m]: from a good state [m] returns, in a good state that [R] relates
    to the first. *)
Definition safely (R : relation (kst D)) {A} (m : M (kst D) A) : Prop :=
  ∀ k, k_ok k → ∃ a k', m k = Done a k' ∧ k_ok k' ∧ R k k'.

(** [halts m]: from a good state [m] stops the machine. *)
Definition halts {A} (m : M (kst D) A) : Prop :=
  ∀ k, k_ok k → ∃ k', m k = Stop Halted k' ∧ k_ok k' ∧ k_mem k k'.

Lemma safely_mono {A} (R R' : relation (kst D)) (m : M (kst D) A) :
  subrelation R R' → safely R m → safely R' m.
Proof. intros HR Hm k Hk. destruct (Hm k Hk) as (a & k' & ? & ? & ?). exists a, k'. auto. Qed.

Lemma safely_ret {A} R `{!Reflexive R} (a : A) : safely R (ret a).
Proof. intros k Hk. by exists a, k. Qed.

Lemma safely_bind {A B} R `{!Transitive R} (m : M (kst D) A) (f : A → M (kst D) B) :
  safely R m → (∀ a, safely R (f a)) → safely R (bind m f).
Proof.
  intros Hm Hf k Hk. destruct (Hm k Hk) as (a & k1 & E1 & Hk1 & HR1).
  destruct (Hf a k1 Hk1) as (b & k2 & E2 & Hk2 & HR2). exists b, k2.
  rewrite (bind_done _ _ _ _ _ E1). split_and!; [done|done|by etransitivity].
Qed.

Lemma safely_gets {A B} R (f : kst D → A) (g : A → M (kst D) B) :
  (∀ a, safely R (g a)) → safely R (bind (gets f) g).
Proof. intros Hg k Hk. by apply Hg. Qed.

Lemma safely_for R `{!PreOrder R} n : ∀ i body,
  (∀ i, safely R (body i)) → safely R (for_n n i body).
Proof.
  induction n as [|n IH]; intros i body Hb; [apply safely_ret, _|].
  apply safely_bind; [apply _|done|]. intros _. by apply IH.
Qed.

Lemma halts_bind {A B} (m : M (kst D) A) (f : A → M (kst D) B) :
  safely k_mem m → (∀ a, halts (f a)) → halts (bind m f).
Proof.
  intros Hm Hf k Hk. destruct (Hm k Hk) as (a & k1 & E1 & Hk1 & HR1).
  destruct (Hf a k1 Hk1) as (k2 & E2 & Hk2 & HR2). exists k2.
  rewrite (bind_done _ _ _ _ _ E1). split_and!; [done|done|by transitivity k1].
Qed.

Lemma halts_gets {A B} (f : kst D → A) (g : A → M (kst D) B) :
  (∀ a, halts (g a)) → halts (bind (gets f) g).
Proof. intros Hg k Hk. by apply Hg. Qed.

Lemma halts_first {A B} (m : M (kst D) A) (f : A → M (kst D) B) : halts m → halts (bind m f).
Proof.
  intros Hm k Hk. destruct (Hm k Hk) as (k' & E & ? & ?). exists k'. by rewrite (bind_stop _ _ _ _ _ E).
Qed.

Lemma halts_halt {A} : halts (raise (A := A) Halted).
Proof. intros k Hk. by exists k. Qed.

(** Console code that is safe by itself is safe in the kernel. *)
Lemma safely_tty {A} (m : M (con D) A) : safe m → safely k_io (tty m).
Proof.
  intros Hm k [Hc Hl]. destruct (Hm (k_con k) Hc) as (a & t' & E & Ht & Ho).
  exists a, (put_con t' k). unfold tty, zoom. rewrite E. split_and!; [done|done|].
  unfold k_io, k_mem. done.
Qed.

Lemma safe_modify (f : con D → con D) :
  (∀ t, con_ok t → con_ok (f t) ∧ c_mem (f t) = c_mem t) → safe (modify f).
Proof.
  intros Hf t Ht. destruct (Hf t Ht) as [H1 H2]. exists tt, (f t). split_and!; [done|done|].
  intros a _. by rewrite H2.
Qed.

Lemma safe_inb p : safe (on_port (inb p)).
Proof.
  intros t Ht. unfold on_port, zoom, inb. destruct (port_inb _ _) as [v d]. by eexists _, (set_dev d t).
Qed.

Lemma safe_outb p v : safe (on_port (outb p v)).
Proof. intros t Ht. by eexists tt, (set_dev _ t). Qed.

Lemma safe_outw p v : safe (on_port (outw p v)).
Proof. intros t Ht. by eexists tt, (set_dev _ t). Qed.

Lemma safe_fill : safe (modify (set_buffer VGA_MEMORY) ;; fill_screen (D := D)).
Proof.
  intros t (Hr & Hc & Hb & Hcol). rewrite (bind_done _ _ _ tt (set_buffer VGA_MEMORY t)) by done.
  destruct (fill_screen_run (set_buffer VGA_MEMORY t) eq_refl Hcol) as (m & E & Hm).
  exists tt, (set_mem m (set_buffer VGA_MEMORY t)). split; [exact E|].
  split; [exact (conj Hr (conj Hc (conj eq_refl Hcol)))|].
  intros a Ha. cbn [c_mem set_mem]. rewrite Hm, decide_False by lia. done.
Qed.

Lemma safe_initialize : safe (terminal_initialize (D := D)).
Proof.
  intros t (Hr & Hc & Hb & Hcol). destruct (initialize_run t Hcol) as (m & E & Hm).
  eexists tt, _. split; [exact E|]. split.
  - unfold con_ok, VGA_HEIGHT. cbn. split_and!; first [lia|exact Hc|reflexivity|apply Hc].
  - intros a Ha. cbn [c_mem]. rewrite Hm, decide_False by lia. done.
Qed.
End Safety.

Section Services.
Context {D : Type} `{PortIO D}.
Implicit Types k : kst D.

Lemma safely_port_in p : safely k_io (port (D := D) (inb p)).
Proof. apply safely_tty, safe_inb. Qed.
Lemma safely_port_out p v : safely k_io (port (D := D) (outb p v)).
Proof. apply safely_tty, safe_outb. Qed.
Lemma safely_port_outw p v : safely k_io (port (D := D) (outw p v)).
Proof. apply safely_tty, safe_outw. Qed.
Lemma safely_newline : safely k_io (newline (D := D)).
Proof. apply safely_tty, safe_newline. Qed.
Lemma safely_writestring s : safely k_io (tty (D := D) (terminal_writestring s)).
Proof. apply safely_tty. exact (safe_write (cstr s)). Qed.
Lemma safely_write s : safely k_io (write (D := D) s).
Proof. exact (safely_writestring (str s)). Qed.
Lemma safely_putchar c : safely k_io (tty (D := D) (terminal_putchar c)).
Proof. apply safely_tty, safe_putchar. Qed.
Lemma safely_initialize : safely k_io (tty (D := D) terminal_initialize).
Proof. apply safely_tty, safe_initialize. Qed.
Lemma safely_clear : safely k_io (clear (D := D)).
Proof. exact (safely_tty _ safe_fill). Qed.

Lemma safely_color fg bg : safely k_io (color (D := D) fg bg).
Proof.
  apply safely_tty, safe_modify. intros t (Hr & Hc & Hb & Hcol). split; [|done].
  split_and!; [apply Hr..|apply Hc|apply Hc|exact Hb|apply u8_range|apply u8_range].
Qed.

Lemma safely_row r : 0 ≤ r < 25 → safely k_io (row (D := D) r).
Proof.
  intros Hx. apply safely_tty, safe_modify. intros t (Hr & Hc & Hb & Hcol). split; [|done].
  unfold con_ok. cbn. rewrite (u32_id r) by lia. unfold VGA_HEIGHT. done.
Qed.

Lemma safely_column c : 0 ≤ c < 80 → safely k_io (column (D := D) c).
Proof.
  intros Hx. apply safely_tty, safe_modify. intros t (Hr & Hc & Hb & Hcol). split; [|done].
  unfold con_ok. cbn. rewrite (u32_id c) by lia. unfold VGA_WIDTH. done.
Qed.

Lemma safely_wait b : safely k_io (tty (D := D) (modify (set_wait b))).
Proof. apply safely_tty, safe_modify. intros t Ht. by split. Qed.

Lemma safe_items l : safe (show_items (D := D) l).
Proof.
  induction l as [|i l IH]; [apply safe_ret|]. apply safe_bind; [|done].
  destruct i; [apply safe_putchar|apply safe_newline].
Qed.

(** [printf] is safe on arguments that match its format. *)
Lemma safely_printf format args items :
  bytes_ok format → Forall arg_ok args → render (cstr format) args = Some items →
  Z.of_nat (length items) ≤ INT_MAX → safely k_io (tty (D := D) (printf format args)).
Proof.
  intros Hf Ha Hr Hlim. apply safely_tty. intros t Ht.
  destruct (safe_items items t Ht) as ([] & t' & E & ? & ?). eexists _, t'.
  unfold printf. rewrite (printf_loop_items _ _ _ _ items); [|lia|by apply cstr_bytes_ok|done..].
  rewrite (bind_done _ _ _ _ _ E). done.
Qed.

Lemma str_bytes_ok s : bytes_ok (str s).
Proof.
  induction s as [|c s IH]; constructor; [|done].
  pose proof (Ascii.N_ascii_bounded c). unfold byte_ok. lia.
Qed.

(** The text printed directly has no directive that needs an argument. *)
Definition plain (s : string) : bool :=
  match render (cstr (str s)) [] with Some l => Z.of_nat (length l) <=? INT_MAX | None => false end.

Lemma safely_printk s : plain s = true → safely k_io (printk (D := D) s).
Proof.
  intros Hs. unfold plain in Hs. destruct (render _ _) as [items|] eqn:E; [|done]. zbool.
  apply safely_bind; [apply _| |intros; apply safely_ret, _].
  by apply (safely_printf _ _ items); [apply str_bytes_ok|..].
Qed.

Lemma addevent_run e k :
  Z.of_nat (length (eventlog k)) ≤ MAX_EVENTS →
  addevent e k = Done tt (put_events (take (Z.to_nat MAX_EVENTS) (eventlog k ++ [e])) k).
Proof.
  intros Hl. unfold addevent. rewrite (bind_done _ _ _ (Z.of_nat (length (eventlog k))) k) by done.
  destruct (Z.ltb_spec (Z.of_nat (length (eventlog k))) MAX_EVENTS) as [Hlt|Hge].
  - rewrite take_ge; [done|]. rewrite length_app. cbn [length]. lia.
  - rewrite take_app_length' by lia. by destruct k.
Qed.

Lemma safely_addevent e : safely k_io (addevent (D := D) e).
Proof.
  intros k [Hc Hl]. rewrite addevent_run by done. eexists _, _. split; [done|]. split.
  - split; [done|]. cbn [eventlog put_events]. rewrite length_take. lia.
  - unfold k_io, k_mem. cbn. done.
Qed.
End Services.

Create HintDb kernel.
#[export] Hint Resolve safely_port_in safely_port_out safely_port_outw safely_newline safely_writestring
  safely_write safely_putchar safely_initialize safely_clear safely_color safely_wait safely_addevent : kernel.
#[export] Hint Extern 1 (safely k_io (row _)) => apply safely_row; unfold VGA_HEIGHT; lia : kernel.
#[export] Hint Extern 1 (safely k_io (column _)) => apply safely_column; lia : kernel.
#[export] Hint Extern 1 (safely k_io (printk _)) => apply safely_printk; vm_compute; reflexivity : kernel.

(** [kernel]: walk through kernel code that is safe step by step; a step the
    hints do not know is left to the user. *)
Ltac kernel1 :=
  lazymatch goal with
  | |- safely _ (ret _) => apply safely_ret; apply _
  | |- safely _ (bind (gets _) _) => apply safely_gets; intros ?
  | |- safely _ (bind _ _) => apply safely_bind; [apply _| |intros ?]
  | |- safely _ (for_n _ _ _) => apply safely_for; [apply _|intros ?]
  | |- safely _ (match ?b with true => _ | false => _ end) => destruct b
  | |- safely k_io _ => solve [auto with kernel nocore]
  | |- safely k_mem _ => apply (safely_mono k_io); [apply _|]
  | |- halts (raise Halted) => apply halts_halt
  | |- halts (bind (gets _) _) => apply halts_gets; intros ?
  | |- halts (bind _ _) => apply halts_bind; [|intros ?]
  end.
Ltac kernel := repeat kernel1.

(** * The services are safe *)

Section Verified.
Context {D : Type} `{PortIO D}.
Implicit Types k : kst D.

Lemma safely_task name state : safely k_io (task (D := D) name state).
Proof. unfold task. kernel. Qed.

Lemma safely_beep shr80 f : f ≠ 0 → safely k_io (beep (D := D) shr80 f).
Proof.
  intros Hf. unfold beep, stop_beep. rewrite (proj2 (Z.eqb_neq f 0) Hf). kernel.
Qed.

Lemma reboot_halts : halts (reboot (D := D)).
Proof.
  unfold reboot. repeat (apply halts_bind; [apply (safely_mono k_io); [apply _|]|intros _]);
    [apply safely_task|apply safely_port_out|apply safely_task|apply safely_task|apply halts_halt].
Qed.

Lemma safely_index i : safely k_mem (modify (λ k : kst D, put_input (input_buffer k) i k)).
Proof. intros k Hk. by eexists tt, _. Qed.
End Verified.

#[export] Hint Resolve safely_task : kernel.
#[export] Hint Extern 1 (safely k_io (beep _ _)) => apply safely_beep; lia : kernel.

Lemma panic_halts `{PortIO D} shr80 msg : halts (panic (D := D) shr80 msg).
Proof.
  unfold panic.
  repeat lazymatch goal with
  | |- halts reboot => apply reboot_halts
  | |- safely k_mem (modify _) => apply safely_index
  | |- _ => kernel1
  end.
Qed.

Lemma shutdown_halts `{PortIO D} shr80 : halts (shutdown (D := D) shr80).
Proof.
  unfold shutdown.
  repeat lazymatch goal with
  | |- halts (panic _ _) => apply panic_halts
  | |- _ => kernel1
  end.
Qed.

(** * What is on a line *)

Section Line.
Context {D : Type} `{PortIO D}.
Implicit Types (t : con D) (k : kst D).

(** From [t] to [t'] the cells [l] (character and colour) appeared at the writing
    position, which moved behind them in the same row; nothing else changed. *)
Definition shown (l : list (Z * Z)) t t' : Prop :=
  con_ok t' ∧ off_screen_same t t' ∧ terminal_row t' = terminal_row t ∧
  terminal_column t' = terminal_column t + Z.of_nat (length l) ∧
  ∀ j, 0 ≤ j < 2000 → cell t' j =
    match (if 0 <=? j - cell_at (terminal_row t) (terminal_column t)
           then l !! Z.to_nat (j - cell_at (terminal_row t) (terminal_column t)) else None) with
    | Some (c, color) => vga_entry c color
    | None => cell t j
    end.

Lemma shown_nil t : con_ok t → shown [] t t.
Proof.
  intros Ht. split_and!; [apply Ht..|done|done|done|cbn; lia|]. intros j Hj. rewrite lookup_nil. by case_if.
Qed.

Lemma shown_trans l1 l2 t1 t2 t3 : shown l1 t1 t2 → shown l2 t2 t3 → shown (l1 ++ l2) t1 t3.
Proof.
  intros (_ & Ho1 & Hr1 & Hc1 & H1) (Ht3 & Ho2 & Hr2 & Hc2 & H2).
  split; [done|]. split; [by transitivity t2|]. split; [congruence|].
  split; [rewrite length_app; lia|]. intros j Hj. rewrite H2, H1 by done. rewrite Hr1, Hc1.
  unfold cell_at. set (b := terminal_row t1 * VGA_WIDTH + terminal_column t1).
  replace (terminal_row t1 * VGA_WIDTH + (terminal_column t1 + Z.of_nat (length l1)))
    with (b + Z.of_nat (length l1)) by (unfold b; lia).
  destruct (Z.leb_spec 0 (j - (b + Z.of_nat (length l1)))), (Z.leb_spec 0 (j - b)); try lia; try done.
  - rewrite lookup_app, (lookup_ge_None_2 l1) by lia.
    replace (Z.to_nat (j - b) - length l1)%nat with (Z.to_nat (j - (b + Z.of_nat (length l1)))) by lia. done.
  - rewrite lookup_app. destruct (l1 !! _) eqn:E; [done|]. apply lookup_ge_None in E. lia.
Qed.

Lemma shown_char c t :
  con_ok t → terminal_row t < 24 → terminal_column t < 79 →
  ∃ t', terminal_putchar c t = Done tt t' ∧ shown [(c, terminal_color t)] t t' ∧ terminal_color t' = terminal_color t.
Proof.
  intros Ht Hr Hc. destruct (putchar_run c t Ht) as (t' & E & Ht' & Ho & Hc1 & Hcell & Hr1 & Hcol & Hclr & _).
  assert ((terminal_row t =? 24) = false) as E24 by (apply Z.eqb_neq; lia).
  assert ((terminal_column t =? 79) = false) as E79 by (apply Z.eqb_neq; lia).
  unfold write_row, write_color in *. rewrite E24, ?E79 in *.
  exists t'. split; [done|]. split; [|done]. split; [done|]. split; [done|]. split; [done|]. split; [done|].
  intros j Hj. destruct (decide (j = cell_at (terminal_row t) (terminal_column t))) as [->|Hne].
  - rewrite Z.sub_diag. exact Hc1.
  - rewrite Hcell by done. destruct (Z.leb_spec 0 (j - cell_at (terminal_row t) (terminal_column t))); [|done].
    rewrite lookup_ge_None_2; [done|]. cbn [length]. lia.
Qed.

Lemma shown_write data : ∀ t,
  con_ok t → terminal_row t < 24 → terminal_column t + Z.of_nat (length data) < 80 →
  ∃ t', terminal_write data t = Done tt t' ∧ shown (map (λ c, (c, terminal_color t)) data) t t' ∧
    terminal_color t' = terminal_color t.
Proof.
  induction data as [|c data IH]; intros t Ht Hr Hc.
  { exists t. split_and!; [done|by apply shown_nil|done]. }
  cbn [length] in Hc. destruct (shown_char c t) as (t1 & E1 & S1 & Hcl1); [done|done|lia|].
  pose proof S1 as (Ht1 & _ & Hr1 & Hc1 & _). cbn [length] in Hc1.
  destruct (IH t1) as (t2 & E2 & S2 & Hcl2); [done|lia|lia|].
  exists t2. cbn [terminal_write]. rewrite (bind_done _ _ _ _ _ E1). split; [done|].
  rewrite Hcl1 in S2. split; [exact (shown_trans [_] _ _ _ _ S1 S2)|congruence].
Qed.

(** The same in the kernel, with the rest of its state. *)
Definition k_shown (l : list (Z * Z)) k k' : Prop := shown l (k_con k) (k_con k') ∧ k' = put_con (k_con k') k.

Definition text (color : Z) (s : string) : list (Z * Z) := map (λ c, (c, color)) (cstr (str s)).

Lemma k_shown_trans l1 l2 k1 k2 k3 : k_shown l1 k1 k2 → k_shown l2 k2 k3 → k_shown (l1 ++ l2) k1 k3.
Proof. intros [S1 E1] [S2 E2]. split; [by apply (shown_trans _ _ _ (k_con k2))|]. rewrite E2. by rewrite E1. Qed.

Lemma k_shown_write s k :
  con_ok (k_con k) → terminal_row (k_con k) < 24 →
  terminal_column (k_con k) + Z.of_nat (length (cstr (str s))) < 80 →
  ∃ k', write s k = Done tt k' ∧ k_shown (text (terminal_color (k_con k)) s) k k' ∧
    terminal_color (k_con k') = terminal_color (k_con k).
Proof.
  intros Hk Hr Hc. destruct (shown_write (cstr (str s)) (k_con k) Hk Hr Hc) as (t' & E & S & Hcl).
  exists (put_con t' k). unfold write, tty, zoom, terminal_writestring. rewrite E. done.
Qed.
End Line.

Section Task.
Context {D : Type} `{PortIO D}.
Implicit Types (t : con D) (k : kst D).

(** The line [task] shows for a state, and its pieces: texts in one colour. *)
Definition pieces (color state : Z) (name : string) : list (Z * list string) :=
  if state =? 0 then [(color, ["[      ] "; name])]
  else if state =? 1 then [(color, ["[  "]); (10, ["OK"]); (15, ["  ] "; name])]
  else if state =? 2 then [(color, ["[ "]); (12, ["FAIL"]); (15, [" ] "; name])]
  else [].
Definition piece_cells (p : Z * list string) : list (Z * Z) := concat (map (text p.1) p.2).
Definition status_line (color state : Z) (name : string) : list (Z * Z) :=
  concat (map piece_cells (pieces color state name)).

Fixpoint write_all (l : list string) : M (kst D) unit :=
  match l with [] => ret tt | [s] => write s | s :: l' => write s ;; write_all l' end.

(** Setting the colour of each piece, then writing it. *)
Fixpoint write_pieces (l : list (Z * list string)) : M (kst D) unit :=
  match l with
  | [] => ret tt
  | [(c, ss)] => tty (modify (set_color c)) ;; write_all ss
  | (c, ss) :: l' => tty (modify (set_color c)) ;; write_all ss ;; write_pieces l'
  end.

Lemma write_all_shown l : ∀ k,
  con_ok (k_con k) → terminal_row (k_con k) < 24 →
  terminal_column (k_con k) + Z.of_nat (length (concat (map (text (terminal_color (k_con k))) l))) < 80 →
  ∃ k', write_all l k = Done tt k' ∧ k_shown (concat (map (text (terminal_color (k_con k))) l)) k k'.
Proof.
  induction l as [|s l IH]; intros k Hk Hr Hlen.
  { exists k. split; [done|]. split; [by apply shown_nil|by destruct k]. }
  cbn [map concat] in Hlen |- *. rewrite length_app in Hlen.
  destruct (k_shown_write s k) as (k1 & E1 & S1 & Hcl1);
    [done|done|unfold text in Hlen; rewrite length_map in Hlen; lia|].
  pose proof S1 as [(Ht1 & _ & Hr1 & Hc1 & _) _].
  destruct (IH k1) as (k2 & E2 & S2); [done|lia|rewrite Hcl1; lia|].
  exists k2. rewrite Hcl1 in S2. split; [|by apply (k_shown_trans _ _ _ k1)].
  destruct l as [|s' l]; [|cbn [write_all]; by rewrite (bind_done _ _ _ _ _ E1)].
  injection E2 as <-. exact E1.
Qed.

Lemma write_pieces_shown l : ∀ k,
  con_ok (k_con k) → terminal_row (k_con k) < 24 → Forall (λ p, 0 ≤ p.1 < 256) l →
  terminal_column (k_con k) + Z.of_nat (length (concat (map piece_cells l))) < 80 →
  ∃ k', write_pieces l k = Done tt k' ∧ k_shown (concat (map piece_cells l)) k k'.
Proof.
  induction l as [|[c ss] l IH]; intros k Hk Hr Hl Hlen.
  { exists k. split; [done|]. split; [by apply shown_nil|by destruct k]. }
  apply Forall_cons in Hl as [Hc Hl]. cbn [map concat fst] in Hlen, Hc |- *. rewrite length_app in Hlen.
  set (k0 := put_con (set_color c (k_con k)) k).
  assert (con_ok (k_con k0)) as Hk0.
  { destruct Hk as (A1 & A2 & A3 & A4). split_and!; [apply A1..|apply A2|apply A2|exact A3| |]; apply u8_range. }
  assert (terminal_color (k_con k0) = c) as Hc0 by (by apply u8_id).
  unfold piece_cells in Hlen at 1. cbn [fst snd] in Hlen.
  destruct (write_all_shown ss k0) as (k1 & E1 & S1); [done|done|rewrite Hc0; cbn; lia|].
  rewrite Hc0 in S1. pose proof S1 as [(Ht1 & _ & Hr1 & Hc1 & _) _].
  change (terminal_row (k_con k0)) with (terminal_row (k_con k)) in Hr1.
  change (terminal_column (k_con k0)) with (terminal_column (k_con k)) in Hc1.
  destruct (IH k1) as (k2 & E2 & S2); [done|lia|done|lia|].
  exists k2. split.
  - destruct l; cbn [write_pieces]; rewrite (bind_done _ _ k tt k0) by done.
    + injection E2 as <-. exact E1.
    + by rewrite (bind_done _ _ _ _ _ E1).
  - pose proof (k_shown_trans _ _ _ _ _ S1 S2) as [S3 E3]. split; [exact S3|]. rewrite E3. done.
Qed.

(** A piece in the colour the console has needs no change of colour. *)
Lemma write_same s k f :
  0 ≤ terminal_color (k_con k) < 256 →
  (write s ;; f) k = (tty (modify (set_color (terminal_color (k_con k)))) ;; write s ;; f : M (kst D) unit) k.
Proof.
  intros Hc. rewrite (bind_done (tty _) _ k tt k); [done|]. unfold tty, zoom, modify, set_color.
  rewrite u8_id by done. by destruct k as [[]].
Qed.
End Task.

Lemma take_prefix {A} n (l1 l2 : list A) : take n (take n l1 ++ l2) = take n (l1 ++ l2).
Proof.
  rewrite !take_app, take_take, length_take. f_equal; f_equal; lia.
Qed.

(** * Theorems *)



(** The state the linker leaves, on a console and a device. *)
Definition initial {D} (c : con D) : kst D :=
  Kst c [SLit (str "test")] (replicate 256 0) 0 (SLit (str "potato")) false false false 8
    (Rtc 0 0 0 0 0 0) (replicate 1024 0) (replicate 1024 0) 0 1 None.

(** What the keyboard code relies on of the controller: bit 0 of the status port
    says whether a scan code waits, reading the data port takes it, and writes
    to other ports and reads of them leave the keyboard alone. [kbd] is the scan codes to come. *)
Class Keyboard (D : Type) `{PortIO D} := {
  kbd : D → list Z;
  kbd_status : ∀ d, let '(v, d') := port_inb 0x64 d in
    kbd d' = kbd d ∧ (Z.land (u8 v) 1 =? 0) = bool_decide (kbd d = []);
  kbd_data : ∀ d c rest, kbd d = c :: rest → byte_ok c →
    let '(v, d') := port_inb 0x60 d in u8 v = c ∧ kbd d' = rest;
  kbd_outb : ∀ p v d, p ≠ 0x60 → p ≠ 0x64 → kbd (port_outb p v d) = kbd d;
  kbd_inb : ∀ p d, p ≠ 0x60 → kbd (snd (port_inb p d)) = kbd d;
}.

(** The PC of the witnesses: a CRT controller, the keys to come and a real-time
    clock of registers behind ports 0x70 and 0x71. *)
Record pc := Pc { pc_crt : crt; pc_keys : list Z; pc_index : Z; pc_cmos : memory }.

#[export] Instance pc_ports : PortIO pc := {|
  port_inb p d :=
    if p =? 0x64 then (if bool_decide (pc_keys d = []) then 0 else 1, d)
    else if p =? 0x60 then
      (match pc_keys d with c :: _ => c | [] => 0 end, Pc (pc_crt d) (tail (pc_keys d)) (pc_index d) (pc_cmos d))
    else if p =? 0x71 then (load8 (pc_cmos d) (pc_index d), d)
    else let '(v, c) := port_inb p (pc_crt d) in (v, Pc c (pc_keys d) (pc_index d) (pc_cmos d));
  port_inw _ d := (0, d);
  port_outb p v d :=
    if p =? 0x70 then Pc (pc_crt d) (pc_keys d) v (pc_cmos d)
    else Pc (port_outb p v (pc_crt d)) (pc_keys d) (pc_index d) (pc_cmos d);
  port_outw _ _ d := d;
|}.

#[export, refine] Instance pc_keyboard : Keyboard pc := {| kbd := pc_keys |}.
Proof.
  - intros d. simpl. case_bool_decide; done.
  - intros d c rest E Hc. simpl. rewrite E. split; [by apply u8_id|done].
  - intros p v d _ _. simpl. by destruct (p =? 0x70).
  - intros p d Hp. simpl. rewrite (proj2 (Z.eqb_neq p 0x60)) by done.
    destruct (p =? 0x64), (p =? 0x71), (p =? 0x3D5); done.
Defined.

Definition demo_kst (keys : list Z) : kst pc :=
  initial (Con ∅ (Pc (Crt 0 ∅) keys 0 ∅) 3 0 15 VGA_MEMORY true false).

Lemma demo_kst_ok keys : k_ok (demo_kst keys).
Proof.
  split; [|vm_compute; discriminate]. unfold con_ok, VGA_HEIGHT, VGA_WIDTH. cbn. split_and!; first [lia|reflexivity].
Qed.


(** C32: the ways down: [reboot], [panic] with any message and [shutdown], which
    ends in a panic, never return: on any hardware that keeps the machine
    running they stop it in the [hlt] loop, without having written memory off
    the screen; the undefined shift in [beep] does not matter. *)
Theorem machine_stops `{PortIO D} shr80 msg (k : kst D) :
  k_ok k →
  (∃ k', reboot k = Stop Halted k' ∧ k_mem k k') ∧
  (∃ k', panic shr80 msg k = Stop Halted k' ∧ k_mem k k') ∧
  (∃ k', shutdown shr80 k = Stop Halted k' ∧ k_mem k k').
Proof.
  intros Hk. destruct (reboot_halts k Hk) as (k1 & E1 & _ & H1).
  destruct (panic_halts shr80 msg k Hk) as (k2 & E2 & _ & H2).
  destruct (shutdown_halts shr80 k Hk) as (k3 & E3 & _ & H3).
  split; [by exists k1|]. split; [by exists k2|by exists k3].
Qed.

Lemma machine_stops_witness :
  ∃ k', panic (λ _, 0) (str "FS NOT INIT!") (demo_kst []) = Stop Halted k'.
Proof.
  destruct (machine_stops (λ _, 0) (str "FS NOT INIT!") (demo_kst []) (demo_kst_ok [])) as (_ & (k' & E & _) & _).
  exists k'. exact E.
Defined.

Section Keys.
Context {D : Type} `{Keyboard D}.
Implicit Types (k : kst D) (d : D).

Abbreviation keys k := (kbd (c_dev (k_con k))).
Definition put_dev d k : kst D := put_con (set_dev d (k_con k)) k.

Lemma wait_key_ready f d : kbd d ≠ [] → ∃ d', wait_key (S f) d = Done tt d' ∧ kbd d' = kbd d.
Proof.
  intros Hd. cbn [wait_key]. unfold bind, inb. pose proof (kbd_status d) as Hs.
  change (u16 0x64) with 0x64. destruct (port_inb 0x64 d) as [v d']. destruct Hs as [Hk Hs].
  rewrite Hs, bool_decide_eq_false_2 by done. by exists d'.
Qed.

Lemma wait_key_idle f : ∀ d, kbd d = [] → ∃ d', wait_key f d = Stop OutOfFuel d'.
Proof.
  induction f as [|f IH]; intros d Hd; [by exists d|]. cbn [wait_key]. unfold bind, inb.
  pose proof (kbd_status d) as Hs. change (u16 0x64) with 0x64. destruct (port_inb 0x64 d) as [v d'].
  destruct Hs as [Hk Hs]. rewrite Hs, bool_decide_eq_true_2 by done. apply IH. congruence.
Qed.

(** The character of a scan code: make codes through the layout, releases none. *)
Definition key_char (c : Z) : Z := if c <? 128 then at_ keyboard_layout c else 0.

Lemma read_keyboard_run f k c rest :
  keys k = c :: rest → byte_ok c →
  ∃ d', read_keyboard (S f) k = Done (key_char c) (put_dev d' k) ∧ kbd d' = rest.
Proof.
  intros Ek Hc. destruct (wait_key_ready f (c_dev (k_con k))) as (d1 & E1 & Hk1); [by rewrite Ek|].
  unfold read_keyboard. rewrite (bind_done _ _ k tt (put_dev d1 k))
    by (unfold port, tty, on_port, zoom; by rewrite E1).
  rewrite Ek in Hk1. pose proof (kbd_data d1 c rest Hk1 Hc) as Hd.
  destruct (port_inb 0x60 d1) as [v d2] eqn:E2. destruct Hd as [Hv Hk2]. exists d2. split; [|done].
  rewrite (bind_done _ _ _ c (put_dev d2 k)).
  2: { unfold port, tty, on_port, zoom, inb, put_dev. cbn [k_con put_con c_dev set_dev].
       change (u16 0x60) with 0x60. rewrite E2, Hv. done. }
  assert (negb (Z.land c 0x80 =? 0) = negb (c <? 128)) as -> by (by_bytes c).
  unfold key_char. by destruct (c <? 128).
Qed.
End Keys.

(** C34: the keyboard: [read_keyboard] takes exactly one scan code and returns its
    character of the layout for a key press and 0 for a release; the access to
    the 128-entry layout is in bounds. With no key to come it waits for ever. *)
Theorem read_keyboard_decodes `{Keyboard D} f (k : kst D) :
  Forall byte_ok (kbd (c_dev (k_con k))) →
  match kbd (c_dev (k_con k)) with
  | c :: rest => ∃ d', read_keyboard (S f) k =
      Done (if c <? 128 then at_ keyboard_layout c else 0) (put_dev d' k) ∧ kbd d' = rest ∧
      length keyboard_layout = 128%nat
  | [] => ∃ k', read_keyboard f k = Stop OutOfFuel k'
  end.
Proof.
  intros Hb. destruct (kbd (c_dev (k_con k))) as [|c rest] eqn:Ek.
  - destruct (wait_key_idle f (c_dev (k_con k)) Ek) as [d E]. exists (put_dev d k).
    unfold read_keyboard, bind, port, tty, on_port, zoom. by rewrite E.
  - apply Forall_cons in Hb as [Hc _]. destruct (read_keyboard_run f k c rest Ek Hc) as (d' & E & Hd).
    exists d'. by split_and!.
Qed.

Lemma read_keyboard_decodes_witness :
  ∃ d', read_keyboard 1 (demo_kst [0x1E; 0x9E]) = Done 97 (put_dev d' (demo_kst [0x1E; 0x9E])) ∧ kbd d' = [0x9E].
Proof.
  destruct (read_keyboard_decodes 0 (demo_kst [0x1E; 0x9E])) as (d' & E & Hk & _).
  - apply (bool_decide_unpack _). vm_compute. exact I.
  - exists d'. split; [exact E|exact Hk].
Defined.
