(* ===== verification/Quiet.v ===== *)
(** Code that leaves all devices but the CRT controller alone: the console and
    what the kernel builds on it. The keyboard and the clock behind a screen full
    of output are in the state they were in. *)
From S2P Require Import Prelude Machine CString LibC Terminal Stdio Kernel.

(** * Writes to the CRT controller *)

(** From [d] to [d'] by writes to the ports of the CRT controller only. *)
Inductive crt_only `{PortIO D} : D → D → Prop :=
| crt_refl d : crt_only d d
| crt_step d p v d' : p = 0x3D4 ∨ p = 0x3D5 → crt_only (port_outb p v d) d' → crt_only d d'.

Section Quiet.
Context {D : Type} `{PortIO D}.

#[global] Instance crt_only_preorder : PreOrder (crt_only (D := D)).
Proof.
  split; [by constructor|]. intros d1 d2 d3 H12 H23.
  induction H12 as [|d p v d' Hp _ IH]; [done|]. by apply (crt_step d p v), IH.
Qed.

(** Code of the console, and of the kernel, that writes no other port. *)
Definition quiet {A} (m : M (con D) A) : Prop :=
  ∀ t a t', m t = Done a t' → crt_only (c_dev t) (c_dev t').
Definition k_quiet {A} (m : M (kst D) A) : Prop :=
  ∀ k a k', m k = Done a k' → crt_only (c_dev (k_con k)) (c_dev (k_con k')).

Lemma quiet_ret {A} (a : A) : quiet (ret a).
Proof. by intros t b t' [= <- <-]. Qed.
Lemma quiet_gets {A} (f : con D → A) : quiet (gets f).
Proof. by intros t b t' [= <- <-]. Qed.
Lemma quiet_raise {A} e : quiet (raise (A := A) e).
Proof. by intros t b t' [=]. Qed.
Lemma quiet_modify f : (∀ t, c_dev (f t) = c_dev t) → quiet (modify f).
Proof. intros Hf t b t' [= <- <-]. by rewrite Hf. Qed.
Lemma quiet_bind {A B} (m : M (con D) A) (f : A → M (con D) B) :
  quiet m → (∀ a, quiet (f a)) → quiet (bind m f).
Proof.
  intros Hm Hf t b t' (a & t1 & E1 & E2)%bind_inv. transitivity (c_dev t1); [by eapply Hm|by eapply Hf].
Qed.
Lemma quiet_for n : ∀ i body, (∀ i, quiet (body i)) → quiet (for_n n i body).
Proof. induction n as [|n IH]; intros i body Hb; [apply quiet_ret|]. apply quiet_bind; auto. Qed.
Lemma quiet_outb p v : p = 0x3D4 ∨ p = 0x3D5 → quiet (on_port (outb p v)).
Proof.
  intros Hp t a t' [= <- <-]. assert (u16 p = p) as -> by (destruct Hp as [->| ->]; done).
  by eapply crt_step; [|constructor].
Qed.
End Quiet.

Create HintDb quiet.
#[export] Hint Resolve quiet_ret quiet_gets quiet_raise quiet_bind quiet_for : quiet.
#[export] Hint Extern 1 (quiet (modify _)) => apply quiet_modify; reflexivity : quiet.
#[export] Hint Extern 1 (quiet (put_cell _ _)) => apply quiet_modify; reflexivity : quiet.
#[export] Hint Extern 1 (quiet (on_port (outb _ _))) => apply quiet_outb; auto : quiet.

Ltac quiet :=
  repeat lazymatch goal with
  | |- quiet (bind _ _) => apply quiet_bind; [|intros ?]
  | |- quiet (for_n _ _ _) => apply quiet_for; intros ?
  | |- quiet (match ?b with true => _ | false => _ end) => destruct b
  | |- quiet _ => solve [auto with quiet nocore]
  end.

Section QuietConsole.
Context {D : Type} `{PortIO D}.

Lemma quiet_initialize : quiet (terminal_initialize (D := D)).
Proof. unfold terminal_initialize, fill_screen. quiet. Qed.
Lemma quiet_update_cursor x y : quiet (update_cursor (D := D) x y).
Proof. unfold update_cursor. quiet. Qed.
Lemma quiet_putentryat c color x y : quiet (terminal_putentryat (D := D) c color x y).
Proof. unfold terminal_putentryat, update_cursor. quiet. Qed.
Lemma quiet_putchar c : quiet (terminal_putchar (D := D) c).
Proof.
  unfold terminal_putchar, terminal_scroll. pose proof quiet_initialize. pose proof quiet_putentryat. quiet.
Qed.
Lemma quiet_write s : quiet (terminal_write (D := D) s).
Proof. induction s; cbn [terminal_write]; [apply quiet_ret|]. apply quiet_bind; [apply quiet_putchar|done]. Qed.
Lemma quiet_writestring s : quiet (terminal_writestring (D := D) s).
Proof. unfold terminal_writestring. apply quiet_write. Qed.
Lemma quiet_newline : quiet (terminal_newline (D := D)).
Proof. unfold terminal_newline, fill_screen. quiet. Qed.
Lemma quiet_items l : quiet (show_items (D := D) l).
Proof.
  induction l as [|i l IH]; cbn [show_items]; [apply quiet_ret|]. apply quiet_bind; [|done].
  destruct i; [apply quiet_putchar|apply quiet_newline].
Qed.
Lemma quiet_print s : quiet (print (D := D) s).
Proof.
  induction s as [|c s IH]; cbn [print]; [apply quiet_ret|]. unfold putchar.
  apply quiet_bind; [apply quiet_bind; [apply quiet_write|intros; apply quiet_ret]|].
  intros r. destruct (_ =? _); [apply quiet_ret|done].
Qed.

Lemma quiet_printf_loop f : ∀ format args written, quiet (printf_loop (D := D) f format args written).
Proof.
  induction f as [|f IH]; intros format args written; destruct format as [|c rest]; cbn [printf_loop]; [quiet..|].
  pose proof quiet_print. pose proof quiet_newline. cbv zeta.
  repeat first [progress quiet|apply IH|destruct args as [|[?|?] args]].
Qed.

Lemma k_quiet_ret {A} (a : A) : k_quiet (D := D) (ret a).
Proof. by intros t b t' [= <- <-]. Qed.
Lemma k_quiet_bind {A B} (m : M (kst D) A) (f : A → M (kst D) B) :
  k_quiet m → (∀ a, k_quiet (f a)) → k_quiet (bind m f).
Proof.
  intros Hm Hf t b t' (a & t1 & E1 & E2)%bind_inv.
  transitivity (c_dev (k_con t1)); [by eapply Hm|by eapply Hf].
Qed.
Lemma k_quiet_for n : ∀ i (body : Z → M (kst D) unit), (∀ i, k_quiet (body i)) → k_quiet (for_n n i body).
Proof. induction n as [|n IH]; intros i body Hb; [apply k_quiet_ret|]. apply k_quiet_bind; auto. Qed.
Lemma k_quiet_gets {A} (f : kst D → A) : k_quiet (gets f).
Proof. by intros t b t' [= <- <-]. Qed.
Lemma k_quiet_modify (f : kst D → kst D) : (∀ k, k_con (f k) = k_con k) → k_quiet (modify f).
Proof. intros Hf t b t' [= <- <-]. by rewrite Hf. Qed.
Lemma k_quiet_tty {A} (m : M (con D) A) : quiet m → k_quiet (tty m).
Proof.
  intros Hm k a k'. unfold tty, zoom. destruct (m (k_con k)) as [b t'|] eqn:E; [|done].
  intros [= <- <-]. exact (Hm _ _ _ E).
Qed.
Lemma k_quiet_addevent e : k_quiet (addevent (D := D) e).
Proof.
  unfold addevent. apply k_quiet_bind; [apply k_quiet_gets|intros s]. destruct (_ <? _); [|apply k_quiet_ret].
  by apply k_quiet_modify.
Qed.
End QuietConsole.
#[export] Hint Resolve quiet_initialize quiet_putentryat quiet_putchar quiet_write quiet_writestring quiet_newline
  quiet_printf_loop : quiet.
#[export] Hint Resolve k_quiet_ret k_quiet_gets k_quiet_addevent : quiet.
#[export] Hint Extern 1 (k_quiet (modify _)) => apply k_quiet_modify; reflexivity : quiet.

Ltac k_quiet :=
  repeat lazymatch goal with
  | |- k_quiet (bind _ _) => apply k_quiet_bind; [|intros ?]
  | |- k_quiet (for_n _ _ _) => apply k_quiet_for; intros ?
  | |- k_quiet (match ?b with true => _ | false => _ end) => destruct b
  | |- k_quiet newline => unfold newline; apply k_quiet_tty, quiet_newline
  | |- k_quiet (write _) => unfold write; apply k_quiet_tty, quiet_write
  | |- k_quiet (color _ _) => unfold color; apply k_quiet_tty; auto with quiet nocore
  | |- k_quiet (row _) => unfold row; apply k_quiet_tty; auto with quiet nocore
  | |- k_quiet (column _) => unfold column; apply k_quiet_tty; auto with quiet nocore
  | |- k_quiet clear => unfold clear; apply k_quiet_tty; unfold fill_screen; quiet
  | |- k_quiet (port (outb _ _)) => unfold port; apply k_quiet_tty; auto with quiet nocore
  | |- k_quiet (printk _) => unfold printk
  | |- k_quiet (tty (printf _ _)) => apply k_quiet_tty, quiet_printf_loop
  | |- k_quiet (tty _) => apply k_quiet_tty; solve [auto with quiet nocore]
  | |- k_quiet _ => solve [auto with quiet nocore]
  end.

Lemma k_quiet_task `{PortIO D} name state : k_quiet (task (D := D) name state).
Proof. unfold task. k_quiet. Qed.
#[export] Hint Resolve k_quiet_task : quiet.

(** So the keys to come stay. *)
Lemma crt_only_kbd `{Keyboard D} (d d' : D) : crt_only d d' → kbd d' = kbd d.
Proof.
  induction 1 as [|d p v d' Hp _ IH]; [done|]. rewrite IH. apply kbd_outb; destruct Hp; lia.
Qed.

(** * Code that takes no key *)

Section Spares.
Context {D : Type} `{Keyboard D}.
Implicit Types (k : kst D) (d : D).

Definition spares {A} (m : M D A) : Prop := ∀ d a d', m d = Done a d' → kbd d' = kbd d.
Definition k_spares {A} (m : M (kst D) A) : Prop :=
  ∀ k a k', m k = Done a k' → kbd (c_dev (k_con k')) = kbd (c_dev (k_con k)).

Lemma spares_inb p : p ≠ 0x60 → 0 ≤ p < 65536 → spares (inb (D := D) p).
Proof.
  intros Hp Hr d a d'. unfold inb. rewrite u16_id by done. pose proof (kbd_inb p d Hp) as Hk.
  destruct (port_inb p d) as [v d1]. by intros [= _ <-].
Qed.
Lemma spares_outb p v : p ≠ 0x60 → p ≠ 0x64 → 0 ≤ p < 65536 → spares (outb (D := D) p v).
Proof. intros Hp Hq Hr d a d' [= _ <-]. rewrite u16_id by done. by apply kbd_outb. Qed.
Lemma spares_bind {A B} (m : M D A) (f : A → M D B) : spares m → (∀ a, spares (f a)) → spares (bind m f).
Proof. intros Hm Hf d b d' (a & d1 & E1 & E2)%bind_inv. rewrite (Hf _ _ _ _ E2). by eapply Hm. Qed.
Lemma spares_ret {A} (a : A) : spares (ret a).
Proof. by intros d b d' [= <- <-]. Qed.

Lemma k_spares_port {A} (m : M D A) : spares m → k_spares (port m).
Proof.
  intros Hm k a k'. unfold port, tty, on_port, zoom. destruct (m _) eqn:E; [|done]. intros [= <- <-].
  exact (Hm _ _ _ E).
Qed.
Lemma k_spares_quiet {A} (m : M (kst D) A) : k_quiet m → k_spares m.
Proof. intros Hm k a k' E. by apply crt_only_kbd, (Hm k a). Qed.
Lemma k_spares_bind {A B} (m : M (kst D) A) (f : A → M (kst D) B) :
  k_spares m → (∀ a, k_spares (f a)) → k_spares (bind m f).
Proof. intros Hm Hf d b d' (a & d1 & E1 & E2)%bind_inv. rewrite (Hf _ _ _ _ E2). by eapply Hm. Qed.
End Spares.

(** Output to the console or to a port that is not the keyboard's. *)
Ltac k_spares := first [apply k_spares_quiet; solve [k_quiet] | apply k_spares_port, spares_outb; lia].
