(* ===== verification/Rtc.v ===== *)
(** The real-time clock of src/kernel/arch/i386/tty.c: [read_rtc] and the CMOS
    registers behind ports 0x70 and 0x71.

    The two polling loops take fuel; the theorem says how much is enough. The
    local [century] is never assigned, since the local [century_register] is 0,
    and is compared only with its own copy, so that it plays no role. *)
From S2P Require Import Prelude Machine CString LibC Terminal Stdio Kernel Quiet.

Definition CURRENT_YEAR : Z := 2023.
Definition cmos_address : Z := 0x70.
Definition cmos_data : Z := 0x71.

(** * Conversions of the register values *)

Definition from_bcd (x : Z) : Z := u8 (Z.land x 0x0F + x / 16 * 10).
Definition hour_from_bcd (h : Z) : Z :=
  u8 (Z.lor (Z.land h 0x0F + Z.land h 0x70 / 16 * 10) (Z.land h 0x80)).

(** The conversions [read_rtc] does after the registers are stable. *)
Definition convert (registerB : Z) (c : rtc) : rtc :=
  let c :=
    if Z.land registerB 0x04 =? 0 then
      Rtc (from_bcd (second c)) (from_bcd (minute c)) (hour_from_bcd (hour c)) (from_bcd (day c))
        (from_bcd (month c)) (u32 (Z.land (year c) 0x0F + year c / 16 * 10))
    else c in
  let hour' :=
    if (Z.land registerB 0x02 =? 0) && negb (Z.land (hour c) 0x80 =? 0)
    then u8 ((Z.land (hour c) 0x7F + 12) mod 24) else hour c in
  let year' := u32 (year c + CURRENT_YEAR / 100 * 100) in
  let year' := if year' <? CURRENT_YEAR then u32 (year' + 100) else year' in
  Rtc (second c) (minute c) hour' (day c) (month c) year'.

#[global] Instance rtc_eq_dec : EqDecision rtc.
Proof. solve_decision. Defined.

Section Rtc.
Context {D : Type} `{PortIO D}.

Definition get_update_in_progress_flag : M D Z :=
  outb cmos_address 0x0A ;; let! v := inb cmos_data in ret (Z.land v 0x80).

Definition get_RTC_register (reg : Z) : M D Z := outb cmos_address reg ;; inb cmos_data.

(** [while (get_update_in_progress_flag());] *)
Fixpoint wait_update (f : nat) : M D unit :=
  match f with
  | O => raise OutOfFuel
  | S f' => let! v := get_update_in_progress_flag in if v =? 0 then ret tt else wait_update f'
  end.

(** One reading of the six registers. *)
Definition read_registers (f : nat) : M D rtc :=
  wait_update f ;;
  let! second := get_RTC_register 0x00 in
  let! minute := get_RTC_register 0x02 in
  let! hour := get_RTC_register 0x04 in
  let! day := get_RTC_register 0x07 in
  let! month := get_RTC_register 0x08 in
  let! year := get_RTC_register 0x09 in
  ret (Rtc second minute hour day month year).

(** Read until two readings agree. *)
Fixpoint read_stable (f w : nat) (last : rtc) : M D rtc :=
  match f with
  | O => raise OutOfFuel
  | S f' => let! c := read_registers w in if bool_decide (last = c) then ret c else read_stable f' w c
  end.

Definition read_rtc (f w : nat) : M (kst D) unit :=
  task "Read RTC..." 0 ;;
  let! c := port (read_registers w) in
  modify (put_clock c) ;;
  let! c := port (read_stable f w c) in
  modify (put_clock c) ;;
  let! registerB := port (get_RTC_register 0x0B) in
  modify (put_clock (convert registerB c)) ;;
  task "Read RTC..." 1.
End Rtc.

(** * The clock *)

(** What [read_rtc] relies on of the hardware: port 0x70 selects a register, port
    0x71 reads it, other ports do not matter, and the registers do not change
    during the call. *)
Class Cmos (D : Type) `{PortIO D} := {
  cmos_index : D → Z;
  cmos_reg : D → Z → Z;
  cmos_select : ∀ d v, 0 ≤ v < 128 → let d' := port_outb 0x70 v d in
    cmos_index d' = v ∧ ∀ r, cmos_reg d' r = cmos_reg d r;
  cmos_read : ∀ d, let '(v, d') := port_inb 0x71 d in
    u8 v = cmos_reg d (cmos_index d) ∧ ∀ r, cmos_reg d' r = cmos_reg d r;
  cmos_outb : ∀ p v d r, p ≠ 0x70 → p ≠ 0x71 → cmos_reg (port_outb p v d) r = cmos_reg d r;
  cmos_inb : ∀ p d r, p ≠ 0x71 → cmos_reg (snd (port_inb p d)) r = cmos_reg d r;
}.

#[export, refine] Instance pc_clock : Cmos pc := {| cmos_index := pc_index; cmos_reg d := load8 (pc_cmos d) |}.
Proof.
  - intros d v Hv. by split.
  - intros d. simpl. split; [apply u8_id, load8_range|done].
  - intros p v d r Hp _. simpl. by rewrite (proj2 (Z.eqb_neq p 0x70)).
  - intros p d r Hp. simpl. rewrite (proj2 (Z.eqb_neq p 0x71)) by done.
    destruct (p =? 0x64), (p =? 0x60), (p =? 0x3D5); done.
Defined.

(** How the clock keeps a time: each field in BCD unless bit 2 of register B is
    set; the hour counts 12, 1 to 11 with bit 7 for the afternoon unless bit 1
    is set. *)
Definition to_bcd (x : Z) : Z := x / 10 * 16 + x mod 10.
Definition field (b x : Z) : Z := if Z.land b 0x04 =? 0 then to_bcd x else x.
Definition hour_register (b h : Z) : Z :=
  if Z.land b 0x02 =? 0 then
    field b (if h mod 12 =? 0 then 12 else h mod 12) + (if 12 <=? h then 128 else 0)
  else field b h.

(** The time the registers show: seconds to month, and the year from 2023 to 2122. *)
Record time_ok (t : rtc) : Prop := {
  second_ok : 0 ≤ second t < 60;
  minute_ok : 0 ≤ minute t < 60;
  hour_ok : 0 ≤ hour t < 24;
  day_ok : 1 ≤ day t ≤ 31;
  month_ok : 1 ≤ month t ≤ 12;
  year_ok : 2023 ≤ year t < 2123;
}.

Definition registers (b : Z) (t : rtc) : rtc :=
  Rtc (field b (second t)) (field b (minute t)) (hour_register b (hour t)) (field b (day t))
    (field b (month t)) (field b (year t mod 100)).

(** What the code makes of the hour: noon and midnight change places on a
    12-hour clock. *)
Definition hour_read (b h : Z) : Z :=
  if (Z.land b 0x02 =? 0) && (h mod 12 =? 0) then (if h =? 0 then 12 else 0) else h.

Lemma bcd_roundtrip x : 0 ≤ x < 100 → from_bcd (to_bcd x) = x.
Proof. intros Hx. assert (byte_ok x) as Hb by (unfold byte_ok; lia). destruct Hx as [_ Hx]. revert Hx. by_bytes x. Qed.

Lemma year_roundtrip x : 0 ≤ x < 100 → u32 (Z.land (to_bcd x) 0x0F + to_bcd x / 16 * 10) = x.
Proof. intros Hx. assert (byte_ok x) as Hb by (unfold byte_ok; lia). destruct Hx as [_ Hx]. revert Hx. by_bytes x. Qed.

Lemma full_year y : 2023 ≤ y < 2123 →
  (let y' := u32 (y mod 100 + 2000) in if y' <? 2023 then u32 (y' + 100) else y') = y.
Proof. intros Hy. cbv zeta. rewrite (u32_id (y mod 100 + 2000)) by lia. case_if; zbool; rewrite ?u32_id; lia. Qed.

(** The two steps on the hour, for the four modes. *)
Definition convert_hour (bcd h12 : bool) (h : Z) : Z :=
  let h := if bcd then hour_from_bcd h else h in
  if h12 && negb (Z.land h 0x80 =? 0) then u8 ((Z.land h 0x7F + 12) mod 24) else h.

Lemma hour_convert b h : 0 ≤ h < 24 →
  convert_hour (Z.land b 0x04 =? 0) (Z.land b 0x02 =? 0) (hour_register b h) = hour_read b h.
Proof.
  intros Hh. assert (byte_ok h) as Hb by (unfold byte_ok; lia). destruct Hh as [_ Hh]. revert Hh.
  unfold hour_register, hour_read, field.
  destruct (Z.land b 0x04 =? 0), (Z.land b 0x02 =? 0); cbn [andb]; by_bytes h.
Qed.

Lemma convert_registers b t : time_ok t →
  convert b (registers b t) =
  Rtc (second t) (minute t) (hour_read b (hour t)) (day t) (month t) (year t).
Proof.
  intros [Hs Hmi Hh Hd Hmo Hy]. rewrite <-hour_convert by done.
  pose proof (full_year (year t) Hy) as EY. unfold convert, convert_hour, registers, field, CURRENT_YEAR.
  change (2023 / 100 * 100) with 2000. destruct (Z.land b 0x04 =? 0); cbn [second minute hour day month year].
  - rewrite !bcd_roundtrip, year_roundtrip by lia. cbv zeta in EY. by rewrite EY.
  - cbv zeta in EY. by rewrite EY.
Qed.

Section ReadRtc.
Context {D : Type} `{Cmos D}.
Implicit Types (d : D) (k : kst D).

(** The registers as they stand in two states of the hardware. *)
Definition same_clock d d' : Prop := ∀ r, cmos_reg d' r = cmos_reg d r.

#[global] Instance same_clock_preorder : PreOrder same_clock.
Proof. split; [by intros d r|]. intros d1 d2 d3 H12 H23 r. by rewrite H23. Qed.

Lemma get_register d r : 0 ≤ r < 128 →
  ∃ d', get_RTC_register r d = Done (cmos_reg d r) d' ∧ same_clock d d'.
Proof.
  intros Hr. destruct (cmos_select d r Hr) as [Hi Hx]. set (d1 := port_outb 0x70 r d) in *.
  pose proof (cmos_read d1) as HR. unfold get_RTC_register, bind, outb, inb. rewrite (u8_id r) by lia.
  change (u16 cmos_address) with 0x70. change (u16 cmos_data) with 0x71. fold d1.
  destruct (port_inb 0x71 d1) as [v d2]. destruct HR as [Hv Hr2]. exists d2. rewrite Hv, Hi, Hx.
  split; [done|]. intros x. by rewrite Hr2.
Qed.

Lemma wait_update_idle f d : Z.land (cmos_reg d 0x0A) 0x80 = 0 →
  ∃ d', wait_update (S f) d = Done tt d' ∧ same_clock d d'.
Proof.
  intros Hz. destruct (get_register d 0x0A) as (d' & E & Hs); [lia|]. exists d'. split; [|done].
  cbn [wait_update]. unfold get_update_in_progress_flag.
  rewrite (bind_done _ _ d 0 d'); [done|]. unfold get_RTC_register, bind, outb in *. 
  destruct (inb cmos_data _); [|done]. injection E as -> ->. unfold ret. by rewrite Hz.
Qed.

(** The registers of a device, as one reading. *)
Definition clock_of d : rtc :=
  Rtc (cmos_reg d 0x00) (cmos_reg d 0x02) (cmos_reg d 0x04) (cmos_reg d 0x07) (cmos_reg d 0x08) (cmos_reg d 0x09).

Lemma bind_register {A} r d (f : Z → M D A) (Q : outcome D A → Prop) :
  0 ≤ r < 128 → (∀ d', same_clock d d' → Q (f (cmos_reg d r) d')) → Q (bind (get_RTC_register r) f d).
Proof.
  intros Hr HQ. destruct (get_register d r Hr) as (d' & E & Hs). rewrite (bind_done _ _ _ _ _ E). by apply HQ.
Qed.

Lemma read_registers_run w d : Z.land (cmos_reg d 0x0A) 0x80 = 0 →
  ∃ d', read_registers (S w) d = Done (clock_of d) d' ∧ same_clock d d'.
Proof.
  intros Hz. destruct (wait_update_idle w d Hz) as (d0 & E0 & Hs0). unfold read_registers.
  rewrite (bind_done _ _ _ _ _ E0).
  do 6 (apply bind_register; [lia|]; intros ? ?). eexists. split; [|by repeat (etransitivity; [eassumption|])].
  unfold clock_of, ret. do 2 f_equal;
    repeat match goal with Hs : same_clock _ _ |- _ => rewrite (Hs _); clear Hs end; done.
Qed.

Lemma read_stable_run f w d : Z.land (cmos_reg d 0x0A) 0x80 = 0 →
  ∃ d', read_stable (S f) (S w) (clock_of d) d = Done (clock_of d) d' ∧ same_clock d d'.
Proof.
  intros Hz. destruct (read_registers_run w d Hz) as (d' & E & Hs). exists d'. split; [|done].
  cbn [read_stable]. rewrite (bind_done _ _ _ _ _ E). by rewrite bool_decide_eq_true_2.
Qed.

Lemma crt_only_clock d d' : crt_only d d' → same_clock d d'.
Proof.
  induction 1 as [|d p v d' Hp _ IH]; [done|]. transitivity (port_outb p v d); [|done].
  intros r. apply cmos_outb; destruct Hp; lia.
Qed.

Lemma same_clock_of d d' : same_clock d d' → clock_of d' = clock_of d.
Proof. intros Hs. unfold clock_of. by rewrite !Hs. Qed.

Lemma port_run {A} (m : M D A) k a d' :
  m (c_dev (k_con k)) = Done a d' → port m k = Done a (put_dev d' k).
Proof. intros E. unfold port, tty, on_port, zoom. by rewrite E. Qed.

(** The hardware shows time [t] in mode [b], and is not in the middle of an update. *)
Definition shows d (b : Z) (t : rtc) : Prop :=
  clock_of d = registers b t ∧ cmos_reg d 0x0B = b ∧ Z.land (cmos_reg d 0x0A) 0x80 = 0.

Lemma shows_same d d' b t : same_clock d d' → shows d b t → shows d' b t.
Proof. intros Hs (H1 & H2 & H3). unfold shows. rewrite (same_clock_of _ _ Hs), !Hs. done. Qed.

Lemma read_rtc_run f w k b t :
  k_ok k → time_ok t → shows (c_dev (k_con k)) b t →
  ∃ k', read_rtc (S f) (S w) k = Done tt k' ∧ k_ok k' ∧ k_mem k k' ∧
    clock k' = Rtc (second t) (minute t) (hour_read b (hour t)) (day t) (month t) (year t).
Proof.
  intros Hk Ht Hd. destruct (safely_task "Read RTC..." 0 k Hk) as ([] & k1 & E1 & Hk1 & Hio1).
  pose proof (crt_only_clock _ _ (k_quiet_task _ _ _ _ _ E1)) as Hs1.
  destruct (shows_same _ _ _ _ Hs1 Hd) as (Hc1 & Hb1 & Hz1). set (d1 := c_dev (k_con k1)) in *.
  destruct (read_registers_run w d1 Hz1) as (d2 & E2 & Hs2).
  destruct (shows_same _ _ _ _ Hs2 (conj Hc1 (conj Hb1 Hz1))) as (Hc2 & Hb2 & Hz2).
  destruct (read_stable_run f w d2 Hz2) as (d3 & E3 & Hs3).
  destruct (shows_same _ _ _ _ Hs3 (conj Hc2 (conj Hb2 Hz2))) as (Hc3 & Hb3 & Hz3).
  destruct (get_register d3 0x0B) as (d4 & E4 & Hs4); [lia|].
  unfold read_rtc. rewrite (bind_done _ _ _ _ _ E1). rewrite (bind_done _ _ _ _ _ (port_run _ k1 _ _ E2)).
  set (k2 := put_clock (clock_of d1) (put_dev d2 k1)). rewrite (bind_done _ _ _ tt k2) by done.
  rewrite <-(same_clock_of _ _ Hs2). rewrite (bind_done _ _ _ _ _ (port_run _ k2 _ _ E3)).
  set (k3 := put_clock (clock_of d2) (put_dev d3 k2)). rewrite (bind_done _ _ _ tt k3) by done.
  rewrite (bind_done _ _ _ _ _ (port_run _ k3 _ _ E4)). rewrite Hb3, Hc2, convert_registers by done.
  set (k4 := put_clock (Rtc (second t) (minute t) (hour_read b (hour t)) (day t) (month t) (year t)) (put_dev d4 k3)). rewrite (bind_done _ _ _ tt k4) by done.
  assert (k_ok k4) as Hk4 by exact Hk1.
  destruct (safely_task "Read RTC..." 1 k4 Hk4) as ([] & k5 & E5 & Hk5 & Hio5).
  exists k5. split; [exact E5|]. split; [done|]. split.
  - transitivity k1; [by apply Hio1|]. transitivity k4; [by intros a Ha|apply Hio5].
  - destruct Hio5 as (_ & _ & _ & _ & _ & _ & _ & _ & -> & _). done.
Qed.
End ReadRtc.

(** * Theorems *)


(** A device that shows 2024-02-29 21:07:45, or the hour given, in BCD. *)
Definition clock_regs (b h : Z) : memory :=
  list_to_map [(0x00, 0x45); (0x02, 0x07); (0x04, hour_register b h); (0x07, 0x29); (0x08, 0x02);
               (0x09, 0x24); (0x0A, 0x26); (0x0B, b)].
Definition demo_clock (b h : Z) : kst pc :=
  initial (Con ∅ (Pc (Crt 0 ∅) [] 0 (clock_regs b h)) 3 0 15 VGA_MEMORY true false).
Definition demo_time (h : Z) : rtc := Rtc 45 7 h 29 2 2024.

Lemma demo_clock_ok b h : k_ok (demo_clock b h).
Proof.
  split; [|vm_compute; discriminate]. unfold con_ok, VGA_HEIGHT, VGA_WIDTH. cbn. split_and!; first [lia|reflexivity].
Qed.

Lemma demo_time_ok h : 0 ≤ h < 24 → time_ok (demo_time h).
Proof. intros Hh. split; cbn; lia. Qed.


(** On a 12-hour clock [read_rtc] makes noon of midnight and midnight of noon:
    the hour registers 12 and 12 PM become 12 and 0. *)
Theorem read_rtc_noon `{Cmos D} f w (k : kst D) b t :
  k_ok k → time_ok t → shows (c_dev (k_con k)) b t → Z.land b 0x02 = 0 →
  hour t = 0 ∨ hour t = 12 →
  ∃ k', read_rtc (S f) (S w) k = Done tt k' ∧ hour (clock k') = 12 - hour t.
Proof.
  intros Hk Ht Hd Hb Hh. destruct (read_rtc_run f w k b t Hk Ht Hd) as (k' & E & Hk' & Hm & Hc).
  exists k'. split; [done|]. rewrite Hc. unfold hour_read. rewrite Hb. by destruct Hh as [-> | ->].
Qed.

Lemma read_rtc_noon_witness :
  ∃ k', read_rtc 1 1 (demo_clock 0 12) = Done tt k' ∧ hour (clock k') = 0.
Proof.
  destruct (read_rtc_noon 0 0 (demo_clock 0 12) 0 (demo_time 12) (demo_clock_ok 0 12)) as (k' & E & Hc).
  - apply demo_time_ok. lia.
  - split; [|split]; vm_compute; reflexivity.
  - reflexivity.
  - right. reflexivity.
  - exists k'. split; [exact E|exact Hc].
Defined.
