(* ===== verification/Net.v ===== *)
(** The network code of src/kernel/arch/i386/tty.c: byte order, the headers and
    their checksum, and sending and receiving a ping through the ports of a card.

    A packet is the list of its bytes. [receive_ping] reads a local buffer that
    nothing initialises: its bytes are the parameter [stack]. The number passed
    to [printf] as if it were a string is an address, as in the code. *)
From S2P Require Import Prelude Machine CString LibC Terminal Stdio Kernel Quiet.

Definition htonl (hostlong : Z) : Z :=
  Z.lor (Z.lor (Z.lor (Z.land hostlong 0xFF000000 ≫ 24) (Z.land hostlong 0x00FF0000 ≫ 8))
    (u32 (Z.land hostlong 0x0000FF00 ≪ 8))) (u32 (Z.land hostlong 0x000000FF ≪ 24)).

Definition htons (hostshort : Z) : Z := u16 (Z.lor (hostshort ≫ 8) (hostshort ≪ 8)).

(** * Headers *)

Record ip_header := IpHeader {
  version_ihl : Z;
  type_of_service : Z;
  total_length : Z;
  identification : Z;
  flags_fragment_offset : Z;
  time_to_live : Z;
  protocol : Z;
  header_checksum : Z;
  source_address : Z;
  destination_address : Z;
}.

Record icmp_header := IcmpHeader {
  type : Z;
  code : Z;
  icmp_checksum : Z;
  identifier : Z;
  sequence_number : Z;
}.

(** The bytes of a header in memory; no field needs padding. *)
Definition ip_bytes (h : ip_header) : list Z :=
  [u8 (version_ihl h); u8 (type_of_service h)] ++ bytes16 (total_length h) ++ bytes16 (identification h) ++
  bytes16 (flags_fragment_offset h) ++ [u8 (time_to_live h); u8 (protocol h)] ++ bytes16 (header_checksum h) ++
  bytes32 (source_address h) ++ bytes32 (destination_address h).
Definition icmp_bytes (h : icmp_header) : list Z :=
  [u8 (type h); u8 (code h)] ++ bytes16 (icmp_checksum h) ++ bytes16 (identifier h) ++ bytes16 (sequence_number h).

Definition ip_size : Z := 20.
Definition icmp_size : Z := 8.

Section Net.
Context {D : Type} `{PortIO D}.
Abbreviation T := (con D).
Abbreviation K := (kst D).

Definition dot : M T unit := let! _ := printf (str ".") [] in ret tt.

(** The sum of the words, and the last byte of an odd length. *)
Fixpoint sum_words (data : list Z) (sum : Z) : Z :=
  match data with
  | lo :: hi :: data' => sum_words data' (u32 (sum + le16 lo hi))
  | [lo] => u32 (sum + lo)
  | [] => sum
  end.

(** [while (sum >> 16)]; a 32-bit sum needs two rounds at most. *)
Fixpoint fold_sum (f : nat) (sum : Z) : M T Z :=
  if sum ≫ 16 =? 0 then ret sum
  else
    match f with
    | O => raise OutOfFuel
    | S f' => dot ;; fold_sum f' (u32 (Z.land sum 0xFFFF + (sum ≫ 16)))
    end.

Definition checksum (data : list Z) : M T Z :=
  let! sum := fold_sum 2 (sum_words data 0) in ret (u16 (Z.lnot sum)).

(** The port number is an [int] sum of a 16-bit base, cut to 16 bits by [outb]. *)
Fixpoint send_from (io_base i : Z) (packet : list Z) : M T unit :=
  match packet with
  | [] => ret tt
  | b :: packet' => on_port (outb (io_base + i) b) ;; dot ;; send_from io_base (i + 1) packet'
  end.

Definition network_send (packet : list Z) : M T unit :=
  let io_base := u16 0xB8000 in
  send_from io_base 0 packet ;;
  on_port (outb (io_base + 0x10) 0x01).

Fixpoint receive_from (n : nat) (io_base i : Z) (buffer : list Z) : M T (list Z) :=
  match n with
  | O => ret buffer
  | S n' =>
      let! v := on_port (inb (io_base + i)) in
      dot ;; receive_from n' io_base (i + 1) (upd buffer i v)
  end.

(** The length and the buffer after the call. *)
Definition network_receive (buffer : list Z) (max_length : Z) : M T (Z * list Z) :=
  let io_base := 0x1500 in
  let! status := on_port (inb (io_base + 0x20)) in
  if negb (Z.land status 0x01 =? 0) then
    let! length := on_port (inb (io_base + 0x24)) in
    let length := if max_length <? length then max_length else length in
    let! buffer := receive_from (Z.to_nat length) io_base 0 buffer in
    ret (length, buffer)
  else ret (0, buffer).

Definition send_ping (dest_ip : Z) : M K unit :=
  let ip := IpHeader 0x45 0 (htons (ip_size + icmp_size)) 0 0 64 0 0 (htonl 0xC0A80001) (htonl dest_ip) in
  let! sum := tty (checksum (ip_bytes ip)) in
  let ip := IpHeader 0x45 0 (htons (ip_size + icmp_size)) 0 0 64 0 sum (htonl 0xC0A80001) (htonl dest_ip) in
  let icmp := IcmpHeader 8 0 0 (htons 1) (htons 1) in
  let! sum := tty (checksum (icmp_bytes icmp)) in
  let icmp := IcmpHeader 8 0 sum (htons 1) (htons 1) in
  let packet := ip_bytes ip ++ icmp_bytes icmp in
  let! format := gets (λ k, deref k (SInt (htonl 0xC0A80001))) in
  let! _ := tty (printf format []) in
  tty (network_send packet).

Definition receive_ping (stack : list Z) : M K unit :=
  let! got := tty (network_receive stack 1500) in
  let buffer := snd got in
  let icmp_type := at_ buffer (ip_size + 0) in
  let icmp_code := at_ buffer (ip_size + 1) in
  (if (icmp_type =? 0) && (icmp_code =? 0) then
     newline ;;
     write "[  OK  ] Attempting to ping 192.168.0.2..." ;;
     modify (put_net true)
   else
     newline ;;
     write "[ FAIL ] Attempting to ping 192.168.0.2..." ;;
     newline ;;
     modify (put_net false)) ;;
  newline ;;
  tty (terminal_putchar icmp_code) ;;
  newline ;;
  tty (terminal_putchar icmp_type).
End Net.

(** * Byte order *)

(** One byte of a number, in its place. *)
Lemma byte_field x n : 0 ≤ n → Z.land x (255 * 2 ^ n) = (x / 2 ^ n) mod 256 * 2 ^ n.
Proof.
  intros Hn. rewrite <-!Z.shiftl_mul_pow2 by done. change 256 with (2 ^ 8).
  rewrite <-(Z.land_ones _ 8), <-Z.shiftr_div_pow2 by done. change (Z.ones 8) with 255.
  apply Z.bits_inj'. intros i Hi. rewrite Z.land_spec, !Z.shiftl_spec, Z.land_spec by done.
  destruct (Z.ltb_spec i n).
  - rewrite !(Z.testbit_neg_r _ (i - n)) by lia. by rewrite !andb_false_r.
  - rewrite Z.shiftr_spec by lia. by replace (i - n + n) with i by lia.
Qed.

Lemma htonl_bytes x : 0 ≤ x < 4294967296 →
  htonl x = le32 ((x / 16777216) mod 256) ((x / 65536) mod 256) ((x / 256) mod 256) (x mod 256).
Proof.
  intros Hx. unfold htonl, le32.
  change 0xFF000000 with (255 * 2 ^ 24). change 0x00FF0000 with (255 * 2 ^ 16).
  change 0x0000FF00 with (255 * 2 ^ 8). change 0x000000FF with (255 * 2 ^ 0).
  rewrite !byte_field by done. rewrite !Z.shiftl_mul_pow2, !Z.shiftr_div_pow2 by done.
  change (2 ^ 24) with 16777216. change (2 ^ 16) with 65536. change (2 ^ 8) with 256. change (2 ^ 0) with 1.
  rewrite Z.div_1_r, !u32_id by lia.
  replace ((x / 16777216) mod 256 * 16777216 / 16777216) with ((x / 16777216) mod 256) by lia.
  replace ((x / 65536) mod 256 * 65536 / 256) with ((x / 65536) mod 256 * 2 ^ 8) by lia.
  replace ((x / 256) mod 256 * 256 * 256) with ((x / 256) mod 256 * 2 ^ 16) by lia.
  replace (x mod 256 * 1 * 16777216) with (x mod 256 * 2 ^ 24) by lia.
  rewrite (lor_add 8) by lia. rewrite (lor_add 16) by lia. rewrite (lor_add 24) by lia. lia.
Qed.

(** Numbers and their bytes. *)
Lemma bytes32_le32 a b c d :
  byte_ok a → byte_ok b → byte_ok c → byte_ok d → bytes32 (le32 a b c d) = [a; b; c; d].
Proof.
  unfold byte_ok, le32, bytes32. intros. repeat (apply (f_equal2 cons); [lia|]). done.
Qed.

Lemma htonl_le32 a b c d :
  byte_ok a → byte_ok b → byte_ok c → byte_ok d → htonl (le32 a b c d) = le32 d c b a.
Proof.
  intros Ha Hb Hc Hd. pose proof (bytes32_le32 a b c d Ha Hb Hc Hd) as E. unfold bytes32 in E.
  injection E as E0 E1 E2 E3. rewrite htonl_bytes; [by rewrite E0, E1, E2, E3|].
  unfold byte_ok, le32 in *. lia.
Qed.

Lemma le32_digits x : 0 ≤ x < 4294967296 →
  ∃ a b c d, x = le32 a b c d ∧ byte_ok a ∧ byte_ok b ∧ byte_ok c ∧ byte_ok d.
Proof.
  intros Hx. exists (x mod 256), ((x / 256) mod 256), ((x / 65536) mod 256), ((x / 16777216) mod 256).
  unfold byte_ok, le32. lia.
Qed.

Lemma htons_bytes x : 0 ≤ x < 65536 → htons x = le16 ((x / 256) mod 256) (x mod 256).
Proof.
  intros Hx. unfold htons, le16. rewrite Z.shiftr_div_pow2, Z.shiftl_mul_pow2 by done.
  rewrite lor_add by lia. change (2 ^ 8) with 256. unfold u16. lia.
Qed.

(** * The checksum *)

(** The one's-complement sum in 16 bits. *)
Definition ones_sum (s : Z) : Z := if s =? 0 then 0 else (s - 1) mod 65535 + 1.

Lemma ones_sum_fold s : 0 < s → ones_sum (s mod 65536 + s / 65536) = ones_sum s.
Proof. intros Hs. unfold ones_sum. rewrite !(proj2 (Z.eqb_neq _ 0)) by lia. lia. Qed.

Lemma ones_sum_small s : 0 ≤ s < 65536 → ones_sum s = s.
Proof. intros Hs. unfold ones_sum. case_if; zbool; lia. Qed.

(** The sum of the words without wrap-around. *)
Fixpoint words (data : list Z) : Z :=
  match data with lo :: hi :: data' => le16 lo hi + words data' | [lo] => lo | [] => 0 end.

Lemma words_range data : bytes_ok data → 0 ≤ words data ≤ 65535 * Z.of_nat (length data).
Proof.
  revert data. fix IH 1. intros [|lo [|hi data]] Hd; cbn [words length]; [lia| |].
  - apply Forall_cons in Hd as [Hlo _]. unfold byte_ok in Hlo. lia.
  - apply Forall_cons in Hd as [Hlo Hd]. apply Forall_cons in Hd as [Hhi Hd]. specialize (IH data Hd).
    unfold byte_ok, le16 in *. lia.
Qed.

Lemma sum_words_exact data : ∀ s, bytes_ok data → 0 ≤ s → s + 65535 * Z.of_nat (length data) < 4294967296 →
  sum_words data s = s + words data.
Proof.
  revert data. fix IH 1. intros [|lo [|hi data]] s Hd Hs Hlim; cbn [words sum_words length] in *; [lia| |].
  - apply Forall_cons in Hd as [Hlo _]. unfold byte_ok in Hlo. rewrite u32_id; lia.
  - apply Forall_cons in Hd as [Hlo Hd]. apply Forall_cons in Hd as [Hhi Hd].
    unfold byte_ok, le16 in *. rewrite u32_id by lia. rewrite IH; [lia|done|lia|lia].
Qed.

Lemma words_app a b : Nat.even (length a) = true → words (a ++ b) = words a + words b.
Proof.
  revert a. fix IH 1. intros [|lo [|hi a]] He; cbn [words length app] in *; [lia|done|].
  rewrite IH by done. lia.
Qed.

Section Checksum.
Context {D : Type} `{PortIO D}.
Implicit Types (t : con D) (k : kst D).

(** Returning [a] from a good console in a good console, with no port written but
    those of the CRT controller. *)
Definition gives {A} (m : M (con D) A) (a : A) : Prop :=
  ∀ t, con_ok t → ∃ t', m t = Done a t' ∧ con_ok t' ∧ off_screen_same t t' ∧ crt_only (c_dev t) (c_dev t').

Lemma gives_ret {A} (a : A) : gives (ret a) a.
Proof. intros t Ht. exists t. by split_and!. Qed.

Lemma gives_bind {A B} (m : M (con D) A) a (f : A → M (con D) B) b :
  gives m a → gives (f a) b → gives (bind m f) b.
Proof.
  intros Hm Hf t Ht. destruct (Hm t Ht) as (t1 & E1 & Ht1 & Ho1 & Hd1).
  destruct (Hf t1 Ht1) as (t2 & E2 & Ht2 & Ho2 & Hd2). exists t2. rewrite (bind_done _ _ _ _ _ E1).
  split_and!; [done|apply Ht2..|by transitivity t1|by transitivity (c_dev t1)].
Qed.

Lemma gives_dot : gives dot tt.
Proof.
  intros t Ht. destruct (safe_items [Put 46] t Ht) as ([] & t' & E & Ht' & Ho).
  assert (dot t = Done tt t') as Ed.
  { unfold dot, bind. unfold printf. rewrite (printf_loop_items _ _ _ _ [Put 46]); [|cbn; lia|apply (str_bytes_ok ".")|done..].
    by rewrite (bind_done _ _ _ _ _ E). }
  exists t'. split; [done|]. split; [done|]. split; [done|].
  eapply (quiet_bind (printf (str ".") [])); [apply quiet_printf_loop|intros; apply quiet_ret|exact Ed].
Qed.

Lemma shiftr_zero s : 0 ≤ s → (s ≫ 16 =? 0) = (s <? 65536).
Proof.
  intros Hs. rewrite Z.shiftr_div_pow2 by done. change (2 ^ 16) with 65536.
  destruct (Z.eqb_spec (s / 65536) 0), (Z.ltb_spec s 65536); lia.
Qed.

Lemma fold_step s : 0 ≤ s < 4294967296 → u32 (Z.land s 0xFFFF + (s ≫ 16)) = s mod 65536 + s / 65536.
Proof.
  intros Hs. change 0xFFFF with (Z.ones 16). rewrite Z.land_ones, Z.shiftr_div_pow2 by done.
  change (2 ^ 16) with 65536. rewrite u32_id; lia.
Qed.

Lemma gives_fold s : 0 ≤ s < 4294967296 → gives (fold_sum 2 s) (ones_sum s).
Proof.
  assert (∀ f s, 0 ≤ s < 65536 → gives (fold_sum f s) (ones_sum s)) as Hstop.
  { intros f s' Hs. rewrite ones_sum_small by done.
    destruct f; cbn [fold_sum]; rewrite shiftr_zero by lia; rewrite (proj2 (Z.ltb_lt _ _)) by lia; apply gives_ret. }
  assert (∀ f s, 65536 ≤ s < 4294967296 → gives (fold_sum f (s mod 65536 + s / 65536)) (ones_sum s) →
    gives (fold_sum (S f) s) (ones_sum s)) as Hgo.
  { intros f s' Hs Hn. cbn [fold_sum]. rewrite shiftr_zero by lia. rewrite (proj2 (Z.ltb_ge _ _)) by lia.
    apply (gives_bind _ tt); [apply gives_dot|]. rewrite fold_step by lia. exact Hn. }
  intros Hs. destruct (decide (s < 65536)); [apply Hstop; lia|]. apply Hgo; [lia|].
  rewrite <-ones_sum_fold by lia. set (s' := s mod 65536 + s / 65536).
  destruct (decide (s' < 65536)); [apply Hstop; lia|]. apply Hgo; [lia|].
  rewrite <-ones_sum_fold by lia. apply Hstop. lia.
Qed.

Lemma gives_checksum data :
  bytes_ok data → Z.of_nat (length data) ≤ 65535 →
  gives (checksum data) (65535 - ones_sum (words data)).
Proof.
  intros Hd Hl. unfold checksum. rewrite sum_words_exact by (done || lia). rewrite Z.add_0_l.
  pose proof (words_range data Hd). eapply gives_bind; [apply gives_fold; lia|].
  replace (65535 - ones_sum (words data)) with (u16 (Z.lnot (ones_sum (words data)))); [apply gives_ret|].
  unfold Z.lnot, u16, ones_sum. case_if; zbool; lia.
Qed.
End Checksum.

Lemma ones_sum_complement a b :
  0 ≤ a → 0 ≤ b → ones_sum (a + (65535 - ones_sum (a + b)) + b) = 65535.
Proof. intros Ha Hb. unfold ones_sum. repeat case_if; zbool; lia. Qed.

(** The complement of a sum, stored where zeros were, makes the sum all ones. *)
Lemma complement_verifies a b :
  bytes_ok a → bytes_ok b → Nat.even (length a) = true →
  let c := 65535 - ones_sum (words (a ++ [0; 0] ++ b)) in
  0 ≤ c < 65536 ∧ ones_sum (words (a ++ bytes16 c ++ b)) = 65535.
Proof.
  intros Ha Hb He c. pose proof (words_range a Ha). pose proof (words_range b Hb).
  assert (c = 65535 - ones_sum (words a + words b)) as Ec.
  { unfold c. rewrite !words_app by done. change (words [0; 0]) with 0. do 2 f_equal. }
  assert (0 ≤ c < 65536) as Hc by (rewrite Ec; unfold ones_sum; case_if; zbool; lia). split; [done|].
  rewrite !words_app by done. assert (words (bytes16 c) = c) as -> by (unfold bytes16, words, le16; lia).
  rewrite Ec, Z.add_assoc. apply ones_sum_complement; lia.
Qed.

(** * Theorems *)

(** Byte order: on 32-bit and 16-bit numbers [htonl] and [htons] reverse the
    bytes in memory, and each undoes itself. *)
Theorem byte_order x y :
  0 ≤ x < 4294967296 → 0 ≤ y < 65536 →
  bytes32 (htonl x) = reverse (bytes32 x) ∧ htonl (htonl x) = x ∧
  bytes16 (htons y) = reverse (bytes16 y) ∧ htons (htons y) = y.
Proof.
  intros Hx Hy. destruct (le32_digits x Hx) as (a & b & c & d & -> & Ha & Hb & Hc & Hd).
  rewrite !htonl_le32, !bytes32_le32 by done. split; [done|]. split; [done|].
  rewrite (htons_bytes y) by done. rewrite htons_bytes by (unfold le16; lia).
  unfold le16, bytes16, reverse. cbn [rev_append]. split; [|lia].
  repeat (apply (f_equal2 cons); [lia|]). done.
Qed.

Lemma byte_order_witness : htonl (htonl 0xC0A80001) = 0xC0A80001 ∧ htons 28 = 0x1C00.
Proof. split; [apply (byte_order 0xC0A80001 28); lia|reflexivity]. Defined.

(** C37: the Internet checksum: on data with a zero checksum field at an even
    offset, [checksum] returns a value that makes the whole sum to zero once it
    is stored in the field; it returns after at most two carry folds, and its
    progress dots stay on the screen. *)
Theorem checksum_verifies `{PortIO D} a b (t : con D) :
  con_ok t → bytes_ok a → bytes_ok b → Nat.even (length a) = true →
  Z.of_nat (length a) + 2 + Z.of_nat (length b) ≤ 65535 →
  ∃ c t', checksum (a ++ [0; 0] ++ b) t = Done c t' ∧ con_ok t' ∧ off_screen_same t t' ∧ 0 ≤ c < 65536 ∧
    ∃ t'', checksum (a ++ bytes16 c ++ b) t' = Done 0 t''.
Proof.
  intros Ht Ha Hb He Hl.
  assert (∀ w, bytes_ok w → length w = 2%nat → bytes_ok (a ++ w ++ b) ∧ Z.of_nat (length (a ++ w ++ b)) ≤ 65535) as Hw
    by (intros w Hw El; split; [by repeat apply Forall_app_2|rewrite !length_app; lia]).
  destruct (Hw [0; 0]) as (O1 & L1); [repeat constructor; lia|done|].
  destruct (gives_checksum _ O1 L1 t Ht) as (t' & E & Ht' & Ho & _).
  destruct (complement_verifies a b Ha Hb He) as [Hc Hv]. set (c := 65535 - _) in *.
  exists c, t'. do 4 (split; [done|]).
  destruct (Hw (bytes16 c)) as (O2 & L2); [apply bytes16_ok|done|].
  destruct (gives_checksum _ O2 L2 t' Ht') as (t'' & E2 & _). exists t''. by rewrite E2, Hv.
Qed.

Lemma checksum_verifies_witness :
  ∃ c t', checksum ([8; 0] ++ [0; 0] ++ [0; 1; 0; 1]) demo_con = Done c t' ∧
    ∃ t'', checksum ([8; 0] ++ bytes16 c ++ [0; 1; 0; 1]) t' = Done 0 t''.
Proof.
  destruct (checksum_verifies [8; 0] [0; 1; 0; 1] demo_con demo_con_ok) as (c & t' & E & _ & _ & _ & E').
  - apply (bool_decide_unpack _). vm_compute. exact I.
  - apply (bool_decide_unpack _). vm_compute. exact I.
  - reflexivity.
  - vm_compute. discriminate.
  - exists c, t'. split; [exact E|exact E'].
Defined.

(** * The card *)

(** A card latches what is written to its ports; other ports are not its own. *)
Class Nic (D : Type) `{PortIO D} := {
  nic_port : D → Z → Z;
  nic_write : ∀ v d r, byte_ok v → 0x8000 ≤ r < 0x8100 → nic_port (port_outb r v d) r = v;
  nic_other : ∀ p v d r, p ≠ r → nic_port (port_outb p v d) r = nic_port d r;
}.

(** Ports that are all latches: the card of the witnesses. *)
Record card := Card { card_ports : memory }.

#[export] Instance card_io : PortIO card := {|
  port_inb p d := (load8 (card_ports d) p, d);
  port_inw p d := (0, d);
  port_outb p v d := Card (store8 (card_ports d) p v);
  port_outw p v d := d;
|}.

#[export, refine] Instance card_nic : Nic card := {| nic_port d := load8 (card_ports d) |}.
Proof.
  - intros v d r Hv _. simpl. rewrite load8_store8, decide_True by done. by apply u8_id.
  - intros p v d r Hne. simpl. rewrite load8_store8, decide_False by done. done.
Defined.

Section Card.
Context {D : Type} `{Nic D}.
Implicit Types (t : con D) (d : D).

Lemma crt_only_nic d d' r : 0x8000 ≤ r → crt_only d d' → nic_port d' r = nic_port d r.
Proof.
  intros Hr. induction 1 as [|d p v d' Hp _ IH]; [done|]. rewrite IH. apply nic_other. destruct Hp; lia.
Qed.

Lemma nic_out r v t :
  byte_ok v → 0 ≤ r < 0x100 →
  ∃ t', on_port (outb (0x8000 + r) v) t = Done tt t' ∧ (con_ok t → con_ok t') ∧ c_mem t' = c_mem t ∧
    ∀ x, 0 ≤ x < 0x100 →
      nic_port (c_dev t') (0x8000 + x) = if decide (x = r) then v else nic_port (c_dev t) (0x8000 + x).
Proof.
  intros Hv Hr. exists (set_dev (port_outb (0x8000 + r) v (c_dev t)) t).
  unfold on_port, zoom, outb. rewrite u16_id by lia. rewrite (u8_id v) by exact Hv.
  split; [done|]. split; [done|]. split; [done|]. intros x Hx. cbn [c_dev set_dev].
  case_decide; [subst x; apply nic_write; [done|lia]|apply nic_other; lia].
Qed.

Lemma send_from_run packet : ∀ i t,
  con_ok t → bytes_ok packet → 0 ≤ i → i + Z.of_nat (length packet) ≤ 0x100 →
  ∃ t', send_from 0x8000 i packet t = Done tt t' ∧ con_ok t' ∧ off_screen_same t t' ∧
    ∀ x, 0 ≤ x < 0x100 → nic_port (c_dev t') (0x8000 + x) =
      if decide (i ≤ x < i + Z.of_nat (length packet)) then at_ packet (x - i)
      else nic_port (c_dev t) (0x8000 + x).
Proof.
  induction packet as [|b packet IH]; intros i t Ht Hp Hi Hl; cbn [length] in *.
  { exists t. split_and!; [done|apply Ht..|done|]. intros x Hx. rewrite decide_False by lia. done. }
  apply Forall_cons in Hp as [Hb Hp]. destruct (nic_out i b t Hb) as (t1 & E1 & Ht1 & Hm1 & N1); [lia|].
  specialize (Ht1 Ht). destruct (gives_dot t1 Ht1) as (t2 & E2 & Ht2 & Ho2 & Hd2).
  destruct (IH (i + 1) t2) as (t3 & E3 & Ht3 & Ho3 & N3); [done|done|lia|lia|].
  exists t3. cbn [send_from]. rewrite (bind_done _ _ _ _ _ E1), (bind_done _ _ _ _ _ E2).
  split; [done|]. split; [done|]. split.
  { transitivity t2; [|done]. intros a Ha. rewrite (Ho2 a Ha). by rewrite Hm1. }
  intros x Hx. rewrite N3 by done. rewrite (crt_only_nic _ _ (0x8000 + x) ltac:(lia) Hd2), N1 by done.
  unfold at_. repeat case_decide; try lia; subst; rewrite ?Z.sub_diag; try done.
  by replace (Z.to_nat (x - i)) with (S (Z.to_nat (x - (i + 1)))) by lia.
Qed.

Lemma network_send_run packet t :
  con_ok t → bytes_ok packet → Z.of_nat (length packet) ≤ 0x100 →
  ∃ t', network_send packet t = Done tt t' ∧ con_ok t' ∧ off_screen_same t t' ∧
    ∀ x, 0 ≤ x < Z.of_nat (length packet) →
      nic_port (c_dev t') (0x8000 + x) = if decide (x = 0x10) then 0x01 else at_ packet x.
Proof.
  intros Ht Hp Hl. destruct (send_from_run packet 0 t Ht Hp) as (t1 & E1 & Ht1 & Ho1 & N1); [lia|lia|].
  destruct (nic_out 0x10 0x01 t1) as (t2 & E2 & Ht2 & Hm2 & N2); [unfold byte_ok; lia|lia|].
  exists t2. unfold network_send. change (u16 0xB8000) with 0x8000. rewrite (bind_done _ _ _ _ _ E1).
  split; [done|]. split; [by apply Ht2|]. split.
  { intros a Ha. rewrite Hm2. by apply Ho1. }
  intros x Hx. rewrite N2 by lia. case_decide; [done|]. rewrite N1, decide_True by lia. by rewrite Z.sub_0_r.
Qed.
End Card.

(** The bytes of the echo request to [d3.d2.d1.d0]; [lo] and [hi] are the
    checksum of the header. *)
Definition echo_ip (lo hi d3 d2 d1 d0 : Z) : list Z :=
  [0x45; 0; 0; 28; 0; 0; 0; 0; 64; 0] ++ [lo; hi] ++ [192; 168; 0; 1; d3; d2; d1; d0].
Definition echo_request (lo hi d3 d2 d1 d0 : Z) : list Z :=
  echo_ip lo hi d3 d2 d1 d0 ++ [8; 0; 0xF7; 0xFD; 0; 1; 0; 1].

Lemma echo_ip_ok lo hi d3 d2 d1 d0 :
  byte_ok lo → byte_ok hi → byte_ok d3 → byte_ok d2 → byte_ok d1 → byte_ok d0 → bytes_ok (echo_ip lo hi d3 d2 d1 d0).
Proof. intros. repeat constructor; unfold byte_ok in *; lia. Qed.

Lemma ip_bytes_echo c d3 d2 d1 d0 :
  byte_ok d3 → byte_ok d2 → byte_ok d1 → byte_ok d0 →
  ip_bytes (IpHeader 69 0 (htons (ip_size + icmp_size)) 0 0 64 0 c (htonl 0xC0A80001) (htonl (le32 d0 d1 d2 d3))) =
  echo_ip (c mod 256) ((c / 256) mod 256) d3 d2 d1 d0.
Proof.
  intros. unfold ip_bytes. cbn [destination_address]. rewrite htonl_le32, bytes32_le32 by done. reflexivity.
Qed.

Lemma deref_nul `{PortIO D} (k : kst D) a : load8 (c_mem (k_con k)) a = 0 → deref k (SInt a) = [].
Proof.
  intros Ha. unfold deref. replace (Z.to_nat 0x100000) with (S (Z.to_nat 0xFFFFF)) by lia.
  cbn [mem_str]. by rewrite Ha.
Qed.

(** C38: [send_ping] puts an echo request in network byte order on the ports of the
    card: sender 192.168.0.1, the receiver asked for, header and ICMP checksums
    that verify, the protocol field 0 and not ICMP's 1. Then the start command
    goes to port 16 of the card, which is also where byte 16 of the packet went,
    the first byte of the receiver. (The format string the code takes from
    address 0x0100A8C0 is empty here.) *)
Theorem send_ping_sends `{Nic D} d3 d2 d1 d0 (k : kst D) :
  k_ok k → byte_ok d3 → byte_ok d2 → byte_ok d1 → byte_ok d0 →
  load8 (c_mem (k_con k)) 0x0100A8C0 = 0 →
  ∃ lo hi k', send_ping (le32 d0 d1 d2 d3) k = Done tt k' ∧ k_ok k' ∧ k_mem k k' ∧
    (let packet := echo_request lo hi d3 d2 d1 d0 in
     ones_sum (words (take 20 packet)) = 65535 ∧ ones_sum (words (drop 20 packet)) = 65535 ∧
     ∀ i, 0 ≤ i < 28 → nic_port (c_dev (k_con k')) (0x8000 + i) = if decide (i = 16) then 1 else at_ packet i).
Proof.
  intros [Ht Hl] Hd3 Hd2 Hd1 Hd0 Hnul. assert (byte_ok 0) as Hz by (unfold byte_ok; lia).
  pose proof (echo_ip_ok 0 0 _ _ _ _ Hz Hz Hd3 Hd2 Hd1 Hd0) as B0.
  destruct (gives_checksum _ B0) with (t := k_con k) as (t1 & E1 & Ht1 & Ho1 & _); [cbn; lia|done|].
  destruct (complement_verifies [0x45; 0; 0; 28; 0; 0; 0; 0; 64; 0] [192; 168; 0; 1; d3; d2; d1; d0])
    as [Hc Hv]; [repeat constructor; lia|repeat constructor; unfold byte_ok in *; lia|done|].
  fold (echo_ip 0 0 d3 d2 d1 d0) in Hc, Hv. set (c := 65535 - ones_sum (words (echo_ip 0 0 d3 d2 d1 d0))) in *.
  set (lo := c mod 256). set (hi := (c / 256) mod 256).
  destruct (gives_checksum [8; 0; 0; 0; 0; 1; 0; 1] ltac:(repeat constructor; unfold byte_ok; lia))
    with (t := t1) as (t2 & E2 & Ht2 & Ho2 & _); [cbn; lia|done|].
  destruct (network_send_run (echo_request lo hi d3 d2 d1 d0) t2) as (t3 & E3 & Ht3 & Ho3 & N3); [done| |cbn; lia|].
  { apply Forall_app_2; [apply echo_ip_ok; try done; unfold byte_ok, lo, hi; lia|repeat constructor; unfold byte_ok; lia]. }
  exists lo, hi, (put_con t3 k). split.
  - unfold send_ping. rewrite ip_bytes_echo by done. change (0 mod 256) with 0. change ((0 / 256) mod 256) with 0.
    rewrite (bind_done _ _ k c (put_con t1 k)) by (unfold tty, zoom; by rewrite E1). rewrite ip_bytes_echo by done.
    fold lo hi. change (icmp_bytes (IcmpHeader 8 0 0 (htons 1) (htons 1))) with [8; 0; 0; 0; 0; 1; 0; 1].
    rewrite (bind_done _ _ (put_con t1 k) 0xFDF7 (put_con t2 k)) by (unfold tty, zoom; cbn [k_con put_con]; by rewrite E2).
    change (htonl 0xC0A80001) with 0x0100A8C0.
    rewrite (bind_done _ _ _ [] (put_con t2 k)); [|unfold gets; rewrite deref_nul; [done|]; cbn [k_con put_con];
      by rewrite (Ho2 0x0100A8C0), (Ho1 0x0100A8C0) by (unfold VGA_MEMORY; lia)].
    rewrite (bind_done _ _ _ 0 (put_con t2 k)) by done. unfold tty, zoom. cbn [k_con put_con].
    change (icmp_bytes (IcmpHeader 8 0 0xFDF7 (htons 1) (htons 1))) with [8; 0; 0xF7; 0xFD; 0; 1; 0; 1].
    fold (echo_request lo hi d3 d2 d1 d0). by rewrite E3.
  - split; [done|]. split; [unfold k_mem; cbn [k_con put_con]; by transitivity t1; [|transitivity t2]|].
    split; [exact Hv|split; [done|exact N3]].
Qed.

Definition demo_card (ports : memory) : kst card := initial (Con ∅ (Card ports) 3 0 15 VGA_MEMORY true false).

Lemma demo_card_ok ports : k_ok (demo_card ports).
Proof.
  split; [|vm_compute; discriminate]. unfold con_ok, VGA_HEIGHT, VGA_WIDTH. cbn. split_and!; first [lia|reflexivity].
Qed.

Lemma send_ping_sends_witness :
  ∃ k', send_ping 0xC0A80002 (demo_card ∅) = Done tt k' ∧
    nic_port (c_dev (k_con k')) 0x8013 = 2 ∧ nic_port (c_dev (k_con k')) 0x8010 = 1.
Proof.
  destruct (send_ping_sends 192 168 0 2 (demo_card ∅) (demo_card_ok ∅)) as (lo & hi & k' & E & _ & _ & _ & _ & Hp).
  - unfold byte_ok. lia.
  - unfold byte_ok. lia.
  - unfold byte_ok. lia.
  - unfold byte_ok. lia.
  - reflexivity.
  - exists k'. split; [exact E|]. split; [exact (Hp 19 ltac:(lia))|exact (Hp 16 ltac:(lia))].
Defined.

(** * Receiving *)

Section Receive.
Context {D : Type} `{PortIO D}.
Implicit Types (t : con D) (k : kst D).

Lemma receive_from_run n : ∀ io_base i buffer t,
  con_ok t → 0 ≤ i → i + Z.of_nat n ≤ Z.of_nat (length buffer) →
  ∃ buffer' t', receive_from n io_base i buffer t = Done buffer' t' ∧ con_ok t' ∧ off_screen_same t t' ∧
    length buffer' = length buffer ∧
    ∀ j, 0 ≤ j < i ∨ i + Z.of_nat n ≤ j → at_ buffer' j = at_ buffer j.
Proof.
  induction n as [|n IH]; intros io_base i buffer t Ht Hi Hl.
  { exists buffer, t. by split_and!. }
  cbn [receive_from]. destruct (safe_inb (io_base + i) t Ht) as (v & t1 & E1 & Ht1 & Ho1).
  rewrite (bind_done _ _ _ _ _ E1). destruct (gives_dot t1 Ht1) as (t2 & E2 & Ht2 & Ho2 & _).
  rewrite (bind_done _ _ _ _ _ E2).
  destruct (IH io_base (i + 1) (upd buffer i v) t2) as (buffer' & t3 & E3 & Ht3 & Ho3 & Hlen & Hat);
    [done|lia|unfold upd; rewrite length_insert; lia|].
  exists buffer', t3. split; [done|]. split; [done|]. split; [by transitivity t1; [|transitivity t2]|].
  unfold upd in *. rewrite length_insert in Hlen. split; [done|]. intros j Hj. rewrite Hat by lia.
  unfold at_. rewrite list_lookup_insert_ne by lia. done.
Qed.

Lemma receive_run buffer max t :
  con_ok t → 0 ≤ max → Z.of_nat (length buffer) = max →
  ∃ n buffer' t', network_receive buffer max t = Done (n, buffer') t' ∧ con_ok t' ∧ off_screen_same t t' ∧
    0 ≤ n ≤ max ∧ n < 256 ∧ length buffer' = length buffer ∧ ∀ j, n ≤ j → at_ buffer' j = at_ buffer j.
Proof.
  intros Ht Hmax Hlen. unfold network_receive.
  destruct (safe_inb (0x1500 + 0x20) t Ht) as (s & t1 & E1 & Ht1 & Ho1). rewrite (bind_done _ _ _ _ _ E1).
  destruct (negb _); [|exists 0, buffer, t1; split_and!; try done; lia].
  destruct (safe_inb (0x1500 + 0x24) t1 Ht1) as (l & t2 & E2 & Ht2 & Ho2). rewrite (bind_done _ _ _ _ _ E2).
  assert (0 ≤ l < 256) as Hl.
  { unfold on_port, zoom, inb in E2. destruct (port_inb _ _). injection E2 as <- _. apply u8_range. }
  set (n := if max <? l then max else l).
  assert (0 ≤ n ≤ max ∧ n < 256) as [Hn1 Hn2] by (unfold n; case_if; zbool; lia).
  destruct (receive_from_run (Z.to_nat n) 0x1500 0 buffer t2) as (b' & t3 & E3 & Ht3 & Ho3 & Hb & Hat); [done|lia|lia|].
  rewrite (bind_done _ _ _ _ _ E3). exists n, b', t3.
  split_and!; try done; [by transitivity t1; [|transitivity t2]|lia|lia|]. intros j Hj. apply Hat. lia.
Qed.
End Receive.

(** Receiving is in bounds: whatever the card answers, [network_receive] with
    the size of the buffer returns at most that many and at most 255 bytes, and
    writes only the bytes it reports; the console and memory stay intact. *)
Theorem network_receive_bounds `{PortIO D} buffer (t : con D) :
  con_ok t →
  ∃ n buffer' t', network_receive buffer (Z.of_nat (length buffer)) t = Done (n, buffer') t' ∧
    con_ok t' ∧ off_screen_same t t' ∧ 0 ≤ n ≤ Z.of_nat (length buffer) ∧ n < 256 ∧
    length buffer' = length buffer ∧ ∀ j, n ≤ j → at_ buffer' j = at_ buffer j.
Proof. intros Ht. by apply receive_run; [|lia|]. Qed.

Lemma network_receive_bounds_witness :
  ∃ n buffer' t', network_receive [7; 7; 7] 3 demo_con = Done (n, buffer') t' ∧ length buffer' = 3%nat.
Proof.
  destruct (network_receive_bounds [7; 7; 7] demo_con demo_con_ok) as (n & b & t' & E & _ & _ & _ & _ & Hl & _).
  exists n, b, t'. split; [exact E|exact Hl].
Defined.

(** Code that leaves [networkinit] at [v]. *)
Definition sets_net `{PortIO D} (v : bool) (m : M (kst D) unit) : Prop :=
  ∀ k, k_ok k → ∃ k', m k = Done tt k' ∧ k_ok k' ∧ networkinit k' = v.

Lemma sets_net_after `{PortIO D} v (m : M (kst D) unit) f :
  safely k_io m → sets_net v f → sets_net v (m ;; f).
Proof.
  intros Hm Hf k Hk. destruct (Hm k Hk) as (u & k1 & E1 & Hk1 & _). rewrite (bind_done _ _ _ _ _ E1). by apply Hf.
Qed.

Lemma sets_net_then `{PortIO D} v (m : M (kst D) unit) f :
  sets_net v m → safely k_io f → sets_net v (m ;; f).
Proof.
  intros Hm Hf k Hk. destruct (Hm k Hk) as (k1 & E1 & Hk1 & Hv). rewrite (bind_done _ _ _ _ _ E1).
  destruct (Hf k1 Hk1) as ([] & k2 & E2 & Hk2 & Hio). exists k2. split; [done|]. split; [done|].
  destruct Hio as (_ & _ & _ & _ & _ & _ & -> & _). done.
Qed.

Lemma sets_net_modify `{PortIO D} v : sets_net (D := D) v (modify (put_net v)).
Proof. intros k Hk. by exists (put_net v k). Qed.

(** [receive_ping] does not look at how much was received: when the card
    reports nothing, whether the network counts as up is decided by bytes 20 and
    21 of the uninitialised buffer. *)
Theorem receive_ping_stale `{PortIO D} stack (k : kst D) :
  k_ok k → length stack = 1500%nat →
  (∃ t', on_port (inb 0x1520) (k_con k) = Done 0 t') →
  ∃ k', receive_ping stack k = Done tt k' ∧ k_ok k' ∧
    networkinit k' = (at_ stack 20 =? 0) && (at_ stack 21 =? 0).
Proof.
  intros Hk Hl [t' E]. assert (con_ok t') as Ht'.
  { unfold on_port, zoom in E. destruct (inb _ _); [|done]. injection E as _ <-. apply Hk. }
  unfold receive_ping.
  rewrite (bind_done _ _ k (0, stack) (put_con t' k)).
  2: { unfold tty, zoom, network_receive. by rewrite (bind_done _ _ _ _ _ E). }
  cbn [snd]. change (ip_size + 0) with 20. change (ip_size + 1) with 21.
  set (b := (at_ stack 20 =? 0) && (at_ stack 21 =? 0)).
  apply (sets_net_then b); [|kernel|exact (conj Ht' (proj2 Hk))].
  destruct b; repeat (apply sets_net_after; [kernel|]); apply sets_net_modify.
Qed.

Lemma receive_ping_stale_witness :
  ∃ k', receive_ping (replicate 1500 0) (demo_card ∅) = Done tt k' ∧ networkinit k' = true.
Proof.
  destruct (receive_ping_stale (replicate 1500 0) (demo_card ∅) (demo_card_ok ∅)) as (k' & E & _ & Hn).
  - reflexivity.
  - eexists. vm_compute. reflexivity.
  - exists k'. split; [exact E|exact Hn].
Defined.
