(* ===== verification/Paging.v ===== *)
(** Paging in src/kernel/arch/i386/tty.c: [setup_paging] and the two control
    register writes.

    The two arrays are part of the kernel's state; where the linker puts them are
    the parameters [page_directory_at] and [page_table_at]. [translate] is the
    two-level walk of the processor. *)
From S2P Require Import Prelude Machine CString LibC Terminal Stdio Kernel.

Definition PAGE_SIZE : Z := 4096.
Definition FRAMEBUFFER_ADDRESS : Z := 0xA0000.
Definition FRAMEBUFFER_SIZE : Z := VGA_HEIGHT * 600.

Section Paging.
Context {D : Type} `{PortIO D}.
Abbreviation K := (kst D).
Implicit Types k : K.
Variables page_directory_at page_table_at : Z.

Definition load_page_directory (directory : Z) : M K unit := modify (λ k, put_cr directory (cr0 k) k).

Definition enable_paging : M K unit :=
  let! v := gets cr0 in
  modify (λ k, put_cr (cr3 k) (Z.lor v 0x80000000) k).

Definition set_directory (i v : Z) : M K unit :=
  modify (λ k, put_pages (upd (page_directory k) i v) (page_table k) k).
Definition set_table (i v : Z) : M K unit :=
  modify (λ k, put_pages (page_directory k) (upd (page_table k) i v) k).

Definition init_tables (i : Z) : M K unit :=
  set_directory i 0x00000002 ;;
  set_table i (Z.lor (i * PAGE_SIZE) 3) ;;
  printk ".".

Definition map_framebuffer (i : Z) : M K unit :=
  printk "." ;;
  set_table (FRAMEBUFFER_ADDRESS / PAGE_SIZE + i) (Z.lor (FRAMEBUFFER_ADDRESS + i * PAGE_SIZE) 3).

Definition setup_paging : M K unit :=
  task "Initialize page directory and page table..." 0 ;;
  for_n 1024 0 init_tables ;;
  task "Initialize page directory and page table..." 1 ;;
  task "Map the framebuffer..." 0 ;;
  for_n (Z.to_nat (FRAMEBUFFER_SIZE / PAGE_SIZE)) 0 map_framebuffer ;;
  task "Map the framebuffer..." 1 ;;
  task "Point the page directory to the page table..." 0 ;;
  set_directory 0 (Z.lor page_table_at 3) ;;
  task "Point the page directory to the page table..." 1 ;;
  task "Load the page directory..." 0 ;;
  load_page_directory page_directory_at ;;
  enable_paging ;;
  task "Load the page directory..." 1.

(** * The processor's walk *)

(** With paging on and CR3 at the directory, a linear address is translated
    through the entry of its upper ten bits, which must be present and lead to
    the table, and the entry of its middle ten bits, which must be present. *)
Definition translate k (v : Z) : option Z :=
  if Z.testbit (cr0 k) 31 && (cr3 k =? page_directory_at) then
    let pde := at_ (page_directory k) (v / 0x400000) in
    let pte := at_ (page_table k) ((v / PAGE_SIZE) mod 1024) in
    if Z.testbit pde 0 && (pde / PAGE_SIZE * PAGE_SIZE =? page_table_at) && Z.testbit pte 0
    then Some (pte / PAGE_SIZE * PAGE_SIZE + v mod PAGE_SIZE) else None
  else Some v.

(** * Running it *)

(** [code P m Q]: from a good state with [P], [m] returns in a good one with [Q],
    memory off the screen unchanged. *)
Definition code (P : K → Prop) (m : M K unit) (Q : K → Prop) : Prop :=
  ∀ k, k_ok k → P k → ∃ k', m k = Done tt k' ∧ k_ok k' ∧ k_mem k k' ∧ Q k'.

(** Predicates of the page tables and control registers only. *)
Definition pages_only (P : K → Prop) : Prop :=
  ∀ k k', page_directory k' = page_directory k → page_table k' = page_table k →
    cr3 k' = cr3 k → cr0 k' = cr0 k → P k → P k'.

Lemma code_bind P Q R m1 m2 : code P m1 Q → code Q m2 R → code P (m1 ;; m2) R.
Proof.
  intros C1 C2 k Hk HP. destruct (C1 k Hk HP) as (k1 & E1 & Hk1 & Hm1 & HQ).
  destruct (C2 k1 Hk1 HQ) as (k2 & E2 & Hk2 & Hm2 & HR). exists k2. rewrite (bind_done _ _ _ _ _ E1).
  split_and!; [done|apply Hk2..|by transitivity k1|done].
Qed.

Lemma code_io P m : pages_only P → safely k_io m → code P m P.
Proof.
  intros HP Hm k Hk HPk. destruct (Hm k Hk) as ([] & k' & E & Hk' & Hio). exists k'.
  split_and!; [done|apply Hk'..|apply Hio|].
  destruct Hio as (_ & _ & _ & _ & _ & _ & _ & _ & _ & H1 & H2 & H3 & H4 & _). by apply (HP k).
Qed.

Lemma code_modify (P Q : K → Prop) f :
  (∀ k, P k → Q (f k)) → (∀ k, k_con (f k) = k_con k ∧ eventlog (f k) = eventlog k) → code P (modify f) Q.
Proof.
  intros HQ Hf k Hk HP. destruct (Hf k) as [Hc He]. exists (f k).
  split_and!; [done|by unfold k_ok; rewrite Hc, He..| |by apply HQ].
  intros a _. by rewrite Hc.
Qed.

Lemma code_for (P : Z → K → Prop) n body : ∀ i,
  (∀ j, i ≤ j < i + Z.of_nat n → code (P j) (body j) (P (j + 1))) →
  code (P i) (for_n n i body) (P (i + Z.of_nat n)).
Proof.
  induction n as [|n IH]; intros i Hb; cbn [for_n].
  { intros k Hk HP. exists k. rewrite Z.add_0_r. by split_and!; try apply Hk. }
  eapply code_bind; [apply Hb; lia|]. replace (i + Z.of_nat (S n)) with (i + 1 + Z.of_nat n) by lia.
  apply IH. intros j Hj. apply Hb. lia.
Qed.

(** The entries below [n] are set: directory entries absent, table entry [j]
    leads to frame [j]. *)
Definition absent : Z := 2.
Definition entry (j : Z) : Z := j * PAGE_SIZE + 3.
Definition tables (n : Z) k : Prop :=
  length (page_directory k) = 1024%nat ∧ length (page_table k) = 1024%nat ∧
  ∀ j, 0 ≤ j < n → at_ (page_directory k) j = absent ∧ at_ (page_table k) j = entry j.

Lemma at_upd l i v j :
  0 ≤ i < Z.of_nat (length l) → 0 ≤ j → at_ (upd l i v) j = if decide (i = j) then v else at_ l j.
Proof.
  intros Hi Hj. unfold at_, upd. case_decide as E.
  - subst j. by rewrite list_lookup_insert_eq by lia.
  - by rewrite list_lookup_insert_ne by lia.
Qed.

Lemma length_upd l i v : length (upd l i v) = length l.
Proof. apply length_insert. Qed.

Lemma entry_lor j : 0 ≤ j → Z.lor (j * PAGE_SIZE) 3 = entry j.
Proof. intros Hj. rewrite Z.lor_comm. unfold PAGE_SIZE. rewrite (lor_add 12) by lia. unfold entry, PAGE_SIZE. lia. Qed.

Lemma tables_only n : pages_only (tables n).
Proof. intros k k' E1 E2 _ _. unfold tables. by rewrite E1, E2. Qed.

Lemma init_tables_code j : 0 ≤ j < 1024 → code (tables j) (init_tables j) (tables (j + 1)).
Proof.
  intros Hj.
  set (Q k := length (page_directory k) = 1024%nat ∧ length (page_table k) = 1024%nat ∧
    (∀ i, 0 ≤ i < j + 1 → at_ (page_directory k) i = absent) ∧ ∀ i, 0 ≤ i < j → at_ (page_table k) i = entry i).
  apply (code_bind _ Q).
  - apply code_modify; [|done]. intros k (L1 & L2 & HT). unfold Q. cbn [page_directory page_table put_pages].
    rewrite length_upd. split_and!; [done|done| |intros i Hi; by apply HT].
    intros i Hi. rewrite at_upd by lia. case_decide; [done|]. apply HT. lia.
  - apply (code_bind _ (tables (j + 1))); [|apply code_io; [apply tables_only|apply safely_printk; done]].
    apply code_modify; [|done]. intros k (L1 & L2 & HD & HT). unfold tables. cbn [page_directory page_table put_pages].
    rewrite length_upd. split_and!; [done|done|]. intros i Hi. split; [by apply HD|].
    rewrite at_upd by lia. case_decide; [subst; apply entry_lor; lia|]. apply HT. lia.
Qed.

Lemma map_framebuffer_code j : 0 ≤ j < 3 → code (tables 1024) (map_framebuffer j) (tables 1024).
Proof.
  intros Hj. apply (code_bind _ (tables 1024)); [apply code_io; [apply tables_only|apply safely_printk; done]|].
  apply code_modify; [|done]. intros k (L1 & L2 & HT). unfold tables. cbn [page_directory page_table put_pages].
  rewrite length_upd. split_and!; [done|done|]. intros i Hi. split; [by apply HT|].
  change (FRAMEBUFFER_ADDRESS / PAGE_SIZE) with 160. rewrite at_upd by lia. case_decide; [|by apply HT].
  subst i. replace (FRAMEBUFFER_ADDRESS + j * PAGE_SIZE) with ((160 + j) * PAGE_SIZE)
    by (unfold FRAMEBUFFER_ADDRESS, PAGE_SIZE; lia). apply entry_lor. lia.
Qed.

(** What the function leaves. *)
Definition paged k : Prop :=
  (length (page_directory k) = 1024%nat ∧ length (page_table k) = 1024%nat) ∧
  at_ (page_directory k) 0 = page_table_at + 3 ∧ (∀ j, 1 ≤ j < 1024 → at_ (page_directory k) j = absent) ∧
  ∀ j, 0 ≤ j < 1024 → at_ (page_table k) j = entry j.

Lemma setup_paging_run k :
  k_ok k → length (page_directory k) = 1024%nat → length (page_table k) = 1024%nat →
  0 ≤ page_table_at → page_table_at mod PAGE_SIZE = 0 →
  ∃ k', setup_paging k = Done tt k' ∧ k_ok k' ∧ k_mem k k' ∧
    paged k' ∧ cr3 k' = page_directory_at ∧ Z.testbit (cr0 k') 31 = true.
Proof.
  intros Hk L1 L2 Hpos Hal.
  assert (Z.lor page_table_at 3 = page_table_at + 3) as Hlor.
  { rewrite (Z.div_mod page_table_at PAGE_SIZE) at 1 by done. rewrite Hal, Z.add_0_r, Z.mul_comm.
    rewrite entry_lor by (unfold PAGE_SIZE; lia). unfold entry. unfold PAGE_SIZE in *. lia. }
  assert (∀ P s n, pages_only P → code P (task s n) P) as Htask by (intros; apply code_io; auto using safely_task).
  pose (W k := paged k ∧ cr3 k = page_directory_at ∧ Z.testbit (cr0 k) 31 = true).
  assert (pages_only paged ∧ pages_only W) as [Op Ow].
  { split; intros k1 k2 E1 E2 E3 E4; unfold W, paged; rewrite ?E1, ?E2, ?E3, ?E4; done. }
  assert (code (tables 0) setup_paging W) as Hcode.
  { unfold setup_paging. eapply code_bind; [apply Htask, tables_only|].
    eapply code_bind; [apply (code_for tables 1024 init_tables 0); intros j Hj; apply init_tables_code; lia|].
    change (0 + Z.of_nat 1024) with 1024.
    eapply code_bind; [apply Htask, tables_only|]. eapply code_bind; [apply Htask, tables_only|].
    eapply code_bind.
    { apply (code_for (λ _, tables 1024) (Z.to_nat (FRAMEBUFFER_SIZE / PAGE_SIZE)) map_framebuffer 0).
      change (0 + Z.of_nat (Z.to_nat (FRAMEBUFFER_SIZE / PAGE_SIZE))) with 3. apply map_framebuffer_code. }
    eapply code_bind; [apply Htask, tables_only|]. eapply code_bind; [apply Htask, tables_only|].
    apply (code_bind _ paged).
    { apply code_modify; [|done]. intros k1 (A1 & A2 & HT). unfold paged. cbn [page_directory page_table put_pages].
      rewrite length_upd. split_and!; [done|done|..].
      - rewrite at_upd by lia. by rewrite decide_True.
      - intros j Hj. rewrite at_upd by lia. rewrite decide_False by lia. apply HT. lia.
      - intros j Hj. by apply HT. }
    eapply code_bind; [by apply Htask|]. eapply code_bind; [by apply Htask|].
    apply (code_bind _ (λ k, paged k ∧ cr3 k = page_directory_at)); [by apply code_modify|].
    apply (code_bind _ W); [|by apply Htask]. intros k1 Hk1 [HP HC].
    exists (put_cr (cr3 k1) (Z.lor (cr0 k1) 0x80000000) k1). split; [done|]. split; [done|]. split; [by intros a _|].
    split; [done|]. split; [done|]. cbn [cr0 put_cr]. by rewrite Z.lor_spec, orb_true_r. }
  destruct (Hcode k Hk) as (k' & E & Hk' & Hm & HP & HC & H0); [|by exists k'].
  split_and!; [done|done|lia].
Qed.
End Paging.

(** The tables [setup_paging] leaves map the first 4 MiB to themselves. *)
Lemma paged_identity `{PortIO D} dir table (k : kst D) v :
  paged table k → cr3 k = dir → Z.testbit (cr0 k) 31 = true → table mod PAGE_SIZE = 0 → 0 ≤ v < 4294967296 →
  translate dir table k v = if decide (v < 0x400000) then Some v else None.
Proof.
  intros (_ & HD0 & HD & HT) HC H0 Hal Hv. unfold translate. rewrite H0, HC, Z.eqb_refl. cbn [andb].
  unfold PAGE_SIZE in *. case_decide.
  - replace (v / 0x400000) with 0 by lia. rewrite HD0, HT by lia. unfold entry, PAGE_SIZE.
    assert ((table + 3) / 4096 * 4096 = table) as -> by lia. rewrite Z.eqb_refl.
    assert (Z.testbit (table + 3) 0 = true) as -> by (rewrite Z.bit0_odd, Z.odd_spec; exists ((table + 2) / 2); lia).
    assert (Z.testbit ((v / 4096) mod 1024 * 4096 + 3) 0 = true) as ->
      by (rewrite Z.bit0_odd, Z.odd_spec; exists ((v / 4096) mod 1024 * 2048 + 1); lia).
    cbn [andb]. f_equal. lia.
  - rewrite HD by lia. done.
Qed.

(** * Theorems *)

(** C35: [setup_paging] turns paging on with the identity on the first 4 MiB and
    nothing mapped above: the processor's walk takes an address below 0x400000,
    the kernel, the screen and the framebuffer among them, to itself, and faults
    on every other one. All pages are writable for the kernel only: the user bit
    the comment names is not set. *)
Theorem setup_paging_identity `{PortIO D} dir table (k : kst D) :
  k_ok k → length (page_directory k) = 1024%nat → length (page_table k) = 1024%nat →
  0 ≤ table → table mod PAGE_SIZE = 0 →
  ∃ k', setup_paging dir table k = Done tt k' ∧ k_ok k' ∧ k_mem k k' ∧
    (∀ v, 0 ≤ v < 4294967296 → translate dir table k' v = if decide (v < 0x400000) then Some v else None) ∧
    ∀ j, 0 ≤ j < 1024 → Z.land (at_ (page_table k') j) 7 = 3.
Proof.
  intros Hk L1 L2 Hpos Hal.
  destruct (setup_paging_run dir table k Hk L1 L2 Hpos Hal) as (k' & E & Hk' & Hm & HP & HC & H0).
  exists k'. split; [done|]. split; [done|]. split; [done|]. split.
  - intros v Hv. by apply paged_identity.
  - destruct HP as (_ & _ & _ & HT). intros j Hj. rewrite HT by done. unfold entry, PAGE_SIZE. change 7 with (Z.ones 3).
    rewrite Z.land_ones by done. change (2 ^ 3) with 8. lia.
Qed.

Lemma setup_paging_identity_witness :
  ∃ k', setup_paging 0x106000 0x107000 (demo_kst []) = Done tt k' ∧
    translate 0x106000 0x107000 k' 0xB8000 = Some 0xB8000 ∧ translate 0x106000 0x107000 k' 0x400000 = None.
Proof.
  destruct (setup_paging_identity 0x106000 0x107000 (demo_kst []) (demo_kst_ok [])) as (k' & E & _ & _ & Ht & _).
  - vm_compute. reflexivity.
  - vm_compute. reflexivity.
  - lia.
  - reflexivity.
  - exists k'. split; [exact E|]. split; [exact (Ht 0xB8000 ltac:(lia))|exact (Ht 0x400000 ltac:(lia))].
Defined.
