(* ===== verification/Video.v ===== *)
(** Drawing in src/kernel/arch/i386/tty.c: pixels, lines, boxes, characters of
    the built-in font, and the framebuffer fill at boot.

    All of it writes memory from 0xA0000 on; the memory is the console's. The
    coordinates are [int]: the theorems state the ranges in which the sums do
    not overflow. A font row of a negative [char] is outside the table. *)
From S2P Require Import Prelude Machine CString LibC Terminal Stdio Kernel Paging.

(** The font of [draw_char]; the C array has 256 rows, the others are zero. *)
Definition font : list (list Z) :=
  [[0x1F; 0x11; 0x11; 0x11; 0x11; 0x11; 0x11; 0x1F]; [0x1F; 0x11; 0x11; 0x1F; 0x11; 0x11; 0x11; 0x1F];
   [0x1F; 0x01; 0x01; 0x01; 0x01; 0x01; 0x01; 0x1F]; [0x1F; 0x11; 0x11; 0x1F; 0x11; 0x11; 0x11; 0x1F];
   [0x1F; 0x01; 0x01; 0x1F; 0x01; 0x01; 0x01; 0x1F]; [0x1F; 0x01; 0x01; 0x1F; 0x01; 0x01; 0x01; 0x01];
   [0x1F; 0x01; 0x01; 0x1F; 0x11; 0x11; 0x11; 0x1F]; [0x11; 0x11; 0x11; 0x1F; 0x11; 0x11; 0x11; 0x11];
   [0x1F; 0x01; 0x01; 0x01; 0x01; 0x01; 0x01; 0x1F]; [0x01; 0x01; 0x01; 0x01; 0x01; 0x01; 0x11; 0x1F];
   [0x11; 0x11; 0x11; 0x1F; 0x01; 0x01; 0x01; 0x11]; [0x11; 0x01; 0x01; 0x01; 0x01; 0x01; 0x01; 0x1F];
   [0x11; 0x11; 0x11; 0x1F; 0x11; 0x11; 0x11; 0x11]; [0x11; 0x11; 0x11; 0x1F; 0x11; 0x11; 0x11; 0x11];
   [0x1F; 0x11; 0x11; 0x11; 0x11; 0x11; 0x11; 0x1F]; [0x1F; 0x11; 0x11; 0x1F; 0x01; 0x01; 0x01; 0x01];
   [0x1F; 0x11; 0x11; 0x11; 0x11; 0x11; 0x11; 0x1F]; [0x1F; 0x11; 0x11; 0x1F; 0x01; 0x01; 0x01; 0x11];
   [0x1F; 0x01; 0x01; 0x1F; 0x11; 0x11; 0x11; 0x1F]; [0x1F; 0x01; 0x01; 0x01; 0x01; 0x01; 0x01; 0x01];
   [0x11; 0x11; 0x11; 0x11; 0x11; 0x11; 0x11; 0x1F]; [0x11; 0x11; 0x11; 0x11; 0x11; 0x11; 0x01; 0x01];
   [0x11; 0x11; 0x11; 0x11; 0x11; 0x11; 0x11; 0x11]; [0x11; 0x01; 0x01; 0x11; 0x11; 0x01; 0x01; 0x11];
   [0x11; 0x11; 0x11; 0x01; 0x01; 0x01; 0x01; 0x01]; [0x1F; 0x01; 0x01; 0x11; 0x11; 0x11; 0x01; 0x1F];
   [0x11; 0x11; 0x11; 0x11; 0x11; 0x11; 0x11; 0x11]; [0x01; 0x01; 0x01; 0x01; 0x01; 0x01; 0x01; 0x01];
   [0x11; 0x11; 0x11; 0x11; 0x11; 0x11; 0x11; 0x11]; [0x01; 0x01; 0x01; 0x01; 0x01; 0x01; 0x01; 0x01];
   [0x11; 0x11; 0x11; 0x11; 0x11; 0x11; 0x11; 0x11]; [0x01; 0x01; 0x01; 0x01; 0x01; 0x01; 0x01; 0x01];
   [0x11; 0x11; 0x11; 0x11; 0x11; 0x11; 0x11; 0x1F]; [0x1F; 0x11; 0x11; 0x1F; 0x11; 0x11; 0x11; 0x1F];
   [0x1F; 0x01; 0x01; 0x01; 0x01; 0x01; 0x01; 0x1F]; [0x1F; 0x11; 0x11; 0x1F; 0x11; 0x11; 0x11; 0x1F];
   [0x1F; 0x01; 0x01; 0x1F; 0x01; 0x01; 0x01; 0x1F]; [0x1F; 0x01; 0x01; 0x1F; 0x01; 0x01; 0x01; 0x01];
   [0x1F; 0x01; 0x01; 0x1F; 0x11; 0x11; 0x11; 0x1F]; [0x11; 0x11; 0x11; 0x1F; 0x11; 0x11; 0x11; 0x11];
   [0x1F; 0x01; 0x01; 0x01; 0x01; 0x01; 0x01; 0x1F]; [0x01; 0x01; 0x01; 0x01; 0x01; 0x01; 0x11; 0x1F];
   [0x11; 0x11; 0x11; 0x1F; 0x01; 0x01; 0x01; 0x11]; [0x11; 0x01; 0x01; 0x01; 0x01; 0x01; 0x01; 0x1F];
   [0x11; 0x11; 0x11; 0x1F; 0x11; 0x11; 0x11; 0x11]; [0x11; 0x11; 0x11; 0x1F; 0x11; 0x11; 0x11; 0x11];
   [0x1F; 0x11; 0x11; 0x11; 0x11; 0x11; 0x11; 0x1F]; [0x1F; 0x11; 0x11; 0x1F; 0x01; 0x01; 0x01; 0x01];
   [0x1F; 0x11; 0x11; 0x11; 0x11; 0x11; 0x11; 0x1F]; [0x1F; 0x11; 0x11; 0x1F; 0x01; 0x01; 0x01; 0x11];
   [0x1F; 0x01; 0x01; 0x1F; 0x11; 0x11; 0x11; 0x1F]; [0x1F; 0x01; 0x01; 0x01; 0x01; 0x01; 0x01; 0x01];
   [0x11; 0x11; 0x11; 0x11; 0x11; 0x11; 0x11; 0x1F]; [0x11; 0x11; 0x11; 0x11; 0x11; 0x11; 0x01; 0x01];
   [0x11; 0x11; 0x11; 0x11; 0x11; 0x11; 0x11; 0x11]; [0x11; 0x01; 0x01; 0x11; 0x11; 0x01; 0x01; 0x11];
   [0x11; 0x11; 0x11; 0x01; 0x01; 0x01; 0x01; 0x01]; [0x1F; 0x01; 0x01; 0x11; 0x11; 0x11; 0x01; 0x1F];
   [0x11; 0x11; 0x11; 0x11; 0x11; 0x11; 0x11; 0x11]; [0x01; 0x01; 0x01; 0x01; 0x01; 0x01; 0x01; 0x01];
   [0x11; 0x11; 0x11; 0x11; 0x11; 0x11; 0x11; 0x11]; [0x01; 0x01; 0x01; 0x01; 0x01; 0x01; 0x01; 0x01]].

Definition font_row (c i : Z) : Z := default 0 (default [] (font !! Z.to_nat c) !! Z.to_nat i).

Section Video.
Context {D : Type} `{PortIO D}.
Abbreviation T := (con D).
Implicit Types t : T.

(** [p[index] = v] for a byte pointer [p]. *)
Definition poke (p index v : Z) : M T unit :=
  modify (λ t, set_mem (store8 (c_mem t) (u32 (p + index)) v) t).

Definition draw_pixel (x y color : Z) : M T unit := poke 0xA0000 (s32 (y * 800 + x)) color.

(** [for (int v = lo; v <= hi; v++)] *)
Definition for_to (lo hi : Z) (body : Z → M T unit) : M T unit := for_n (Z.to_nat (hi - lo + 1)) lo body.

Definition draw_horizontal_line (x1 x2 y color : Z) : M T unit := for_to x1 x2 (λ x, draw_pixel x y color).

Definition draw_vertical_line (y1 y2 x color : Z) : M T unit := for_to y1 y2 (λ y, draw_pixel x y color).

Definition draw_box (x1 y1 x2 y2 color : Z) : M T unit :=
  draw_horizontal_line x1 x2 y1 color ;;
  draw_horizontal_line x1 x2 y2 color ;;
  draw_vertical_line y1 y2 x1 color ;;
  draw_vertical_line y1 y2 x2 color.

(** [c] is a [char]: negative values index in front of the table. *)
Definition draw_char (framebuffer x y c : Z) : M T unit :=
  if c <? 0 then raise OutOfBounds
  else
    for_n 8 0 (λ i, for_n 8 0 (λ j,
      when! negb (font_row c i =? 0) do poke framebuffer (s32 ((y + i) + (x + j))) 0x30)).

Fixpoint draw_from (framebuffer x y i : Z) (s : list Z) : M T unit :=
  match s with
  | [] => ret tt
  | c :: s' => draw_char framebuffer (s32 (x + i * 8)) y (s8 c) ;; draw_from framebuffer x y (i + 1) s'
  end.

Definition draw_string (framebuffer x y : Z) (s : list Z) : M T unit := draw_from framebuffer x y 0 (cstr s).

Definition setup_framebuffer : M T unit :=
  for_n (Z.to_nat FRAMEBUFFER_SIZE) 0 (λ i, poke FRAMEBUFFER_ADDRESS i 0x03).
End Video.

(** * Painting *)

Section Painting.
Context {D : Type} `{PortIO D}.
Implicit Types t : con D.

(** [paints A v m]: [m] returns with the bytes of [A] at [v] and all else as it was. *)
Definition paints (A : Z → Prop) (v : Z) (m : M (con D) unit) : Prop :=
  ∀ t, ∃ m', m t = Done tt (set_mem m' t) ∧
    ∀ a, (A a → load8 m' a = v) ∧ (¬ A a → load8 m' a = load8 (c_mem t) a).

Lemma paints_iff A B v m : (∀ a, A a ↔ B a) → paints A v m → paints B v m.
Proof.
  intros HAB Hm t. destruct (Hm t) as (m' & E & HA). exists m'. split; [done|]. intros a.
  destruct (HA a). split; intros Ha; [apply H0|apply H1]; by rewrite HAB.
Qed.

Lemma paints_nothing v : paints (λ _, False) v (ret tt).
Proof. intros t. exists (c_mem t). split; [by destruct t|]. intros a. by split. Qed.

Lemma paints_poke p i v a :
  byte_ok v → 0 ≤ p + i < 4294967296 → a = p + i → paints (eq a) v (poke p i v).
Proof.
  intros Hv Hr -> t. exists (store8 (c_mem t) (p + i) v). unfold poke, modify. rewrite u32_id by done.
  split; [done|]. intros b. rewrite load8_store8. case_decide; [|by split].
  split; [intros _; by apply u8_id|done].
Qed.

Lemma paints_bind A B v m1 m2 :
  paints A v m1 → paints B v m2 → paints (λ a, A a ∨ B a) v (m1 ;; m2).
Proof.
  intros P1 P2 t. destruct (P1 t) as (m1' & E1 & H1). destruct (P2 (set_mem m1' t)) as (m2' & E2 & H2).
  exists m2'. rewrite (bind_done _ _ _ _ _ E1). split; [done|]. intros a.
  destruct (H1 a) as [H1y H1n], (H2 a) as [H2y H2n]. cbn [c_mem set_mem] in H2n.
  split; [|intros Hn; rewrite H2n, H1n; tauto]. intros Ha.
  destruct (decide (load8 m2' a = v)) as [|Hne]; [done|]. destruct Ha as [Ha|Ha]; [|by apply H2y].
  rewrite H2n by tauto. by apply H1y.
Qed.

Lemma paints_idle v n : ∀ lo, paints (λ _, False) v (for_n n lo (λ _, ret tt)).
Proof.
  induction n as [|n IH]; intros lo; [apply paints_nothing|]. intros t. exact (IH (lo + 1) t).
Qed.

(** A loop over [i] that paints the byte [base + i * stride] in each round. *)
Definition strip (base stride lo : Z) (n : nat) (a : Z) : Prop :=
  (a - base) mod stride = 0 ∧ lo ≤ (a - base) / stride < lo + Z.of_nat n.

Lemma paints_for base stride v body n : 0 < stride → ∀ lo,
  (∀ i, lo ≤ i < lo + Z.of_nat n → paints (eq (base + i * stride)) v (body i)) →
  paints (strip base stride lo n) v (for_n n lo body).
Proof.
  intros Hs. induction n as [|n IH]; intros lo Hb; cbn [for_n].
  { eapply paints_iff; [|apply paints_nothing]. intros a. unfold strip. lia. }
  eapply paints_iff; [|apply (paints_bind (eq (base + lo * stride)) (strip base stride (lo + 1) n))].
  - intros a. unfold strip. split.
    + intros [<-|]; [|lia]. replace (base + lo * stride - base) with (lo * stride) by lia.
      rewrite Z.mod_mul, Z.div_mul by lia. lia.
    + intros [Hm Hd]. destruct (decide ((a - base) / stride = lo)) as [El|]; [left|right; lia].
      pose proof (Z.div_mod (a - base) stride ltac:(lia)). nia.
  - apply Hb. lia.
  - apply IH. intros i Hi. apply Hb. lia.
Qed.
End Painting.

Section Drawing.
Context {D : Type} `{PortIO D}.
Implicit Types t : con D.

(** The byte of a pixel, in the 800-byte rows the code uses. *)
Definition pixel_at (x y : Z) : Z := 0xA0000 + y * 800 + x.
Definition pixel t (x y : Z) : Z := load8 (c_mem t) (pixel_at x y).

Lemma draw_pixel_paints x y color a :
  byte_ok color → 0 ≤ x < 800 → 0 ≤ y < 600 → a = pixel_at x y → paints (eq a) color (draw_pixel (D := D) x y color).
Proof.
  intros Hc Hx Hy ->. unfold draw_pixel. rewrite s32_id by lia. apply paints_poke; [done|lia|unfold pixel_at; lia].
Qed.

Lemma horizontal_paints x1 x2 y color :
  byte_ok color → 0 ≤ x1 ≤ x2 → x2 < 800 → 0 ≤ y < 600 →
  paints (λ a, pixel_at x1 y ≤ a ≤ pixel_at x2 y) color (draw_horizontal_line (D := D) x1 x2 y color).
Proof.
  intros Hc Hx1 Hx2 Hy. unfold draw_horizontal_line, for_to.
  eapply paints_iff; [|apply (paints_for (0xA0000 + y * 800) 1); [lia|]].
  - intros a. unfold strip, pixel_at. rewrite Z.div_1_r, Z.mod_1_r. lia.
  - intros i Hi. apply draw_pixel_paints; [done|lia|done|unfold pixel_at; lia].
Qed.

Lemma vertical_paints y1 y2 x color :
  byte_ok color → 0 ≤ y1 ≤ y2 → y2 < 600 → 0 ≤ x < 800 →
  paints (strip (0xA0000 + x) 800 y1 (Z.to_nat (y2 - y1 + 1))) color (draw_vertical_line (D := D) y1 y2 x color).
Proof.
  intros Hc Hy1 Hy2 Hx. unfold draw_vertical_line, for_to. apply paints_for; [lia|].
  intros i Hi. apply draw_pixel_paints; [done|done|lia|unfold pixel_at; lia].
Qed.

(** The rows of the font that are there have no empty line, the others are empty. *)
Lemma font_row_zero c i : 0 ≤ c → 0 ≤ i < 8 → (font_row c i =? 0) = negb (c <? 62).
Proof.
  intros Hc Hi. destruct (Z.ltb_spec c 62) as [H62|H62].
  - assert (forallb (λ r, forallb (λ b, negb (b =? 0)) r && (length r =? 8)%nat) font = true) as HF by reflexivity.
    rewrite forallb_forall in HF. unfold font_row.
    destruct (font !! Z.to_nat c) as [r|] eqn:Er; [|apply lookup_ge_None in Er; change (length font) with 62%nat in Er; lia].
    specialize (HF r (proj1 (list_elem_of_In _ _) (list_elem_of_lookup_2 _ _ _ Er))). apply andb_true_iff in HF as [HF Hl].
    apply Nat.eqb_eq in Hl. cbn [default]. destruct (r !! Z.to_nat i) as [b|] eqn:Eb; [|apply lookup_ge_None in Eb; lia].
    rewrite forallb_forall in HF. specialize (HF b (proj1 (list_elem_of_In _ _) (list_elem_of_lookup_2 _ _ _ Eb))).
    apply negb_true_iff in HF. unfold id. by rewrite Eb.
  - unfold font_row. rewrite (lookup_ge_None_2 font) by (change (length font) with 62%nat; lia). done.
Qed.

Lemma draw_char_paints fb x y c :
  0 ≤ c < 128 → 0 ≤ fb < 2147483648 → 0 ≤ x < 65536 → 0 ≤ y < 65536 →
  paints (λ a, c < 62 ∧ fb + x + y ≤ a ≤ fb + x + y + 14) 0x30 (draw_char (D := D) fb x y c).
Proof.
  intros Hc Hfb Hx Hy. unfold draw_char. rewrite (proj2 (Z.ltb_ge c 0)) by lia.
  assert (∀ i, 0 ≤ i < 8 → paints (λ a, c < 62 ∧ fb + x + y + i ≤ a ≤ fb + x + y + i + 7) 0x30
    (for_n 8 0 (λ j, when! negb (font_row c i =? 0) do poke (D := D) fb (s32 ((y + i) + (x + j))) 0x30))) as Hrow.
  { intros i Hi. rewrite font_row_zero by lia. destruct (Z.ltb_spec c 62); cbn [negb].
    - eapply paints_iff; [|apply (paints_for (fb + x + y + i) 1); [lia|]].
      + intros a. unfold strip. rewrite Z.div_1_r, Z.mod_1_r. lia.
      + intros j Hj. rewrite s32_id by lia. apply paints_poke; [unfold byte_ok; lia|lia|lia].
    - eapply paints_iff; [|apply paints_idle]. intros a. lia. }
  eapply paints_iff.
  2: { do 8 (apply paints_bind; [apply Hrow; lia|]). apply paints_nothing. }
  intros a. lia.
Qed.
End Drawing.

(** * Theorems *)

(** [draw_box] draws the outline and nothing else: on an 800 by 600 screen, for
    corners in order, a pixel has the colour exactly if it is on one of the four
    edges, and no other byte of memory changes. *)
Theorem draw_box_outline `{PortIO D} x1 y1 x2 y2 color (t : con D) :
  byte_ok color → 0 ≤ x1 ≤ x2 → x2 < 800 → 0 ≤ y1 ≤ y2 → y2 < 600 →
  ∃ m', draw_box x1 y1 x2 y2 color t = Done tt (set_mem m' t) ∧
    (∀ x y, 0 ≤ x < 800 → 0 ≤ y < 600 → pixel (set_mem m' t) x y =
       if decide (x1 ≤ x ≤ x2 ∧ y1 ≤ y ≤ y2 ∧ (x = x1 ∨ x = x2 ∨ y = y1 ∨ y = y2)) then color else pixel t x y) ∧
    ∀ a, a < 0xA0000 ∨ 0xA0000 + 480000 ≤ a → load8 m' a = load8 (c_mem t) a.
Proof.
  intros Hc Hx Hx2 Hy Hy2.
  pose proof (paints_bind _ _ _ _ _ (horizontal_paints (D := D) x1 x2 y1 color Hc Hx Hx2 ltac:(lia))
    (paints_bind _ _ _ _ _ (horizontal_paints (D := D) x1 x2 y2 color Hc Hx Hx2 ltac:(lia))
      (paints_bind _ _ _ _ _ (vertical_paints (D := D) y1 y2 x1 color Hc Hy Hy2 ltac:(lia))
        (vertical_paints (D := D) y1 y2 x2 color Hc Hy Hy2 ltac:(lia))))) as HP.
  destruct (HP t) as (m' & E & Hm). exists m'. split; [done|]. unfold strip, pixel_at in Hm.
  assert (∀ x y x0, 0 ≤ x < 800 → 0 ≤ x0 < 800 → 0 ≤ y →
    let d := 0xA0000 + y * 800 + x - (0xA0000 + x0) in
    (d mod 800 = 0 ∧ y1 ≤ d / 800 < y1 + Z.of_nat (Z.to_nat (y2 - y1 + 1))) ↔ x = x0 ∧ y1 ≤ y ≤ y2) as Hstrip
    by (intros x y x0 H1 H2 H3 d; unfold d; lia).
  split.
  - intros x y Hxr Hyr. unfold pixel, pixel_at. cbn [c_mem set_mem].
    destruct (Hm (0xA0000 + y * 800 + x)) as [Hin Hout].
    rewrite (Hstrip x y x1), (Hstrip x y x2) in Hin, Hout by lia.
    case_decide as Hb; [apply Hin; lia|apply Hout; lia].
  - intros a Ha. apply Hm. lia.
Qed.

Lemma draw_box_outline_witness :
  ∃ m', draw_box 2 1 5 4 7 demo_con = Done tt (set_mem m' demo_con) ∧
    pixel (set_mem m' demo_con) 5 3 = 7 ∧ pixel (set_mem m' demo_con) 3 2 = 0.
Proof.
  destruct (draw_box_outline 2 1 5 4 7 demo_con) as (m' & E & Hp & _).
  - unfold byte_ok. lia.
  - lia.
  - lia.
  - lia.
  - lia.
  - exists m'. split; [exact E|]. split; [exact (Hp 5 3 ltac:(lia) ltac:(lia))|exact (Hp 3 2 ltac:(lia) ltac:(lia))].
Defined.

(** [draw_char] leaves out the row pitch and indexes its font by the character
    code although the table starts at "A": the first 62 codes paint the 15 bytes
    behind [x + y], whatever the glyph, and the codes from 62 on, all letters
    among them, paint nothing. *)
Theorem draw_char_smears `{PortIO D} fb x y c (t : con D) :
  0 ≤ c < 128 → 0 ≤ fb < 2147483648 → 0 ≤ x < 65536 → 0 ≤ y < 65536 →
  ∃ m', draw_char fb x y c t = Done tt (set_mem m' t) ∧
    ∀ a, load8 m' a = if decide (c < 62 ∧ fb + x + y ≤ a ≤ fb + x + y + 14) then 0x30 else load8 (c_mem t) a.
Proof.
  intros Hc Hfb Hx Hy. destruct (draw_char_paints fb x y c Hc Hfb Hx Hy t) as (m' & E & Hm).
  exists m'. split; [done|]. intros a. case_decide; by apply Hm.
Qed.

Lemma draw_char_smears_witness :
  ∃ m', draw_char 0xA0000 100 100 65 demo_con = Done tt (set_mem m' demo_con) ∧ load8 m' 0xA00C8 = 0.
Proof.
  destruct (draw_char_smears 0xA0000 100 100 65 demo_con) as (m' & E & Hm).
  - lia.
  - lia.
  - lia.
  - lia.
  - exists m'. split; [exact E|exact (Hm 0xA00C8)].
Defined.

(** [setup_framebuffer] fills exactly its 15000 bytes, short of the text screen. *)
Lemma setup_framebuffer_fills `{PortIO D} (t : con D) :
  ∃ m', setup_framebuffer t = Done tt (set_mem m' t) ∧
    ∀ a, load8 m' a = if decide (0xA0000 ≤ a < 0xA0000 + 15000) then 0x03 else load8 (c_mem t) a.
Proof.
  destruct (paints_for (D := D) FRAMEBUFFER_ADDRESS 1 0x03 (λ i, poke FRAMEBUFFER_ADDRESS i 0x03) (Z.to_nat FRAMEBUFFER_SIZE)
    ltac:(lia) 0) with (t := t) as (m' & E & Hm).
  { change (Z.of_nat (Z.to_nat FRAMEBUFFER_SIZE)) with 15000. intros i Hi. unfold FRAMEBUFFER_ADDRESS.
    apply paints_poke; [unfold byte_ok; lia|lia|lia]. }
  exists m'. split; [exact E|]. intros a. unfold strip, FRAMEBUFFER_ADDRESS in Hm. specialize (Hm a).
  rewrite Z.div_1_r, Z.mod_1_r in Hm. change (Z.of_nat (Z.to_nat FRAMEBUFFER_SIZE)) with 15000 in Hm.
  case_decide; apply Hm; lia.
Qed.
