(* ===== verification/Shell.v ===== *)
(** The keyboard handler, the shell and the boot of src/kernel/arch/i386/tty.c:
    [handle_keyboard_input] with its commands, [shell], [setup] and
    [kernel_main].

    Loops that wait for the outside take fuel: [f] bounds each wait for a key and
    the rounds of the two endless loops. A write outside [input_buffer] stops the
    model with [OutOfBounds]. Delay loops have no effect and are left out. *)
From S2P Require Import Prelude Machine CString LibC Terminal Stdio Kernel Quiet Rtc Paging Video.

Definition fakeroot : list string :=
  ["/usr"; "/root"; "/var"; "/sys"; "/boot"; "/dev"; "/dev/console"; "/dev/random"; "/dev/stdout";
   "/dev/stdin"; "/dev/stderr"].

Section Shell.
Context {D : Type} `{PortIO D}.
Abbreviation K := (kst D).
Variable shr80 : Z → Z.
Variables page_directory_at page_table_at : Z.

(** * Small helpers of the handler *)

Definition writestring (r : sref) : M K unit :=
  let! s := gets (λ k, deref k r) in tty (terminal_writestring s).

Definition write_username : M K unit := let! u := gets username in writestring u.

(** [input_buffer[i] = v] *)
Definition set_input (i v : Z) : M K unit :=
  if (0 <=? i) && (i <? 256) then modify (λ k, put_input (upd (input_buffer k) i v) (input_buffer_index k) k)
  else raise OutOfBounds.
Definition set_index (i : Z) : M K unit := modify (λ k, put_input (input_buffer k) (u32 i) k).

Definition lift {A} (o : option A) : M K A := match o with Some a => ret a | None => raise OutOfBounds end.

(** [strcmp(input_buffer, s) == 0] and [strncmp(input_buffer, s, n) == 0] *)
Definition input_is (s : string) : M K bool :=
  let! b := gets input_buffer in let! v := lift (strcmp b (str s ++ [0])) in ret (v =? 0).
Definition input_starts (n : nat) (s : string) : M K bool :=
  let! b := gets input_buffer in let! v := lift (strncmp n b (str s ++ [0])) in ret (v =? 0).

(** [strtok(input_buffer + off, " ")] *)
Definition strtok_input (off : nat) : M K sref :=
  let! k := gets id in
  let! r := lift (strtok (Some off) [32; 0] (input_buffer k) (strtok_last k)) in
  let '(tok, b, last) := r in
  modify (λ k, put_last last (put_input b (input_buffer_index k) k)) ;;
  ret (match tok with Some p => SBuf p | None => SInt 0 end).

Definition prompt : M K unit :=
  newline ;; write_username ;; write "@" ;; tty (terminal_writestring hostname) ;; write " /> ".

(** * Screens *)

Definition nyan : M K unit :=
  row 1 ;; newline ;;
  printk "           @@@@@@@@@@@@@@@@@@@@@@@@           " ;; newline ;;
  printk "         @::::------------------::::@@        " ;; newline ;;
  printk "         @:::--------+---+-------:::@@        " ;; newline ;;
  printk "         @:----------------@@-++---:@@  @@@   " ;; newline ;;
  printk "         @:--------------@@==@@----:@@ @===@  " ;; newline ;;
  printk "         @:---------+----@@=====@@@@@======@  " ;; newline ;;
  printk "@@==@@   @:-----+--------@@================@  " ;; newline ;;
  printk "@@==@@@@@@:----------+--@====  @======= @@==@@" ;; newline ;;
  printk "   @@@==%@:-------------@====@@@====@@=@@@==@@" ;; newline ;;
  printk "      @@@@:-------++----@=---=============--@@" ;; newline ;;
  printk "        @@::::-----------@=====@@@@@@@@@===@  " ;; newline ;;
  printk "        @@@:::::::::::::::@@==============@   " ;; newline ;;
  printk "       @+==@@ @===@         @===@  @===@      " ;; newline ;;
  printk "       @@@@    @@@@          @@@@   @@@@      " ;; newline.

Definition m : M K unit :=
  tty terminal_initialize ;;
  port (outb 0x3C4 0x01) ;; port (outb 0x3C5 0x01) ;;
  port (outb 0x3C4 0x02) ;; port (outb 0x3C5 0x99) ;;
  port (outb 0x3C4 0x03) ;; port (outb 0x3C5 0x00) ;;
  port (outb 0x3C4 0x04) ;; port (outb 0x3C5 0x80) ;;
  tty terminal_initialize.

(** The screen both questions of [setup] start with. *)
Definition question (s : string) : M K unit :=
  let! pc := gets paniccolor in
  color VGA_COLOR_WHITE pc ;;
  set_index 0 ;;
  clear ;;
  tty (modify (set_wait true)) ;;
  row 6 ;; newline ;; column 6 ;;
  write s.

Definition fixflash (f : nat) : M K unit :=
  question "Is this flashing? [Y/n]" ;;
  let! data2 := read_keyboard f in
  column 6 ;;
  tty (terminal_putchar data2) ;;
  when! (data2 =? 121) || (data2 =? 10) do modify (put_paniccolor VGA_COLOR_BLACK).

Definition displayscreen (f : nat) : M K unit :=
  question "Do you have a black and white display? [y/N]" ;;
  column 6 ;;
  let! _ := read_keyboard f in
  let! data := read_keyboard f in
  tty (terminal_putchar data) ;;
  if data =? 0 then ret tt
  else when! data =? 121 do (m ;; fixflash f ;; fixflash f).

Definition setup (f : nat) : M K unit :=
  tty terminal_initialize ;;
  task "Running setup..." 0 ;;
  fixflash f ;;
  displayscreen f ;;
  newline ;;
  task "Running setup..." 1.

Definition set_vga_mode : M K unit :=
  task "Stop for 6000000..." 0 ;;
  task "Set VESA mode number..." 0 ;;
  task "Set VESA mode number..." 2 ;;
  task "Switch to 800x600x16 mode..." 0 ;;
  task "Switch to 800x600x16 mode..." 2 ;;
  task "Change cursor" 0 ;;
  port (outb 0x3D4 0x0A) ;;
  port (outb 0x3D5 0x02) ;;
  task "Change cursor" 1 ;;
  task "Stop for 6000000..." 0 ;;
  task "Stop for 6000000..." 1.

(** * The commands *)

(** One cell of the endless colour test. *)
Definition color_cell (f : nat) (y x : Z) : M K unit :=
  let! c := gets (λ k, terminal_color (k_con k)) in
  tty (put_cell (y * VGA_WIDTH + x) (vga_entry 32 c)) ;;
  color y x ;;
  let! _ := read_keyboard f in
  tty (modify (λ t, set_column (terminal_column t + 1) t)) ;;
  tty (modify (set_wait true)) ;;
  nyan.

(** [while (1) for (y = 0; y < VGA_HEIGHT - wait; y++)], where the bound wraps. *)
Definition color_bound : Z := u32 (VGA_HEIGHT - u16 (VGA_HEIGHT - VGA_WIDTH)).
Fixpoint color_test (n f : nat) (y : Z) : M K unit :=
  match n with
  | O => raise OutOfFuel
  | S n' =>
      tty (modify (set_buffer (VGA_MEMORY + 2 * y))) ;;
      port (outb 0x3D4 0x0A) ;; port (outb 0x3D5 0x20) ;;
      for_n (Z.to_nat VGA_HEIGHT) 0 (λ y, for_n (Z.to_nat VGA_WIDTH) 0 (λ x, color_cell f y x)) ;;
      color VGA_COLOR_WHITE VGA_COLOR_BLACK ;;
      port (outb 0x3D4 0x0A) ;; port (outb 0x3D5 0x02) ;;
      color_test n' f (if y + 1 <? color_bound then y + 1 else 0)
  end.

Definition do_ls : M K unit :=
  newline ;;
  let! ready := gets fsinit in
  if negb ready then panic shr80 (str "FS NOT INIT!")
  else
    (fix list (l : list string) : M K unit :=
       match l with
       | [] => ret tt
       | s :: l' => let! _ := tty (printf (str "%s ") [ArgStr (str s)]) in list l'
       end) fakeroot.

Fixpoint print_events (l : list sref) : M K unit :=
  match l with
  | [] => ret tt
  | e :: l' =>
      let! s := gets (λ k, deref k e) in
      let! _ := tty (printf (str "%s | ") [ArgStr s]) in
      print_events l'
  end.

Definition do_le : M K unit := printk "%n" ;; let! l := gets eventlog in print_events l.

Definition do_echo : M K unit :=
  let! content := strtok_input 5 in newline ;; writestring content.

Definition do_ppm : M K unit :=
  newline ;; write "PotatoOS Package Manager" ;;
  newline ;; write "Usage ppm [install][remove][update] [package name]" ;;
  newline ;; write "This is a placeholder.".

Definition do_help : M K unit :=
  newline ;;
  printk "PotatoOS " ;;
  (let! _ := tty (printf version []) in printk ".") ;;
  (let! _ := tty (printf subversion []) in newline) ;;
  newline ;;
  printk "fatinit         - Initialize the FAT." ;; newline ;;
  printk "shutdown        - Shut down the computer." ;; newline ;;
  printk "color           - Show the color test screen." ;; newline ;;
  printk "ls              - List all the contents of the currently open directory." ;; newline ;;
  printk "echo            - Output text onto the terminal." ;; newline ;;
  printk "cat             - View the contents of a file." ;; newline ;;
  printk "waitwrite       - Wait a duration of time before outputting a character onto the terminal, an example of this is in the kernel panic screen." ;; newline ;;
  printk "ld              - Link object files and libraries.".

Definition do_fatinit : M K unit :=
  newline ;;
  write "[      ] Attempting to initialize FAT..." ;;
  let! r := mainfat in
  modify (put_fsinit (r =? 0)).

(** [new_buffer] has type [char**], so that 2 of them are 8 bytes. *)
Definition do_un : M K unit :=
  let! content := strtok_input 8 in
  modify (put_user content) ;;
  newline ;;
  write "Username is now: " ;;
  write_username.

Definition do_unknown : M K unit :=
  newline ;;
  printk "'" ;;
  let! format := gets input_buffer in
  let! _ := tty (printf format []) in
  printk "'" ;;
  printk " unknown command or file name.".

(** The chain of comparisons on Enter; [n] bounds the endless colour test. *)
Definition run_command (n f : nat) : M K unit :=
  let! c := input_is "ls" in if c then do_ls else
  let! c := input_is "le" in if c then do_le else
  let! c := input_starts 5 "echo " in if c then do_echo else
  let! c := input_is "m" in if c then m else
  let! c := input_is "ppm" in if c then do_ppm else
  let! c := input_is "help" in if c then do_help else
  let! c := input_is "clear" in if c then tty terminal_initialize else
  let! c := input_is "exit" in if c then modify (put_exit true) else
  let! c := input_is "panic" in if c then modify (put_fsinit false) else
  let! c := input_is "reboot" in if c then reboot else
  let! c := input_is "g" in if c then (port (outb 0x3D4 0x0A) ;; port (outb 0x3D5 0x02)) else
  let! c := input_is "fatinit" in if c then do_fatinit else
  let! c := input_is "waitwrite" in if c then tty (modify (set_wait true)) else
  let! c := input_is "shutdown" in if c then shutdown shr80 else
  let! c := input_starts 2 "un " in if c then do_un else
  let! c := input_is "color" in if c then color_test n f 0 else
  let! i := gets input_buffer_index in
  when! negb (i =? 0) do do_unknown.

(** * The handler *)

Definition backspace : M K unit :=
  let! k := gets id in
  let t := k_con k in
  let limit := u32 (Z.of_nat (length (deref k (username k))) + Z.of_nat (length hostname) + 5) in
  when! limit <? terminal_column t do
    (tty (modify (set_column (terminal_column t - 1))) ;;
     set_index (input_buffer_index k - 1) ;;
     let! t := gets k_con in
     tty (terminal_putentryat 32 (terminal_color t) (terminal_column t) (terminal_row t)) ;;
     tty (update_cursor (terminal_column t) (terminal_row t))).

Definition pick_color : M K unit :=
  let! k := gets id in
  color (u32 (terminal_row (k_con k) * input_buffer_index k)) (input_buffer_index k) ;;
  tty (modify (set_buffer VGA_MEMORY)) ;;
  row 0 ;;
  tty fill_screen ;;
  row 6 ;; column 6 ;;
  write "Select a color".

Definition enter (n f : nat) : M K unit := run_command n f ;; prompt ;; set_index 0.

Definition type_char (data : Z) : M K unit :=
  let! i := gets input_buffer_index in
  when! i <? 255 do (set_input i data ;; set_index (i + 1) ;; tty (terminal_putchar data)).

Definition handle_keyboard_input (n f : nat) : M K unit :=
  let! data := read_keyboard f in
  if data =? 0 then ret tt
  else
    let! i := gets input_buffer_index in
    set_input i 0 ;;
    if data =? 8 then backspace
    else
      (when! data =? 85 do pick_color) ;;
      let data := if data =? 85 then 0 else data in
      if data =? 10 then enter n f else type_char data.

(** [while (1)] with the exit flag tested first; [r] bounds the rounds. *)
Fixpoint shell_loop (r n f : nat) : M K unit :=
  match r with
  | O => raise OutOfFuel
  | S r' =>
      let! e := gets exitHKIloop in
      if e then ret tt else handle_keyboard_input n f ;; shell_loop r' n f
  end.

Definition shell (r n f : nat) : M K unit :=
  task "Entering recovery shell..." 1 ;;
  prompt ;;
  shell_loop r n f.

(** * Boot *)

Definition greeting : M K unit :=
  newline ;;
  write "Welcome to " ;; tty (terminal_writestring osname) ;; write " " ;;
  tty (terminal_writestring version) ;; write "." ;; tty (terminal_writestring subversion) ;; write "!" ;;
  newline.

(** What follows the recovery shell; its last test never succeeds. *)
Definition continue_boot (r n f : nat) : M K unit :=
  newline ;;
  write "Press 's' to enter builtin shell or enter to continue boot process: " ;;
  let! data := read_keyboard f in
  tty (terminal_putchar data) ;;
  (when! data =? 115 do shell r n f) ;;
  if findconfig (str "/sys/config") =? 0 then ret tt
  else panic shr80 (str "Config file invalid or not found.").

Definition kernel_main (r n f w : nat) : M K unit :=
  tty (modify (set_wait true)) ;;
  port (outb 0x3D4 0x0A) ;;
  port (outb 0x3D5 0x20) ;;
  setup f ;;
  tty terminal_initialize ;;
  color VGA_COLOR_LIGHT_GREEN VGA_COLOR_BLACK ;;
  row 1 ;;
  greeting ;;
  color VGA_COLOR_WHITE VGA_COLOR_BLACK ;;
  task "Setup paging..." 0 ;;
  setup_paging page_directory_at page_table_at ;;
  task "Setup paging..." 1 ;;
  task "Setup framebuffer..." 0 ;;
  tty setup_framebuffer ;;
  task "Setup framebuffer..." 1 ;;
  task "Set video mode..." 0 ;;
  set_vga_mode ;;
  read_rtc f w ;;
  task "Attempting to initialize FAT..." 0 ;;
  let! fat := mainfat in
  (when! fat =? 0 do (modify (put_fsinit true) ;; task "Attempting to initialize FAT..." 1)) ;;
  tty (modify (set_wait false)) ;;
  let! k := gets id in
  (when! negb (networkinit k) && negb (fsinit k) do
     (task "Entering recovery shell..." 0 ;; shell r n f ;; panic shr80 [])) ;;
  continue_boot r n f.
End Shell.

(** * The line editor *)

(** What the keys before Enter do to the typed line; [P] is the width of the
    prompt. Backspace stops at the column behind the prompt, in whichever row
    the line has come to; the line ends at 255 characters. *)
Definition edit (P : Z) (l : list Z) (c : Z) : list Z :=
  if c =? 0 then l
  else if c =? 8 then
    (if P <? (P + Z.of_nat (length l)) mod 80 then take (length l - 1) l else l)
  else if Z.of_nat (length l) <? 255 then l ++ [c] else l.

Section Editor.
Context {D : Type} `{Keyboard D}.
Implicit Types (k : kst D) (t : con D) (u : list Z).

Definition line k : list Z := take (Z.to_nat (input_buffer_index k)) (input_buffer k).

(** The width of the prompt [u@live /> ]. *)
Definition width u : Z := Z.of_nat (length (cstr u)) + 9.

(** The shell waits for a line: the position on the screen and in the buffer
    agree, the buffer ends in a NUL, and the user name is a constant. *)
Record at_line u k : Prop := {
  line_k_ok : k_ok k;
  line_length : length (input_buffer k) = 256%nat;
  line_last : at_ (input_buffer k) 255 = 0;
  line_index : 0 ≤ input_buffer_index k ≤ 255;
  line_user : username k = SLit u;
  line_width : width u < 80;
  line_clean : cstr u = u;
  line_column : terminal_column (k_con k) = (width u + input_buffer_index k) mod 80;
}.

Lemma length_line u k : at_line u k → Z.of_nat (length (line k)) = input_buffer_index k.
Proof. intros []. unfold line. rewrite length_take. lia. Qed.

Lemma at_line_dev u k d : at_line u k → at_line u (put_dev d k) ∧ line (put_dev d k) = line k.
Proof. intros []. split; [by constructor|done]. Qed.

(** The NUL the handler writes behind the line. *)
Definition end_line k : kst D := put_input (upd (input_buffer k) (input_buffer_index k) 0) (input_buffer_index k) k.

Lemma at_line_end u k : at_line u k → at_line u (end_line k) ∧ line (end_line k) = line k.
Proof.
  intros []. split.
  - constructor; try done; cbn.
    + by rewrite length_upd.
    + rewrite at_upd by lia. by case_decide.
  - unfold line, end_line. cbn. unfold upd. by rewrite take_insert_ge by lia.
Qed.

Lemma set_input_run i v k :
  0 ≤ i < 256 → set_input i v k = Done tt (put_input (upd (input_buffer k) i v) (input_buffer_index k) k).
Proof. intros Hi. unfold set_input. by rewrite (proj2 (Z.leb_le 0 i)), (proj2 (Z.ltb_lt i 256)) by lia. Qed.

(** Writing a cell at the writing position keeps everything else. *)
Lemma putentry_run c color t :
  con_ok t → ∃ t', terminal_putentryat c color (terminal_column t) (terminal_row t) t = Done tt t' ∧ con_ok t' ∧
    off_screen_same t t' ∧ terminal_column t' = terminal_column t.
Proof.
  intros (Hr & Hc & Hb & Hcol). unfold VGA_HEIGHT, VGA_WIDTH in *. unfold terminal_putentryat.
  rewrite u32_id by (unfold VGA_WIDTH; lia). set (i := terminal_row t * VGA_WIDTH + terminal_column t).
  assert (0 ≤ i < 2000) as Hi by (unfold i, VGA_WIDTH; lia).
  rewrite (bind_done _ _ _ _ _ (put_cell_ok t i (vga_entry c color) Hb Hi)).
  set (m' := store16 _ _ _). destruct (update_cursor_run (terminal_column t + 1) (terminal_row t) (set_mem m' t)) as [d ->].
  eexists. split; [done|]. split; [done|]. split; [|done]. intros a Ha. cbn [c_mem set_dev set_mem].
  unfold m', store16. rewrite load8_store_bytes, length_bytes16, decide_False by lia. done.
Qed.

Lemma backspace_run u k :
  at_line u k → ∃ k', backspace k = Done tt k' ∧ at_line u k' ∧ k_mem k k' ∧
    exitHKIloop k' = exitHKIloop k ∧ fsinit k' = fsinit k ∧ crt_only (c_dev (k_con k)) (c_dev (k_con k')) ∧
    line k' = edit (width u) (line k) 8.
Proof.
  intros Hl. pose proof (length_line u k Hl) as Hlen. pose proof Hl as [Hk L1 L2 Hi Hu Hw Hcl Hcol].
  unfold edit. rewrite Hlen. change (8 =? 0) with false. change (8 =? 8) with true. cbv iota.
  unfold backspace. rewrite (bind_done _ _ _ k k) by done. cbv zeta. rewrite Hu. cbn [deref].
  change (Z.of_nat (length hostname)) with 4. replace (length u) with (length (cstr u)) by (by rewrite Hcl).
  assert (0 ≤ Z.of_nat (length (cstr u)) < 80) as Hu80 by (unfold width in Hw; lia).
  rewrite u32_id by lia. replace (Z.of_nat (length (cstr u)) + 4 + 5) with (width u) by (unfold width; lia).
  rewrite Hcol. destruct (Z.ltb_spec (width u) ((width u + input_buffer_index k) mod 80)) as [Hlt|Hge].
  2: { exists k. split_and!; try done; apply Hk. }
  assert (1 ≤ input_buffer_index k) as Hpos by (unfold width in *; lia).
  rewrite <-Hcol. rewrite <-Hcol in Hlt. destruct Hk as [(Hr & Hc & Hb & Hco) He]. unfold VGA_WIDTH in Hc.
  assert (0 ≤ width u) as Hwp by (unfold width; lia).
  set (t1 := set_column (terminal_column (k_con k) - 1) (k_con k)).
  assert (terminal_column t1 = terminal_column (k_con k) - 1) as Ht1c by (apply u32_id; lia).
  assert (con_ok t1) as Ht1 by (unfold con_ok; rewrite Ht1c; unfold VGA_WIDTH; split_and!; first [apply Hr|lia|apply Hb|apply Hco]).
  rewrite (bind_done _ _ _ tt (put_con t1 k)) by done.
  set (k2 := put_input (input_buffer k) (input_buffer_index k - 1) (put_con t1 k)).
  rewrite (bind_done _ _ _ tt k2) by (unfold set_index, modify; rewrite u32_id by lia; done).
  rewrite (bind_done _ _ _ t1 k2) by done.
  destruct (putentry_run 32 (terminal_color t1) t1 Ht1) as (t3 & E3 & Ht3 & Ho3 & Hc3).
  rewrite (bind_done _ _ _ tt (put_con t3 k2)) by (unfold tty, zoom; change (k_con k2) with t1; by rewrite E3).
  destruct (update_cursor_run (terminal_column t1) (terminal_row t1) t3) as [d Ed].
  exists (put_con (set_dev d t3) k2). split; [unfold tty, zoom; cbn [k_con put_con]; by rewrite Ed|].
  assert (crt_only (c_dev (k_con k)) d) as Hdev.
  { transitivity (c_dev t3).
    - change (c_dev (k_con k)) with (c_dev t1). eapply quiet_putentryat, E3.
    - exact (quiet_update_cursor _ _ _ _ _ Ed). }
  split_and!; try done.
  - constructor; try done; cbn; [lia|]. rewrite Hc3, Ht1c, Hcol. lia.
  - unfold line. cbn [k_con put_con input_buffer input_buffer_index put_input k2].
    rewrite take_take. f_equal. rewrite length_take. lia.
Qed.

Lemma type_char_run u k c :
  at_line u k → c ≠ 0 → c ≠ 8 →
  ∃ k', type_char c k = Done tt k' ∧ at_line u k' ∧ k_mem k k' ∧
    exitHKIloop k' = exitHKIloop k ∧ fsinit k' = fsinit k ∧ crt_only (c_dev (k_con k)) (c_dev (k_con k')) ∧
    line k' = edit (width u) (line k) c.
Proof.
  intros Hl Hc0 Hc8. pose proof (length_line u k Hl) as Hlen. pose proof Hl as [Hk L1 L2 Hi Hu Hw Hcl Hcol].
  unfold edit. rewrite Hlen, (proj2 (Z.eqb_neq c 0)), (proj2 (Z.eqb_neq c 8)) by done.
  unfold type_char. rewrite (bind_done _ _ _ (input_buffer_index k) k) by done.
  destruct (Z.ltb_spec (input_buffer_index k) 255) as [Hlt|Hge].
  2: { exists k. split_and!; try done; apply Hk. }
  set (i := input_buffer_index k) in *. set (k1 := put_input (upd (input_buffer k) i c) i k).
  rewrite (bind_done _ _ _ tt k1) by (by apply set_input_run; lia).
  set (k2 := put_input (upd (input_buffer k) i c) (i + 1) k).
  rewrite (bind_done _ _ _ tt k2) by (unfold set_index, modify; rewrite u32_id by lia; done).
  destruct Hk as [Ht He]. destruct (putchar_run c (k_con k) Ht) as (t3 & E3 & Ht3 & Ho3 & _ & _ & _ & Hc3 & _).
  exists (put_con t3 k2). split; [unfold tty, zoom; change (k_con k2) with (k_con k); by rewrite E3|].
  split_and!; try done.
  - constructor; try done; cbn; rewrite ?length_upd; [done| |lia|].
    + rewrite at_upd by lia. rewrite decide_False by lia. done.
    + rewrite Hc3, Hcol. fold i. destruct (Z.eqb_spec ((width u + i) mod 80) 79); lia.
  - exact (quiet_putchar c _ _ _ E3).
  - unfold line. cbn [input_buffer input_buffer_index put_con put_input k2]. fold i. unfold upd.
    replace (Z.to_nat (i + 1)) with (S (Z.to_nat i)) by lia.
    rewrite (take_S_r _ _ c) by (rewrite list_lookup_insert_eq by lia; done).
    by rewrite take_insert_ge by lia.
Qed.

(** A key that edits the line: not Enter, and not the code of "U". *)
Definition edit_key (c : Z) : Prop := byte_ok c ∧ key_char c ≠ 10 ∧ key_char c ≠ 85.

Lemma handle_edit shr80 n f u k c rest :
  at_line u k → kbd (c_dev (k_con k)) = c :: rest → edit_key c →
  ∃ k', handle_keyboard_input shr80 n (S f) k = Done tt k' ∧ at_line u k' ∧ k_mem k k' ∧
    exitHKIloop k' = exitHKIloop k ∧ fsinit k' = fsinit k ∧ kbd (c_dev (k_con k')) = rest ∧
    line k' = edit (width u) (line k) (key_char c).
Proof.
  intros Hl Hkeys (Hb & H10 & H85). destruct (read_keyboard_run f k c rest Hkeys Hb) as (d & E & Hd).
  unfold handle_keyboard_input. rewrite (bind_done _ _ _ _ _ E).
  destruct (at_line_dev u k d Hl) as [Hl1 Hline1]. set (k1 := put_dev d k) in *.
  destruct (Z.eqb_spec (key_char c) 0) as [E0|E0].
  { exists k1. rewrite E0. by split_and!. }
  rewrite (bind_done _ _ _ (input_buffer_index k1) k1) by done.
  rewrite (bind_done _ _ _ tt (end_line k1)) by (apply set_input_run; destruct Hl1; lia).
  destruct (at_line_end u k1 Hl1) as [Hl2 Hline2]. rewrite <-Hline1, <-Hline2.
  assert (∀ k3, crt_only (c_dev (k_con (end_line k1))) (c_dev (k_con k3)) → kbd (c_dev (k_con k3)) = rest) as Hkb.
  { intros k3 Hcrt. rewrite (crt_only_kbd _ _ Hcrt). exact Hd. }
  destruct (Z.eqb_spec (key_char c) 8) as [E8|E8].
  - destruct (backspace_run u _ Hl2) as (k3 & E3 & Hl3 & Hm3 & Hx3 & Hf3 & Hcrt & Hline3). exists k3. rewrite E8.
    split_and!; try done. by apply Hkb.
  - rewrite (proj2 (Z.eqb_neq (key_char c) 85)) by done. rewrite (bind_done _ _ _ tt (end_line k1)) by done.
    cbv zeta. rewrite (proj2 (Z.eqb_neq (key_char c) 10)) by done.
    destruct (type_char_run u _ (key_char c) Hl2 E0 E8) as (k3 & E3 & Hl3 & Hm3 & Hx3 & Hf3 & Hcrt & Hline3).
    exists k3. split_and!; try done. by apply Hkb.
Qed.

Lemma shell_edits shr80 r n f u keys : ∀ k rest,
  at_line u k → exitHKIloop k = false → kbd (c_dev (k_con k)) = keys ++ rest → Forall edit_key keys →
  ∃ k', shell_loop shr80 (length keys + r) n (S f) k = shell_loop shr80 r n (S f) k' ∧
    at_line u k' ∧ k_mem k k' ∧ exitHKIloop k' = false ∧ fsinit k' = fsinit k ∧ kbd (c_dev (k_con k')) = rest ∧
    line k' = foldl (edit (width u)) (line k) (map key_char keys).
Proof.
  induction keys as [|c keys IH]; intros k rest Hl Hx Hk Hkeys.
  { exists k. by split_and!. }
  apply Forall_cons in Hkeys as [Hc Hkeys].
  destruct (handle_edit shr80 n f u k c (keys ++ rest) Hl Hk Hc) as (k1 & E1 & Hl1 & Hm1 & Hx1 & Hf1 & Hk1 & Hline1).
  destruct (IH k1 rest Hl1) as (k2 & E2 & Hl2 & Hm2 & Hx2 & Hf2 & Hk2 & Hline2); [congruence|done|done|].
  exists k2. split_and!; try done.
  - cbn [length Nat.add shell_loop]. rewrite (bind_done _ _ _ (exitHKIloop k) k) by done. rewrite Hx.
    by rewrite (bind_done _ _ _ _ _ E1).
  - by transitivity k1.
  - congruence.
  - cbn [map foldl]. by rewrite <-Hline1.
Qed.
End Editor.

(** * Theorems *)

(** C11: the line editor: in the shell's loop, any sequence of keys other than Enter
    and "U" is consumed key by key, keeps every write inside the 256-byte buffer
    and on the screen, and leaves in the buffer the line that editing gives on
    lists: characters append up to 255, Backspace removes the last one as long as
    the position is to the right of the prompt, releases do nothing. *)
Theorem line_editor `{Keyboard D} shr80 r n f u keys rest (k : kst D) :
  at_line u k → exitHKIloop k = false → kbd (c_dev (k_con k)) = keys ++ rest → Forall edit_key keys →
  ∃ k', shell_loop shr80 (length keys + r) n (S f) k = shell_loop shr80 r n (S f) k' ∧
    at_line u k' ∧ k_mem k k' ∧ kbd (c_dev (k_con k')) = rest ∧
    line k' = foldl (edit (width u)) (line k) (map key_char keys).
Proof.
  intros Hl Hx Hk Hkeys. destruct (shell_edits shr80 r n f u keys k rest Hl Hx Hk Hkeys)
    as (k' & E & Hl' & Hm & _ & _ & Hr & Hline). exists k'. by split_and!.
Qed.

(** The shell behind its first prompt. *)
Definition demo_shell (keys : list Z) : kst pc :=
  initial (Con ∅ (Pc (Crt 0 ∅) keys 0 ∅) 3 15 15 VGA_MEMORY true false).

Lemma demo_shell_line keys : at_line (str "potato") (demo_shell keys).
Proof.
  split; try reflexivity; [|cbn; lia]. split; [|vm_compute; discriminate].
  unfold con_ok, VGA_HEIGHT, VGA_WIDTH. cbn. split_and!; first [lia|reflexivity].
Qed.

(** "la", Backspace, "s" types "ls". *)
Lemma line_editor_witness :
  ∃ k', shell_loop (λ _, 0) (4 + 1) 0 1 (demo_shell [0x26; 0x1E; 0x0E; 0x1F; 0x1C]) =
          shell_loop (λ _, 0) 1 0 1 k' ∧ line k' = str "ls" ∧ kbd (c_dev (k_con k')) = [0x1C].
Proof.
  destruct (line_editor (λ _, 0) 1 0 0 (str "potato") [0x26; 0x1E; 0x0E; 0x1F] [0x1C]
    (demo_shell [0x26; 0x1E; 0x0E; 0x1F; 0x1C]) (demo_shell_line _)) as (k' & E & _ & _ & Hk & Hl).
  - reflexivity.
  - reflexivity.
  - repeat (constructor; [split; [unfold byte_ok; lia|split; vm_compute; discriminate]|]). constructor.
  - exists k'. split; [exact E|]. split; [exact Hl|exact Hk].
Defined.
