(* ===== verification/Commands.v ===== *)
(** What happens on Enter: each command of Shell.v brings the shell back to its
    prompt, leaves its loop or stops the machine, as the verdicts of [obey] say;
    and the inputs for which the code does otherwise. *)
From S2P Require Import Prelude Machine CString LibC Terminal Stdio Kernel Quiet Rtc Paging Video Shell.

(** * Strings in the input buffer *)

(** [strcmp] and [strncmp] stop inside terminated strings, and what 0 means. *)
Lemma strcmp_total s1 : ∀ s2, 0 ∈ s1 → 0 ∈ s2 → ∃ v, strcmp s1 s2 = Some v.
Proof.
  induction s1 as [|c1 s1 IH]; intros [|c2 s2] H1 H2; try by apply not_elem_of_nil in H1 || apply not_elem_of_nil in H2.
  cbn [strcmp]. destruct (Z.eqb_spec c1 0) as [->|Hz]; [by eexists|]. cbn [negb andb].
  destruct (Z.eqb_spec c1 c2) as [->|]; [|by eexists].
  apply IH; [by apply elem_of_cons in H1 as [?|?]|by apply elem_of_cons in H2 as [?|?]].
Qed.

Lemma strcmp_zero s : ∀ b, Forall (λ c, c ≠ 0) s → strcmp b (s ++ [0]) = Some 0 → cstr b = s.
Proof.
  induction s as [|c s IH]; intros [|c1 b] Hs E; [done| |done|]; cbn [app strcmp] in E.
  - destruct (negb (c1 =? 0) && (c1 =? 0)) eqn:E1; [by destruct (c1 =? 0)|].
    injection E as E. replace c1 with 0 by lia. done.
  - apply Forall_cons in Hs as [Hc Hs]. destruct (negb (c1 =? 0) && (c1 =? c)) eqn:E1.
    + apply andb_true_iff in E1 as [E1 E2]. apply Z.eqb_eq in E2 as ->. cbn [cstr].
      rewrite (proj2 (Z.eqb_neq c 0)) by done. f_equal. by apply IH.
    + injection E as E. replace c1 with c in E1 by lia.
      rewrite (proj2 (Z.eqb_neq c 0)), Z.eqb_refl in E1 by done. done.
Qed.

Lemma strcmp_same s b : 0 ∈ b → cstr b = s → strcmp b (s ++ [0]) = Some 0.
Proof.
  revert s. induction b as [|c b IH]; intros s Hz <-; [by apply not_elem_of_nil in Hz|].
  cbn [cstr]. destruct (Z.eqb_spec c 0) as [->|Hc]; [done|]. cbn [app strcmp].
  rewrite (proj2 (Z.eqb_neq c 0)), Z.eqb_refl by done. apply IH; [|done]. by apply elem_of_cons in Hz as [?|?].
Qed.

Lemma strncmp_total n : ∀ s1 s2, 0 ∈ s1 → 0 ∈ s2 → ∃ v, strncmp n s1 s2 = Some v.
Proof.
  induction n as [|n IH]; intros [|c1 s1] [|c2 s2] H1 H2; try by eexists.
  all: try by apply not_elem_of_nil in H1 || apply not_elem_of_nil in H2.
  cbn [strncmp]. destruct (Z.eqb_spec c1 0) as [->|Hz]; [by eexists|].
  destruct (Z.eqb_spec c2 0) as [->|Hz2]; [by eexists|]. cbn [orb].
  destruct (Z.eqb_spec c1 c2) as [->|]; [|by eexists]. cbn [negb].
  apply IH; [by apply elem_of_cons in H1 as [?|?]|by apply elem_of_cons in H2 as [?|?]].
Qed.

Lemma strncmp_prefix n : ∀ s b r, Forall (λ c, c ≠ 0) s → (n ≤ length s)%nat →
  strncmp n b (s ++ r) = Some 0 → take n (cstr b) = take n s.
Proof.
  induction n as [|n IH]; intros [|c s] [|c1 b] r Hs Hn E; try done; cbn [length] in Hn; try lia.
  apply Forall_cons in Hs as [Hc Hs]. cbn [app strncmp] in E.
  destruct (Z.eqb_spec c1 0) as [->|Hc1]; [injection E as E; lia|]. rewrite (proj2 (Z.eqb_neq c 0)) in E by done.
  cbn [orb] in E. destruct (Z.eqb_spec c1 c) as [->|Hne]; cbn [negb] in E; [|injection E as E; lia].
  cbn [cstr]. rewrite (proj2 (Z.eqb_neq c 0)) by done. cbn [take]. f_equal. apply (IH s b r); [done|lia|done].
Qed.

(** [strtok] on a buffer with a NUL at or behind its start: it returns, with a
    buffer of the same length that still has its last byte at 0. *)
Lemma strchr_total c : ∃ r, strchr [32; 0] c = Some r.
Proof. unfold strchr. cbn [strchr_from]. change (32 =? 0) with false. destruct (32 =? u8 c); by eexists. Qed.

Lemma skip_delims_total s : ∀ i, 0 ∈ s → ∃ p, skip_delims s [32; 0] i = Some (i + p)%nat ∧ 0 ∈ drop p s.
Proof.
  induction s as [|x s IH]; intros i Hs; [by apply not_elem_of_nil in Hs|]. cbn [skip_delims].
  destruct (Z.eqb_spec x 0) as [Hx|Hx]; [exists 0%nat; by rewrite Nat.add_0_r|].
  destruct (strchr_total x) as [[p|] ->]; [|exists 0%nat; by rewrite Nat.add_0_r].
  destruct (IH (S i)) as (q & E & Hq); [by apply elem_of_cons in Hs as [?|?]|]. exists (S q).
  rewrite E. split; [f_equal; lia|done].
Qed.

Lemma skip_token_total s : ∀ i, 0 ∈ s → ∃ e, skip_token s [32; 0] i = Some e.
Proof.
  induction s as [|x s IH]; intros i Hs; [by apply not_elem_of_nil in Hs|]. cbn [skip_token].
  destruct (Z.eqb_spec x 0) as [Hx|Hx]; [by eexists|].
  destruct (strchr_total x) as [[p|] ->]; [by eexists|]. apply IH. by apply elem_of_cons in Hs as [?|?].
Qed.

Lemma strtok_total off b last :
  (off < 256)%nat → length b = 256%nat → at_ b 255 = 0 →
  ∃ tok b' last', strtok (Some off) [32; 0] b last = Some (tok, b', last') ∧ length b' = 256%nat ∧ at_ b' 255 = 0.
Proof.
  intros Hoff Hlen H255.
  assert (b !! 255%nat = Some 0) as Hb.
  { unfold at_ in H255. change (Z.to_nat 255) with 255%nat in H255.
    destruct (b !! 255%nat) eqn:E; [f_equal; exact H255|]. apply lookup_ge_None in E. lia. }
  assert (0 ∈ drop off b) as Hz.
  { apply (list_elem_of_lookup_2 _ (255 - off)). rewrite lookup_drop. by replace (off + (255 - off))%nat with 255%nat by lia. }
  unfold strtok. destruct (skip_delims_total _ off Hz) as (p & -> & Hp). rewrite drop_drop in Hp.
  case_if; [by eexists _, _, _|]. destruct (skip_token_total _ (off + p)%nat Hp) as (e & ->).
  case_if; [by eexists _, _, _|]. eexists _, _, _. split; [done|]. rewrite length_insert. split; [done|].
  unfold at_. change (Z.to_nat 255) with 255%nat. destruct (decide (e = 255%nat)) as [->|].
  - by rewrite list_lookup_insert_eq by lia.
  - by rewrite list_lookup_insert_ne, Hb by done.
Qed.

(** [printf] is safe whenever the arguments match its format, at any length. *)
Lemma safe_print `{PortIO D} data : safe (print (D := D) data).
Proof.
  induction data as [|c data IH]; cbn [print]; [apply safe_ret|]. unfold putchar.
  apply safe_bind; [apply safe_bind; [apply safe_write|intros; apply safe_ret]|].
  intros r. destruct (_ =? _); [apply safe_ret|done].
Qed.

Lemma safe_print_then `{PortIO D} data (a b : M (con D) Z) :
  safe a → safe b → safe (let! ok := print data in if negb ok then a else b).
Proof. intros Ha Hb. apply safe_bind; [apply safe_print|]. intros ok. by destruct (negb ok). Qed.

Lemma safe_printf_loop `{PortIO D} f : ∀ format args written items,
  (length format < f)%nat → render format args = Some items → safe (printf_loop (D := D) f format args written).
Proof.
  induction f as [|f IH]; intros format args written items Hf Hr; [lia|].
  destruct format as [|c rest]; [apply safe_ret|]. cbn [printf_loop]. cbn [length] in Hf.
  destruct (negb (c =? 37) || (at_ rest 0 =? 37)) eqn:Ep.
  - set (fm := if c =? 37 then rest else c :: rest).
    assert (∃ d rest' items1, fm = d :: rest' ∧ (length rest' < f)%nat ∧ render rest' args = Some items1)
      as (d & rest' & items1 & -> & Hl & Hr1).
    { unfold fm. cbn [render] in Hr. destruct (c =? 37); cbn [negb orb] in Ep, Hr.
      - destruct rest as [|d rest']; [done|]. change (at_ (d :: rest') 0) with d in Ep. rewrite Ep in Hr.
        apply fmap_Some in Hr as (items1 & Hr1 & _). cbn [length] in Hf. exists d, rest', items1. split_and!; [done|lia|done].
      - apply fmap_Some in Hr as (items1 & Hr1 & _). exists c, rest, items1. split_and!; [done|lia|done]. }
    cbv zeta. case_if; [apply safe_ret|]. apply safe_print_then; [apply safe_ret|].
    cbn [tail drop]. destruct (render_plain rest' args items1 Hr1) as (items2 & Hr2 & _).
    eapply IH; [|exact Hr2]. rewrite length_drop. lia.
  - apply orb_false_iff in Ep as [Ec En]. apply negb_false_iff in Ec. cbn [render] in Hr. rewrite Ec in Hr. cbn [negb] in Hr.
    destruct rest as [|d rest'].
    { change (at_ [] 0) with 0. cbn [Z.eqb Pos.eqb]. cbv zeta. case_if; [apply safe_ret|]. apply safe_print_then; apply safe_ret. }
    change (at_ (d :: rest') 0) with d in *. rewrite En in Hr. cbn [length tail] in *. cbv zeta.
    destruct (d =? 99).
    { destruct args as [|[x|] args]; [done| |done]. apply fmap_Some in Hr as (items1 & Hr1 & _).
      case_if; [apply safe_ret|]. apply safe_print_then; [apply safe_ret|]. eapply IH; [lia|done]. }
    destruct (d =? 110).
    { apply fmap_Some in Hr as (items1 & Hr1 & _). apply safe_bind; [apply safe_newline|]. intros _.
      eapply IH; [lia|done]. }
    destruct (d =? 115).
    { destruct args as [|[|s] args]; [done..|]. apply fmap_Some in Hr as (items1 & Hr1 & _).
      case_if; [apply safe_ret|]. apply safe_print_then; [apply safe_ret|]. eapply IH; [lia|done]. }
    case_if; [apply safe_ret|]. apply safe_print_then; apply safe_ret.
Qed.

Lemma safely_printf_any `{PortIO D} format args :
  render (cstr format) args ≠ None → safely k_io (tty (D := D) (printf format args)).
Proof.
  intros Hr. destruct (render _ _) as [items|] eqn:E; [|done]. apply safely_tty.
  eapply safe_printf_loop; [|done]. lia.
Qed.

(** * Commands *)

(** What a command line does to the shell: it comes back to the prompt, with the
    file system marked ready or not, leaves the shell's loop, or stops the machine. *)
Inductive verdict := Prompts (ready : bool) | Exits | Halts.

Definition obey (fs : bool) (c : list Z) : verdict :=
  if decide (c = str "ls") then (if fs then Prompts true else Halts)
  else if decide (c = str "exit") then Exits
  else if decide (c = str "reboot" ∨ c = str "shutdown") then Halts
  else if decide (c = str "panic" ∨ c = str "fatinit") then Prompts false
  else Prompts fs.

Section Commands.
Context {D : Type} `{Keyboard D}.
Variable u : list Z.
Implicit Types (k : kst D) (t : con D).

(** What every command keeps of [at_line]. *)
Record ready k : Prop := {
  ready_k_ok : k_ok k;
  ready_length : length (input_buffer k) = 256%nat;
  ready_last : at_ (input_buffer k) 255 = 0;
  ready_user : username k = SLit u;
}.

(** The keys to come, the exit flag and the memory off the screen are untouched. *)
Definition kept k k' : Prop :=
  k_mem k k' ∧ kbd (c_dev (k_con k')) = kbd (c_dev (k_con k)) ∧ exitHKIloop k' = exitHKIloop k.
#[global] Instance kept_preorder : PreOrder kept.
Proof.
  split; [by intros k|]. intros k1 k2 k3 (M1 & K1 & X1) (M2 & K2 & X2). split; [by transitivity k2|]. split; congruence.
Qed.

(** [m] returns to a ready shell. *)
Definition stays_at {A} k (m : M (kst D) A) : Prop :=
  ∃ a k', m k = Done a k' ∧ ready k' ∧ kept k k' ∧ fsinit k' = fsinit k.
Definition stays {A} (m : M (kst D) A) : Prop := ∀ k, ready k → stays_at k m.

Lemma stays_ret {A} (a : A) : stays (ret a).
Proof. intros k Hk. by exists a, k. Qed.

Lemma stays_bind {A B} (m : M (kst D) A) (f : A → M (kst D) B) : stays m → (∀ a, stays (f a)) → stays (bind m f).
Proof.
  intros Hm Hf k Hk. destruct (Hm k Hk) as (a & k1 & E1 & Hk1 & Hm1 & F1).
  destruct (Hf a k1 Hk1) as (b & k2 & E2 & Hk2 & Hm2 & F2). exists b, k2.
  rewrite (bind_done _ _ _ _ _ E1). split; [done|]. split; [done|]. split; [by transitivity k1|congruence].
Qed.

Lemma stays_gets {A B} (g : kst D → A) (f : A → M (kst D) B) : (∀ a, stays (f a)) → stays (bind (gets g) f).
Proof. intros Hf k Hk. by apply Hf. Qed.

Lemma ready_io k k' : k_io k k' → k_ok k' → ready k → ready k'.
Proof. intros (_ & E1 & _ & E2 & _) Hk' []. constructor; [done|by rewrite E1|by rewrite E1|by rewrite E2]. Qed.

Lemma stays_io {A} (m : M (kst D) A) : safely k_io m → k_spares m → stays m.
Proof.
  intros Hm Hs k Hk. destruct (Hm k (ready_k_ok k Hk)) as (a & k' & E & Hk' & Hio). exists a, k'.
  split; [done|]. split; [by apply (ready_io k)|]. pose proof (Hs _ _ _ E).
  destruct Hio as (Hmem & _ & _ & _ & Hx & Hf & _). by split_and!.
Qed.

(** A test of the buffer has an answer, and the state is as it was. *)
Lemma ready_nul k : ready k → 0 ∈ input_buffer k.
Proof.
  intros []. apply (list_elem_of_lookup_2 _ 255). unfold at_ in ready_last0.
  change (Z.to_nat 255) with 255%nat in *. destruct (input_buffer k !! 255%nat) eqn:E; [by f_equal|].
  apply lookup_ge_None in E. lia.
Qed.

Lemma input_is_run s k : ready k → Forall (λ c, c ≠ 0) (str s) →
  input_is s k = Done (bool_decide (cstr (input_buffer k) = str s)) k.
Proof.
  intros Hk Hs. pose proof (ready_nul k Hk) as Hz.
  destruct (strcmp_total (input_buffer k) (str s ++ [0])) as [v E];
    [done|by apply elem_of_app; right; apply list_elem_of_singleton|].
  unfold input_is. rewrite (bind_done _ _ _ (input_buffer k) k) by done. rewrite E. cbn. f_equal.
  destruct (Z.eqb_spec v 0) as [->|Hv]; symmetry; [by apply bool_decide_true, strcmp_zero|apply bool_decide_false].
  intros Es. rewrite strcmp_same in E by done. by injection E as <-.
Qed.

Lemma input_starts_run n s k : ready k →
  ∃ v, input_starts n s k = Done (v =? 0) k ∧ strncmp n (input_buffer k) (str s ++ [0]) = Some v.
Proof.
  intros Hk. destruct (strncmp_total n (input_buffer k) (str s ++ [0])) as [v E];
    [by apply ready_nul|by apply elem_of_app; right; apply list_elem_of_singleton|].
  exists v. unfold input_starts. rewrite (bind_done _ _ _ (input_buffer k) k) by done. by rewrite E.
Qed.

Lemma stays_strtok off : (off < 256)%nat → stays (strtok_input off).
Proof.
  intros Hoff k []. unfold stays_at, strtok_input. rewrite (bind_done _ _ _ k k) by done.
  destruct (strtok_total off (input_buffer k) (strtok_last k) Hoff) as (tok & b & last & -> & Hl & H255); [done|done|].
  eexists _, _. split; [reflexivity|]. split; [by constructor|]. by split_and!; try intros a _.
Qed.

Lemma stays_writestring r : stays (writestring r).
Proof. apply stays_gets. intros s. apply stays_io; [apply safely_writestring|k_spares]. Qed.
End Commands.

Create HintDb stays.
#[export] Hint Resolve stays_ret stays_writestring : stays.
#[export] Hint Extern 3 (stays _ (strtok_input _)) => apply stays_strtok; lia : stays.
#[export] Hint Extern 4 (stays _ _) => apply stays_io; [solve [auto with kernel nocore]|k_spares] : stays.

Ltac stays :=
  repeat lazymatch goal with
  | |- stays _ (bind (gets _) _) => apply stays_gets; intros ?
  | |- stays _ (bind _ _) => apply stays_bind; [|intros ?]
  | |- stays _ (match ?b with true => _ | false => _ end) => destruct b
  | |- stays _ _ => solve [auto with stays nocore]
  end.

(** A buffer cut at a position holds the string of what is before it. *)
Lemma cstr_cut l rest : cstr (l ++ 0 :: rest) = cstr l.
Proof. induction l as [|c l IH]; [done|]. cbn [app cstr]. by rewrite IH. Qed.

(** Any other line comes back to the prompt and leaves the file system's mark. *)
Lemma obey_other fs c :
  c ≠ str "ls" → c ≠ str "exit" → c ≠ str "panic" → c ≠ str "reboot" → c ≠ str "fatinit" → c ≠ str "shutdown" →
  obey fs c = Prompts fs.
Proof. intros. unfold obey. rewrite !decide_False by (by intros [?|?] || done). done. Qed.

Section Dispatch.
Context {D : Type} `{Keyboard D}.
Variables (shr80 : Z → Z) (u : list Z).
Implicit Types (k : kst D) (t : con D).

Lemma stays_printf format args : render (cstr format) args ≠ None → stays (D := D) u (tty (printf format args)).
Proof. intros Hr. apply stays_io; [by apply safely_printf_any|k_spares]. Qed.

Lemma stays_list l : stays (D := D) u
  ((fix list (l : list string) : M (kst D) unit :=
      match l with
      | [] => ret tt
      | s :: l' => let! _ := tty (printf (str "%s ") [ArgStr (str s)]) in list l'
      end) l).
Proof.
  induction l as [|s l IH]; [apply stays_ret|]. apply stays_bind; [by apply stays_printf|intros _; exact IH].
Qed.

Lemma stays_events l : stays (D := D) u (print_events l).
Proof.
  induction l as [|e l IH]; cbn [print_events]; [apply stays_ret|]. apply stays_gets. intros s.
  apply stays_bind; [by apply stays_printf|done].
Qed.

Lemma stays_le : stays (D := D) u do_le.
Proof. unfold do_le. pose proof stays_events. stays. Qed.

Lemma stays_m : stays (D := D) u m.
Proof. unfold m. stays. Qed.

Lemma stays_help : stays (D := D) u do_help.
Proof. unfold do_help. pose proof stays_printf. stays; by apply stays_printf. Qed.

(** The text of an unknown command is a format: it must not ask for arguments. *)
Lemma stays_unknown k : ready u k → render (cstr (input_buffer k)) [] ≠ None → stays_at u k do_unknown.
Proof.
  intros Hk Hr. unfold do_unknown.
  destruct (safely_newline k (ready_k_ok _ _ Hk)) as ([] & k1 & E1 & Hk1 & Hio1).
  destruct (safely_printk "'" eq_refl k1 Hk1) as ([] & k2 & E2 & Hk2 & Hio2).
  assert (k_io k k2) as Hio by (by transitivity k1). rewrite <-(proj1 (proj2 Hio)) in Hr.
  assert (stays u (let! _ := tty (printf (input_buffer k2) []) in printk "'" ;; printk " unknown command or file name.")) as HB.
  { apply stays_bind; [by apply stays_printf|intros _]. stays. }
  assert (k_spares (newline ;; printk (D := D) "'")) as Hs by k_spares.
  destruct (HB k2 (ready_io u k k2 Hio Hk2 Hk)) as (a & k3 & E3 & Hk3 & Hm3 & F3). exists a, k3.
  rewrite (bind_done _ _ _ _ _ E1), (bind_done _ _ _ _ _ E2), (bind_done _ _ _ (input_buffer k2) k2) by done.
  split; [done|]. split; [done|]. destruct Hio as (Hmem & _ & _ & _ & Hx & Hf & _).
  split; [|congruence]. transitivity k2; [|done]. split; [done|]. split; [|done].
  apply (Hs k tt k2). by rewrite (bind_done _ _ _ _ _ E1).
Qed.

(** The command line: not "un", not the endless "color", no directive in it. *)
Definition tame (c : list Z) : Prop := take 2 c ≠ str "un" ∧ c ≠ str "color" ∧ render c [] ≠ None.

(** What a run from [k] must come to for a verdict. *)
Definition obeys k (m : M (kst D) unit) (v : verdict) : Prop :=
  match v with
  | Prompts fs => ∃ k', m k = Done tt k' ∧ ready u k' ∧ kept k k' ∧ fsinit k' = fs
  | Exits => m k = Done tt (put_exit true k)
  | Halts => ∃ k', m k = Stop Halted k' ∧ k_mem k k'
  end.

Lemma obeys_stays k (m : M (kst D) unit) : stays_at u k m → obeys k m (Prompts (fsinit k)).
Proof. intros ([] & k' & E & Hk' & Hkept & Hf). by exists k'. Qed.

Lemma obeys_halts k (m : M (kst D) unit) : ready u k → halts m → obeys k m Halts.
Proof. intros Hk Hm. destruct (Hm k (ready_k_ok _ _ Hk)) as (k' & E & _ & Hm'). by exists k'. Qed.

Lemma obeys_ls k : ready u k → obeys k (do_ls shr80) (if fsinit k then Prompts true else Halts).
Proof.
  intros Hk. assert (stays (D := D) u newline) as Hn by stays. destruct (Hn k Hk) as ([] & k1 & E1 & Hk1 & Hm1 & F1).
  pose proof (stays_list fakeroot k1 Hk1) as ([] & k2 & E2 & Hk2 & Hm2 & F2).
  unfold do_ls. destruct (fsinit k); cbn [obeys].
  - exists k2. rewrite (bind_done _ _ _ _ _ E1), (bind_done _ _ _ true k1) by (unfold gets; by rewrite F1).
    split; [exact E2|]. split; [done|]. split; [by transitivity k1|congruence].
  - destruct (panic_halts shr80 (str "FS NOT INIT!") k1 (ready_k_ok _ _ Hk1)) as (k3 & E3 & _ & Hm3). exists k3.
    rewrite (bind_done _ _ _ _ _ E1), (bind_done _ _ _ false k1) by (unfold gets; by rewrite F1).
    split; [exact E3|]. transitivity k1; [apply Hm1|done].
Qed.

Lemma obeys_fatinit k : ready u k → obeys k do_fatinit (Prompts false).
Proof.
  intros Hk. unfold do_fatinit, mainfat.
  assert (stays (D := D) u (newline ;; write "[      ] Attempting to initialize FAT..." ;; task "No FAT FS support yet." 2))
    as Hs by stays.
  destruct (Hs k Hk) as ([] & k1 & E1 & [] & Hm1 & _). exists (put_fsinit false k1). split; [|by split].
  revert E1. unfold bind. destruct (newline k) as [[] k2|]; [|done]. destruct (write _ k2) as [[] k3|]; [|done].
  by intros ->.
Qed.

(** One test of the chain, for the two kinds of test. *)
Lemma obeys_if s (A B : M (kst D) unit) k v :
  ready u k → Forall (λ c, c ≠ 0) (str s) →
  (cstr (input_buffer k) = str s → obeys k A v) → (cstr (input_buffer k) ≠ str s → obeys k B v) →
  obeys k (let! c := input_is s in if c then A else B) v.
Proof.
  intros Hk Hs HA HB. unfold obeys. rewrite (bind_done _ _ _ _ _ (input_is_run u s k Hk Hs)).
  case_bool_decide as Hd; [exact (HA Hd)|exact (HB Hd)].
Qed.

Lemma obeys_starts n s (A B : M (kst D) unit) k v :
  ready u k → Forall (λ c, c ≠ 0) (str s) → (n ≤ length (str s))%nat →
  (take n (cstr (input_buffer k)) = take n (str s) → obeys k A v) → obeys k B v →
  obeys k (let! c := input_starts n s in if c then A else B) v.
Proof.
  intros Hk Hs Hn HA HB. destruct (input_starts_run u n s k Hk) as (w & E & Hv). unfold obeys.
  rewrite (bind_done _ _ _ _ _ E). destruct (Z.eqb_spec w 0) as [Hw|]; [|exact HB]. rewrite Hw in Hv.
  by apply HA, (strncmp_prefix n (str s) (input_buffer k) [0]).
Qed.

Lemma run_command_obeys n f k : ready u k → tame (cstr (input_buffer k)) →
  obeys k (run_command shr80 n f) (obey (fsinit k) (cstr (input_buffer k))).
Proof.
  intros Hk (Hun & Hcolor & Hr). unfold run_command.
  pose proof stays_le. pose proof stays_m. pose proof stays_help.
  assert (stays (D := D) u do_echo) by (unfold do_echo; stays). assert (stays (D := D) u do_ppm) by (unfold do_ppm; stays).
  repeat lazymatch goal with
  | |- obeys _ (let! c := input_is ?s in _) _ => apply obeys_if; [done|by repeat constructor| |intros ?]
  | |- obeys _ (let! c := input_starts _ _ in _) _ => apply obeys_starts; [done|by repeat constructor|cbn; lia| |]
  | |- cstr _ = str "color" → _ => done
  | |- take 2 _ = _ → _ => done
  | |- cstr _ = _ → _ => intros ->
  end.
  all: lazymatch goal with
  | |- take _ _ = _ → _ => intros Ht; rewrite obey_other by (intros Hc; rewrite Hc in Ht; discriminate Ht)
  | |- obeys _ _ (obey _ (cstr _)) => rewrite obey_other by done
  | |- obeys _ (do_ls _) _ => by apply obeys_ls
  | |- obeys _ do_fatinit _ => by apply obeys_fatinit
  | |- obeys _ (modify (put_exit true)) _ => done
  | |- obeys _ (modify (put_fsinit false)) _ => exists (put_fsinit false k); destruct Hk; by split_and!
  | |- obeys _ reboot _ => apply (obeys_halts k); [done|apply reboot_halts]
  | |- obeys _ (shutdown _) _ => apply (obeys_halts k); [done|apply shutdown_halts]
  | |- obeys _ _ _ => idtac
  end.
  all: apply (obeys_stays k).
  all: lazymatch goal with
  | |- stays_at _ _ (let! i := gets input_buffer_index in _) => unfold stays_at
  | |- stays_at _ _ ?x => enough (stays (D := D) u x) as HX by (by apply HX); stays
  end.
  rewrite (bind_done _ _ _ (input_buffer_index k) k) by done.
  destruct (negb _); [by apply stays_unknown|by apply stays_ret].
Qed.
End Dispatch.

(** * The prompt *)

Section Prompt.
Context {D : Type} `{PortIO D}.
Variable u : list Z.
Implicit Types (k : kst D) (t : con D).

Lemma write_column data : ∀ t, con_ok t →
  ∃ t', terminal_write data t = Done tt t' ∧ con_ok t' ∧ off_screen_same t t' ∧
    terminal_column t' = (terminal_column t + Z.of_nat (length data)) mod 80.
Proof.
  induction data as [|c data IH]; intros t Ht; cbn [terminal_write length].
  { exists t. split_and!; [done|apply Ht..|done|]. destruct Ht as (_ & Hc & _). unfold VGA_WIDTH in Hc. lia. }
  destruct (putchar_run c t Ht) as (t1 & E1 & Ht1 & Ho1 & _ & _ & _ & Hc1 & _).
  destruct (IH t1 Ht1) as (t2 & E2 & Ht2 & Ho2 & Hc2). exists t2. rewrite (bind_done _ _ _ _ _ E1).
  split_and!; [done|apply Ht2..|by transitivity t1|]. rewrite Hc2, Hc1.
  destruct Ht as (_ & Hc & _). unfold VGA_WIDTH in Hc. destruct (Z.eqb_spec (terminal_column t) 79); lia.
Qed.

(** [m] writes [w] characters. *)
Definition writes (w : Z) (m : M (kst D) unit) : Prop :=
  ∀ k, k_ok k → username k = SLit u → ∃ k', m k = Done tt k' ∧ k_ok k' ∧ k_io k k' ∧
    terminal_column (k_con k') = (terminal_column (k_con k) + w) mod 80.

Lemma writes_string s : writes (Z.of_nat (length (cstr s))) (tty (terminal_writestring s)).
Proof.
  intros k [Hc He] _. destruct (write_column (cstr s) (k_con k) Hc) as (t' & E & Ht' & Ho & Hcol).
  exists (put_con t' k). unfold tty, zoom, terminal_writestring. rewrite E. by split_and!.
Qed.

Lemma writes_user : writes (Z.of_nat (length (cstr u))) write_username.
Proof.
  intros k Hk Hu. destruct (writes_string u k Hk Hu) as (k' & E & ?). exists k'. split; [|done].
  unfold write_username. rewrite (bind_done _ _ _ (SLit u) k) by (unfold gets; by rewrite Hu).
  unfold writestring. by rewrite (bind_done _ _ _ u k).
Qed.

Lemma writes_bind w1 w2 m1 m2 : writes w1 m1 → writes w2 m2 → writes (w1 + w2) (m1 ;; m2).
Proof.
  intros H1 H2 k Hk Hu. destruct (H1 k Hk Hu) as (k1 & E1 & Hk1 & Hio1 & Hc1).
  assert (username k1 = SLit u) as Hu1 by (destruct Hio1 as (_ & _ & _ & -> & _); done).
  destruct (H2 k1 Hk1 Hu1) as (k2 & E2 & Hk2 & Hio2 & Hc2). exists k2. rewrite (bind_done _ _ _ _ _ E1).
  split_and!; [done|apply Hk2..|by transitivity k1|]. rewrite Hc2, Hc1. lia.
Qed.

Lemma prompt_run k : ready u k →
  ∃ k', prompt k = Done tt k' ∧ ready u k' ∧ k_io k k' ∧ terminal_column (k_con k') = width u mod 80.
Proof.
  intros Hk. destruct (newline_run (k_con k)) as (t1 & E1 & Ht1 & Ho1 & _ & Hc1 & _); [apply Hk|].
  set (k1 := put_con t1 k).
  assert (newline k = Done tt k1) as En by (unfold newline, tty, zoom; by rewrite E1).
  destruct (writes_bind _ _ _ _ writes_user (writes_bind _ _ _ _ (writes_string (str "@"))
    (writes_bind _ _ _ _ (writes_string hostname) (writes_string (str " /> ")))) k1) as (k2 & E2 & Hk2 & Hio2 & Hc2);
    [by destruct Hk as [[_ ?] _ _ _]|apply Hk|].
  exists k2. assert (k_io k k2) as Hio by (transitivity k1; [by split_and!|done]).
  split; [unfold prompt; rewrite (bind_done _ _ _ _ _ En); exact E2|]. split; [by apply (ready_io u k)|].
  split; [done|]. rewrite Hc2. change (terminal_column (k_con k1)) with (terminal_column t1). rewrite Hc1.
  unfold width. f_equal.
Qed.
End Prompt.

Lemma quiet_prompt `{PortIO D} : k_quiet (prompt (D := D)).
Proof. unfold prompt, write_username, writestring. k_quiet. Qed.

(** * Enter *)

Section Enter.
Context {D : Type} `{Keyboard D}.
Variables (shr80 : Z → Z) (u : list Z).
Implicit Types (k : kst D).

(** A fresh line. *)
Definition at_prompt k : Prop := at_line u k ∧ line k = [].

Lemma prompt_again k : ready u k → width u < 80 → cstr u = u →
  ∃ k', (prompt ;; set_index 0) k = Done tt k' ∧ at_prompt k' ∧ kept k k' ∧ fsinit k' = fsinit k.
Proof.
  intros Hr Hw Hcl. destruct (prompt_run u k Hr) as (k4 & E4 & [] & Hio4 & Hcol4).
  exists (put_input (input_buffer k4) 0 k4). rewrite (bind_done _ _ _ _ _ E4). split; [done|].
  pose proof (k_spares_quiet _ quiet_prompt _ _ _ E4) as Hks. destruct Hio4 as (Hm & _ & _ & _ & Hx & Hf & _).
  split; [|by split_and!]. split; [|done]. constructor; try done. cbn. by rewrite Z.add_0_r.
Qed.

(** What the handler comes to on Enter. *)
Definition enters k (m : M (kst D) unit) (rest : list Z) (v : verdict) : Prop :=
  match v with
  | Prompts fs => ∃ k', m k = Done tt k' ∧ at_prompt k' ∧ k_mem k k' ∧ kbd (c_dev (k_con k')) = rest ∧
      exitHKIloop k' = exitHKIloop k ∧ fsinit k' = fs
  | Exits => ∃ k', m k = Done tt k' ∧ at_prompt k' ∧ k_mem k k' ∧ exitHKIloop k' = true
  | Halts => ∃ k', m k = Stop Halted k' ∧ k_mem k k'
  end.

(** The handler ends the line and runs the command. *)
Lemma enter_opens n f c rest k :
  at_line u k → kbd (c_dev (k_con k)) = c :: rest → byte_ok c → key_char c = 10 →
  ∃ k', handle_keyboard_input shr80 n (S f) k = enter shr80 n (S f) k' ∧ ready u k' ∧
    cstr (input_buffer k') = cstr (line k) ∧ k_mem k k' ∧ kbd (c_dev (k_con k')) = rest ∧
    exitHKIloop k' = exitHKIloop k ∧ fsinit k' = fsinit k.
Proof.
  intros Hl Hkeys Hb Hc. destruct (read_keyboard_run f k c rest Hkeys Hb) as (d & E & Hd). rewrite Hc in E.
  destruct (at_line_dev u k d Hl) as [Hl1 Hline1]. destruct (at_line_end u _ Hl1) as [Hl2 Hline2].
  set (k2 := end_line (put_dev d k)) in *. exists k2. split; [|split; [by destruct Hl2|split; [|done]]].
  - unfold handle_keyboard_input. rewrite (bind_done _ _ _ _ _ E). cbn [Z.eqb Pos.eqb].
    rewrite (bind_done _ _ _ (input_buffer_index (put_dev d k)) (put_dev d k)) by done.
    rewrite (bind_done _ _ _ tt k2) by (apply set_input_run; destruct Hl1; lia).
    by rewrite (bind_done _ _ _ tt k2).
  - rewrite <-Hline1. destruct Hl1 as [_ L1 _ Hi _ _ _ _]. unfold k2, end_line, line in *.
    cbn [input_buffer put_input]. unfold upd. rewrite insert_take_drop by lia. apply cstr_cut.
Qed.

Lemma enter_obeys n f c rest k :
  at_line u k → kbd (c_dev (k_con k)) = c :: rest → byte_ok c → key_char c = 10 → tame (cstr (line k)) →
  enters k (handle_keyboard_input shr80 n (S f)) rest (obey (fsinit k) (cstr (line k))).
Proof.
  intros Hl Hkeys Hb Hc Htame. destruct (enter_opens n f c rest k Hl Hkeys Hb Hc) as (k2 & E & Hr & Hcmd & Hm & Hks & Hx & Hf).
  rewrite <-Hcmd, <-Hf in *. pose proof (run_command_obeys shr80 u n (S f) k2 Hr Htame) as HO.
  destruct Hl as [_ _ _ _ _ Hw Hcl _]. unfold enters. rewrite E. unfold enter.
  destruct (obey _ _) as [fs| |]; cbn [obeys] in HO.
  - destruct HO as (k3 & E3 & Hr3 & (Hm3 & Hk3 & Hx3) & F3).
    destruct (prompt_again k3 Hr3 Hw Hcl) as (k4 & E4 & Hp4 & (Hm4 & Hk4 & Hx4) & F4). exists k4.
    rewrite (bind_done _ _ _ _ _ E3). split; [done|]. split; [done|]. split; [|split_and!; congruence].
    transitivity k2; [done|]. by transitivity k3.
  - assert (ready u (put_exit true k2)) as Hr3 by (by destruct Hr).
    destruct (prompt_again _ Hr3 Hw Hcl) as (k4 & E4 & Hp4 & (Hm4 & Hk4 & Hx4) & F4). exists k4.
    rewrite (bind_done _ _ _ _ _ HO). split; [done|]. split; [done|]. split; [|done].
    transitivity k2; [done|exact Hm4].
  - destruct HO as (k3 & E3 & Hm3). exists k3. rewrite (bind_stop _ _ _ _ _ E3). split; [done|by transitivity k2].
Qed.
End Enter.

(** * Theorems *)

(** Enter: for every line that is not a "un" or "color" command and holds no
    printf directive that asks for an argument, the handler runs the command and
    comes back to an empty line behind a fresh prompt, with the invariant of the
    line editor, or stops the machine (the commands "reboot" and "shutdown", and
    "ls" without a file system); it writes no memory off the screen and never
    leaves the bounds of the input buffer. *)
Theorem enter_returns `{Keyboard D} shr80 n f u c rest (k : kst D) :
  at_line u k → kbd (c_dev (k_con k)) = c :: rest → byte_ok c → key_char c = 10 → tame (cstr (line k)) →
  (∃ k', handle_keyboard_input shr80 n (S f) k = Done tt k' ∧ at_line u k' ∧ line k' = [] ∧ k_mem k k') ∨
  (∃ k', handle_keyboard_input shr80 n (S f) k = Stop Halted k' ∧ k_mem k k').
Proof.
  intros Hl Hkeys Hb Hc Htame. pose proof (enter_obeys shr80 u n f c rest k Hl Hkeys Hb Hc Htame) as HE.
  destruct (obey _ _); [left|left|by right]; destruct HE as (k' & E & [Hl' Hline] & Hm & _); by exists k'.
Qed.

(** A line typed behind the prompt. *)
Definition demo_typed (s : string) (keys : list Z) : kst pc :=
  put_input (resize 256 0 (str s)) (Z.of_nat (length (str s)))
    (initial (Con ∅ (Pc (Crt 0 ∅) keys 0 ∅) 3 (15 + Z.of_nat (length (str s))) 15 VGA_MEMORY true false)).

Lemma demo_typed_help : at_line (str "potato") (demo_typed "help" [0x1C]).
Proof.
  split; try reflexivity; [|cbn; lia]. split; [|vm_compute; discriminate].
  unfold con_ok, VGA_HEIGHT, VGA_WIDTH. cbn. split_and!; first [lia|reflexivity].
Qed.

Lemma enter_returns_witness :
  (∃ k', handle_keyboard_input (λ _, 0) 0 1 (demo_typed "help" [0x1C]) = Done tt k' ∧ line k' = []) ∨
  (∃ k', handle_keyboard_input (λ _, 0) 0 1 (demo_typed "help" [0x1C]) = Stop Halted k').
Proof.
  destruct (enter_returns (λ _, 0) 0 0 (str "potato") 0x1C [] (demo_typed "help" [0x1C]) demo_typed_help)
    as [(k' & E & _ & Hl & _)|(k' & E & _)].
  - reflexivity.
  - unfold byte_ok. lia.
  - reflexivity.
  - split; [|split]; vm_compute; discriminate.
  - left. exists k'. split; [exact E|exact Hl].
  - right. exists k'. exact E.
Defined.

(** How a run ended, and the state it left. *)
Definition stopped {S A} (o : outcome S A) : option stop := match o with Done _ _ => None | Stop e _ => Some e end.
Definition final {S A} (o : outcome S A) : S := match o with Done _ s => s | Stop _ s => s end.

(** The key with the code of "U", the arrow up, breaks the line editor: it moves
    the writing position to column 21 with one character in the buffer, so that
    two Backspaces take the index below zero, and the next key writes in front of
    the input buffer. *)
Theorem arrow_up_underflows :
  let after keys := shell_loop (λ _, 0) (length keys) 0 1 (demo_shell keys) in
  input_buffer_index (final (after [0x48; 0x0E; 0x0E])) = 4294967295 ∧
  stopped (after [0x48; 0x0E; 0x0E; 0x1E]) = Some OutOfBounds.
Proof. split; vm_compute; reflexivity. Qed.

(** An unknown command is used as a printf format: typing "%s" and Enter makes
    printf read an argument that was never passed. *)
Theorem unknown_command_format :
  stopped (shell_loop (λ _, 0) 3 0 1 (demo_shell [0x3B; 0x1F; 0x1C])) = Some OutOfBounds ∧
  key_char 0x3B = 37 ∧ key_char 0x1F = 115.
Proof. vm_compute. split_and!; reflexivity. Qed.

(** The command "un bob" sets the user name to the null pointer instead of
    "bob": the name is looked for 8 bytes into the line and not 3. *)
Theorem un_loses_name :
  username (final (handle_keyboard_input (λ _, 0) 0 1 (demo_typed "un bob" [0x1C]))) = SInt 0 ∧
  stopped (handle_keyboard_input (λ _, 0) 0 1 (demo_typed "un bob" [0x1C])) = None.
Proof. vm_compute. split; reflexivity. Qed.
