(* ===== verification/Boot.v ===== *)
(** Boot: [kernel_main] of Shell.v from the machine the loader leaves to the
    prompt of the recovery shell. *)
From S2P Require Import Prelude Machine CString LibC Terminal Stdio Kernel Quiet Rtc Paging Video Shell Commands.

Section Boot.
Context {D : Type} `{Keyboard D} `{!Cmos D}.
Implicit Types (k : kst D) (d : D).
Abbreviation keys k := (kbd (c_dev (k_con k))).

(** A relation that output on the console and in the log keeps. *)
Class BootRel (R : relation (kst D)) := {
  boot_preorder :: PreOrder R;
  boot_con : ∀ k c, R k (put_con c k);
  boot_events : ∀ k l, R k (put_events l k);
}.

(** What the boot leaves of the shell's variables, and the page tables. *)
Definition k_boot k k' : Prop :=
  input_buffer k' = input_buffer k ∧ username k' = username k ∧ exitHKIloop k' = exitHKIloop k ∧
  fsinit k' = fsinit k ∧ networkinit k' = networkinit k ∧
  (input_buffer_index k = 0 → input_buffer_index k' = 0) ∧
  length (page_directory k') = length (page_directory k) ∧ length (page_table k') = length (page_table k).
Definition k_paged k k' : Prop :=
  k_boot k k' ∧ page_directory k' = page_directory k ∧ page_table k' = page_table k ∧ cr3 k' = cr3 k ∧ cr0 k' = cr0 k.

Definition k_clocked k k' : Prop := k_paged k k' ∧ clock k' = clock k.

#[global] Instance k_boot_rel : BootRel k_boot.
Proof.
  split; [|done|done]. split; [by intros k|]. unfold k_boot. intros k1 k2 k3. intuition congruence.
Qed.
#[global] Instance k_paged_rel : BootRel k_paged.
Proof.
  split; [|done|done]. split; [by intros k|]. unfold k_paged. intros k1 k2 k3 [H12 ?] [H23 ?].
  split; [by transitivity k2|]. intuition congruence.
Qed.

#[global] Instance k_clocked_rel : BootRel k_clocked.
Proof.
  split; [|done|done]. split; [by intros k|]. unfold k_clocked. intros k1 k2 k3 [H12 ?] [H23 ?].
  split; [by transitivity k2|congruence].
Qed.

(** Code that keeps them. *)
Definition frames (R : relation (kst D)) {A} (m : M (kst D) A) : Prop := ∀ k a k', m k = Done a k' → R k k'.
(** Code that returns from a good state in a good state. *)
Definition runs {A} (m : M (kst D) A) : Prop := safely (λ _ _, True) m.

Section Frames.
Context (R : relation (kst D)) `{!BootRel R}.

Lemma frames_ret {A} (a : A) : frames R (ret a).
Proof. by intros k b k' [= <- <-]. Qed.
Lemma frames_gets {A} (f : kst D → A) : frames R (gets f).
Proof. by intros k b k' [= <- <-]. Qed.
Lemma frames_bind {A B} (m : M (kst D) A) (f : A → M (kst D) B) :
  frames R m → (∀ a, frames R (f a)) → frames R (bind m f).
Proof. intros Hm Hf k b k' (a & k1 & E1 & E2)%bind_inv. transitivity k1; [by eapply Hm|by eapply Hf]. Qed.
Lemma frames_for n : ∀ i (body : Z → M (kst D) unit), (∀ i, frames R (body i)) → frames R (for_n n i body).
Proof. induction n as [|n IH]; intros i body Hb; [apply frames_ret|]. apply frames_bind; auto. Qed.
Lemma frames_modify (f : kst D → kst D) : (∀ k, R k (f k)) → frames R (modify f).
Proof. intros Hf k b k' [= <- <-]. apply Hf. Qed.
Lemma frames_tty {A} (m : M (con D) A) : frames R (tty m).
Proof.
  intros k a k'. unfold tty, zoom. destruct (m (k_con k)); [|done]. intros [= <- <-]. apply boot_con.
Qed.
Lemma frames_addevent e : frames R (addevent e).
Proof.
  unfold addevent. apply frames_bind; [apply frames_gets|intros s]. destruct (_ <? _); [|apply frames_ret].
  apply frames_modify. intros k. apply boot_events.
Qed.
End Frames.
End Boot.

Create HintDb boot.
#[export] Hint Resolve frames_ret frames_gets frames_tty frames_addevent : boot.
#[export] Hint Extern 1 (frames _ (modify _)) =>
  apply frames_modify; intros ?; unfold k_clocked, k_paged, k_boot; cbn; rewrite ?length_upd; done : boot.

Ltac frames :=
  repeat lazymatch goal with
  | |- frames _ (bind _ _) => apply frames_bind; [apply _| |intros ?]
  | |- frames _ (for_n _ _ _) => apply frames_for; [apply _|intros ?]
  | |- frames _ (match ?b with true => _ | false => _ end) => destruct b
  | |- frames _ _ => first [solve [auto with boot typeclass_instances nocore] | progress (unfold newline, write, color, row, column, port, clear)
                         | progress (unfold printk)]
  end.

Lemma frames_task `{PortIO D} (R : relation (kst D)) `{!BootRel R} name state : frames R (task (D := D) name state).
Proof. unfold task. frames. Qed.
#[export] Hint Resolve frames_task : boot.

Section BootParts.
Context {D : Type} `{Keyboard D} `{!Cmos D}.
Implicit Types (k : kst D) (d : D).
Abbreviation keys k := (kbd (c_dev (k_con k))).



Lemma frames_question s : frames k_boot (question (D := D) s).
Proof. unfold question, set_index. frames. Qed.

Lemma frames_paging dir table : frames k_boot (setup_paging (D := D) dir table).
Proof.
  unfold setup_paging, init_tables, map_framebuffer, set_directory, set_table, load_page_directory, enable_paging. frames.
Qed.

Lemma frames_vga (R : relation (kst D)) `{!BootRel R} : frames R (set_vga_mode (D := D)).
Proof. unfold set_vga_mode. frames. Qed.

Lemma frames_rtc f w : frames k_paged (read_rtc (D := D) f w).
Proof. unfold read_rtc. frames. Qed.

Lemma frames_mainfat (R : relation (kst D)) `{!BootRel R} : frames R (mainfat (D := D)).
Proof. unfold mainfat. frames. Qed.

Lemma frames_greeting (R : relation (kst D)) `{!BootRel R} : frames R (greeting (D := D)).
Proof. unfold greeting. frames. Qed.

Lemma quiet_question s : k_quiet (question (D := D) s).
Proof. unfold question, set_index. k_quiet. Qed.

Lemma quiet_paging dir table : k_quiet (setup_paging (D := D) dir table).
Proof.
  unfold setup_paging, init_tables, map_framebuffer, set_directory, set_table, load_page_directory, enable_paging. k_quiet.
Qed.

Lemma quiet_vga : k_quiet (set_vga_mode (D := D)).
Proof. unfold set_vga_mode. k_quiet. Qed.

Lemma quiet_greeting : k_quiet (greeting (D := D)).
Proof. unfold greeting. k_quiet. Qed.

Lemma quiet_framebuffer : k_quiet (tty (D := D) setup_framebuffer).
Proof. apply k_quiet_tty. unfold setup_framebuffer. apply quiet_for. intros i. by apply quiet_modify. Qed.

Lemma quiet_mainfat : k_quiet (mainfat (D := D)).
Proof. unfold mainfat. k_quiet. Qed.

(** * Which code returns *)

Lemma runs_io {A} (m : M (kst D) A) : safely k_io m → runs m.
Proof. by apply safely_mono. Qed.

Lemma runs_modify (f : kst D → kst D) :
  (∀ k, k_con (f k) = k_con k ∧ eventlog (f k) = eventlog k) → runs (modify f).
Proof. intros Hf k Hk. exists tt, (f k). destruct (Hf k) as [E1 E2]. split_and!; [done|by unfold k_ok; rewrite E1, E2..|done]. Qed.

Lemma runs_framebuffer : runs (tty (D := D) setup_framebuffer).
Proof.
  intros k [Hc He]. destruct (setup_framebuffer_fills (k_con k)) as (m' & E & _).
  exists tt, (put_con (set_mem m' (k_con k)) k). unfold tty, zoom. rewrite E.
  split; [reflexivity|]. split; [exact (conj Hc He)|exact I].
Qed.

#[local] Instance top_preorder : PreOrder (λ _ _ : kst D, True).
Proof. by split. Qed.

Lemma runs_question s : runs (question (D := D) s).
Proof.
  unfold runs, question. apply safely_gets. intros pc. apply safely_bind; [apply _|apply runs_io; kernel|intros _].
  apply safely_bind; [apply _|by apply runs_modify|intros _]. apply runs_io. kernel.
Qed.

Lemma runs_vga : runs (set_vga_mode (D := D)).
Proof. apply runs_io. unfold set_vga_mode. kernel. Qed.

Lemma runs_greeting : runs (greeting (D := D)).
Proof. apply runs_io. unfold greeting. kernel. Qed.

(** * Keys and clock *)

Lemma spares_register r : spares (get_RTC_register (D := D) r).
Proof.
  apply spares_bind; [apply spares_outb; unfold cmos_address; lia|intros _]. apply spares_inb; unfold cmos_data; lia.
Qed.

Lemma spares_wait f : spares (wait_update (D := D) f).
Proof.
  induction f as [|f IH]; cbn [wait_update]; [by intros d a d'|]. apply spares_bind.
  - apply spares_bind; [apply spares_outb; unfold cmos_address; lia|intros _].
    apply spares_bind; [apply spares_inb; unfold cmos_data; lia|intros v; apply spares_ret].
  - intros v. destruct (v =? 0); [apply spares_ret|done].
Qed.

Lemma spares_registers w : spares (read_registers (D := D) w).
Proof.
  unfold read_registers. apply spares_bind; [apply spares_wait|intros _].
  do 6 (apply spares_bind; [apply spares_register|intros ?]). apply spares_ret.
Qed.

Lemma spares_stable f w : ∀ last, spares (read_stable (D := D) f w last).
Proof.
  induction f as [|f IH]; intros last; cbn [read_stable]; [by intros d a d'|].
  apply spares_bind; [apply spares_registers|]. intros c. case_bool_decide; [apply spares_ret|done].
Qed.

Lemma k_spares_rtc f w : k_spares (read_rtc (D := D) f w).
Proof.
  unfold read_rtc.
  repeat lazymatch goal with
  | |- k_spares (bind _ _) => apply k_spares_bind; [|intros ?]
  | |- k_spares (port (read_registers _)) => apply k_spares_port, spares_registers
  | |- k_spares (port (read_stable _ _ _)) => apply k_spares_port, spares_stable
  | |- k_spares (port (get_RTC_register _)) => apply k_spares_port, spares_register
  | |- k_spares _ => apply k_spares_quiet; solve [auto with quiet nocore]
  end.
Qed.

Lemma wait_key_clock f : ∀ d a d', wait_key (D := D) f d = Done a d' → same_clock d d'.
Proof.
  induction f as [|f IH]; intros d a d' E; [done|]. cbn [wait_key] in E. apply bind_inv in E as (v & d1 & E1 & E2).
  unfold inb in E1. pose proof (cmos_inb 0x64 d) as Hc. change (u16 0x64) with 0x64 in E1.
  destruct (port_inb 0x64 d) as [v1 d2]. injection E1 as <- <-.
  assert (same_clock d d2) as Hs by (intros r; by apply Hc).
  destruct (_ =? _); [transitivity d2; [done|by eapply IH]|by injection E2 as _ <-].
Qed.

Lemma read_keyboard_clock f k a k' :
  read_keyboard f k = Done a k' → same_clock (c_dev (k_con k)) (c_dev (k_con k')).
Proof.
  unfold read_keyboard. intros (u & k1 & E1 & E2)%bind_inv. apply bind_inv in E2 as (data & k2 & E2 & E3).
  assert (k' = k2) as -> by (destruct (negb _); [by injection E3|destruct (data <? 128); by injection E3]).
  transitivity (c_dev (k_con k1)).
  - unfold port, tty, on_port, zoom in E1. destruct (wait_key f _) eqn:E; [|done]. injection E1 as _ <-.
    by eapply wait_key_clock.
  - unfold port, tty, on_port, zoom, inb in E2. pose proof (cmos_inb 0x60 (c_dev (k_con k1))) as Hc.
    change (u16 0x60) with 0x60 in E2. destruct (port_inb 0x60 _) as [v d2]. injection E2 as _ <-.
    intros r. by apply Hc.
Qed.
End BootParts.

(** * The boot, step by step *)

Section Steps.
Context {D : Type} `{Keyboard D} `{!Cmos D}.
Implicit Types (k : kst D) (d : D).
Abbreviation keys k := (kbd (c_dev (k_con k))).

(** What is known of the hardware while only keys are read and text is shown. *)
Variable S : D → Prop.
Hypothesis S_clock : ∀ d d', same_clock d d' → S d → S d'.
Context (R : relation (kst D)) `{!BootRel R}.

(** [m] takes the keys in front of [ks'] from [ks] and returns [a]. *)
Definition step {A} (ks ks' : list Z) (m : M (kst D) A) (a : A) : Prop :=
  ∀ k, k_ok k → keys k = ks → S (c_dev (k_con k)) →
    ∃ k', m k = Done a k' ∧ k_ok k' ∧ R k k' ∧ keys k' = ks' ∧ S (c_dev (k_con k')).

Lemma step_bind {A B} ks1 ks2 ks3 (m : M (kst D) A) a (f : A → M (kst D) B) b :
  step ks1 ks2 m a → step ks2 ks3 (f a) b → step ks1 ks3 (bind m f) b.
Proof.
  intros Hm Hf k Hk Hks HS. destruct (Hm k Hk Hks HS) as (k1 & E1 & Hk1 & Hb1 & Hks1 & HS1).
  destruct (Hf k1 Hk1 Hks1 HS1) as (k2 & E2 & Hk2 & Hb2 & Hks2 & HS2). exists k2.
  rewrite (bind_done _ _ _ _ _ E1). split_and!; [done|apply Hk2..|by transitivity k1|done|done].
Qed.

Lemma step_quiet ks (m : M (kst D) unit) : runs m → frames R m → k_quiet m → step ks ks m tt.
Proof.
  intros Hr Hf Hq k Hk Hks HS. destruct (Hr k Hk) as ([] & k' & E & Hk' & _). exists k'.
  pose proof (Hq k tt k' E) as Hc. split_and!; [done|apply Hk'..|by eapply Hf| |].
  - by rewrite (crt_only_kbd _ _ Hc).
  - by apply (S_clock (c_dev (k_con k))); [apply crt_only_clock|].
Qed.

Lemma step_read f c ks : byte_ok c → step (c :: ks) ks (read_keyboard (Datatypes.S f)) (key_char c).
Proof.
  intros Hc k Hk Hks HS. destruct (read_keyboard_run f k c ks Hks Hc) as (d & E & Hd).
  exists (put_dev d k). split_and!; [done|apply Hk..|apply boot_con|done|].
  apply (S_clock (c_dev (k_con k))); [|done]. exact (read_keyboard_clock _ _ _ _ E).
Qed.

Lemma step_ret {A} ks (a : A) : step ks ks (ret a) a.
Proof. intros k Hk Hks HS. exists k. by split_and!; try apply Hk. Qed.

(** Running a step in front of a continuation. *)
Record on_way k0 (ks : list Z) k : Prop := {
  way_ok : k_ok k;
  way_rel : R k0 k;
  way_keys : keys k = ks;
  way_dev : S (c_dev (k_con k));
}.

Lemma step_then {A B} (P : outcome (kst D) B → Prop) k0 ks ks' (m : M (kst D) A) a f k :
  on_way k0 ks k → step ks ks' m a → (∀ k', on_way k0 ks' k' → P (f a k')) → P (bind m f k).
Proof.
  intros [Hk HR Hks HS] Hm HP. destruct (Hm k Hk Hks HS) as (k' & E & Hk' & HR' & Hks' & HS').
  rewrite (bind_done _ _ _ _ _ E). apply HP. split; [done|by transitivity k|done|done].
Qed.

Lemma step_io ks (m : M (kst D) unit) : safely k_io m → frames R m → k_quiet m → step ks ks m tt.
Proof. intros Hm. apply step_quiet. by apply runs_io. Qed.

End Steps.

(** The premise on the hardware and the relation are found by themselves. *)
Ltac step_quiet := apply step_quiet; [done| | |].
Ltac step_io := apply step_io; [done|kernel|frames|k_quiet].

Section Setup.
Context {D : Type} `{Keyboard D} `{!Cmos D}.
Variable S : D → Prop.
Hypothesis S_clock : ∀ d d', same_clock d d' → S d → S d'.
Abbreviation step := (step S k_boot).

Lemma step_fixflash f c ks : byte_ok c → step (c :: ks) ks (fixflash (Datatypes.S f)) tt.
Proof.
  intros Hc. unfold fixflash.
  eapply step_bind; [apply _|step_quiet; [apply runs_question|apply frames_question|apply quiet_question]|].
  eapply step_bind; [apply _|apply step_read; [done|apply _|done]|].
  eapply step_bind; [apply _|step_io|].
  eapply step_bind; [apply _|step_io|].
  destruct (_ || _); [|apply step_ret, _]. step_quiet; [by apply runs_modify|frames|k_quiet].
Qed.

Lemma step_displayscreen f c1 c2 ks :
  byte_ok c1 → byte_ok c2 → key_char c2 ≠ 121 → step (c1 :: c2 :: ks) ks (displayscreen (Datatypes.S f)) tt.
Proof.
  intros H1 H2 Hy. unfold displayscreen.
  eapply step_bind; [apply _|step_quiet; [apply runs_question|apply frames_question|apply quiet_question]|].
  eapply step_bind; [apply _|step_io|].
  eapply step_bind; [apply _|apply step_read; [done|apply _|done]|]. eapply step_bind; [apply _|apply step_read; [done|apply _|done]|].
  eapply step_bind; [apply _|step_io|].
  rewrite (proj2 (Z.eqb_neq (key_char c2) 121)) by done. destruct (_ =? 0); apply step_ret, _.
Qed.
End Setup.

Lemma step_setup `{Keyboard D} `{!Cmos D} (S : D → Prop) f c1 c2 c3 ks :
  (∀ d d', same_clock d d' → S d → S d') →
  byte_ok c1 → byte_ok c2 → byte_ok c3 → key_char c3 ≠ 121 →
  step S k_boot (c1 :: c2 :: c3 :: ks) ks
    (task "Running setup..." 0 ;; fixflash (Datatypes.S f) ;; displayscreen (Datatypes.S f) ;; newline ;;
     task "Running setup..." 1) tt.
Proof.
  intros HS H1 H2 H3 Hy. eapply step_bind; [apply _|step_io|]. eapply step_bind; [apply _|by apply step_fixflash|].
  eapply step_bind; [apply _|by apply step_displayscreen|]. eapply step_bind; [apply _|step_io|]. step_io.
Qed.

(** * From power-on to the shell *)

(** The machine as the loader leaves it: variables zero or as initialised. *)
Definition power_on {D} (mem : memory) (d : D) : kst D := initial (Con mem d 0 0 0 0 false false).

(** The first screen: [terminal_initialize] sets the buffer pointer before anything is written. *)
Lemma first_screen `{PortIO D} (k : kst D) :
  terminal_color (k_con k) = 0 → terminal_column (k_con k) = 0 → Z.of_nat (length (eventlog k)) ≤ MAX_EVENTS →
  ∃ k', tty terminal_initialize k = Done tt k' ∧ k_ok k' ∧ k_boot k k' ∧ c_dev (k_con k') = c_dev (k_con k) ∧
    page_directory k' = page_directory k ∧ page_table k' = page_table k.
Proof.
  intros H0 H1 He. destruct (initialize_run (k_con k)) as (m' & E & _); [rewrite H0; unfold byte_ok; lia|].
  eexists. unfold tty, zoom. rewrite E. split; [reflexivity|]. split; [split|].
  - unfold con_ok, VGA_HEIGHT, VGA_WIDTH. cbn. rewrite H1. split_and!; first [lia|reflexivity].
  - exact He.
  - split; [done|]. split; [reflexivity|]. split; reflexivity.
Qed.

Section Main.
Context {D : Type} `{Keyboard D} `{!Cmos D}.
Variables dir table : Z.
Abbreviation keys k := (kbd (c_dev (k_con k))).

(** [setup] from power-on, where the console is not yet in order. *)
Lemma setup_run f mem d w b t c1 c2 c3 ks :
  kbd d = c1 :: c2 :: c3 :: ks → byte_ok c1 → byte_ok c2 → byte_ok c3 → key_char c3 ≠ 121 → shows d b t →
  let k := initial (Con mem d 0 0 0 0 false w) in
  ∃ k', setup (Datatypes.S f) k = Done tt k' ∧ on_way (λ d, shows d b t) k_boot k ks k'.
Proof.
  intros Hks H1 H2 H3 Hy Hs k.
  destruct (first_screen k) as (k1 & E1 & Hk1 & Hb1 & Hd1 & _); [done|done|vm_compute; discriminate|].
  assert (keys k1 = c1 :: c2 :: c3 :: ks) as Hks1 by (by rewrite Hd1).
  assert (shows (c_dev (k_con k1)) b t) as Hs1 by (by rewrite Hd1).
  destruct (step_setup (λ d, shows d b t) f c1 c2 c3 ks (λ d d' HS, shows_same d d' b t HS) H1 H2 H3 Hy k1 Hk1 Hks1 Hs1)
    as (k2 & E2 & Hk2 & Hb2 & Hks2 & Hs2).
  exists k2. unfold setup. rewrite (bind_done _ _ _ _ _ E1). split; [exact E2|]. split; [done|by transitivity k1|done|done].
Qed.

(** From the page tables to the recovery shell: nothing of what they map changes. *)
Lemma boot_tail shr80 r n f ks k :
  k_ok k → keys k = ks → networkinit k = false → fsinit k = false →
  ∃ k', (task "Attempting to initialize FAT..." 0 ;;
         let! fat := mainfat in
         (when! fat =? 0 do (modify (put_fsinit true) ;; task "Attempting to initialize FAT..." 1)) ;;
         tty (modify (set_wait false)) ;;
         let! k := gets id in
         (when! negb (networkinit k) && negb (fsinit k) do
            (task "Entering recovery shell..." 0 ;; shell shr80 r n f ;; panic shr80 [])) ;;
         continue_boot shr80 r n f) k =
        ((prompt ;; shell_loop shr80 r n f ;; panic shr80 []) ;; continue_boot shr80 r n f) k' ∧
    on_way (λ _, True) k_clocked k ks k'.
Proof.
  intros Hk Hks Hn Hf. pose (P (o : outcome (kst D) unit) := ∃ k',
    o = ((prompt ;; shell_loop shr80 r n f ;; panic shr80 []) ;; continue_boot shr80 r n f) k' ∧
    on_way (λ _, True) k_clocked k ks k').
  assert (on_way (λ _, True) k_clocked k ks k) as W by by split.
  assert (∀ d d' : D, same_clock d d' → True → True) as HS by done.
  refine (step_then (λ _, True) k_clocked P k ks ks _ tt _ k W _ _); [step_io|intros k1 W1].
  refine (step_then (λ _, True) k_clocked P k ks ks _ 1 _ k1 W1 _ _); [|intros k2 W2].
  { unfold mainfat. eapply step_bind; [apply _|step_io|apply step_ret, _]. }
  cbn [Z.eqb]. unfold P. rewrite (bind_done _ _ _ tt k2) by done.
  refine (step_then (λ _, True) k_clocked P k ks ks _ tt _ k2 W2 _ _); [step_io|intros k3 W3]. unfold P.
  rewrite (bind_done _ _ _ k3 k3) by done.
  assert (networkinit k3 = false ∧ fsinit k3 = false) as [-> ->].
  { destruct W3 as [_ [[[_ (_ & _ & Ef & En & _)] _] _] _ _]. by rewrite Ef, En. }
  cbn [negb andb].
  refine (_ : P (bind (bind (task _ _) _) _ k3)).
  destruct (step_io (λ _, True) HS k_clocked ks (task "Entering recovery shell..." 0)) with (k := k3)
    as (k4 & E4 & Hk4 & HR4 & Hks4 & _); [kernel|frames|k_quiet|apply W3|apply W3|done|].
  destruct (step_io (λ _, True) HS k_clocked ks (task "Entering recovery shell..." 1)) with (k := k4)
    as (k5 & E5 & Hk5 & HR5 & Hks5 & _); [kernel|frames|k_quiet|done|done|done|].
  exists k5. split.
  - unfold bind at 1. rewrite (bind_done _ _ _ _ _ E4). unfold shell. unfold bind at 1 2. rewrite E5.
    unfold bind. by destruct (prompt k5) as [[] k6|].
  - split; [done| |done|done]. transitivity k3; [apply W3|]. by transitivity k4.
Qed.

(** From [setup] to the clock. *)
Lemma boot_middle (P : outcome (kst D) unit → Prop) ks b t (rest : M (kst D) unit) k0 k :
  on_way (λ d, shows d b t) k_boot k0 ks k → length (page_directory k0) = 1024%nat → length (page_table k0) = 1024%nat →
  0 ≤ table → table mod PAGE_SIZE = 0 →
  (∀ k1 k2, k_boot k0 k1 → paged table k1 → cr3 k1 = dir → Z.testbit (cr0 k1) 31 = true →
     on_way (λ d, shows d b t) k_paged k1 ks k2 → P (rest k2)) →
  P ((tty terminal_initialize ;; color VGA_COLOR_LIGHT_GREEN VGA_COLOR_BLACK ;; row 1 ;; greeting ;;
      color VGA_COLOR_WHITE VGA_COLOR_BLACK ;; task "Setup paging..." 0 ;; setup_paging dir table ;;
      task "Setup paging..." 1 ;; task "Setup framebuffer..." 0 ;; tty setup_framebuffer ;;
      task "Setup framebuffer..." 1 ;; task "Set video mode..." 0 ;; set_vga_mode ;; rest) k).
Proof.
  intros W L1 L2 Ht Hal HP. pose (S d := shows d b t).
  assert (∀ d d' : D, same_clock d d' → S d → S d') as HS by (intros d d' Hd; by apply shows_same).
  refine (step_then S k_boot P k0 ks ks _ tt _ k W _ _); [step_io|clear k W; intros k W].
  refine (step_then S k_boot P k0 ks ks _ tt _ k W _ _); [step_io|clear k W; intros k W].
  refine (step_then S k_boot P k0 ks ks _ tt _ k W _ _); [step_io|clear k W; intros k W].
  refine (step_then S k_boot P k0 ks ks _ tt _ k W _ _);
    [step_quiet; [apply runs_greeting|apply frames_greeting, _|apply quiet_greeting]|clear k W; intros k W].
  refine (step_then S k_boot P k0 ks ks _ tt _ k W _ _); [step_io|clear k W; intros k W].
  refine (step_then S k_boot P k0 ks ks _ tt _ k W _ _); [step_io|clear k W; intros k W].
  destruct W as [Hk HR Hks Hs]. pose proof HR as (_ & _ & _ & _ & _ & _ & M1 & M2).
  destruct (setup_paging_run dir table k Hk) as (k1 & E1 & Hk1 & _ & Hp & Hc3 & Hc0); [congruence|congruence|done|done|].
  pose proof (quiet_paging dir table _ _ _ E1) as Hq.
  rewrite (bind_done _ _ _ _ _ E1).
  assert (on_way S k_paged k1 ks k1) as W.
  { split; [done|done|by rewrite (crt_only_kbd _ _ Hq)|by apply (HS (c_dev (k_con k))); [apply crt_only_clock|]]. }
  assert (k_boot k0 k1) as HB by (transitivity k; [done|]; by eapply frames_paging).
  refine (step_then S k_paged P k1 ks ks _ tt _ k1 W _ _); [step_io|clear W; intros k2 W].
  refine (step_then S k_paged P k1 ks ks _ tt _ k2 W _ _); [step_io|clear k2 W; intros k2 W].
  refine (step_then S k_paged P k1 ks ks _ tt _ k2 W _ _);
    [step_quiet; [apply runs_framebuffer|apply frames_tty, _|apply quiet_framebuffer]|clear k2 W; intros k2 W].
  refine (step_then S k_paged P k1 ks ks _ tt _ k2 W _ _); [step_io|clear k2 W; intros k2 W].
  refine (step_then S k_paged P k1 ks ks _ tt _ k2 W _ _); [step_io|clear k2 W; intros k2 W].
  refine (step_then S k_paged P k1 ks ks _ tt _ k2 W _ _);
    [step_quiet; [apply runs_vga|apply frames_vga, _|apply quiet_vga]|clear k2 W; intros k2 W].
  by apply (HP k1).
Qed.
End Main.

(** The run at the head of [∃ k, run = _ ∧ _], as the argument of a predicate. *)
Ltac pattern_outcome := match goal with |- ∃ k, ?o = _ ∧ _ => pattern o end.

(** The boot up to the shell's loop. *)
Lemma boot_to_shell `{Keyboard D} `{!Cmos D} shr80 dir table r n f w mem (d : D) b t c1 c2 c3 rest :
  kbd d = c1 :: c2 :: c3 :: rest → byte_ok c1 → byte_ok c2 → byte_ok c3 → key_char c3 ≠ 121 →
  shows d b t → time_ok t → 0 ≤ table → table mod PAGE_SIZE = 0 →
  ∃ k, kernel_main shr80 dir table r n (S f) (S w) (power_on mem d) =
      ((shell_loop shr80 r n (S f) ;; panic shr80 []) ;; continue_boot shr80 r n (S f)) k ∧
    at_line (str "potato") k ∧ line k = [] ∧ kbd (c_dev (k_con k)) = rest ∧ exitHKIloop k = false ∧ fsinit k = false ∧
    (∀ v, 0 ≤ v < 4294967296 → translate dir table k v = if decide (v < 0x400000) then Some v else None) ∧
    clock k = Rtc (second t) (minute t) (hour_read b (hour t)) (day t) (month t) (year t).
Proof.
  intros Hkeys H1 H2 H3 Hy Hs Htime Ht Hal. unfold kernel_main.
  set (d1 := port_outb 0x3D4 0x0A d). set (d2 := port_outb 0x3D5 0x20 d1).
  set (k0 := initial (Con mem d2 0 0 0 0 false true)).
  rewrite (bind_done _ _ _ tt (initial (Con mem d 0 0 0 0 false true))) by done.
  rewrite (bind_done _ _ _ tt (initial (Con mem d1 0 0 0 0 false true))) by done.
  rewrite (bind_done _ _ _ tt k0) by done.
  assert (crt_only d d2) as Hd by (apply (crt_step d 0x3D4 0x0A); [by left|]; apply (crt_step d1 0x3D5 0x20); [by right|]; constructor).
  assert (kbd d2 = c1 :: c2 :: c3 :: rest) as Hkeys2 by (rewrite (crt_only_kbd _ _ Hd); exact Hkeys).
  pose proof (shows_same _ _ _ _ (crt_only_clock _ _ Hd) Hs) as Hs2.
  destruct (setup_run f mem d2 true b t c1 c2 c3 rest Hkeys2 H1 H2 H3 Hy Hs2) as (k1 & E1 & W1).
  fold k0 in E1, W1. rewrite (bind_done _ _ _ _ _ E1). pattern_outcome.
  apply (boot_middle dir table _ rest b t _ k0 k1 W1); [reflexivity|reflexivity|exact Ht|exact Hal|].
  intros k2 k3 B2 Hp Hc3 Hc0 [Hk3 [B3 (P1 & P2 & P3 & P4)] Hks3 Hs3].
  destruct (read_rtc_run f w k3 b t Hk3 Htime Hs3) as (k4 & E4 & Hk4 & _ & Hclock).
  pose proof (frames_rtc _ _ _ _ _ E4) as [B4 (Q1 & Q2 & Q3 & Q4)]. pose proof (k_spares_rtc _ _ _ _ _ E4) as Hks4.
  assert (k_boot k0 k4) as B by (transitivity k2; [done|]; by transitivity k3).
  destruct B as (Bi & Bu & Bx & Bf & Bn & Bz & _). rewrite (bind_done _ _ _ _ _ E4).
  destruct (boot_tail shr80 r n (S f) rest k4) as (k5 & E5 & [Hk5 [[B5 (R1 & R2 & R3 & R4)] Hcl5] Hks5 _]);
    [done|congruence|done|done|].
  destruct B5 as (Ci & Cu & Cx & Cf & Cn & Cz & _).
  assert (ready (str "potato") k5) as Hr5 by (constructor; [done|by rewrite Ci, Bi|by rewrite Ci, Bi|by rewrite Cu, Bu]).
  destruct (prompt_run (str "potato") k5 Hr5) as (k6 & E6 & Hr6 & Hio6 & Hcol6).
  exists k6. split; [rewrite E5; unfold bind at 1 2; rewrite E6; reflexivity|].
  pose proof (crt_only_kbd _ _ (quiet_prompt _ _ _ E6)) as Hks6.
  destruct Hio6 as (_ & _ & Ei & _ & Ex & Ef & _ & _ & Ecl & Ed & Et & Ec3 & Ec0 & _).
  assert (input_buffer_index k6 = 0) as Hi by (rewrite Ei; apply Cz, Bz; reflexivity).
  destruct Hr6 as [Hk6 L6 N6 U6]. split; [|split; [|split; [|split; [|split; [|split]]]]].
  - constructor; try assumption; [rewrite Hi; lia|reflexivity|reflexivity|rewrite Hi, Z.add_0_r; exact Hcol6].
  - unfold line. rewrite Hi. reflexivity.
  - rewrite Hks6. exact Hks5.
  - rewrite Ex, Cx, Bx. reflexivity.
  - rewrite Ef, Cf, Bf. reflexivity.
  - intros v Hv. apply paged_identity; [|congruence|congruence|exact Hal|exact Hv].
    unfold paged in *. rewrite Ed, R1, Q1, P1, Et, R2, Q2, P2. exact Hp.
  - rewrite Ecl, Hcl5. exact Hclock.
Qed.

(** * Theorems *)


(** A clock at half past nine and the keys of a user who answers "n" twice. *)
Definition demo_board (keys : list Z) : pc := Pc (Crt 0 ∅) keys 0 (clock_regs 0 21).

