(* ===== verification/Session.v ===== *)
(** A whole session at the shell: many lines typed one after the other, from the
    first prompt or from power-on, against the abstract machine [session], whose
    only state is the mark that the file system is ready. *)
From S2P Require Import Prelude Machine CString LibC Terminal Stdio Kernel Quiet Rtc Paging Video Shell Commands Boot.

(** * The abstract machine *)

(** The lines decide one after the other; the first that does not come back to
    the prompt decides for all. *)
Fixpoint session (fs : bool) (commands : list (list Z)) : verdict :=
  match commands with
  | [] => Prompts fs
  | c :: rest => match obey fs c with Prompts fs' => session fs' rest | v => v end
  end.

(** What a row of keys leaves in an empty line. *)
Definition typed (u : list Z) (keys : list Z) : list Z := foldl (edit (width u)) [] (map key_char keys).

(** A line as it is typed: the keys that edit it, and Enter. *)
Record entry := Entry { edits : list Z; enter_key : Z }.
Definition codes (e : entry) : list Z := edits e ++ [enter_key e].
Definition entry_ok (u : list Z) (e : entry) : Prop :=
  Forall edit_key (edits e) ∧ byte_ok (enter_key e) ∧ key_char (enter_key e) = 10 ∧ tame (typed u (edits e)).
Definition commands (u : list Z) (l : list entry) : list (list Z) := map (typed u ∘ edits) l.

(** A line never holds a NUL. *)
Lemma edit_nonzero P c l : Forall (λ x, x ≠ 0) l → Forall (λ x, x ≠ 0) (edit P l c).
Proof.
  intros Hl. unfold edit. destruct (Z.eqb_spec c 0) as [|Hc]; [done|].
  repeat case_match; try done; [by apply Forall_take|]. apply Forall_app. by repeat constructor.
Qed.

Lemma typed_cstr u keys : cstr (typed u keys) = typed u keys.
Proof.
  rewrite <-(cstr_cut _ []). apply cstr_app_nul. unfold typed. assert (Forall (λ x : Z, x ≠ 0) []) as Hn by constructor. revert Hn.
  generalize (@nil Z). induction keys as [|c keys IH]; intros l Hl; [done|]. by apply IH, edit_nonzero.
Qed.

(** * A session in the shell's loop *)

Section Session.
Context {D : Type} `{Keyboard D}.
Variables (shr80 : Z → Z) (n f : nat) (u : list Z).
Implicit Types (k : kst D).
Abbreviation keys k := (kbd (c_dev (k_con k))).
Abbreviation loop r := (shell_loop shr80 r n (S f)).

(** What the loop with [S r] rounds more than keys comes to. *)
Definition follows k (o : outcome (kst D) unit) (r : nat) (rest : list Z) (v : verdict) : Prop :=
  match v with
  | Prompts fs => ∃ k', o = loop (S r) k' ∧ at_prompt u k' ∧ k_mem k k' ∧ keys k' = rest ∧
      exitHKIloop k' = false ∧ fsinit k' = fs
  | Exits => ∃ k', o = Done tt k' ∧ at_prompt u k' ∧ k_mem k k'
  | Halts => ∃ k', o = Stop Halted k' ∧ k_mem k k'
  end.

Lemma follows_mem k k1 o r rest v : k_mem k k1 → follows k1 o r rest v → follows k o r rest v.
Proof.
  intros Hm. destruct v; cbn [follows].
  - intros (k' & ? & ? & Hm' & ?). exists k'. split; [done|]. split; [done|]. split; [by transitivity k1|done].
  - intros (k' & ? & ? & Hm'). exists k'. split; [done|]. split; [done|]. by transitivity k1.
  - intros (k' & ? & Hm'). exists k'. split; [done|by transitivity k1].
Qed.

(** One round of the loop. *)
Lemma loop_round r k : exitHKIloop k = false → loop (S r) k = (handle_keyboard_input shr80 n (S f) ;; loop r) k.
Proof. intros Hx. cbn [shell_loop]. rewrite (bind_done _ _ _ (exitHKIloop k) k) by done. by rewrite Hx. Qed.

Lemma loop_exits r k : exitHKIloop k = true → loop (S r) k = Done tt k.
Proof. intros Hx. cbn [shell_loop]. rewrite (bind_done _ _ _ (exitHKIloop k) k) by done. by rewrite Hx. Qed.

(** One line: its keys, then Enter. *)
Lemma session_line e r rest k :
  at_prompt u k → exitHKIloop k = false → keys k = codes e ++ rest → entry_ok u e →
  ∃ k1, loop (length (codes e) + r) k = (handle_keyboard_input shr80 n (S f) ;; loop r) k1 ∧ k_mem k k1 ∧
    exitHKIloop k1 = false ∧ enters u k1 (handle_keyboard_input shr80 n (S f)) rest (obey (fsinit k) (typed u (edits e))).
Proof.
  intros [Hl Hn] Hx Hk (Hed & Hb & Hc & Ht). unfold codes in *. rewrite <-app_assoc in Hk.
  destruct (shell_edits shr80 (S r) n f u (edits e) k _ Hl Hx Hk Hed) as (k1 & E & Hl1 & Hm1 & Hx1 & Hf1 & Hk1 & Hline).
  rewrite Hn in Hline. fold (typed u (edits e)) in Hline. exists k1. split; [|split; [done|split; [done|]]].
  - rewrite length_app. cbn [length]. rewrite <-Nat.add_assoc. cbn [Nat.add]. rewrite E. by apply loop_round.
  - pose proof (enter_obeys shr80 u n f (enter_key e) rest k1 Hl1 Hk1 Hb Hc) as HE.
    rewrite Hline, typed_cstr, Hf1 in HE. by apply HE.
Qed.

Lemma session_follows l : ∀ r rest k,
  at_prompt u k → exitHKIloop k = false → keys k = concat (map codes l) ++ rest → Forall (entry_ok u) l →
  follows k (loop (length (concat (map codes l)) + S r) k) r rest (session (fsinit k) (commands u l)).
Proof.
  induction l as [|e l IH]; intros r rest k Hp Hx Hk Hl; [by exists k|].
  apply Forall_cons in Hl as [He Hl]. cbn [map concat] in *. rewrite <-app_assoc in Hk.
  rewrite length_app, <-Nat.add_assoc.
  destruct (session_line e (length (concat (map codes l)) + S r) _ k Hp Hx Hk He) as (k1 & -> & Hm1 & Hx1 & HE).
  cbn [commands map session]. change (typed u (edits e)) with ((typed u ∘ edits) e) in HE.
  apply (follows_mem k k1); [done|]. destruct (obey _ _) as [fs| |]; cbn [enters] in HE.
  - destruct HE as (k2 & E2 & Hp2 & Hm2 & Hk2 & Hx2 & <-). rewrite (bind_done _ _ _ _ _ E2).
    apply (follows_mem k1 k2); [done|]. apply IH; [done|congruence|done|done].
  - destruct HE as (k2 & E2 & Hp2 & Hm2 & Hx2). exists k2. rewrite (bind_done _ _ _ _ _ E2).
    rewrite Nat.add_succ_r, loop_exits by done. done.
  - destruct HE as (k2 & E2 & Hm2). exists k2. by rewrite (bind_stop _ _ _ _ _ E2).
Qed.
End Session.

(** * Theorems *)

(** C3: a session: from an empty line, any list of lines, each edited with any keys
    but "U" and ended with Enter, none of them a "un" or "color" command or a
    text with a printf directive that asks for an argument, drives the shell's
    loop as the abstract machine says: "exit" leaves the loop, "reboot",
    "shutdown" and "ls" without a file system stop the machine, "panic" and
    "fatinit" mark the file system as not ready, and every other line comes back
    to an empty line behind a fresh prompt, with the rest of the keys still to
    come. No memory off the screen is written. *)
Theorem shell_session `{Keyboard D} shr80 r n f u l rest (k : kst D) :
  at_line u k → line k = [] → exitHKIloop k = false → kbd (c_dev (k_con k)) = concat (map codes l) ++ rest →
  Forall (entry_ok u) l →
  let run := shell_loop shr80 (length (concat (map codes l)) + S r) n (S f) k in
  match session (fsinit k) (commands u l) with
  | Prompts fs => ∃ k', run = shell_loop shr80 (S r) n (S f) k' ∧ at_line u k' ∧ line k' = [] ∧ k_mem k k' ∧
      kbd (c_dev (k_con k')) = rest ∧ exitHKIloop k' = false ∧ fsinit k' = fs
  | Exits => ∃ k', run = Done tt k' ∧ at_line u k' ∧ line k' = [] ∧ k_mem k k'
  | Halts => ∃ k', run = Stop Halted k' ∧ k_mem k k'
  end.
Proof.
  intros Hl Hn Hx Hk Hes. pose proof (session_follows shr80 n f u l r rest k (conj Hl Hn) Hx Hk Hes) as HF. cbv zeta.
  destruct (session _ _); cbn [follows] in HF; [| |exact HF]; destruct HF as (k' & E & [Hl' Hn'] & HF); by exists k'.
Qed.



(** The keys of "m", Enter, its release, and of "exit", "help" and "ls". *)
Definition demo_m : entry := Entry [0x32] 0x1C.
Definition demo_exit : entry := Entry [0x9C; 0x12; 0x2D; 0x17; 0x14] 0x1C.
Definition demo_help : entry := Entry [0x23; 0x12; 0x26; 0x0E; 0x26; 0x19] 0x1C.
Definition demo_ls : entry := Entry [0x26; 0x1F] 0x1C.

Lemma demo_entries_ok : Forall (entry_ok (str "potato")) [demo_m; demo_exit; demo_help; demo_ls].
Proof.
  repeat constructor; cbn [edits enter_key demo_m demo_exit demo_help demo_ls];
    try (repeat constructor; first [lia | vm_compute; discriminate]); vm_compute; discriminate.
Qed.

(** "m" comes back, "exit" leaves the loop; what is typed behind it is not read. *)
Lemma shell_session_witness :
  ∃ k', shell_loop (λ _, 0) (15 + 1) 0 1 (demo_shell (codes demo_m ++ codes demo_exit ++ codes demo_help)) = Done tt k' ∧
    at_line (str "potato") k' ∧ line k' = [].
Proof.
  pose proof demo_entries_ok as Hok. apply Forall_cons in Hok as [Hm Hok]. apply Forall_cons in Hok as [He Hok].
  apply Forall_cons in Hok as [Hh _].
  pose proof (shell_session (λ _, 0) 0 0 0 (str "potato") [demo_m; demo_exit; demo_help] []
    (demo_shell (codes demo_m ++ codes demo_exit ++ codes demo_help)) (demo_shell_line _)) as HS.
  specialize (HS eq_refl). specialize (HS eq_refl). specialize (HS eq_refl).
  assert (Forall (entry_ok (str "potato")) [demo_m; demo_exit; demo_help]) as Hl by (by rewrite !Forall_cons).
  specialize (HS Hl). cbv zeta in HS.
  assert (session (fsinit (demo_shell (codes demo_m ++ codes demo_exit ++ codes demo_help)))
    (commands (str "potato") [demo_m; demo_exit; demo_help]) = Exits) as E by (vm_compute; reflexivity).
  rewrite E in HS. destruct HS as (k' & E' & Hat & Hline & _). exists k'. split; [exact E'|]. split; [exact Hat|exact Hline].
Defined.

