(* ===== verification/Typed.v ===== *)
(** Types of the kernel's variables: whatever the hardware answers and whatever is
    typed, every variable stays within its C type and its array, at every return
    and every stop of the kernel, the faulty commands included.

    Nothing is assumed of the hardware here but that the port instructions exist. *)
From S2P Require Import Prelude Machine CString LibC Terminal Stdio Kernel Quiet Rtc Paging Video Shell Commands Boot.

Abbreviation u32_ok x := (0 ≤ x < 4294967296).

Section Typed.
Context {D : Type} `{PortIO D}.
Implicit Types (t : con D) (k : kst D).

(** [size_t terminal_row, terminal_column], [uint8_t terminal_color], [uint16_t*
    terminal_buffer]. *)
Record con_typed t : Prop := {
  typed_row : u32_ok (terminal_row t);
  typed_column : u32_ok (terminal_column t);
  typed_color : byte_ok (terminal_color t);
  typed_buffer : u32_ok (terminal_buffer t);
}.

Record rtc_typed (c : rtc) : Prop := {
  typed_second : byte_ok (second c);
  typed_minute : byte_ok (minute c);
  typed_hour : byte_ok (hour c);
  typed_day : byte_ok (day c);
  typed_month : byte_ok (month c);
  typed_year : u32_ok (year c);
}.

(** A pointer into the input buffer stays inside it. *)
Definition sref_typed (s : sref) : Prop :=
  match s with SLit _ => True | SBuf off => (off < 256)%nat | SInt n => u32_ok n end.

(** The one [strtok] keeps may be just behind it. *)
Definition last_typed (l : option nat) : Prop := match l with Some p => (p ≤ 256)%nat | None => True end.

Record k_typed k : Prop := {
  typed_con : con_typed (k_con k);
  typed_log : Z.of_nat (length (eventlog k)) ≤ MAX_EVENTS ∧ Forall sref_typed (eventlog k);
  typed_input : length (input_buffer k) = 256%nat ∧ bytes_ok (input_buffer k);
  typed_index : u32_ok (input_buffer_index k);
  typed_user : sref_typed (username k);
  typed_paniccolor : 0 ≤ paniccolor k < 16;
  typed_clock : rtc_typed (clock k);
  typed_directory : length (page_directory k) = 1024%nat ∧ Forall (λ x, u32_ok x) (page_directory k);
  typed_table : length (page_table k) = 1024%nat ∧ Forall (λ x, u32_ok x) (page_table k);
  typed_cr : u32_ok (cr3 k) ∧ u32_ok (cr0 k);
  typed_last : last_typed (strtok_last k);
}.

(** Console code that keeps its types, however it ends. *)
Definition t_keeps {A} (m : M (con D) A) : Prop :=
  ∀ t, con_typed t → match m t with Done _ t' => con_typed t' | Stop _ t' => con_typed t' end.
(** Kernel code that keeps them and returns a value in [P]. *)
Definition typed {A} (P : A → Prop) (m : M (kst D) A) : Prop :=
  ∀ k, k_typed k → match m k with Done a k' => P a ∧ k_typed k' | Stop _ k' => k_typed k' end.
Definition keeps {A} (m : M (kst D) A) : Prop := typed (λ _, True) m.

Lemma t_keeps_ret {A} (a : A) : t_keeps (ret a).
Proof. by intros t Ht. Qed.
Lemma t_keeps_gets {A} (f : con D → A) : t_keeps (gets f).
Proof. by intros t Ht. Qed.
Lemma t_keeps_raise {A} e : t_keeps (raise (A := A) e).
Proof. by intros t Ht. Qed.
Lemma t_keeps_modify f : (∀ t, con_typed t → con_typed (f t)) → t_keeps (modify f).
Proof. intros Hf t Ht. by apply Hf. Qed.
Lemma t_keeps_bind {A B} (m : M (con D) A) (f : A → M (con D) B) : t_keeps m → (∀ a, t_keeps (f a)) → t_keeps (bind m f).
Proof. intros Hm Hf t Ht. specialize (Hm t Ht). unfold bind. destruct (m t); [by apply Hf|done]. Qed.
Lemma t_keeps_for n : ∀ i body, (∀ i, t_keeps (body i)) → t_keeps (for_n n i body).
Proof. induction n as [|n IH]; intros i body Hb; [apply t_keeps_ret|]. apply t_keeps_bind; auto. Qed.
Lemma t_keeps_port {A} (m : M D A) : t_keeps (on_port m).
Proof. intros t []. unfold on_port, zoom. destruct (m (c_dev t)); by constructor. Qed.
Lemma t_keeps_cell i v : t_keeps (put_cell i v).
Proof. apply t_keeps_modify. by intros t []. Qed.

Lemma typed_ret {A} (P : A → Prop) a : P a → typed P (ret a).
Proof. by intros Ha k Hk. Qed.
Lemma typed_raise {A} (P : A → Prop) e : typed P (raise e).
Proof. by intros k Hk. Qed.
Lemma typed_gets {A} (P : A → Prop) f : (∀ k, k_typed k → P (f k)) → typed P (gets f).
Proof. intros Hf k Hk. split; [by apply Hf|done]. Qed.
Lemma typed_bind {A B} (P : A → Prop) (Q : B → Prop) (m : M (kst D) A) (f : A → M (kst D) B) :
  typed P m → (∀ a, P a → typed Q (f a)) → typed Q (bind m f).
Proof. intros Hm Hf k Hk. specialize (Hm k Hk). unfold bind. destruct (m k); [destruct Hm; by apply Hf|done]. Qed.
Lemma typed_mono {A} (P Q : A → Prop) m : (∀ a, P a → Q a) → typed P m → typed Q m.
Proof. intros HPQ Hm k Hk. specialize (Hm k Hk). destruct (m k) as [a k'|]; [|done]. destruct Hm. auto. Qed.

Lemma keeps_ret {A} (a : A) : keeps (ret a).
Proof. by apply typed_ret. Qed.
Lemma keeps_gets {A} (f : kst D → A) : keeps (gets f).
Proof. by apply typed_gets. Qed.
Lemma keeps_modify f : (∀ k, k_typed k → k_typed (f k)) → keeps (modify f).
Proof. intros Hf k Hk. split; [done|by apply Hf]. Qed.
Lemma keeps_bind {A B} (m : M (kst D) A) (f : A → M (kst D) B) : keeps m → (∀ a, keeps (f a)) → keeps (bind m f).
Proof. intros Hm Hf. apply (typed_bind (λ _, True)); [exact Hm|intros a _; apply Hf]. Qed.
Lemma keeps_from {A B} (P : A → Prop) (m : M (kst D) A) (f : A → M (kst D) B) :
  typed P m → (∀ a, P a → keeps (f a)) → keeps (bind m f).
Proof. apply typed_bind. Qed.
Lemma keeps_for n : ∀ i body, (∀ j, i ≤ j < i + Z.of_nat n → keeps (body j)) → keeps (for_n n i body).
Proof.
  induction n as [|n IH]; intros i body Hb; [apply keeps_ret|]. apply keeps_bind; [apply Hb; lia|intros _].
  apply IH. intros j Hj. apply Hb. lia.
Qed.
Lemma keeps_tty {A} (m : M (con D) A) : t_keeps m → keeps (tty m).
Proof.
  intros Hm k Hk. pose proof Hk as []. specialize (Hm _ typed_con0). unfold tty, zoom.
  destruct (m (k_con k)); [split; [done|]|]; by constructor.
Qed.
Lemma keeps_port {A} (m : M D A) : keeps (port m).
Proof. apply keeps_tty, t_keeps_port. Qed.

(** What a device program returns. *)
Definition yields {A} (P : A → Prop) (m : M D A) : Prop := ∀ d, match m d with Done a _ => P a | Stop _ _ => True end.
Lemma yields_bind {A B} (P : A → Prop) (Q : B → Prop) (m : M D A) f : yields P m → (∀ a, P a → yields Q (f a)) → yields Q (bind m f).
Proof. intros Hm Hf d. specialize (Hm d). unfold bind. destruct (m d); [by apply Hf|done]. Qed.
Lemma yields_any {A} (m : M D A) : yields (λ _, True) m.
Proof. intros d. by destruct (m d). Qed.
Lemma yields_inb p : yields byte_ok (inb p).
Proof. intros d. unfold inb. destruct (port_inb _ _). apply u8_range. Qed.
Lemma typed_port {A} (P : A → Prop) (m : M D A) : yields P m → typed P (port m).
Proof.
  intros Hm k Hk. pose proof (keeps_port m k Hk) as Hp. unfold port, tty, on_port, zoom in *.
  specialize (Hm (c_dev (k_con k))). destruct (m _); [|done]. by destruct Hp.
Qed.
End Typed.

Create HintDb typed.
#[export] Hint Resolve t_keeps_ret t_keeps_gets t_keeps_raise t_keeps_port t_keeps_cell : typed.
#[export] Hint Extern 1 (t_keeps (modify _)) =>
  apply t_keeps_modify; intros ? []; constructor; cbn; first [assumption | apply u32_range | apply u8_range] : typed.
#[export] Hint Resolve keeps_ret keeps_gets keeps_port : typed.

Ltac t_keeps :=
  repeat lazymatch goal with
  | |- t_keeps (bind _ _) => apply t_keeps_bind; [|intros ?]
  | |- t_keeps (for_n _ _ _) => apply t_keeps_for; intros ?
  | |- t_keeps (match ?b with true => _ | false => _ end) => destruct b
  | |- t_keeps _ => solve [auto with typed nocore]
  end.


Lemma t_keeps_fill `{PortIO D} : t_keeps (fill_screen (D := D)).
Proof. unfold fill_screen. t_keeps. Qed.
#[export] Hint Extern 0 (t_keeps fill_screen) => simple apply t_keeps_fill : typed.
Lemma t_keeps_initialize `{PortIO D} : t_keeps (terminal_initialize (D := D)).
Proof. unfold terminal_initialize. t_keeps. Qed.
#[export] Hint Extern 0 (t_keeps terminal_initialize) => simple apply t_keeps_initialize : typed.
Lemma t_keeps_cursor `{PortIO D} x y : t_keeps (update_cursor (D := D) x y).
Proof. unfold update_cursor. t_keeps. Qed.
#[export] Hint Extern 0 (t_keeps (update_cursor _ _)) => simple apply t_keeps_cursor : typed.
Lemma t_keeps_putentryat `{PortIO D} c color x y : t_keeps (terminal_putentryat (D := D) c color x y).
Proof. unfold terminal_putentryat. t_keeps. Qed.
#[export] Hint Extern 0 (t_keeps (terminal_putentryat _ _ _ _)) => simple apply t_keeps_putentryat : typed.
Lemma t_keeps_putchar `{PortIO D} c : t_keeps (terminal_putchar (D := D) c).
Proof.
  unfold terminal_putchar, terminal_scroll. cbv zeta. t_keeps.
Qed.
#[export] Hint Extern 0 (t_keeps (terminal_putchar _)) => simple apply t_keeps_putchar : typed.
Lemma t_keeps_write `{PortIO D} s : t_keeps (terminal_write (D := D) s).
Proof. induction s; cbn [terminal_write]; [apply t_keeps_ret|]. apply t_keeps_bind; [apply t_keeps_putchar|done]. Qed.
#[export] Hint Extern 0 (t_keeps (terminal_write _)) => simple apply t_keeps_write : typed.
Lemma t_keeps_writestring `{PortIO D} s : t_keeps (terminal_writestring (D := D) s).
Proof. apply t_keeps_write. Qed.
#[export] Hint Extern 0 (t_keeps (terminal_writestring _)) => simple apply t_keeps_writestring : typed.
Lemma t_keeps_newline `{PortIO D} : t_keeps (terminal_newline (D := D)).
Proof. unfold terminal_newline. t_keeps. Qed.
#[export] Hint Extern 0 (t_keeps terminal_newline) => simple apply t_keeps_newline : typed.
Lemma t_keeps_print `{PortIO D} s : t_keeps (print (D := D) s).
Proof.
  induction s as [|c s IH]; cbn [print]; [apply t_keeps_ret|]. unfold putchar.
  apply t_keeps_bind; [apply t_keeps_bind; [apply t_keeps_write|intros; apply t_keeps_ret]|].
  intros r. destruct (_ =? _); [apply t_keeps_ret|done].
Qed.
#[export] Hint Extern 0 (t_keeps (print _)) => simple apply t_keeps_print : typed.
Lemma t_keeps_printf_loop `{PortIO D} f : ∀ format args written, t_keeps (printf_loop (D := D) f format args written).
Proof.
  induction f as [|f IH]; intros format args written; destruct format as [|c rest]; cbn [printf_loop]; [t_keeps..|].
  cbv zeta.
  repeat first [progress t_keeps|apply IH|destruct args as [|[?|?] args]].
Qed.
Lemma t_keeps_printf `{PortIO D} format args : t_keeps (printf (D := D) format args).
Proof. apply t_keeps_printf_loop. Qed.
#[export] Hint Extern 0 (t_keeps (printf _ _)) => simple apply t_keeps_printf : typed.
Lemma t_keeps_framebuffer `{PortIO D} : t_keeps (setup_framebuffer (D := D)).
Proof. unfold setup_framebuffer. apply t_keeps_for. intros i. apply t_keeps_modify. by intros t []. Qed.
#[export] Hint Extern 0 (t_keeps setup_framebuffer) => simple apply t_keeps_framebuffer : typed.
#[export] Hint Extern 2 (keeps (tty _)) => apply keeps_tty; t_keeps : typed.
#[export] Hint Extern 1 (keeps (modify _)) =>
  apply keeps_modify; intros ? []; constructor; cbn; first [assumption | apply u32_range | exact I | by vm_compute] : typed.

Ltac keeps :=
  repeat lazymatch goal with
  | |- keeps (bind _ _) => apply keeps_bind; [|intros ?]
  | |- keeps (for_n _ _ _) => apply keeps_for; intros ? ?
  | |- keeps (match ?b with true => _ | false => _ end) => destruct b
  | |- keeps newline => unfold newline
  | |- keeps (write _) => unfold write
  | |- keeps (color _ _) => unfold color
  | |- keeps (row _) => unfold row
  | |- keeps (column _) => unfold column
  | |- keeps clear => unfold clear
  | |- keeps (printk _) => unfold printk
  | |- keeps _ => solve [auto with typed nocore]
  end.

Lemma keeps_addevent `{PortIO D} e : sref_typed e → keeps (addevent (D := D) e).
Proof.
  intros He k Hk. unfold addevent, gets, bind. destruct (Z.ltb_spec (Z.of_nat (length (eventlog k))) MAX_EVENTS); [|done].
  split; [done|]. destruct Hk as [? [? ?]]. constructor; try done. cbn. split; [rewrite length_app; cbn; lia|].
  apply Forall_app. by repeat constructor.
Qed.
Lemma keeps_task `{PortIO D} name state : 0 ≤ state ≤ 2 → keeps (task (D := D) name state).
Proof.
  intros Hs. unfold task. apply keeps_bind; [keeps|intros _]. apply keeps_bind; [apply keeps_addevent; cbn; lia|intros _].
  apply keeps_bind; [by apply keeps_addevent|intros _]. keeps.
Qed.
#[export] Hint Extern 1 (keeps (task _ _)) => apply keeps_task; lia : typed.

Lemma keeps_beep `{PortIO D} shr80 f : keeps (beep (D := D) shr80 f).
Proof. unfold beep, stop_beep. keeps. by intros k Hk. Qed.
#[export] Hint Extern 0 (keeps (beep _ _)) => simple apply keeps_beep : typed.
Lemma keeps_reboot `{PortIO D} : keeps (reboot (D := D)).
Proof. unfold reboot. keeps. by intros k Hk. Qed.
#[export] Hint Extern 0 (keeps reboot) => simple apply keeps_reboot : typed.
Lemma keeps_panic `{PortIO D} shr80 msg : keeps (panic (D := D) shr80 msg).
Proof. unfold panic. keeps. Qed.
#[export] Hint Extern 0 (keeps (panic _ _)) => simple apply keeps_panic : typed.
Lemma keeps_shutdown `{PortIO D} shr80 : keeps (shutdown (D := D) shr80).
Proof. unfold shutdown. keeps. Qed.
#[export] Hint Extern 0 (keeps (shutdown _)) => simple apply keeps_shutdown : typed.
Lemma keeps_mainfat `{PortIO D} : keeps (mainfat (D := D)).
Proof. unfold mainfat. keeps. Qed.
#[export] Hint Extern 0 (keeps mainfat) => simple apply keeps_mainfat : typed.

(** The keyboard gives characters. *)
Lemma layout_byte i : byte_ok (at_ keyboard_layout i).
Proof.
  assert (bytes_ok keyboard_layout) as Hl by (unfold bytes_ok, byte_ok; apply (bool_decide_eq_true_1 _); vm_compute; reflexivity).
  rewrite <-at_byte by done. apply u8_range.
Qed.
Lemma typed_read `{PortIO D} f : typed byte_ok (read_keyboard (D := D) f).
Proof.
  unfold read_keyboard. apply (typed_bind (λ _, True)); [apply keeps_port|intros _ _].
  apply (typed_bind byte_ok); [apply typed_port, yields_inb|intros data _].
  repeat case_if; apply typed_ret; try apply layout_byte; by unfold byte_ok.
Qed.
Lemma keeps_read `{PortIO D} f : keeps (read_keyboard (D := D) f).
Proof. by apply (typed_mono byte_ok), typed_read. Qed.
#[export] Hint Extern 0 (keeps (read_keyboard _)) => simple apply keeps_read : typed.

(** The input buffer. *)
Lemma upd_bytes l i v : bytes_ok l → byte_ok v → bytes_ok (upd l i v).
Proof. intros Hl Hv. by apply Forall_insert. Qed.
Lemma keeps_set_input `{PortIO D} i v : byte_ok v → keeps (set_input (D := D) i v).
Proof.
  intros Hv. unfold set_input. case_if; [|by intros k Hk]. apply keeps_modify. intros k [].
  destruct typed_input0 as [Hl Hb]. constructor; try done. cbn. split; [by rewrite length_upd|by apply upd_bytes].
Qed.
Lemma keeps_set_index `{PortIO D} i : keeps (set_index (D := D) i).
Proof. apply keeps_modify. intros k []. constructor; try done. apply u32_range. Qed.
#[export] Hint Extern 0 (keeps (set_index _)) => simple apply keeps_set_index : typed.
Lemma keeps_writestring `{PortIO D} r : keeps (writestring (D := D) r).
Proof. unfold writestring. keeps. Qed.
#[export] Hint Extern 0 (keeps (writestring _)) => simple apply keeps_writestring : typed.
Lemma keeps_username `{PortIO D} : keeps (write_username (D := D)).
Proof. unfold write_username. keeps. Qed.
#[export] Hint Extern 0 (keeps write_username) => simple apply keeps_username : typed.
Lemma keeps_lift `{PortIO D} {A} (o : option A) : keeps (D := D) (lift o).
Proof. destruct o; [apply keeps_ret|by intros k Hk]. Qed.
#[export] Hint Extern 0 (keeps (lift _)) => simple apply keeps_lift : typed.
Lemma keeps_input_is `{PortIO D} s : keeps (input_is (D := D) s).
Proof. unfold input_is. keeps. Qed.
#[export] Hint Extern 0 (keeps (input_is _)) => simple apply keeps_input_is : typed.

(** The screens. *)
Lemma keeps_input_starts `{PortIO D} n s : keeps (input_starts (D := D) n s).
Proof. unfold input_starts. keeps. Qed.
#[export] Hint Extern 0 (keeps (input_starts _ _)) => simple apply keeps_input_starts : typed.
Lemma keeps_prompt `{PortIO D} : keeps (prompt (D := D)).
Proof. unfold prompt. keeps. Qed.
#[export] Hint Extern 0 (keeps prompt) => simple apply keeps_prompt : typed.
Lemma keeps_nyan `{PortIO D} : keeps (nyan (D := D)).
Proof. unfold nyan. keeps. Qed.
#[export] Hint Extern 0 (keeps nyan) => simple apply keeps_nyan : typed.
Lemma keeps_m `{PortIO D} : keeps (m (D := D)).
Proof. unfold m. keeps. Qed.
#[export] Hint Extern 0 (keeps m) => simple apply keeps_m : typed.
Lemma keeps_question `{PortIO D} s : keeps (question (D := D) s).
Proof. unfold question. keeps. Qed.
#[export] Hint Extern 0 (keeps (question _)) => simple apply keeps_question : typed.
Lemma keeps_fixflash `{PortIO D} f : keeps (fixflash (D := D) f).
Proof. unfold fixflash. keeps. Qed.
#[export] Hint Extern 0 (keeps (fixflash _)) => simple apply keeps_fixflash : typed.
Lemma keeps_displayscreen `{PortIO D} f : keeps (displayscreen (D := D) f).
Proof. unfold displayscreen. keeps. Qed.
#[export] Hint Extern 0 (keeps (displayscreen _)) => simple apply keeps_displayscreen : typed.
Lemma keeps_setup `{PortIO D} f : keeps (setup (D := D) f).
Proof. unfold setup. keeps. Qed.
#[export] Hint Extern 0 (keeps (setup _)) => simple apply keeps_setup : typed.
Lemma keeps_vga `{PortIO D} : keeps (set_vga_mode (D := D)).
Proof. unfold set_vga_mode. keeps. Qed.
#[export] Hint Extern 0 (keeps set_vga_mode) => simple apply keeps_vga : typed.
Lemma keeps_cell `{PortIO D} f y x : keeps (color_cell (D := D) f y x).
Proof. unfold color_cell. keeps. Qed.
#[export] Hint Extern 0 (keeps (color_cell _ _ _)) => simple apply keeps_cell : typed.
Lemma keeps_color_test `{PortIO D} n f : ∀ y, keeps (color_test (D := D) n f y).
Proof. induction n as [|n IH]; intros y; cbn [color_test]; [by intros k Hk|]. keeps. Qed.
#[export] Hint Extern 0 (keeps (color_test _ _ _)) => simple apply keeps_color_test : typed.

(** The commands. *)
Lemma strtok_typed str delim b last tok b' last' :
  length b = 256%nat → bytes_ok b → strtok str delim b last = Some (tok, b', last') →
  length b' = 256%nat ∧ bytes_ok b' ∧ last_typed last' ∧ match tok with Some p => (p < 256)%nat | None => True end.
Proof.
  intros Hl Hb. unfold strtok. destruct (match str with None => _ | _ => _ end) as [p|]; [|done].
  destruct (skip_delims _ _ _) as [t|]; [|done]. destruct (Z.eqb_spec (default 0 (b !! t)) 0) as [|Hne]; [naive_solver|].
  assert (∀ i, default 0 (b !! i) ≠ 0 → (i < 256)%nat) as Hin.
  { intros i Hi. rewrite <-Hl. apply lookup_lt_is_Some. destruct (b !! i); [by eexists|done]. }
  pose proof (Hin _ Hne). destruct (skip_token _ _ _) as [e|]; [|done].
  destruct (Z.eqb_spec (default 0 (b !! e)) 0) as [|He]; intros [= <- <- <-]; [done|].
  split; [by rewrite length_insert|]. split; [by apply Forall_insert|]. split; [by apply Hin|done].
Qed.
Lemma typed_strtok `{PortIO D} off : typed (D := D) sref_typed (strtok_input off).
Proof.
  intros k Hk. unfold strtok_input, gets, bind, modify, lift.
  destruct (strtok _ _ _ _) as [[[tok b] last]|] eqn:E; [|done]. destruct Hk. destruct typed_input0 as [Hl Hb].
  destruct (strtok_typed _ _ _ _ _ _ _ Hl Hb E) as (Hl' & Hb' & Hlast & Ht). split; [by destruct tok|]. by constructor.
Qed.
Lemma keeps_strtok `{PortIO D} off : keeps (D := D) (strtok_input off).
Proof. apply (typed_mono sref_typed); [done|apply typed_strtok]. Qed.
#[export] Hint Extern 0 (keeps (strtok_input _)) => simple apply keeps_strtok : typed.

Lemma keeps_list `{PortIO D} l : keeps (D := D)
  ((fix list (l : list string) : M (kst D) unit :=
      match l with
      | [] => ret tt
      | s :: l' => let! _ := tty (printf (str "%s ") [ArgStr (str s)]) in list l'
      end) l).
Proof. induction l as [|s l IH]; [apply keeps_ret|]. apply keeps_bind; [keeps|intros _; exact IH]. Qed.
Lemma keeps_ls `{PortIO D} shr80 : keeps (D := D) (do_ls shr80).
Proof. unfold do_ls. keeps. apply keeps_list. Qed.
#[export] Hint Extern 0 (keeps (do_ls _)) => simple apply keeps_ls : typed.
Lemma keeps_events `{PortIO D} l : keeps (D := D) (print_events l).
Proof. induction l as [|e l IH]; cbn [print_events]; keeps. Qed.
#[export] Hint Extern 0 (keeps (print_events _)) => simple apply keeps_events : typed.
Lemma keeps_fatinit `{PortIO D} : keeps (do_fatinit (D := D)).
Proof. unfold do_fatinit. keeps. Qed.
#[export] Hint Extern 0 (keeps do_fatinit) => simple apply keeps_fatinit : typed.
Lemma keeps_un `{PortIO D} : keeps (do_un (D := D)).
Proof.
  unfold do_un. apply (keeps_from sref_typed); [apply typed_strtok|intros s Hs].
  apply keeps_bind; [|intros _; keeps]. apply keeps_modify. intros k []. by constructor.
Qed.
#[export] Hint Extern 0 (keeps do_un) => simple apply keeps_un : typed.
Lemma keeps_command `{PortIO D} shr80 n f : keeps (D := D) (run_command shr80 n f).
Proof. unfold run_command, do_le, do_echo, do_ppm, do_help, do_unknown. keeps. Qed.
#[export] Hint Extern 0 (keeps (run_command _ _ _)) => simple apply keeps_command : typed.

(** The handler. *)
Lemma keeps_backspace `{PortIO D} : keeps (backspace (D := D)).
Proof. unfold backspace. keeps. Qed.
#[export] Hint Extern 0 (keeps backspace) => simple apply keeps_backspace : typed.
Lemma keeps_pick `{PortIO D} : keeps (pick_color (D := D)).
Proof. unfold pick_color. keeps. Qed.
#[export] Hint Extern 0 (keeps pick_color) => simple apply keeps_pick : typed.
Lemma keeps_type `{PortIO D} c : byte_ok c → keeps (type_char (D := D) c).
Proof. intros Hc. unfold type_char. keeps. by apply keeps_set_input. Qed.
Lemma keeps_handler `{PortIO D} shr80 n f : keeps (D := D) (handle_keyboard_input shr80 n f).
Proof.
  unfold handle_keyboard_input. apply (keeps_from byte_ok); [apply typed_read|intros c Hc].
  case_if; [keeps|]. apply keeps_bind; [keeps|intros i].
  apply keeps_bind; [by apply keeps_set_input|intros _]. case_if; [keeps|]. apply keeps_bind; [keeps|intros _].
  assert (byte_ok (if c =? 85 then 0 else c)) as Hc' by (by case_if).
  revert Hc'. generalize (if c =? 85 then 0 else c). cbv zeta. intros c' Hc'. case_if; [unfold enter; keeps|by apply keeps_type].
Qed.
#[export] Hint Extern 0 (keeps (handle_keyboard_input _ _ _)) => simple apply keeps_handler : typed.
Lemma keeps_loop `{PortIO D} shr80 r n f : keeps (D := D) (shell_loop shr80 r n f).
Proof. induction r as [|r IH]; cbn [shell_loop]; [by intros k Hk|]. keeps. Qed.
#[export] Hint Extern 0 (keeps (shell_loop _ _ _ _)) => simple apply keeps_loop : typed.
Lemma keeps_shell `{PortIO D} shr80 r n f : keeps (D := D) (shell shr80 r n f).
Proof. unfold shell. keeps. Qed.
#[export] Hint Extern 0 (keeps (shell _ _ _ _)) => simple apply keeps_shell : typed.

(** Paging: entries and control registers are 32 bits wide. *)
Lemma lor_u32 a b : u32_ok a → u32_ok b → u32_ok (Z.lor a b).
Proof.
  intros Ha Hb. assert (Z.lor a b = u32 (Z.lor a b)) as ->; [|apply u32_range].
  unfold u32. change 4294967296 with (2 ^ 32) in *. rewrite <-Z.land_ones, Z.land_lor_distr_l, !Z.land_ones by lia.
  by rewrite !Z.mod_small.
Qed.
Lemma keeps_directory `{PortIO D} i v : u32_ok v → keeps (set_directory (D := D) i v).
Proof.
  intros Hv. apply keeps_modify. intros k []. destruct typed_directory0. constructor; try done. cbn.
  split; [by rewrite length_upd|by apply Forall_insert].
Qed.
Lemma keeps_table `{PortIO D} i v : u32_ok v → keeps (set_table (D := D) i v).
Proof.
  intros Hv. apply keeps_modify. intros k []. destruct typed_table0. constructor; try done. cbn.
  split; [by rewrite length_upd|by apply Forall_insert].
Qed.
Lemma keeps_paging `{PortIO D} dir table : u32_ok dir → u32_ok table → keeps (setup_paging (D := D) dir table).
Proof.
  intros Hd Ht. assert (keeps (D := D) (set_directory 0 (Z.lor table 3))) by (apply keeps_directory, lor_u32; [done|lia]).
  assert (∀ i, 0 ≤ i < 0 + Z.of_nat 1024 → keeps (D := D) (init_tables i)) as Hi.
  { intros i Hi. unfold init_tables. apply keeps_bind; [apply keeps_directory; lia|intros _].
    apply keeps_bind; [apply keeps_table, lor_u32; unfold PAGE_SIZE; lia|intros _]. keeps. }
  assert (∀ i, 0 ≤ i < 0 + Z.of_nat (Z.to_nat (FRAMEBUFFER_SIZE / PAGE_SIZE)) → keeps (D := D) (map_framebuffer i)) as Hm.
  { intros i Hf. change (Z.of_nat (Z.to_nat (FRAMEBUFFER_SIZE / PAGE_SIZE))) with 3 in Hf. unfold map_framebuffer.
    apply keeps_bind; [keeps|intros _]. apply keeps_table, lor_u32; unfold FRAMEBUFFER_ADDRESS, PAGE_SIZE; lia. }
  assert (keeps (D := D) (load_page_directory dir)).
  { apply keeps_modify. intros k []. destruct typed_cr0. by constructor. }
  assert (keeps (D := D) enable_paging).
  { apply (keeps_from (λ v, u32_ok v)); [apply typed_gets; by intros k [? ? ? ? ? ? ? ? ? [] ?]|intros v Hv].
    apply keeps_modify. intros k []. destruct typed_cr0. constructor; try done. cbn. split; [done|]. apply lor_u32; [done|lia]. }
  unfold setup_paging.
  repeat lazymatch goal with
  | |- keeps (bind _ _) =>
      apply keeps_bind; [first [assumption|exact (keeps_for _ _ _ Hi)|exact (keeps_for _ _ _ Hm)|solve [keeps]]|intros _]
  end. keeps.
Qed.

(** The clock. *)
Lemma yields_registers `{PortIO D} w : yields (D := D) rtc_typed (read_registers w).
Proof.
  assert (∀ r, yields (D := D) byte_ok (get_RTC_register r)) as Hr.
  { intros r. apply (yields_bind (λ _, True)); [apply yields_any|intros _ _; apply yields_inb]. }
  unfold read_registers. apply (yields_bind (λ _, True)); [apply yields_any|intros _ _].
  do 6 (apply (yields_bind byte_ok); [apply Hr|intros ? ?]). intros d. constructor; cbn; unfold byte_ok in *; lia.
Qed.
Lemma yields_stable `{PortIO D} f w : ∀ c, yields (D := D) rtc_typed (read_stable f w c).
Proof.
  induction f as [|f IH]; intros c; cbn [read_stable]; [by intros d|].
  apply (yields_bind rtc_typed); [apply yields_registers|intros c' Hc']. case_bool_decide; [by intros d|apply IH].
Qed.
Lemma convert_typed b c : rtc_typed c → rtc_typed (convert b c).
Proof.
  intros []. unfold convert. cbv zeta. set (c' := if Z.land b 0x04 =? 0 then _ else c).
  assert (rtc_typed c') as [] by (unfold c'; case_if; constructor; cbn; first [apply u8_range|apply u32_range|assumption]).
  constructor; cbn; repeat case_if; first [assumption|apply u8_range|apply u32_range].
Qed.
Lemma keeps_rtc `{PortIO D} f w : keeps (D := D) (read_rtc f w).
Proof.
  assert (∀ c, rtc_typed c → keeps (D := D) (modify (put_clock c))) as Hc.
  { intros c Hc. apply keeps_modify. intros k []. by constructor. }
  unfold read_rtc. apply keeps_bind; [keeps|intros _].
  apply (keeps_from rtc_typed); [apply typed_port, yields_registers|intros c1 H1].
  apply keeps_bind; [by apply Hc|intros _].
  apply (keeps_from rtc_typed); [apply typed_port, yields_stable|intros c2 H2].
  apply keeps_bind; [by apply Hc|intros _]. apply keeps_bind; [keeps|intros b].
  apply keeps_bind; [by apply Hc, convert_typed|intros _]. keeps.
Qed.
#[export] Hint Extern 0 (keeps (read_rtc _ _)) => simple apply keeps_rtc : typed.

Lemma keeps_main `{PortIO D} shr80 dir table r n f w : u32_ok dir → u32_ok table →
  keeps (D := D) (kernel_main shr80 dir table r n f w).
Proof.
  intros Hd Ht. unfold kernel_main, greeting, continue_boot.
  repeat first [apply (keeps_paging dir table Hd Ht) | progress keeps].
Qed.

Lemma power_on_typed {D} mem (d : D) : k_typed (power_on mem d).
Proof.
  assert (∀ n, Forall (λ x, u32_ok x) (replicate n 0)) as Hz by (intros n; apply Forall_replicate; lia).
  constructor; cbn [k_con eventlog input_buffer input_buffer_index username paniccolor clock page_directory page_table
    cr3 cr0 power_on initial].
  - constructor; cbn; unfold byte_ok; lia.
  - split; [vm_compute; discriminate|by repeat constructor].
  - split; [apply length_replicate|]. apply Forall_replicate. unfold byte_ok. lia.
  - lia.
  - exact I.
  - lia.
  - constructor; cbn; unfold byte_ok; lia.
  - split; [apply length_replicate|apply Hz].
  - split; [apply length_replicate|apply Hz].
  - lia.
  - exact I.
Qed.

Lemma keeps_final `{PortIO D} {A} (m : M (kst D) A) k : keeps m → k_typed k → k_typed (final (m k)).
Proof. intros Hm Hk. specialize (Hm k Hk). destruct (m k); [by destruct Hm|done]. Qed.

(** * Theorems *)


Lemma demo_typed_typed s keys : (length (str s) ≤ 255)%nat → k_typed (demo_typed s keys).
Proof.
  intros Hs. destruct (power_on_typed ∅ (Pc (Crt 0 ∅) keys 0 ∅)) as [_ A2 A3 A4 A5 A6 A7 A8 A9 A10 A11].
  constructor; [|exact A2| | |exact A5|exact A6|exact A7|exact A8|exact A9|exact A10|exact A11].
  - constructor; cbn; unfold byte_ok, VGA_MEMORY; lia.
  - cbn [input_buffer demo_typed put_input]. split; [apply length_resize|]. apply Forall_resize; [by unfold byte_ok|apply str_bytes_ok].
  - cbn [input_buffer_index demo_typed put_input]. lia.
Qed.

