(* ===== verification/TtyFat.v ===== *)
(** The second FAT32 driver of the kernel: [mount_drive] to [read_file] of
    src/kernel/arch/i386/tty.c.

    [mounted_drives] is a global array; the model keeps it where the code does,
    in memory, because [read_boot_sector] reads a 512-byte sector into a 90-byte
    structure inside it. A drive is the address of its structure and a field is
    an offset from it. The local arrays are at addresses of the caller's stack
    frame, parameters of the model; a write past the end of one lands in the
    memory behind it.

    [PortDisk] states what the driver relies on of a drive whose registers are
    at [DISK_PORT]; the driver never waits for the drive before a command, and
    [PromptDisk] is the drive on which that is enough. *)
From S2P Require Import Prelude Machine CString LibC FatTypes AtaPio AtaSim Terminal.

(** * Data *)

Definition MAX_FILES : Z := 128.
Definition MAX_FILENAME_LENGTH : Z := 32.
Definition BLOCK_SIZE : Z := 512.
Definition MAX_MOUNTED_DRIVES : Z := 4.
Definition FAT_ENTRY_SIZE : Z := 4.
Definition DISK_PORT : Z := 0x0.

(** [FileEntry]: the size and the members behind the name. *)
Definition FileEntry_size : Z := 40.
Definition entry_size_at (file : Z) : Z := file + MAX_FILENAME_LENGTH.
Definition start_cluster_at (file : Z) : Z := file + 36.

(** [Directory], from its address. *)
Definition file_count_at (dir : Z) : Z := dir.
Definition files_at (dir i : Z) : Z := dir + 4 + FileEntry_size * i.

(** [FAT32BootSector] (packed), the members the code uses. *)
Definition sectors_per_cluster_at (bs : Z) : Z := bs + 13.
Definition reserved_sectors_at (bs : Z) : Z := bs + 14.
Definition num_fats_at (bs : Z) : Z := bs + 16.
Definition total_sectors_32_at (bs : Z) : Z := bs + 32.
Definition fat_size_32_at (bs : Z) : Z := bs + 36.
Definition root_cluster_at (bs : Z) : Z := bs + 44.

(** [MountedDrive]: the packed boot sector follows the [bool], the words are aligned. *)
Definition MountedDrive_size : Z := 5224.
Definition is_mounted_at (drive : Z) : Z := drive.
Definition boot_sector_at (drive : Z) : Z := drive + 1.
Definition fat_start_at (drive : Z) : Z := drive + 92.
Definition data_start_at (drive : Z) : Z := drive + 96.
Definition root_directory_at (drive : Z) : Z := drive + 100.

(** * Operations *)

Section TtyFat.
Context {D : Type} `{PortIO D}.
Abbreviation T := (con D).

(** Where the linker and the stack put [mounted_drives] and the local arrays. *)
Variables mounted_drives fat_table buffer new_file test entry : Z.
Variable fuel : nat.

Definition drive_at (n : Z) : Z := mounted_drives + MountedDrive_size * n.

Definition ld8 (a : Z) : M T Z := gets (λ t, load8 (c_mem t) (u32 a)).
Definition ld16 (a : Z) : M T Z := gets (λ t, load16 (c_mem t) (u32 a)).
Definition ld32 (a : Z) : M T Z := gets (λ t, load32 (c_mem t) (u32 a)).
Definition st8 (a v : Z) : M T unit := modify (λ t, set_mem (store8 (c_mem t) (u32 a) v) t).
Definition st32 (a v : Z) : M T unit := modify (λ t, set_mem (store32 (c_mem t) (u32 a) v) t).
Definition st_bytes (a : Z) (bs : list Z) : M T unit :=
  modify (λ t, set_mem (store_bytes (c_mem t) (u32 a) bs) t).

(** ** Blocks *)

Definition issue (block_num command : Z) : M T unit :=
  on_port
    (outb (DISK_PORT + 6) 0xE0 ;;
     outb (DISK_PORT + 1) 0 ;;
     outb (DISK_PORT + 2) 1 ;;
     outb (DISK_PORT + 3) (Z.land block_num 0xFF) ;;
     outb (DISK_PORT + 4) (Z.land (block_num ≫ 8) 0xFF) ;;
     outb (DISK_PORT + 5) (Z.land (block_num ≫ 16) 0xFF) ;;
     outb (DISK_PORT + 7) command).

(** [while (!(inb(DISK_PORT + 7) & 0x08));] *)
Fixpoint wait_data (f : nat) : M T unit :=
  match f with
  | O => raise OutOfFuel
  | S f' =>
      let! s := on_port (inb (DISK_PORT + 7)) in
      if Z.land s 0x08 =? 0 then wait_data f' else ret tt
  end.

(** One round of the loop over the words of the buffer, reading. *)
Definition get_word (buf i : Z) : M T unit :=
  let! v := on_port (inw DISK_PORT) in
  modify (λ t, set_mem (store16 (c_mem t) (u32 (buf + 2 * i)) v) t).

Definition read_block (block_num buf : Z) : M T unit :=
  issue block_num 0x20 ;;
  wait_data fuel ;;
  for_n (Z.to_nat (BLOCK_SIZE / 2)) 0 (get_word buf).

(** One round of the loop over the words of the buffer, writing. *)
Definition put_word (buf i : Z) : M T unit :=
  let! v := ld16 (buf + 2 * i) in on_port (outw DISK_PORT v).

Definition write_block (block_num buf : Z) : M T unit :=
  issue block_num 0x30 ;;
  wait_data fuel ;;
  for_n (Z.to_nat (BLOCK_SIZE / 2)) 0 (put_word buf).

(** ** Mounting *)

Definition read_boot_sector (drive_number : Z) : M T unit :=
  read_block 0 (boot_sector_at (drive_at drive_number)).

Definition initialize_fat32 (drive_number : Z) : M T unit :=
  let drive := drive_at drive_number in
  let bs := boot_sector_at drive in
  let! reserved := ld16 (reserved_sectors_at bs) in
  st32 (fat_start_at drive) reserved ;;
  let! reserved := ld16 (reserved_sectors_at bs) in
  let! n := ld8 (num_fats_at bs) in
  let! size := ld32 (fat_size_32_at bs) in
  st32 (data_start_at drive) (u32 (reserved + n * size)).

Definition mount_drive (drive_number : Z) : M T bool :=
  if MAX_MOUNTED_DRIVES <=? drive_number then ret false
  else
    let drive := drive_at drive_number in
    let! mounted := ld8 (is_mounted_at drive) in
    if negb (mounted =? 0) then ret false
    else
      read_boot_sector drive_number ;;
      initialize_fat32 drive_number ;;
      st8 (is_mounted_at drive) 1 ;;
      terminal_newline ;;
      terminal_writestring (str "[  OK  ] Drive mounted successfully.") ;;
      ret true.

(** ** Clusters *)

Definition get_cluster_address (cluster_number drive : Z) : M T Z :=
  let! start := ld32 (data_start_at drive) in
  let! spc := ld8 (sectors_per_cluster_at (boot_sector_at drive)) in
  ret (u32 (start + (cluster_number - 2) * spc)).

(** [for (i = 0; i < drive->boot_sector.sectors_per_cluster; i++)]: the bound is
    read in each round; it is a byte, so that 256 tests always suffice. *)
Fixpoint sector_loop (n : nat) (i drive : Z) (body : Z → M T unit) : M T unit :=
  match n with
  | O => raise OutOfFuel
  | S n' =>
      let! spc := ld8 (sectors_per_cluster_at (boot_sector_at drive)) in
      if i <? spc then body i ;; sector_loop n' (i + 1) drive body else ret tt
  end.

Definition read_cluster (cluster_number buf drive : Z) : M T unit :=
  let! cluster_address := get_cluster_address cluster_number drive in
  sector_loop 256 0 drive (λ i, read_block (u32 (cluster_address + i)) (buf + i * BLOCK_SIZE)).

Definition write_cluster (cluster_number buf drive : Z) : M T unit :=
  let! cluster_address := get_cluster_address cluster_number drive in
  sector_loop 256 0 drive (λ i, write_block (u32 (cluster_address + i)) (buf + i * BLOCK_SIZE)).

(** [test.name[1] = 'test']: a character constant of four characters, of which
    the last fits in a [char]; the rest of [test] is what the stack holds. *)
Definition read_root_directory (drive_number : Z) : M T unit :=
  let drive := drive_at drive_number in
  let dir := root_directory_at drive in
  let! cluster := ld32 (root_cluster_at (boot_sector_at drive)) in
  st8 (test + 1) 116 ;;
  let! count := ld32 (file_count_at dir) in
  st32 (file_count_at dir) (count + 1) ;;
  let! e := gets (λ t, load_bytes (c_mem t) (u32 test) (Z.to_nat FileEntry_size)) in
  st_bytes (files_at dir count) e ;;
  for_n (Z.to_nat MAX_FILES) 0 (λ _, read_cluster cluster entry drive).

(** ** The file allocation table *)

Fixpoint fat_loop (f : nat) (i fat_start drive : Z) : M T unit :=
  match f with
  | O => raise OutOfFuel
  | S f' =>
      let! size := ld32 (fat_size_32_at (boot_sector_at drive)) in
      let! n := ld8 (num_fats_at (boot_sector_at drive)) in
      if i <? u32 (size * n) then
        read_block (u32 (fat_start + i)) (fat_table + 4 * (u32 (i * BLOCK_SIZE) / FAT_ENTRY_SIZE)) ;;
        fat_loop f' (i + 1) fat_start drive
      else ret tt
  end.

Definition read_fat_table (drive : Z) : M T unit :=
  let! fat_start := ld32 (fat_start_at drive) in
  fat_loop fuel 0 fat_start drive.

Definition is_cluster_free (cluster_number : Z) : M T bool :=
  let! e := ld32 (fat_table + 4 * cluster_number) in ret (e =? 0).

Fixpoint free_loop (n : nat) (i : Z) : M T Z :=
  match n with
  | O => ret 0
  | S n' =>
      let! free := is_cluster_free i in
      if free then ret i else free_loop n' (i + 1)
  end.

(** The loop changes nothing its bound depends on. *)
Definition find_free_cluster (drive : Z) : M T Z :=
  read_fat_table drive ;;
  let! total := ld32 (total_sectors_32_at (boot_sector_at drive)) in
  let! spc := ld8 (sectors_per_cluster_at (boot_sector_at drive)) in
  if spc =? 0 then raise DivideError
  else free_loop (Z.to_nat (total / spc - 2)) 2.

Definition update_fat_entry (cluster_number value drive : Z) : M T unit :=
  read_fat_table drive ;;
  st32 (fat_table + 4 * cluster_number) value ;;
  let! fat_start := ld32 (fat_start_at drive) in
  write_block (u32 (fat_start + u32 (cluster_number * FAT_ENTRY_SIZE) / BLOCK_SIZE)) fat_table.

(** ** Files *)

(** [strncpy(dst, src, n)] into memory; it writes at most [n + 1] bytes. *)
Definition strncpy_to (dst : Z) (src : list Z) (n : Z) : M T unit :=
  let! old := gets (λ t, load_bytes (c_mem t) (u32 dst) (S (Z.to_nat n))) in
  match strncpy (Z.to_nat n) old src with
  | Some bs => st_bytes dst bs
  | None => raise OutOfBounds
  end.

Definition add_file (drive : Z) (filename content : list Z) : M T unit :=
  strncpy_to new_file filename MAX_FILENAME_LENGTH ;;
  match strlen content with
  | None => raise OutOfBounds
  | Some len =>
      st32 (entry_size_at new_file) len ;;
      let! cluster := find_free_cluster drive in
      st32 (start_cluster_at new_file) cluster ;;
      st_bytes buffer (replicate (Z.to_nat BLOCK_SIZE) 0) ;;
      strncpy_to buffer content BLOCK_SIZE ;;
      let! c := ld32 (start_cluster_at new_file) in
      write_cluster c buffer drive ;;
      let! c := ld32 (start_cluster_at new_file) in
      update_fat_entry c 0xFFFFFFFF drive ;;
      let! count := ld32 (file_count_at (root_directory_at drive)) in
      st32 (file_count_at (root_directory_at drive)) (count + 1) ;;
      let! e := gets (λ t, load_bytes (c_mem t) (u32 new_file) (Z.to_nat FileEntry_size)) in
      st_bytes (files_at (root_directory_at drive) count) e
  end.

Fixpoint write_loop (n : nat) (i drive : Z) (filename content : list Z) : M T unit :=
  match n with
  | O => ret tt
  | S n' =>
      let! size := ld32 (entry_size_at (files_at (root_directory_at drive) i)) in
      if size =? 0 then add_file drive filename content
      else write_loop n' (i + 1) drive filename content
  end.

Definition write_file (drive_number : Z) (filename content : list Z) : M T unit :=
  write_loop (Z.to_nat MAX_FILES) 0 (drive_at drive_number) filename content.

(** [terminal_writestring(buffer)]: the string goes on to the next zero byte. *)
Fixpoint mem_cstr (f : nat) (m : memory) (a : Z) : option (list Z) :=
  match f with
  | O => None
  | S f' => if load8 m (u32 a) =? 0 then Some [] else cons (load8 m (u32 a)) <$> mem_cstr f' m (a + 1)
  end.

Definition show_file (drive file : Z) : M T unit :=
  st_bytes buffer (replicate (Z.to_nat BLOCK_SIZE) 0) ;;
  let! c := ld32 (start_cluster_at file) in
  read_cluster c buffer drive ;;
  let! s := gets (λ t, mem_cstr fuel (c_mem t) buffer) in
  match s with Some s => terminal_writestring s | None => raise OutOfFuel end.

(** [n] rounds left of [i < file_count]; [strcmp] ends within the length of
    [filename], which includes its terminator. *)
Fixpoint lookup_loop (n : nat) (i drive : Z) (filename : list Z) : M T unit :=
  match n with
  | O => ret tt
  | S n' =>
      let file := files_at (root_directory_at drive) i in
      let! name := gets (λ t, load_bytes (c_mem t) (u32 file) (length filename)) in
      match strcmp name filename with
      | None => raise OutOfBounds
      | Some r => if r =? 0 then show_file drive file else lookup_loop n' (i + 1) drive filename
      end
  end.

Definition read_file (drive_number : Z) (filename : list Z) : M T unit :=
  let drive := drive_at drive_number in
  let! count := ld32 (file_count_at (root_directory_at drive)) in
  lookup_loop (Z.to_nat count) 0 drive filename.
End TtyFat.

(** * What the driver relies on of the drive *)

(** The task file in the order the driver writes it, for one sector. *)
Definition pd_issue `{PortIO D} (n command : Z) (d : D) : D :=
  port_outb 7 command
  (port_outb 5 ((n / 2 ^ 16) mod 256)
  (port_outb 4 ((n / 2 ^ 8) mod 256)
  (port_outb 3 (n mod 256)
  (port_outb 2 1 (port_outb 1 0 (port_outb 6 0xE0 d)))))).

(** READ SECTORS and WRITE SECTORS on a drive whose registers are at [DISK_PORT]
    to [DISK_PORT + 7]. A drive takes a command when it is idle: not busy and in
    no data phase. It is busy for fewer than [pd_max] status reads; then DRQ
    (bit 3) shows the data phase. It is idle after the last word of a read; after
    the last word of a write it may be busy. *)
Class PortDisk (D : Type) `{PortIO D} := {
  pd_sector : D → Z → list Z;
  pd_xfer : D → xfer;
  pd_busy : D → nat;
  pd_max : nat;
  pd_busy_max : ∀ d, (pd_busy d < pd_max)%nat;
  pd_sector_ok : ∀ d x,
    length (pd_sector d x) = 256%nat ∧ Forall (λ v, 0 ≤ v < 65536) (pd_sector d x);
  pd_read_cmd : ∀ d n, 0 ≤ n < 2 ^ 24 → pd_busy d = 0%nat → pd_xfer d = XNone →
    let d' := pd_issue n 0x20 d in
    pd_xfer d' = XIn n 1 0 ∧ ∀ x, pd_sector d' x = pd_sector d x;
  pd_write_cmd : ∀ d n, 0 ≤ n < 2 ^ 24 → pd_busy d = 0%nat → pd_xfer d = XNone →
    let d' := pd_issue n 0x30 d in
    pd_xfer d' = XOut n 1 [] ∧ ∀ x, pd_sector d' x = pd_sector d x;
  pd_status : ∀ d, let '(s, d') := port_inb 7 d in
    pd_xfer d' = pd_xfer d ∧ (∀ x, pd_sector d' x = pd_sector d x) ∧
    pd_busy d' = Nat.pred (pd_busy d) ∧
    (pd_busy d = 0%nat → Z.testbit s 3 = match pd_xfer d with XNone => false | _ => true end) ∧
    (pd_busy d ≠ 0%nat → Z.testbit s 3 = false);
  pd_data_in : ∀ d n k, pd_xfer d = XIn n 1 k → (k < 256)%nat → pd_busy d = 0%nat →
    let '(v, d') := port_inw 0 d in
    pd_sector d n !! k = Some v ∧ pd_xfer d' = next_in n 1 k ∧ pd_busy d' = 0%nat ∧
    ∀ x, pd_sector d' x = pd_sector d x;
  pd_data_out : ∀ d n got v, pd_xfer d = XOut n 1 got → (length got < 256)%nat →
    0 ≤ v < 65536 → pd_busy d = 0%nat →
    let d' := port_outw 0 v d in
    pd_xfer d' = next_out n 1 got v ∧ (length got ≠ 255%nat → pd_busy d' = 0%nat) ∧
    ∀ x, pd_sector d' x =
         if decide (x = n ∧ length got = 255%nat) then got ++ [v] else pd_sector d x;
}.

(** A drive that is done with a write when it has its last word. *)
Class PromptDisk (D : Type) `{PortDisk D} := {
  pd_prompt : ∀ d n got v, pd_xfer d = XOut n 1 got → length got = 255%nat →
    0 ≤ v < 65536 → pd_busy d = 0%nat → pd_busy (port_outw 0 v d) = 0%nat;
}.

(** * Blocks *)

Section Blocks.
Context {D : Type} `{PortDisk D}.
Implicit Types (d : D) (t : con D).

Definition idle d : Prop := pd_busy d = 0%nat ∧ pd_xfer d = XNone.
Definition same_sectors d d' : Prop := ∀ x, pd_sector d' x = pd_sector d x.

#[global] Instance same_sectors_preorder : PreOrder same_sectors.
Proof. split; [by intros d x|]. intros d1 d2 d3 H12 H23 x. by rewrite (H23 x), (H12 x). Qed.

(** The 512 bytes of a block. *)
Definition pd_blk d (n : Z) : list Z := words_bytes (pd_sector d n).

Lemma pd_blk_ok d n : length (pd_blk d n) = 512%nat ∧ bytes_ok (pd_blk d n).
Proof.
  split; [|apply words_bytes_ok]. unfold pd_blk.
  by rewrite length_words_bytes, (proj1 (pd_sector_ok d n)).
Qed.

Lemma on_port_done {A} (m : M D A) t a d' :
  m (c_dev t) = Done a d' → on_port m t = Done a (set_dev d' t).
Proof. intros E. unfold on_port, zoom. by rewrite E. Qed.

Lemma issue_run n c t : 0 ≤ n < 2 ^ 24 → 0 ≤ c < 256 → issue n c t = Done tt (set_dev (pd_issue n c (c_dev t)) t).
Proof.
  intros Hn Hc. apply on_port_done. unfold pd_issue, bind, outb.
  assert (∀ x, Z.land x 0xFF = x mod 256) as Hl by (intros x; by apply (Z.land_ones x 8)).
  rewrite !Hl, !Z.shiftr_div_pow2 by lia.
  assert (∀ x, u8 (x mod 256) = x mod 256) as Hu by (intros x; unfold u8; lia).
  rewrite !Hu, (u8_id c) by done. reflexivity.
Qed.

Lemma wait_data_run f t :
  pd_xfer (c_dev t) ≠ XNone → (pd_busy (c_dev t) < f)%nat →
  ∃ d', wait_data f t = Done tt (set_dev d' t) ∧
    pd_xfer d' = pd_xfer (c_dev t) ∧ same_sectors (c_dev t) d' ∧ pd_busy d' = 0%nat.
Proof.
  revert t; induction f as [|f IH]; intros t Hx Hb; [lia|]. cbn [wait_data].
  pose proof (pd_status (c_dev t)) as HS. destruct (port_inb 7 (c_dev t)) as [s d1] eqn:Es.
  destruct HS as (Hx1 & Hd1 & Hb1 & Hready & Hbusy).
  assert (inb (DISK_PORT + 7) (c_dev t) = Done (u8 s) d1) as E by (unfold inb; change (u16 (DISK_PORT + 7)) with 7; by rewrite Es).
  rewrite (bind_done _ _ _ _ _ (on_port_done _ _ _ _ E)).
  pose proof (status_bit s 3 ltac:(lia)) as H3. change (2 ^ 3) with 8 in H3. rewrite H3.
  destruct (decide (pd_busy (c_dev t) = 0%nat)) as [Hz|Hz].
  - rewrite (Hready Hz). exists d1. destruct (pd_xfer (c_dev t)); [done|split_and!; first [done|lia]..].
  - rewrite (Hbusy Hz). cbn [Z.eqb]. destruct (IH (set_dev d1 t)) as (d2 & E2 & Hx2 & Hd2 & Hb2);
      [simpl; congruence|simpl; lia|].
    exists d2. simpl in *. split_and!; [done|congruence|by transitivity d1|done].
Qed.

Lemma get_words_run k : ∀ i t buf n,
  (i + S k = 256)%nat → 0 ≤ buf → buf + 512 ≤ 4294967296 →
  pd_xfer (c_dev t) = XIn n 1 i → pd_busy (c_dev t) = 0%nat →
  ∃ d', for_n (S k) (Z.of_nat i) (get_word buf) t =
    Done tt (set_mem (store_bytes (c_mem t) (buf + 2 * Z.of_nat i)
                        (words_bytes (drop i (pd_sector (c_dev t) n)))) (set_dev d' t)) ∧
    idle d' ∧ same_sectors (c_dev t) d'.
Proof.
  induction k as [|k IH]; intros i t buf n Hi Hb0 Hb1 Hx Hb.
  all: pose proof (pd_data_in (c_dev t) n i Hx ltac:(lia) Hb) as HI.
  all: destruct (port_inw 0 (c_dev t)) as [v d1] eqn:Ev; destruct HI as (Hv & Hx1 & Hbz & Hd1).
  all: assert (0 ≤ v < 65536) as Hvr
    by (eapply (Forall_lookup_1 _ _ _ _ (proj2 (pd_sector_ok (c_dev t) n))); exact Hv).
  all: assert (inw DISK_PORT (c_dev t) = Done v d1) as E
    by (unfold inw; change (u16 DISK_PORT) with 0; by rewrite Ev, u16_id).
  all: rewrite (drop_S _ _ _ Hv); change (words_bytes (v :: ?X)) with (bytes16 v ++ words_bytes X).
  all: set (t1 := set_mem (store16 (c_mem t) (buf + 2 * Z.of_nat i) v) (set_dev d1 t)).
  all: assert (get_word buf (Z.of_nat i) t = Done tt t1) as E1 by
    (unfold get_word; rewrite (bind_done _ _ _ _ _ (on_port_done _ _ _ _ E)); unfold modify; by rewrite u32_id by lia).
  all: rewrite for_n_S; rewrite (bind_done _ _ _ _ _ E1), store_bytes_app.
  - assert (i = 255%nat) as -> by lia. rewrite drop_ge by (rewrite (proj1 (pd_sector_ok _ _)); lia).
    exists d1. split_and!; [reflexivity|split; [done|by rewrite Hx1]|done].
  - destruct (IH (S i) t1 buf n) as (d2 & E2 & Hi2 & Hd2); [lia..| |done|].
    { simpl. rewrite Hx1. unfold next_in. by rewrite (proj2 (Nat.eqb_neq i 255)) by lia. }
    replace (Z.of_nat (S i)) with (Z.of_nat i + 1) in E2 by lia. rewrite E2. exists d2.
    split_and!; [|done|by transitivity d1].
    unfold t1. cbn [c_mem c_dev set_mem set_dev]. rewrite (Hd1 n), length_bytes16.
    replace (buf + 2 * (Z.of_nat i + 1)) with (buf + 2 * Z.of_nat i + Z.of_nat 2) by lia. reflexivity.
Qed.

Lemma read_block_run f n buf t :
  (pd_max ≤ f)%nat → 0 ≤ n < 2 ^ 24 → 0 ≤ buf → buf + 512 ≤ 4294967296 → idle (c_dev t) →
  ∃ d', read_block f n buf t =
      Done tt (set_mem (store_bytes (c_mem t) buf (pd_blk (c_dev t) n)) (set_dev d' t)) ∧
    idle d' ∧ same_sectors (c_dev t) d'.
Proof.
  intros Hf Hn Hb0 Hb1 [Hb Hx]. unfold read_block. rewrite (bind_done _ _ _ _ _ (issue_run n 0x20 t Hn ltac:(lia))).
  destruct (pd_read_cmd (c_dev t) n Hn Hb Hx) as [Hx1 Hd1]. set (d1 := pd_issue n 0x20 (c_dev t)) in *.
  destruct (wait_data_run f (set_dev d1 t)) as (d2 & E2 & Hx2 & Hd2 & Hb2);
    [cbn [c_dev set_dev]; by rewrite Hx1|pose proof (pd_busy_max d1); cbn [c_dev set_dev]; lia|].
  rewrite (bind_done _ _ _ _ _ E2). cbn [c_dev set_dev] in *.
  destruct (get_words_run 255 0 (set_dev d2 t) buf n) as (d3 & E3 & Hi3 & Hd3); [done|done|done| |done|].
  { cbn [c_dev set_dev]. by rewrite Hx2. }
  exists d3. cbn [c_dev set_dev c_mem] in *. rewrite drop_0, Z.add_0_r in E3. split_and!; [|done|].
  - change (Z.to_nat (BLOCK_SIZE / 2)) with 256%nat. change (Z.of_nat 0) with 0 in E3.
    etransitivity; [exact E3|]. unfold pd_blk. by rewrite (Hd2 n), (Hd1 n).
  - transitivity d1; [done|]. by transitivity d2.
Qed.

(** [d'] is a drive that just got the last word of a block. *)
Definition after_write (n : Z) (d' : D) : Prop := ∃ d got v,
  pd_xfer d = XOut n 1 got ∧ length got = 255%nat ∧ 0 ≤ v < 65536 ∧ pd_busy d = 0%nat ∧ d' = port_outw 0 v d.

Lemma after_write_idle `{!PromptDisk D} n d : pd_xfer d = XNone → after_write n d → idle d.
Proof. intros Hx (d0 & got & v & H1 & H2 & H3 & H4 & ->). split; [by eapply pd_prompt|done]. Qed.

Lemma put_words_run k : ∀ got t buf n,
  (length got + S k = 256)%nat → 0 ≤ buf → buf + 512 ≤ 4294967296 →
  pd_xfer (c_dev t) = XOut n 1 got → pd_busy (c_dev t) = 0%nat →
  ∃ d', for_n (S k) (Z.of_nat (length got)) (put_word buf) t =
      Done tt (set_dev d' t) ∧ pd_xfer d' = XNone ∧
    after_write n d' ∧
    ∀ x, pd_sector d' x = if decide (x = n)
      then got ++ load_words (c_mem t) (buf + 2 * Z.of_nat (length got)) (S k) else pd_sector (c_dev t) x.
Proof.
  induction k as [|k IH]; intros got t buf n Hl Hb0 Hb1 Hx Hb.
  all: set (v := load16 (c_mem t) (buf + 2 * Z.of_nat (length got))).
  all: assert (0 ≤ v < 65536) as Hv by apply load16_range.
  all: destruct (pd_data_out (c_dev t) n got v Hx ltac:(lia) Hv Hb) as (Hx1 & Hbz & Hd1).
  all: set (d1 := port_outw 0 v (c_dev t)) in *.
  all: assert (put_word buf (Z.of_nat (length got)) t = Done tt (set_dev d1 t)) as E1
    by (unfold put_word, bind, ld16, gets, on_port, zoom, outw; rewrite (u32_id (buf + _)) by lia; fold v;
        by rewrite (u16_id v) by lia).
  all: rewrite for_n_S; rewrite (bind_done _ _ _ _ _ E1).
  - exists d1. split_and!; [reflexivity| | |].
    + rewrite Hx1. unfold next_out. by rewrite (proj2 (Nat.eqb_eq _ 255)) by lia.
    + exists (c_dev t), got, v. split_and!; [done|lia|lia|lia|done|done].
    + intros x. rewrite Hd1. repeat case_decide; try done; tauto || lia.
  - destruct (IH (got ++ [v]) (set_dev d1 t) buf n) as (d2 & E2 & Hx2 & Hp2 & Hd2).
    + rewrite length_app. simpl. lia.
    + done.
    + done.
    + simpl. rewrite Hx1. unfold next_out. by rewrite (proj2 (Nat.eqb_neq _ 255)) by lia.
    + simpl. apply Hbz. lia.
    + rewrite length_app in E2, Hd2. replace (Z.of_nat (length got + length [v])) with (Z.of_nat (length got) + 1) in * by (simpl; lia).
      exists d2. split_and!; [exact E2|done|done|]. intros x. rewrite Hd2. simpl. rewrite Hd1, <-app_assoc.
      replace (buf + 2 * (Z.of_nat (length got) + 1)) with (buf + 2 * Z.of_nat (length got) + 2) by lia.
      repeat case_decide; try done; lia.
Qed.

Lemma write_block_run f n buf t :
  (pd_max ≤ f)%nat → 0 ≤ n < 2 ^ 24 → 0 ≤ buf → buf + 512 ≤ 4294967296 → idle (c_dev t) →
  ∃ d', write_block f n buf t = Done tt (set_dev d' t) ∧ pd_xfer d' = XNone ∧
    after_write n d' ∧
    ∀ x, pd_blk d' x = if decide (x = n) then load_bytes (c_mem t) buf 512 else pd_blk (c_dev t) x.
Proof.
  intros Hf Hn Hb0 Hb1 [Hb Hx]. unfold write_block. rewrite (bind_done _ _ _ _ _ (issue_run n 0x30 t Hn ltac:(lia))).
  destruct (pd_write_cmd (c_dev t) n Hn Hb Hx) as [Hx1 Hd1]. set (d1 := pd_issue n 0x30 (c_dev t)) in *.
  destruct (wait_data_run f (set_dev d1 t)) as (d2 & E2 & Hx2 & Hd2 & Hb2);
    [cbn [c_dev set_dev]; by rewrite Hx1|pose proof (pd_busy_max d1); cbn [c_dev set_dev]; lia|].
  rewrite (bind_done _ _ _ _ _ E2). cbn [c_dev set_dev] in *.
  destruct (put_words_run 255 [] (set_dev d2 t) buf n) as (d3 & E3 & Hx3 & Hp3 & Hd3); [done|done|done| |done|].
  { cbn [c_dev set_dev]. by rewrite Hx2. }
  exists d3. split_and!; [exact E3|done|done|].
  intros x. unfold pd_blk. rewrite Hd3. cbn [c_dev set_dev c_mem]. case_decide.
  - rewrite app_nil_l, Z.add_0_r, words_bytes_load. reflexivity.
  - by rewrite (Hd2 x), (Hd1 x).
Qed.
End Blocks.

(** * A simulated drive *)

(** It is busy for two status reads after a command and for [delay] of them after
    a write; a command that comes while it is busy or in a data phase is lost. *)
Record dsk (delay : nat) := Dsk {
  d_disk : gmap Z (list Z);
  d_regs : memory;
  d_xfer : xfer;
  d_busy : nat;
}.
Arguments Dsk {delay}.
Arguments d_disk {delay} _.
Arguments d_regs {delay} _.
Arguments d_xfer {delay} _.
Arguments d_busy {delay} _.

Section Dsk.
Context {delay : nat}.
Implicit Types d : dsk delay.

Definition d_sector d (n : Z) : list Z :=
  map (λ i, u16 (at_ (default [] (d_disk d !! n)) i)) (seqZ 0 256).

Definition d_left d : nat := Nat.min 99 (d_busy d).

Definition d_lba d : Z := load8 (d_regs d) 3 + 256 * load8 (d_regs d) 4 + 65536 * load8 (d_regs d) 5.

Definition d_command (c : Z) d : dsk delay :=
  match d_left d, d_xfer d with
  | O, XNone =>
      Dsk (d_disk d) (d_regs d)
        (if c =? 0x20 then XIn (d_lba d) 1 0 else if c =? 0x30 then XOut (d_lba d) 1 [] else XNone) 2
  | _, _ => d
  end.

Definition d_status d : Z * dsk delay :=
  match d_left d with
  | O => (match d_xfer d with XNone => 0x40 | _ => 0x48 end, Dsk (d_disk d) (d_regs d) (d_xfer d) 0)
  | S b => (0x80, Dsk (d_disk d) (d_regs d) (d_xfer d) b)
  end.

Definition d_word_in d : Z * dsk delay :=
  match d_xfer d with
  | XIn n l k => (default 0 (d_sector d n !! k), Dsk (d_disk d) (d_regs d) (next_in n l k) (d_busy d))
  | _ => (0, d)
  end.

Definition d_word_out (v : Z) d : dsk delay :=
  match d_xfer d with
  | XOut n l got =>
      let got := map u16 got in
      if (length got =? 255)%nat
      then Dsk (<[n := got ++ [v]]> (d_disk d)) (d_regs d) (next_out n l got v) delay
      else Dsk (d_disk d) (d_regs d) (next_out n l got v) (d_busy d)
  | _ => d
  end.

#[export] Instance dsk_ports : PortIO (dsk delay) := {|
  port_inb p d := if p =? 7 then d_status d else (0, d);
  port_inw p d := if p =? 0 then d_word_in d else (0, d);
  port_outb p v d :=
    if p =? 7 then d_command v d
    else if p <? 7 then Dsk (d_disk d) (store8 (d_regs d) p v) (d_xfer d) (d_busy d) else d;
  port_outw p v d := if p =? 0 then d_word_out v d else d;
|}.

Lemma d_issue d n c :
  0 ≤ n < 2 ^ 24 → d_left d = 0%nat → d_xfer d = XNone →
  d_disk (pd_issue n c d) = d_disk d ∧
  d_xfer (pd_issue n c d) = if c =? 0x20 then XIn n 1 0 else if c =? 0x30 then XOut n 1 [] else XNone.
Proof.
  intros Hn Hb Hx. unfold pd_issue. cbn -[Z.pow store8 load8 d_command]. unfold d_command. unfold d_left in *. cbn [d_busy d_xfer].
  rewrite Hb, Hx. split; [done|]. cbn [d_xfer]. unfold d_lba. cbn [d_regs]. rewrite !load8_store8.
  repeat match goal with
  | |- context [decide (?a = ?b)] =>
      first [rewrite (decide_False (P := a = b)) by done|rewrite (decide_True (P := a = b)) by done]
  end.
  change (2 ^ 24) with 16777216 in Hn. change (2 ^ 16) with 65536. change (2 ^ 8) with 256.
  set (r := u8 _ + _ + _). assert (r = n) as ->; [|done]. subst r. unfold u8. lia.
Qed.

Lemma d_sector_put d n bs r x b y :
  length bs = 256%nat → Forall (λ v, u16 v = v) bs →
  d_sector (Dsk (delay := delay) (<[n := bs]> (d_disk d)) r x b) y = if decide (y = n) then bs else d_sector d y.
Proof.
  intros Hl Hb. unfold d_sector. cbn [d_disk]. case_decide as E.
  - subst. rewrite lookup_insert_eq. simpl. pose proof (map_at_seqZ u16 bs Hb) as Hm. by rewrite Hl in Hm.
  - by rewrite lookup_insert_ne.
Qed.

Lemma d_word_out_spec d n got v :
  sim_phase (d_xfer d) = XOut n 1 got → (length got < 256)%nat → 0 ≤ v < 65536 →
  sim_phase (d_xfer (d_word_out v d)) = next_out n 1 got v ∧
  d_busy (d_word_out v d) = (if (length got =? 255)%nat then delay else d_busy d) ∧
  ∀ x, d_sector (d_word_out v d) x =
       if decide (x = n ∧ length got = 255%nat) then got ++ [v] else d_sector d x.
Proof.
  intros Hx Hl Hv. unfold d_word_out. destruct (d_xfer d) as [| |n0 l0 got0]; [done..|]. injection Hx as -> -> <-.
  assert (map u16 (map u16 got0 ++ [v]) = map u16 got0 ++ [v]) as Hm.
  { rewrite map_app, map_map. simpl. rewrite (u16_id v) by done. f_equal. apply map_ext. intros y. unfold u16. lia. }
  destruct (Nat.eqb_spec (length (map u16 got0)) 255) as [E|E]; cbn [d_xfer d_busy].
  - split_and!; [unfold next_out; by rewrite (proj2 (Nat.eqb_eq _ 255) E)|done|]. intros x.
    etransitivity; [apply (d_sector_put d)|].
    + rewrite length_app, E. done.
    + rewrite <-Hm. apply Forall_map, Forall_true. intros y. simpl. unfold u16. lia.
    + repeat case_decide; tauto.
  - split_and!; [|done|intros x; by rewrite decide_False by tauto].
    unfold next_out. rewrite (proj2 (Nat.eqb_neq _ 255) E). simpl. by rewrite Hm.
Qed.

#[export, refine] Instance dsk_disk : PortDisk (dsk delay) := {|
  pd_sector := d_sector; pd_xfer d := sim_phase (d_xfer d); pd_busy := d_left; pd_max := 100%nat;
|}.
Proof.
  - intros d. unfold d_left. lia.
  - intros d n. unfold d_sector. split; [by rewrite length_map|].
    apply Forall_map, Forall_true. intros i. apply u16_range.
  - intros d n Hn Hb Hx. assert (d_xfer d = XNone) as Hx' by (by destruct (d_xfer d)).
    destruct (d_issue d n 0x20 Hn Hb Hx') as [Hd E]. split; [by rewrite E|]. intros x. unfold d_sector. by rewrite Hd.
  - intros d n Hn Hb Hx. assert (d_xfer d = XNone) as Hx' by (by destruct (d_xfer d)).
    destruct (d_issue d n 0x30 Hn Hb Hx') as [Hd E]. split; [by rewrite E|]. intros x. unfold d_sector. by rewrite Hd.
  - intros d. change (port_inb 7 d) with (d_status d). unfold d_status. unfold d_left.
    destruct (Nat.min 99 (d_busy d)) as [|b] eqn:E; cbn [d_xfer d_busy].
    + split_and!; [done|done|lia| |done]. intros _. by destruct (d_xfer d).
    + split_and!; [done|done|lia|done|done].
  - intros d n k Hx Hk Hb. change (port_inw 0 d) with (d_word_in d). unfold d_word_in.
    destruct (d_xfer d) as [|n0 l0 k0|]; simplify_eq/=.
    destruct (lookup_lt_is_Some_2 (d_sector d n) k) as [v Hv].
    { unfold d_sector. by rewrite length_map. }
    rewrite Hv. split_and!; try done. unfold next_in. by repeat case_match.
  - intros d n got v Hx Hl Hv Hb. change (port_outw 0 v d) with (d_word_out v d).
    destruct (d_word_out_spec d n got v Hx Hl Hv) as (E1 & E2 & E3). split_and!; [done| |done].
    intros Hne. unfold d_left in *. rewrite E2, (proj2 (Nat.eqb_neq _ 255) Hne). done.
Defined.
End Dsk.

#[export] Instance dsk_prompt : PromptDisk (dsk 0).
Proof.
  constructor.
  intros d n got v Hx Hl Hv Hb. destruct (d_word_out_spec d n got v Hx ltac:(lia) Hv) as (_ & E & _).
  change (d_left (d_word_out v d) = 0%nat). unfold d_left. rewrite E, Hl. done.
Defined.

(** * Memory and the packed structures *)

Section Fields.
Implicit Types (m : memory) (bs : list Z).

Lemma load8_field m a bs o :
  bytes_ok bs → (o < length bs)%nat → load8 (store_bytes m a bs) (a + Z.of_nat o) = f8 bs o.
Proof.
  intros Hb Ho. rewrite load8_store_bytes, decide_True by lia.
  replace (a + Z.of_nat o - a) with (Z.of_nat o) by lia. rewrite at_byte by done.
  unfold at_, f8. by rewrite Nat2Z.id.
Qed.

Lemma load16_field m a bs o :
  bytes_ok bs → (o + 2 ≤ length bs)%nat → load16 (store_bytes m a bs) (a + Z.of_nat o) = f16 bs o.
Proof.
  intros Hb Ho. unfold load16, f16. rewrite <-Z.add_assoc.
  replace (Z.of_nat o + 1) with (Z.of_nat (o + 1)) by lia. by rewrite !load8_field by (done || lia).
Qed.

Lemma load32_field m a bs o :
  bytes_ok bs → (o + 4 ≤ length bs)%nat → load32 (store_bytes m a bs) (a + Z.of_nat o) = f32 bs o.
Proof.
  intros Hb Ho. unfold load32, f32. rewrite <-!Z.add_assoc.
  replace (Z.of_nat o + 1) with (Z.of_nat (o + 1)) by lia. replace (Z.of_nat o + 2) with (Z.of_nat (o + 2)) by lia.
  replace (Z.of_nat o + 3) with (Z.of_nat (o + 3)) by lia. by rewrite !load8_field by (done || lia).
Qed.

Lemma load32_ext m1 m2 a :
  (∀ x, a ≤ x < a + 4 → load8 m1 x = load8 m2 x) → load32 m1 a = load32 m2 a.
Proof. intros E. unfold load32. by rewrite !E by lia. Qed.

Lemma load8_store32 m a v x :
  x < a ∨ a + 4 ≤ x → load8 (store32 m a v) x = load8 m x.
Proof. intros Hx. unfold store32. by rewrite load8_store_bytes, length_bytes32, decide_False by lia. Qed.
End Fields.

(** Without a data phase the wait does not end. *)
Lemma wait_data_never `{PortDisk D} f (t : con D) :
  pd_xfer (c_dev t) = XNone → ∃ t', wait_data f t = Stop OutOfFuel t'.
Proof.
  revert t; induction f as [|f IH]; intros t Hx; [by exists t|]. cbn [wait_data].
  pose proof (pd_status (c_dev t)) as HS. destruct (port_inb 7 (c_dev t)) as [s d1] eqn:Es.
  destruct HS as (Hx1 & _ & _ & Hready & Hbusy).
  assert (inb (DISK_PORT + 7) (c_dev t) = Done (u8 s) d1) as E by (unfold inb; change (u16 (DISK_PORT + 7)) with 7; by rewrite Es).
  rewrite (bind_done _ _ _ _ _ (on_port_done _ _ _ _ E)).
  pose proof (status_bit s 3 ltac:(lia)) as H3. change (2 ^ 3) with 8 in H3. rewrite H3.
  assert (Z.testbit s 3 = false) as ->.
  { destruct (decide (pd_busy (c_dev t) = 0%nat)) as [Hz|Hz]; [by rewrite (Hready Hz), Hx|by apply Hbusy]. }
  cbn [Z.eqb]. apply IH. cbn [c_dev set_dev]. congruence.
Qed.

Lemma lost_command {delay} n c (d : dsk delay) :
  d_left d ≠ 0%nat → pd_xfer (pd_issue n c d) = pd_xfer d.
Proof.
  intros Hb. unfold pd_issue. cbn -[Z.pow store8 load8 d_command]. unfold d_command, d_left in *. cbn [d_busy].
  by destruct (Nat.min 99 (d_busy d)).
Qed.

(** * Mounting *)

Section Mount.
Context {D : Type} `{PortDisk D}.
Implicit Types (d : D) (t : con D).

(** [mounted_drives] lies above the screen and inside the address space. *)
Definition drives_ok (mounted_drives : Z) : Prop :=
  VGA_MEMORY + 4000 ≤ mounted_drives ∧
  mounted_drives + MAX_MOUNTED_DRIVES * MountedDrive_size ≤ 4294967296.

Lemma initialize_fat32_run md n t bs m0 :
  drives_ok md → 0 ≤ n < MAX_MOUNTED_DRIVES → length bs = 512%nat → bytes_ok bs →
  c_mem t = store_bytes m0 (drive_at md n + 1) bs →
  let drive := drive_at md n in
  initialize_fat32 md n t = Done tt (set_mem
    (store32 (store32 (c_mem t) (drive + 92) (f16 bs 14)) (drive + 96) (u32 (f16 bs 14 + f8 bs 16 * f32 bs 36))) t).
Proof.
  intros [Hlo Hhi] Hn Hl Hb Hm drive. unfold MAX_MOUNTED_DRIVES, MountedDrive_size, VGA_MEMORY in *.
  assert (753664 ≤ drive ∧ drive + 5224 ≤ 4294967296) as Hd by (unfold drive, drive_at, MountedDrive_size; lia).
  fold drive in Hm. unfold initialize_fat32. fold drive. unfold bind, ld16, ld8, ld32, st32, gets, modify.
  cbn [c_mem set_mem]. unfold reserved_sectors_at, num_fats_at, fat_size_32_at, boot_sector_at, fat_start_at, data_start_at.
  rewrite !(u32_id (drive + 1 + _)), !(u32_id (drive + _)) by lia.
  assert (∀ v, load16 (store32 (c_mem t) (drive + 92) v) (drive + 1 + 14) = f16 bs 14) as E1.
  { intros v. unfold load16. rewrite !load8_store32 by lia. rewrite Hm.
    exact (load16_field m0 (drive + 1) bs 14 Hb ltac:(lia)). }
  assert (load16 (c_mem t) (drive + 1 + 14) = f16 bs 14) as E2
    by (rewrite Hm; exact (load16_field m0 (drive + 1) bs 14 Hb ltac:(lia))).
  assert (∀ v, load8 (store32 (c_mem t) (drive + 92) v) (drive + 1 + 16) = f8 bs 16) as E3.
  { intros v. rewrite load8_store32 by lia. rewrite Hm. exact (load8_field m0 (drive + 1) bs 16 Hb ltac:(lia)). }
  assert (∀ v, load32 (store32 (c_mem t) (drive + 92) v) (drive + 1 + 36) = f32 bs 36) as E4.
  { intros v. rewrite (load32_ext _ (c_mem t)) by (intros x Hx; apply load8_store32; lia). rewrite Hm.
    exact (load32_field m0 (drive + 1) bs 36 Hb ltac:(lia)). }
  rewrite E1, E2, E3, E4. reflexivity.
Qed.

(** The memory after a mount, before the message. *)
Definition mounted_mem (m : memory) (drive : Z) (bs : list Z) : memory :=
  store8 (store32 (store32 (store_bytes m (drive + 1) bs) (drive + 92) (f16 bs 14)) (drive + 96)
    (u32 (f16 bs 14 + f8 bs 16 * f32 bs 36))) drive 1.

Lemma mounted_field m drive bs x :
  length bs = 512%nat → x < drive ∨ drive + 513 ≤ x → load8 (mounted_mem m drive bs) x = load8 m x.
Proof.
  intros Hl Hx. unfold mounted_mem. rewrite load8_store8, decide_False by lia.
  rewrite !load8_store32 by lia. by rewrite load8_store_bytes, decide_False by lia.
Qed.

Lemma mounted_sector m drive bs x :
  bytes_ok bs → length bs = 512%nat → 0 ≤ x < 512 → x < 91 ∨ 99 ≤ x →
  load8 (mounted_mem m drive bs) (drive + 1 + x) = at_ bs x.
Proof.
  intros Hb Hl Hx Hgap. unfold mounted_mem. rewrite load8_store8, decide_False by lia.
  rewrite !load8_store32 by lia. rewrite load8_store_bytes, decide_True by lia.
  replace (drive + 1 + x - (drive + 1)) with x by lia. by apply at_byte.
Qed.

Lemma mounted_fat_start m drive bs :
  bytes_ok bs → load32 (mounted_mem m drive bs) (drive + 92) = f16 bs 14.
Proof.
  intros Hb. unfold mounted_mem. rewrite (load32_ext _ (store32 (store_bytes m (drive + 1) bs) (drive + 92) (f16 bs 14))).
  - rewrite load32_store32. apply u32_id. unfold f16, le16, f8.
    assert (∀ o, 0 ≤ default 0 (bs !! o) < 256) as Hr.
    { intros o. destruct (bs !! o) eqn:E; [|simpl; lia]. by eapply Forall_lookup in Hb. }
    pose proof (Hr 14%nat). pose proof (Hr (14 + 1)%nat). lia.
  - intros x Hx. rewrite load8_store8, decide_False by lia. apply load8_store32. lia.
Qed.

Lemma mounted_data_start m drive bs :
  load32 (mounted_mem m drive bs) (drive + 96) = u32 (f16 bs 14 + f8 bs 16 * f32 bs 36).
Proof.
  unfold mounted_mem. set (v := u32 _).
  rewrite (load32_ext _ (store32 (store32 (store_bytes m (drive + 1) bs) (drive + 92) (f16 bs 14)) (drive + 96) v)).
  - rewrite load32_store32. apply u32_id, u32_range.
  - intros x Hx. by rewrite load8_store8, decide_False by lia.
Qed.

Lemma mount_drive_run f md n t :
  (pd_max ≤ f)%nat → drives_ok md → 0 ≤ n < MAX_MOUNTED_DRIVES → con_ok t → idle (c_dev t) →
  load8 (c_mem t) (drive_at md n) = 0 →
  let bs := pd_blk (c_dev t) 0 in
  ∃ t', mount_drive md f n t = Done true t' ∧ con_ok t' ∧
    ∀ a, a < VGA_MEMORY ∨ VGA_MEMORY + 4000 ≤ a →
      load8 (c_mem t') a = load8 (mounted_mem (c_mem t) (drive_at md n) bs) a.
Proof.
  intros Hf Hmd Hn Ht Hi Hz bs. destruct (pd_blk_ok (c_dev t) 0) as [Hl Hb]. fold bs in Hl, Hb.
  pose proof Hmd as [Hlo Hhi]. unfold MAX_MOUNTED_DRIVES, MountedDrive_size, VGA_MEMORY in *.
  set (drive := drive_at md n) in *.
  assert (753664 + 4000 ≤ drive ∧ drive + 5224 ≤ 4294967296) as Hd by (unfold drive, drive_at, MountedDrive_size; lia).
  unfold mount_drive. rewrite (proj2 (Z.leb_gt MAX_MOUNTED_DRIVES n)) by (unfold MAX_MOUNTED_DRIVES; lia). fold drive.
  rewrite (bind_done _ _ t 0 t) by (unfold ld8, gets, is_mounted_at; rewrite (u32_id drive) by lia; by rewrite Hz). cbn [Z.eqb negb].
  destruct (read_block_run f 0 (drive + 1) t Hf ltac:(done) ltac:(lia) ltac:(lia) Hi) as (d1 & E1 & _).
  fold bs in E1. unfold read_boot_sector. fold drive. rewrite (bind_done _ _ _ _ _ E1). set (t1 := set_mem _ _) in *.
  rewrite (bind_done _ _ _ _ _ (initialize_fat32_run md n t1 bs (c_mem t) Hmd Hn Hl Hb eq_refl)). fold drive.
  set (t2 := set_mem (mounted_mem (c_mem t) drive bs) t1).
  rewrite (bind_done _ _ _ tt t2)
    by (unfold st8, modify, is_mounted_at, t2, mounted_mem; rewrite (u32_id drive) by lia; reflexivity).
  assert (con_ok t2) as Ht2 by exact Ht.
  destruct (safe_newline t2 Ht2) as ([] & t3 & E3 & Ht3 & Ho3). rewrite (bind_done _ _ _ _ _ E3).
  destruct (safe_write (cstr (str "[  OK  ] Drive mounted successfully.")) t3 Ht3) as ([] & t4 & E4 & Ht4 & Ho4).
  rewrite (bind_done _ _ _ tt t4) by exact E4. exists t4. split_and!; [done|done|]. intros a Ha.
  rewrite (Ho4 a Ha). apply (Ho3 a Ha).
Qed.
End Mount.

(** * Theorems *)

(** C23: mounting: on a drive number of four or more, or on a drive that is
    mounted, [mount_drive] returns false and does nothing; otherwise it returns
    true, with the boot sector read into the drive's structure, the start of the
    table and of the data computed from it, the drive marked as mounted and no
    other memory changed but the screen. The whole sector is copied into the
    90-byte structure: the number of files of the root directory becomes four
    bytes of the boot code. *)
Theorem mount_drive_mounts `{PortDisk D} f md n (t : con D) :
  (pd_max ≤ f)%nat → drives_ok md → 0 ≤ n < 256 → con_ok t → idle (c_dev t) →
  let drive := drive_at md n in
  let bs := pd_blk (c_dev t) 0 in
  if decide (n < MAX_MOUNTED_DRIVES ∧ load8 (c_mem t) drive = 0) then
    ∃ t', mount_drive md f n t = Done true t' ∧ con_ok t' ∧
      load8 (c_mem t') drive = 1 ∧ load_bytes (c_mem t') (drive + 1) 90 = take 90 bs ∧
      load32 (c_mem t') (fat_start_at drive) = f16 bs 14 ∧
      load32 (c_mem t') (data_start_at drive) = u32 (f16 bs 14 + f8 bs 16 * f32 bs 36) ∧
      load32 (c_mem t') (file_count_at (root_directory_at drive)) = f32 bs 99 ∧
      ∀ a, (a < VGA_MEMORY ∨ VGA_MEMORY + 4000 ≤ a) → (a < drive ∨ drive + 513 ≤ a) →
        load8 (c_mem t') a = load8 (c_mem t) a
  else mount_drive md f n t = Done false t.
Proof.
  intros Hf Hmd Hn Ht Hi drive bs. case_decide as Hdec.
  - destruct Hdec as [Hn4 Hz]. destruct (pd_blk_ok (c_dev t) 0) as [Hl Hb]. fold bs in Hl, Hb.
    destruct (mount_drive_run f md n t Hf Hmd ltac:(lia) Ht Hi Hz) as (t' & E & Ht' & Hm). fold drive bs in Hm.
    assert (VGA_MEMORY + 4000 ≤ drive) as Hlo by (destruct Hmd; unfold drive, drive_at, MountedDrive_size; lia).
    exists t'. split_and!; [done|done| | | | | |].
    + rewrite Hm by lia. unfold mounted_mem. by rewrite load8_store8, decide_True.
    + assert (length (take 90 bs) = 90%nat) as H90 by (rewrite length_take; lia). rewrite <-H90 at 1.
      apply load_bytes_eq. intros i Hi90. rewrite Hm by lia. rewrite mounted_sector by (done || lia).
      unfold at_. by rewrite lookup_take_lt by lia.
    + unfold fat_start_at. rewrite (load32_ext _ (mounted_mem (c_mem t) drive bs)) by (intros; apply Hm; lia).
      apply mounted_fat_start, Hb.
    + unfold data_start_at. rewrite (load32_ext _ (mounted_mem (c_mem t) drive bs)) by (intros; apply Hm; lia).
      apply mounted_data_start.
    + unfold file_count_at, root_directory_at, load32, f32. rewrite !Hm by lia.
      replace (drive + 100 + 1) with (drive + 1 + 100) by lia. replace (drive + 100 + 2) with (drive + 1 + 101) by lia.
      replace (drive + 100 + 3) with (drive + 1 + 102) by lia. replace (drive + 100) with (drive + 1 + 99) by lia.
      rewrite !mounted_sector by (done || lia). reflexivity.
    + intros a Ha Hout. rewrite Hm by done. by apply mounted_field.
  - unfold mount_drive. destruct (Z.leb_spec MAX_MOUNTED_DRIVES n) as [|Hn4]; [done|].
    assert (load8 (c_mem t) drive ≠ 0) as Hnz by tauto. fold drive.
    destruct Hmd as [Hlo Hhi]. assert (0 ≤ drive < 4294967296) as Hd
      by (unfold drive, drive_at, MAX_MOUNTED_DRIVES, MountedDrive_size, VGA_MEMORY in *; lia).
    rewrite (bind_done _ _ t (load8 (c_mem t) drive) t) by (unfold ld8, gets, is_mounted_at; by rewrite (u32_id drive) by lia).
    by rewrite (proj2 (Z.eqb_neq _ 0) Hnz).
Qed.

(** A second write right behind the first: on a drive that is busy after a write
    the command is lost and [write_block] waits for ever, because nothing waits
    for the drive before the command, whatever the comment says. *)
Theorem write_block_hangs k f n1 n2 buf (t : con (dsk (S k))) :
  (100 ≤ f)%nat → 0 ≤ n1 < 2 ^ 24 → 0 ≤ n2 < 2 ^ 24 → 0 ≤ buf → buf + 512 ≤ 4294967296 → idle (c_dev t) →
  ∃ t', (write_block f n1 buf ;; write_block f n2 buf) t = Stop OutOfFuel t'.
Proof.
  intros Hf H1 H2 Hb0 Hb1 Hi. destruct (@write_block_run (dsk (S k)) dsk_ports dsk_disk f n1 buf t Hf H1 Hb0 Hb1 Hi) as (d' & E & Hx & Hw & _).
  rewrite (bind_done _ _ _ _ _ E). unfold write_block. rewrite (bind_done _ _ _ _ _ (issue_run n2 0x30 _ H2 ltac:(lia))).
  destruct Hw as (d0 & got & v & Hx0 & Hl & Hv & _ & Ed). destruct (d_word_out_spec d0 n1 got v Hx0 ltac:(lia) Hv) as (_ & Hbusy & _).
  rewrite Hl in Hbusy. cbn [Nat.eqb] in Hbusy. change (d_word_out v d0) with (port_outw 0 v d0) in Hbusy. rewrite <-Ed in Hbusy.
  destruct (wait_data_never f (set_dev (pd_issue n2 0x30 d') t)) as (t' & E').
  { cbn [c_dev set_dev]. by rewrite lost_command by (unfold d_left; rewrite Hbusy; lia). }
  exists t'. apply bind_stop. exact E'.
Qed.

(** The simulated drive with a boot sector of 32 reserved sectors, two tables of
    three sectors each, and "boot" at the place of the number of files. *)
Definition demo_boot : list Z :=
  replicate 7 0 ++ [32; 2] ++ replicate 9 0 ++ [3] ++ replicate 30 0 ++
  [28416; 29807] ++ replicate 206 0.
Definition demo_dsk delay (disk : gmap Z (list Z)) : dsk delay := Dsk disk ∅ XNone 0.
Definition demo_tty {D} m (d : D) : con D := Con m d 3 0 15 VGA_MEMORY true false.

Lemma mount_drive_mounts_witness :
  ∃ t', mount_drive 0x200000 100 1 (demo_tty ∅ (demo_dsk 0 {[0 := demo_boot]})) = Done true t' ∧
    load32 (c_mem t') (data_start_at (drive_at 0x200000 1)) = 38.
Proof.
  assert (drives_ok 0x200000) as Hmd by (vm_compute; split; discriminate).
  assert (con_ok (demo_tty ∅ (demo_dsk 0 {[0 := demo_boot]}))) as Ht by (vm_compute; split_and!; congruence).
  pose proof (mount_drive_mounts 100 0x200000 1 (demo_tty ∅ (demo_dsk 0 {[0 := demo_boot]}))
    (Nat.le_refl 100) Hmd ltac:(lia) Ht ltac:(split; reflexivity)) as Hthm.
  cbv zeta in Hthm. rewrite decide_True in Hthm by (split; reflexivity).
  destruct Hthm as (t' & E & _ & _ & _ & _ & E2 & _). exists t'. split; [exact E|]. rewrite E2. vm_compute. reflexivity.
Defined.
