(* ===== verification/TtyFiles.v ===== *)
(** Files of the second FAT32 driver of src/kernel/arch/i386/tty.c: what
    [write_file] puts on the disk and [read_file] shows, on a volume with one
    table sector and one sector per cluster, which is what the 128-entry table
    of the code holds. *)
From S2P Require Import Prelude Machine CString LibC FatTypes AtaPio AtaSim Terminal TtyFat.

(** * Regions of memory *)

(** [m'] holds the same bytes as [m] from [a] on, [n] of them. *)
Definition same_on (a n : Z) (m m' : memory) : Prop := ∀ x, a ≤ x < a + n → load8 m' x = load8 m x.

Definition apart (a n b k : Z) : Prop := a + n ≤ b ∨ b + k ≤ a.

Section Regions.
Implicit Types (m : memory) (bs : list Z).

#[global] Instance same_on_preorder a n : PreOrder (same_on a n).
Proof. split; [by intros m x Hx|]. intros m1 m2 m3 H1 H2 x Hx. by rewrite H2, H1. Qed.

Lemma same_on_store a n m b bs : apart a n b (Z.of_nat (length bs)) → same_on a n m (store_bytes m b bs).
Proof. intros Ha x Hx. unfold apart in Ha. by rewrite load8_store_bytes, decide_False by lia. Qed.

Lemma same_on_store32 a n m b v : apart a n b 4 → same_on a n m (store32 m b v).
Proof. exact (same_on_store a n m b (bytes32 v)). Qed.

Lemma same_on_sub a n b k m m' : a ≤ b → b + k ≤ a + n → same_on a n m m' → same_on b k m m'.
Proof. intros Hb Hk Hs x Hx. apply Hs. lia. Qed.

Lemma same_on_load8 a n m m' x : same_on a n m m' → a ≤ x < a + n → load8 m' x = load8 m x.
Proof. auto. Qed.

Lemma same_on_load32 a n m m' x : same_on a n m m' → a ≤ x → x + 4 ≤ a + n → load32 m' x = load32 m x.
Proof. intros Hs Ha Hn. apply load32_ext. intros y Hy. apply Hs. lia. Qed.

Lemma same_on_bytes a n m m' : same_on a (Z.of_nat n) m m' → load_bytes m' a n = load_bytes m a n.
Proof. intros Hs. apply load_bytes_ext. intros i Hi. apply Hs. lia. Qed.

Lemma load_bytes_store32 m a v : load_bytes (store32 m a v) a 4 = bytes32 v.
Proof. apply (load_store_bytes_same m a (bytes32 v)), bytes32_ok. Qed.

Lemma load32_bytes m a v : load_bytes m a 4 = bytes32 v → load32 m a = u32 v.
Proof.
  intros [= Q0 Q1 Q2 Q3]. unfold load32, le32, u32. replace (a + 2) with (a + 1 + 1) by lia.
  replace (a + 3) with (a + 1 + 1 + 1) by lia. rewrite Q0, Q1, Q2, Q3. lia.
Qed.

Lemma zeros_ok n : bytes_ok (replicate n 0).
Proof. apply Forall_replicate. unfold byte_ok. lia. Qed.

(** Part of a block that was stored. *)
Lemma load_store_part m a bs o n :
  bytes_ok bs → (o + n ≤ length bs)%nat →
  load_bytes (store_bytes m a bs) (a + Z.of_nat o) n = take n (drop o bs).
Proof.
  intros Hb Hn. assert (length (take n (drop o bs)) = n) as Hl by (rewrite length_take, length_drop; lia).
  rewrite <-Hl at 1. apply load_bytes_eq. intros i Hi. rewrite load8_store_bytes, decide_True by lia.
  rewrite at_byte by done. unfold at_. rewrite lookup_take_lt, lookup_drop by lia. do 2 f_equal. lia.
Qed.

Lemma load_store_prefix m a bs n :
  bytes_ok bs → (n ≤ length bs)%nat → load_bytes (store_bytes m a bs) a n = take n bs.
Proof. intros Hb Hn. pose proof (load_store_part m a bs 0 n Hb Hn) as E. by rewrite Z.add_0_r in E. Qed.

(** A word put into a block in memory. *)
Definition put32 (bs : list Z) (o : nat) (v : Z) : list Z := take o bs ++ bytes32 v ++ drop (o + 4) bs.

Lemma load_put32 m a bs o v :
  bytes_ok bs → (o + 4 ≤ length bs)%nat →
  load_bytes (store32 (store_bytes m a bs) (a + Z.of_nat o) v) a (length bs) = put32 bs o v.
Proof.
  intros Hb Ho. replace (length bs) with (o + (4 + (length bs - o - 4)))%nat by lia.
  rewrite !load_bytes_app. unfold put32. f_equal; [|f_equal].
  - unfold store32. rewrite load_store_bytes_disjoint by (rewrite length_bytes32; lia).
    rewrite load_store_prefix by (done || lia). done.
  - apply load_bytes_store32.
  - unfold store32. rewrite load_store_bytes_disjoint by (rewrite length_bytes32; lia).
    replace (a + Z.of_nat o + Z.of_nat 4) with (a + Z.of_nat (o + 4)) by lia.
    rewrite load_store_part by (done || lia). apply take_ge. rewrite length_drop. lia.
Qed.
End Regions.

(** * A volume and the stack frame *)

Section Files.
Context {D : Type} `{HP : PortIO D} `{HD : !PortDisk D} `{HPr : !PromptDisk D}.
Implicit Types (d : D) (t : con D) (m : memory).

(** The drive's structure and the local arrays of [write_file] (with the byte
    [strncpy] writes behind [buffer]) and of its callees, side by side in memory. *)
Record frame_ok (drive fat_table buffer new_file : Z) : Prop := {
  fr_drive : 0 ≤ drive ∧ drive + MountedDrive_size ≤ 4294967296;
  fr_table : 0 ≤ fat_table ∧ fat_table + 512 ≤ 4294967296;
  fr_buffer : 0 ≤ buffer ∧ buffer + 513 ≤ 4294967296;
  fr_file : 0 ≤ new_file ∧ new_file + FileEntry_size ≤ 4294967296;
  fr_dt : apart drive MountedDrive_size fat_table 512;
  fr_db : apart drive MountedDrive_size buffer 513;
  fr_dn : apart drive MountedDrive_size new_file FileEntry_size;
  fr_tb : apart fat_table 512 buffer 513;
  fr_tn : apart fat_table 512 new_file FileEntry_size;
  fr_bn : apart buffer 513 new_file FileEntry_size;
}.

(** A mounted drive with one table sector [fs], data from [ds] on, one sector per
    cluster and [total] sectors. *)
Record volume (drive fs ds total : Z) m : Prop := {
  v_spc : load8 m (drive + 1 + 13) = 1;
  v_fats : u32 (load32 m (drive + 1 + 36) * load8 m (drive + 1 + 16)) = 1;
  v_total : load32 m (drive + 1 + 32) = total;
  v_start : load32 m (drive + 92) = fs;
  v_data : load32 m (drive + 96) = ds;
}.

Variables drive fat_table buffer new_file : Z.
Variables fs ds total : Z.
Variable fuel : nat.

Abbreviation vol := (volume drive fs ds total).

Lemma vol_same m m' : same_on drive 100 m m' → vol m → vol m'.
Proof.
  intros Hs [H1 H2 H3 H4 H5]. constructor.
  - etransitivity; [apply Hs; lia|exact H1].
  - rewrite (same_on_load32 _ _ _ _ (drive + 1 + 36) Hs) by lia. rewrite (Hs (drive + 1 + 16)) by lia. exact H2.
  - etransitivity; [apply (same_on_load32 _ _ _ _ _ Hs); lia|exact H3].
  - etransitivity; [apply (same_on_load32 _ _ _ _ _ Hs); lia|exact H4].
  - etransitivity; [apply (same_on_load32 _ _ _ _ _ Hs); lia|exact H5].
Qed.

Lemma vol_store m b bs : apart drive 100 b (Z.of_nat (length bs)) → vol m → vol (store_bytes m b bs).
Proof. intros Ha. by apply vol_same, same_on_store. Qed.

Hypothesis Hfr : frame_ok drive fat_table buffer new_file.
Hypothesis Hfuel : (pd_max ≤ fuel)%nat.
Hypothesis Hfs : 0 ≤ fs < 2 ^ 24.

(** ** The table *)

Lemma read_fat_run t :
  (2 ≤ fuel)%nat → vol (c_mem t) → idle (c_dev t) →
  ∃ d', read_fat_table fat_table fuel drive t =
      Done tt (set_mem (store_bytes (c_mem t) fat_table (pd_blk (c_dev t) fs)) (set_dev d' t)) ∧
    idle d' ∧ same_sectors (c_dev t) d'.
Proof.
  intros H2 Hv Hi. destruct Hfr as [Hd Ht _ _ Hdt _ _ _ _ _]. unfold MountedDrive_size in *.
  assert (∃ f, fuel = S (S f)) as [f Ef] by (exists (fuel - 2)%nat; lia).
  destruct (read_block_run fuel fs fat_table t Hfuel Hfs ltac:(lia) ltac:(lia) Hi) as (d' & E & Hi' & Hs').
  exists d'. split_and!; [|done|done]. unfold read_fat_table.
  rewrite (bind_done _ _ t fs t) by (unfold ld32, gets, fat_start_at; rewrite (u32_id (drive + 92)) by lia; by rewrite (v_start _ _ _ _ _ Hv)).
  set (t1 := set_mem _ _) in *. assert (vol (c_mem t1)) as Hv1.
  { apply vol_store; [|done]. rewrite (proj1 (pd_blk_ok _ _)). unfold apart in *. lia. }
  assert (∀ t' f i, vol (c_mem t') → fat_loop fat_table fuel (S f) i fs drive t' =
    (if i <? 1 then (read_block fuel (u32 (fs + i)) (fat_table + 4 * (u32 (i * BLOCK_SIZE) / FAT_ENTRY_SIZE)) ;;
       fat_loop fat_table fuel f (i + 1) fs drive) t' else Done tt t')) as Hstep.
  { intros t' f' i Hv'. cbn [fat_loop]. unfold bind at 1 2, ld32, ld8, gets.
    unfold fat_size_32_at, num_fats_at, boot_sector_at. rewrite !(u32_id (drive + 1 + _)) by lia.
    rewrite (v_fats _ _ _ _ _ Hv'). by destruct (i <? 1). }
  rewrite Ef at 2. rewrite Hstep by done. cbn [Z.ltb Z.compare].
  rewrite (bind_done _ _ _ tt t1); [by rewrite Hstep by done|].
  change (4 * (u32 (0 * BLOCK_SIZE) / FAT_ENTRY_SIZE)) with 0. rewrite !Z.add_0_r, u32_id by lia. exact E.
Qed.

Lemma free_loop_run n : ∀ i t bs c,
  load_bytes (c_mem t) fat_table 512 = bs → 2 ≤ i ≤ c → c < 128 → c < i + Z.of_nat n →
  f32 bs (Z.to_nat (4 * c)) = 0 → (∀ y, i ≤ y < c → f32 bs (Z.to_nat (4 * y)) ≠ 0) →
  free_loop fat_table n i t = Done c t.
Proof.
  destruct Hfr as [_ Ht _ _ _ _ _ _ _ _].
  induction n as [|n IH]; intros i t bs c Hbs Hi Hc Hn Hfree Hused; [lia|]. cbn [free_loop].
  assert (∀ y, 2 ≤ y < 128 → load32 (c_mem t) (u32 (fat_table + 4 * y)) = f32 bs (Z.to_nat (4 * y))) as Hld.
  { intros y Hy. rewrite u32_id by lia. rewrite <-Hbs. unfold load32, f32, f8.
    rewrite !lookup_load_bytes by lia. cbn [default from_option id]. f_equal; f_equal; lia. }
  rewrite (bind_done _ _ t (f32 bs (Z.to_nat (4 * i)) =? 0) t)
    by (unfold is_cluster_free, ld32, bind, gets, ret; by rewrite Hld by lia).
  destruct (decide (i = c)) as [->|Hne]; [by rewrite Hfree|].
  rewrite (proj2 (Z.eqb_neq _ 0) (Hused i ltac:(lia))). apply (IH _ _ bs); try done; try lia. intros y Hy. apply Hused. lia.
Qed.

(** [c] is the first free cluster of the table. *)
Definition first_free (bs : list Z) (c : Z) : Prop :=
  2 ≤ c < 128 ∧ c < total ∧ f32 bs (Z.to_nat (4 * c)) = 0 ∧
  ∀ y, 2 ≤ y < c → f32 bs (Z.to_nat (4 * y)) ≠ 0.

Lemma find_free_run t c :
  (2 ≤ fuel)%nat → vol (c_mem t) → idle (c_dev t) → first_free (pd_blk (c_dev t) fs) c →
  ∃ d', find_free_cluster fat_table fuel drive t =
      Done c (set_mem (store_bytes (c_mem t) fat_table (pd_blk (c_dev t) fs)) (set_dev d' t)) ∧
    idle d' ∧ same_sectors (c_dev t) d'.
Proof.
  intros H2 Hv Hi (Hc & Htot & Hz & Hused). destruct (read_fat_run t H2 Hv Hi) as (d' & E & Hi' & Hs').
  exists d'. split_and!; [|done|done]. unfold find_free_cluster. rewrite (bind_done _ _ _ _ _ E).
  destruct Hfr as [Hd Ht _ _ Hdt _ _ _ _ _]. unfold MountedDrive_size in *.
  destruct (pd_blk_ok (c_dev t) fs) as [Hl Hb]. set (bs := pd_blk (c_dev t) fs) in *. set (t1 := set_mem _ _).
  assert (vol (c_mem t1)) as Hv1 by (apply vol_store; [rewrite Hl; unfold apart in *; lia|done]).
  unfold bind, ld32, ld8, gets, total_sectors_32_at, sectors_per_cluster_at, boot_sector_at.
  rewrite !(u32_id (drive + 1 + _)) by lia. rewrite (v_total _ _ _ _ _ Hv1), (v_spc _ _ _ _ _ Hv1).
  cbn [Z.eqb]. rewrite Z.div_1_r. apply (free_loop_run _ _ _ bs); try done; try lia.
  change (c_mem t1) with (store_bytes (c_mem t) fat_table bs). rewrite <-Hl. by apply load_store_bytes_same.
Qed.

(** ** Clusters *)

Lemma sector_loop_one (body : Z → M (con D) unit) t t1 n :
  vol (c_mem t) → vol (c_mem t1) → body 0 t = Done tt t1 → sector_loop (S (S n)) 0 drive body t = Done tt t1.
Proof.
  clear Hfs.
  intros Hv Hv1 E. destruct Hfr as [Hd _ _ _ _ _ _ _ _ _]. unfold MountedDrive_size in *.
  assert (∀ t' i n, vol (c_mem t') → sector_loop (S n) i drive body t' =
    (if i <? 1 then (body i ;; sector_loop n (i + 1) drive body) t' else Done tt t')) as Hstep.
  { intros t' i n' Hv'. cbn [sector_loop]. unfold bind at 1, ld8, gets, sectors_per_cluster_at, boot_sector_at.
    rewrite !(u32_id (drive + 1 + _)) by lia. rewrite (v_spc _ _ _ _ _ Hv'). by destruct (i <? 1). }
  rewrite Hstep by done. cbn [Z.ltb Z.compare]. rewrite (bind_done _ _ _ _ _ E). by rewrite Hstep by done.
Qed.

Lemma cluster_address_run c t :
  vol (c_mem t) → 2 ≤ c → 0 ≤ ds → ds + c < 4294967296 →
  get_cluster_address c drive t = Done (ds + (c - 2)) t.
Proof.
  clear Hfs.
  intros Hv Hc Hds Hmax. destruct Hfr as [Hd _ _ _ _ _ _ _ _ _]. unfold MountedDrive_size in *.
  unfold get_cluster_address, bind, ld32, ld8, gets, ret, data_start_at, sectors_per_cluster_at, boot_sector_at.
  rewrite !(u32_id (drive + 1 + _)), !(u32_id (drive + _)) by lia.
  rewrite (v_spc _ _ _ _ _ Hv), (v_data _ _ _ _ _ Hv), Z.mul_1_r. by rewrite u32_id by lia.
Qed.

Section Cluster.
Variable c : Z.
Hypothesis Hc : 2 ≤ c.
Hypothesis Hds : 0 ≤ ds.
Hypothesis Hmax : ds + (c - 2) < 2 ^ 24.

Lemma write_cluster_run buf t :
  vol (c_mem t) → idle (c_dev t) → 0 ≤ buf → buf + 512 ≤ 4294967296 →
  ∃ d', write_cluster fuel c buf drive t = Done tt (set_dev d' t) ∧ idle d' ∧
    ∀ x, pd_blk d' x = if decide (x = ds + (c - 2)) then load_bytes (c_mem t) buf 512 else pd_blk (c_dev t) x.
Proof.
  clear Hfs.
  intros Hv Hi Hb0 Hb1. change (2 ^ 24) with 16777216 in Hmax.
  destruct (write_block_run fuel (ds + (c - 2)) buf t Hfuel ltac:(lia) Hb0 Hb1 Hi) as (d' & E & Hx & Hw & Hd').
  exists d'. split_and!; [|by eapply after_write_idle|done]. unfold write_cluster.
  rewrite (bind_done _ _ _ _ _ (cluster_address_run c t Hv Hc Hds ltac:(lia))).
  change 256%nat with (S (S 254)). apply sector_loop_one; [done|done|].
  rewrite Z.mul_0_l, !Z.add_0_r, u32_id by lia. exact E.
Qed.

Lemma read_cluster_run t :
  vol (c_mem t) → idle (c_dev t) →
  ∃ d', read_cluster fuel c buffer drive t =
      Done tt (set_mem (store_bytes (c_mem t) buffer (pd_blk (c_dev t) (ds + (c - 2)))) (set_dev d' t)) ∧
    idle d' ∧ same_sectors (c_dev t) d'.
Proof.
  clear Hfs.
  intros Hv Hi. change (2 ^ 24) with 16777216 in Hmax. destruct Hfr as [Hd _ Hb _ _ Hdb _ _ _ _]. unfold MountedDrive_size in *.
  destruct (read_block_run fuel (ds + (c - 2)) buffer t Hfuel ltac:(lia) ltac:(lia) ltac:(lia) Hi) as (d' & E & Hi' & Hs').
  exists d'. split_and!; [|done|done]. unfold read_cluster.
  rewrite (bind_done _ _ _ _ _ (cluster_address_run c t Hv Hc Hds ltac:(lia))).
  change 256%nat with (S (S 254)). apply sector_loop_one; [done| |].
  - apply vol_store; [|done]. rewrite (proj1 (pd_blk_ok _ _)). unfold apart in *. lia.
  - rewrite Z.mul_0_l, !Z.add_0_r, u32_id by lia. exact E.
Qed.
End Cluster.

Lemma update_fat_run t c v :
  (2 ≤ fuel)%nat → vol (c_mem t) → idle (c_dev t) → 2 ≤ c < 128 →
  ∃ m' d', update_fat_entry fat_table fuel c v drive t = Done tt (set_mem m' (set_dev d' t)) ∧ idle d' ∧
    (∀ a n, apart a n fat_table 512 → same_on a n (c_mem t) m') ∧
    ∀ x, pd_blk d' x = if decide (x = fs) then put32 (pd_blk (c_dev t) fs) (Z.to_nat (4 * c)) v
                       else pd_blk (c_dev t) x.
Proof.
  intros H2 Hv Hi Hc. destruct (read_fat_run t H2 Hv Hi) as (d1 & E1 & Hi1 & Hs1).
  destruct Hfr as [Hd Ht _ _ Hdt _ _ _ _ _]. unfold MountedDrive_size in *.
  destruct (pd_blk_ok (c_dev t) fs) as [Hl Hb]. set (bs := pd_blk (c_dev t) fs) in *.
  unfold update_fat_entry. rewrite (bind_done _ _ _ _ _ E1). set (t1 := set_mem _ _).
  set (m2 := store32 (store_bytes (c_mem t) fat_table bs) (fat_table + 4 * c) v). set (t2 := set_mem m2 t1).
  rewrite (bind_done _ _ _ tt t2) by (unfold st32, modify; by rewrite u32_id by lia).
  assert (∀ a n, apart a n fat_table 512 → same_on a n (c_mem t) m2) as Hsame.
  { intros a n Ha. unfold apart in Ha. transitivity (store_bytes (c_mem t) fat_table bs).
    - apply same_on_store. rewrite Hl. done.
    - apply same_on_store32. unfold apart. lia. }
  assert (vol m2) as Hv2 by (eapply vol_same; [apply Hsame; unfold apart in *; lia|done]).
  rewrite (bind_done _ _ t2 fs t2)
    by (unfold ld32, gets, fat_start_at; rewrite (u32_id (drive + 92)) by lia; change (c_mem t2) with m2; by rewrite (v_start _ _ _ _ _ Hv2)).
  change (2 ^ 24) with 16777216 in Hfs.
  assert (u32 (fs + u32 (c * FAT_ENTRY_SIZE) / BLOCK_SIZE) = fs) as ->.
  { unfold FAT_ENTRY_SIZE, BLOCK_SIZE. rewrite (u32_id (c * 4)), Z.div_small, u32_id by lia. lia. }
  destruct (write_block_run fuel fs fat_table t2 Hfuel ltac:(lia) ltac:(lia) ltac:(lia) Hi1) as (d2 & E2 & Hx & Hw & Hd2).
  exists m2, d2. split_and!; [exact E2|by eapply after_write_idle|done|].
  intros x. rewrite Hd2. case_decide.
  - change (c_mem t2) with m2. unfold m2. rewrite <-Hl. replace (4 * c) with (Z.of_nat (Z.to_nat (4 * c))) at 1 by lia.
    apply load_put32; [done|lia].
  - change (c_dev t2) with d1. unfold pd_blk. by rewrite (Hs1 x).
Qed.

(** ** Adding a file *)

Lemma strncpy_to_run dst s r n t :
  is_str s → Z.of_nat (length s) < n → 0 ≤ dst < 4294967296 →
  strncpy_to dst (s ++ 0 :: r) n t =
  Done tt (set_mem (store_bytes (c_mem t) dst (s ++ replicate (S (Z.to_nat n) - length s) 0)) t).
Proof.
  intros Hs Hn Hd. unfold strncpy_to, bind, gets. rewrite u32_id by lia.
  rewrite strncpy_short by (rewrite ?length_load_bytes; done || lia).
  rewrite (drop_ge (load_bytes _ _ _)) by (rewrite length_load_bytes; lia). rewrite app_nil_r.
  unfold st_bytes, modify. by rewrite u32_id by lia.
Qed.

(** A directory entry as the bytes of a [FileEntry]. *)
Definition file_bytes (name : list Z) (size c : Z) : list Z :=
  name ++ replicate (32 - length name) 0 ++ bytes32 size ++ bytes32 c.

Section Add.
Variables (name content nr cr : list Z) (c count : Z).
Hypothesis Hname : is_str name.
Hypothesis Hnl : (length name < 32)%nat.
Hypothesis Hcontent : is_str content.
Hypothesis Hcl : (length content < 512)%nat.
Hypothesis H2 : (2 ≤ fuel)%nat.
Hypothesis Hds : 0 ≤ ds.
Hypothesis Hmax : ds + (c - 2) < 2 ^ 24.
Hypothesis Hne : ds + (c - 2) ≠ fs.
Hypothesis Hcount : 0 ≤ count < 128.

(** The entry on the stack when its members have been assigned. *)
Lemma new_file_bytes m T :
  apart fat_table 512 new_file 40 → length T = 512%nat →
  load_bytes (store32 (store_bytes (store32 (store_bytes m new_file (name ++ replicate (33 - length name) 0))
    (new_file + 32) (Z.of_nat (length content))) fat_table T) (new_file + 36) c) new_file 40 =
  file_bytes name (Z.of_nat (length content)) c.
Proof.
  intros Ha HT. unfold apart in Ha. set (m1 := store_bytes m new_file _). unfold file_bytes.
  change 40%nat with (32 + (4 + 4))%nat. rewrite !load_bytes_app, (app_assoc name). f_equal; [|f_equal].
  - unfold store32. rewrite !load_store_bytes_disjoint by (rewrite ?length_bytes32; lia). unfold m1.
    assert (bytes_ok (name ++ replicate (33 - length name) 0)) as Hb by (apply Forall_app; split; [by apply is_str_bytes|apply zeros_ok]).
    rewrite load_store_prefix by (done || rewrite length_app, length_replicate; lia).
    rewrite take_app_ge by lia. f_equal. rewrite take_replicate. f_equal. lia.
  - change (Z.of_nat 32) with 32. unfold store32 at 1. rewrite !load_store_bytes_disjoint by (rewrite ?length_bytes32; lia).
    apply load_bytes_store32.
  - change (Z.of_nat 32) with 32. change (Z.of_nat 4) with 4. rewrite <-Z.add_assoc. apply load_bytes_store32.
Qed.
(** The disk with the file on it. *)
Definition with_file d (x : Z) : list Z :=
  if decide (x = fs) then put32 (pd_blk d fs) (Z.to_nat (4 * c)) 0xFFFFFFFF
  else if decide (x = ds + (c - 2)) then content ++ replicate (512 - length content) 0
  else pd_blk d x.

(** The first half: the entry on the stack and the content on the disk. *)
Lemma add_content_run t :
  vol (c_mem t) → idle (c_dev t) → first_free (pd_blk (c_dev t) fs) c →
  ∃ m' d', (∀ k, (strncpy_to new_file (name ++ 0 :: nr) MAX_FILENAME_LENGTH ;;
      st32 (entry_size_at new_file) (Z.of_nat (length content)) ;;
      let! cluster := find_free_cluster fat_table fuel drive in
      st32 (start_cluster_at new_file) cluster ;;
      st_bytes buffer (replicate (Z.to_nat BLOCK_SIZE) 0) ;;
      strncpy_to buffer (content ++ 0 :: cr) BLOCK_SIZE ;;
      let! x := ld32 (start_cluster_at new_file) in
      write_cluster fuel x buffer drive ;; k) t = k (set_mem m' (set_dev d' t)) :> outcome (con D) unit) ∧
    idle d' ∧ same_on drive MountedDrive_size (c_mem t) m' ∧
    load_bytes m' new_file 40 = file_bytes name (Z.of_nat (length content)) c ∧
    ∀ x, pd_blk d' x = if decide (x = ds + (c - 2)) then content ++ replicate (512 - length content) 0
                       else pd_blk (c_dev t) x.
Proof.
  intros Hv Hi Hff. pose proof Hff as (Hc & _). destruct (pd_blk_ok (c_dev t) fs) as [Hl Hb].
  destruct Hfr as [Hd Ht Hbu Hnf Hdt Hdb Hdn Htb Htn Hbn]. unfold MountedDrive_size, FileEntry_size in *.
  set (N := name ++ replicate (33 - length name) 0). set (C := content ++ replicate (513 - length content) 0).
  assert (length N = 33%nat) as HN by (unfold N; rewrite length_app, length_replicate; lia).
  assert (length C = 513%nat) as HC by (unfold C; rewrite length_app, length_replicate; lia).
  assert (bytes_ok C) as HCb by (apply Forall_app; split; [by apply is_str_bytes|apply zeros_ok]).
  set (m1 := store_bytes (c_mem t) new_file N). set (m2 := store32 m1 (new_file + 32) (Z.of_nat (length content))).
  assert (same_on drive 5224 (c_mem t) m2) as S2.
  { transitivity m1; [apply same_on_store|apply same_on_store32]; unfold apart in *; lia. }
  set (t2 := set_mem m2 t). assert (vol (c_mem t2)) as Hv2.
  { eapply vol_same; [|exact Hv]. eapply same_on_sub; [| |exact S2]; lia. }
  destruct (find_free_run t2 c H2 Hv2 Hi Hff) as (d3 & E3 & Hi3 & Hs3). change (c_dev t2) with (c_dev t) in *.
  set (T := pd_blk (c_dev t) fs) in *. set (m3 := store_bytes m2 fat_table T). change (c_mem t2) with m2 in E3. fold m3 in E3.
  set (m4 := store32 m3 (new_file + 36) c). set (m5 := store_bytes m4 buffer (replicate (Z.to_nat BLOCK_SIZE) 0)).
  set (m6 := store_bytes m5 buffer C).
  assert (∀ a n, apart a n buffer 513 → same_on a n m4 m6) as S46.
  { intros a n Ha. transitivity m5; apply same_on_store; [|by rewrite HC].
    rewrite length_replicate. unfold apart in *. change (Z.of_nat (Z.to_nat BLOCK_SIZE)) with 512. lia. }
  assert (same_on drive 5224 (c_mem t) m6) as S6.
  { transitivity m2; [done|]. transitivity m3; [apply same_on_store; rewrite Hl; unfold apart in *; lia|].
    transitivity m4; [apply same_on_store32; unfold apart in *; lia|]. apply S46. unfold apart in *. lia. }
  assert (load_bytes m6 new_file 40 = file_bytes name (Z.of_nat (length content)) c) as HE.
  { rewrite <-(new_file_bytes (c_mem t) T Htn Hl). apply same_on_bytes, S46. unfold apart in *. lia. }
  assert (load32 m6 (new_file + 36) = c) as Hc6.
  { rewrite (same_on_load32 (new_file + 36) 4 m4 m6) by (try apply S46; unfold apart in *; lia).
    unfold m4. rewrite load32_store32. apply u32_id. lia. }
  set (t6 := set_mem m6 (set_dev d3 t)). assert (vol (c_mem t6)) as Hv6.
  { eapply vol_same; [|exact Hv]. eapply same_on_sub; [| |exact S6]; lia. }
  destruct (write_cluster_run c ltac:(lia) Hds Hmax buffer t6 Hv6 Hi3 ltac:(lia) ltac:(lia)) as (d7 & E7 & Hi7 & Hd7).
  exists m6, d7. split_and!; [|done|exact S6|exact HE|].
  - intros k. rewrite (bind_done _ _ _ tt (set_mem m1 t)) by (apply (strncpy_to_run new_file name nr 32 t); done || lia).
    unfold entry_size_at, start_cluster_at, MAX_FILENAME_LENGTH.
    rewrite (bind_done _ _ _ tt t2) by (unfold st32, modify; rewrite (u32_id (new_file + 32)) by lia; done).
    rewrite (bind_done _ _ _ _ _ E3). set (t3 := set_mem m3 _).
    rewrite (bind_done _ _ _ tt (set_mem m4 t3)) by (unfold st32, modify; rewrite (u32_id (new_file + 36)) by lia; done).
    rewrite (bind_done _ _ _ tt (set_mem m5 t3)) by (unfold st_bytes, modify; rewrite (u32_id buffer) by lia; done).
    rewrite (bind_done _ _ _ tt t6) by (apply (strncpy_to_run buffer content cr 512 (set_mem m5 t3)); done || lia).
    rewrite (bind_done _ _ _ c t6) by (unfold ld32, gets; rewrite (u32_id (new_file + 36)) by lia; change (c_mem t6) with m6; by rewrite Hc6).
    by rewrite (bind_done _ _ _ _ _ E7).
  - intros x. rewrite Hd7. case_decide.
    + change (c_mem t6) with m6. unfold m6. rewrite load_store_prefix by (done || lia). unfold C.
      rewrite take_app_ge by lia. f_equal. rewrite take_replicate. f_equal. lia.
    + change (c_dev t6) with d3. unfold pd_blk. by rewrite (Hs3 x).
Qed.
Lemma add_file_run t :
  vol (c_mem t) → idle (c_dev t) → first_free (pd_blk (c_dev t) fs) c → load32 (c_mem t) (drive + 100) = count →
  ∃ m' d', add_file fat_table buffer new_file fuel drive (name ++ 0 :: nr) (content ++ 0 :: cr) t =
      Done tt (set_mem m' (set_dev d' t)) ∧
    idle d' ∧ (∀ x, pd_blk d' x = with_file (c_dev t) x) ∧
    load32 m' (drive + 100) = count + 1 ∧
    load_bytes m' (files_at (root_directory_at drive) count) 40 = file_bytes name (Z.of_nat (length content)) c ∧
    same_on drive 100 (c_mem t) m' ∧
    ∀ i, 0 ≤ i < 128 → i ≠ count → same_on (files_at (root_directory_at drive) i) 40 (c_mem t) m'.
Proof.
  intros Hv Hi Hff Hcnt. pose proof Hff as (Hc & _).
  destruct (add_content_run t Hv Hi Hff) as (m1 & d1 & E1 & Hi1 & S1 & HE1 & Hd1).
  set (t1 := set_mem m1 (set_dev d1 t)) in *. destruct Hfr as [Hd Ht Hbu Hnf Hdt Hdb Hdn Htb Htn Hbn].
  unfold MountedDrive_size, FileEntry_size in *.
  assert (vol (c_mem t1)) as Hv1.
  { eapply vol_same; [|exact Hv]. eapply same_on_sub; [| |exact S1]; lia. }
  destruct (update_fat_run t1 c 0xFFFFFFFF H2 Hv1 Hi1 ltac:(lia)) as (m2 & d2 & E2 & Hi2 & S2 & Hd2).
  change (c_mem t1) with m1 in S2. set (t2 := set_mem m2 (set_dev d2 t1)) in *.
  assert (same_on drive 5224 (c_mem t) m2) as S02 by (transitivity m1; [done|apply S2; unfold apart in *; lia]).
  assert (load_bytes m2 new_file 40 = file_bytes name (Z.of_nat (length content)) c) as HE2.
  { rewrite <-HE1. apply same_on_bytes, S2. unfold apart in *. lia. }
  assert (load32 m1 (new_file + 36) = c) as Hc1.
  { assert (load_bytes m1 (new_file + 36) 4 = bytes32 c) as H4.
    { unfold file_bytes in HE1. change 40%nat with (36 + 4)%nat in HE1. rewrite load_bytes_app, !app_assoc in HE1.
      apply app_inj_2 in HE1; [apply HE1|done]. }
    rewrite (load32_bytes _ _ _ H4). apply u32_id. lia. }
  assert (load32 m2 (drive + 100) = count) as Hcnt2
    by (rewrite <-Hcnt; apply (same_on_load32 _ _ _ _ _ S02); lia).
  set (m3 := store32 m2 (drive + 100) (count + 1)). set (E := file_bytes name (Z.of_nat (length content)) c) in *.
  assert (load_bytes m3 new_file 40 = E) as HE3.
  { rewrite <-HE2. apply same_on_bytes, same_on_store32. unfold apart in *. lia. }
  assert (length E = 40%nat) as HEl by (rewrite <-HE3; apply length_load_bytes).
  set (m4 := store_bytes m3 (files_at (root_directory_at drive) count) E).
  assert (∀ a n, drive ≤ a → a + n ≤ drive + 5224 → apart a n (drive + 100) 4 →
    apart a n (files_at (root_directory_at drive) count) 40 → same_on a n (c_mem t) m4) as S4.
  { intros a n Ha1 Ha2 Ha3 Ha4. transitivity m2; [eapply same_on_sub; [| |exact S02]; lia|].
    transitivity m3; [by apply same_on_store32|]. apply same_on_store. by rewrite HEl. }
  exists m4, d2. unfold files_at, root_directory_at, FileEntry_size in *. split_and!; [|done| | | | |].
  - unfold add_file, strlen. rewrite strlen_from_str by done. rewrite Z.add_0_l.
    etransitivity; [apply E1|]. unfold start_cluster_at, file_count_at, root_directory_at.
    rewrite (bind_done _ _ t1 c t1) by (unfold ld32, gets; rewrite (u32_id (new_file + 36)) by lia; change (c_mem t1) with m1; by rewrite Hc1).
    rewrite (bind_done _ _ _ _ _ E2).
    rewrite (bind_done _ _ t2 count t2) by (unfold ld32, gets; rewrite (u32_id (drive + 100)) by lia; change (c_mem t2) with m2; by rewrite Hcnt2).
    rewrite (bind_done _ _ t2 tt (set_mem m3 t2)) by (unfold st32, modify; rewrite (u32_id (drive + 100)) by lia; done).
    rewrite (bind_done _ _ _ E (set_mem m3 t2)).
    2: { unfold gets. rewrite (u32_id new_file) by lia. change (Z.to_nat FileEntry_size) with 40%nat.
         change (c_mem (set_mem m3 t2)) with m3. by rewrite HE3. }
    unfold st_bytes, modify, files_at, FileEntry_size. rewrite u32_id by lia. reflexivity.
  - intros x. rewrite Hd2. change (c_dev t1) with d1. unfold with_file. rewrite !Hd1.
    repeat case_decide; done || lia.
  - rewrite (same_on_load32 (drive + 100) 4 m3 m4); [|apply same_on_store; rewrite HEl; unfold apart; lia|lia|lia].
    unfold m3. rewrite load32_store32. apply u32_id. lia.
  - unfold m4. rewrite <-HEl at 1. apply load_store_bytes_same. rewrite <-HE3. apply load_bytes_ok.
  - apply S4; unfold apart; lia.
  - intros i Hi0 Hic. apply S4; unfold apart; lia.
Qed.
End Add.
End Files.

(** * Looking a file up *)

Lemma strcmp_equal name : ∀ l,
  is_str name → length l = S (length name) →
  ∃ r, strcmp l (name ++ [0]) = Some r ∧ (r = 0 ↔ l = name ++ [0]).
Proof.
  induction name as [|b name IH]; intros [|x l] Hs Hl; try done; simpl in *.
  - destruct l; [|done]. exists (x - 0). rewrite andb_comm. destruct (Z.eqb_spec x 0) as [->|Hx]; simpl.
    + by exists.
    + split; [done|]. split; [lia|intros [= ->]; done].
  - inversion Hs as [|? ? Hb Hs']; subst. destruct (Z.eqb_spec x b) as [->|Hx].
    + rewrite (proj2 (Z.eqb_neq b 0)) by lia. simpl. destruct (IH l Hs' ltac:(lia)) as (r & -> & Hr).
      exists r. split; [done|]. rewrite Hr. split; [by intros ->|by intros [= ->]].
    + rewrite andb_false_r. exists (x - b). split; [done|]. split; [lia|intros [= ->]; lia].
Qed.

Lemma mem_cstr_run s : ∀ f m a r,
  is_str s → (length s < f)%nat → 0 ≤ a → a + Z.of_nat (length s) < 4294967296 →
  load_bytes m a (length (s ++ 0 :: r)) = s ++ 0 :: r → mem_cstr f m a = Some s.
Proof.
  induction s as [|b s IH]; intros [|f] m a r Hs Hf Ha Hmax E; simpl in *; try lia.
  - injection E as E0 E1. rewrite u32_id by lia. by rewrite E0.
  - injection E as E0 E1. apply Forall_cons in Hs as [Hb Hs']. rewrite u32_id by lia. rewrite E0, (proj2 (Z.eqb_neq b 0)) by lia.
    by rewrite (IH f m (a + 1) r) by (done || lia).
Qed.

Section Lookup.
Context {D : Type} `{HP : PortIO D} `{HD : !PortDisk D} `{HPr : !PromptDisk D}.
Implicit Types t : con D.
Variables (drive fat_table buffer new_file : Z) (fuel : nat).
Hypothesis Hfr : frame_ok drive fat_table buffer new_file.

Lemma write_loop_run filename content n : ∀ i t slot,
  0 ≤ i ≤ slot → slot < i + Z.of_nat n → slot < 128 →
  load32 (c_mem t) (entry_size_at (files_at (root_directory_at drive) slot)) = 0 →
  write_loop fat_table buffer new_file fuel n i drive filename content t =
  add_file fat_table buffer new_file fuel drive filename content t.
Proof.
  destruct Hfr as [Hd _ _ _ _ _ _ _ _ _]. unfold MountedDrive_size, entry_size_at, files_at, root_directory_at, FileEntry_size, MAX_FILENAME_LENGTH in *.
  induction n as [|n IH]; intros i t slot Hi Hn Hs Hz; [lia|]. cbn [write_loop].
  unfold entry_size_at, files_at, root_directory_at, FileEntry_size, MAX_FILENAME_LENGTH.
  rewrite (bind_done _ _ t (load32 (c_mem t) (drive + 100 + 4 + 40 * i + 32)) t)
    by (unfold ld32, gets; by rewrite u32_id by lia).
  destruct (decide (i = slot)) as [->|Hne]; [by rewrite Hz|].
  destruct (load32 _ _ =? 0); [done|]. apply (IH _ _ slot); done || lia.
Qed.

Lemma lookup_run name count n : ∀ i t,
  is_str name → 0 ≤ i ≤ count → count < i + Z.of_nat n → count < 128 → (length name < 32)%nat →
  (∀ j, i ≤ j < count → load_bytes (c_mem t) (files_at (root_directory_at drive) j) (S (length name)) ≠ name ++ [0]) →
  load_bytes (c_mem t) (files_at (root_directory_at drive) count) (S (length name)) = name ++ [0] →
  lookup_loop buffer fuel n i drive (name ++ [0]) t =
  show_file buffer fuel drive (files_at (root_directory_at drive) count) t.
Proof.
  destruct Hfr as [Hd _ _ _ _ _ _ _ _ _]. unfold MountedDrive_size in Hd.
  induction n as [|n IH]; intros i t Hs Hi Hn Hc Hl Hno Hyes; [lia|]. cbn [lookup_loop].
  assert (length (name ++ [0]) = S (length name)) as Hlen by (rewrite length_app; simpl; lia).
  set (file := files_at (root_directory_at drive) i).
  rewrite (bind_done _ _ t (load_bytes (c_mem t) file (S (length name))) t).
  2: { unfold gets. rewrite Hlen, (u32_id file); [done|]. unfold file, files_at, root_directory_at, FileEntry_size. lia. }
  destruct (strcmp_equal name (load_bytes (c_mem t) file (S (length name))) Hs) as (r & -> & Hr);
    [apply length_load_bytes|].
  destruct (Z.eqb_spec r 0) as [Hz|Hz].
  - destruct (decide (i = count)) as [->|Hne]; [done|]. exfalso. apply (Hno i ltac:(lia)). by apply Hr.
  - destruct (decide (i = count)) as [->|Hne]; [exfalso; by apply Hz, Hr|].
    apply IH; try done; try lia. intros j Hj. apply Hno. lia.
Qed.

Lemma show_file_run fs ds total content file c t :
  (pd_max ≤ fuel)%nat → (512 ≤ fuel)%nat → 0 ≤ ds → 2 ≤ c → ds + (c - 2) < 2 ^ 24 →
  volume drive fs ds total (c_mem t) → idle (c_dev t) → is_str content → (length content < 512)%nat →
  pd_blk (c_dev t) (ds + (c - 2)) = content ++ replicate (512 - length content) 0 →
  drive ≤ file → file + 40 ≤ drive + MountedDrive_size → load32 (c_mem t) (start_cluster_at file) = c →
  ∃ m' d', show_file buffer fuel drive file t = terminal_writestring content (set_mem m' (set_dev d' t)) ∧
    ∀ a n, apart a n buffer 513 → same_on a n (c_mem t) m'.
Proof.
  intros Hf Hf2 Hds Hc Hmax Hv Hi Hs Hl Hblk Hlo Hhi Hcl. pose proof Hfr as [Hd _ Hb _ _ Hdb _ _ _ _].
  unfold MountedDrive_size, start_cluster_at in *. unfold show_file. set (m1 := store_bytes (c_mem t) buffer (replicate 512 0)).
  rewrite (bind_done _ _ _ tt (set_mem m1 t)) by (unfold st_bytes, modify; by rewrite (u32_id buffer) by lia).
  assert (∀ a n, apart a n buffer 513 → same_on a n (c_mem t) m1) as S1.
  { intros a n Ha. apply same_on_store. rewrite length_replicate. unfold apart in *. lia. }
  assert (volume drive fs ds total m1) as Hv1.
  { eapply (vol_same drive fs ds total); [|exact Hv]. apply S1. unfold apart in *. lia. }
  rewrite (bind_done _ _ _ c (set_mem m1 t)).
  2: { unfold ld32, gets, start_cluster_at. rewrite (u32_id (file + 36)) by lia. cbn [c_mem set_mem]. f_equal. rewrite <-Hcl.
       apply (same_on_load32 drive 5224); [apply S1|..]; unfold apart in *; lia. }
  destruct (read_cluster_run drive fat_table buffer new_file fs ds total fuel Hfr Hf c Hc Hds Hmax (set_mem m1 t) Hv1 Hi)
    as (d2 & E2 & _ & _). change (c_dev (set_mem m1 t)) with (c_dev t) in E2. change (c_mem (set_mem m1 t)) with m1 in E2.
  rewrite Hblk in E2. rewrite (bind_done _ _ _ _ _ E2). set (B := content ++ replicate (512 - length content) 0) in *.
  assert (length B = 512%nat) as HB by (unfold B; rewrite length_app, length_replicate; lia).
  set (m2 := store_bytes m1 buffer B). exists m2, d2. split.
  - unfold bind, gets. change (c_mem _) with m2.
    rewrite (mem_cstr_run content fuel m2 buffer (replicate (511 - length content) 0)); try done; try lia.
    assert (content ++ 0 :: replicate (511 - length content) 0 = B) as ->.
    { unfold B. replace (512 - length content)%nat with (S (511 - length content)) by lia. done. }
    apply load_store_bytes_same. apply Forall_app; split; [by apply is_str_bytes|apply zeros_ok].
  - intros a n Ha. transitivity m1; [by apply S1|]. apply same_on_store. rewrite HB. unfold apart in *. lia.
Qed.
End Lookup.

(** * Theorems *)


(** An empty volume: table in sector 1, data from sector 2 on, ten sectors. *)
Definition demo_volume (drive : Z) : memory :=
  store32 (store32 (store32 (store32 (store8 (store8 ∅ (drive + 14) 1) (drive + 17) 1) (drive + 33) 10)
    (drive + 37) 1) (drive + 92) 1) (drive + 96) 2.


(** A volume with a table of two sectors, 1 and 2, of which the second is in use. *)
Definition demo_two : con (dsk 0) :=
  demo_tty (store32 (demo_volume 0x200000) (0x200000 + 37) 2) (demo_dsk 0 {[1 := [7]; 2 := [9]]}).

(** [update_fat_entry] for a cluster of the second table sector writes the first
    sector of the table over the second: the entry is not set and the entries
    that were there are lost. *)
Theorem update_fat_entry_clobbers :
  ∃ t', update_fat_entry 0x300000 100 130 0xFFFFFFFF 0x200000 demo_two = Done tt t' ∧
    take 1 (pd_sector (c_dev demo_two) 2) = [9] ∧
    pd_sector (c_dev t') 2 = pd_sector (c_dev demo_two) 1.
Proof.
  assert (match update_fat_entry 0x300000 100 130 0xFFFFFFFF 0x200000 demo_two with
    | Done _ t1 => pd_sector (c_dev t1) 2 = pd_sector (c_dev demo_two) 1 | Stop _ _ => False end) as Hx
    by (vm_compute; reflexivity).
  destruct (update_fat_entry 0x300000 100 130 0xFFFFFFFF 0x200000 demo_two) as [[] t'|]; [|contradiction].
  exists t'. split; [reflexivity|]. split; [reflexivity|exact Hx].
Qed.
