(* ===== verification/Arm.v ===== *)
(** The UART stubs at the top of src/kernel/arch/i386/tty.c, for a board with a
    PL011 at 0x101f0000. Its registers are memory-mapped and volatile: an access
    goes to the device, the class [Mmio]. *)
From S2P Require Import Prelude Machine CString AtaPio.

Class Mmio (D : Type) := {
  mmio_read : Z → D → Z * D;
  mmio_write : Z → Z → D → D;
}.

Definition UART0_BASE : Z := 0x101f0000.
Definition UART0DR : Z := UART0_BASE + 0x00.
Definition UART0FR : Z := UART0_BASE + 0x18.
Definition UART0IBRD : Z := UART0_BASE + 0x24.
Definition UART0FBRD : Z := UART0_BASE + 0x28.
Definition UART0LCRH : Z := UART0_BASE + 0x2C.
Definition UART0CR : Z := UART0_BASE + 0x30.

Section Uart0.
Context {D : Type} `{Mmio D}.

(** [*reg] and [*reg = v] on a [volatile uint32_t]. *)
Definition reg_get (reg : Z) : M D Z := λ d, let '(v, d') := mmio_read reg d in Done (u32 v) d'.
Definition reg_set (reg v : Z) : M D unit := λ d, Done tt (mmio_write reg (u32 v) d).

Definition uart_init : M D unit :=
  reg_set UART0CR 0x00000000 ;;
  reg_set UART0IBRD 1 ;;
  reg_set UART0FBRD 40 ;;
  reg_set UART0LCRH (Z.lor (1 ≪ 5) (1 ≪ 6)) ;;
  reg_set UART0CR (Z.lor (Z.lor (1 ≪ 0) (1 ≪ 8)) (1 ≪ 9)).

(** [while ( *UART0FR & (1 << 5)) {}] *)
Fixpoint wait_room (f : nat) : M D unit :=
  match f with
  | O => raise OutOfFuel
  | S f' => let! fr := reg_get UART0FR in if Z.land fr (1 ≪ 5) =? 0 then ret tt else wait_room f'
  end.

(** [c] is the byte of a [char], which is signed. *)
Definition uart_putc (f : nat) (c : Z) : M D unit := wait_room f ;; reg_set UART0DR (s8 c).

Fixpoint uart_puts (f : nat) (s : list Z) : M D unit :=
  match s with
  | [] => raise OutOfBounds
  | c :: s' => if c =? 0 then ret tt else uart_putc f c ;; uart_puts f s'
  end.
End Uart0.

(** The documented PL011: bit 5 of FR is set as long as the transmit FIFO is
    full, for fewer than [pl_max] reads; a write of DR when it is not sends the
    low byte; CR and LCRH hold what is written. *)
Class Pl011 (D : Type) `{Mmio D} := {
  pl_sent : D → list Z;
  pl_full : D → nat;
  pl_max : nat;
  pl_cr : D → Z;
  pl_lcrh : D → Z;
  pl_full_max : ∀ d, (pl_full d < pl_max)%nat;
  pl_flags : ∀ d, let '(v, d') := mmio_read UART0FR d in
    0 ≤ v < 4294967296 ∧ Z.testbit v 5 = negb (pl_full d =? 0)%nat ∧
    pl_full d' = Nat.pred (pl_full d) ∧ pl_sent d' = pl_sent d;
  pl_data : ∀ d v, pl_full d = 0%nat → pl_sent (mmio_write UART0DR v d) = pl_sent d ++ [u8 v];
  pl_control : ∀ d v, let d' := mmio_write UART0CR v d in
    pl_cr d' = v ∧ pl_lcrh d' = pl_lcrh d ∧ pl_sent d' = pl_sent d;
  pl_line : ∀ d v, let d' := mmio_write UART0LCRH v d in
    pl_lcrh d' = v ∧ pl_cr d' = pl_cr d ∧ pl_sent d' = pl_sent d;
  pl_baud : ∀ d r v, r = UART0IBRD ∨ r = UART0FBRD → let d' := mmio_write r v d in
    pl_cr d' = pl_cr d ∧ pl_lcrh d' = pl_lcrh d ∧ pl_sent d' = pl_sent d;
}.

Section Facts.
Context {D : Type} `{HM : Mmio D} `{HP : !Pl011 D}.
Implicit Types d : D.

Lemma wait_room_run f d :
  (pl_full d < f)%nat → ∃ d', wait_room f d = Done tt d' ∧ pl_full d' = 0%nat ∧ pl_sent d' = pl_sent d.
Proof.
  revert d; induction f as [|f IH]; intros d Hf; [lia|]. cbn [wait_room].
  pose proof (pl_flags d) as HF. destruct (mmio_read UART0FR d) as [v d1] eqn:E.
  destruct HF as (Hv & Hbit & Hb & Hs).
  rewrite (bind_done _ _ d v d1) by (unfold reg_get; rewrite E; by rewrite u32_id).
  change (1 ≪ 5) with (2 ^ 5). rewrite land_bit, Hbit by lia.
  destruct (Nat.eqb_spec (pl_full d) 0) as [Hz|Hz]; cbn [negb].
  - exists d1. split_and!; [done|lia|done].
  - destruct (IH d1) as (d2 & E2 & H2 & Hs2); [lia|]. exists d2. split_and!; [done|done|congruence].
Qed.

Lemma uart_putc_run f c d :
  (pl_max ≤ f)%nat → byte_ok c → ∃ d', uart_putc f c d = Done tt d' ∧ pl_sent d' = pl_sent d ++ [c].
Proof.
  intros Hf Hc. destruct (wait_room_run f d) as (d1 & E1 & Hz & Hs); [pose proof (pl_full_max d); lia|].
  unfold uart_putc. rewrite (bind_done _ _ _ _ _ E1). eexists. split; [reflexivity|].
  rewrite pl_data, Hs by done. do 2 f_equal. by_bytes c.
Qed.
End Facts.

(** A PL011 whose FIFO is full for one read after each character. *)
Record board := Board { b_sent : list Z; b_full : bool; b_cr : Z; b_lcrh : Z }.

#[export] Instance board_mmio : Mmio board := {|
  mmio_read r d := if r =? UART0FR then (if b_full d then 32 else 0, Board (b_sent d) false (b_cr d) (b_lcrh d)) else (0, d);
  mmio_write r v d :=
    if r =? UART0DR then (if b_full d then d else Board (b_sent d ++ [u8 v]) true (b_cr d) (b_lcrh d))
    else if r =? UART0CR then Board (b_sent d) (b_full d) v (b_lcrh d)
    else if r =? UART0LCRH then Board (b_sent d) (b_full d) (b_cr d) v else d;
|}.

#[export, refine] Instance board_pl011 : Pl011 board := {|
  pl_sent := b_sent; pl_full d := if b_full d then 1%nat else 0%nat; pl_max := 2%nat; pl_cr := b_cr; pl_lcrh := b_lcrh;
|}.
Proof.
  - intros d. destruct (b_full d); lia.
  - intros [s [|] cr l]; simpl; done.
  - intros [s [|] cr l] v Hz; simpl in *; done.
  - done.
  - done.
  - intros d r v [-> | ->]; done.
Defined.

(** * Theorems *)

(** The ARM console: on any PL011 that behaves as documented, [uart_puts]
    returns and sends exactly the characters before the terminator, in order,
    characters above 127 included although [char] is signed. *)
Theorem uart_puts_sends `{Pl011 D} f s r (d : D) :
  (pl_max ≤ f)%nat → is_str s →
  ∃ d', uart_puts f (s ++ 0 :: r) d = Done tt d' ∧ pl_sent d' = pl_sent d ++ s.
Proof.
  intros Hf Hs. revert d; induction Hs as [|c s Hc Hs IH]; intros d; cbn [uart_puts app].
  { exists d. by rewrite app_nil_r. }
  rewrite (proj2 (Z.eqb_neq c 0)) by lia.
  destruct (uart_putc_run f c d Hf ltac:(unfold byte_ok; lia)) as (d1 & E1 & H1').
  rewrite (bind_done _ _ _ _ _ E1). destruct (IH d1) as (d2 & E2 & H2). exists d2. split; [done|].
  by rewrite H2, H1', <-app_assoc.
Qed.

Lemma uart_puts_sends_witness :
  ∃ d', uart_puts 2 (str "boot" ++ [0]) (Board [] false 0 0) = Done tt d' ∧ pl_sent d' = str "boot".
Proof.
  destruct (@uart_puts_sends board board_mmio board_pl011 2 (str "boot") [] (Board [] false 0 0) (Nat.le_refl 2) ltac:(repeat constructor))
    as (d' & E & Hd). exists d'. split; [exact E|exact Hd].
Defined.

(** [uart_init] leaves the UART on with 8-bit words; bit 4 of LCRH, which enables
    the FIFOs, stays 0, whatever the comment says. *)
Theorem uart_init_line `{Pl011 D} (d : D) :
  ∃ d', uart_init d = Done tt d' ∧ pl_cr d' = 0x301 ∧ pl_lcrh d' = 0x60 ∧
    Z.testbit (pl_lcrh d') 4 = false ∧ pl_sent d' = pl_sent d.
Proof.
  eexists. split; [reflexivity|].
  set (d1 := mmio_write UART0CR _ d). set (d2 := mmio_write UART0IBRD _ d1). set (d3 := mmio_write UART0FBRD _ d2).
  set (d4 := mmio_write UART0LCRH _ d3). set (d5 := mmio_write UART0CR _ d4).
  destruct (pl_control d (u32 0)) as (_ & _ & S1). destruct (pl_baud d1 UART0IBRD (u32 1)) as (_ & _ & S2); [by left|].
  destruct (pl_baud d2 UART0FBRD (u32 40)) as (_ & _ & S3); [by right|].
  destruct (pl_line d3 (u32 (Z.lor (1 ≪ 5) (1 ≪ 6)))) as (L4 & _ & S4).
  destruct (pl_control d4 (u32 (Z.lor (Z.lor (1 ≪ 0) (1 ≪ 8)) (1 ≪ 9)))) as (C5 & L5 & S5).
  change (pl_lcrh d4 = 0x60) in L4. change (pl_lcrh d5 = pl_lcrh d4) in L5. change (pl_cr d5 = 0x301) in C5.
  rewrite C5, L5, L4. split_and!; [done|done|done|].
  etransitivity; [exact S5|]. etransitivity; [exact S4|]. etransitivity; [exact S3|]. by etransitivity; [exact S2|].
Qed.
