(* ===== verification/Endian.v ===== *)
(** The byte order functions of src/libc/include/sys/endian.h and the device
    numbers of src/libc/include/sys/types.h.

    The encoders and decoders work on the bytes at an address and are compared
    with the positional value of those bytes. [dev_t] is the 64-bit unsigned type
    its comment lays out as MMMmmmMm, one letter per byte. *)
From S2P Require Import Prelude Machine.

Definition u64 (x : Z) : Z := x mod 18446744073709551616.

(** * Decoding and encoding *)

Definition be16dec (m : memory) (p : Z) : Z :=
  u16 (Z.lor (Z.shiftl (load8 m p) 8) (load8 m (p + 1))).

Definition be32dec (m : memory) (p : Z) : Z :=
  u32 (Z.lor (Z.lor (Z.lor (u32 (Z.shiftl (load8 m p) 24)) (Z.shiftl (load8 m (p + 1)) 16))
    (Z.shiftl (load8 m (p + 2)) 8)) (load8 m (p + 3))).

Definition be64dec (m : memory) (p : Z) : Z :=
  Z.lor (u64 (Z.shiftl (be32dec m p) 32)) (be32dec m (p + 4)).

Definition le16dec (m : memory) (p : Z) : Z :=
  u16 (Z.lor (Z.shiftl (load8 m (p + 1)) 8) (load8 m p)).

Definition le32dec (m : memory) (p : Z) : Z :=
  u32 (Z.lor (Z.lor (Z.lor (u32 (Z.shiftl (load8 m (p + 3)) 24)) (Z.shiftl (load8 m (p + 2)) 16))
    (Z.shiftl (load8 m (p + 1)) 8)) (load8 m p)).

Definition le64dec (m : memory) (p : Z) : Z :=
  Z.lor (u64 (Z.shiftl (le32dec m (p + 4)) 32)) (le32dec m p).

Definition be16enc (m : memory) (p u : Z) : memory :=
  let m := store8 m p (Z.land (Z.shiftr u 8) 0xff) in
  store8 m (p + 1) (Z.land u 0xff).

Definition be32enc (m : memory) (p u : Z) : memory :=
  let m := store8 m p (Z.land (Z.shiftr u 24) 0xff) in
  let m := store8 m (p + 1) (Z.land (Z.shiftr u 16) 0xff) in
  let m := store8 m (p + 2) (Z.land (Z.shiftr u 8) 0xff) in
  store8 m (p + 3) (Z.land u 0xff).

Definition be64enc (m : memory) (p u : Z) : memory :=
  let m := be32enc m p (u32 (Z.shiftr u 32)) in
  be32enc m (p + 4) (u32 (Z.land u 0xffffffff)).

Definition le16enc (m : memory) (p u : Z) : memory :=
  let m := store8 m p (Z.land u 0xff) in
  store8 m (p + 1) (Z.land (Z.shiftr u 8) 0xff).

Definition le32enc (m : memory) (p u : Z) : memory :=
  let m := store8 m p (Z.land u 0xff) in
  let m := store8 m (p + 1) (Z.land (Z.shiftr u 8) 0xff) in
  let m := store8 m (p + 2) (Z.land (Z.shiftr u 16) 0xff) in
  store8 m (p + 3) (Z.land (Z.shiftr u 24) 0xff).

Definition le64enc (m : memory) (p u : Z) : memory :=
  let m := le32enc m p (u32 (Z.land u 0xffffffff)) in
  le32enc m (p + 4) (u32 (Z.shiftr u 32)).

(** * Device numbers *)

Definition major (d : Z) : Z :=
  s32 (Z.lor (Z.land (Z.shiftr d 32) 0xffffff00) (Z.land (Z.shiftr d 8) 0xff)).

Definition minor (d : Z) : Z :=
  s32 (Z.lor (Z.land (Z.shiftr d 24) 0xff00) (Z.land d 0xffff00ff)).

Definition makedev (Major Minor : Z) : Z :=
  u64 (Z.lor (Z.lor (Z.lor (Z.shiftl (Z.land Major 0xffffff00) 32) (Z.shiftl (Z.land Major 0xff) 8))
    (Z.shiftl (Z.land Minor 0xff00) 24)) (Z.land Minor 0xffff00ff)).

(** * Positional values *)

Fixpoint le_value (bs : list Z) : Z := match bs with [] => 0 | b :: bs' => b + 256 * le_value bs' end.
Definition be_value (bs : list Z) : Z := le_value (reverse bs).
Fixpoint le_bytes (n : nat) (v : Z) : list Z :=
  match n with O => [] | S n' => v mod 256 :: le_bytes n' (v / 256) end.
Definition be_bytes (n : nat) (v : Z) : list Z := reverse (le_bytes n v).

Lemma le_bytes_ok n : ∀ v, bytes_ok (le_bytes n v).
Proof. induction n as [|n IH]; intros v; constructor; [unfold byte_ok; lia|apply IH]. Qed.

Lemma length_le_bytes n : ∀ v, length (le_bytes n v) = n.
Proof. induction n as [|n IH]; intros v; cbn; auto. Qed.

Lemma be_bytes_ok n v : bytes_ok (be_bytes n v).
Proof. unfold be_bytes, bytes_ok. apply Forall_reverse, le_bytes_ok. Qed.

Lemma length_be_bytes n v : length (be_bytes n v) = n.
Proof. unfold be_bytes. by rewrite length_reverse, length_le_bytes. Qed.

Lemma le_value_bytes n : ∀ v, le_value (le_bytes n v) = v mod 256 ^ Z.of_nat n.
Proof.
  induction n as [|n IH]; intros v; cbn [le_bytes le_value]; [by rewrite Z.mod_1_r|].
  rewrite IH, Nat2Z.inj_succ, Z.pow_succ_r by lia. rewrite Z.rem_mul_r; lia.
Qed.

Lemma le_bytes_value bs : bytes_ok bs → le_bytes (length bs) (le_value bs) = bs.
Proof.
  induction 1 as [|b bs Hb _ IH]; [done|]. unfold byte_ok in Hb. cbn [length le_bytes le_value]. f_equal; [lia|].
  by replace ((b + 256 * le_value bs) / 256) with (le_value bs) by lia.
Qed.

Lemma be_value_bytes n v : be_value (be_bytes n v) = v mod 256 ^ Z.of_nat n.
Proof. unfold be_value, be_bytes. rewrite reverse_involutive. apply le_value_bytes. Qed.

Lemma be_bytes_value bs : bytes_ok bs → be_bytes (length bs) (be_value bs) = bs.
Proof.
  intros H. unfold be_bytes, be_value. rewrite <-length_reverse, le_bytes_value; [apply reverse_involutive|].
  unfold bytes_ok. by apply Forall_reverse.
Qed.

(** A multiple of [2 ^ n] beside a number below it. *)
Lemma lor_sum n a b : 0 ≤ n → a mod 2 ^ n = 0 → 0 ≤ b < 2 ^ n → Z.lor a b = a + b.
Proof.
  intros Hn Ha Hb. assert (a = a / 2 ^ n * 2 ^ n) as -> by (pose proof (Z.div_mod a (2 ^ n)); lia).
  rewrite Z.lor_comm, lor_add by done. lia.
Qed.

(** * The functions and the values *)

Section Values.
Implicit Types (m : memory) (p u : Z).

(** The shape the decoders share: four bytes from the highest to the lowest. *)
Lemma dec32 b3 b2 b1 b0 : byte_ok b3 → byte_ok b2 → byte_ok b1 → byte_ok b0 →
  u32 (Z.lor (Z.lor (Z.lor (u32 (Z.shiftl b3 24)) (Z.shiftl b2 16)) (Z.shiftl b1 8)) b0) = le_value [b0; b1; b2; b3].
Proof.
  unfold byte_ok. intros. rewrite !Z.shiftl_mul_pow2, (u32_id (b3 * _)) by lia.
  rewrite (lor_sum 24 (b3 * 2 ^ 24)) by lia. rewrite (lor_sum 16 (_ + _)) by lia. rewrite (lor_sum 8) by lia.
  rewrite u32_id by lia. cbn [le_value]. lia.
Qed.

Lemma dec64 h l : 0 ≤ h < 4294967296 → 0 ≤ l < 4294967296 → Z.lor (u64 (Z.shiftl h 32)) l = l + 4294967296 * h.
Proof.
  intros. rewrite Z.shiftl_mul_pow2 by lia. unfold u64. rewrite Z.mod_small by lia. rewrite (lor_sum 32); lia.
Qed.

Lemma dec16 b1 b0 : byte_ok b1 → byte_ok b0 → u16 (Z.lor (Z.shiftl b1 8) b0) = le_value [b0; b1].
Proof.
  unfold byte_ok. intros. rewrite Z.shiftl_mul_pow2 by lia. rewrite (lor_sum 8) by lia. rewrite u16_id by lia.
  cbn [le_value]. lia.
Qed.

Lemma le16dec_value m p : le16dec m p = le_value (load_bytes m p 2).
Proof. apply dec16; apply load8_range. Qed.
Lemma be16dec_value m p : be16dec m p = be_value (load_bytes m p 2).
Proof. apply dec16; apply load8_range. Qed.
Lemma le32dec_value m p : le32dec m p = le_value (load_bytes m p 4).
Proof.
  cbn [load_bytes]. rewrite <-!Z.add_assoc. apply dec32; apply load8_range.
Qed.
Lemma be32dec_value m p : be32dec m p = be_value (load_bytes m p 4).
Proof.
  cbn [load_bytes]. rewrite <-!Z.add_assoc. apply dec32; apply load8_range.
Qed.

Lemma le_value_app a b : le_value (a ++ b) = le_value a + 256 ^ Z.of_nat (length a) * le_value b.
Proof.
  induction a as [|x a IH]; cbn [app le_value length]; [by rewrite Z.mul_1_l|].
  rewrite IH, Nat2Z.inj_succ, Z.pow_succ_r by lia. lia.
Qed.

Lemma le32dec_range m p : 0 ≤ le32dec m p < 4294967296.
Proof. apply u32_range. Qed.
Lemma be32dec_range m p : 0 ≤ be32dec m p < 4294967296.
Proof. apply u32_range. Qed.

Lemma le64dec_value m p : le64dec m p = le_value (load_bytes m p 8).
Proof.
  unfold le64dec. rewrite dec64 by apply le32dec_range. change 8%nat with (4 + 4)%nat.
  rewrite load_bytes_app, le_value_app, length_load_bytes, !le32dec_value. done.
Qed.
Lemma be64dec_value m p : be64dec m p = be_value (load_bytes m p 8).
Proof.
  unfold be64dec. rewrite dec64 by apply be32dec_range. change 8%nat with (4 + 4)%nat. unfold be_value.
  rewrite load_bytes_app, reverse_app, le_value_app, length_reverse, length_load_bytes, !be32dec_value. done.
Qed.

(** The byte of [u] at bit [8 * n]. *)
Lemma byte_at n u : 0 ≤ n → Z.land (Z.shiftr u n) 0xff = u / 2 ^ n mod 256.
Proof. intros Hn. rewrite Z.shiftr_div_pow2 by done. by apply (Z.land_ones _ 8). Qed.
Lemma byte_0 u : Z.land u 0xff = u mod 256.
Proof. by apply (Z.land_ones _ 8). Qed.

Ltac enc := unfold be_bytes; cbn [le_bytes reverse rev_append store_bytes]; cbv zeta;
  rewrite <-?Z.add_assoc, !byte_at, !byte_0, ?Z.div_div by lia; done.

Lemma le16enc_bytes m p u : le16enc m p u = store_bytes m p (le_bytes 2 u).
Proof. unfold le16enc. enc. Qed.
Lemma be16enc_bytes m p u : be16enc m p u = store_bytes m p (be_bytes 2 u).
Proof. unfold be16enc. enc. Qed.
Lemma le32enc_bytes m p u : le32enc m p u = store_bytes m p (le_bytes 4 u).
Proof. unfold le32enc. enc. Qed.
Lemma be32enc_bytes m p u : be32enc m p u = store_bytes m p (be_bytes 4 u).
Proof. unfold be32enc. enc. Qed.

Lemma le_bytes_mod n : ∀ k v, le_bytes n (v mod 256 ^ Z.of_nat (n + k)) = le_bytes n v.
Proof.
  induction n as [|n IH]; intros k v; cbn [le_bytes Nat.add]; [done|].
  rewrite Nat2Z.inj_succ, Z.pow_succ_r by lia. rewrite Z.rem_mul_r by lia.
  set (q := (v / 256) mod _). f_equal; [lia|].
  replace ((v mod 256 + 256 * q) / 256) with q by lia. apply IH.
Qed.

Lemma le_bytes_split a : ∀ b v, le_bytes (a + b) v = le_bytes a v ++ le_bytes b (v / 256 ^ Z.of_nat a).
Proof.
  induction a as [|a IH]; intros b v; cbn [le_bytes Nat.add app]; [by rewrite Z.div_1_r|].
  rewrite IH, Nat2Z.inj_succ, Z.pow_succ_r, Z.div_div by lia. done.
Qed.

Lemma low_half u : u32 (Z.land u 0xffffffff) = u mod 256 ^ Z.of_nat (4 + 0).
Proof. change 0xffffffff with (Z.ones 32). rewrite Z.land_ones by lia. unfold u32. change (256 ^ Z.of_nat (4 + 0)) with 4294967296. lia. Qed.
Lemma high_half u : u32 (Z.shiftr u 32) = (u / 256 ^ Z.of_nat 4) mod 256 ^ Z.of_nat (4 + 0).
Proof. by rewrite Z.shiftr_div_pow2 by lia. Qed.

Lemma le64enc_bytes m p u : le64enc m p u = store_bytes m p (le_bytes 8 u).
Proof.
  unfold le64enc. rewrite !le32enc_bytes, low_half, high_half, !le_bytes_mod.
  change 8%nat with (4 + 4)%nat. rewrite le_bytes_split, store_bytes_app, length_le_bytes. done.
Qed.
Lemma be64enc_bytes m p u : be64enc m p u = store_bytes m p (be_bytes 8 u).
Proof.
  unfold be64enc. rewrite !be32enc_bytes, low_half, high_half. unfold be_bytes. rewrite !le_bytes_mod.
  change 8%nat with (4 + 4)%nat. rewrite le_bytes_split, reverse_app, store_bytes_app, length_reverse, length_le_bytes. done.
Qed.

(** An encoder and a decoder of [w] bytes in an order: the encoder writes those
    bytes and no other, and the two are inverse to each other. *)
Definition codec (w : nat) (bytes : nat → Z → list Z) (enc : memory → Z → Z → memory) (dec : memory → Z → Z) : Prop :=
  ∀ m p u, enc m p u = store_bytes m p (bytes w u) ∧ dec (enc m p u) p = u mod 256 ^ Z.of_nat w ∧
    enc m p (dec m p) ≡ₘ m.

Lemma codec_intro w bytes value enc dec :
  (∀ m p u, enc m p u = store_bytes m p (bytes w u)) → (∀ m p, dec m p = value (load_bytes m p w)) →
  (∀ u, length (bytes w u) = w ∧ bytes_ok (bytes w u)) → (∀ u, value (bytes w u) = u mod 256 ^ Z.of_nat w) →
  (∀ bs, bytes_ok bs → bytes (length bs) (value bs) = bs) → codec w bytes enc dec.
Proof.
  intros He Hd Hb Hv Hi m p u. destruct (Hb u) as [Hl Hok]. split; [done|]. split.
  - rewrite Hd, He, <-(Hv u). f_equal. rewrite <-Hl at 2. by apply load_store_bytes_same.
  - rewrite He, Hd. rewrite <-(length_load_bytes m p w) at 1. rewrite Hi by apply load_bytes_ok. apply store_load_bytes.
Qed.

Lemma codec_le w enc dec :
  (∀ m p u, enc m p u = store_bytes m p (le_bytes w u)) → (∀ m p, dec m p = le_value (load_bytes m p w)) →
  codec w le_bytes enc dec.
Proof.
  intros He Hd. apply (codec_intro w le_bytes le_value); [done|done| |apply le_value_bytes|apply le_bytes_value].
  intros u. split; [apply length_le_bytes|apply le_bytes_ok].
Qed.

Lemma codec_be w enc dec :
  (∀ m p u, enc m p u = store_bytes m p (be_bytes w u)) → (∀ m p, dec m p = be_value (load_bytes m p w)) →
  codec w be_bytes enc dec.
Proof.
  intros He Hd. apply (codec_intro w be_bytes be_value); [done|done| |apply be_value_bytes|apply be_bytes_value].
  intros u. split; [apply length_be_bytes|apply be_bytes_ok].
Qed.
End Values.

(** * Device numbers by fields *)

Lemma land_field x s w : 0 ≤ s → 0 ≤ w → Z.land x (Z.shiftl (Z.ones w) s) = (x / 2 ^ s) mod 2 ^ w * 2 ^ s.
Proof.
  intros Hs Hw. rewrite <-Z.land_ones, <-Z.shiftr_div_pow2, <-Z.shiftl_mul_pow2 by done.
  apply Z.bits_inj'. intros i Hi. rewrite Z.land_spec, !Z.shiftl_spec, Z.land_spec by lia.
  destruct (Z.le_gt_cases s i).
  - rewrite Z.shiftr_spec by lia. by replace (i - s + s) with i by lia.
  - rewrite (Z.testbit_neg_r (Z.ones w)), !andb_false_r by lia. done.
Qed.

(** The fields of a number and of a device: bytes 1 to 3 and 0 of the major,
    bytes 1, 2 to 3 and 0 of the minor. *)
Definition fields (a b c e f : Z) : Prop :=
  0 ≤ a < 16777216 ∧ 0 ≤ b < 256 ∧ 0 ≤ c < 256 ∧ 0 ≤ e < 65536 ∧ 0 ≤ f < 256.
Definition device (a b c e f : Z) : Z := a * 1099511627776 + c * 4294967296 + e * 65536 + b * 256 + f.
Definition major_of (a b : Z) : Z := s32 (a * 256 + b).
Definition minor_of (c e f : Z) : Z := s32 (e * 65536 + c * 256 + f).

Lemma mask_hi x : Z.land x 0xffffff00 = (x / 256) mod 16777216 * 256.
Proof. by apply (land_field x 8 24). Qed.
Lemma mask_mid x : Z.land x 0xff00 = (x / 256) mod 256 * 256.
Proof. by apply (land_field x 8 8). Qed.
Lemma mask_split x : Z.land x 0xffff00ff = (x / 65536) mod 65536 * 65536 + x mod 256.
Proof.
  change 0xffff00ff with (Z.lor (Z.shiftl (Z.ones 16) 16) 0xff). rewrite Z.land_lor_distr_r, land_field, byte_0 by lia.
  apply (lor_sum 16); lia.
Qed.

Lemma lor_order a b c e f : Z.lor (Z.lor (Z.lor a b) c) (Z.lor e f) = Z.lor a (Z.lor c (Z.lor e (Z.lor b f))).
Proof.
  apply Z.bits_inj'. intros i _. rewrite !Z.lor_spec.
  destruct (Z.testbit a i), (Z.testbit b i), (Z.testbit c i), (Z.testbit e i); done.
Qed.

Lemma major_fields a b c e f : fields a b c e f → major (device a b c e f) = major_of a b.
Proof.
  intros (Ha & Hb & Hc & He & Hf). unfold major, major_of. f_equal. rewrite mask_hi, byte_at by lia.
  rewrite Z.shiftr_div_pow2 by lia. unfold device.
  replace ((_ + f) / 2 ^ 32 / 256) with a by lia. replace ((_ + f) / 2 ^ 8) with (a * 4294967296 + c * 16777216 + e * 256 + b) by lia.
  rewrite (lor_sum 8); lia.
Qed.

Lemma minor_fields a b c e f : fields a b c e f → minor (device a b c e f) = minor_of c e f.
Proof.
  intros (Ha & Hb & Hc & He & Hf). unfold minor, minor_of. f_equal. rewrite mask_mid, mask_split.
  rewrite Z.shiftr_div_pow2 by lia. unfold device.
  replace ((_ + f) / 2 ^ 24 / 256) with (a * 256 + c) by lia. replace ((_ + f) / 65536) with (a * 16777216 + c * 65536 + e) by lia.
  replace ((_ + f) mod 256) with f by lia. replace ((a * 256 + c) mod 256) with c by lia.
  replace ((a * 16777216 + c * 65536 + e) mod 65536) with e by lia.
  rewrite Z.lor_comm. rewrite <-(lor_sum 16 (e * 65536) f) by lia. rewrite <-Z.lor_assoc, (Z.lor_comm f).
  rewrite (lor_sum 8 (c * 256)) by lia. rewrite (lor_sum 16) by lia. lia.
Qed.

Lemma makedev_fields a b c e f : fields a b c e f → makedev (major_of a b) (minor_of c e f) = device a b c e f.
Proof.
  intros (Ha & Hb & Hc & He & Hf). unfold makedev. rewrite mask_hi, mask_mid, mask_split, byte_0.
  assert (∃ q, major_of a b = q * 4294967296 + a * 256 + b) as [q ->]
    by (unfold major_of, s32; rewrite u32_id by lia; case_if; [exists 0|exists (-1)]; lia).
  assert (∃ r, minor_of c e f = r * 4294967296 + e * 65536 + c * 256 + f) as [r ->]
    by (unfold minor_of, s32; rewrite u32_id by lia; case_if; [exists 0|exists (-1)]; lia).
  replace ((q * 4294967296 + a * 256 + b) / 256) with (q * 16777216 + a) by lia.
  replace ((q * 4294967296 + a * 256 + b) mod 256) with b by lia.
  replace ((r * 4294967296 + e * 65536 + c * 256 + f) / 256) with (r * 16777216 + e * 256 + c) by lia.
  replace ((r * 4294967296 + e * 65536 + c * 256 + f) / 65536) with (r * 65536 + e) by lia.
  replace ((r * 4294967296 + e * 65536 + c * 256 + f) mod 256) with f by lia.
  replace ((q * 16777216 + a) mod 16777216) with a by lia. replace ((r * 16777216 + e * 256 + c) mod 256) with c by lia.
  replace ((r * 65536 + e) mod 65536) with e by lia. rewrite !Z.shiftl_mul_pow2 by lia.
  rewrite <-(lor_sum 16 (e * 65536) f), lor_order by lia. rewrite (lor_sum 8 (b * 2 ^ 8)) by lia.
  rewrite (lor_sum 16 (e * _)) by lia. rewrite (lor_sum 32 (c * 256 * _)) by lia. rewrite (lor_sum 40) by lia. unfold u64, device.
  rewrite Z.mod_small; lia.
Qed.

Lemma device_of d : 0 ≤ d < 18446744073709551616 → ∃ a b c e f, fields a b c e f ∧ d = device a b c e f.
Proof.
  intros Hd. exists (d / 1099511627776), (d / 256 mod 256), (d / 4294967296 mod 256), (d / 65536 mod 65536), (d mod 256).
  unfold fields, device. split; lia.
Qed.

Lemma numbers_of M m : -2147483648 ≤ M < 2147483648 → -2147483648 ≤ m < 2147483648 →
  ∃ a b c e f, fields a b c e f ∧ M = major_of a b ∧ m = minor_of c e f.
Proof.
  intros HM Hm. exists (u32 M / 256), (M mod 256), (m / 256 mod 256), (u32 m / 65536), (m mod 256).
  unfold fields, major_of, minor_of. split; [unfold u32; lia|]. split; symmetry.
  - rewrite <-(s32_id M) at 3 by done. unfold s32, u32. 
    replace ((M mod 4294967296 / 256 * 256 + M mod 256) mod 4294967296) with (M mod 4294967296) by lia. done.
  - rewrite <-(s32_id m) at 4 by done. unfold s32, u32. 
    replace ((m mod 4294967296 / 65536 * 65536 + m / 256 mod 256 * 256 + m mod 256) mod 4294967296) with (m mod 4294967296) by lia.
    done.
Qed.

(** * Theorems *)

(** C40: the byte order functions: each encoder writes the bytes of the number in
    its order, from the address on, and touches no other byte; each decoder gives
    back the number that was encoded, as far as it fits the width; and encoding
    what was decoded changes no byte. *)
Theorem endian_codec :
  codec 2 be_bytes be16enc be16dec ∧ codec 4 be_bytes be32enc be32dec ∧ codec 8 be_bytes be64enc be64dec ∧
  codec 2 le_bytes le16enc le16dec ∧ codec 4 le_bytes le32enc le32dec ∧ codec 8 le_bytes le64enc le64dec.
Proof.
  split_and!;
    [apply codec_be; [apply be16enc_bytes|apply be16dec_value]|apply codec_be; [apply be32enc_bytes|apply be32dec_value]
    |apply codec_be; [apply be64enc_bytes|apply be64dec_value]|apply codec_le; [apply le16enc_bytes|apply le16dec_value]
    |apply codec_le; [apply le32enc_bytes|apply le32dec_value]|apply codec_le; [apply le64enc_bytes|apply le64dec_value]].
Qed.

(** Device numbers: [major] and [minor] take back out of a device number what
    [makedev] put in, for all pairs of integers, and [makedev] rebuilds every
    64-bit device number from its two parts: the encoding loses nothing. *)
Theorem device_roundtrip :
  (∀ M m, -2147483648 ≤ M < 2147483648 → -2147483648 ≤ m < 2147483648 →
     major (makedev M m) = M ∧ minor (makedev M m) = m) ∧
  (∀ d, 0 ≤ d < 18446744073709551616 → makedev (major d) (minor d) = d).
Proof.
  split.
  - intros M m HM Hm. destruct (numbers_of M m HM Hm) as (a & b & c & e & f & Hf & -> & ->).
    rewrite (makedev_fields _ _ _ _ _ Hf). split; [by apply major_fields|by apply minor_fields].
  - intros d Hd. destruct (device_of d Hd) as (a & b & c & e & f & Hf & ->).
    rewrite (major_fields _ _ _ _ _ Hf), (minor_fields _ _ _ _ _ Hf). by apply makedev_fields.
Qed.

Lemma device_roundtrip_witness :
  major (makedev 0x12345 (-2)) = 0x12345 ∧ minor (makedev 0x12345 (-2)) = -2 ∧
  makedev (major 0xfedcba9876543210) (minor 0xfedcba9876543210) = 0xfedcba9876543210.
Proof.
  destruct device_roundtrip as [H1 H2]. destruct (H1 0x12345 (-2)) as [E1 E2]; [lia|lia|].
  split; [exact E1|]. split; [exact E2|]. apply H2. lia.
Defined.
