(* ===== verification/SysBits.v ===== *)
(** The macros and inline functions of the system headers that count, address and
    round: the bit counts of src/libc/include/sys/bitcount.h, the bit maps, units
    and rounding of sys/param.h with the pages of machine/param.h, the signal sets
    of sys/_sigset.h and the process status of sys/wait.h. *)
From S2P Require Import Prelude Machine Endian.

(** * Bit counts *)

Definition __bitcount16 (x : Z) : Z :=
  let x := u16 (Z.land x 0x5555 + Z.shiftr (Z.land x 0xaaaa) 1) in
  let x := u16 (Z.land x 0x3333 + Z.shiftr (Z.land x 0xcccc) 2) in
  let x := u16 (Z.land (x + Z.shiftr x 4) 0x0f0f) in
  u16 (Z.land (x + Z.shiftr x 8) 0x00ff).

Definition __bitcount32 (x : Z) : Z :=
  let x := u32 (Z.land x 0x55555555 + Z.shiftr (Z.land x 0xaaaaaaaa) 1) in
  let x := u32 (Z.land x 0x33333333 + Z.shiftr (Z.land x 0xcccccccc) 2) in
  let x := Z.land (u32 (x + Z.shiftr x 4)) 0x0f0f0f0f in
  let x := u32 (x + Z.shiftr x 8) in
  Z.land (u32 (x + Z.shiftr x 16)) 0x000000ff.

(** Where [unsigned long] has 64 bits. *)
Definition __bitcount64_lp64 (x : Z) : Z :=
  let x := u64 (Z.land x 0x5555555555555555 + Z.shiftr (Z.land x 0xaaaaaaaaaaaaaaaa) 1) in
  let x := u64 (Z.land x 0x3333333333333333 + Z.shiftr (Z.land x 0xcccccccccccccccc) 2) in
  let x := Z.land (u64 (x + Z.shiftr x 4)) 0x0f0f0f0f0f0f0f0f in
  let x := u64 (x + Z.shiftr x 8) in
  let x := u64 (x + Z.shiftr x 16) in
  Z.land (u64 (x + Z.shiftr x 32)) 0x000000ff.

(** Where it has 32, as on this kernel's target. *)
Definition __bitcount64 (x : Z) : Z := u32 (__bitcount32 (u32 (Z.shiftr x 32)) + __bitcount32 (u32 x)).

(** The number of ones among the [w] lowest bits. *)
Fixpoint popcount (w : nat) (x : Z) : Z :=
  match w with O => 0 | S w' => popcount w' x + Z.b2z (Z.testbit x (Z.of_nat w')) end.

(** ** Byte by byte *)

Lemma popcount_app a b x : popcount (a + b) x = popcount a x + popcount b (x / 2 ^ Z.of_nat a).
Proof.
  induction b as [|b IH]; cbn [popcount]; [rewrite Nat.add_0_r; lia|].
  rewrite Nat.add_succ_r. cbn [popcount]. rewrite IH, Z.div_pow2_bits by lia.
  replace (Z.of_nat b + Z.of_nat a) with (Z.of_nat (a + b)) by lia. lia.
Qed.

Lemma popcount_mod a x n : (a ≤ n)%nat → popcount a (x mod 2 ^ Z.of_nat n) = popcount a x.
Proof. induction a as [|a IH]; intros Ha; cbn [popcount]; [done|]. by rewrite IH, Z.mod_pow2_bits_low by lia. Qed.

(** The sum of what [f] gives for the bytes. *)
Definition sum_with (f : Z → Z) (l : list Z) : Z := foldr (λ b s, f b + s) 0 l.

Lemma popcount_bytes l : bytes_ok l → popcount (8 * length l) (le_value l) = sum_with (popcount 8) l.
Proof.
  induction 1 as [|b l Hb _ IH]; [done|]. unfold byte_ok in Hb. cbn [length le_value sum_with foldr].
  replace (8 * S (length l))%nat with (8 + 8 * length l)%nat by lia. rewrite popcount_app.
  rewrite <-(popcount_mod 8 _ 8) by lia. change (2 ^ Z.of_nat 8) with 256.
  replace ((b + 256 * le_value l) mod 256) with b by lia. replace ((b + 256 * le_value l) / 256) with (le_value l) by lia.
  by rewrite IH.
Qed.

(** Masking acts on each byte by itself. *)
Lemma bits_above n a i : 0 ≤ n → 0 ≤ a < 2 ^ n → n ≤ i → Z.testbit a i = false.
Proof. intros Hn Ha Hi. rewrite <-(Z.mod_small a (2 ^ n)) by done. apply Z.mod_pow2_bits_high. lia. Qed.

Lemma land_byte_ok a b : byte_ok a → byte_ok (Z.land a b).
Proof.
  unfold byte_ok. intros Ha. assert (Z.land a b = Z.land a b mod 256) as ->; [|lia].
  rewrite <-byte_0, <-Z.land_assoc, (Z.land_comm b), Z.land_assoc, byte_0. f_equal. lia.
Qed.

Lemma land_byte a b x y : byte_ok a → byte_ok b → Z.land (a + 256 * x) (b + 256 * y) = Z.land a b + 256 * Z.land x y.
Proof.
  intros Ha Hb. pose proof (land_byte_ok a b Ha) as Hab. unfold byte_ok in *.
  rewrite !(Z.mul_comm 256). change 256 with (2 ^ 8) in *. rewrite <-!(lor_add 8) by lia.
  apply Z.bits_inj'. intros i Hi. rewrite !Z.land_spec, !Z.lor_spec, !Z.land_spec, !Z.mul_pow2_bits by lia.
  rewrite Z.land_spec. destruct (Z.lt_ge_cases i 8).
  - rewrite !(Z.testbit_neg_r _ (i - 8)) by lia. by rewrite !orb_false_r.
  - by rewrite (bits_above 8 a), (bits_above 8 b) by lia.
Qed.

(** A mask that repeats the byte [b]. *)
Abbreviation mask b l := (le_value (replicate (length l) b)).

(** The first two steps add the halves of each field of 2 and of 4 bits. *)
Definition halves (K lo hi b : Z) : Z := Z.land b lo + Z.land b hi / K.

Lemma halves_step K lo hi l :
  K = 2 ∨ K = 4 → byte_ok lo → byte_ok hi → (∀ b, byte_ok b → Z.land b hi mod K = 0) → bytes_ok l →
  Z.land (le_value l) (mask lo l) + Z.land (le_value l) (mask hi l) / K = le_value (map (halves K lo hi) l) ∧
  Z.land (le_value l) (mask hi l) mod K = 0.
Proof.
  intros HK Hlo Hhi Hmod. induction 1 as [|b l Hb _ [IH1 IH2]]; [by destruct HK as [->| ->]|].
  cbn [length replicate le_value map]. rewrite !land_byte by done. rewrite <-IH1. specialize (Hmod b Hb). unfold halves.
  generalize dependent (Z.land b hi). generalize dependent (Z.land (le_value l) (mask hi l)). intros.
  destruct HK as [->| ->]; lia.
Qed.

(** The third adds the two halves of each byte, which stay below 5. *)
Definition small (b : Z) : Prop := 0 ≤ b mod 16 ≤ 4 ∧ 0 ≤ b / 16 ≤ 4.

Lemma nibbles_step l : Forall small l →
  Z.land (le_value l + le_value l / 16) (mask 15 l) = le_value (map (λ b, b mod 16 + b / 16) l) ∧ 0 ≤ le_value l mod 16 ≤ 4.
Proof.
  induction 1 as [|b l [Hb1 Hb2] _ [IH1 IH2]]; [done|]. cbn [length replicate le_value map]. rewrite <-IH1.
  set (x := le_value l) in *. split; [|lia].
  replace (b + 256 * x + (b + 256 * x) / 16) with (b + b / 16 + 16 * (x mod 16) + 256 * (x + x / 16)) by lia.
  rewrite land_byte by (unfold byte_ok; lia). f_equal.
  change 15 with (Z.ones 4). rewrite Z.land_ones by lia. change (2 ^ 4) with 16. lia.
Qed.

Lemma le_value_bound c l : Forall (λ b, 0 ≤ b ≤ c) l → 0 ≤ le_value l ∧ 255 * le_value l ≤ c * (256 ^ Z.of_nat (length l) - 1).
Proof.
  induction 1 as [|b l Hb _ [IH1 IH2]]; cbn [le_value length]; [lia|].
  rewrite Nat2Z.inj_succ, Z.pow_succ_r by lia. lia.
Qed.

(** The three steps, with what they leave in each byte. *)
Lemma halves_2 b : byte_ok b → 0 ≤ halves 2 0x55 0xaa b ≤ 0xaa ∧ Z.land b 0xaa mod 2 = 0.
Proof. intros Hb. by_bytes b. Qed.
Lemma halves_4 b : byte_ok b → Z.land b 0xcc mod 4 = 0.
Proof. intros Hb. by_bytes b. Qed.
Lemma halves_24 b : byte_ok b → let b2 := halves 4 0x33 0xcc (halves 2 0x55 0xaa b) in small b2 ∧ 0 ≤ b2 ≤ 0x44.
Proof. intros Hb. unfold small. by_bytes b. Qed.
Lemma halves_count b : byte_ok b →
  (let b2 := halves 4 0x33 0xcc (halves 2 0x55 0xaa b) in b2 mod 16 + b2 / 16) = popcount 8 b ∧ 0 ≤ popcount 8 b ≤ 8.
Proof. intros Hb. by_bytes b. Qed.

Lemma swar l : bytes_ok l →
  let P := 256 ^ Z.of_nat (length l) in
  let x1 := Z.land (le_value l) (mask 0x55 l) + Z.shiftr (Z.land (le_value l) (mask 0xaa l)) 1 in
  let x2 := Z.land x1 (mask 0x33 l) + Z.shiftr (Z.land x1 (mask 0xcc l)) 2 in
  let x3 := Z.land (x2 + Z.shiftr x2 4) (mask 0x0f l) in
  0 ≤ x1 < P ∧ 0 ≤ x2 < P ∧ 0 ≤ x2 + Z.shiftr x2 4 < P ∧ x3 = le_value (map (popcount 8) l).
Proof.
  intros Hl P x1 x2 x3. set (l1 := map (halves 2 0x55 0xaa) l). set (l2 := map (halves 4 0x33 0xcc) l1).
  assert (length l1 = length l) as L1 by apply length_map.
  assert (length l2 = length l) as L2 by (unfold l2; by rewrite length_map).
  assert (Forall (λ b, 0 ≤ b ≤ 0xaa) l1) as B1 by (apply Forall_map, (Forall_impl _ _ _ Hl); intros b Hb; by apply halves_2).
  assert (bytes_ok l1) as B1' by (apply (Forall_impl _ _ _ B1); unfold byte_ok; lia).
  assert (Forall small l2) as S2 by (apply Forall_map, Forall_map, (Forall_impl _ _ _ Hl); intros b Hb; by apply halves_24).
  assert (Forall (λ b, 0 ≤ b ≤ 0x44) l2) as B2 by (apply Forall_map, Forall_map, (Forall_impl _ _ _ Hl); intros b Hb; by apply halves_24).
  assert (x1 = le_value l1) as E1.
  { unfold x1. rewrite Z.shiftr_div_pow2 by lia. apply (halves_step 2); [by left|by unfold byte_ok|by unfold byte_ok| |done].
    intros b Hb. by apply halves_2. }
  assert (x2 = le_value l2) as E2.
  { unfold x2. rewrite E1, Z.shiftr_div_pow2, <-L1 by lia. apply (halves_step 4); [by right|by unfold byte_ok|by unfold byte_ok| |done].
    intros b Hb. by apply halves_4. }
  pose proof (le_value_bound _ _ B1) as Hx1. pose proof (le_value_bound _ _ B2) as Hx2. rewrite L1 in Hx1. rewrite L2 in Hx2.
  fold P in Hx1, Hx2. rewrite <-E1 in Hx1. rewrite <-E2 in Hx2. rewrite Z.shiftr_div_pow2 by lia.
  change (2 ^ 4) with 16. split; [lia|]. split; [lia|]. split; [lia|].
  unfold x3. rewrite E2, Z.shiftr_div_pow2, <-L2 by lia. change (2 ^ 4) with 16. rewrite (proj1 (nibbles_step l2 S2)). f_equal.
  unfold l2, l1. rewrite !map_map. apply map_ext_Forall, (Forall_impl _ _ _ Hl). intros b Hb. by apply halves_count.
Qed.

(** [x] as its bytes, with the steps above in front of the last ones. *)
Lemma popcount_le n x : 0 ≤ x < 256 ^ Z.of_nat n →
  le_value (le_bytes n x) = x ∧ popcount (8 * n) x = sum_with (λ q, q) (map (popcount 8) (le_bytes n x)) ∧
  Forall (λ q, 0 ≤ q ≤ 8) (map (popcount 8) (le_bytes n x)).
Proof.
  intros Hx. pose proof (le_bytes_ok n x) as Hok. assert (le_value (le_bytes n x) = x) as E.
  { rewrite le_value_bytes, Z.mod_small by done. done. }
  split; [done|]. split.
  - rewrite <-E at 1. rewrite <-(length_le_bytes n x) at 1. rewrite popcount_bytes by done. unfold sum_with.
    generalize (le_bytes n x). intros l. induction l as [|b l IH]; [done|]. cbn [map foldr]. by rewrite IH.
  - apply Forall_map, (Forall_impl _ _ _ Hok). intros b Hb. by apply halves_count.
Qed.

(** The steps shared by the three widths, for a number of [n] bytes. *)
Lemma swar_number n P m5 ma m3 mc mf x :
  P = 256 ^ Z.of_nat n → le_value (replicate n 0x55) = m5 → le_value (replicate n 0xaa) = ma →
  le_value (replicate n 0x33) = m3 → le_value (replicate n 0xcc) = mc → le_value (replicate n 0x0f) = mf → 0 ≤ x < P →
  let x1 := Z.land x m5 + Z.shiftr (Z.land x ma) 1 in
  let x2 := Z.land x1 m3 + Z.shiftr (Z.land x1 mc) 2 in
  0 ≤ x1 < P ∧ 0 ≤ x2 < P ∧ 0 ≤ x2 + Z.shiftr x2 4 < P ∧
  ∃ q, Z.land (x2 + Z.shiftr x2 4) mf = le_value q ∧ length q = n ∧ Forall (λ q, 0 ≤ q ≤ 8) q ∧
    popcount (8 * n) x = sum_with (λ q, q) q.
Proof.
  intros -> <- <- <- <- <- Hx. cbv zeta. destruct (popcount_le n x Hx) as (Hv & Hp & Hq).
  pose proof (swar _ (le_bytes_ok n x)) as HS.
  cbv zeta in HS. rewrite length_le_bytes, Hv in HS. destruct HS as (H1 & H2 & H3 & H4).
  split; [done|]. split; [done|]. split; [done|]. exists (map (popcount 8) (le_bytes n x)).
  rewrite length_map, length_le_bytes. done.
Qed.

Lemma bitcount16_count x : 0 ≤ x < 65536 → __bitcount16 x = popcount 16 x.
Proof.
  intros Hx. destruct (swar_number 2 65536 0x5555 0xaaaa 0x3333 0xcccc 0x0f0f x)
    as (H1 & H2 & H3 & q & E & Hl & Hq & Hp); [done..|]. change 16%nat with (8 * 2)%nat. rewrite Hp.
  unfold __bitcount16. cbv zeta. rewrite (u16_id _ H1), (u16_id _ H2), E.
  destruct q as [|q0 [|q1 [|]]]; try discriminate Hl. rewrite !Forall_cons in Hq. cbn [le_value sum_with foldr].
  rewrite byte_0, Z.shiftr_div_pow2 by lia. change (2 ^ 8) with 256. rewrite (u16_id (q0 + _)) by lia. rewrite u16_id; lia.
Qed.

Lemma bitcount32_count x : 0 ≤ x < 4294967296 → __bitcount32 x = popcount 32 x.
Proof.
  intros Hx. destruct (swar_number 4 4294967296 0x55555555 0xaaaaaaaa 0x33333333 0xcccccccc 0x0f0f0f0f x)
    as (H1 & H2 & H3 & q & E & Hl & Hq & Hp); [done..|]. change 32%nat with (8 * 4)%nat. rewrite Hp.
  unfold __bitcount32. cbv zeta. rewrite (u32_id _ H1), (u32_id _ H2), (u32_id _ H3), E.
  destruct q as [|q0 [|q1 [|q2 [|q3 [|]]]]]; try discriminate Hl. rewrite !Forall_cons in Hq. cbn [le_value sum_with foldr].
  rewrite byte_0, !Z.shiftr_div_pow2 by lia. change (2 ^ 8) with 256. change (2 ^ 16) with 65536.
  set (h := (q0 + _) / 256). assert (h = q1 + 256 * q2 + 65536 * q3) as -> by (unfold h; lia).
  set (y := u32 (_ + (q1 + _ + _))).
  assert (y = (q0 + q1) + 256 * (q1 + q2) + 65536 * (q2 + q3) + 16777216 * q3) as -> by (unfold y; rewrite u32_id; lia).
  rewrite u32_id; lia.
Qed.

Lemma bitcount64_lp64_count x : 0 ≤ x < 18446744073709551616 → __bitcount64_lp64 x = popcount 64 x.
Proof.
  intros Hx. destruct (swar_number 8 18446744073709551616 0x5555555555555555 0xaaaaaaaaaaaaaaaa 0x3333333333333333
    0xcccccccccccccccc 0x0f0f0f0f0f0f0f0f x) as (H1 & H2 & H3 & q & E & Hl & Hq & Hp); [done..|].
  change 64%nat with (8 * 8)%nat. rewrite Hp. assert (∀ y, 0 ≤ y < 18446744073709551616 → u64 y = y) as u64_id by (intros; unfold u64; lia).
  unfold __bitcount64_lp64. cbv zeta. rewrite (u64_id _ H1), (u64_id _ H2), (u64_id _ H3), E.
  destruct q as [|q0 [|q1 [|q2 [|q3 [|q4 [|q5 [|q6 [|q7 [|]]]]]]]]]; try discriminate Hl.
  rewrite !Forall_cons in Hq. cbn [le_value sum_with foldr].
  rewrite byte_0, !Z.shiftr_div_pow2 by lia. change (2 ^ 8) with 256. change (2 ^ 16) with 65536. change (2 ^ 32) with 4294967296.
  set (h := (q0 + _) / 256).
  assert (h = q1 + 256 * (q2 + 256 * (q3 + 256 * (q4 + 256 * (q5 + 256 * (q6 + 256 * q7)))))) as -> by (unfold h; lia).
  set (y := u64 (_ + (q1 + _))).
  assert (y = q0 + q1 + 256 * (q1 + q2) + 65536 * (q2 + q3 + 256 * (q3 + q4)) +
    4294967296 * (q4 + q5 + 256 * (q5 + q6) + 65536 * (q6 + q7 + 256 * q7))) as -> by (unfold y; rewrite u64_id; lia).
  set (h2 := (_ + _) / 65536).
  assert (h2 = q2 + q3 + 256 * (q3 + q4) + 65536 * (q4 + q5 + 256 * (q5 + q6) + 65536 * (q6 + q7 + 256 * q7))) as -> by (unfold h2; lia).
  set (z := u64 (_ + (_ + 65536 * _))).
  assert (z = q0 + q1 + q2 + q3 + 256 * (q1 + q2 + q3 + q4 + 256 * (q2 + q3 + q4 + q5 + 256 * (q3 + q4 + q5 + q6))) +
    4294967296 * (q4 + q5 + q6 + q7 + 256 * (q5 + q6 + q7 + 256 * (q6 + q7 + 256 * q7)))) as -> by (unfold z; rewrite u64_id; lia).
  set (h3 := (_ + _) / 4294967296).
  assert (h3 = q4 + q5 + q6 + q7 + 256 * (q5 + q6 + q7 + 256 * (q6 + q7 + 256 * q7))) as -> by (unfold h3; lia).
  rewrite u64_id; lia.
Qed.

Lemma popcount_range w x : 0 ≤ popcount w x ≤ Z.of_nat w.
Proof. induction w as [|w IH]; cbn [popcount]; [lia|]. destruct (Z.testbit _ _); cbn [Z.b2z]; lia. Qed.

Lemma bitcount64_count x : 0 ≤ x < 18446744073709551616 → __bitcount64 x = popcount 64 x.
Proof.
  intros Hx. unfold __bitcount64. rewrite !bitcount32_count by apply u32_range.
  pose proof (popcount_range 32 (u32 (Z.shiftr x 32))). pose proof (popcount_range 32 (u32 x)).
  rewrite u32_id by lia. change 64%nat with (32 + 32)%nat. rewrite popcount_app. unfold u32.
  change 4294967296 with (2 ^ Z.of_nat 32). rewrite !popcount_mod, Z.shiftr_div_pow2 by lia. change (2 ^ 32) with (2 ^ Z.of_nat 32). lia.
Qed.

(** * Bit maps and signal sets *)

Definition NBBY : Z := 8.
Definition setbit (m : memory) (a i : Z) : memory :=
  let p := a + Z.quot i NBBY in store8 m p (Z.lor (load8 m p) (Z.shiftl 1 (Z.rem i NBBY))).
Definition clrbit (m : memory) (a i : Z) : memory :=
  let p := a + Z.quot i NBBY in store8 m p (Z.land (load8 m p) (Z.lnot (Z.shiftl 1 (Z.rem i NBBY)))).
Definition isset (m : memory) (a i : Z) : Z := Z.land (load8 m (a + Z.quot i NBBY)) (Z.shiftl 1 (Z.rem i NBBY)).
Definition isclr (m : memory) (a i : Z) : bool := Z.land (load8 m (a + Z.quot i NBBY)) (Z.shiftl 1 (Z.rem i NBBY)) =? 0.

(** Bit [i] of the map that starts at [a]. *)
Definition member (m : memory) (a i : Z) : bool := Z.testbit (load8 m (a + i / 8)) (i mod 8).

Lemma isset_member m a i : 0 ≤ i → isset m a i = if member m a i then 2 ^ (i mod 8) else 0.
Proof.
  intros Hi. unfold isset, member, NBBY. rewrite Z.quot_div_nonneg, Z.rem_mod_nonneg by lia.
  rewrite Z.shiftl_1_l. apply land_bit. lia.
Qed.

Lemma member_setbit m a i j : 0 ≤ i → 0 ≤ j → member (setbit m a i) a j = (i =? j) || member m a j.
Proof.
  intros Hi Hj. unfold member, setbit, NBBY. rewrite Z.quot_div_nonneg, Z.rem_mod_nonneg by lia. rewrite load8_store8.
  case_decide as Hd.
  - rewrite testbit_u8, Z.lor_spec, Z.shiftl_1_l, Z.pow2_bits_eqb by lia. rewrite orb_comm.
    replace (i / 8) with (j / 8) by lia. f_equal. apply eq_bool_prop_intro. rewrite !Is_true_true, !Z.eqb_eq. lia.
  - destruct (Z.eqb_spec i j) as [->|]; [lia|done].
Qed.

Lemma member_clrbit m a i j : 0 ≤ i → 0 ≤ j → member (clrbit m a i) a j = negb (i =? j) && member m a j.
Proof.
  intros Hi Hj. unfold member, clrbit, NBBY. rewrite Z.quot_div_nonneg, Z.rem_mod_nonneg by lia. rewrite load8_store8.
  case_decide as Hd.
  - rewrite testbit_u8, Z.land_spec, Z.lnot_spec, Z.shiftl_1_l, Z.pow2_bits_eqb by lia. rewrite andb_comm.
    replace (i / 8) with (j / 8) by lia. f_equal. f_equal. apply eq_bool_prop_intro. rewrite !Is_true_true, !Z.eqb_eq. lia.
  - destruct (Z.eqb_spec i j) as [->|]; [lia|done].
Qed.

(** [_SIG_WORDS], [_SIG_MAXSIG] and the place of a signal's bit. *)
Definition _SIG_WORDS : Z := 4.
Definition _SIG_MAXSIG : Z := 128.
Definition _SIG_IDX (sig : Z) : Z := sig - 1.
Definition _SIG_WORD (sig : Z) : Z := Z.shiftr (_SIG_IDX sig) 5.
Definition _SIG_BIT (sig : Z) : Z := u32 (Z.shiftl 1 (Z.land (_SIG_IDX sig) 31)).
Definition _SIG_VALID (sig : Z) : bool := (sig <=? _SIG_MAXSIG) && (0 <? sig).

(** * Units and rounding, for unsigned arguments *)

Module Param.
Definition PAGE_SHIFT : Z := 12.
Definition PAGE_SIZE : Z := Z.shiftl 1 PAGE_SHIFT.
Definition PAGE_MASK : Z := PAGE_SIZE - 1.
Definition DEV_BSHIFT : Z := 9.

Definition trunc_page (x : Z) : Z := Z.land x (u32 (Z.lnot PAGE_MASK)).
Definition round_page (x : Z) : Z := Z.land (u32 (x + PAGE_MASK)) (u32 (Z.lnot PAGE_MASK)).
Definition atop (x : Z) : Z := Z.shiftr x PAGE_SHIFT.
Definition ptoa (x : Z) : Z := u32 (Z.shiftl x PAGE_SHIFT).
Definition ctob (x : Z) : Z := u32 (Z.shiftl x PAGE_SHIFT).
Definition btoc (x : Z) : Z := Z.shiftr (u32 (x + PAGE_MASK)) PAGE_SHIFT.
Definition ctodb (db : Z) : Z := u32 (Z.shiftl db (PAGE_SHIFT - DEV_BSHIFT)).
Definition dbtoc (db : Z) : Z := Z.shiftr (u32 (db + u32 (ctodb 1 - 1))) (PAGE_SHIFT - DEV_BSHIFT).

Definition howmany (x y : Z) : Z := u32 (x + u32 (y - 1)) / y.
Definition rounddown (x y : Z) : Z := u32 (x / y * y).
Definition roundup (x y : Z) : Z := u32 (u32 (x + u32 (y - 1)) / y * y).
Definition powerof2 (x : Z) : bool := Z.land (u32 (x - 1)) x =? 0.
Definition MIN (a b : Z) : Z := if a <? b then a else b.
Definition MAX (a b : Z) : Z := if b <? a then a else b.
End Param.

(** * Process status *)

(** A status is an [int]; the shifts that build one stay within it for the exit
    codes and signals the theorems ask for. *)

Module Wait.
Definition WCOREFLAG : Z := 128.
Definition _WSTATUS (x : Z) : Z := Z.land x 127.
Definition _WSTOPPED : Z := 127.
Definition WIFSTOPPED (x : Z) : bool := _WSTATUS x =? _WSTOPPED.
Definition WSTOPSIG (x : Z) : Z := Z.shiftr x 8.
Definition WIFSIGNALED (x : Z) : bool :=
  negb (_WSTATUS x =? _WSTOPPED) && negb (_WSTATUS x =? 0) && negb (x =? 0x13).
Definition WTERMSIG (x : Z) : Z := _WSTATUS x.
Definition WIFEXITED (x : Z) : bool := _WSTATUS x =? 0.
Definition WEXITSTATUS (x : Z) : Z := Z.shiftr x 8.
Definition WIFCONTINUED (x : Z) : bool := x =? 0x13.
Definition WCOREDUMP (x : Z) : Z := Z.land x WCOREFLAG.
Definition W_EXITCODE (ret sig : Z) : Z := Z.lor (Z.shiftl ret 8) sig.
Definition W_STOPCODE (sig : Z) : Z := Z.lor (Z.shiftl sig 8) _WSTOPPED.
Definition KW_EXITCODE (ret sig : Z) : Z := W_EXITCODE (Z.land ret 0xff) sig.
End Wait.

(** ** Facts about them *)

Lemma page_mask x : 0 ≤ x < 4294967296 → Z.land x (u32 (Z.lnot Param.PAGE_MASK)) = x / 4096 * 4096.
Proof. intros Hx. change (u32 (Z.lnot Param.PAGE_MASK)) with (Z.shiftl (Z.ones 20) 12). rewrite land_field by lia. lia. Qed.

Lemma powerof2_pow k : 0 ≤ k < 32 → Param.powerof2 (2 ^ k) = true.
Proof.
  intros Hk. assert (1 ≤ 2 ^ k < 2 ^ 32) as Hr by (split; [apply (Z.pow_le_mono_r 2 0); lia|apply Z.pow_lt_mono_r; lia]).
  unfold Param.powerof2. rewrite u32_id by lia. rewrite Z.sub_1_r, <-Z.ones_equiv, Z.land_comm, Z.land_ones by lia.
  by rewrite Z.mod_same by lia.
Qed.

Lemma powerof2_only x : 0 < x < 4294967296 → Param.powerof2 x = true → x = 2 ^ Z.log2 x.
Proof.
  intros Hx Hp. unfold Param.powerof2 in Hp. apply Z.eqb_eq in Hp. rewrite u32_id in Hp by lia.
  destruct (Z.log2_spec x) as [Hlo Hhi]; [lia|]. pose proof (Z.log2_nonneg x) as H0.
  destruct (Z.eq_dec x (2 ^ Z.log2 x)) as [|Hne]; [done|]. exfalso.
  assert (Z.log2 (x - 1) = Z.log2 x) as Hl by (apply Z.log2_unique; lia).
  assert (Z.testbit (Z.land (x - 1) x) (Z.log2 x) = true) as Hb.
  { rewrite Z.land_spec. rewrite <-Hl at 1. rewrite !Z.bit_log2; [done|lia|]. pose proof (Z.pow_pos_nonneg 2 (Z.log2 x)). lia. }
  by rewrite Hp, Z.bits_0 in Hb.
Qed.

Lemma sig_place s : 0 < s ≤ 128 → Z.shiftr (s - 1) 5 = (s - 1) / 32 ∧ _SIG_BIT s = 2 ^ ((s - 1) mod 32).
Proof.
  intros Hs. split; [by rewrite Z.shiftr_div_pow2 by lia|]. unfold _SIG_BIT, _SIG_IDX. change 31 with (Z.ones 5).
  rewrite Z.land_ones, Z.shiftl_1_l by lia. change (2 ^ 5) with 32. apply u32_id.
  split; [lia|]. change 4294967296 with (2 ^ 32). apply Z.pow_lt_mono_r; lia.
Qed.

(** * Theorems *)

(** C39: the bit counts: the three routines that add neighbouring fields of a word
    in parallel, and the one that halves a 64-bit word, give the number of ones
    among the bits of their argument. *)
Theorem bitcount_counts x : 0 ≤ x < 18446744073709551616 →
  __bitcount16 (u16 x) = popcount 16 x ∧ __bitcount32 (u32 x) = popcount 32 x ∧
  __bitcount64 x = popcount 64 x ∧ __bitcount64_lp64 x = popcount 64 x.
Proof.
  intros Hx. rewrite bitcount16_count, bitcount32_count by (apply u16_range || apply u32_range).
  rewrite bitcount64_count, bitcount64_lp64_count by done.
  split_and!; [by apply (popcount_mod 16 x 16)|by apply (popcount_mod 32 x 32)|done|done].
Qed.

Lemma bitcount_counts_witness : __bitcount32 (u32 0xdeadbeef) = popcount 32 0xdeadbeef ∧ popcount 32 0xdeadbeef = 24.
Proof. split; [apply (bitcount_counts 0xdeadbeef); lia|reflexivity]. Defined.

(** The bit map macros are the operations of a set of numbers: [setbit] adds its
    index, [clrbit] removes it, [isset] and [isclr] ask for it, and no byte
    outside the one of the index changes. *)
Theorem bitmap_is_set m a i j : 0 ≤ i → 0 ≤ j →
  member (setbit m a i) a j = (i =? j) || member m a j ∧
  member (clrbit m a i) a j = negb (i =? j) && member m a j ∧
  (isset m a i ≠ 0 ↔ member m a i = true) ∧ isclr m a i = negb (member m a i) ∧
  (∀ x, x ≠ a + i / 8 → load8 (setbit m a i) x = load8 m x ∧ load8 (clrbit m a i) x = load8 m x).
Proof.
  intros Hi Hj. pose proof (Z.pow_pos_nonneg 2 (i mod 8)) as Hp.
  split; [by apply member_setbit|]. split; [by apply member_clrbit|].
  assert (isclr m a i = (isset m a i =? 0)) as -> by done. rewrite isset_member by done.
  split; [|split].
  - destruct (member m a i); split; intros; try done; lia.
  - destruct (member m a i); [|done]. cbn [negb]. apply Z.eqb_neq. lia.
  - intros x Hx. unfold setbit, clrbit, NBBY. rewrite Z.quot_div_nonneg by lia. cbv zeta.
    by rewrite !load8_store8, !decide_False by congruence.
Qed.

(** Rounding: [rounddown] and [roundup] give the nearest multiples and [howmany]
    the number of pieces, as long as nothing passes 32 bits. *)
Theorem rounding x y : 0 ≤ x → 0 < y → x + y ≤ 4294967296 →
  Param.rounddown x y = x - x mod y ∧ Param.roundup x y = y * Param.howmany x y ∧ x ≤ Param.roundup x y < x + y.
Proof.
  intros Hx Hy Hb. unfold Param.rounddown, Param.roundup, Param.howmany.
  rewrite (u32_id (y - 1)), (u32_id (x + (y - 1))) by lia.
  pose proof (Z.div_mod x y). pose proof (Z.mod_pos_bound x y).
  pose proof (Z.div_mod (x + (y - 1)) y). pose proof (Z.mod_pos_bound (x + (y - 1)) y).
  pose proof (Z.div_pos x y). pose proof (Z.div_pos (x + (y - 1)) y).
  generalize dependent ((x + (y - 1)) mod y). generalize dependent ((x + (y - 1)) / y). intros.
  rewrite !u32_id by lia. lia.
Qed.

Lemma rounding_witness : Param.rounddown 1000 512 = 1000 - 1000 mod 512 ∧ Param.roundup 1000 512 = 1024.
Proof. split; [apply (rounding 1000 512); lia|reflexivity]. Defined.

(** The page macros, which mask and shift, are the rounding macros at the size of
    a page, and turning bytes to pages and back rounds up to a page. *)
Theorem pages_round x : 0 ≤ x ≤ 4294963200 →
  Param.trunc_page x = Param.rounddown x Param.PAGE_SIZE ∧ Param.round_page x = Param.roundup x Param.PAGE_SIZE ∧
  Param.btoc x = Param.howmany x Param.PAGE_SIZE ∧ Param.ctob (Param.btoc x) = Param.round_page x ∧
  Param.ptoa (Param.atop x) = Param.trunc_page x.
Proof.
  intros Hx. unfold Param.rounddown, Param.roundup, Param.howmany, Param.trunc_page, Param.round_page, Param.btoc,
    Param.ctob, Param.ptoa, Param.atop.
  change Param.PAGE_SIZE with 4096. change (x + Param.PAGE_MASK) with (x + 4095). change Param.PAGE_SHIFT with 12.
  change (u32 (4096 - 1)) with 4095. rewrite (u32_id (x + 4095)), !page_mask by lia.
  rewrite !Z.shiftl_mul_pow2, !Z.shiftr_div_pow2 by lia. change (2 ^ 12) with 4096.
  rewrite !u32_id by lia. split_and!; lia.
Qed.

Lemma pages_round_witness : Param.round_page 4097 = Param.roundup 4097 Param.PAGE_SIZE ∧ Param.btoc 4097 = 2.
Proof. split; [apply (pages_round 4097); lia|reflexivity]. Defined.

(** Beyond the last page boundary [round_page] wraps to 0. *)
Theorem round_page_wraps : Param.round_page 0xfffff001 = 0 ∧ Param.round_page 0xfffff000 = 0xfffff000.
Proof. split; reflexivity. Qed.

(** [powerof2] holds of the powers of two, and of 0. *)
Theorem powerof2_iff x : 0 ≤ x < 4294967296 →
  Param.powerof2 x = true ↔ x = 0 ∨ ∃ k, 0 ≤ k < 32 ∧ x = 2 ^ k.
Proof.
  intros Hx. split.
  - intros Hp. destruct (Z.eq_dec x 0) as [|Hne]; [by left|right]. exists (Z.log2 x).
    split; [|apply powerof2_only; [lia|done]]. split; [apply Z.log2_nonneg|]. apply Z.log2_lt_pow2; lia.
  - intros [->|(k & Hk & ->)]; [reflexivity|by apply powerof2_pow].
Qed.

Lemma powerof2_iff_witness : Param.powerof2 4096 = true ↔ 4096 = 0 ∨ ∃ k, 0 ≤ k < 32 ∧ 4096 = 2 ^ k.
Proof. apply (powerof2_iff 4096). lia. Defined.

(** The signals 1 to 128 have the 128 bits of the four words of a set, each its own. *)
Theorem signals_fit s t : _SIG_VALID s = true → _SIG_VALID t = true →
  0 ≤ _SIG_WORD s < _SIG_WORDS ∧ 0 < _SIG_BIT s < 4294967296 ∧ (_SIG_WORD s = _SIG_WORD t → _SIG_BIT s = _SIG_BIT t → s = t).
Proof.
  unfold _SIG_VALID, _SIG_MAXSIG, _SIG_WORD, _SIG_WORDS, _SIG_IDX. rewrite !andb_true_iff, !Z.leb_le, !Z.ltb_lt. intros Hs Ht.
  destruct (sig_place s) as [-> Es]; [lia|]. destruct (sig_place t) as [-> Et]; [lia|]. split; [lia|].
  split; [split; [rewrite Es; apply Z.pow_pos_nonneg; lia|apply u32_range]|].
  intros Hw Hb. rewrite Es, Et in Hb. apply (Z.pow_inj_r 2) in Hb; lia.
Qed.

Lemma signals_fit_witness : 0 ≤ _SIG_WORD 128 < _SIG_WORDS ∧ _SIG_BIT 128 = 0x80000000.
Proof. split; [apply (signals_fit 128 1); reflexivity|reflexivity]. Defined.

(** The process status: every status is of exactly one of the four kinds, and what
    the macros build they take apart again. *)
Theorem wait_status :
  (∀ x, (Z.b2z (Wait.WIFEXITED x) + Z.b2z (Wait.WIFSIGNALED x) + Z.b2z (Wait.WIFSTOPPED x) + Z.b2z (Wait.WIFCONTINUED x) = 1)) ∧
  (∀ r, Wait.WIFEXITED (Wait.KW_EXITCODE r 0) = true ∧ Wait.WEXITSTATUS (Wait.KW_EXITCODE r 0) = r mod 256) ∧
  (∀ s, 0 < s < 127 → s ≠ 0x13 → Wait.WIFSIGNALED (Wait.W_EXITCODE 0 s) = true ∧ Wait.WTERMSIG (Wait.W_EXITCODE 0 s) = s) ∧
  (∀ s, byte_ok s → Wait.WIFSTOPPED (Wait.W_STOPCODE s) = true ∧ Wait.WSTOPSIG (Wait.W_STOPCODE s) = s).
Proof.
  split_and!.
  - intros x. unfold Wait.WIFEXITED, Wait.WIFSIGNALED, Wait.WIFSTOPPED, Wait.WIFCONTINUED, Wait._WSTOPPED.
    destruct (Z.eqb_spec x 0x13) as [->|Hx]; [reflexivity|].
    destruct (Z.eqb_spec (Wait._WSTATUS x) 0) as [->|H0]; [reflexivity|]. by destruct (Wait._WSTATUS x =? 127).
  - intros r. unfold Wait.KW_EXITCODE. rewrite byte_0. assert (byte_ok (r mod 256)) as Hb by (unfold byte_ok; lia).
    revert Hb. generalize (r mod 256). intros b Hb. by_bytes b.
  - intros s Hs H13. assert (byte_ok s) as Hb by (unfold byte_ok; lia). revert Hs H13. by_bytes s.
  - intros s Hs. by_bytes s.
Qed.

Lemma wait_status_witness : Wait.WTERMSIG (Wait.W_EXITCODE 0 9) = 9 ∧ Wait.WSTOPSIG (Wait.W_STOPCODE 17) = 17.
Proof.
  destruct wait_status as (_ & _ & H1 & H2). split; [apply (H1 9); lia|apply (H2 17); unfold byte_ok; lia].
Defined.
