(* ===== verification/Layout.v ===== *)
(** The structures of FAT.h, tty.c and lib_c.c laid out by the rules of the i386
    ABI: sizes, alignment and the offset of each field are computed from the
    declarations, and the offsets and decoders the models use are compared with
    them. *)
From S2P Require Import Prelude Machine Stdio Kernel FatTypes Net TtyFat Endian.
#[local] Open Scope string_scope.
#[local] Open Scope Z_scope.
#[local] Set Warnings "-register-all".

(** * Layout *)

Inductive ctype :=
| Scalar (bytes : Z)                                     (* aligned to its size *)
| Array (n : Z) (t : ctype)
| Struct (packed : bool) (fields : list (string * ctype)).

Fixpoint alignof (t : ctype) : Z :=
  match t with
  | Scalar n => n
  | Array _ t => alignof t
  | Struct packed fields =>
      if packed then 1
      else (fix go l := match l with [] => 1 | (_, t) :: l' => Z.max (alignof t) (go l') end) fields
  end.

(** The next multiple of [a]. *)
Definition align (x a : Z) : Z := (x + (a - 1)) / a * a.

Fixpoint sizeof (t : ctype) : Z :=
  match t with
  | Scalar n => n
  | Array n t => n * sizeof t
  | Struct packed fields =>
      align ((fix go o l := match l with
                            | [] => o
                            | (_, t) :: l' => go (align o (if packed then 1 else alignof t) + sizeof t) l'
                            end) 0 fields) (alignof (Struct packed fields))
  end.

(** The fields with their offsets and types. *)
Fixpoint place (packed : bool) (o : Z) (l : list (string * ctype)) : list (string * Z * ctype) :=
  match l with
  | [] => []
  | (f, t) :: l' =>
      let o := align o (if packed then 1 else alignof t) in
      (f, o, t) :: place packed (o + sizeof t) l'
  end.
Definition fields_of (t : ctype) : list (string * Z * ctype) :=
  match t with Struct packed l => place packed 0 l | _ => [] end.
(** Where the last field ends. *)
Definition extent (packed : bool) : Z → list (string * ctype) → Z :=
  fix go o l := match l with
                | [] => o
                | (_, t) :: l' => go (align o (if packed then 1 else alignof t) + sizeof t) l'
                end.
Definition find_field (t : ctype) (f : string) : option (string * Z * ctype) :=
  List.find (λ x, bool_decide (x.1.1 = f)) (fields_of t).
Definition offsetof (t : ctype) (f : string) : Z := match find_field t f with Some (_, o, _) => o | None => -1 end.

(** The number a field holds in the bytes of a structure, and its bytes. *)
Definition field_bytes (t : ctype) (f : string) (bs : list Z) : list Z :=
  match find_field t f with Some (_, o, t') => fbytes bs (Z.to_nat o) (Z.to_nat (sizeof t')) | None => [] end.
Definition field_value (t : ctype) (f : string) (bs : list Z) : Z := le_value (field_bytes t f bs).

(** * The declarations *)

Definition char := Scalar 1.
Definition short := Scalar 2.
Definition int := Scalar 4.
Definition pointer := Scalar 4.

Definition fat_extBS_32_t : ctype := Struct true
  [("table_size_32", int); ("extended_flags", short); ("fat_version", short); ("root_cluster", int);
   ("fat_info", short); ("backup_BS_sector", short); ("reserved_0", Array 12 char); ("drive_number", char);
   ("reserved_1", char); ("boot_signature", char); ("volume_id", int); ("volume_label", Array 11 char);
   ("fat_type_label", Array 8 char)].

Definition fat_extBS_16_t : ctype := Struct true
  [("bios_drive_num", char); ("reserved1", char); ("boot_signature", char); ("volume_id", int);
   ("volume_label", Array 11 char); ("fat_type_label", Array 8 char)].

Definition fat_BS_t : ctype := Struct true
  [("bootjmp", Array 3 char); ("oem_name", Array 8 char); ("bytes_per_sector", short); ("sectors_per_cluster", char);
   ("reserved_sector_count", short); ("table_count", char); ("root_entry_count", short); ("total_sectors_16", short);
   ("media_type", char); ("table_size_16", short); ("sectors_per_track", short); ("head_side_count", short);
   ("hidden_sector_count", int); ("total_sectors_32", int); ("extended_section", Array 54 char)].

Definition directory_entry_t : ctype := Struct true
  [("file_name", Array 11 char); ("attributes", char); ("reserved0", char); ("creation_time_tenths", char);
   ("creation_time", short); ("creation_date", short); ("last_accessed", short); ("high_bits", short);
   ("last_modification_time", short); ("last_modification_date", short); ("low_bits", short); ("file_size", int)].

Definition FSInfo_t : ctype := Struct true
  [("lead_signature", int); ("reserved1", Array 480 char); ("structure_signature", int); ("free_space", int);
   ("last_written", int); ("reserved2", Array 12 char); ("trail_signature", int)].

Definition long_entry_t : ctype := Struct true
  [("order", char); ("first_five", Array 10 char); ("attributes", char); ("type", char); ("checksum", char);
   ("next_six", Array 12 char); ("zero", short); ("last_two", Array 4 char)].

Definition FileEntry : ctype := Struct false
  [("name", Array MAX_FILENAME_LENGTH char); ("size", int); ("start_cluster", int)].

Definition Directory : ctype := Struct false [("file_count", int); ("files", Array MAX_FILES FileEntry)].

Definition FAT32BootSector : ctype := Struct true
  [("jump", Array 3 char); ("oem", Array 8 char); ("bytes_per_sector", short); ("sectors_per_cluster", char);
   ("reserved_sectors", short); ("num_fats", char); ("max_root_dir_entries", short); ("total_sectors_16", short);
   ("media_descriptor", char); ("fat_size_16", short); ("sectors_per_track", short); ("number_of_heads", short);
   ("hidden_sectors", int); ("total_sectors_32", int); ("fat_size_32", int); ("flags", short); ("version", short);
   ("root_cluster", int); ("fsinfo_sector", short); ("backup_boot_sector", short); ("reserved", Array 12 char);
   ("drive_number", char); ("reserved1", char); ("boot_signature", char); ("volume_id", int);
   ("volume_label", Array 11 char); ("file_system_type", Array 8 char)].

Definition MountedDrive : ctype := Struct false
  [("is_mounted", char); ("boot_sector", FAT32BootSector); ("fat_start", int); ("data_start", int);
   ("root_directory", Directory)].

Definition struct_ip_header : ctype := Struct false
  [("version_ihl", char); ("type_of_service", char); ("total_length", short); ("identification", short);
   ("flags_fragment_offset", short); ("time_to_live", char); ("protocol", char); ("header_checksum", short);
   ("source_address", int); ("destination_address", int)].

Definition struct_icmp_header : ctype := Struct false
  [("type", char); ("code", char); ("checksum", short); ("identifier", short); ("sequence_number", short)].

Definition IDT_Entry : ctype := Struct true
  [("handler_15_0", short); ("selector", short); ("always_zero", char); ("type", char); ("handler_31_16", short)].

Definition Registers : ctype := Struct false
  [("eax", int); ("ebx", int); ("ecx", int); ("edx", int); ("esi", int); ("edi", int); ("esp", int); ("ebp", int);
   ("eip", int); ("eflags", int); ("cr3", int)].

Definition Task : ctype := Struct false [("regs", Registers); ("next", pointer)].

(** * Facts about the layout *)

(** Types as C has them: scalars and arrays of positive size. *)
Fixpoint ctype_ok (t : ctype) : Prop :=
  match t with
  | Scalar n => 0 < n
  | Array n t => 0 ≤ n ∧ ctype_ok t
  | Struct _ l => (fix go l := match l with [] => True | (_, t) :: l' => ctype_ok t ∧ go l' end) l
  end.

Lemma align_spec x a : 0 < a → x ≤ align x a < x + a ∧ align x a mod a = 0.
Proof.
  intros Ha. unfold align. pose proof (Z.div_mod (x + (a - 1)) a). pose proof (Z.mod_pos_bound (x + (a - 1)) a).
  split; [|apply Z.mod_mul; lia]. lia.
Qed.

Lemma extent_ge packed : ∀ l o, Forall (λ ft, 0 < alignof ft.2 ∧ 0 ≤ sizeof ft.2) l → o ≤ extent packed o l.
Proof.
  induction l as [|[f t] l IH]; intros o Hl; cbn [extent]; [lia|]. apply Forall_cons in Hl as [[Ha Hs] Hl]. cbn [snd] in *.
  specialize (IH (align o (if packed then 1 else alignof t) + sizeof t) Hl).
  destruct (align_spec o (if packed then 1 else alignof t)); [by destruct packed|]. lia.
Qed.

Lemma layout_pos : ∀ t, ctype_ok t → 0 < alignof t ∧ 0 ≤ sizeof t.
Proof.
  fix IH 1. intros [n|n t|packed l]; cbn [ctype_ok].
  - cbn. lia.
  - intros [Hn Ht]. destruct (IH t Ht). cbn [alignof sizeof]. split; [done|]. apply Z.mul_nonneg_nonneg; lia.
  - intros Hl. assert (Forall (λ ft, 0 < alignof ft.2 ∧ 0 ≤ sizeof ft.2) l ∧ 0 < alignof (Struct packed l)) as [Hf Ha].
    { revert Hl. induction l as [|[f t] l IHl]; [by destruct packed|]. intros [Ht Hl]. destruct (IHl Hl) as [H1 H2].
      pose proof (IH t Ht) as [Hat Hst]. split; [by constructor|]. cbn [alignof] in *. destruct packed; lia. }
    split; [done|]. change (sizeof (Struct packed l)) with (align (extent packed 0 l) (alignof (Struct packed l))).
    pose proof (extent_ge packed l 0 Hf). destruct (align_spec (extent packed 0 l) _ Ha). lia.
Qed.

Lemma fields_pos packed l : ctype_ok (Struct packed l) → Forall (λ ft, 0 < alignof ft.2 ∧ 0 ≤ sizeof ft.2) l.
Proof.
  induction l as [|[f t] l IH]; [constructor|]. intros [Ht Hl]. constructor; [by apply layout_pos|by apply IH].
Qed.

(** The fields from [o] on: aligned, one behind the other, up to the extent. *)
Lemma place_spec packed : ∀ l o i f p t, Forall (λ ft, 0 < alignof ft.2 ∧ 0 ≤ sizeof ft.2) l →
  place packed o l !! i = Some (f, p, t) →
  o ≤ p ∧ p + sizeof t ≤ extent packed o l ∧ (packed = false → p mod alignof t = 0) ∧
  ∀ j f' p' t', (i < j)%nat → place packed o l !! j = Some (f', p', t') → p + sizeof t ≤ p'.
Proof.
  induction l as [|[g u] l IH]; intros o i f p t Hl Hi; [done|]. cbn [place extent] in *.
  apply Forall_cons in Hl as [[Ha Hs] Hl]. cbn [snd] in *. set (a := if packed then 1 else alignof u) in *.
  assert (0 < a) as Ha' by (unfold a; by destruct packed). destruct (align_spec o a Ha') as [Hal Hmod].
  destruct i as [|i]; cbn in Hi.
  - injection Hi as <- <- <-. pose proof (extent_ge packed l (align o a + sizeof u) Hl).
    split; [lia|]. split; [lia|]. split; [intros ->; exact Hmod|]. intros [|j] f' p' t' Hj E; [lia|].
    apply (IH _ _ _ _ _ Hl) in E. lia.
  - destruct (IH _ _ _ _ _ Hl Hi) as (H1 & H2 & H3 & H4). split; [lia|]. split; [done|]. split; [done|].
    intros [|j] f' p' t' Hj E; [lia|]. apply (H4 j f' p' t'); [lia|done].
Qed.

(** A number in little-endian order, as the decoders read it. *)
Lemma le_fbytes bs o n : le_value (fbytes bs o (S n)) = f8 bs o + 256 * le_value (fbytes bs (S o) n).
Proof.
  unfold fbytes, f8. assert (drop (S o) bs = drop 1 (drop o bs)) as -> by (rewrite drop_drop; f_equal; lia).
  assert (bs !! o = drop o bs !! 0%nat) as -> by (by rewrite lookup_drop, Nat.add_0_r).
  by destruct (drop o bs) as [|x l]; [destruct n|].
Qed.
Lemma f8_value bs o : f8 bs o = le_value (fbytes bs o 1).
Proof. rewrite le_fbytes. change (fbytes bs (S o) 0) with (@nil Z). cbn [le_value]. lia. Qed.
Lemma f16_value bs o : f16 bs o = le_value (fbytes bs o 2).
Proof. rewrite le_fbytes, <-f8_value. unfold f16, le16. by rewrite Nat.add_1_r. Qed.
Lemma f32_value bs o : f32 bs o = le_value (fbytes bs o 4).
Proof.
  rewrite le_fbytes, le_fbytes, le_fbytes, <-f8_value.
  unfold f32, le32. replace (o + 1)%nat with (S o) by lia. replace (o + 2)%nat with (S (S o)) by lia.
  replace (o + 3)%nat with (S (S (S o))) by lia. lia.
Qed.

(** * Theorems *)

(** In a structure the fields lie one behind the other without overlap, inside it,
    and aligned unless it is packed. *)
Theorem fields_disjoint packed l i f o t :
  ctype_ok (Struct packed l) → fields_of (Struct packed l) !! i = Some (f, o, t) →
  0 ≤ o ∧ o + sizeof t ≤ sizeof (Struct packed l) ∧ (packed = false → o mod alignof t = 0) ∧
  ∀ j f' o' t', (i < j)%nat → fields_of (Struct packed l) !! j = Some (f', o', t') → o + sizeof t ≤ o'.
Proof.
  intros Hok Hi. destruct (place_spec packed l 0 i f o t (fields_pos _ _ Hok) Hi) as (H1 & H2 & H3 & H4).
  change (sizeof (Struct packed l)) with (align (extent packed 0 l) (alignof (Struct packed l))).
  destruct (align_spec (extent packed 0 l) _ (proj1 (layout_pos _ Hok))). split; [done|]. split; [lia|]. done.
Qed.

Lemma fields_disjoint_witness : offsetof MountedDrive "fat_start" = 92 ∧ 92 + sizeof int ≤ sizeof MountedDrive.
Proof.
  split; [reflexivity|]. apply (fields_disjoint false
    [("is_mounted", char); ("boot_sector", FAT32BootSector); ("fat_start", int); ("data_start", int);
     ("root_directory", Directory)] 2 "fat_start" 92 int); [|reflexivity].
  cbn. unfold MAX_FILES, MAX_FILENAME_LENGTH. repeat split; lia.
Defined.

(** The decoders of the boot sector, its FAT32 part and a directory entry read each
    field where the declaration puts it. *)
Theorem decoders_agree bs :
  (let b := fat_BS_of bs in let v := λ f, field_value fat_BS_t f bs in
   bootjmp b = field_bytes fat_BS_t "bootjmp" bs ∧ oem_name b = field_bytes fat_BS_t "oem_name" bs ∧
   bytes_per_sector b = v "bytes_per_sector" ∧ sectors_per_cluster b = v "sectors_per_cluster" ∧
   reserved_sector_count b = v "reserved_sector_count" ∧ table_count b = v "table_count" ∧
   root_entry_count b = v "root_entry_count" ∧ total_sectors_16 b = v "total_sectors_16" ∧
   media_type b = v "media_type" ∧ table_size_16 b = v "table_size_16" ∧ sectors_per_track b = v "sectors_per_track" ∧
   head_side_count b = v "head_side_count" ∧ hidden_sector_count b = v "hidden_sector_count" ∧
   total_sectors_32 b = v "total_sectors_32" ∧ extended_section b = field_bytes fat_BS_t "extended_section" bs) ∧
  (let e := fat_extBS_32_of bs in let v := λ f, field_value fat_extBS_32_t f bs in
   table_size_32 e = v "table_size_32" ∧ extended_flags e = v "extended_flags" ∧ fat_version e = v "fat_version" ∧
   root_cluster e = v "root_cluster" ∧ fat_info e = v "fat_info" ∧ backup_BS_sector e = v "backup_BS_sector" ∧
   reserved_0 e = field_bytes fat_extBS_32_t "reserved_0" bs ∧ drive_number e = v "drive_number" ∧
   reserved_1 e = v "reserved_1" ∧ boot_signature e = v "boot_signature" ∧ volume_id e = v "volume_id" ∧
   volume_label e = field_bytes fat_extBS_32_t "volume_label" bs ∧
   fat_type_label e = field_bytes fat_extBS_32_t "fat_type_label" bs) ∧
  (let d := entry_of bs in let v := λ f, field_value directory_entry_t f bs in
   file_name d = field_bytes directory_entry_t "file_name" bs ∧ attributes d = v "attributes" ∧
   reserved0 d = v "reserved0" ∧ creation_time_tenths d = v "creation_time_tenths" ∧
   creation_time d = v "creation_time" ∧ creation_date d = v "creation_date" ∧ last_accessed d = v "last_accessed" ∧
   high_bits d = v "high_bits" ∧ last_modification_time d = v "last_modification_time" ∧
   last_modification_date d = v "last_modification_date" ∧ low_bits d = v "low_bits" ∧ file_size d = v "file_size").
Proof.
  cbv beta zeta. split_and!; first [exact (f8_value bs _) | exact (f16_value bs _) | exact (f32_value bs _) | reflexivity].
Qed.

(** The addresses the second driver uses are those of the fields of its structures,
    and the sizes of all structures are those of the declarations. *)
Theorem offsets_agree a i :
  sectors_per_cluster_at a = a + offsetof FAT32BootSector "sectors_per_cluster" ∧
  reserved_sectors_at a = a + offsetof FAT32BootSector "reserved_sectors" ∧
  num_fats_at a = a + offsetof FAT32BootSector "num_fats" ∧
  total_sectors_32_at a = a + offsetof FAT32BootSector "total_sectors_32" ∧
  fat_size_32_at a = a + offsetof FAT32BootSector "fat_size_32" ∧
  root_cluster_at a = a + offsetof FAT32BootSector "root_cluster" ∧
  is_mounted_at a = a + offsetof MountedDrive "is_mounted" ∧
  boot_sector_at a = a + offsetof MountedDrive "boot_sector" ∧ fat_start_at a = a + offsetof MountedDrive "fat_start" ∧
  data_start_at a = a + offsetof MountedDrive "data_start" ∧
  root_directory_at a = a + offsetof MountedDrive "root_directory" ∧
  file_count_at a = a + offsetof Directory "file_count" ∧
  files_at a i = a + offsetof Directory "files" + sizeof FileEntry * i ∧
  entry_size_at a = a + offsetof FileEntry "size" ∧ start_cluster_at a = a + offsetof FileEntry "start_cluster" ∧
  drive_at a i = a + sizeof MountedDrive * i ∧ FileEntry_size = sizeof FileEntry ∧
  Z.of_nat fat_BS_size = sizeof fat_BS_t ∧ Z.of_nat entry_size = sizeof directory_entry_t ∧
  sizeof fat_extBS_32_t = 54 ∧ sizeof long_entry_t = Z.of_nat entry_size ∧ sizeof FSInfo_t = 512 ∧
  ip_size = sizeof struct_ip_header ∧ icmp_size = sizeof struct_icmp_header ∧ sizeof IDT_Entry = 8 ∧ sizeof Task = 48.
Proof.
  split_and!; first [reflexivity | symmetry; apply Z.add_0_r].
Qed.
