(* ===== verification/Switch.v ===== *)
(** The assembly of src/kernel/arch/i386: [switchTask] of switch.S, the entry
    [_start] and the multiboot header of boot.S, and the frame of [_init] and
    [_fini] that crti.S and crtn.S put around what the compiler supplies.

    The instructions they use are given their meaning on the registers and the
    memory of the processor in 32-bit protected mode at privilege level 0. The
    address space is flat: linear addresses are physical ones, as they are under
    the mapping of [Paging], whatever [cr3] holds. Instructions are fetched from
    an image of the code that no store changes. *)
From S2P Require Import Prelude Machine Layout TtyFat.

(** * The processor *)

(** The structure [Registers] of tty.c, which is also what a task can see of the
    processor. *)
Record registers := Registers' {
  eax : Z; ebx : Z; ecx : Z; edx : Z; esi : Z; edi : Z;
  esp : Z; ebp : Z; eip : Z; eflags : Z; cr3 : Z }.

Record cpu := Cpu { regs : registers; mem : memory }.

Inductive reg := EAX | EBX | ECX | EDX | ESI | EDI | ESP | EBP | EIP | EFLAGS | CR3.

Definition get (r : registers) (x : reg) : Z :=
  match x with
  | EAX => eax r | EBX => ebx r | ECX => ecx r | EDX => edx r | ESI => esi r | EDI => edi r
  | ESP => esp r | EBP => ebp r | EIP => eip r | EFLAGS => eflags r | CR3 => cr3 r
  end.

Definition set (r : registers) (x : reg) (v : Z) : registers :=
  let '(Registers' a b c d s i p q e f t) := r in
  match x with
  | EAX => Registers' v b c d s i p q e f t
  | EBX => Registers' a v c d s i p q e f t
  | ECX => Registers' a b v d s i p q e f t
  | EDX => Registers' a b c v s i p q e f t
  | ESI => Registers' a b c d v i p q e f t
  | EDI => Registers' a b c d s v p q e f t
  | ESP => Registers' a b c d s i v q e f t
  | EBP => Registers' a b c d s i p v e f t
  | EIP => Registers' a b c d s i p q v f t
  | EFLAGS => Registers' a b c d s i p q e v t
  | CR3 => Registers' a b c d s i p q e f v
  end.

(** ** Instructions *)

(** In the order of operands of the source: source first, a memory operand as
    displacement and base. Targets of jumps are addresses. *)
Inductive instr :=
| Mov (src dst : reg)
| MovI (imm : Z) (dst : reg)
| MovL (disp : Z) (base dst : reg)
| MovS (src : reg) (disp : Z) (base : reg)
| AddI (imm : Z) (dst : reg)
| Xchg (disp : Z) (base r : reg)
| Push (r : reg)
| Pop (r : reg)
| Pusha
| Pushf
| Popf
| Ret
| Call (target : Z)
| Jmp (target : Z)
| Cli
| Hlt.

#[global] Instance reg_eq_dec : EqDecision reg.
Proof. solve_decision. Defined.
#[global] Instance instr_eq_dec : EqDecision instr.
Proof. solve_decision. Defined.

(** The bytes the assembler emits for each: opcode and operand byte, a byte more
    for a base of [esp], one for a displacement that fits a byte, four for an
    immediate word. *)
Definition modrm (disp : Z) (base : reg) : Z :=
  (if bool_decide (base = ESP) then 3 else 2) + (if disp =? 0 then 0 else 1).
Definition ilen (i : instr) : Z :=
  match i with
  | Mov CR3 _ | Mov _ CR3 => 3
  | Mov _ _ => 2
  | MovI _ _ => 5
  | MovL d b _ | MovS _ d b | Xchg d b _ => modrm d b
  | AddI _ _ => 3
  | Push _ | Pop _ | Pusha | Pushf | Popf | Ret | Cli | Hlt => 1
  | Call _ => 5
  | Jmp _ => 2
  end.

(** The flags [popf] may set (CF, PF, AF, ZF, SF, TF, IF, DF, OF, IOPL, NT, AC, ID),
    RF, which it clears, those [pushf] shows, and those an addition sets. *)
Definition POPF_MASK : Z := 0x247FD5.
Definition RF : Z := 0x10000.
Definition PUSHF_MASK : Z := 0xFCFFFF.
Definition ARITH : Z := 0x8D5.
Definition IF : Z := 0x200.

Definition popf_flags (old v : Z) : Z :=
  Z.lor (Z.land v POPF_MASK) (Z.land old (Z.lnot (Z.lor POPF_MASK RF))).

Definition flag (b : bool) (n : Z) : Z := if b then 1 ≪ n else 0.
Fixpoint even_ones (n : nat) (v : Z) : bool :=
  match n with O => true | S n' => xorb (Z.testbit v (Z.of_nat n')) (even_ones n' v) end.
Definition add_flags (f a b : Z) : Z :=
  let r := u32 (a + b) in
  Z.lor (Z.land f (Z.lnot ARITH))
    (Z.lor (flag (4294967296 <=? a + b) 0)
    (Z.lor (flag (even_ones 8 r) 2)
    (Z.lor (flag (16 <=? a mod 16 + b mod 16) 4)
    (Z.lor (flag (r =? 0) 6)
    (Z.lor (flag (2147483648 <=? r) 7)
           (flag (negb (s32 r =? s32 a + s32 b)) 11)))))).

Definition push (v : Z) (s : cpu) : cpu :=
  let p := u32 (esp (regs s) - 4) in Cpu (set (regs s) ESP p) (store32 (mem s) p v).
Definition pop_value (s : cpu) : Z := load32 (mem s) (esp (regs s)).
Definition drop4 (s : cpu) : cpu := Cpu (set (regs s) ESP (u32 (esp (regs s) + 4))) (mem s).
Definition put (x : reg) (v : Z) (s : cpu) : cpu := Cpu (set (regs s) x v) (mem s).
Definition addr (s : cpu) (disp : Z) (base : reg) : Z := u32 (get (regs s) base + disp).

(** One instruction, [eip] apart. [pusha] stores the [esp] it started with. *)
Definition effect (i : instr) (s : cpu) : cpu :=
  let r := get (regs s) in
  match i with
  | Mov x y => put y (r x) s
  | MovI v y => put y (u32 v) s
  | MovL d b y => put y (load32 (mem s) (addr s d b)) s
  | MovS x d b => Cpu (regs s) (store32 (mem s) (addr s d b) (r x))
  | AddI v y => put EFLAGS (add_flags (r EFLAGS) (r y) v) (put y (u32 (r y + v)) s)
  | Xchg d b x => let a := addr s d b in Cpu (set (regs s) x (load32 (mem s) a)) (store32 (mem s) a (r x))
  | Push x => push (r x) s
  | Pop x => put x (pop_value s) (drop4 s)
  | Pusha => push (r EDI) (push (r ESI) (push (r EBP) (push (r ESP)
               (push (r EBX) (push (r EDX) (push (r ECX) (push (r EAX) s)))))))
  | Pushf => push (Z.land (r EFLAGS) PUSHF_MASK) s
  | Popf => put EFLAGS (popf_flags (r EFLAGS) (pop_value s)) (drop4 s)
  | Cli => put EFLAGS (Z.land (r EFLAGS) (Z.lnot IF)) s
  | Ret | Call _ | Jmp _ | Hlt => s
  end.

(** One instruction. A halted processor with interrupts off goes on only when a
    non-maskable interrupt wakes it: [wake] says whether one does. *)
Definition exec (wake : bool) (i : instr) (s : cpu) : cpu :=
  let next := u32 (eip (regs s) + ilen i) in
  match i with
  | Ret => put EIP (pop_value s) (drop4 s)
  | Call a => put EIP (u32 a) (push next s)
  | Jmp a => put EIP (u32 a) s
  | Hlt => if wake then put EIP next s else s
  | _ => put EIP next (effect i s)
  end.

(** The image of the code, and its run, one wake-up bit per step. *)
Definition image : Type := Z → option instr.

Definition cpu_step (im : image) (wake : bool) (s : cpu) : option cpu :=
  i ← im (eip (regs s)); Some (exec wake i s).
Fixpoint cpu_run (im : image) (ws : list bool) (s : cpu) : option cpu :=
  match ws with [] => Some s | w :: ws' => s' ← cpu_step im w s; cpu_run im ws' s' end.

(** The code [l] is in the image from address [a] on. *)
Fixpoint code_at (im : image) (a : Z) (l : list instr) : Prop :=
  match l with [] => True | i :: l' => im a = Some i ∧ code_at im (a + ilen i) l' end.
Fixpoint code_len (l : list instr) : Z := match l with [] => 0 | i :: l' => ilen i + code_len l' end.
Fixpoint assemble (a : Z) (l : list instr) : image :=
  λ x, match l with [] => None | i :: l' => if x =? a then Some i else assemble (a + ilen i) l' x end.

(** * The code *)

Definition switchTask_save : list instr :=
  [Pusha; Pushf; Mov CR3 EAX; Push EAX;
   MovL 44 ESP EAX;
   MovS EBX 4 EAX; MovS ECX 8 EAX; MovS EDX 12 EAX; MovS ESI 16 EAX; MovS EDI 20 EAX;
   MovL 36 ESP EBX; MovL 40 ESP ECX; MovL 20 ESP EDX; AddI 4 EDX; MovL 16 ESP ESI; MovL 4 ESP EDI;
   MovS EBX 0 EAX; MovS EDX 24 EAX; MovS ESI 28 EAX; MovS ECX 32 EAX; MovS EDI 36 EAX;
   Pop EBX; MovS EBX 40 EAX; Push EBX].

Definition switchTask_load : list instr :=
  [MovL 48 ESP EAX;
   MovL 4 EAX EBX; MovL 8 EAX ECX; MovL 12 EAX EDX; MovL 16 EAX ESI; MovL 20 EAX EDI; MovL 28 EAX EBP;
   Push EAX; MovL 36 EAX EAX; Push EAX; Popf; Pop EAX;
   MovL 24 EAX ESP; Push EAX; MovL 40 EAX EAX; Mov EAX CR3; Pop EAX;
   Push EAX; MovL 32 EAX EAX; Xchg 0 ESP EAX; MovL 0 EAX EAX].

Definition switchTask : list instr := switchTask_save ++ switchTask_load ++ [Ret].

(** The multiboot header: three words from the start of the image on. *)
Definition ALIGN : Z := 1 ≪ 0.
Definition MEMINFO : Z := 1 ≪ 1.
Definition FLAGS : Z := Z.lor ALIGN MEMINFO.
Definition MAGIC : Z := 0x1BADB002.
Definition CHECKSUM : Z := u32 (- (MAGIC + FLAGS)).
Definition multiboot_header : list Z := bytes32 MAGIC ++ bytes32 FLAGS ++ bytes32 CHECKSUM.

(** [stack_bottom] is aligned to 16 in [.bss]. *)
Definition stack_top (stack_bottom : Z) : Z := stack_bottom + 16384.

(** [_start] at address [a]; the jump goes back to the [hlt]. *)
Definition start_code (a stack_bottom kernel_main : Z) : list instr :=
  [MovI (stack_top stack_bottom) ESP; Call kernel_main; Cli; Hlt; Jmp (a + 11)].

(** [_init] and [_fini]: crti.S, then what crtbegin.o and crtend.o supply, then
    crtn.S; the linker puts the parts one behind the other. *)
Definition crti : list instr := [Push EBP; Mov ESP EBP].
Definition crtn : list instr := [Pop EBP; Ret].

(** * Runs of straight code *)

Definition is_eip (x : reg) : bool := bool_decide (x = EIP).
(** Neither a transfer of control nor an instruction on [eip]. *)
Definition straight (i : instr) : bool :=
  match i with
  | Ret | Call _ | Jmp _ | Hlt => false
  | Mov x y => negb (is_eip x) && negb (is_eip y)
  | MovI _ x | AddI _ x | Push x | Pop x => negb (is_eip x)
  | MovL _ x y | MovS x _ y | Xchg _ x y => negb (is_eip x) && negb (is_eip y)
  | Pusha | Pushf | Popf | Cli => true
  end.
Definition effects (l : list instr) (s : cpu) : cpu := fold_left (λ s i, effect i s) l s.

Lemma ilen_pos i : 0 < ilen i.
Proof. destruct i as [[] []| | | | | | | | | | | | | | |]; cbn; unfold modrm; repeat case_if; lia. Qed.
Lemma code_len_nonneg l : 0 ≤ code_len l.
Proof. induction l as [|i l]; cbn; [|pose proof (ilen_pos i)]; lia. Qed.

Lemma eip_put v s : eip (regs (put EIP v s)) = v.
Proof. by destruct s as [[]]. Qed.
Lemma put_put x v w s : put x v (put x w s) = put x v s.
Proof. by destruct s as [[]], x. Qed.

Lemma exec_straight w i s : straight i = true → exec w i s = put EIP (u32 (eip (regs s) + ilen i)) (effect i s).
Proof. by destruct i. Qed.

Lemma effect_put i v s : straight i = true → effect i (put EIP v s) = put EIP v (effect i s).
Proof.
  destruct s as [[] m], i; try done; cbn;
    repeat match goal with x : reg |- _ => destruct x end; cbn; try done.
Qed.
Lemma effects_put l v s : forallb straight l = true → effects l (put EIP v s) = put EIP v (effects l s).
Proof.
  revert s; induction l as [|i l IH]; intros s; [done|]. cbn. intros [Hi Hl]%andb_true_iff.
  rewrite effect_put by done. by apply IH.
Qed.

(** Straight code in the image is run to its end, and its effect is that of its
    instructions one after the other. *)
Lemma run_straight im l s ws :
  code_at im (eip (regs s)) l → forallb straight l = true → length ws = length l →
  0 ≤ eip (regs s) → eip (regs s) + code_len l < 4294967296 →
  cpu_run im ws s = Some (put EIP (eip (regs s) + code_len l) (effects l s)).
Proof.
  revert s ws; induction l as [|i l IH]; intros s [|w ws] Hc Hs Hl H0 H1; try done.
  { cbn. rewrite Z.add_0_r. by destruct s as [[]]. }
  pose proof Hs as Hs'. cbn in Hs. apply andb_true_iff in Hs as [Hi Hs]. destruct Hc as [Hf Hc]. cbn [code_len] in *.
  pose proof (ilen_pos i). pose proof (code_len_nonneg l).
  cbn [cpu_run effects fold_left]. unfold cpu_step. rewrite Hf. cbn [mbind option_bind].
  rewrite exec_straight, u32_id by (done || lia). rewrite IH; rewrite ?eip_put; try done; [|by injection Hl|lia|lia].
  rewrite effects_put, put_put by done. by rewrite Z.add_assoc.
Qed.

Lemma code_at_app im a l1 l2 : code_at im a (l1 ++ l2) ↔ code_at im a l1 ∧ code_at im (a + code_len l1) l2.
Proof.
  revert a; induction l1 as [|i l1 IH]; intros a; cbn; [by rewrite Z.add_0_r; intuition|].
  rewrite IH, Z.add_assoc. tauto.
Qed.

Lemma cpu_run_app im ws1 ws2 s : cpu_run im (ws1 ++ ws2) s = s' ← cpu_run im ws1 s; cpu_run im ws2 s'.
Proof. revert s; induction ws1 as [|w ws1 IH]; intros s; cbn; [done|]. destruct (cpu_step im w s); cbn; auto. Qed.

Lemma effects_cons i l s : effects (i :: l) s = effects l (effect i s).
Proof. reflexivity. Qed.
Lemma effects_app l1 l2 s : effects (l1 ++ l2) s = effects l2 (effects l1 s).
Proof. apply fold_left_app. Qed.
Lemma code_len_app l1 l2 : code_len (l1 ++ l2) = code_len l1 + code_len l2.
Proof. induction l1 as [|i l1 IH]; cbn; [done|]. rewrite IH. lia. Qed.

Lemma split_last {A} (l : list A) n : length l = (n + 1)%nat → ∃ l' x, l = l' ++ [x] ∧ length l' = n.
Proof.
  destruct l as [|y l _] using rev_ind; [cbn; lia|]. rewrite length_app. cbn. intros. exists l, y. split; [done|lia].
Qed.

(** A function without jumps: its effects, then the return. *)
Definition return_from (s : cpu) : cpu := put EIP (pop_value s) (drop4 s).
Lemma run_function im l s ws :
  code_at im (eip (regs s)) (l ++ [Ret]) → forallb straight l = true → length ws = length (l ++ [Ret]) →
  0 ≤ eip (regs s) → eip (regs s) + code_len (l ++ [Ret]) < 4294967296 →
  cpu_run im ws s = Some (return_from (effects l s)).
Proof.
  rewrite length_app, code_len_app. intros [Hc [Hr _]]%code_at_app Hs (us & w & -> & Hl)%split_last H0 H1.
  rewrite cpu_run_app, (run_straight im l s); try done; [|cbn in H1; lia].
  cbn [mbind option_bind cpu_run]. unfold cpu_step. rewrite eip_put, Hr. by destruct (effects l s) as [[]].
Qed.

Lemma code_at_skip im a i b l : a < b → code_at im b l → code_at (λ x, if x =? a then Some i else im x) b l.
Proof.
  revert b; induction l as [|j l IH]; intros b Hb; cbn; [done|]. intros [Hj Hl].
  pose proof (ilen_pos j). split; [|apply IH; [lia|done]]. case_if; zbool; [lia|done].
Qed.
Lemma assemble_at a l : code_at (assemble a l) a l.
Proof.
  revert a; induction l as [|i l IH]; intros a; cbn; [done|]. rewrite Z.eqb_refl. split; [done|].
  apply code_at_skip; [pose proof (ilen_pos i); lia|apply IH].
Qed.

(** * Words in memory *)

Lemma load32_store32_other m a v b : b + 4 ≤ a ∨ a + 4 ≤ b → load32 (store32 m a v) b = load32 m b.
Proof. intros H. apply load32_ext. intros x Hx. apply load8_store32. lia. Qed.

(** The bytes of a word determine it, and it determines them. *)
Lemma word_bytes m1 m2 a :
  load32 m1 a = load32 m2 a → ∀ x, a ≤ x < a + 4 → load8 m1 x = load8 m2 x.
Proof.
  unfold load32, le32. intros H x Hx.
  pose proof (load8_range m1 a). pose proof (load8_range m1 (a + 1)). pose proof (load8_range m1 (a + 2)).
  pose proof (load8_range m2 a). pose proof (load8_range m2 (a + 1)). pose proof (load8_range m2 (a + 2)).
  pose proof (load8_range m1 (a + 3)). pose proof (load8_range m2 (a + 3)).
  assert (x = a ∨ x = a + 1 ∨ x = a + 2 ∨ x = a + 3) as [-> | [-> | [-> | ->]]] by lia; lia.
Qed.

(** A task's registers in memory, as the structure lays them out. *)
Definition load_regs (m : memory) (a : Z) : registers :=
  Registers' (load32 m a) (load32 m (a + 4)) (load32 m (a + 8)) (load32 m (a + 12)) (load32 m (a + 16))
    (load32 m (a + 20)) (load32 m (a + 24)) (load32 m (a + 28)) (load32 m (a + 32)) (load32 m (a + 36))
    (load32 m (a + 40)).
Definition store_regs (m : memory) (a : Z) (r : registers) : memory :=
  store32 (store32 (store32 (store32 (store32 (store32 (store32 (store32 (store32 (store32 (store32 m
    a (eax r)) (a + 4) (ebx r)) (a + 8) (ecx r)) (a + 12) (edx r)) (a + 16) (esi r)) (a + 20) (edi r))
    (a + 24) (esp r)) (a + 28) (ebp r)) (a + 32) (eip r)) (a + 36) (eflags r)) (a + 40) (cr3 r).

Definition word (v : Z) : Prop := 0 ≤ v < 4294967296.
Definition words_ok (r : registers) : Prop := ∀ x, word (get r x).

(** Read a word, or a byte, through the stores before it. *)
Ltac ld := repeat first [rewrite load32_store32 | rewrite load32_store32_other by lia].
Ltac ld8 := rewrite ?load8_store32 by lia.

Lemma load_store_regs m a r : words_ok r → load_regs (store_regs m a r) a = r.
Proof.
  intros H. unfold load_regs, store_regs. ld. destruct r.
  f_equal; apply u32_id;
  first [exact (H EAX)|exact (H EBX)|exact (H ECX)|exact (H EDX)|exact (H ESI)|exact (H EDI)|exact (H ESP)
        |exact (H EBP)|exact (H EIP)|exact (H EFLAGS)|exact (H CR3)].
Qed.

Lemma load8_store_regs m a r x : x < a ∨ a + 44 ≤ x → load8 (store_regs m a r) x = load8 m x.
Proof. intros H. unfold store_regs. by ld8. Qed.

Lemma load_regs_ext m1 m2 a : (∀ x, a ≤ x < a + 44 → load8 m1 x = load8 m2 x) → load_regs m1 a = load_regs m2 a.
Proof. intros H. unfold load_regs. f_equal; apply load32_ext; intros; apply H; lia. Qed.

Lemma load_regs_bytes m1 m2 a :
  load_regs m1 a = load_regs m2 a → ∀ x, a ≤ x < a + 44 → load8 m1 x = load8 m2 x.
Proof.
  intros H x Hx. injection H as H0 H1 H2 H3 H4 H5 H6 H7 H8 H9 H10.
  assert (∃ k, 0 ≤ k < 11 ∧ a + 4 * k ≤ x < a + 4 * k + 4) as (k & Hk & Hx') by (exists ((x - a) / 4); lia).
  apply (word_bytes m1 m2 (a + 4 * k)); [|done].
  assert (k = 0 ∨ k = 1 ∨ k = 2 ∨ k = 3 ∨ k = 4 ∨ k = 5 ∨ k = 6 ∨ k = 7 ∨ k = 8 ∨ k = 9 ∨ k = 10) as Hc by lia.
  rewrite <-(Z.add_0_r a) in H0. repeat (destruct Hc as [-> | Hc]; [done|]). by subst k.
Qed.

Lemma load_regs_words m a : words_ok (load_regs m a).
Proof. intros []; apply load32_range. Qed.

(** * Flags *)

(** What a running kernel task has: the reserved bit 1, no reserved bit else, no
    virtual mode. *)
Definition flags_ok (f : Z) : Prop := Z.land f (Z.lnot POPF_MASK) = 2.
Definition loaded_flags (f : Z) : Z := Z.lor (Z.land f POPF_MASK) 2.

#[global] Instance flags_ok_dec f : Decision (flags_ok f).
Proof. unfold flags_ok. apply _. Defined.

Lemma split_mask f k : f = Z.lor (Z.land f k) (Z.land f (Z.lnot k)).
Proof.
  rewrite <-Z.land_lor_distr_r, Z.lor_lnot_diag. by rewrite Z.land_m1_r.
Qed.

Lemma loaded_flags_id f : flags_ok f → loaded_flags f = f.
Proof. intros H. unfold loaded_flags. rewrite <-H. symmetry. apply split_mask. Qed.

Lemma loaded_flags_ok f : flags_ok (loaded_flags f).
Proof.
  unfold flags_ok, loaded_flags. rewrite Z.land_lor_distr_l, <-Z.land_assoc, Z.land_lnot_diag, Z.land_0_r. reflexivity.
Qed.

Lemma pushf_flags f : flags_ok f → Z.land f PUSHF_MASK = f.
Proof. intros H. rewrite <-(loaded_flags_id f H). unfold loaded_flags. by rewrite Z.land_lor_distr_l, <-Z.land_assoc. Qed.

Lemma popf_flags_ok f v : flags_ok f → popf_flags f v = loaded_flags v.
Proof.
  intros H. unfold popf_flags, loaded_flags. f_equal. rewrite <-(loaded_flags_id f H). unfold loaded_flags.
  rewrite Z.land_lor_distr_l, <-Z.land_assoc.
  change (Z.land POPF_MASK (Z.lnot (Z.lor POPF_MASK RF))) with 0. by rewrite Z.land_0_r.
Qed.

Lemma add_flags_ok f a b : flags_ok f → flags_ok (add_flags f a b).
Proof.
  unfold flags_ok, add_flags. intros H. rewrite Z.land_lor_distr_l, <-Z.land_assoc.
  change (Z.land (Z.lnot ARITH) (Z.lnot POPF_MASK)) with (Z.lnot POPF_MASK). rewrite H.
  repeat match goal with |- context [flag ?b _] => destruct b; unfold flag at 1 end; reflexivity.
Qed.

Lemma cli_flags_ok f : flags_ok f → flags_ok (Z.land f (Z.lnot IF)).
Proof. unfold flags_ok. intros H. rewrite <-Z.land_assoc, (Z.land_comm (Z.lnot IF)), Z.land_assoc, H. reflexivity. Qed.

(** * The two halves of the switch *)

(** The context of the caller, as it goes on after the call: what is stored. *)
Definition caller (s : cpu) : registers :=
  let r := regs s in set (set r ESP (esp r + 4)) EIP (load32 (mem s) (esp r)).

(** The registers a task continues with when [r] is loaded for it. *)
Definition resume (r : registers) : registers := set r EFLAGS (loaded_flags (eflags r)).

(** Evaluate the next instruction of straight code on a state given by its parts,
    with the addresses in the form base plus offset. *)
Ltac parts := cbn [effect put get set regs mem eax ebx ecx edx esi edi esp ebp eip eflags cr3].
Ltac norm_addr := repeat match goal with
  | |- context [u32 ?x] => rewrite (u32_id x) by lia
  | |- context [?x - ?k - ?n] => let j := eval compute in (k + n) in replace (x - k - n) with (x - j) by lia
  | |- context [?x - ?k + ?n] =>
      let j := eval compute in (n - k) in
      lazymatch j with
      | 0 => replace (x - k + n) with x by lia
      | Zpos _ => replace (x - k + n) with (x + j) by lia
      | Zneg ?q => replace (x - k + n) with (x - Zpos q) by lia
      end
  | |- context [?x + 0] => rewrite (Z.add_0_r x)
  end.
Ltac step := rewrite effects_cons; parts; unfold drop4, pop_value, push, put, addr; parts; norm_addr; ld; norm_addr.

Lemma save_spec s from :
  let p := esp (regs s) in
  words_ok (regs s) → flags_ok (eflags (regs s)) → 48 ≤ p → p + 12 ≤ 4294967296 →
  load32 (mem s) (p + 4) = from → from + 44 ≤ 4294967296 → from + 44 ≤ p - 48 ∨ p + 12 ≤ from →
  ∀ s1, effects switchTask_save s = s1 →
  esp (regs s1) = p - 40 ∧ flags_ok (eflags (regs s1)) ∧
  ∀ x, x < p - 48 ∨ p ≤ x → load8 (mem s1) x = load8 (store_regs (mem s) from (caller s)) x.
Proof.
  destruct s as [[a b c d si di p q e f t] m]. cbn [regs mem esp eflags eip]. intros Hw Hf H1 H2 Hfrom H3 H4 s1.
  pose proof (load32_range m (p + 4)) as H5. rewrite Hfrom in H5.
  pose proof (Hw EAX) as Ha. pose proof (Hw EBX) as Hb. pose proof (Hw ECX) as Hc. pose proof (Hw EDX) as Hd.
  pose proof (Hw ESI) as Hsi. pose proof (Hw EDI) as Hdi. pose proof (Hw EBP) as Hq. pose proof (Hw CR3) as Ht.
  pose proof (Hw EFLAGS) as Hf'. unfold word in *. cbn in Ha, Hb, Hc, Hd, Hsi, Hdi, Hq, Ht, Hf'.
  pose proof (load32_range m p) as Hr.
  unfold switchTask_save.
  do 2 step. rewrite (pushf_flags f Hf). do 3 step. rewrite Hfrom. do 19 step.
  cbn [effects fold_left]. intros <-. parts. split; [done|]. split; [by apply add_flags_ok|]. intros x Hx.
  destruct (decide (from ≤ x < from + 44)).
  - apply load_regs_bytes with (a := from); [|done]. rewrite load_store_regs.
    + unfold load_regs. ld. norm_addr. reflexivity.
    + intros []; unfold word; cbn; lia.
  - rewrite load8_store_regs by lia. by ld8.
Qed.

Lemma load_spec s p to :
  let m := mem s in let q := load32 m (to + 24) in
  flags_ok (eflags (regs s)) → esp (regs s) = p - 40 → 48 ≤ p → p + 12 ≤ 4294967296 →
  load32 m (p + 8) = to → to + 44 ≤ 4294967296 → to + 44 ≤ p - 48 ∨ p ≤ to →
  4 ≤ q → q ≤ to ∨ to + 44 ≤ q - 4 →
  ∀ s2, effects switchTask_load s = s2 →
  return_from s2 =
    Cpu (resume (load_regs m to)) (mem s2) ∧
  ∀ x, x < p - 48 ∨ p ≤ x → x < q - 4 ∨ q ≤ x → load8 (mem s2) x = load8 m x.
Proof.
  destruct s as [[a b c d si di sp bp e f t] m]. cbn [regs mem esp eflags]. intros Hf -> H1 H2 Hto H3 H4 Hq H5 s2.
  pose proof (load32_range m (p + 8)) as H6. rewrite Hto in H6.
  pose proof (load32_range m (to + 24)) as Hq'. pose proof (load32_range m (to + 36)).
  pose proof (load32_range m (to + 32)). unfold switchTask_load.
  step. rewrite Hto. do 9 step. step. rewrite (popf_flags_ok _ _ Hf).
  step. do 5 step. do 4 step.
  cbn [effects fold_left]. intros <-. unfold return_from, put, drop4, pop_value. parts. norm_addr. ld. norm_addr. split; [done|].
  intros x Hx Hx'. by ld8.
Qed.

(** * What a caller of [switchTask] is promised *)

(** Memory once the caller's context is stored at [from]. *)
Definition stored (s : cpu) (from : Z) : memory := store_regs (mem s) from (caller s).

Definition apart (a n b k : Z) : Prop := a + n ≤ b ∨ b + k ≤ a.

(** A call [switchTask(from, to)]: the two arguments behind the return address;
    48 free bytes on the stack; the structures in the address space and off the
    bytes of the two stacks that are written. *)
Record switch_call (s : cpu) (from to : Z) : Prop := {
  sc_words : words_ok (regs s);
  sc_flags : flags_ok (eflags (regs s));
  sc_low : 48 ≤ esp (regs s);
  sc_high : esp (regs s) + 12 ≤ 4294967296;
  sc_from : load32 (mem s) (esp (regs s) + 4) = from;
  sc_to : load32 (mem s) (esp (regs s) + 8) = to;
  sc_from_end : from + 44 ≤ 4294967296;
  sc_to_end : to + 44 ≤ 4294967296;
  sc_from_stack : apart from 44 (esp (regs s) - 48) 60;
  sc_to_stack : apart to 44 (esp (regs s) - 48) 48;
  sc_next : 4 ≤ esp (load_regs (stored s from) to);
  sc_next_to : apart to 44 (esp (load_regs (stored s from) to) - 4) 4;
  sc_next_from : apart from 44 (esp (load_regs (stored s from) to) - 4) 4;
}.

(** The abstract switch: the caller's context goes to [from], the processor gets
    what is at [to]; no other byte changes but the 48 below the caller's stack
    pointer and the 4 below the new one. *)
Definition switched (s : cpu) (from to : Z) (s' : cpu) : Prop :=
  regs s' = resume (load_regs (stored s from) to) ∧
  ∀ x, ¬ (esp (regs s) - 48 ≤ x < esp (regs s)) → ¬ (esp (regs s') - 4 ≤ x < esp (regs s')) →
    load8 (mem s') x = load8 (stored s from) x.

Lemma esp_load_regs m a : esp (load_regs m a) = load32 m (a + 24).
Proof. unfold load_regs. cbn [esp]. exact eq_refl. Qed.

Lemma esp_resume r : esp (resume r) = esp r.
Proof. by destruct r. Qed.

Lemma switched_intro s from to m :
  let q := esp (load_regs (stored s from) to) in
  (∀ x, ¬ (esp (regs s) - 48 ≤ x < esp (regs s)) → ¬ (q - 4 ≤ x < q) → load8 m x = load8 (stored s from) x) →
  switched s from to (Cpu (resume (load_regs (stored s from) to)) m).
Proof. intros q H. split; [reflexivity|]. cbn [regs mem]. rewrite esp_resume. exact H. Qed.

Lemma resume_id r : flags_ok (eflags r) → resume r = r.
Proof. intros H. unfold resume. rewrite loaded_flags_id by done. by destruct r. Qed.

Lemma caller_words s : words_ok (regs s) → esp (regs s) + 12 ≤ 4294967296 → words_ok (caller s).
Proof.
  intros Hw Hp x. pose proof (Hw ESP) as H1. pose proof (Hw x) as H2. pose proof (load32_range (mem s) (esp (regs s))).
  unfold caller, word in *. destruct s as [[] m], x; cbn in *; lia.
Qed.

Lemma switchTask_effects s from to :
  switch_call s from to → switched s from to (return_from (effects (switchTask_save ++ switchTask_load) s)).
Proof.
  intros [Hw Hf H1 H2 Hfrom Hto H3 H4 H5 H6 H7 H8 H9]. unfold apart in *. rewrite effects_app.
  destruct (save_spec s from Hw Hf H1 H2 Hfrom H3 ltac:(lia) _ eq_refl) as (Hp & Hf1 & Hm1).
  fold (stored s from) in Hm1. generalize dependent (effects switchTask_save s). intros s1 Hp Hf1 Hm1.
  assert (load_regs (mem s1) to = load_regs (stored s from) to) as Hreg.
  { apply load_regs_ext. intros x Hx. apply Hm1. lia. }
  assert (load32 (mem s1) (esp (regs s) + 8) = to) as Hto1.
  { rewrite <-Hto. apply load32_ext. intros x Hx. rewrite Hm1 by lia. unfold stored. rewrite load8_store_regs by lia. reflexivity. }
  assert (load32 (mem s1) (to + 24) = esp (load_regs (stored s from) to)) as Hq.
  { rewrite <-Hreg. symmetry. apply esp_load_regs. }
  destruct (load_spec s1 (esp (regs s)) to Hf1 Hp H1 H2 Hto1 H4 ltac:(lia) ltac:(lia) ltac:(lia) _ eq_refl) as [Hs2 Hm2].
  rewrite Hs2, Hreg. apply switched_intro. intros x Hx Hx'. rewrite Hm2 by (rewrite ?Hq; lia). apply Hm1. lia.
Qed.

(** The run of the instructions, from the call to the first instruction of the
    next task. *)
Lemma switchTask_run im s from to ws :
  code_at im (eip (regs s)) switchTask → eip (regs s) + code_len switchTask < 4294967296 →
  switch_call s from to → length ws = length switchTask →
  ∃ s', cpu_run im ws s = Some s' ∧ switched s from to s'.
Proof.
  intros Hc He Hs Hl. pose proof (sc_words _ _ _ Hs EIP) as [He0 _]. unfold switchTask in *. rewrite app_assoc in Hc, He, Hl.
  eexists. split; [|exact (switchTask_effects s from to Hs)]. apply run_function; [exact Hc|reflexivity|exact Hl|exact He0|exact He].
Qed.

(** * Theorems *)

(** C9: from any call of [switchTask] with room on the stack and structures off the
    bytes it writes, the 46 instructions store the registers the caller has after
    the call, flags, stack pointer, return address and [cr3] included, in the
    structure [from], and continue with all eleven registers of the structure [to]
    (of the flags those [popf] may set); every other byte of memory is unchanged
    but 48 below the caller's stack pointer and 4 below the new one. The two
    structures may be the same or overlap. *)
Theorem switchTask_switches im s from to ws :
  code_at im (eip (regs s)) switchTask → eip (regs s) + code_len switchTask < 4294967296 →
  switch_call s from to → length ws = length switchTask →
  ∃ s', cpu_run im ws s = Some s' ∧ switched s from to s'.
Proof. apply switchTask_run. Qed.

(** Two tasks: [main] stopped in a call at 0x2000 wants to switch to [other]. *)
Definition demo_main : registers :=
  Registers' 0x11111111 0x22222222 0x33333333 0x44444444 0x55555555 0x66666666 0x2000 0x88888888 0x100000 0x246 0x9000.
Definition demo_other : registers :=
  Registers' 0xAAAAAAA1 0xAAAAAAA2 0xAAAAAAA3 0xAAAAAAA4 0xAAAAAAA5 0xAAAAAAA6 0x3000 0xAAAAAAA8 0x101234 0x202 0xA000.
Definition demo_mem : memory :=
  store_regs (store32 (store32 (store32 ∅ 0x2000 0x100999) 0x2004 0x4000) 0x2008 0x5000) 0x5000 demo_other.
Definition demo_call : cpu := Cpu demo_main demo_mem.
Definition demo_image : image := assemble 0x100000 switchTask.

Ltac concrete := vm_compute; first [reflexivity | (intros ?; discriminate)].
Lemma demo_switch_call : switch_call demo_call 0x4000 0x5000.
Proof.
  refine (Build_switch_call demo_call 0x4000 0x5000 _ _ _ _ _ _ _ _ (or_intror _) (or_intror _) _ (or_intror _) (or_intror _)).
  1: intros []; split; concrete.
  all: concrete.
Qed.

(** Each of the 46 steps is made; the processor then has the registers of [other],
    and 0x4000 those [main] has after the call. *)
Lemma switchTask_switches_witness :
  switch_call demo_call 0x4000 0x5000 ∧
  ∃ s', cpu_run demo_image (replicate 46 false) demo_call = Some s' ∧ switched demo_call 0x4000 0x5000 s'.
Proof.
  split; [exact demo_switch_call|].
  apply (switchTask_switches demo_image demo_call 0x4000 0x5000); [apply assemble_at|reflexivity|exact demo_switch_call|reflexivity].
Defined.

Example demo_run :
  option_map (λ s, (regs s, load_regs (mem s) 0x4000)) (cpu_run demo_image (replicate 46 false) demo_call) =
  Some (demo_other, set (set demo_main ESP 0x2004) EIP 0x100999).
Proof. vm_compute. reflexivity. Qed.

Lemma esp_caller s : esp (caller s) = esp (regs s) + 4.
Proof. by destruct s as [[]]. Qed.
Lemma eflags_caller s : eflags (caller s) = eflags (regs s).
Proof. by destruct s as [[]]. Qed.

(** The caller's context is in the structure when the next task runs. *)
Lemma switched_saved s from to s' :
  switch_call s from to → switched s from to s' → load_regs (mem s') from = caller s.
Proof.
  intros [Hw _ _ H2 _ _ _ _ H5 _ _ _ H9] [Hr Hm]. unfold apart in *.
  rewrite Hr, esp_resume in Hm. rewrite <-(load_store_regs (mem s) from (caller s)) by (by apply caller_words).
  apply load_regs_ext. intros x Hx. apply Hm; lia.
Qed.

(** C10: a task that calls [switchTask] goes on behind its call with every register
    it had, flags and [cr3] included, once any other task, in any state and however
    much later, switches back to its structure, provided nothing wrote to the
    structure meanwhile; the task that switches back is stored in its turn, and the
    memory, the stack of the resumed task with it, is as that task left it but for
    its structure and the bytes below the two stack pointers. *)
Theorem switchTask_back im s a b ws t c ws' s1 :
  code_at im (eip (regs s)) switchTask → eip (regs s) + code_len switchTask < 4294967296 →
  switch_call s a b → length ws = length switchTask → cpu_run im ws s = Some s1 →
  code_at im (eip (regs t)) switchTask → eip (regs t) + code_len switchTask < 4294967296 →
  switch_call t c a → length ws' = length switchTask → apart a 44 c 44 →
  (∀ x, a ≤ x < a + 44 → load8 (mem t) x = load8 (mem s1) x) →
  ∃ t', cpu_run im ws' t = Some t' ∧ regs t' = caller s ∧ load_regs (mem t') c = caller t ∧
    ∀ x, ¬ (c ≤ x < c + 44) → ¬ (esp (regs t) - 48 ≤ x < esp (regs t)) → ¬ (esp (regs s) ≤ x < esp (regs s) + 4) →
      load8 (mem t') x = load8 (mem t) x.
Proof.
  intros Hc1 He1 Hs Hl1 Hrun Hc2 He2 Ht Hl2 Hac Hkeep. unfold apart in Hac.
  destruct (switchTask_run im s a b ws Hc1 He1 Hs Hl1) as (s1' & E & H1). rewrite Hrun in E. injection E as <-.
  destruct (switchTask_run im t c a ws' Hc2 He2 Ht Hl2) as (t' & E & H2). exists t'. split; [exact E|].
  assert (load_regs (stored t c) a = caller s) as Ha.
  { rewrite <-(switched_saved s a b s1 Hs H1). apply load_regs_ext. intros x Hx.
    unfold stored. rewrite load8_store_regs by lia. by apply Hkeep. }
  assert (regs t' = caller s) as Hr.
  { destruct H2 as [Hr _]. rewrite Hr, Ha. apply resume_id. rewrite eflags_caller. apply Hs. }
  split; [exact Hr|]. split; [by apply (switched_saved t c a)|].
  intros x Hx1 Hx2 Hx3. destruct H2 as [_ Hm]. rewrite Hm; [|lia|rewrite Hr, esp_caller; lia].
  unfold stored. apply load8_store_regs. lia.
Qed.

(** The other task calls back at once, with its arguments on its own stack. *)
Definition demo_back (m : memory) : cpu :=
  Cpu (set (set demo_other ESP 0x2FF0) EIP 0x100000)
    (store32 (store32 (store32 m 0x2FF0 0x101300) 0x2FF4 0x5000) 0x2FF8 0x4000).
Definition demo_middle : cpu := default demo_call (cpu_run demo_image (replicate 46 false) demo_call).

Lemma switchTask_back_witness :
  ∃ t', cpu_run demo_image (replicate 46 false) (demo_back (mem demo_middle)) = Some t' ∧
    regs t' = set (set demo_main ESP 0x2004) EIP 0x100999.
Proof.
  assert (switch_call (demo_back (mem demo_middle)) 0x5000 0x4000) as Hback.
  { refine (Build_switch_call _ 0x5000 0x4000 _ _ _ _ _ _ _ _ (or_intror _) (or_intror _) _ (or_intror _) (or_intror _)).
    1: intros []; split; concrete.
    all: concrete. }
  destruct (switchTask_back demo_image demo_call 0x4000 0x5000 (replicate 46 false) (demo_back (mem demo_middle)) 0x5000
    (replicate 46 false) demo_middle) as (t' & E & Hr & _).
  - apply assemble_at.
  - reflexivity.
  - exact demo_switch_call.
  - reflexivity.
  - vm_compute. reflexivity.
  - apply assemble_at.
  - reflexivity.
  - exact Hback.
  - reflexivity.
  - left. concrete.
  - intros x Hx. unfold demo_back, mem at 1. by rewrite !load8_store32 by lia.
  - exists t'. split; [exact E|]. rewrite Hr. vm_compute. reflexivity.
Defined.

(** The structure in memory is the one of the declaration. *)
Theorem load_regs_layout m a :
  let o := λ f, load32 m (a + offsetof Layout.Registers f) in
  load_regs m a = Registers' (o "eax") (o "ebx") (o "ecx") (o "edx") (o "esi") (o "edi") (o "esp") (o "ebp") (o "eip")
    (o "eflags") (o "cr3") ∧ sizeof Layout.Registers = 44.
Proof. split; [|reflexivity]. unfold load_regs. rewrite <-(Z.add_0_r a) at 1. reflexivity. Qed.

(** * Start-up *)

(** The header is recognised: its first word is the magic number, its three words
    add up to nothing in 32 bits, and the flags ask for aligned modules and a
    memory map. *)
Theorem multiboot_header_valid m a :
  let h := store_bytes m a multiboot_header in
  load32 h a = 0x1BADB002 ∧ load32 h (a + 4) = 3 ∧ u32 (load32 h a + load32 h (a + 4) + load32 h (a + 8)) = 0.
Proof.
  assert (store_bytes m a multiboot_header = store32 (store32 (store32 m a MAGIC) (a + 4) FLAGS) (a + 4 + 4) CHECKSUM) as ->.
  { unfold multiboot_header. rewrite !store_bytes_app. reflexivity. }
  replace (a + 4 + 4) with (a + 8) by lia. cbv zeta. ld. repeat split.
Qed.

(** The loop at the end of [_start]: whenever it is woken, it halts again. *)
Lemma halt_loop im a sb km ws : code_at im a (start_code a sb km) → 0 ≤ a → a + 14 < 4294967296 →
  ∀ t, eip (regs t) = a + 11 ∨ eip (regs t) = a + 12 →
  ∃ e, (e = a + 11 ∨ e = a + 12) ∧ cpu_run im ws t = Some (put EIP e t).
Proof.
  intros (_ & _ & _ & E4 & E5 & _) H0 H1. cbn [ilen] in E4, E5.
  replace (a + 5 + 5 + 1) with (a + 11) in * by lia. replace (a + 11 + 1) with (a + 12) in * by lia.
  induction ws as [|w ws IH]; intros t Ht; cbn [cpu_run].
  { exists (eip (regs t)). split; [exact Ht|]. by destruct t as [[]]. }
  unfold cpu_step. assert (∃ e, (e = a + 11 ∨ e = a + 12) ∧ ∃ i, im (eip (regs t)) = Some i ∧ exec w i t = put EIP e t)
    as (e & He & i & Hi & Hx).
  { destruct Ht as [Ht|Ht]; rewrite Ht.
    - destruct w.
      + exists (a + 12). split; [by right|]. exists Hlt. split; [done|]. cbn. rewrite Ht, u32_id by lia. f_equal. lia.
      + exists (a + 11). split; [by left|]. exists Hlt. split; [done|]. rewrite <-Ht. by destruct t as [[]].
    - exists (a + 11). split; [by left|]. exists (Jmp (a + 11)). split; [done|]. cbn. by rewrite u32_id by lia. }
  rewrite Hi. cbn [mbind option_bind]. rewrite Hx.
  destruct (IH (put EIP e t)) as (e' & He' & ->); [by rewrite eip_put|]. exists e'. by rewrite put_put.
Qed.

Lemma cli_clears f : Z.land (Z.land f (Z.lnot IF)) IF = 0.
Proof. rewrite <-Z.land_assoc. change (Z.land (Z.lnot IF) IF) with 0. apply Z.land_0_r. Qed.

(** C33: from [_start] the processor reaches [kernel_main] in two instructions, with
    the stack pointer a return address below the top of the 16 KiB stack, which is
    aligned to 16 bytes at the call, all other registers as the boot loader left
    them and no byte of memory changed but that address; and if [kernel_main] ever
    comes back to it, the processor stays for ever, for any number of steps and
    whatever wakes it, in the loop that follows, with interrupts off after the
    first step and the memory untouched. *)
Theorem start_enters_kernel im a stack_bottom kernel_main s w1 w2 :
  code_at im a (start_code a stack_bottom kernel_main) → 0 ≤ a → a + 14 < 4294967296 →
  stack_bottom mod 16 = 0 → 0 ≤ stack_bottom → stack_top stack_bottom < 4294967296 →
  0 ≤ kernel_main < 4294967296 → eip (regs s) = a →
  (let s' := Cpu (set (set (regs s) ESP (stack_top stack_bottom - 4)) EIP kernel_main)
               (store32 (mem s) (stack_top stack_bottom - 4) (a + 10)) in
   cpu_run im [w1; w2] s = Some s' ∧ (esp (regs s') + 4) mod 16 = 0 ∧ load32 (mem s') (esp (regs s')) = a + 10 ∧
   stack_bottom ≤ esp (regs s')) ∧
  ∀ t ws, eip (regs t) = a + 10 → ∃ t', cpu_run im ws t = Some t' ∧ mem t' = mem t ∧
    a + 10 ≤ eip (regs t') ≤ a + 12 ∧ (ws ≠ [] → Z.land (eflags (regs t')) IF = 0).
Proof.
  intros Hc H0 H1 Hal H2 H3 H4 He. pose proof Hc as (E1 & E2 & _). cbn [ilen] in E2. unfold stack_top in *. split.
  - destruct s as [[] m]. cbn [regs eip] in He. subst. cbn [cpu_run]. unfold cpu_step. cbn [regs eip]. rewrite E1.
    cbn [mbind option_bind exec]. rewrite eip_put. cbn [regs eip ilen]. rewrite u32_id by lia. rewrite E2.
    cbn [mbind option_bind exec]. unfold push, put. cbn [effect put set regs mem esp ilen eip]. 
    rewrite !(u32_id (_ + 16384)), !(u32_id (_ + 16384 - 4)), (u32_id kernel_main), (u32_id (a + 5 + 5)) by lia.
    replace (a + 5 + 5) with (a + 10) by lia.
    rewrite load32_store32, u32_id by lia. repeat split; lia.
  - intros t [|w ws] Ht; [exists t; split_and!; [done|done|lia|lia|done]|].
    pose proof Hc as (_ & _ & E3 & _). cbn [ilen] in E3. replace (a + 5 + 5) with (a + 10) in E3 by lia.
    cbn [cpu_run]. unfold cpu_step. rewrite Ht, E3. cbn [mbind option_bind exec ilen]. rewrite Ht, u32_id by lia.
    edestruct (halt_loop im a stack_bottom kernel_main ws Hc H0 H1) as (e & He' & ->); [left; rewrite eip_put; lia|].
    eexists. split; [reflexivity|]. rewrite put_put, eip_put. split; [done|]. split; [lia|]. intros _.
    destruct t as [[]]. cbn [effect put get set regs mem eflags]. apply cli_clears.
Qed.

Definition demo_loader : cpu := Cpu (Registers' 0x2BADB002 0x9500 0 0 0 0 0x7FF00 0 0x10000C 2 0) ∅.
Lemma start_enters_kernel_witness :
  cpu_run (assemble 0x10000C (start_code 0x10000C 0x104000 0x100100)) [false; false] demo_loader =
    Some (Cpu (Registers' 0x2BADB002 0x9500 0 0 0 0 0x107FFC 0 0x100100 2 0) (store32 ∅ 0x107FFC 0x100016)).
Proof.
  apply (start_enters_kernel (assemble 0x10000C (start_code 0x10000C 0x104000 0x100100)) 0x10000C 0x104000 0x100100 demo_loader
    false false); [apply assemble_at|..]; try reflexivity; try (vm_compute; intros ?; discriminate).
  split; [vm_compute; intros ?; discriminate|reflexivity].
Defined.

(** [_init] and [_fini]: whatever code is linked between the two halves, with calls
    and loops, if it runs from the end of crti.S to the start of crtn.S and leaves
    the stack pointer and the two words of the frame as they are, the function
    returns to its caller with [ebp] and the stack as the caller had them, and all
    other registers and the memory as that code left them. *)
Theorem init_returns im s us s2 w1 w2 w3 w4 :
  let p := esp (regs s) in let s1 := put EIP (eip (regs s) + 3) (effects crti s) in
  code_at im (eip (regs s)) crti → code_at im (eip (regs s2)) crtn → words_ok (regs s) →
  eip (regs s) + 3 < 4294967296 → 0 ≤ eip (regs s2) → eip (regs s2) + 2 < 4294967296 →
  4 ≤ p → p + 4 < 4294967296 → cpu_run im us s1 = Some s2 →
  esp (regs s2) = p - 4 → load32 (mem s2) (p - 4) = load32 (mem s1) (p - 4) → load32 (mem s2) p = load32 (mem s1) p →
  cpu_run im ([w1; w2] ++ us ++ [w3; w4]) s =
    Some (Cpu (set (set (set (regs s2) ESP (p + 4)) EBP (ebp (regs s))) EIP (load32 (mem s) p)) (mem s2)).
Proof.
  intros p s1 Hc1 Hc2 Hw He He0 He2 H0 H1 Hrun Hsp Hbp Hra. pose proof (Hw EBP) as Hwb. unfold word in Hwb. cbn [get] in Hwb.
  assert (load32 (mem s1) (p - 4) = ebp (regs s) ∧ load32 (mem s1) p = load32 (mem s) p) as (E2 & E3).
  { unfold s1, p in *. destruct s as [[] m]. cbn [regs esp ebp mem] in *. unfold crti. do 2 step. cbn [effects fold_left].
    parts. ld. norm_addr. done. }
  rewrite cpu_run_app, (run_straight im crti s [w1; w2] Hc1) by (reflexivity || exact (proj1 (Hw EIP)) || exact He).
  cbn [mbind option_bind]. change (code_len crti) with 3. fold s1. rewrite cpu_run_app, Hrun. cbn [mbind option_bind].
  rewrite (run_function im [Pop EBP] s2 [w3; w4] Hc2) by (reflexivity || exact He0 || exact He2). f_equal.
  rewrite E2 in Hbp. rewrite E3 in Hra. destruct s2 as [[] m2]. cbn [regs mem esp] in Hsp, Hbp, Hra |- *. subst. step.
  rewrite Hbp. cbn [effects fold_left]. unfold return_from, put, drop4, pop_value. parts. norm_addr. by rewrite Hra.
Qed.

Definition demo_init : image := assemble 0x100000 (crti ++ [MovI 7 EAX] ++ crtn).
Definition demo_mid : cpu := default demo_call (cpu_run demo_init [false; false; false] demo_call).
Lemma init_returns_witness :
  cpu_run demo_init ([false; false] ++ [false] ++ [false; false]) demo_call =
    Some (Cpu (set (set (set demo_main EAX 7) ESP 0x2004) EIP 0x100999) (mem demo_mid)).
Proof.
  apply (init_returns demo_init demo_call [false] demo_mid).
  - exact (proj1 (proj1 (code_at_app _ _ _ _) (assemble_at 0x100000 (crti ++ [MovI 7 EAX] ++ crtn)))).
  - assert (eip (regs demo_mid) = 0x100000 + code_len (crti ++ [MovI 7 EAX])) as -> by (vm_compute; reflexivity).
    exact (proj2 (proj1 (code_at_app _ _ _ _) (assemble_at 0x100000 ((crti ++ [MovI 7 EAX]) ++ crtn)))).
  - intros []; split; concrete.
  - concrete.
  - concrete.
  - concrete.
  - concrete.
  - concrete.
  - concrete.
  - concrete.
  - concrete.
  - concrete.
Defined.
